(* ===== verification/_CoqProject ===== *)
-Q . S2P
Prelude.v
GoErrors.v
Objects.v
NodeMigration.v
Types.v
Effects.v
Execution.v
Naming.v
Messages.v
Metrics.v
Status.v
Invariants.v
Infrastructure.v
Codec.v
Machines.v
Operators.v
Mapping.v
Admission.v
Destinations.v
Workers.v
Netip.v
VSphere.v
Probe.v
Metadata.v
Preflight.v
Destination.v
Workload.v
SourceCleanup.v
Ready.v
Phases.v
Reconcile.v
Reports.v
StatusShape.v
PhaseMachine.v
Startup.v
