(* ===== verification/Prelude.v ===== *)
(** * VCF migration operator: verification library

    The operator moves an OpenShift cluster on vSphere from one vCenter to another.  It is one
    controller: a reconcile of the singleton VmwareCloudFoundationMigration resource runs the
    handler of the first condition that is not True, publishes the status, and is called
    again until the sixth condition, Ready, is True.  The library models the operator's own
    Go code (api/v1alpha1, cmd, internal) and proves what makes it safe to run against a
    cluster it does not control alone.

    ** How the program is modelled

    A piece of the operator is a value of [Effects.Prog]: a finite tree of calls to the
    services around it.  A call is one request to the API server or to a vCenter, a clock
    reading, an event, a tick of a poll, or Go's choice of a map iteration order; its answer
    is arbitrary.  [IO] adds Go errors ([GoErrors.error], trees of wrapped errors), [M] adds
    the state a reconciler threads through: the fetched object, the fields of the Reconciler
    struct ([Mem]), the session cache and the metrics.  [run] executes a program in a
    concrete world and yields its trace; [wp O p Q] is the weakest precondition with respect
    to an [Observer], a ghost state with the obligation of each call ([pre]), its effect on
    the ghost ([upd]) and what is assumed of its answer ([env]).  A theorem proved with [wp]
    holds for every world, hence for every interleaving with other writers of the cluster.
    Functions without effects are plain Rocq functions.  A Go string is a string of bytes,
    int32 counters wrap ([Prelude.wrap32]), a time or duration is a number of nanoseconds.

    ** The files

    - Prelude: Go's string and path functions, 32-bit arithmetic, shared lemmas and tactics.
    - GoErrors: fmt and errors, API status errors, internal/controller/errors.go.
    - Objects: the resources of other APIs, with the fields the operator uses; the rest of
      such an object is one opaque value that a read-modify-write carries over.
    - NodeMigration, Types, Admission: api/v1alpha1 and the published schema: the resource,
      its defaults, bounds, patterns and CEL rules as boolean functions, and the condition
      helpers of apimachinery.
    - Effects, Invariants: programs, their logic, and rules for invariants of the object in
      memory ([keeps]).
    - Execution: internal/execution and controller/execution.go, the gate before a change.
    - Naming, Messages, Metrics: name and text functions of the controller and
      internal/metrics.
    - Status: updateStatus with its merge, the durable records, the retention finalizer
      (controller and retention.go).
    - Infrastructure, Codec, Machines, Operators: internal/openshift (infrastructure.go,
      secrets.go, configmaps.go; machines.go; operators.go, machineconfigpools.go, version.go,
      pods.go) and helpers.go.
    - Mapping, Destinations, Workers: failuredomains.go and the worker functions of the
      controller: resolution and immutability of the mapping, coverage, collisions, layouts,
      planning, creation, readiness and progress.
    - Netip, VSphere, Probe: internal/vsphere (session.go, list.go, folder.go, tags.go,
      probe.go) over calls that stand for govmomi, and the part of net/netip it uses.
    - Metadata: internal/metadata, the installer's metadata document and its secret.
    - Preflight: preflight.go and preflight_netcheck.go.
    - Destination, Workload, SourceCleanup, Ready: the handlers of the six conditions.
    - Phases, Reconcile: Reconcile, reconcileWorkflow, the walk over the conditions and
      processCondition; which phase makes which change.
    - Reports, StatusShape, PhaseMachine: theorems about whole reconciles: how failures are
      reported, the shape of what is published, the refinement of the phase counter.
    - Startup: cmd/main.go and SetupWithManager: flags, options, sequence, retry delays.

    ** What is proved

    Whole operator.  Every call that changes the cluster or a vCenter directly follows an
    uncached read of the migration that found it unchanged and Running (Reconcile_gated),
    belongs to the phase whose predecessors are complete (Reconcile_phases), and every
    published status moves an abstract phase counter by at most one step and never back
    (Reconcile_refines_counter, a refinement of a machine that counts to six, also with
    interleaved reconciles).  Failures become conditions, events and returned errors, and a
    withdrawn permission leaves no trace (processCondition_reports); every published status
    fits the schema (published_status_shaped).

    Safety of the destructive steps.  Source workers are scaled down only when each is covered
    by durably recorded destinations (scale_down_covered); in a whole reconcile a MachineSet is
    deleted, or updated in more than one annotation, only after the control plane has rolled
    out (control_plane_before_scale_down); MachineSets are deleted only when all are at zero;
    cleanup spares every entry of a destination; worker creation only adds one faithful copy
    per listed source of a mapping, with its replicas; the networking preflight destroys only
    its own or marked VMs and waits for each destruction; tag categories are created or vouched
    for; a cached vCenter session is used only for the server, user and datacenter it was
    established for.

    Readiness.  Ready=True ends an unbroken streak of green checks of at least 150 seconds
    (ready_after_sustained_stability); a settled cluster gets there within six checks, each
    of which asks to be run again (ready_eventually).

    Publication.  Status writes change the object just read field by field under the stated
    conditions and keep the rest, in at most five attempts (the record [merges]); names, source vCenter, completion record and
    finalizer are durable, write-once, bound to the spec, and retained.

    Data.  Mappings of admitted resources are one to one, immutable up to order (clearing the
    request is tolerated), and coverage
    is exact; the Infrastructure, credentials and cloud configuration keep unrelated entries
    and read back; the generated names of a base are distinct, bounded (a known name of the
    released operator is kept as it is), and found again; event notes and
    messages are bounded; guest networks match exactly on subnet and gateway; the metadata
    names every destination vCenter once; an admitted node migration selection is exactly one
    engine.

    Start-up.  A secure metrics endpoint always authenticates, and is disabled, secure and
    without HTTP/2 unless the command line says otherwise; the manager runs last.

    ** Parameters

    [SpecDigest] (JSON and SHA-256 of the spec), [ProviderCodec] (JSON of the provider spec),
    [CloudCodec] (YAML of the cloud configuration) and [LibraryFlags] (flags bound by
    libraries) are type classes; their laws are separate classes (named after them, with the suffix Laws) that only the
    theorems which need them assume, and each has an example instance.  Answers of services
    are constrained only by the [env] of the observer a theorem names.

    ** Bounds and fuel

    Conflict retries: five attempts, as retry.DefaultRetry.  Polling of a probe VM: 120 ticks,
    the ten minutes of its context at five seconds.  Loops on texts and names
    ([collapse], [countMachinesLoop], [dropNamesToFit], [groups6]) take the length of their
    input (eight groups for an IPv6 address) as fuel, and each round consumes some of it; the
    termination theorem of sanitizeRFC1123 shows the fuel never runs out.  Everything else is
    structural recursion, so a program always ends.

    ** Not modelled

    - Log output (klog, logStalledWorkerMachine): no effect on behaviour.
    - zz_generated.deepcopy.go and the scheme registration of groupversion_info.go: generated;
      an object is a value here, so copies are implicit.
    - govmomi, client-go, controller-runtime and Prometheus: answered calls, or steps of the
      start-up sequence that succeed or fail.  The cached client may answer anything; only the
      refinement of the phase counter assumes that no read, cached ones included, shows a
      counter behind the last one seen.
    - Go panics: an index out of range ([probeSpecFor] on a failure domain without networks,
      which the schema excludes) is an error of the step.
    - Deadlines: a context that expires is a call that fails or a tick that does not come.
    - Mutexes of the session cache and of the readiness fields: controller-runtime runs one
      worker for the singleton, so a reconcile has them to itself; interleaving with other
      writers is in the answers of the calls.
    - The engine behind spec.nodeMigration: this version declares its API only, and that is
      modelled and validated; hostGroup of a zone affinity is not a field of the model.
    - Texts are compared byte by byte.  ToLower folds every character whose lower case is
      ASCII and leaves the others, which its callers replace or ignore; TrimSpace trims ASCII
      white space. *)

From stdpp Require Export base gmap strings list list_numbers sorting pretty.
From Stdlib Require Export ZArith Lia Ascii.


Abbreviation ascii := Ascii.ascii.
#[global] Arguments String.append !_ _ /.
Open Scope string_scope.
Open Scope list_scope.

(** ** The Go string functions the program calls

    A Go string is a sequence of bytes; here it is a [string] of 8-bit [ascii]. *)

Module GoStr.

(** [s[:n]] and [s[n:]] (both total here; the callers stay in range). *)
Fixpoint stake (n : nat) (s : string) : string :=
  match n, s with
  | S n', String c s' => String c (stake n' s')
  | _, _ => EmptyString
  end.

Fixpoint sdrop (n : nat) (s : string) : string :=
  match n, s with
  | S n', String _ s' => sdrop n' s'
  | _, _ => s
  end.

(** [strings.CutPrefix]. *)
Fixpoint CutPrefix (s p : string) {struct p} : option string :=
  match p, s with
  | EmptyString, _ => Some s
  | String a p', String b s' => if Ascii.eqb a b then CutPrefix s' p' else None
  | String _ _, EmptyString => None
  end.

Definition HasPrefix (s p : string) : bool :=
  match CutPrefix s p with Some _ => true | None => false end.

Definition TrimPrefix (s p : string) : string :=
  match CutPrefix s p with Some r => r | None => s end.

(** [strings.Index]: byte offset of the first occurrence. *)
Fixpoint Index (s sub : string) : option nat :=
  if HasPrefix s sub then Some 0
  else match s with
       | EmptyString => None
       | String _ s' => S <$> Index s' sub
       end.

(** [strings.LastIndex]. *)
Fixpoint LastIndex (s sub : string) : option nat :=
  match s with
  | EmptyString => if HasPrefix s sub then Some 0 else None
  | String _ s' =>
      match LastIndex s' sub with
      | Some n => Some (S n)
      | None => if HasPrefix s sub then Some 0 else None
      end
  end.

Definition Contains (s sub : string) : bool :=
  match Index s sub with Some _ => true | None => false end.

(** [strings.ReplaceAll] for a non-empty [old]: left to right, not overlapping.
    [skip] counts the bytes of a match still to be consumed. *)
Fixpoint replace_from (skip : nat) (s old new : string) : string :=
  match s with
  | EmptyString => EmptyString
  | String c s' =>
      match skip with
      | S k => replace_from k s' old new
      | O => if HasPrefix s old
             then new +:+ replace_from (String.length old - 1) s' old new
             else String c (replace_from 0 s' old new)
      end
  end.

Definition ReplaceAll (s old new : string) : string := replace_from 0 s old new.

(** [strings.ToLower] and [strings.Map].  A character outside ASCII is a run of bytes from 128
    up, which [ToLower] keeps as it is: its callers only ask for ASCII in the result.  The two
    such characters whose lower case is an ASCII letter are folded first: U+0130 (bytes 196
    176) to i and U+212A (bytes 226 132 170) to k. *)
Definition lower (c : ascii) : ascii :=
  let n := Ascii.nat_of_ascii c in
  if (65 <=? n)%nat && (n <=? 90)%nat then Ascii.ascii_of_nat (n + 32) else c.

Fixpoint smap (f : ascii -> ascii) (s : string) : string :=
  match s with
  | EmptyString => EmptyString
  | String c s' => String (f c) (smap f s')
  end.

Definition byte_is (n : nat) (c : ascii) : bool := (Ascii.nat_of_ascii c =? n)%nat.

Fixpoint foldLetters (s : string) : string :=
  match s with
  | String a ((String b rest) as s1) =>
      if byte_is 196 a && byte_is 176 b then String "i" (foldLetters rest)
      else
        match rest with
        | String c rest' =>
            if byte_is 226 a && byte_is 132 b && byte_is 170 c then String "k" (foldLetters rest') else String a (foldLetters s1)
        | EmptyString => String a (foldLetters s1)
        end
  | _ => s
  end.

Definition ToLower (s : string) : string := smap lower (foldLetters s).

Fixpoint sforall (p : ascii -> bool) (s : string) : bool :=
  match s with
  | EmptyString => true
  | String c s' => p c && sforall p s'
  end.

Fixpoint scount (p : ascii -> bool) (s : string) : nat :=
  match s with
  | EmptyString => 0
  | String c s' => (if p c then 1 else 0) + scount p s'
  end.

(** [strings.TrimLeft], [strings.TrimRight] and [strings.Trim] with a cutset. *)
Fixpoint trim_left (p : ascii -> bool) (s : string) : string :=
  match s with
  | EmptyString => EmptyString
  | String c s' => if p c then trim_left p s' else s
  end.

Fixpoint trim_right (p : ascii -> bool) (s : string) : string :=
  match s with
  | EmptyString => EmptyString
  | String c s' =>
      match trim_right p s' with
      | EmptyString => if p c then EmptyString else String c EmptyString
      | r => String c r
      end
  end.

Definition trim (p : ascii -> bool) (s : string) : string := trim_right p (trim_left p s).

Definition is_char (c d : ascii) : bool := Ascii.eqb c d.

Definition TrimSpace (s : string) : string := trim Ascii.is_space s.

(** [strings.Join]. *)
Definition Join (l : list string) (sep : string) : string := String.concat sep l.

(** [sort.Strings]: byte-wise lexicographic order. *)
Definition SortStrings (l : list string) : list string := merge_sort String.le l.

(** [sort.Slice] by a name that is unique in the list. *)
Definition SortBy {A} (name : A -> string) (l : list A) : list A :=
  merge_sort (fun a b => String.le (name a) (name b)) l.

(** [slices.Contains]. *)
Definition ContainsStr (l : list string) (x : string) : bool := bool_decide (x ∈ l).

(** [strings.Split] on a one-byte separator: always at least one element. *)
Fixpoint split_on (sep : ascii) (cur : string) (s : string) : list string :=
  match s with
  | EmptyString => [cur]
  | String c s' =>
      if Ascii.eqb c sep then cur :: split_on sep EmptyString s'
      else split_on sep (cur +:+ String c EmptyString) s'
  end.

Definition Split (s : string) (sep : ascii) : list string := split_on sep EmptyString s.

(** [path.Clean]: [out] is the reversed list of the elements kept so far. *)
Fixpoint clean_elems (rooted : bool) (out : list string) (elems : list string) : list string :=
  match elems with
  | [] => rev out
  | e :: rest =>
      if String.eqb e "" || String.eqb e "." then clean_elems rooted out rest
      else if String.eqb e ".." then
        match out with
        | d :: out' => if String.eqb d ".." then clean_elems rooted (e :: out) rest
                       else clean_elems rooted out' rest
        | [] => if rooted then clean_elems rooted [] rest else clean_elems rooted [e] rest
        end
      else clean_elems rooted (e :: out) rest
  end.

Definition PathClean (s : string) : string :=
  let rooted := HasPrefix s "/" in
  let body := Join (clean_elems rooted [] (Split s "/"%char)) "/" in
  if rooted then "/" +:+ body else if String.eqb body "" then "." else body.

(** [path.Join] of two elements. *)
Definition PathJoin (a b : string) : string :=
  if String.eqb a "" then (if String.eqb b "" then "" else PathClean b)
  else if String.eqb b "" then PathClean a else PathClean (a +:+ "/" +:+ b).

(** [path.Base]: the last element of the path. *)
Definition PathBase (s : string) : string :=
  if String.eqb s "" then "."
  else let t := trim_right (is_char "/"%char) s in
       if String.eqb t "" then "/" else default t (last (Split t "/"%char)).

End GoStr.

(** ** Facts about these functions *)

Create Rewrite HintDb gostr.

Section GoStrFacts.

Import GoStr.

Lemma append_nil_r s : s +:+ "" = s.
Proof. induction s; simpl; congruence. Qed.

Lemma append_assoc a b c : (a +:+ b) +:+ c = a +:+ b +:+ c.
Proof. induction a; simpl; congruence. Qed.

Lemma length_append a b : String.length (a +:+ b) = String.length a + String.length b.
Proof. induction a; simpl; congruence. Qed.

Lemma length_stake n s : String.length (stake n s) = min n (String.length s).
Proof. revert s; induction n; intros [|c s]; simpl; auto. Qed.

Lemma stake_sdrop n s : stake n s +:+ sdrop n s = s.
Proof. revert s; induction n; intros [|c s]; simpl; f_equal; auto. Qed.

Lemma stake_ge n s : String.length s <= n -> stake n s = s.
Proof. revert s; induction n; intros [|c s]; simpl; intros; f_equal; auto with lia. Qed.

Lemma CutPrefix_Some s p r : CutPrefix s p = Some r <-> s = p +:+ r.
Proof.
  revert s; induction p as [|a p IH]; intros s; simpl.
  - split; [by intros [= ->] | by intros ->].
  - destruct s as [|b s]; [by split|].
    destruct (Ascii.eqb_spec a b) as [->|Hne]; [rewrite IH|].
    + split; [by intros -> | by intros [= ->]].
    + split; [done|]. by intros [= -> _].
Qed.

Lemma HasPrefix_spec s p : HasPrefix s p = true <-> exists r, s = p +:+ r.
Proof.
  unfold HasPrefix. destruct (CutPrefix s p) as [r|] eqn:E.
  - apply CutPrefix_Some in E. split; eauto.
  - split; [done|]. intros [r Hr%CutPrefix_Some]. congruence.
Qed.

Lemma Index_Some s sub n :
  Index s sub = Some n -> exists a b, s = a +:+ sub +:+ b /\ String.length a = n.
Proof.
  revert n; induction s as [|c s IH]; intros n; simpl; destruct (HasPrefix _ sub) eqn:E.
  - apply HasPrefix_spec in E as [r ->]. intros; simplify_eq. by exists "", r.
  - done.
  - apply HasPrefix_spec in E as [r Hr]. intros; simplify_eq. exists "", r. by rewrite Hr.
  - intros H. destruct (Index s sub) as [k|]; [|done]. simplify_eq/=.
    destruct (IH k) as (a & b & -> & <-); [done|]. by exists (String c a), b.
Qed.

Lemma Index_None s sub a b : Index s sub = None -> s <> a +:+ sub +:+ b.
Proof.
  revert a; induction s as [|c s IH]; intros a; simpl; destruct (HasPrefix _ sub) eqn:E; try done.
  - intros _ Heq. destruct a; simpl in *; [|done].
    assert (HasPrefix "" sub = true) by (apply HasPrefix_spec; eauto). congruence.
  - destruct (Index s sub) as [k|]; [done|]. intros _ Heq.
    destruct a as [|d a]; simpl in *; simplify_eq; [|by eapply IH].
    assert (HasPrefix (String c s) sub = true) by (apply HasPrefix_spec; eauto). congruence.
Qed.

Lemma Contains_spec s sub : Contains s sub = true <-> exists a b, s = a +:+ sub +:+ b.
Proof.
  unfold Contains. destruct (Index s sub) as [n|] eqn:E.
  - apply Index_Some in E as (a & b & ? & ?). split; eauto.
  - split; [done|]. intros (a & b & Heq). by edestruct Index_None.
Qed.

(** A substring of a string without [sub] has no [sub]. *)
Lemma Contains_sub_false a s b sub : Contains (a +:+ s +:+ b) sub = false -> Contains s sub = false.
Proof.
  intros H. apply not_true_is_false. intros (x & y & ->)%Contains_spec.
  apply not_true_iff_false in H. apply H, Contains_spec.
  exists (a +:+ x), (y +:+ b). by rewrite !append_assoc.
Qed.

(** A separator that the first parts do not contain splits a text uniquely. *)
Lemma split_at_sep c a b a' b' :
  Contains a (String c "") = false -> Contains a' (String c "") = false ->
  a +:+ String c b = a' +:+ String c b' -> a = a' /\ b = b'.
Proof.
  assert (forall d s, Contains (String d s) (String c "") = false -> d <> c /\ Contains s (String c "") = false) as Hcut.
  { intros d s H. split.
    - intros ->. apply not_true_iff_false in H. apply H, Contains_spec. by exists "", s.
    - apply (Contains_sub_false (String d "") s ""). rewrite append_nil_r. exact H. }
  revert a'. induction a as [|d a IH]; intros [|d' a'] Ha Ha' H; simpl in H; simplify_eq; try done.
  - by apply Hcut in Ha' as [? _].
  - by apply Hcut in Ha as [? _].
  - apply Hcut in Ha as [_ Ha], Ha' as [_ Ha']. by destruct (IH a') as [-> ->].
Qed.

Lemma sforall_app p a b : sforall p (a +:+ b) = sforall p a && sforall p b.
Proof. induction a; simpl; [done|]. rewrite IHa. by rewrite andb_assoc. Qed.

Lemma sforall_smap p f s : (forall c, p (f c) = true) -> sforall p (smap f s) = true.
Proof. intros H. induction s; simpl; [done|]. by rewrite H, IHs. Qed.

Lemma sforall_impl p q s : (forall c, p c = true -> q c = true) -> sforall p s = true -> sforall q s = true.
Proof. intros H. induction s; simpl; [done|]. intros [? ?]%andb_true_iff. by rewrite H, IHs. Qed.

Lemma trim_left_suffix p s : exists a, s = a +:+ trim_left p s.
Proof.
  induction s as [|c s [a IH]]; simpl; [by exists ""|]. destruct (p c); [|by exists ""].
  exists (String c a). simpl. by f_equal.
Qed.

Lemma trim_right_prefix p s : exists b, s = trim_right p s +:+ b.
Proof.
  induction s as [|c s [b IH]]; simpl; [by exists ""|].
  destruct (trim_right p s) eqn:E; [destruct (p c)|].
  - by exists (String c s).
  - exists s. done.
  - exists b. simpl. by f_equal.
Qed.

Lemma trim_infix p s : exists a b, s = a +:+ trim p s +:+ b.
Proof.
  destruct (trim_left_suffix p s) as [a Ha]. destruct (trim_right_prefix p (trim_left p s)) as [b Hb].
  exists a, b. unfold trim. by rewrite <- Hb.
Qed.

Lemma length_trim_le p s : String.length (trim p s) <= String.length s.
Proof. destruct (trim_infix p s) as (a & b & H). rewrite H at 2. rewrite !length_append. lia. Qed.

(** The first and the last byte of a string, if any, do not satisfy [p]. *)
Definition trimmed (p : ascii -> bool) (s : string) : Prop :=
  (forall c r, s = String c r -> p c = false) /\ (forall r c, s = r +:+ String c "" -> p c = false).

Lemma trim_left_head p s c r : trim_left p s = String c r -> p c = false.
Proof. induction s as [|d s IH]; simpl; [done|]. destruct (p d) eqn:E; [auto|]. by intros [= <- _]. Qed.

Lemma trim_right_last p s r c : trim_right p s = r +:+ String c "" -> p c = false.
Proof.
  revert r; induction s as [|d s IH]; intros r; simpl; [by destruct r|].
  destruct (trim_right p s) as [|x t] eqn:E.
  - destruct (p d) eqn:Ed; [by destruct r|]. destruct r as [|? r]; [by intros [= <-]|].
    intros [= _ H]. by destruct r.
  - destruct r as [|y r]; [done|]. intros [= _ H]. by apply (IH r).
Qed.

Lemma trim_right_head p s c r : trim_right p s = String c r -> exists r', s = String c r'.
Proof. intros H. destruct (trim_right_prefix p s) as [b Hb]. rewrite H in Hb. by exists (r +:+ b). Qed.

Lemma trim_trimmed p s : trimmed p (trim p s).
Proof.
  unfold trim. split.
  - intros c r H. destruct (trim_right_head _ _ _ _ H) as [r' H']. by eapply trim_left_head.
  - intros r c H. by eapply trim_right_last.
Qed.

Lemma trim_left_id p s : (forall c r, s = String c r -> p c = false) -> trim_left p s = s.
Proof. intros H. destruct s as [|c s]; simpl; [done|]. by rewrite (H c s). Qed.

Lemma trim_right_id p s : (forall r c, s = r +:+ String c "" -> p c = false) -> trim_right p s = s.
Proof.
  induction s as [|c s IH]; intros H; simpl; [done|].
  rewrite IH; [|intros r d ->; apply (H (String c r)); done].
  destruct s; [|done]. by rewrite (H "" c).
Qed.

Lemma trim_id p s : trimmed p s -> trim p s = s.
Proof. intros [H1 H2]. unfold trim. rewrite (trim_left_id p s H1). by apply trim_right_id. Qed.

Lemma ContainsStr_spec l x : ContainsStr l x = true <-> x ∈ l.
Proof. unfold ContainsStr. apply bool_decide_eq_true. Qed.

Lemma SortStrings_perm l : SortStrings l ≡ₚ l.
Proof. apply merge_sort_Permutation. Qed.

Lemma elem_of_SortStrings x l : x ∈ SortStrings l <-> x ∈ l.
Proof. by rewrite SortStrings_perm. Qed.

Lemma length_SortStrings l : length (SortStrings l) = length l.
Proof. by rewrite SortStrings_perm. Qed.

Lemma SortStrings_sorted l : StronglySorted String.le (SortStrings l).
Proof. apply StronglySorted_merge_sort; apply _. Qed.

(** Sorting is canonical: permuted lists sort to the same list. *)
Lemma SortStrings_canonical l l' : SortStrings l = SortStrings l' <-> l ≡ₚ l'.
Proof.
  split; intros H.
  - by rewrite <- (SortStrings_perm l), H, SortStrings_perm.
  - eapply (StronglySorted_unique String.le); [apply SortStrings_sorted..|].
    by rewrite !SortStrings_perm.
Qed.

Lemma SortBy_perm {A} (name : A -> string) l : SortBy name l ≡ₚ l.
Proof. apply merge_sort_Permutation. Qed.

Lemma filter_none {A} (P : A -> Prop) `{forall x, Decision (P x)} l : Forall (fun x => ~ P x) l -> filter P l = [].
Proof. induction 1; [done|]. by rewrite filter_cons_False. Qed.

Lemma filter_all {A} (P : A -> Prop) `{forall x, Decision (P x)} l : Forall P l -> filter P l = l.
Proof. induction 1; [done|]. rewrite filter_cons_True by done. by f_equal. Qed.

(** A duplicate-free list of names within a list that is not longer is that list, reordered. *)
Lemma NoDup_cover {A} (l k : list A) : NoDup l -> l ⊆ k -> length k <= length l -> l ≡ₚ k.
Proof. intros Hn Hs Hl. apply submseteq_length_Permutation; [|done]. by apply NoDup_submseteq. Qed.

(** Decimal text. *)
Definition is_digit (c : ascii) : bool :=
  let n := Ascii.nat_of_ascii c in (48 <=? n)%nat && (n <=? 57)%nat.

Lemma pretty_N_go_digits x s : sforall is_digit s = true -> sforall is_digit (pretty_N_go x s) = true.
Proof.
  revert s. induction (N.lt_wf_0 x) as [x _ IH]; intros s Hs.
  assert (x = 0 \/ 0 < x)%N as [->|Hx] by lia; [done|].
  rewrite pretty_N_go_step by done. apply IH; [by apply N.div_lt|].
  simpl. rewrite Hs. unfold pretty_N_char. by repeat case_match.
Qed.

Lemma pretty_N_digits (x : N) : sforall is_digit (pretty x) = true.
Proof. unfold pretty, pretty_N. case_decide; [done|]. by apply pretty_N_go_digits. Qed.

Lemma pretty_N_go_nonempty x s : s <> "" -> pretty_N_go x s <> "".
Proof.
  revert s. induction (N.lt_wf_0 x) as [x _ IH]; intros s Hs.
  assert (x = 0 \/ 0 < x)%N as [->|Hx] by lia; [done|].
  rewrite pretty_N_go_step by done. apply IH; [by apply N.div_lt|done].
Qed.

Lemma pretty_N_nonempty (x : N) : pretty x <> "".
Proof.
  unfold pretty, pretty_N. case_decide; [done|].
  rewrite pretty_N_go_step by lia. by apply pretty_N_go_nonempty.
Qed.

Lemma pretty_N_go_length_ge x s : String.length s <= String.length (pretty_N_go x s).
Proof.
  revert s. induction (N.lt_wf_0 x) as [x _ IH]; intros s.
  assert (x = 0 \/ 0 < x)%N as [->|Hx] by lia; [done|].
  rewrite pretty_N_go_step by done. etrans; [|apply IH; by apply N.div_lt]. simpl. lia.
Qed.

Lemma pretty_N_go_length_mono x y s s' :
  (x <= y)%N -> String.length s <= String.length s' ->
  String.length (pretty_N_go x s) <= String.length (pretty_N_go y s').
Proof.
  revert y s s'. induction (N.lt_wf_0 x) as [x _ IH]; intros y s s' Hxy Hs.
  assert (x = 0 \/ 0 < x)%N as [->|Hx] by lia.
  - rewrite pretty_N_go_0. etrans; [exact Hs | apply pretty_N_go_length_ge].
  - rewrite (pretty_N_go_step x), (pretty_N_go_step y) by lia.
    apply IH; [by apply N.div_lt | by apply N.Div0.div_le_mono | simpl; lia].
Qed.

Lemma pretty_N_length_mono (x y : N) : (x <= y)%N -> String.length (pretty x) <= String.length (pretty y).
Proof.
  intros H. unfold pretty, pretty_N. case_decide as E1; case_decide as E2.
  - done.
  - rewrite pretty_N_go_step by lia. etrans; [|apply pretty_N_go_length_ge]. simpl. lia.
  - lia.
  - by apply pretty_N_go_length_mono.
Qed.

Lemma pretty_Z_of_nat (n : nat) : pretty (Z.of_nat n) = pretty (N.of_nat n).
Proof. destruct n; [done|]. reflexivity. Qed.

End GoStrFacts.

#[export] Hint Rewrite append_nil_r append_assoc length_append length_stake : gostr.

(** [len(s)] as a Go int. *)
Definition slen (s : string) : Z := Z.of_nat (String.length s).

Lemma slen_append a b : slen (a +:+ b) = (slen a + slen b)%Z.
Proof. unfold slen. rewrite length_append. lia. Qed.

Lemma slen_nonneg s : (0 <= slen s)%Z.
Proof. unfold slen. lia. Qed.

(** ** int32 arithmetic *)

(** Two's complement wrap-around at 32 bits. *)
Definition wrap32 (z : Z) : Z := ((z + 2147483648) mod 4294967296 - 2147483648)%Z.
Definition in32 (z : Z) : Prop := (-2147483648 <= z < 2147483648)%Z.
Definition add32 (a b : Z) : Z := wrap32 (a + b).

Lemma wrap32_id z : in32 z -> wrap32 z = z.
Proof. unfold in32, wrap32. intros. rewrite Z.mod_small; lia. Qed.

Lemma wrap32_in z : in32 (wrap32 z).
Proof.
  unfold in32, wrap32. pose proof (Z.mod_pos_bound (z + 2147483648) 4294967296). lia.
Qed.

Lemma add32_wrap a b : add32 (wrap32 a) b = wrap32 (a + b).
Proof.
  unfold add32, wrap32. f_equal.
  replace ((a + 2147483648) mod 4294967296 - 2147483648 + b + 2147483648)%Z with ((a + 2147483648) mod 4294967296 + b)%Z by lia.
  rewrite Zplus_mod_idemp_l. f_equal. lia.
Qed.

(** ** Booleans *)

(** Turn the boolean tests of the code into propositions. *)
Ltac reflect_bools :=
  repeat match goal with
  | H : _ && _ = true |- _ => apply andb_true_iff in H; destruct H
  | H : _ || _ = false |- _ => apply orb_false_iff in H; destruct H
  | H : negb _ = true |- _ => apply negb_true_iff in H
  | H : negb _ = false |- _ => apply negb_false_iff in H
  | H : String.eqb _ _ = true |- _ => apply String.eqb_eq in H
  | H : String.eqb _ _ = false |- _ => apply String.eqb_neq in H
  | H : Z.eqb _ _ = true |- _ => apply Z.eqb_eq in H
  | H : Z.eqb _ _ = false |- _ => apply Z.eqb_neq in H
  | H : Z.ltb _ _ = true |- _ => apply Z.ltb_lt in H
  | H : Z.ltb _ _ = false |- _ => apply Z.ltb_ge in H
  | H : Z.leb _ _ = true |- _ => apply Z.leb_le in H
  | H : Z.leb _ _ = false |- _ => apply Z.leb_gt in H
  | H : Nat.eqb _ _ = true |- _ => apply Nat.eqb_eq in H
  | H : Nat.eqb _ _ = false |- _ => apply Nat.eqb_neq in H
  | H : Nat.ltb _ _ = true |- _ => apply Nat.ltb_lt in H
  | H : Nat.ltb _ _ = false |- _ => apply Nat.ltb_ge in H
  | H : Nat.leb _ _ = true |- _ => apply Nat.leb_le in H
  | H : Nat.leb _ _ = false |- _ => apply Nat.leb_gt in H
  | H : bool_decide _ = true |- _ => apply bool_decide_eq_true in H
  | H : bool_decide _ = false |- _ => apply bool_decide_eq_false in H
  end.
