(* ===== verification/GoErrors.v ===== *)
(** * Go errors and formatted text

    [fmt.Sprintf]/[fmt.Errorf] with the verbs the program uses (%s %q %d %v %w),
    the wrapped-error trees of package [errors], the Kubernetes API status errors the
    program inspects, and internal/controller/errors.go. *)

From S2P Require Import Prelude.
Import GoStr.

(** ** fmt *)
Module Fmt.

(** Arguments of a format, after errors have been rendered to text. *)
Inductive rarg :=
| RStr (s : string)
| RInt (z : Z)
| RStrs (l : list string).

Definition hex_digit (n : nat) : ascii :=
  Ascii.ascii_of_nat (if (n <? 10)%nat then 48 + n else 87 + n).

Definition dquote : ascii := Ascii.ascii_of_nat 34.
Definition backslash : ascii := Ascii.ascii_of_nat 92.

(** One byte of [strconv.Quote]; bytes from 0x80 up are kept, as Go keeps printable
    UTF-8 text. *)
Definition quote_byte (c : ascii) : string :=
  let n := Ascii.nat_of_ascii c in
  let esc (d : ascii) := String backslash (String d EmptyString) in
  if Ascii.eqb c dquote then esc dquote
  else if Ascii.eqb c backslash then esc backslash
  else if (n =? 7)%nat then esc "a"%char
  else if (n =? 8)%nat then esc "b"%char
  else if (n =? 9)%nat then esc "t"%char
  else if (n =? 10)%nat then esc "n"%char
  else if (n =? 11)%nat then esc "v"%char
  else if (n =? 12)%nat then esc "f"%char
  else if (n =? 13)%nat then esc "r"%char
  else if (n <? 32)%nat || (n =? 127)%nat then
    String backslash (String "x"%char (String (hex_digit (n / 16)) (String (hex_digit (n mod 16)) EmptyString)))
  else String c EmptyString.

Fixpoint quote_bytes (s : string) : string :=
  match s with
  | EmptyString => EmptyString
  | String c s' => quote_byte c +:+ quote_bytes s'
  end.

Definition Quote (s : string) : string :=
  String dquote (quote_bytes s +:+ String dquote EmptyString).

Definition render (verb : ascii) (a : rarg) : string :=
  match a with
  | RStr s => if Ascii.eqb verb "q"%char then Quote s else s
  | RInt z => pretty z
  | RStrs l => "[" +:+ Join (if Ascii.eqb verb "q"%char then Quote <$> l else l) " " +:+ "]"
  end.

(** [fmt.Sprintf]: a verb without an argument renders as Go's MISSING marker. *)
Fixpoint Sprintf (f : string) (args : list rarg) : string :=
  match f with
  | String "%"%char (String v f') =>
      if Ascii.eqb v "%"%char then String "%"%char (Sprintf f' args)
      else match args with
           | a :: args' => render v a +:+ Sprintf f' args'
           | [] => "%!" +:+ String v "(MISSING)" +:+ Sprintf f' []
           end
  | String c f' => String c (Sprintf f' args)
  | EmptyString => EmptyString
  end.

End Fmt.
Export Fmt.
#[global] Arguments Sprintf : simpl never.

(** ** errors *)

(** The argument of an error format: text, a number, a list of names or a wrapped error. *)
Inductive farg_ (E : Type) : Type :=
| FS (s : string)
| FD (z : Z)
| FL (l : list string)
| FE (e : E).
Arguments FS {E}. Arguments FD {E}. Arguments FL {E}. Arguments FE {E}.

(** The reasons of a Kubernetes [StatusError] the program tells apart. *)
Inductive StatusReason := ReasonNotFound | ReasonConflict | ReasonAlreadyExists | ReasonNoMatch | ReasonOther.

#[global] Instance StatusReason_eq_dec : EqDecision StatusReason.
Proof. solve_decision. Defined.

#[warnings="-register-all"]
Inductive error : Type :=
| Errorf (format : string) (args : list (farg_ error))
| errExecutionStopped
| transientError (err : error)
| StatusError (reason : StatusReason) (message : string)
| FindNotFoundError (message : string)
| RestError (status : Z) (message : string)
| JoinError (errs : list error).
Abbreviation farg := (farg_ error).

(** [err.Error()]. *)
Fixpoint Error (e : error) : string :=
  match e with
  | Errorf f args =>
      Sprintf f ((fix go (l : list (farg_ error)) : list rarg :=
                    match l with
                    | [] => []
                    | FS s :: l' => RStr s :: go l'
                    | FD z :: l' => RInt z :: go l'
                    | FL x :: l' => RStrs x :: go l'
                    | FE e' :: l' => RStr (Error e') :: go l'
                    end) args)
  | errExecutionStopped => "stopping new migration actions"
  | transientError err => Error err
  | StatusError _ m | FindNotFoundError m | RestError _ m => m
  | JoinError es =>
      Join ((fix go (l : list error) : list string :=
               match l with [] => [] | e' :: l' => Error e' :: go l' end) es)
           (String (Ascii.ascii_of_nat 10) EmptyString)
  end.

(** [errors.As]/[errors.Is]: the first match in the pre-order walk of the wrapped
    errors. *)
Fixpoint errors_find {X} (p : error -> option X) (e : error) : option X :=
  match p e with
  | Some x => Some x
  | None =>
      match e with
      | Errorf _ args =>
          (fix go (l : list (farg_ error)) : option X :=
             match l with
             | [] => None
             | FE e' :: l' => match errors_find p e' with Some x => Some x | None => go l' end
             | _ :: l' => go l'
             end) args
      | transientError err => errors_find p err
      | JoinError es =>
          (fix go (l : list error) : option X :=
             match l with
             | [] => None
             | e' :: l' => match errors_find p e' with Some x => Some x | None => go l' end
             end) es
      | _ => None
      end
  end.

Definition errors_is (p : error -> bool) (e : error) : bool :=
  match errors_find (fun x => if p x then Some tt else None) e with
  | Some _ => true | None => false end.

(** [apierrors.ReasonForError]: the reason of the first status error in the tree. *)
Definition ReasonForError (e : error) : option StatusReason :=
  errors_find (fun x => match x with StatusError r _ => Some r | _ => None end) e.

Definition IsNotFound (e : error) : bool := bool_decide (ReasonForError e = Some ReasonNotFound).
Definition IsConflict (e : error) : bool := bool_decide (ReasonForError e = Some ReasonConflict).
Definition IsNoMatchError (e : error) : bool := bool_decide (ReasonForError e = Some ReasonNoMatch).

(** [errors.As(err, *find.NotFoundError)]. *)
Definition IsFindNotFound (e : error) : bool :=
  errors_is (fun x => match x with FindNotFoundError _ => true | _ => false end) e.

(** [rest.IsStatusError(err, http.StatusNotFound)]. *)
Definition IsRestNotFound (e : error) : bool :=
  errors_is (fun x => match x with RestError 404 _ => true | _ => false end) e.

(** [errors.Is(err, errExecutionStopped)]. *)
Definition IsExecutionStopped (e : error) : bool :=
  errors_is (fun x => match x with errExecutionStopped => true | _ => false end) e.

(** ** internal/controller/errors.go *)

Definition newTransientError (err : error) : error := transientError err.

Definition isTransientError (e : error) : bool :=
  errors_is (fun x => match x with transientError _ => true | _ => false end) e.

(** ** Results *)

Inductive result (A : Type) : Type :=
| Ok (a : A)
| Err (e : error).
Arguments Ok {A}. Arguments Err {A}.

Definition is_ok {A} (r : result A) : bool := match r with Ok _ => true | Err _ => false end.

(** [fmt.Errorf(format, args..., err)] on the error branch. *)
Definition wrapf {A} (format : string) (args : list farg) (r : result A) : result A :=
  match r with
  | Ok a => Ok a
  | Err e => Err (Errorf format (args ++ [FE e]))
  end.

(** [if err != nil { return err }] on pure results. *)
Notation "'let?' x := r 'in' k" := (match r with Ok x => k | Err e => Err e end)
  (at level 10, x pattern, r at level 200, k at level 200).

(** A single wrapping keeps every [errors.As] answer of the wrapped error. *)
Lemma errors_find_wrap {X} (p : error -> option X) f args e :
  (forall g l, p (Errorf g l) = None) ->
  Forall (fun a => match a with FE _ => False | _ => True end) args ->
  errors_find p (Errorf f (args ++ [FE e])) = errors_find p e.
Proof.
  intros Hp Hargs; simpl; rewrite Hp.
  induction args as [|[] args IH]; inversion Hargs; subst; simpl;
    [destruct (errors_find p e); done | auto | auto | auto | done].
Qed.
