(* ===== verification/Objects.v ===== *)
(** * The objects other APIs own

    The OpenShift and Kubernetes resources the operator reads and writes, with the
    fields it uses; every other field of such an object is kept as one opaque value so
    that a read-modify-write carries it over unchanged. *)

From S2P Require Import Prelude GoErrors.

(** A point in time in nanoseconds; the zero [time.Time] is [None]. *)
Abbreviation Time := Z.

(** ** metav1 *)

Abbreviation ConditionTrue := "True".
Abbreviation ConditionFalse := "False".
Abbreviation ConditionUnknown := "Unknown".

(** [metav1.Condition]. *)
Record Condition := MkCondition {
  c_Type : string;
  c_Status : string;
  c_ObservedGeneration : Z;
  c_LastTransitionTime : option Time;
  c_Reason : string;
  c_Message : string;
}.

#[global] Instance Condition_eq_dec : EqDecision Condition.
Proof. solve_decision. Defined.

(** ** config.openshift.io/v1 *)

(** [VSpherePlatformTopology]. *)
Record Topology := MkTopology {
  t_Datacenter : string;
  t_ComputeCluster : string;
  t_Networks : list string;
  t_Datastore : string;
  t_ResourcePool : string;
  t_Folder : string;
  t_Template : string;
}.

(** [VSpherePlatformFailureDomainSpec]; the affinities carry their union discriminator. *)
Record FailureDomain := MkFailureDomain {
  fd_Name : string;
  fd_Region : string;
  fd_Zone : string;
  fd_RegionAffinity : option string;
  fd_ZoneAffinity : option string;
  fd_Server : string;
  fd_Topology : Topology;
}.

#[global] Instance Topology_eq_dec : EqDecision Topology.
Proof. solve_decision. Defined.
#[global] Instance FailureDomain_eq_dec : EqDecision FailureDomain.
Proof. solve_decision. Defined.

(** [VSpherePlatformVCenterSpec]. *)
Record VCenter := MkVCenter {
  vc_Server : string;
  vc_Port : Z;
  vc_Datacenters : list string;
}.

(** [Infrastructure.Spec.PlatformSpec.VSphere]. *)
Record VSpherePlatform := MkVSpherePlatform {
  vp_VCenters : list VCenter;
  vp_FailureDomains : list FailureDomain;
}.

Record Infrastructure := MkInfrastructure {
  infra_Name : string;
  infra_UID : string;
  infra_VSphere : option VSpherePlatform;
  infra_InfrastructureName : string;
  infra_other : string;
}.

Definition infra_set_VSphere (i : Infrastructure) (v : VSpherePlatform) : Infrastructure :=
  MkInfrastructure (infra_Name i) (infra_UID i) (Some v) (infra_InfrastructureName i) (infra_other i).

(** A ClusterOperator, ClusterVersion or Pod condition: type, status and message. *)
Record StatusCond := MkStatusCond { sc_Type : string; sc_Status : string; sc_Message : string }.

Record ClusterOperator := MkClusterOperator { co_Name : string; co_Conditions : list StatusCond }.

Record ClusterVersion := MkClusterVersion { cv_Desired : string; cv_Conditions : list StatusCond }.

Record FeatureGateDetails := MkFeatureGateDetails { fg_Version : string; fg_Enabled : list string }.
Record FeatureGate := MkFeatureGate { fg_FeatureGates : list FeatureGateDetails }.

(** ** machine.openshift.io *)

(** [VSphereMachineProviderSpec.Workspace]. *)
Record Workspace := MkWorkspace {
  ws_Server : string;
  ws_Datacenter : string;
  ws_Folder : string;
  ws_Datastore : string;
  ws_ResourcePool : string;
  ws_VMGroup : string;
}.

(** [NetworkDeviceSpec]. *)
Record NetworkDevice := MkNetworkDevice { nd_NetworkName : string; nd_other : string }.

Record ProviderSpec := MkProviderSpec {
  ps_Workspace : option Workspace;
  ps_Template : string;
  ps_Devices : list NetworkDevice;
  ps_other : string;
}.

(** The provider spec of a MachineSet template: absent, present without raw JSON, or raw. *)
Inductive RawExtension :=
| NoValue
| NoRaw
| Raw (json : string).

Record MachineSet := MkMachineSet {
  ms_Name : string;
  ms_Namespace : string;
  ms_UID : string;
  ms_ResourceVersion : string;
  ms_CreationTimestamp : option Time;
  ms_Annotations : gmap string string;
  ms_Replicas : option Z;
  ms_Selector : gmap string string;
  ms_TemplateLabels : gmap string string;
  ms_ProviderSpec : RawExtension;
  ms_Status : string;
  ms_other : string;
}.

Definition ms_set_Replicas (m : MachineSet) (r : Z) : MachineSet :=
  MkMachineSet (ms_Name m) (ms_Namespace m) (ms_UID m) (ms_ResourceVersion m) (ms_CreationTimestamp m)
    (ms_Annotations m) (Some r) (ms_Selector m) (ms_TemplateLabels m) (ms_ProviderSpec m) (ms_Status m) (ms_other m).
Definition ms_set_Annotations (m : MachineSet) (a : gmap string string) : MachineSet :=
  MkMachineSet (ms_Name m) (ms_Namespace m) (ms_UID m) (ms_ResourceVersion m) (ms_CreationTimestamp m)
    a (ms_Replicas m) (ms_Selector m) (ms_TemplateLabels m) (ms_ProviderSpec m) (ms_Status m) (ms_other m).
Definition ms_set_ProviderSpec (m : MachineSet) (p : RawExtension) : MachineSet :=
  MkMachineSet (ms_Name m) (ms_Namespace m) (ms_UID m) (ms_ResourceVersion m) (ms_CreationTimestamp m)
    (ms_Annotations m) (ms_Replicas m) (ms_Selector m) (ms_TemplateLabels m) p (ms_Status m) (ms_other m).

Record Machine := MkMachine {
  m_Name : string;
  m_CreationTimestamp : Time;
  m_Labels : gmap string string;
  m_Phase : option string;
  m_NodeRef : option string;
  m_ErrorReason : option string;
  m_ErrorMessage : option string;
}.

Record Node := MkNode { n_Name : string; n_Conditions : list StatusCond }.

(** [ControlPlaneMachineSet]: the vSphere failure domain names of its machine template
    ([None]: no OpenShift machine template; [Some None]: no failure domains). *)
Record CPMS := MkCPMS {
  cp_Generation : Z;
  cp_State : string;
  cp_Strategy : string;
  cp_Template : option (option (string * list string));
  cp_ObservedGeneration : Z;
  cp_Replicas : Z;
  cp_UpdatedReplicas : Z;
  cp_ReadyReplicas : Z;
  cp_Conditions : list Condition;
  cp_other : string;
}.

(** [MachineConfigPool]. *)
Record MachineConfigPool := MkMachineConfigPool {
  mcp_Name : string;
  mcp_Generation : Z;
  mcp_ObservedGeneration : Z;
  mcp_SpecConfiguration : string;
  mcp_StatusConfiguration : string;
  mcp_MachineCount : Z;
  mcp_UpdatedMachineCount : Z;
  mcp_Conditions : list StatusCond;
}.

(** ** core/v1 *)

Record Secret := MkSecret {
  s_Namespace : string;
  s_Name : string;
  s_Labels : gmap string string;
  s_OwnerReferences : list string;
  s_Type : string;
  s_Data : gmap string string;
}.

Definition s_set_Data (s : Secret) (d : gmap string string) : Secret :=
  MkSecret (s_Namespace s) (s_Name s) (s_Labels s) (s_OwnerReferences s) (s_Type s) d.

Record ConfigMap := MkConfigMap { cm_Namespace : string; cm_Name : string; cm_Data : gmap string string }.

Record Pod := MkPod { p_Name : string; p_Labels : gmap string string; p_Conditions : list StatusCond }.

(** A PersistentVolume: its name and the driver of its CSI source. *)
Record PersistentVolume := MkPersistentVolume { pv_Name : string; pv_CSIDriver : option string }.

(** An unstructured object: namespace, name and [spec.managementState] (an error when the
    field has another type, [None] when absent). *)
Record Unstructured := MkUnstructured {
  u_Namespace : string;
  u_Name : string;
  u_ManagementState : result (option string);
}.
