(* ===== verification/NodeMigration.v ===== *)
(** * The node migration API (api/v1alpha1)

    The tagged union that selects how nodes move, and the status record of a node-by-node
    move: its frozen plan, the single claimed action, the outcomes of each node and the
    cleanup progress.  The schema of each type (lengths, patterns, enumerations and the CEL
    rules of the kubebuilder markers) is a boolean function beside it.  It reads the value a
    client decodes, where an omitted string is the empty one; where the difference decides
    (the limit of a role, which is defaulted), the manifest has a type of its own. *)

From S2P Require Import Prelude GoErrors Objects.
Import GoStr.

(** ** The schema vocabulary *)

(** [MinLength] and [MaxLength] count characters: the bytes that do not continue one. *)
Definition continues (c : ascii) : bool :=
  let n := Ascii.nat_of_ascii c in (128 <=? n)%nat && (n <? 192)%nat.
Definition RuneCount (s : string) : Z := Z.of_nat (scount (fun c => negb (continues c)) s).

Definition lengthWithin (minLength maxLength : Z) (s : string) : bool :=
  (minLength <=? RuneCount s)%Z && (RuneCount s <=? maxLength)%Z.

(** An omitted optional field is not validated. *)
Definition whenSome {A} (p : A -> bool) (o : option A) : bool := match o with Some a => p a | None => true end.

(** The decoded value of an optional string that the API server let pass: it is empty when the
    field was omitted.  An empty string that is present is validated there, but no longer
    told apart here. *)
Definition whenSet (p : string -> bool) (s : string) : bool := String.eqb s "" || p s.

Lemma whenSet_decoded p s : whenSet p s = true <-> exists field, default "" field = s /\ whenSome p field = true.
Proof.
  unfold whenSet. rewrite orb_true_iff, String.eqb_eq. split.
  - intros [->|Hp]; [by exists None|by exists (Some s)].
  - intros ([s'|] & <- & Hp); cbn in *; auto.
Qed.

Definition is_lower_hex (c : ascii) : bool :=
  is_digit c || (let n := Ascii.nat_of_ascii c in (97 <=? n)%nat && (n <=? 102)%nat).
Definition is_hex (c : ascii) : bool := is_lower_hex (lower c).

(** The pattern [^[a-f0-9]{64}$]. *)
Definition digest64 (s : string) : bool := (String.length s =? 64)%nat && sforall is_lower_hex s.

(** One group of [n] hexadecimal digits, and the hyphen that may follow it. *)
Definition hexGroup (n : nat) (s : string) : option string :=
  if (String.length (stake n s) =? n)%nat && sforall is_hex (stake n s) then Some (sdrop n s) else None.
Definition optionalHyphen (s : string) : string := TrimPrefix s "-".

Fixpoint hexGroups (sizes : list nat) (s : string) : bool :=
  match sizes with
  | [] => String.eqb s ""
  | n :: rest =>
      match hexGroup n s with
      | None => false
      | Some r => hexGroups rest (match rest with [] => r | _ => optionalHyphen r end)
      end
  end.

(** [strfmt.IsUUID]: five groups, case-insensitive, each hyphen optional. *)
Definition IsUUID (s : string) : bool := hexGroups [8; 4; 4; 4; 12] s.

(** The canonical 8-4-4-4-12 form the documentation of the API asks for. *)
Definition canonicalUUID (s : string) : bool :=
  match Split s "-"%char with
  | [a; b; c; d; e] =>
      forallb (fun p => (String.length p.1 =? p.2)%nat && sforall is_hex p.1) [(a, 8); (b, 4); (c, 4); (d, 4); (e, 12)]
  | _ => false
  end.

(** ** The selection: spec.nodeMigration *)

Inductive NodeMigrationType := NodeMigrationTypeVMotion | NodeMigrationTypeRecreate.

Inductive VMotionMode := VMotionModeHot | VMotionModeCold.

Record VMotionSpec := MkVMotionSpec { vms_Mode : VMotionMode }.

Record RoleMigrationSpec := MkRoleMigrationSpec {
  rms_Type : NodeMigrationType;
  rms_VMotion : option VMotionSpec;
  rms_MaxUnavailable : Z;
}.

Record NodeMigrationRecoveryRequest := MkNodeMigrationRecoveryRequest {
  rr_RequestID : string;
  rr_ExecutionID : string;
  rr_ActionID : string;
  rr_Reason : string;
}.

Record NodeMigrationSpec := MkNodeMigrationSpec {
  nms_Workers : RoleMigrationSpec;
  nms_ControlPlane : RoleMigrationSpec;
  nms_RecoveryRequest : option NodeMigrationRecoveryRequest;
}.

#[global] Instance NodeMigrationType_eq_dec : EqDecision NodeMigrationType.
Proof. solve_decision. Defined.
#[global] Instance VMotionMode_eq_dec : EqDecision VMotionMode.
Proof. solve_decision. Defined.
#[global] Instance VMotionSpec_eq_dec : EqDecision VMotionSpec.
Proof. solve_decision. Defined.
#[global] Instance RoleMigrationSpec_eq_dec : EqDecision RoleMigrationSpec.
Proof. solve_decision. Defined.
#[global] Instance NodeMigrationRecoveryRequest_eq_dec : EqDecision NodeMigrationRecoveryRequest.
Proof. solve_decision. Defined.
#[global] Instance NodeMigrationSpec_eq_dec : EqDecision NodeMigrationSpec.
Proof. solve_decision. Defined.

(** A role and a selection as the manifest gives them: the limit may be omitted. *)
Record RoleMigrationManifest := MkRoleMigrationManifest {
  rmm_Type : NodeMigrationType;
  rmm_VMotion : option VMotionSpec;
  rmm_MaxUnavailable : option Z;
}.

Record NodeMigrationManifest := MkNodeMigrationManifest {
  nmm_Workers : RoleMigrationManifest;
  nmm_ControlPlane : RoleMigrationManifest;
  nmm_RecoveryRequest : option NodeMigrationRecoveryRequest;
}.

(** [+kubebuilder:default=1]: an omitted maxUnavailable becomes 1 before validation; one that
    is given, 0 included, is validated as it is. *)
Definition defaultRole (r : RoleMigrationManifest) : RoleMigrationSpec :=
  MkRoleMigrationSpec (rmm_Type r) (rmm_VMotion r) (default 1%Z (rmm_MaxUnavailable r)).
Definition defaultNodeMigration (nm : NodeMigrationManifest) : NodeMigrationSpec :=
  MkNodeMigrationSpec (defaultRole (nmm_Workers nm)) (defaultRole (nmm_ControlPlane nm)) (nmm_RecoveryRequest nm).

(** The union rule: [self.type == 'VMotion' ? has(self.vmotion) : !has(self.vmotion)]. *)
Definition validRole (r : RoleMigrationSpec) : bool :=
  (1 <=? rms_MaxUnavailable r)%Z && (rms_MaxUnavailable r <=? 32767)%Z &&
  match rms_Type r with
  | NodeMigrationTypeVMotion => bool_decide (is_Some (rms_VMotion r))
  | NodeMigrationTypeRecreate => bool_decide (rms_VMotion r = None)
  end.

Definition validRecoveryRequest (r : NodeMigrationRecoveryRequest) : bool :=
  IsUUID (rr_RequestID r) && IsUUID (rr_ExecutionID r) && IsUUID (rr_ActionID r) && lengthWithin 0 1024 (rr_Reason r).

(** The third rule compares the modes only where both roles have one. *)
Definition sameMode (workers controlPlane : RoleMigrationSpec) : bool :=
  negb (bool_decide (rms_Type workers = NodeMigrationTypeVMotion)) ||
  negb (bool_decide (rms_Type controlPlane = NodeMigrationTypeVMotion)) ||
  match rms_VMotion workers, rms_VMotion controlPlane with
  | Some w, Some c => bool_decide (vms_Mode w = vms_Mode c)
  | _, _ => true
  end.

Definition validNodeMigration (nm : NodeMigrationSpec) : bool :=
  validRole (nms_Workers nm) && validRole (nms_ControlPlane nm) &&
  whenSome validRecoveryRequest (nms_RecoveryRequest nm) &&
  (rms_MaxUnavailable (nms_ControlPlane nm) =? 1)%Z &&
  bool_decide (rms_Type (nms_Workers nm) = rms_Type (nms_ControlPlane nm)) &&
  sameMode (nms_Workers nm) (nms_ControlPlane nm) &&
  (negb (bool_decide (rms_Type (nms_Workers nm) = NodeMigrationTypeVMotion)) || (rms_MaxUnavailable (nms_Workers nm) =? 1)%Z).

(** ** The status: status.nodeMigration *)

Inductive NodeMigrationActionKind :=
| NodeMigrationActionShutdownGuest | NodeMigrationActionRelocateVM | NodeMigrationActionPowerOnVM.

Inductive NodeMigrationSubmissionState :=
| NodeMigrationSubmissionClaimed | NodeMigrationSubmissionSubmitted | NodeMigrationSubmissionUnknown.

Inductive NodeMigrationObservationState :=
| NodeMigrationObservationNotObserved | NodeMigrationObservationRunning | NodeMigrationObservationSucceeded
| NodeMigrationObservationFailed | NodeMigrationObservationUnknown.

Inductive NodeMigrationOutcomeState :=
| NodeMigrationOutcomeSucceeded | NodeMigrationOutcomeFailed | NodeMigrationOutcomeUnknown.

Inductive NodeMigrationCleanupPhase :=
| NodeMigrationCleanupPending | NodeMigrationCleanupRemovingSourceReferences | NodeMigrationCleanupVerifyingReadiness
| NodeMigrationCleanupCompleted | NodeMigrationCleanupBlocked.

Inductive NodeMigrationState :=
| NodeMigrationStatePending | NodeMigrationStatePreparing | NodeMigrationStateMigrating
| NodeMigrationStateWaitingForNode | NodeMigrationStateSucceeded | NodeMigrationStateFailed.

Inductive NodeMigrationSchedulingState :=
| NodeMigrationSchedulingStateSchedulable | NodeMigrationSchedulingStateUnschedulable.

#[global] Instance NodeMigrationActionKind_eq_dec : EqDecision NodeMigrationActionKind.
Proof. solve_decision. Defined.
#[global] Instance NodeMigrationState_eq_dec : EqDecision NodeMigrationState.
Proof. solve_decision. Defined.

Record NodeMigrationFrozenPlan := MkFrozenPlan {
  fp_SourceVCenter : string;
  fp_SourceDatacenter : string;
  fp_DestinationVCenter : string;
  fp_Mode : VMotionMode;
}.

Record NodeMigrationTaskReference := MkTaskReference { tr_OwnerVCenter : string; tr_TaskID : string }.

Record NodeMigrationAction := MkAction {
  act_ActionID : string;
  act_ExecutionID : string;
  act_Kind : NodeMigrationActionKind;
  act_NodeName : string;
  act_NodeUID : string;
  act_VMBIOSUUID : string;
  act_OwnerVCenter : string;
  act_OperationIdentity : string;
  act_SubmissionState : NodeMigrationSubmissionState;
  act_ObservationState : NodeMigrationObservationState;
  act_TaskReference : option NodeMigrationTaskReference;
  act_ClaimedAt : Time;
  act_SubmittedAt : option Time;
  act_LastObservedAt : option Time;
  act_Deadline : option Time;
  act_Reason : string;
}.

Record NodeMigrationOperationOutcome := MkOutcome {
  out_ActionID : string;
  out_Kind : NodeMigrationActionKind;
  out_State : NodeMigrationOutcomeState;
  out_OwnerVCenter : string;
  out_TaskReference : option NodeMigrationTaskReference;
  out_Reason : string;
  out_ObservedAt : option Time;
  out_CompletedAt : option Time;
}.

Record NodeMigrationIntervention := MkIntervention {
  int_ExecutionID : string;
  int_ActionID : string;
  int_NodeName : string;
  int_Reason : string;
  int_Since : Time;
}.

Record NodeMigrationRecoveryAcknowledgement := MkRecoveryAcknowledgement {
  ra_RequestID : string;
  ra_ExecutionID : string;
  ra_ActionID : string;
  ra_ConsumedAt : Time;
}.

Record NodeMigrationCleanupProgress := MkCleanupProgress {
  cup_Phase : NodeMigrationCleanupPhase;
  cup_LastTransitionTime : option Time;
  cup_Reason : string;
}.

Record NodeMigrationProgress := MkNodeProgress {
  np_Name : string;
  np_State : NodeMigrationState;
  np_RequestedMode : option VMotionMode;
  np_ObservedMode : option VMotionMode;
  np_VMBIOSUUID : string;
  np_NodeUID : string;
  np_ProviderID : string;
  np_OriginalSchedulingState : option NodeMigrationSchedulingState;
  np_TargetFailureDomain : string;
  np_TargetHost : string;
  np_TargetResourcePool : string;
  np_TargetDatastore : string;
  np_TargetNetwork : string;
  np_SourceInventoryPath : string;
  np_TargetInventoryPath : string;
  np_ShutdownOutcome : option NodeMigrationOperationOutcome;
  np_RelocationOutcome : option NodeMigrationOperationOutcome;
  np_PowerOnOutcome : option NodeMigrationOperationOutcome;
  np_Message : string;
  np_LastTransitionTime : option Time;
  np_StartedAt : option Time;
  np_CompletedAt : option Time;
}.

Record RoleMigrationStatus := MkRoleMigrationStatus {
  rst_RequestedMode : option VMotionMode;
  rst_ObservedMode : option VMotionMode;
  rst_Total : Z;
  rst_Pending : Z;
  rst_InProgress : Z;
  rst_Succeeded : Z;
  rst_Failed : Z;
  rst_Nodes : list NodeMigrationProgress;
}.

Record NodeMigrationStatus := MkNodeMigrationStatus {
  nst_Type : NodeMigrationType;
  nst_Progress : string;
  nst_ControlPlane : option RoleMigrationStatus;
  nst_Workers : option RoleMigrationStatus;
  nst_ExecutionID : string;
  nst_MigrationUID : string;
  nst_PlanFingerprint : string;
  nst_FrozenPlan : option NodeMigrationFrozenPlan;
  nst_ActiveAction : option NodeMigrationAction;
  nst_Intervention : option NodeMigrationIntervention;
  nst_RecoveryAcknowledgement : option NodeMigrationRecoveryAcknowledgement;
  nst_Cleanup : option NodeMigrationCleanupProgress;
}.

(** *** The schema of the status *)

Definition validFrozenPlan (p : NodeMigrationFrozenPlan) : bool :=
  lengthWithin 1 512 (fp_SourceVCenter p) && lengthWithin 1 253 (fp_SourceDatacenter p) &&
  lengthWithin 1 512 (fp_DestinationVCenter p).

Definition validTaskReference (t : NodeMigrationTaskReference) : bool :=
  lengthWithin 1 512 (tr_OwnerVCenter t) && lengthWithin 1 512 (tr_TaskID t).

(** The two CEL rules shared by actions and outcomes: a task is interpreted in the vCenter
    that owns the operation, and a guest shutdown has no task. *)
Definition taskRules (kind : NodeMigrationActionKind) (owner : string) (t : option NodeMigrationTaskReference) : bool :=
  whenSome (fun t => validTaskReference t && String.eqb (tr_OwnerVCenter t) owner) t &&
  (negb (bool_decide (kind = NodeMigrationActionShutdownGuest)) || negb (bool_decide (is_Some t))).

Definition validAction (a : NodeMigrationAction) : bool :=
  IsUUID (act_ActionID a) && IsUUID (act_ExecutionID a) && lengthWithin 1 253 (act_NodeName a) &&
  negb (String.eqb (act_NodeUID a) "") && lengthWithin 1 64 (act_VMBIOSUUID a) && lengthWithin 1 512 (act_OwnerVCenter a) &&
  digest64 (act_OperationIdentity a) && taskRules (act_Kind a) (act_OwnerVCenter a) (act_TaskReference a) &&
  lengthWithin 0 1024 (act_Reason a).

Definition validOutcome (o : NodeMigrationOperationOutcome) : bool :=
  IsUUID (out_ActionID o) && lengthWithin 1 512 (out_OwnerVCenter o) &&
  taskRules (out_Kind o) (out_OwnerVCenter o) (out_TaskReference o) && lengthWithin 0 1024 (out_Reason o).

Definition validIntervention (i : NodeMigrationIntervention) : bool :=
  IsUUID (int_ExecutionID i) && IsUUID (int_ActionID i) && lengthWithin 1 253 (int_NodeName i) && lengthWithin 1 1024 (int_Reason i).

Definition validRecoveryAcknowledgement (r : NodeMigrationRecoveryAcknowledgement) : bool :=
  IsUUID (ra_RequestID r) && IsUUID (ra_ExecutionID r) && IsUUID (ra_ActionID r).

Definition validCleanupProgress (c : NodeMigrationCleanupProgress) : bool := lengthWithin 0 1024 (cup_Reason c).

(** An outcome field holds an outcome of its own kind. *)
Definition outcomeOf (kind : NodeMigrationActionKind) (o : option NodeMigrationOperationOutcome) : bool :=
  whenSome (fun o => validOutcome o && bool_decide (out_Kind o = kind)) o.

Definition validNodeProgress (n : NodeMigrationProgress) : bool :=
  lengthWithin 1 253 (np_Name n) && whenSet (lengthWithin 1 64) (np_VMBIOSUUID n) && whenSet (lengthWithin 1 512) (np_ProviderID n) &&
  whenSet (lengthWithin 1 253) (np_TargetFailureDomain n) &&
  forallb (whenSet (lengthWithin 1 1024))
    [np_TargetHost n; np_TargetResourcePool n; np_TargetDatastore n; np_TargetNetwork n; np_SourceInventoryPath n; np_TargetInventoryPath n] &&
  outcomeOf NodeMigrationActionShutdownGuest (np_ShutdownOutcome n) &&
  outcomeOf NodeMigrationActionRelocateVM (np_RelocationOutcome n) &&
  outcomeOf NodeMigrationActionPowerOnVM (np_PowerOnOutcome n) &&
  lengthWithin 0 1024 (np_Message n).

(** [+listType=map], [+listMapKey=name]: the keys are distinct. *)
Definition validRoleStatus (r : RoleMigrationStatus) : bool :=
  (length (rst_Nodes r) <=? 500)%nat && bool_decide (NoDup (np_Name <$> rst_Nodes r)) && forallb validNodeProgress (rst_Nodes r).

Definition validNodeMigrationStatus (s : NodeMigrationStatus) : bool :=
  lengthWithin 0 256 (nst_Progress s) && whenSome validRoleStatus (nst_ControlPlane s) &&
  whenSome validRoleStatus (nst_Workers s) && whenSet IsUUID (nst_ExecutionID s) && whenSet digest64 (nst_PlanFingerprint s) &&
  whenSome validFrozenPlan (nst_FrozenPlan s) && whenSome validAction (nst_ActiveAction s) &&
  whenSome validIntervention (nst_Intervention s) && whenSome validRecoveryAcknowledgement (nst_RecoveryAcknowledgement s) &&
  whenSome validCleanupProgress (nst_Cleanup s).

(** ** What the schema guarantees *)

(** *** The selection *)

(** What an admitted selection means: relocation in one mode, one node at a time, or the
    replacement of machines with a rolling limit for the workers. *)
Inductive Engine :=
| Relocate (mode : VMotionMode)
| Replace (workersMaxUnavailable : Z).

Definition engineOk (e : Engine) : Prop := match e with Relocate _ => True | Replace n => (1 <= n <= 32767)%Z end.

(** The spec that selects an engine. *)
Definition engineSpec (e : Engine) (request : option NodeMigrationRecoveryRequest) : NodeMigrationSpec :=
  match e with
  | Relocate mode =>
      let role := MkRoleMigrationSpec NodeMigrationTypeVMotion (Some (MkVMotionSpec mode)) 1 in
      MkNodeMigrationSpec role role request
  | Replace n =>
      MkNodeMigrationSpec (MkRoleMigrationSpec NodeMigrationTypeRecreate None n)
        (MkRoleMigrationSpec NodeMigrationTypeRecreate None 1) request
  end.

Lemma validNodeMigration_engine nm :
  validNodeMigration nm = true <->
  exists e, engineOk e /\ whenSome validRecoveryRequest (nms_RecoveryRequest nm) = true /\
    nm = engineSpec e (nms_RecoveryRequest nm).
Proof.
  split; [|intros (e & He & Hr & ->)].
  - destruct nm as [[[] [[wm]|] wn] [[] [[cm]|] cn] rr]; unfold validNodeMigration, validRole, sameMode; cbn;
      rewrite ?bool_decide_true by done; cbn; intros Hv; reflect_bools; try done.
    + exists (Relocate wm). by simplify_eq.
    + exists (Replace wn). by simplify_eq.
  - unfold validNodeMigration. destruct e as [mode|n]; cbn in *; rewrite Hr; unfold validRole, sameMode; cbn.
    + by rewrite !bool_decide_true.
    + by rewrite (proj2 (Z.leb_le 1 n)), (proj2 (Z.leb_le n 32767)) by lia.
Qed.

(** The limit a manifest gives: the number, or nothing for 1. *)
Definition limitIs (n : Z) (limit : option Z) : Prop := limit = Some n \/ limit = None /\ n = 1%Z.

Lemma limit_not_zero n : (1 <= n)%Z -> ~ limitIs n (Some 0%Z).
Proof. intros Hn [[= <-]|[? _]]; [lia|done]. Qed.

(** The manifests that select an engine. *)
Definition selects (e : Engine) (nm : NodeMigrationManifest) : Prop :=
  let role (t : NodeMigrationType) (vmotion : option VMotionSpec) (n : Z) (r : RoleMigrationManifest) :=
    rmm_Type r = t /\ rmm_VMotion r = vmotion /\ limitIs n (rmm_MaxUnavailable r) in
  match e with
  | Relocate mode =>
      role NodeMigrationTypeVMotion (Some (MkVMotionSpec mode)) 1%Z (nmm_Workers nm) /\
      role NodeMigrationTypeVMotion (Some (MkVMotionSpec mode)) 1%Z (nmm_ControlPlane nm)
  | Replace n =>
      role NodeMigrationTypeRecreate None n (nmm_Workers nm) /\ role NodeMigrationTypeRecreate None 1%Z (nmm_ControlPlane nm)
  end.

Lemma defaulted_role t v n r : defaultRole r = MkRoleMigrationSpec t v n <-> rmm_Type r = t /\ rmm_VMotion r = v /\ limitIs n (rmm_MaxUnavailable r).
Proof.
  unfold limitIs. destruct r as [t' v' [k|]]; unfold defaultRole; cbn; split.
  - intros [= -> -> ->]. auto.
  - by intros (-> & -> & [[= ->]|[? _]]).
  - intros [= -> -> <-]. auto.
  - by intros (-> & -> & [?|[_ ->]]).
Qed.

Lemma defaulted_engine e nm : defaultNodeMigration nm = engineSpec e (nmm_RecoveryRequest nm) <-> selects e nm.
Proof.
  destruct e as [mode|n]; cbv beta iota zeta delta [engineSpec selects]; rewrite <- !defaulted_role; unfold defaultNodeMigration;
    (split; [intros Heq; exact (conj (f_equal nms_Workers Heq) (f_equal nms_ControlPlane Heq))|by intros [-> ->]]).
Qed.

(** C34: An admitted node migration selection is exactly one engine.  The API server admits a
    selection, defaults applied, if and only if its manifest relocates both roles in one
    common mode with one node at a time, or recreates both roles with one control plane
    machine and between 1 and 32767 workers at a time, where a limit of 1 may be omitted, and
    carries a well-formed recovery request or none; what is stored is then that engine.  Mixed
    roles, mixed modes, a missing or stray vmotion block and other limits, an explicit 0
    included, are all rejected. *)
Theorem nodeMigration_one_engine (nm : NodeMigrationManifest) :
  (validNodeMigration (defaultNodeMigration nm) = true <->
   exists e, engineOk e /\ whenSome validRecoveryRequest (nmm_RecoveryRequest nm) = true /\ selects e nm) /\
  (forall e, selects e nm <-> defaultNodeMigration nm = engineSpec e (nmm_RecoveryRequest nm)) /\
  ~ ((rmm_MaxUnavailable (nmm_Workers nm) = Some 0%Z \/ rmm_MaxUnavailable (nmm_ControlPlane nm) = Some 0%Z) /\
     validNodeMigration (defaultNodeMigration nm) = true).
Proof.
  assert (validNodeMigration (defaultNodeMigration nm) = true <->
   exists e, engineOk e /\ whenSome validRecoveryRequest (nmm_RecoveryRequest nm) = true /\ selects e nm) as Hv.
  { rewrite validNodeMigration_engine. cbn [nms_RecoveryRequest defaultNodeMigration]. by setoid_rewrite defaulted_engine. }
  split_and!; [done|intros e; symmetry; apply defaulted_engine|]. rewrite Hv.
  intros (Hz & e & He & _ & Hs). unfold selects in Hs. destruct e; cbn in Hs, He; destruct Hs as ((_ & _ & Hw) & _ & _ & Hc);
    (destruct Hz as [Hz|Hz]; [rewrite Hz in Hw; apply limit_not_zero in Hw|rewrite Hz in Hc; apply limit_not_zero in Hc]); (done || lia).
Qed.

(** *** The record of operations *)

(** An operation the record speaks of: its kind, the vCenter that owns it, its action and
    the task it refers to. *)
Record Operation := MkOperation {
  op_Kind : NodeMigrationActionKind;
  op_Owner : string;
  op_ActionID : string;
  op_Task : option NodeMigrationTaskReference;
}.

Definition actionOperation (a : NodeMigrationAction) : Operation :=
  MkOperation (act_Kind a) (act_OwnerVCenter a) (act_ActionID a) (act_TaskReference a).
Definition outcomeOperation (o : NodeMigrationOperationOutcome) : Operation :=
  MkOperation (out_Kind o) (out_OwnerVCenter o) (out_ActionID o) (out_TaskReference o).

Definition nodeOutcomes (n : NodeMigrationProgress) : list NodeMigrationOperationOutcome :=
  option_list (np_ShutdownOutcome n) ++ option_list (np_RelocationOutcome n) ++ option_list (np_PowerOnOutcome n).
Definition statusNodes (s : NodeMigrationStatus) : list NodeMigrationProgress :=
  from_option rst_Nodes [] (nst_ControlPlane s) ++ from_option rst_Nodes [] (nst_Workers s).
Definition statusOperations (s : NodeMigrationStatus) : list Operation :=
  option_list (actionOperation <$> nst_ActiveAction s) ++
  (statusNodes s ≫= fun n => outcomeOperation <$> nodeOutcomes n).

(** A well-formed operation: a task belongs to the owner, and never to a guest shutdown. *)
Definition operationOk (o : Operation) : Prop :=
  IsUUID (op_ActionID o) = true /\
  forall t, op_Task o = Some t ->
    tr_OwnerVCenter t = op_Owner o /\ tr_TaskID t <> "" /\ op_Kind o <> NodeMigrationActionShutdownGuest.

Lemma lengthWithin_nonempty n s : lengthWithin 1 n s = true -> s <> "".
Proof. by intros H ->. Qed.

Lemma taskRules_ok kind owner id t :
  IsUUID id = true -> taskRules kind owner t = true -> operationOk (MkOperation kind owner id t).
Proof.
  intros Hid Ht. unfold taskRules in Ht. split; [done|]. intros t' [= ->]. cbn in *. reflect_bools.
  unfold validTaskReference in *. reflect_bools. split_and!; [done|by eapply lengthWithin_nonempty|].
  intros ->. by rewrite bool_decide_true in *.
Qed.

Lemma validAction_ok a : validAction a = true -> operationOk (actionOperation a).
Proof. unfold validAction. intros Hv. reflect_bools. by apply taskRules_ok. Qed.
Lemma validOutcome_ok o : validOutcome o = true -> operationOk (outcomeOperation o).
Proof. unfold validOutcome. intros Hv. reflect_bools. by apply taskRules_ok. Qed.

(** A node records at most one outcome of each kind. *)
Lemma validNode_outcomes n :
  validNodeProgress n = true ->
  Forall (fun o => validOutcome o = true) (nodeOutcomes n) /\ NoDup (out_Kind <$> nodeOutcomes n).
Proof.
  unfold validNodeProgress, outcomeOf, nodeOutcomes. intros Hv. reflect_bools.
  destruct (np_ShutdownOutcome n), (np_RelocationOutcome n), (np_PowerOnOutcome n); cbn in *; reflect_bools;
    (split; [by repeat constructor|]);
    repeat match goal with H : out_Kind _ = _ |- _ => rewrite H; clear H end; apply (bool_decide_unpack _); vm_compute; done.
Qed.

Lemma validStatus_nodes s : validNodeMigrationStatus s = true -> Forall (fun n => validNodeProgress n = true) (statusNodes s).
Proof.
  unfold validNodeMigrationStatus, validRoleStatus, statusNodes. intros Hv. reflect_bools.
  apply Forall_app; split; [destruct (nst_ControlPlane s)|destruct (nst_Workers s)]; cbn in *; reflect_bools; try done;
    by apply Forall_forall; intros n Hn; eapply forallb_forall; [eassumption|by apply list_elem_of_In].
Qed.

(** An admitted node migration record is unambiguous.  Every operation it speaks of, the
    claimed action and each node's outcomes, has a UUID; a task it refers to is a task of the
    operation's own vCenter, never of a guest shutdown; a node has at most one outcome of each
    kind; and a role has at most 500 nodes, each under its own name. *)
Theorem nodeMigration_record_unambiguous (s : NodeMigrationStatus) :
  validNodeMigrationStatus s = true ->
  Forall operationOk (statusOperations s) /\
  Forall (fun n => np_Name n <> "" /\ NoDup (out_Kind <$> nodeOutcomes n)) (statusNodes s) /\
  forall r, nst_ControlPlane s = Some r \/ nst_Workers s = Some r -> length (rst_Nodes r) <= 500 /\ NoDup (np_Name <$> rst_Nodes r).
Proof.
  intros Hv. pose proof (validStatus_nodes s Hv) as Hnodes. rewrite Forall_forall in Hnodes. split_and!.
  - apply Forall_app; split.
    + unfold validNodeMigrationStatus in Hv. reflect_bools. destruct (nst_ActiveAction s); [|done]. by apply Forall_singleton, validAction_ok.
    + apply Forall_bind, Forall_forall. intros n Hn. apply Forall_fmap.
      eapply Forall_impl; [apply validNode_outcomes, Hnodes, Hn|]. intros o. apply validOutcome_ok.
  - apply Forall_forall. intros n Hn. specialize (Hnodes n Hn). split; [|by apply validNode_outcomes].
    unfold validNodeProgress in Hnodes. reflect_bools. by eapply lengthWithin_nonempty.
  - unfold validNodeMigrationStatus, validRoleStatus in Hv. reflect_bools.
    by intros r [E|E]; rewrite E in *; cbn in *; reflect_bools.
Qed.

Lemma nodeMigration_record_unambiguous_witness :
  let id := "11111111-1111-4111-8111-111111111111" in
  let task := MkTaskReference "vc-old" "task-7" in
  let moved := MkOutcome id NodeMigrationActionRelocateVM NodeMigrationOutcomeSucceeded "vc-old" (Some task) "" None None in
  let node := MkNodeProgress "worker-0" NodeMigrationStateSucceeded None None "" "" "" None "" "" "" "" "" "" ""
                None (Some moved) None "" None None None in
  let s := MkNodeMigrationStatus NodeMigrationTypeVMotion "" None
             (Some (MkRoleMigrationStatus None None 1 0 0 1 0 [node])) id "uid" "" None None None None None in
  Forall operationOk (statusOperations s).
Proof. intros id task moved node s. refine (proj1 (nodeMigration_record_unambiguous s _)). vm_compute. reflexivity. Defined.

(** Canonical UUIDs are admitted; so is one written without hyphens. *)
Example IsUUID_canonical : IsUUID "11111111-1111-4111-8111-111111111111" = true /\ canonicalUUID "11111111-1111-4111-8111-111111111111" = true.
Proof. vm_compute. done. Qed.
Example IsUUID_unhyphenated : IsUUID "11111111111141118111111111111111" = true /\ canonicalUUID "11111111111141118111111111111111" = false.
Proof. vm_compute. done. Qed.
