(* ===== verification/Types.v ===== *)
(** * The VmwareCloudFoundationMigration API (api/v1alpha1)

    The custom resource, its constants, and the condition helpers of
    k8s.io/apimachinery/pkg/api/meta the operator uses on its status. *)

From S2P Require Import Prelude GoErrors Objects NodeMigration.

(** ** Constants *)

Abbreviation MigrationState := string (only parsing).
Definition MigrationStatePending : MigrationState := "Pending".
Definition MigrationStateRunning : MigrationState := "Running".
Definition MigrationStatePaused : MigrationState := "Paused".

Definition SingletonName := "cluster".
Definition SingletonNamespace := "openshift-vcf-migration".
Definition FinalizerName := "migration.openshift.io/record-retention".
Definition AnnotationAllowDeletion := "migration.openshift.io/allow-deletion".

Definition ConditionInfrastructurePrepared := "InfrastructurePrepared".
Definition ConditionDestinationInitialized := "DestinationInitialized".
Definition ConditionMultiSiteConfigured := "MultiSiteConfigured".
Definition ConditionWorkloadMigrated := "WorkloadMigrated".
Definition ConditionSourceCleaned := "SourceCleaned".
Definition ConditionReady := "Ready".
Definition ConditionAccepted := "Accepted".

Definition ReasonProgressing := "Progressing".
Definition ReasonCompleted := "Completed".
Definition ReasonFailed := "Failed".
Definition ReasonMappingRejected := "MappingRejected".
Definition ReasonPaused := "Paused".
Definition ReasonRetrying := "Retrying".
Definition ReasonUnsupportedName := "UnsupportedName".
Definition ReasonUnsupportedNamespace := "UnsupportedNamespace".
Definition ReasonDeletionBlocked := "DeletionBlocked".

(** ** Progress *)

Record WorkerMigrationProgress := MkWorkerMigrationProgress {
  TargetMachinesTotal : Z;
  TargetMachinesReady : Z;
  TargetNodesReady : Z;
  SourceMachinesRemaining : Z;
}.

Record ControlPlaneProgress := MkControlPlaneProgress {
  cpp_Replicas : Z;
  cpp_UpdatedReplicas : Z;
  cpp_ReadyReplicas : Z;
}.

Record MigrationProgress := MkMigrationProgress {
  Workers : option WorkerMigrationProgress;
  ControlPlane : option ControlPlaneProgress;
}.

#[global] Instance WorkerMigrationProgress_eq_dec : EqDecision WorkerMigrationProgress.
Proof. solve_decision. Defined.
#[global] Instance ControlPlaneProgress_eq_dec : EqDecision ControlPlaneProgress.
Proof. solve_decision. Defined.
#[global] Instance MigrationProgress_eq_dec : EqDecision MigrationProgress.
Proof. solve_decision. Defined.

(** ** Spec *)

Record SecretReference := MkSecretReference { sr_Name : string; sr_Namespace : string }.

Record FailureDomainMapping := MkMapping { Source : string; Destination : string }.

Record MigrationSpec := MkSpec {
  State : MigrationState;
  TargetVCenterCredentialsSecret : SecretReference;
  FailureDomains : list FailureDomain;
  FailureDomainMappings : list FailureDomainMapping;
  NodeMigration : option NodeMigrationSpec;
}.

#[global] Instance SecretReference_eq_dec : EqDecision SecretReference.
Proof. solve_decision. Defined.
#[global] Instance FailureDomainMapping_eq_dec : EqDecision FailureDomainMapping.
Proof. solve_decision. Defined.
(** [reflect.DeepEqual] on specs. *)
#[global] Instance MigrationSpec_eq_dec : EqDecision MigrationSpec.
Proof. solve_decision. Defined.

(** ** Status *)

(** [status.nodeMigration] is written by no code of this version; every status update carries it over. *)
Record MigrationStatus := MkStatus {
  Progress : option MigrationProgress;
  Conditions : list Condition;
  StatusMappings : list FailureDomainMapping;
  WorkerMachineSetNames : list string;
  SourceVCenter : string;
  StartTime : option Time;
  LastUpdateTime : option Time;
  CompletionTime : option Time;
  CompletionSpecHash : string;
  StatusNodeMigration : option NodeMigrationStatus;
}.

Definition set_Progress (p : option MigrationProgress) (s : MigrationStatus) : MigrationStatus :=
  MkStatus p (Conditions s) (StatusMappings s) (WorkerMachineSetNames s) (SourceVCenter s) (StartTime s)
    (LastUpdateTime s) (CompletionTime s) (CompletionSpecHash s) (StatusNodeMigration s).
Definition set_Conditions (c : list Condition) (s : MigrationStatus) : MigrationStatus :=
  MkStatus (Progress s) c (StatusMappings s) (WorkerMachineSetNames s) (SourceVCenter s) (StartTime s)
    (LastUpdateTime s) (CompletionTime s) (CompletionSpecHash s) (StatusNodeMigration s).
Definition set_StatusMappings (m : list FailureDomainMapping) (s : MigrationStatus) : MigrationStatus :=
  MkStatus (Progress s) (Conditions s) m (WorkerMachineSetNames s) (SourceVCenter s) (StartTime s)
    (LastUpdateTime s) (CompletionTime s) (CompletionSpecHash s) (StatusNodeMigration s).
Definition set_WorkerNames (n : list string) (s : MigrationStatus) : MigrationStatus :=
  MkStatus (Progress s) (Conditions s) (StatusMappings s) n (SourceVCenter s) (StartTime s)
    (LastUpdateTime s) (CompletionTime s) (CompletionSpecHash s) (StatusNodeMigration s).
Definition set_SourceVCenter (v : string) (s : MigrationStatus) : MigrationStatus :=
  MkStatus (Progress s) (Conditions s) (StatusMappings s) (WorkerMachineSetNames s) v (StartTime s)
    (LastUpdateTime s) (CompletionTime s) (CompletionSpecHash s) (StatusNodeMigration s).
Definition set_StartTime (t : option Time) (s : MigrationStatus) : MigrationStatus :=
  MkStatus (Progress s) (Conditions s) (StatusMappings s) (WorkerMachineSetNames s) (SourceVCenter s) t
    (LastUpdateTime s) (CompletionTime s) (CompletionSpecHash s) (StatusNodeMigration s).
Definition set_LastUpdateTime (t : option Time) (s : MigrationStatus) : MigrationStatus :=
  MkStatus (Progress s) (Conditions s) (StatusMappings s) (WorkerMachineSetNames s) (SourceVCenter s) (StartTime s)
    t (CompletionTime s) (CompletionSpecHash s) (StatusNodeMigration s).
Definition set_Completion (t : option Time) (h : string) (s : MigrationStatus) : MigrationStatus :=
  MkStatus (Progress s) (Conditions s) (StatusMappings s) (WorkerMachineSetNames s) (SourceVCenter s) (StartTime s)
    (LastUpdateTime s) t h (StatusNodeMigration s).

(** ** The resource *)

Record Migration := MkMigration {
  mig_Name : string;
  mig_Namespace : string;
  mig_UID : string;
  mig_ResourceVersion : string;
  mig_Generation : Z;
  mig_DeletionTimestamp : option Time;
  mig_Annotations : gmap string string;
  mig_Finalizers : list string;
  mig_Spec : MigrationSpec;
  mig_Status : MigrationStatus;
}.

Definition upd_Status (f : MigrationStatus -> MigrationStatus) (m : Migration) : Migration :=
  MkMigration (mig_Name m) (mig_Namespace m) (mig_UID m) (mig_ResourceVersion m) (mig_Generation m)
    (mig_DeletionTimestamp m) (mig_Annotations m) (mig_Finalizers m) (mig_Spec m) (f (mig_Status m)).
Definition set_Finalizers (f : list string) (m : Migration) : Migration :=
  MkMigration (mig_Name m) (mig_Namespace m) (mig_UID m) (mig_ResourceVersion m) (mig_Generation m)
    (mig_DeletionTimestamp m) (mig_Annotations m) f (mig_Spec m) (mig_Status m).

(** ** Condition helpers (k8s.io/apimachinery/pkg/api/meta) *)

Fixpoint FindStatusCondition (conds : list Condition) (t : string) : option Condition :=
  match conds with
  | [] => None
  | c :: rest => if String.eqb (c_Type c) t then Some c else FindStatusCondition rest t
  end.

Definition RemoveStatusCondition (conds : list Condition) (t : string) : list Condition :=
  filter (fun c => String.eqb (c_Type c) t = false) conds.

(** The update of an existing condition: the transition time moves only with the status. *)
Definition mergeCondition (now : Time) (old new : Condition) : Condition :=
  MkCondition (c_Type old) (c_Status new) (c_ObservedGeneration new)
    (if String.eqb (c_Status old) (c_Status new) then c_LastTransitionTime old
     else match c_LastTransitionTime new with Some t => Some t | None => Some now end)
    (c_Reason new) (c_Message new).

Definition stampCondition (now : Time) (new : Condition) : Condition :=
  MkCondition (c_Type new) (c_Status new) (c_ObservedGeneration new)
    (match c_LastTransitionTime new with Some t => Some t | None => Some now end)
    (c_Reason new) (c_Message new).

(** [SetStatusCondition]: update the first condition of that type in place, or append. *)
Fixpoint SetStatusCondition (now : Time) (conds : list Condition) (new : Condition) : list Condition :=
  match conds with
  | [] => [stampCondition now new]
  | c :: rest =>
      if String.eqb (c_Type c) (c_Type new) then mergeCondition now c new :: rest
      else c :: SetStatusCondition now rest new
  end.

(** Setting a condition fixes what a lookup of that type finds. *)
Lemma Find_Set_same now conds new :
  exists c, FindStatusCondition (SetStatusCondition now conds new) (c_Type new) = Some c /\
    c_Status c = c_Status new /\ c_Reason c = c_Reason new /\ c_Message c = c_Message new /\
    c_ObservedGeneration c = c_ObservedGeneration new.
Proof.
  induction conds as [|c rest IH]; simpl.
  - rewrite String.eqb_refl. by eexists.
  - destruct (String.eqb (c_Type c) (c_Type new)) eqn:E; simpl.
    + rewrite E. by eexists.
    + rewrite E. apply IH.
Qed.

(** Other conditions are left alone. *)
Lemma Find_Set_other now conds new t :
  t <> c_Type new ->
  FindStatusCondition (SetStatusCondition now conds new) t = FindStatusCondition conds t.
Proof.
  intros Hne. induction conds as [|c rest IH]; simpl.
  - destruct (String.eqb_spec (c_Type new) t); congruence.
  - destruct (String.eqb_spec (c_Type c) (c_Type new)) as [E|E]; simpl.
    + destruct (String.eqb_spec (c_Type c) t); congruence.
    + by rewrite IH.
Qed.

Lemma Find_Remove_same conds t : FindStatusCondition (RemoveStatusCondition conds t) t = None.
Proof.
  unfold RemoveStatusCondition. induction conds as [|c rest IH]; [done|].
  rewrite filter_cons. case_decide as E; simpl; [by rewrite E | done].
Qed.

Lemma Find_Remove_other conds t t' :
  t' <> t -> FindStatusCondition (RemoveStatusCondition conds t) t' = FindStatusCondition conds t'.
Proof.
  intros Hne. unfold RemoveStatusCondition. induction conds as [|c rest IH]; [done|].
  rewrite filter_cons; simpl.
  case_decide as E; simpl; rewrite IH; [done|].
  apply not_false_is_true, String.eqb_eq in E. subst t.
  by destruct (String.eqb_spec (c_Type c) t'); [congruence|].
Qed.

Lemma Find_None conds t c : FindStatusCondition conds t = None -> c ∈ conds -> c_Type c <> t.
Proof.
  intros Hf Hin. induction conds as [|d rest IH]; [by apply not_elem_of_nil in Hin|]. cbn in Hf.
  destruct (String.eqb_spec (c_Type d) t); [done|]. apply elem_of_cons in Hin as [->|Hin]; auto.
Qed.

Lemma Find_In conds t c : FindStatusCondition conds t = Some c -> In c conds /\ c_Type c = t.
Proof.
  induction conds as [|d rest IH]; simpl; [done|].
  destruct (String.eqb_spec (c_Type d) t) as [E|E]; [intros; simplify_eq; auto|].
  intros [? ?]%IH; auto.
Qed.
