(* ===== verification/Effects.v ===== *)
(** * The services the operator talks to, and programs over them

    The Kubernetes API server, the vCenters, the clock, the event recorder and Go's
    unspecified map iteration order are not part of the operator: each use of one is a
    [call], answered by an arbitrary environment.  A piece of the operator is a [Prog]:
    a finite tree of calls.  What is proved of a [Prog] with [wp] holds for every
    environment, hence for every interleaving with other writers. *)

From S2P Require Import Prelude GoErrors Objects Types.

(** ** vSphere objects *)

(** A managed object reference with the inventory path the finder filled in. *)
Record ObjRef := MkObjRef { o_Ref : string; o_InventoryPath : string }.

(** The finder's lookups. *)
Inductive FindKind := FDatacenter | FCluster | FDatastore | FNetwork | FResourcePool | FFolder | FVirtualMachine.

(** A connected session: the SOAP client, the REST client and the datacenter it is scoped to. *)
Record Session := MkSession {
  sess_Client : string;
  sess_Rest : string;
  sess_Datacenter : string;
  sess_RootFolder : ObjRef;
}.

(** [tags.Category]. *)
Record Category := MkCategory { cat_ID : string; cat_Name : string; cat_Description : string;
                                cat_Cardinality : string; cat_AssociableTypes : list string }.

(** Guest info of a VM: tools status, the default-route table and the NICs. *)
Record GuestRoute := MkGuestRoute { gr_Network : string; gr_PrefixLength : Z; gr_Gateway : string }.
Record GuestNic := MkGuestNic { gn_Connected : bool; gn_IpConfig : list (string * Z); gn_IpAddress : list string }.
Record GuestInfo := MkGuestInfo { g_ToolsRunningStatus : string; g_IpStack : list (list GuestRoute); g_Net : list GuestNic }.

(** A virtual device: its key and whether it is an ethernet card. *)
Record VirtualDevice := MkVirtualDevice { dev_Key : Z; dev_Nic : bool; dev_id : string }.

(** The backing of an ethernet card: a standard network, by name and perhaps by reference,
    or another kind. *)
Inductive Backing :=
| NetworkBacking (deviceName : string) (network : option string)
| OtherBacking (id : string).

(** One device change of a clone. *)
Inductive DeviceChange :=
| EditNic (dev : VirtualDevice) (backing : Backing)
| RemoveDevice (dev : VirtualDevice)
| AddNic (key : Z) (backing : Backing).

Record CloneSpec := MkCloneSpec {
  cl_Folder : string; cl_Datastore : string; cl_Pool : string; cl_PowerOn : bool;
  cl_Name : string; cl_ExtraConfig : list (string * string); cl_DeviceChange : list DeviceChange;
}.

(** ** Calls *)

Inductive call :=
(* clock, events, map order *)
| CNow
| CEvent (type reason note : string)
| CRange (keys : list string)
| CTick
(* the migration resource, through the cached client or the uncached APIReader *)
| CGetMigration (cached : bool) (namespace name : string)
| CUpdateMigrationStatus (m : Migration)
| CPatchMigration (latest base : Migration)
(* Machine API *)
| CGetMachineSet (name : string)
| CListMachineSets
| CCreateMachineSet (ms : MachineSet)
| CUpdateMachineSet (ms : MachineSet)
| CDeleteMachineSet (name : string)
| CGetCPMS
| CUpdateCPMS (cpms : CPMS)
| CListMachines (key : string) (values : list string)
| CGetNode (name : string)
| CListNodes
(* cluster configuration *)
| CGetInfrastructure
| CUpdateInfrastructure (infra : Infrastructure)
| CListClusterOperators
| CGetClusterOperator (name : string)
| CGetClusterVersion
| CGetFeatureGate
| CListMachineConfigPools
| CGetSecret (namespace name : string)
| CUpdateSecret (namespace : string) (secret : Secret)
| CCreateSecret (namespace : string) (secret : Secret)
| CGetConfigMap (namespace name : string)
| CUpdateConfigMap (namespace : string) (cm : ConfigMap)
| CListPods (namespace : string) (labels : list (string * string))
| CDeletePod (namespace name : string)
| CListPersistentVolumes
| CDynamicGet (resource name : string)
| CDynamicList (resource : string)
(* vCenter *)
| VNewClient (host user : string) (insecure : bool)
| VLogin (client user password : string)
| VRestLogin (client user password : string)
| VLogout (client : string)
| VRestLogout (rest : string)
| VListDatacenters (client : string)
| VFind (s : Session) (kind : FindKind) (path : string)
| VFindVMs (s : Session) (pattern : string)
| VVMFolder (s : Session) (dc : ObjRef)
| VCreateFolder (s : Session) (parent : ObjRef) (name : string)
| VDestroy (s : Session) (obj : ObjRef)
| VPowerOff (s : Session) (vm : ObjRef)
| VWaitTask (s : Session) (task : string)
| VGetCategory (s : Session) (name : string)
| VListTagsForCategory (s : Session) (id : string)
| VListAttachedTags (s : Session) (ref : string)
| VCreateCategory (s : Session) (cat : Category)
| VGetTagForCategory (s : Session) (name categoryID : string)
| VCreateTag (s : Session) (name description categoryID : string)
| VAttachTag (s : Session) (tagID ref : string)
| VUserSession (s : Session)
| VHasPrivileges (s : Session) (entity user : string) (privileges : list string)
| VDevices (s : Session) (vm : ObjRef)
| VBacking (s : Session) (network : ObjRef)
| VClone (s : Session) (template : ObjRef) (folder : ObjRef) (name : string) (spec : CloneSpec)
| VWaitForResult (s : Session) (task : string)
| VPowerState (s : Session) (vm : ObjRef)
| VGuest (s : Session) (vm : ObjRef)
| VExtraConfig (s : Session) (vm : ObjRef).

(** What each call answers.  [CTick] waits for the next tick of a poll or the end of the
    context, whichever comes first: [true] is the tick.  The inventory lookups of govmomi
    never answer a nil object without an error; an absent VM folder is an empty
    reference. *)
Definition resp (c : call) : Type :=
  match c with
  | CNow => Time
  | CEvent _ _ _ => unit
  | CRange _ => list string
  | CTick => bool
  | CGetMigration _ _ _ => result Migration
  | CUpdateMigrationStatus _ => result unit
  | CPatchMigration _ _ => result unit
  | CGetMachineSet _ => result MachineSet
  | CListMachineSets => result (list MachineSet)
  | CCreateMachineSet _ => result MachineSet
  | CUpdateMachineSet _ => result MachineSet
  | CDeleteMachineSet _ => result unit
  | CGetCPMS => result CPMS
  | CUpdateCPMS _ => result CPMS
  | CListMachines _ _ => result (list Machine)
  | CGetNode _ => result Node
  | CListNodes => result (list Node)
  | CGetInfrastructure => result Infrastructure
  | CUpdateInfrastructure _ => result Infrastructure
  | CListClusterOperators => result (list ClusterOperator)
  | CGetClusterOperator _ => result ClusterOperator
  | CGetClusterVersion => result ClusterVersion
  | CGetFeatureGate => result FeatureGate
  | CListMachineConfigPools => result (list MachineConfigPool)
  | CGetSecret _ _ => result Secret
  | CUpdateSecret _ _ => result Secret
  | CCreateSecret _ _ => result Secret
  | CGetConfigMap _ _ => result ConfigMap
  | CUpdateConfigMap _ _ => result ConfigMap
  | CListPods _ _ => result (list Pod)
  | CDeletePod _ _ => result unit
  | CListPersistentVolumes => result (list PersistentVolume)
  | CDynamicGet _ _ => result Unstructured
  | CDynamicList _ => result (list Unstructured)
  | VNewClient _ _ _ => result (string * ObjRef)
  | VLogin _ _ _ => result unit
  | VRestLogin _ _ _ => result string
  | VLogout _ => result unit
  | VRestLogout _ => result unit
  | VListDatacenters _ => result (list ObjRef)
  | VFind _ _ _ => result ObjRef
  | VFindVMs _ _ => result (list ObjRef)
  | VVMFolder _ _ => result ObjRef
  | VCreateFolder _ _ _ => result ObjRef
  | VDestroy _ _ => result string
  | VPowerOff _ _ => result string
  | VWaitTask _ _ => result unit
  | VGetCategory _ _ => result Category
  | VListTagsForCategory _ _ => result (list string)
  | VListAttachedTags _ _ => result (list string)
  | VCreateCategory _ _ => result string
  | VGetTagForCategory _ _ _ => result string
  | VCreateTag _ _ _ _ => result string
  | VAttachTag _ _ _ => result unit
  | VUserSession _ => result (option string)
  | VHasPrivileges _ _ _ _ => result (list (list (string * bool)))
  | VDevices _ _ => result (list VirtualDevice)
  | VBacking _ _ => result Backing
  | VClone _ _ _ _ _ => result string
  | VWaitForResult _ _ => result (option string)
  | VPowerState _ _ => result string
  | VGuest _ _ => result (option GuestInfo)
  | VExtraConfig _ _ => result (option (list (string * string)))
  end.

(** The calls that change the cluster or a vCenter.  The operator's own record (the
    migration resource) is not among them: it is written under optimistic locking. *)
Definition mutating (c : call) : bool :=
  match c with
  | CCreateMachineSet _ | CUpdateMachineSet _ | CDeleteMachineSet _ | CUpdateCPMS _
  | CUpdateInfrastructure _ | CUpdateSecret _ _ | CCreateSecret _ _ | CUpdateConfigMap _ _
  | CDeletePod _ _ | VCreateFolder _ _ _ | VDestroy _ _ | VPowerOff _ _ | VCreateCategory _ _
  | VCreateTag _ _ _ _ | VAttachTag _ _ _ | VClone _ _ _ _ _ => true
  | _ => false
  end.

(** ** Programs *)

Inductive Prog (A : Type) : Type :=
| Ret (a : A)
| Vis (c : call) (k : resp c -> Prog A).
Arguments Ret {A}. Arguments Vis {A}.

Fixpoint bind {A B} (p : Prog A) (f : A -> Prog B) : Prog B :=
  match p with
  | Ret a => f a
  | Vis c k => Vis c (fun r => bind (k r) f)
  end.

Definition do_call (c : call) : Prog (resp c) := Vis c Ret.

(** Fallible operations that keep no state of the operator. *)
Definition IO (A : Type) : Type := Prog (result A).

Definition io_bind {A B} (p : IO A) (f : A -> IO B) : IO B :=
  bind p (fun r => match r with Ok a => f a | Err e => Ret (Err e) end).

Notation "'let*' x := p 'in' k" := (bind p (fun x => k))
  (at level 10, x pattern, p at level 200, k at level 200).
Notation "'let!' x := p 'in' k" := (io_bind p (fun x => k))
  (at level 10, x pattern, p at level 200, k at level 200).

Definition ok {A} (a : A) : IO A := Ret (Ok a).
Definition fail {A} (e : error) : IO A := Ret (Err e).
Definition of_result {A} (r : result A) : IO A := Ret r.

(** The result of [p] with its error as a value: [x, err := p]. *)
Definition try {A} (p : IO A) : IO (result A) := bind p (fun r => Ret (Ok r)).

(** [if err != nil { return fmt.Errorf(format, args..., err) }]. *)
Definition wrapping {A} (format : string) (args : list farg) (p : IO A) : IO A :=
  bind p (fun r => Ret (wrapf format args r)).

(** A range loop whose body may fail. *)
Fixpoint io_for {X} (l : list X) (body : X -> IO unit) : IO unit :=
  match l with
  | [] => ok tt
  | x :: l' => let! _ := body x in io_for l' body
  end.

(** A range loop that threads local variables. *)
Fixpoint io_fold {X V} (l : list X) (v : V) (body : V -> X -> IO V) : IO V :=
  match l with
  | [] => ok v
  | x :: l' => let! v' := body v x in io_fold l' v' body
  end.

(** A range loop whose body may also return early ([inr]). *)
Fixpoint io_until {X V R} (l : list X) (v : V) (body : V -> X -> IO (V + R)) : IO (V + R) :=
  match l with
  | [] => ok (inl v)
  | x :: l' =>
      let! o := body v x in
      match o with
      | inl v' => io_until l' v' body
      | inr r => ok (inr r)
      end
  end.

(** ** The operator's own state *)

(** The in-memory fields of the reconciler struct. *)
Record Mem := MkMem {
  lastStallEventKey : string;
  lastStallEventTime : option Time;
  readyStabilityCount : Z;
  lastReadyStabilityCheck : option Time;
  lastCountedStabilityCheck : option Time;
}.

(** The Prometheus gauges, by metric and label values. *)
Abbreviation Gauges := (gmap (string * list string) Z).

(** What one reconcile mutates: the fetched migration object, the reconciler struct, the
    session cache of package vsphere and the gauges of package metrics. *)
Record St := MkSt {
  st_mig : Migration;
  st_mem : Mem;
  st_sessions : gmap string Session;
  st_gauges : Gauges;
}.

(** Operations on that state.  A Go error leaves the mutations made before it in place. *)
Definition M (A : Type) : Type := St -> Prog (St * result A).

Definition m_bind {A B} (m : M A) (f : A -> M B) : M B :=
  fun s => bind (m s) (fun '(s', r) =>
    match r with Ok a => f a s' | Err e => Ret (s', Err e) end).

Notation "'let@' x := m 'in' k" := (m_bind m (fun x => k))
  (at level 10, x pattern, m at level 200, k at level 200).

Definition ret {A} (a : A) : M A := fun s => Ret (s, Ok a).
Definition throw {A} (e : error) : M A := fun s => Ret (s, Err e).
Definition lift {A} (p : IO A) : M A := fun s => bind p (fun r => Ret (s, r)).
Definition m_try {A} (m : M A) : M (result A) := fun s => bind (m s) (fun '(s', r) => Ret (s', Ok r)).
Definition m_wrapping {A} (format : string) (args : list farg) (m : M A) : M A :=
  fun s => bind (m s) (fun '(s', r) => Ret (s', wrapf format args r)).
Definition get : M St := fun s => Ret (s, Ok s).
Definition modify (f : St -> St) : M unit := fun s => Ret (f s, Ok tt).

Definition with_mig (f : Migration -> Migration) (s : St) : St :=
  MkSt (f (st_mig s)) (st_mem s) (st_sessions s) (st_gauges s).
Definition with_mem (f : Mem -> Mem) (s : St) : St :=
  MkSt (st_mig s) (f (st_mem s)) (st_sessions s) (st_gauges s).
Definition with_sessions (f : gmap string Session -> gmap string Session) (s : St) : St :=
  MkSt (st_mig s) (st_mem s) (f (st_sessions s)) (st_gauges s).
Definition with_gauges (f : Gauges -> Gauges) (s : St) : St :=
  MkSt (st_mig s) (st_mem s) (st_sessions s) (f (st_gauges s)).

Definition get_mig : M Migration := fun s => Ret (s, Ok (st_mig s)).
Definition modify_status (f : MigrationStatus -> MigrationStatus) : M unit :=
  modify (with_mig (upd_Status f)).

Fixpoint m_for {X} (l : list X) (body : X -> M unit) : M unit :=
  match l with
  | [] => ret tt
  | x :: l' => let@ _ := body x in m_for l' body
  end.

Fixpoint m_fold {X V} (l : list X) (v : V) (body : V -> X -> M V) : M V :=
  match l with
  | [] => ret v
  | x :: l' => let@ v' := body v x in m_fold l' v' body
  end.

Fixpoint m_until {X V R} (l : list X) (v : V) (body : V -> X -> M (V + R)) : M (V + R) :=
  match l with
  | [] => ret (inl v)
  | x :: l' =>
      let@ o := body v x in
      match o with
      | inl v' => m_until l' v' body
      | inr r => ret (inr r)
      end
  end.

(** Shorthands for the single calls. *)
Definition now : M Time := lift (bind (do_call CNow) (fun t => ok t)).
Definition event (type reason note : string) : M unit :=
  lift (bind (do_call (CEvent type reason note)) (fun _ => ok tt)).

(** Go's map iteration visits the keys in an unspecified order: the environment picks a
    permutation. *)
Definition map_order (keys : list string) : IO (list string) :=
  bind (do_call (CRange keys)) (fun ks => ok (if decide (ks ≡ₚ keys) then ks else keys)).

(** [ctrl.Result]: the requeue delay in nanoseconds. *)
Definition Result : Type := option Z.
Definition seconds (n : Z) : Z := (n * 1000000000)%Z.
Definition RequeueAfter (n : Z) : Result := Some (seconds n).
Definition done_result : Result := None.

(** ** Running a program in a world *)

Definition event_of : Type := { c : call & resp c }.

Section Run.
Context {W : Type} (h : W -> forall c : call, resp c * W).

(** The value, the final world and the trace of the calls made, with their answers. *)
Fixpoint run {A} (p : Prog A) (w : W) : A * W * list event_of :=
  match p with
  | Ret a => (a, w, [])
  | Vis c k =>
      let '(r, w') := h w c in
      let '(a, w'', tr) := run (k r) w' in
      (a, w'', existT c r :: tr)
  end.

Lemma run_bind {A B} (p : Prog A) (f : A -> Prog B) w :
  run (bind p f) w =
    (let '(a, w', tr) := run p w in let '(b, w'', tr') := run (f a) w' in (b, w'', tr ++ tr')).
Proof.
  revert w. induction p as [a|c k IH]; intros w; simpl.
  - by destruct (run (f a) w) as [[? ?] ?].
  - destruct (h w c) as [r w']. rewrite IH.
    destruct (run (k r) w') as [[a w1] tr]. by destruct (run (f a) w1) as [[? ?] ?].
Qed.

End Run.

(** A world in which every service is unavailable; the examples override single answers. *)
Definition unavailable (c : call) : resp c.
Proof.
  destruct c; try exact (Err (Errorf "unavailable" [])); [exact 0%Z|exact tt|exact keys|exact false].
Defined.

(** A stateless world that answers as [f] does where [f] answers. *)
Definition answering (f : forall c : call, option (resp c)) (w : unit) (c : call) : resp c * unit :=
  (default (unavailable c) (f c), w).

(** ** A program logic over all environments

    [pre] is what must hold before a call is made, [upd] how the observer's state follows
    the calls and their answers, [env] what is assumed of an answer. *)

Record Observer (G : Type) := MkObserver {
  pre : G -> call -> Prop;
  upd : G -> forall c : call, resp c -> G;
  env : G -> forall c : call, resp c -> Prop;
}.
Arguments pre {G}. Arguments upd {G}. Arguments env {G}. Arguments MkObserver {G}.

Section Wp.
Context {G : Type} (O : Observer G).

Fixpoint wp {A} (p : Prog A) (Q : A -> G -> Prop) (g : G) : Prop :=
  match p with
  | Ret a => Q a g
  | Vis c k => pre O g c /\ (forall r, env O g c r -> wp (k r) Q (upd O g c r))
  end.

Lemma wp_mono {A} (p : Prog A) (Q Q' : A -> G -> Prop) g :
  (forall a g', Q a g' -> Q' a g') -> wp p Q g -> wp p Q' g.
Proof.
  intros HQ. revert g. induction p as [a|c k IH]; intros g; simpl; [auto|].
  intros [? ?]; split; auto.
Qed.

Lemma wp_conj {A} (p : Prog A) (Q Q' : A -> G -> Prop) g : wp p Q g -> wp p Q' g -> wp p (fun a g' => Q a g' /\ Q' a g') g.
Proof. revert g. induction p as [a|c k IH]; intros g; simpl; [done|]. intros [? ?] [_ ?]; split; auto. Qed.

Lemma wp_bind {A B} (p : Prog A) (f : A -> Prog B) (Q : B -> G -> Prop) g :
  wp p (fun a g' => wp (f a) Q g') g -> wp (bind p f) Q g.
Proof.
  revert g. induction p as [a|c k IH]; intros g; simpl; [auto|].
  intros [? ?]; split; auto.
Qed.

Lemma wp_call c (Q : resp c -> G -> Prop) g :
  pre O g c -> (forall r, env O g c r -> Q r (upd O g c r)) -> wp (do_call c) Q g.
Proof. by split. Qed.

Lemma wp_io_bind {A B} (p : IO A) (f : A -> IO B) (Q : result B -> G -> Prop) g :
  wp p (fun r g' => match r with Ok a => wp (f a) Q g' | Err e => Q (Err e) g' end) g -> wp (io_bind p f) Q g.
Proof. intros H. apply wp_bind. eapply wp_mono; [|exact H]. by intros [] ?. Qed.

Lemma wp_wrapping {A} fmt args (p : IO A) (Q : result A -> G -> Prop) g :
  wp p (fun r g' => Q (wrapf fmt args r) g') g -> wp (wrapping fmt args p) Q g.
Proof. intros H. apply wp_bind. eapply wp_mono; [|exact H]. done. Qed.

Lemma wp_try {A} (p : IO A) (Q : result (result A) -> G -> Prop) g :
  wp p (fun r g' => Q (Ok r) g') g -> wp (try p) Q g.
Proof. intros H. apply wp_bind. eapply wp_mono; [|exact H]. done. Qed.

(** Loop rules: [I done v g] holds after the elements [done]. *)
Lemma wp_io_fold {X V} (l : list X) (v : V) (body : V -> X -> IO V)
    (I : list X -> V -> G -> Prop) (Q : result V -> G -> Prop) g :
  I [] v g ->
  (forall done x rest v g, l = done ++ x :: rest -> I done v g ->
     wp (body v x) (fun r g' => match r with Ok v' => I (done ++ [x]) v' g' | Err e => Q (Err e) g' end) g) ->
  (forall v g, I l v g -> Q (Ok v) g) ->
  wp (io_fold l v body) Q g.
Proof.
  intros H0 Hstep Hend.
  assert (forall rest done v g, l = done ++ rest -> I done v g -> wp (io_fold rest v body) Q g) as Hgen.
  { induction rest as [|x rest IH]; intros done v' g' Hl HI; simpl.
    - rewrite app_nil_r in Hl; subst. by apply Hend.
    - apply wp_io_bind. eapply wp_mono; [|eapply Hstep; eauto].
      intros [v''|e] g''; [|done]. intros HI'. eapply IH; [|exact HI']. by rewrite <- app_assoc. }
  by apply (Hgen l []).
Qed.

Lemma wp_io_for {X} (l : list X) (body : X -> IO unit)
    (I : list X -> G -> Prop) (Q : result unit -> G -> Prop) g :
  I [] g ->
  (forall done x rest g, l = done ++ x :: rest -> I done g ->
     wp (body x) (fun r g' => match r with Ok _ => I (done ++ [x]) g' | Err e => Q (Err e) g' end) g) ->
  (forall g, I l g -> Q (Ok tt) g) ->
  wp (io_for l body) Q g.
Proof.
  intros H0 Hstep Hend.
  assert (forall rest done g, l = done ++ rest -> I done g -> wp (io_for rest body) Q g) as Hgen.
  { induction rest as [|x rest IH]; intros done g' Hl HI; simpl.
    - rewrite app_nil_r in Hl; subst. by apply Hend.
    - apply wp_io_bind. eapply wp_mono; [|eapply Hstep; eauto].
      intros [v''|e] g''; [|done]. intros HI'. eapply IH; [|exact HI']. by rewrite <- app_assoc. }
  by apply (Hgen l []).
Qed.

Lemma wp_m_bind {A B} (m : M A) (f : A -> M B) (Q : St * result B -> G -> Prop) s g :
  wp (m s) (fun '(s', r) g' => match r with Ok a => wp (f a s') Q g' | Err e => Q (s', Err e) g' end) g ->
  wp (m_bind m f s) Q g.
Proof. intros H. apply wp_bind. eapply wp_mono; [|exact H]. by intros [s' []] ?. Qed.

Lemma wp_lift {A} (p : IO A) (Q : St * result A -> G -> Prop) s g :
  wp p (fun r g' => Q (s, r) g') g -> wp (lift p s) Q g.
Proof. intros H. apply wp_bind. eapply wp_mono; [|exact H]. done. Qed.

Lemma wp_m_try {A} (m : M A) (Q : St * result (result A) -> G -> Prop) s g :
  wp (m s) (fun '(s', r) g' => Q (s', Ok r) g') g -> wp (m_try m s) Q g.
Proof. intros H. apply wp_bind. eapply wp_mono; [|exact H]. by intros [s' r] ?. Qed.

Lemma wp_m_wrapping {A} fmt args (m : M A) (Q : St * result A -> G -> Prop) s g :
  wp (m s) (fun '(s', r) g' => Q (s', wrapf fmt args r) g') g -> wp (m_wrapping fmt args m s) Q g.
Proof. intros H. apply wp_bind. eapply wp_mono; [|exact H]. by intros [s' r] ?. Qed.

Lemma wp_now (Q : St * result Time -> G -> Prop) s g :
  pre O g CNow -> (forall t, env O g CNow t -> Q (s, Ok t) (upd O g CNow t)) -> wp (now s) Q g.
Proof. by split. Qed.

Lemma wp_event ty reason note (Q : St * result unit -> G -> Prop) s g :
  pre O g (CEvent ty reason note) ->
  (forall r, env O g (CEvent ty reason note) r -> Q (s, Ok tt) (upd O g (CEvent ty reason note) r)) ->
  wp (event ty reason note s) Q g.
Proof. by split. Qed.

Lemma wp_m_fold {X V} (l : list X) (v : V) (body : V -> X -> M V)
    (I : list X -> V -> St -> G -> Prop) (Q : St * result V -> G -> Prop) s g :
  I [] v s g ->
  (forall done x rest v s g, l = done ++ x :: rest -> I done v s g ->
     wp (body v x s) (fun '(s', r) g' => match r with Ok v' => I (done ++ [x]) v' s' g' | Err e => Q (s', Err e) g' end) g) ->
  (forall v s g, I l v s g -> Q (s, Ok v) g) ->
  wp (m_fold l v body s) Q g.
Proof.
  intros H0 Hstep Hend.
  assert (forall rest done v s g, l = done ++ rest -> I done v s g -> wp (m_fold rest v body s) Q g) as Hgen.
  { induction rest as [|x rest IH]; intros done v' s' g' Hl HI; simpl.
    - rewrite app_nil_r in Hl; subst. by apply Hend.
    - apply wp_m_bind. eapply wp_mono; [|eapply Hstep; eauto].
      intros [s'' [v''|e]] g''; [|done]. intros HI'. eapply IH; [|exact HI']. by rewrite <- app_assoc. }
  by apply (Hgen l []).
Qed.

Lemma wp_m_for {X} (l : list X) (body : X -> M unit)
    (I : list X -> St -> G -> Prop) (Q : St * result unit -> G -> Prop) s g :
  I [] s g ->
  (forall done x rest s g, l = done ++ x :: rest -> I done s g ->
     wp (body x s) (fun '(s', r) g' => match r with Ok _ => I (done ++ [x]) s' g' | Err e => Q (s', Err e) g' end) g) ->
  (forall s g, I l s g -> Q (s, Ok tt) g) ->
  wp (m_for l body s) Q g.
Proof.
  intros H0 Hstep Hend.
  assert (forall rest done s g, l = done ++ rest -> I done s g -> wp (m_for rest body s) Q g) as Hgen.
  { induction rest as [|x rest IH]; intros done s' g' Hl HI; simpl.
    - rewrite app_nil_r in Hl; subst. by apply Hend.
    - apply wp_m_bind. eapply wp_mono; [|eapply Hstep; eauto].
      intros [s'' [v''|e]] g''; [|done]. intros HI'. eapply IH; [|exact HI']. by rewrite <- app_assoc. }
  by apply (Hgen l []).
Qed.

(** What the observer sees of a trace. *)
Fixpoint observed (g : G) (tr : list event_of) : Prop :=
  match tr with
  | [] => True
  | existT c r :: tr' => pre O g c /\ observed (upd O g c r) tr'
  end.

Fixpoint admissible (g : G) (tr : list event_of) : Prop :=
  match tr with
  | [] => True
  | existT c r :: tr' => env O g c r /\ admissible (upd O g c r) tr'
  end.

Fixpoint observe (g : G) (tr : list event_of) : G :=
  match tr with
  | [] => g
  | existT c r :: tr' => observe (upd O g c r) tr'
  end.

(** Adequacy: what [wp] proves holds of every run in every world. *)
Lemma wp_run {A W} (h : W -> forall c, resp c * W) (p : Prog A) Q g w :
  wp p Q g ->
  let '(a, _, tr) := run h p w in
  admissible g tr -> observed g tr /\ Q a (observe g tr).
Proof.
  revert g w. induction p as [a|c k IH]; intros g w; simpl; [auto|].
  intros [Hpre Hk]. destruct (h w c) as [r w'] eqn:Hh.
  specialize (IH r). destruct (run h (k r) w') as [[a w''] tr] eqn:E; simpl.
  intros [Henv Hadm]. specialize (IH (upd O g c r) w' (Hk r Henv)). rewrite E in IH.
  destruct (IH Hadm) as [? ?]. auto.
Qed.

(** The same for an observer that assumes nothing of the answers. *)
Lemma wp_run_all {A W} (h : W -> forall c, resp c * W) (p : Prog A) Q g w :
  (forall g c r, env O g c r) -> wp p Q g ->
  observed g (run h p w).2 /\ Q (run h p w).1.1 (observe g (run h p w).2).
Proof.
  intros Henv Hwp. pose proof (wp_run h p Q g w Hwp) as H.
  destruct (run h p w) as [[a w'] tr]; cbn in *. apply H. clear H Hwp.
  revert g. induction tr as [|[c r] tr IH]; intros g; [done|]. split; [apply Henv|apply IH].
Qed.

End Wp.

(** *** The whole trace as the observation *)

Definition history : Observer (list event_of) :=
  MkObserver (fun _ _ => True) (fun g c r => g ++ [existT c r]) (fun _ _ _ => True).

Lemma observe_history tr g : observe history g tr = g ++ tr.
Proof.
  revert g. induction tr as [|[c r] tr IH]; intros g; cbn [observe]; [by rewrite app_nil_r|].
  rewrite IH. cbn [upd history]. by rewrite <- app_assoc.
Qed.

Lemma wp_history_prefix {A} (p : Prog A) g : wp history p (fun _ g' => g `prefix_of` g') g.
Proof.
  revert g. induction p as [a|c k IH]; intros g; cbn [wp]; [done|]. split; [done|]. intros r _.
  eapply wp_mono; [|apply IH]. intros a g' Hg. etrans; [|exact Hg]. by apply prefix_app_r.
Qed.

Lemma wp_history {A W} (h : W -> forall c, resp c * W) (p : Prog A) (Q : A -> list event_of -> Prop) w :
  wp history p Q [] -> let '(a, _, tr) := run h p w in Q a tr.
Proof.
  intros H. destruct (wp_run_all history h p Q [] w (fun _ _ _ => I) H) as [_ HQ]. rewrite observe_history in HQ.
  by destruct (run h p w) as [[a w'] tr].
Qed.

(** *** Which calls a program can make *)

Definition only {P : call -> Prop} : Observer unit := MkObserver (fun _ c => P c) (fun _ _ _ => tt) (fun _ _ _ => True).

(** Every call [p] can make satisfies [P]. *)
Definition only_calls (P : call -> Prop) {A} (p : Prog A) : Prop := wp (@only P) p (fun _ _ => True) tt.

Lemma only_calls_run (P : call -> Prop) {A W} (h : W -> forall c, resp c * W) (p : Prog A) w :
  only_calls P p -> Forall (fun e => P (projT1 e)) (run h p w).2.
Proof.
  unfold only_calls. revert w. induction p as [a|c k IH]; intros w; simpl; [constructor|].
  intros [Hc Hk]. destruct (h w c) as [r w'] eqn:Hh. specialize (IH r w' (Hk r I)).
  destruct (run h (k r) w') as [[a w''] tr]; simpl in *. by constructor.
Qed.

Lemma wp_only {P P' : call -> Prop} {A} (p : Prog A) (Q : A -> unit -> Prop) :
  only_calls P p -> (forall c, P c -> P' c) -> (forall a, Q a tt) -> wp (@only P') p Q tt.
Proof.
  intros Hp HP HQ. unfold only_calls in Hp. induction p as [a|c k IH]; cbn [wp] in *; [auto|].
  destruct Hp as [Hc Hk]. split; [by apply HP|]. intros r _. apply IH. by apply Hk.
Qed.

(** The rules of [only_calls], one per program construct. *)
Section Only.
Context (P : call -> Prop).

Lemma only_ret {A} (a : A) : only_calls P (Ret a).
Proof. done. Qed.
Lemma only_call c : P c -> only_calls P (do_call c).
Proof. by split. Qed.
Lemma only_bind {A B} (p : Prog A) (f : A -> Prog B) : only_calls P p -> (forall a, only_calls P (f a)) -> only_calls P (bind p f).
Proof. intros Hp Hf. apply wp_bind. eapply wp_mono; [|exact Hp]. intros a [] _. apply Hf. Qed.
Lemma only_io_bind {A B} (p : IO A) (f : A -> IO B) :
  only_calls P p -> (forall a, only_calls P (f a)) -> only_calls P (io_bind p f).
Proof. intros Hp Hf. apply only_bind; [done|]. intros []; [apply Hf|done]. Qed.
Lemma only_wrapping {A} f args (p : IO A) : only_calls P p -> only_calls P (wrapping f args p).
Proof. intros H. apply only_bind; [done|]. done. Qed.
Lemma only_try {A} (p : IO A) : only_calls P p -> only_calls P (try p).
Proof. intros H. apply only_bind; [done|]. done. Qed.
Lemma only_io_for {X} (l : list X) body : (forall x, only_calls P (body x)) -> only_calls P (io_for l body).
Proof. intros H. induction l as [|x l IH]; [done|]. by apply only_io_bind. Qed.
Lemma only_io_fold {X V} (l : list X) (v : V) body : (forall v x, only_calls P (body v x)) -> only_calls P (io_fold l v body).
Proof. intros H. revert v. induction l as [|x l IH]; intros v; [done|]. by apply only_io_bind. Qed.
Lemma only_io_until {X V R} (l : list X) (v : V) (body : V -> X -> IO (V + R)) :
  (forall v x, only_calls P (body v x)) -> only_calls P (io_until l v body).
Proof.
  intros H. revert v. induction l as [|x l IH]; intros v; [done|]. apply only_io_bind; [done|]. intros []; [apply IH|done].
Qed.
Lemma only_m_bind {A B} (m : M A) (f : A -> M B) s :
  only_calls P (m s) -> (forall a s', only_calls P (f a s')) -> only_calls P (m_bind m f s).
Proof. intros Hm Hf. apply only_bind; [apply Hm|]. intros [s' []]; [apply Hf|done]. Qed.
Lemma only_lift {A} (p : IO A) s : only_calls P p -> only_calls P (lift p s).
Proof. intros H. apply only_bind; [done|]. done. Qed.
Lemma only_m_try {A} (m : M A) s : only_calls P (m s) -> only_calls P (m_try m s).
Proof. intros H. apply only_bind; [apply H|]. by intros []. Qed.
Lemma only_m_wrapping {A} f args (m : M A) s : only_calls P (m s) -> only_calls P (m_wrapping f args m s).
Proof. intros H. apply only_bind; [apply H|]. by intros []. Qed.
Lemma only_m_for {X} (l : list X) body s : (forall x s', only_calls P (body x s')) -> only_calls P (m_for l body s).
Proof. intros H. revert s. induction l as [|x l IH]; intros s; [done|]. by apply only_m_bind. Qed.
Lemma only_m_fold {X V} (l : list X) (v : V) body s :
  (forall v x s', only_calls P (body v x s')) -> only_calls P (m_fold l v body s).
Proof. intros H. revert v s. induction l as [|x l IH]; intros v s; [done|]. by apply only_m_bind. Qed.
Lemma only_m_until {X V R} (l : list X) (v : V) (body : V -> X -> M (V + R)) s :
  (forall v x s', only_calls P (body v x s')) -> only_calls P (m_until l v body s).
Proof.
  intros H. revert v s. induction l as [|x l IH]; intros v s; [done|].
  apply only_m_bind; [done|]. intros [] s'; [apply IH|done].
Qed.

End Only.

#[global] Arguments only_calls : simpl never.

(** Calls that an observer neither forbids nor records. *)
Definition ignored {G} (O : Observer G) (c : call) : Prop := forall g, pre O g c /\ forall r, upd O g c r = g.

Lemma wp_ignored {G} (O : Observer G) {A} (p : Prog A) (Q : A -> G -> Prop) g :
  only_calls (ignored O) p -> (forall a, Q a g) -> wp O p Q g.
Proof.
  intros Hp HQ. unfold only_calls in Hp. induction p as [a|c k IH]; cbn [wp] in *; [auto|].
  destruct Hp as [Hc Hk]. destruct (Hc g) as [Hpre Hupd]. split; [done|]. intros r _. rewrite Hupd. apply IH. by apply Hk.
Qed.

(** Walking a program: apply the rule of its head; the calls and the loops are left. *)
Ltac wp_step :=
  lazymatch goal with
  | |- wp _ (Ret _) _ _ => cbn [wp wrapf]
  | |- wp _ (ok _) _ _ => cbn [wp ok wrapf]
  | |- wp _ (fail _) _ _ => cbn [wp fail wrapf]
  | |- wp _ (of_result _) _ _ => cbn [wp of_result wrapf]
  | |- wp _ (let _ := _ in _) _ _ => cbv zeta
  | |- wp _ (match ?x with _ => _ end) _ _ => destruct x eqn:?
  | |- wp _ (io_bind _ _) _ _ => apply wp_io_bind
  | |- wp _ (bind _ _) _ _ => apply wp_bind
  | |- wp _ (wrapping _ _ _) _ _ => apply wp_wrapping
  | |- wp _ (try _) _ _ => apply wp_try
  | |- wp _ (m_bind _ _ _) _ _ => apply wp_m_bind
  | |- wp _ (lift _ _) _ _ => apply wp_lift
  | |- wp _ (m_try _ _) _ _ => apply wp_m_try
  | |- wp _ (m_wrapping _ _ _ _) _ _ => apply wp_m_wrapping
  | |- wp _ (now _) _ _ => apply wp_now
  | |- wp _ (event _ _ _ _) _ _ => apply wp_event
  | |- wp _ (ret _ _) _ _ => cbn [wp ret wrapf]
  | |- wp _ (throw _ _) _ _ => cbn [wp throw wrapf]
  | |- wp _ (get _) _ _ => cbn [wp get]
  | |- wp _ (get_mig _) _ _ => cbn [wp get_mig]
  | |- wp _ (modify _ _) _ _ => cbn [wp modify]
  | |- wp _ (modify_status _ _) _ _ => unfold modify_status; cbn [wp modify]
  | |- wp _ (do_call _) _ _ => apply wp_call
  | |- match ?x with _ => _ end => destruct x eqn:?
  | |- wp _ (?f _) _ _ => lazymatch f with (match ?x with _ => _ end) => destruct x eqn:? end
  end.

(** ** Programs that change nothing *)

Section Quiet.

Definition quiet {A} (p : Prog A) : Prop := only_calls (fun c => mutating c = false) p.
Definition quietM {A} (m : M A) : Prop := forall s, quiet (m s).

Lemma quiet_ret {A} (a : A) : quiet (Ret a).
Proof. apply only_ret. Qed.
Lemma quiet_call c : mutating c = false -> quiet (do_call c).
Proof. intros H. by apply only_call. Qed.
Lemma quiet_bind {A B} (p : Prog A) (f : A -> Prog B) : quiet p -> (forall a, quiet (f a)) -> quiet (bind p f).
Proof. apply only_bind. Qed.
Lemma quiet_io_bind {A B} (p : IO A) (f : A -> IO B) : quiet p -> (forall a, quiet (f a)) -> quiet (io_bind p f).
Proof. apply only_io_bind. Qed.
Lemma quiet_wrapping {A} f args (p : IO A) : quiet p -> quiet (wrapping f args p).
Proof. apply only_wrapping. Qed.
Lemma quiet_try {A} (p : IO A) : quiet p -> quiet (try p).
Proof. apply only_try. Qed.
Lemma quiet_io_for {X} (l : list X) body : (forall x, quiet (body x)) -> quiet (io_for l body).
Proof. apply only_io_for. Qed.
Lemma quiet_io_fold {X V} (l : list X) (v : V) body : (forall v x, quiet (body v x)) -> quiet (io_fold l v body).
Proof. apply only_io_fold. Qed.
Lemma quiet_io_until {X V R} (l : list X) (v : V) (body : V -> X -> IO (V + R)) :
  (forall v x, quiet (body v x)) -> quiet (io_until l v body).
Proof. apply only_io_until. Qed.
Lemma quietM_bind {A B} (m : M A) (f : A -> M B) : quietM m -> (forall a, quietM (f a)) -> quietM (m_bind m f).
Proof. intros Hm Hf s. apply only_m_bind; [apply Hm|intros a; apply Hf]. Qed.
Lemma quietM_lift {A} (p : IO A) : quiet p -> quietM (lift p).
Proof. intros H s. by apply only_lift. Qed.
Lemma quietM_try {A} (m : M A) : quietM m -> quietM (m_try m).
Proof. intros H s. apply only_m_try, H. Qed.
Lemma quietM_wrapping {A} f args (m : M A) : quietM m -> quietM (m_wrapping f args m).
Proof. intros H s. apply only_m_wrapping, H. Qed.
Lemma quietM_for {X} (l : list X) body : (forall x, quietM (body x)) -> quietM (m_for l body).
Proof. intros H s. apply only_m_for. intros x. apply H. Qed.
Lemma quietM_fold {X V} (l : list X) (v : V) body : (forall v x, quietM (body v x)) -> quietM (m_fold l v body).
Proof. intros H s. apply only_m_fold. intros v' x. apply H. Qed.
Lemma quietM_until {X V R} (l : list X) (v : V) (body : V -> X -> M (V + R)) :
  (forall v x, quietM (body v x)) -> quietM (m_until l v body).
Proof. intros H s. apply only_m_until. intros v' x. apply H. Qed.
Lemma quietM_pure {A} (r : St -> St * result A) : quietM (fun s => Ret (r s)).
Proof. by intros s. Qed.

(** A quiet program under any observer that lets the reads through. *)
Lemma wp_quiet {G} (O : Observer G) {A} (p : Prog A) (Q : A -> G -> Prop) g :
  quiet p -> (forall g c, mutating c = false -> pre O g c) -> (forall a g', Q a g') -> wp O p Q g.
Proof.
  intros Hq Hpre HQ. revert g. unfold quiet, only_calls in Hq. induction p as [a|c k IH]; intros g; cbn [wp] in *; [auto|].
  destruct Hq as [Hc Hk]. split; [auto|]. intros r _. apply IH. by apply Hk.
Qed.

(** An observer whose state only grows along [R] while nothing is changed. *)
Lemma wp_quiet_grows {G} (O : Observer G) (R : G -> G -> Prop) `{!PreOrder R} {A} (p : Prog A) (Q : A -> G -> Prop) g :
  quiet p -> (forall g c, mutating c = false -> pre O g c) -> (forall g c r, mutating c = false -> R g (upd O g c r)) ->
  (forall a g', R g g' -> Q a g') -> wp O p Q g.
Proof.
  intros Hq Hpre HR. revert g. unfold quiet, only_calls in Hq. induction p as [a|c k IH]; intros g HQ; cbn [wp] in *; [by apply HQ|].
  destruct Hq as [Hc Hk]. split; [auto|]. intros r _. apply IH; [by apply Hk|]. intros a g' Hg'. apply HQ. etrans; [exact (HR g c r Hc)|exact Hg'].
Qed.

Lemma wp_quietM {G} (O : Observer G) {A} (m : M A) (Q : St * result A -> G -> Prop) s g :
  quietM m -> (forall g c, mutating c = false -> pre O g c) -> (forall a g', Q a g') -> wp O (m s) Q g.
Proof. intros Hq. apply wp_quiet, Hq. Qed.

End Quiet.

#[global] Arguments quiet : simpl never.
#[global] Arguments quietM : simpl never.

Create HintDb quiet.
#[export] Hint Resolve quiet_ret quietM_pure : quiet.

Ltac quiet_step :=
  lazymatch goal with
  | |- quiet (Ret _) => apply quiet_ret
  | |- quiet (ok _) => apply quiet_ret
  | |- quiet (fail _) => apply quiet_ret
  | |- quiet (of_result _) => apply quiet_ret
  | |- quiet (match ?x with _ => _ end) => destruct x
  | |- quiet (let _ := _ in _) => cbv zeta
  | |- quiet (io_bind _ _) => apply quiet_io_bind; [|intros ?]
  | |- quiet (bind _ _) => apply quiet_bind; [|intros ?]
  | |- quiet (wrapping _ _ _) => apply quiet_wrapping
  | |- quiet (try _) => apply quiet_try
  | |- quiet (io_for _ _) => apply quiet_io_for; intros ?
  | |- quiet (io_fold _ _ _) => apply quiet_io_fold; intros ? ?
  | |- quiet (io_until _ _ _) => apply quiet_io_until; intros ? ?
  | |- quiet (do_call _) => apply quiet_call; reflexivity
  | |- quietM (m_bind _ _) => apply quietM_bind; [|intros ?]
  | |- quietM (lift _) => apply quietM_lift
  | |- quietM (m_try _) => apply quietM_try
  | |- quietM (m_wrapping _ _ _) => apply quietM_wrapping
  | |- quietM (m_for _ _) => apply quietM_for; intros ?
  | |- quietM (m_fold _ _ _) => apply quietM_fold; intros ? ?
  | |- quietM (m_until _ _ _) => apply quietM_until; intros ? ?
  | |- quietM (ret _) => apply quietM_pure
  | |- quietM (throw _) => apply quietM_pure
  | |- quietM get => apply quietM_pure
  | |- quietM get_mig => apply quietM_pure
  | |- quietM (modify _) => apply quietM_pure
  | |- quietM (modify_status _) => apply quietM_pure
  | |- quietM (match ?x with _ => _ end) => destruct x
  | |- quietM (let _ := _ in _) => cbv zeta
  | |- quiet (?f _) => lazymatch f with (match ?x with _ => _ end) => destruct x end
  | |- quietM (?f _) => lazymatch f with (match ?x with _ => _ end) => destruct x end
  | |- forall _, _ => intros ?
  end.

Ltac quiet_auto := repeat (first [ solve [eauto with quiet] | quiet_step ]).

Lemma quiet_map_order ks : quiet (map_order ks).
Proof. unfold map_order. quiet_auto. Qed.
Lemma quietM_now : quietM now.
Proof. unfold now. quiet_auto. Qed.
Lemma quietM_event t r n : quietM (event t r n).
Proof. unfold event. quiet_auto. Qed.
#[export] Hint Resolve quiet_map_order quietM_now quietM_event : quiet.

#[global] Arguments io_bind : simpl never.
#[global] Arguments m_bind : simpl never.
#[global] Arguments bind : simpl never.

(** Walking [only_calls]: the single calls that are not allowed by computation are left. *)
Create HintDb calls.

Ltac only_step :=
  lazymatch goal with
  | |- only_calls _ (Ret _) => apply only_ret
  | |- only_calls _ (ok _) => apply only_ret
  | |- only_calls _ (fail _) => apply only_ret
  | |- only_calls _ (of_result _) => apply only_ret
  | |- only_calls _ (match ?x with _ => _ end) => destruct x
  | |- only_calls _ (let _ := _ in _) => cbv zeta
  | |- only_calls _ (io_bind _ _) => apply only_io_bind; [|intros ?]
  | |- only_calls _ (bind _ _) => apply only_bind; [|intros ?]
  | |- only_calls _ (wrapping _ _ _) => apply only_wrapping
  | |- only_calls _ (try _) => apply only_try
  | |- only_calls _ (io_for _ _) => apply only_io_for; intros ?
  | |- only_calls _ (io_fold _ _ _) => apply only_io_fold; intros ? ?
  | |- only_calls _ (io_until _ _ _) => apply only_io_until; intros ? ?
  | |- only_calls _ (do_call _) => apply only_call; cbv beta; try reflexivity
  | |- only_calls _ (m_bind _ _ _) => apply only_m_bind; [|intros ? ?]
  | |- only_calls _ (lift _ _) => apply only_lift
  | |- only_calls _ (m_try _ _) => apply only_m_try
  | |- only_calls _ (m_wrapping _ _ _ _) => apply only_m_wrapping
  | |- only_calls _ (m_for _ _ _) => apply only_m_for; intros ? ?
  | |- only_calls _ (m_fold _ _ _ _) => apply only_m_fold; intros ? ? ?
  | |- only_calls _ (m_until _ _ _ _) => apply only_m_until; intros ? ? ?
  | |- only_calls _ (ret _ _) => apply only_ret
  | |- only_calls _ (throw _ _) => apply only_ret
  | |- only_calls _ (get _) => apply only_ret
  | |- only_calls _ (get_mig _) => apply only_ret
  | |- only_calls _ (modify _ _) => apply only_ret
  | |- only_calls _ (modify_status _ _) => apply only_ret
  | |- only_calls _ (now _) => unfold now
  | |- only_calls _ (event _ _ _ _) => unfold event
  | |- only_calls _ (map_order _) => unfold map_order
  | |- only_calls _ (?f _) =>
      lazymatch f with (match ?x with _ => _ end) => destruct x | (match ?x with _ => _ end) _ => destruct x end
  end.

Ltac only_auto := repeat first [ solve [eauto with calls] | only_step ].
