(* ===== verification/Execution.v ===== *)
(** * The execution gate (internal/execution, internal/controller/execution.go)

    Before every change of the cluster or of a vCenter the operator re-reads the migration
    resource, uncached, and stops when it was deleted, replaced, edited or paused.  This
    file models the gate and sets up the logic in which each component below proves that
    it never changes anything without passing it. *)

From S2P Require Import Prelude GoErrors Objects Types Effects.

(** ** The gate *)

(** [context.Context]: only the permission check it carries matters here; deadlines and
    cancellation are failures of the calls made under them. *)
Record Ctx := MkCtx { ctx_check : option Migration }.
Definition Background : Ctx := MkCtx None.

(** [r.permissionReader()]: the uncached APIReader that production injects. *)
Definition permissionReader : bool := false.

(** The condition under which [latest] still permits the actions of a reconcile that
    started from [m]. *)
Definition permits (m latest : Migration) : bool :=
  bool_decide (mig_DeletionTimestamp latest = None) &&
  String.eqb (mig_UID latest) (mig_UID m) &&
  Z.eqb (mig_Generation latest) (mig_Generation m) &&
  String.eqb (State (mig_Spec latest)) MigrationStateRunning.

(** The closure [executionContext] installs. *)
Definition checkPermission (m : Migration) : IO unit :=
  let* r := do_call (CGetMigration permissionReader (mig_Namespace m) (mig_Name m)) in
  match r with
  | Err e => if IsNotFound e then fail errExecutionStopped
             else fail (Errorf "reading migration execution permission: %w" [FE e])
  | Ok latest => if permits m latest then ok tt else fail errExecutionStopped
  end.

(** [execution.WithCheck] with that closure. *)
Definition executionContext (ctx : Ctx) (m : Migration) : Ctx := MkCtx (Some m).

(** [execution.Check]. *)
Definition Check (ctx : Ctx) : IO unit :=
  match ctx_check ctx with
  | Some m => checkPermission m
  | None => ok tt
  end.

(** For an observer that does not follow permission reads, a check either passes or fails. *)
Lemma wp_Check {G} (O : Observer G) ctx (Q : result unit -> G -> Prop) g :
  (forall ns n, pre O g (CGetMigration permissionReader ns n)) ->
  (forall ns n r, upd O g (CGetMigration permissionReader ns n) r = g) ->
  (forall r, Q r g) -> wp O (Check ctx) Q g.
Proof.
  intros Hp Hu HQ. unfold Check, checkPermission.
  repeat wp_step; try done; intros; repeat wp_step; rewrite ?Hu; auto.
Qed.

(** ** Gated programs *)

(** The identity of a migration that a permission read compares. *)
Definition same_identity (m m' : Migration) : Prop :=
  mig_Namespace m = mig_Namespace m' /\ mig_Name m = mig_Name m' /\
  mig_UID m = mig_UID m' /\ mig_Generation m = mig_Generation m'.

(** What an object must show for a change on behalf of [m]: neither deleted nor replaced nor
    edited nor paused. *)
Record stillRunning (m latest : Migration) : Prop := {
  sr_notDeleted : mig_DeletionTimestamp latest = None;
  sr_notReplaced : mig_UID latest = mig_UID m;
  sr_notEdited : mig_Generation latest = mig_Generation m;
  sr_running : State (mig_Spec latest) = MigrationStateRunning;
}.

(** The test of the code decides exactly that. *)
Lemma permits_spec m latest : permits m latest = true <-> stillRunning m latest.
Proof.
  unfold permits. split; [intros H; reflect_bools; by split|]. intros [Hd Hu Hg Hs].
  by rewrite Hu, Hg, Hs, String.eqb_refl, Z.eqb_refl, bool_decide_true.
Qed.

#[global] Instance stillRunning_dec m latest : Decision (stillRunning m latest).
Proof. refine (cast_if (decide (permits m latest = true))); by rewrite <- permits_spec. Defined.

(** The answer of a permission read for [m] that permits the next action. *)
Definition grants (m : Migration) (c : call) : resp c -> bool :=
  match c with
  | CGetMigration false ns n => fun r =>
      match r with
      | Ok latest => String.eqb ns (mig_Namespace m) && String.eqb n (mig_Name m) && bool_decide (stillRunning m latest)
      | Err _ => false
      end
  | _ => fun _ => false
  end.

(** The observer remembers only whether the last call was a granted permission read. *)
Definition gate (m : Migration) : Observer bool :=
  MkObserver (fun armed c => mutating c = true -> armed = true)
    (fun _ c r => grants m c r) (fun _ _ _ => True).

(** On traces: every mutating call directly follows a granted permission read. *)
Fixpoint gated_trace (m : Migration) (armed : bool) (tr : list event_of) : Prop :=
  match tr with
  | [] => True
  | existT c r :: tr' => (mutating c = true -> armed = true) /\ gated_trace m (grants m c r) tr'
  end.

Section Gated.
Context (m0 : Migration).

Definition gated {A} (p : Prog A) : Prop := forall armed, wp (gate m0) p (fun _ _ => True) armed.
Definition armed {A} (p : Prog A) : Prop := wp (gate m0) p (fun _ _ => True) true.
Definition gatedM {A} (m : M A) : Prop := forall s, gated (m s).

Lemma gated_armed {A} (p : Prog A) : gated p -> armed p.
Proof. intros H; apply H. Qed.

Lemma gated_ret {A} (a : A) : gated (Ret a).
Proof. done. Qed.

Lemma gated_bind {A B} (p : Prog A) (f : A -> Prog B) :
  gated p -> (forall a, gated (f a)) -> gated (bind p f).
Proof.
  intros Hp Hf b. apply wp_bind. eapply wp_mono; [|apply Hp].
  intros a g' _. apply Hf.
Qed.

Lemma armed_bind {A B} (p : Prog A) (f : A -> Prog B) :
  armed p -> (forall a, gated (f a)) -> armed (bind p f).
Proof.
  intros Hp Hf. apply wp_bind. eapply wp_mono; [|apply Hp].
  intros a g' _. apply Hf.
Qed.

Lemma gated_call c : mutating c = false -> gated (do_call c).
Proof. intros H b; simpl. rewrite H; split; [done|auto]. Qed.

Lemma armed_call c : armed (do_call c).
Proof. split; [done|auto]. Qed.

Lemma gated_io_bind {A B} (p : IO A) (f : A -> IO B) :
  gated p -> (forall a, gated (f a)) -> gated (io_bind p f).
Proof. intros Hp Hf. apply gated_bind; [done|]. intros []; [apply Hf|done]. Qed.

Lemma armed_io_bind {A B} (p : IO A) (f : A -> IO B) :
  armed p -> (forall a, gated (f a)) -> armed (io_bind p f).
Proof. intros Hp Hf. apply armed_bind; [done|]. intros []; [apply Hf|done]. Qed.

Lemma armed_wrapping {A} f args (p : IO A) : armed p -> armed (wrapping f args p).
Proof. intros H. apply armed_bind; [done|]. intros ?; apply gated_ret. Qed.

Lemma armed_try {A} (p : IO A) : armed p -> armed (try p).
Proof. intros H. apply armed_bind; [done|]. intros ?; apply gated_ret. Qed.

Lemma gated_wrapping {A} f args (p : IO A) : gated p -> gated (wrapping f args p).
Proof. intros H. apply gated_bind; [done|]. intros ?; apply gated_ret. Qed.

Lemma gated_try {A} (p : IO A) : gated p -> gated (try p).
Proof. intros H. apply gated_bind; [done|]. intros ?; apply gated_ret. Qed.

Lemma gated_io_for {X} (l : list X) body : (forall x, gated (body x)) -> gated (io_for l body).
Proof. intros H. induction l as [|x l IH]; [apply gated_ret|]. by apply gated_io_bind. Qed.

Lemma gated_io_fold {X V} (l : list X) (v : V) body :
  (forall v x, gated (body v x)) -> gated (io_fold l v body).
Proof.
  intros H. revert v. induction l as [|x l IH]; intros v; [apply gated_ret|]. by apply gated_io_bind.
Qed.

Lemma gated_io_until {X V R} (l : list X) (v : V) (body : V -> X -> IO (V + R)) :
  (forall v x, gated (body v x)) -> gated (io_until l v body).
Proof.
  intros H. revert v. induction l as [|x l IH]; intros v; [apply gated_ret|].
  apply gated_io_bind; [done|]. intros []; [apply IH|apply gated_ret].
Qed.

Lemma gatedM_bind {A B} (m : M A) (f : A -> M B) :
  gatedM m -> (forall a, gatedM (f a)) -> gatedM (m_bind m f).
Proof. intros Hm Hf s. apply gated_bind; [apply Hm|]. intros [s' []]; [apply Hf|apply gated_ret]. Qed.

Lemma gatedM_lift {A} (p : IO A) : gated p -> gatedM (lift p).
Proof. intros H s. apply gated_bind; [done|]. intros ?; apply gated_ret. Qed.

Lemma gatedM_try {A} (m : M A) : gatedM m -> gatedM (m_try m).
Proof. intros H s. apply gated_bind; [apply H|]. intros []; apply gated_ret. Qed.

Lemma gatedM_wrapping {A} f args (m : M A) : gatedM m -> gatedM (m_wrapping f args m).
Proof. intros H s. apply gated_bind; [apply H|]. intros []; apply gated_ret. Qed.

Lemma gatedM_for {X} (l : list X) body : (forall x, gatedM (body x)) -> gatedM (m_for l body).
Proof. intros H. induction l as [|x l IH]; [intros s; apply gated_ret|]. by apply gatedM_bind. Qed.

Lemma gatedM_fold {X V} (l : list X) (v : V) body :
  (forall v x, gatedM (body v x)) -> gatedM (m_fold l v body).
Proof.
  intros H. revert v. induction l as [|x l IH]; intros v; [intros s; apply gated_ret|].
  by apply gatedM_bind.
Qed.

Lemma gatedM_until {X V R} (l : list X) (v : V) (body : V -> X -> M (V + R)) :
  (forall v x, gatedM (body v x)) -> gatedM (m_until l v body).
Proof.
  intros H. revert v. induction l as [|x l IH]; intros v; [intros s; apply gated_ret|].
  apply gatedM_bind; [done|]. intros []; [apply IH|intros s; apply gated_ret].
Qed.

Lemma gatedM_pure {A} (r : St -> St * result A) : gatedM (fun s => Ret (r s)).
Proof. intros s; apply gated_ret. Qed.

(** After a check that passed, the next call is granted. *)
Lemma Check_arms ctx m b :
  ctx_check ctx = Some m -> same_identity m m0 ->
  wp (gate m0) (Check ctx) (fun r a => is_ok r = true -> a = true) b.
Proof.
  intros Hc (Hns & Hn & Hu & Hg). unfold Check; rewrite Hc. unfold checkPermission.
  apply wp_bind. unfold do_call; simpl. split; [done|].
  intros [latest|e] _.
  - rewrite Hns, Hn, !String.eqb_refl; simpl. destruct (permits m latest) eqn:Hp; [|done]. intros _.
    apply permits_spec in Hp as []. apply bool_decide_true. split; congruence.
  - by destruct (IsNotFound e).
Qed.

Lemma gated_check_then {A} ctx m (k : unit -> IO A) :
  ctx_check ctx = Some m -> same_identity m m0 -> armed (k tt) -> gated (io_bind (Check ctx) k).
Proof.
  intros Hc Hm Hk b. apply wp_bind. eapply wp_mono; [|by eapply Check_arms].
  intros [[]|e] a Ha; [|done]. by rewrite Ha.
Qed.

Lemma gated_check ctx m : ctx_check ctx = Some m -> same_identity m m0 -> gated (Check ctx).
Proof. intros Hc Hm b. eapply wp_mono; [|by eapply Check_arms]. done. Qed.

(** What changes nothing needs no permission. *)
Lemma quiet_gated {A} (p : Prog A) : quiet p -> gated p.
Proof. intros H b. apply wp_quiet; [done| |done]. cbn. congruence. Qed.
Lemma quietM_gated {A} (m : M A) : quietM m -> gatedM m.
Proof. intros H s. apply quiet_gated, H. Qed.

(** A gated program leaves only gated traces, in every world. *)
Lemma gated_run {A W} (h : W -> forall c, resp c * W) (p : Prog A) w :
  gated p -> gated_trace m0 false (run h p w).2.
Proof.
  intros H. specialize (H false). revert w H. generalize false as b.
  induction p as [a|c k IH]; intros b w; simpl; [done|].
  intros [Hpre Hk]. destruct (h w c) as [r w']. specialize (IH r (grants m0 c r) w').
  destruct (run h (k r) w') as [[a w''] tr]; simpl in *. auto.
Qed.

End Gated.

#[global] Arguments gated : simpl never.
#[global] Arguments armed : simpl never.
#[global] Arguments gatedM : simpl never.

(** ** Automation: walk the syntax of a program *)

Create HintDb gated.
#[export] Hint Resolve gated_ret gated_check gatedM_pure : gated.
#[export] Hint Extern 1 (gated _ _) => (apply quiet_gated; solve [eauto with quiet]) : gated.
#[export] Hint Extern 1 (gatedM _ _) => (apply quietM_gated; solve [eauto with quiet]) : gated.

(** One step; a hypothesis [ctx_check ctx = Some m] and [same_identity m m0] must be in
    the context where the program checks the gate. *)
Ltac gate_step :=
  lazymatch goal with
  | |- gated _ (Ret _) => apply gated_ret
  | |- gated _ (ok _) => apply gated_ret
  | |- gated _ (fail _) => apply gated_ret
  | |- gated _ (of_result _) => apply gated_ret
  | |- gated _ (match ?x with _ => _ end) => destruct x
  | |- gated _ (let _ := _ in _) => cbv zeta
  | |- gated _ (io_bind (Check ?ctx) _) => eapply gated_check_then; [eassumption|eassumption|]
  | |- gated _ (io_bind _ _) => apply gated_io_bind; [|intros ?]
  | |- gated _ (bind _ _) => apply gated_bind; [|intros ?]
  | |- gated _ (wrapping _ _ _) => apply gated_wrapping
  | |- gated _ (try _) => apply gated_try
  | |- gated _ (io_for _ _) => apply gated_io_for; intros ?
  | |- gated _ (io_fold _ _ _) => apply gated_io_fold; intros ? ?
  | |- gated _ (io_until _ _ _) => apply gated_io_until; intros ? ?
  | |- gated _ (do_call _) => apply gated_call; reflexivity
  | |- armed _ (do_call _) => apply armed_call
  | |- armed _ (io_bind _ _) => apply armed_io_bind; [|intros ?]
  | |- armed _ (bind _ _) => apply armed_bind; [|intros ?]
  | |- armed _ (wrapping _ _ _) => apply armed_wrapping
  | |- armed _ (try _) => apply armed_try
  | |- armed _ (match ?x with _ => _ end) => destruct x
  | |- armed _ _ => apply gated_armed
  | |- gatedM _ (m_bind _ _) => apply gatedM_bind; [|intros ?]
  | |- gatedM _ (lift _) => apply gatedM_lift
  | |- gatedM _ (m_try _) => apply gatedM_try
  | |- gatedM _ (m_wrapping _ _ _) => apply gatedM_wrapping
  | |- gatedM _ (m_for _ _) => apply gatedM_for; intros ?
  | |- gatedM _ (m_fold _ _ _) => apply gatedM_fold; intros ? ?
  | |- gatedM _ (m_until _ _ _) => apply gatedM_until; intros ? ?
  | |- gatedM _ (ret _) => apply gatedM_pure
  | |- gatedM _ (throw _) => apply gatedM_pure
  | |- gatedM _ get => apply gatedM_pure
  | |- gatedM _ get_mig => apply gatedM_pure
  | |- gatedM _ (modify _) => apply gatedM_pure
  | |- gatedM _ (modify_status _) => apply gatedM_pure
  | |- gatedM _ (match ?x with _ => _ end) => destruct x
  | |- gatedM _ (let _ := _ in _) => cbv zeta
  | |- gated _ (?f _) => lazymatch f with (match ?x with _ => _ end) => destruct x end
  | |- gatedM _ (?f _) => lazymatch f with (match ?x with _ => _ end) => destruct x end
  | |- forall _, _ => intros ?
  end.

Ltac gate_auto := repeat (first [ solve [eauto with gated] | gate_step ]).

