(* ===== verification/Naming.v ===== *)
(** * Generated MachineSet names

    The name functions of internal/controller: RFC 1123 sanitising, the base name of a
    destination failure domain, its numbered copies, and the recorded names. *)

From S2P Require Import Prelude GoErrors Objects.
Import GoStr.

(** ** sanitizeRFC1123 *)

Definition is_alnum (c : ascii) : bool :=
  let n := Ascii.nat_of_ascii c in
  ((97 <=? n)%nat && (n <=? 122)%nat) || ((48 <=? n)%nat && (n <=? 57)%nat).

Definition is_hyphen (c : ascii) : bool := is_char "-"%char c.

(** The body of the [for strings.Contains(name, "--")] loop, repeated while it applies;
    every round shortens the name, so its length is enough fuel. *)
Fixpoint collapse (fuel : nat) (name : string) : string :=
  match fuel with
  | O => name
  | S n => if Contains name "--" then collapse n (ReplaceAll name "--" "-") else name
  end.

Definition sanitizeRFC1123 (name : string) : string :=
  let name := ToLower name in
  let name := smap (fun c => if is_alnum c then c else "-"%char) name in
  let name := collapse (String.length name) name in
  trim is_hyphen name.

(** ** Worker MachineSet names *)

Definition maxGeneratedMachineSetNameLen : nat := 63.
Definition generatedMachineSetNameSuffixReserve : nat := 4.

(** The untruncated name of the released operator. *)
Definition legacyWorkerName (infraID sanitized : string) : string :=
  Sprintf "%s-worker-%s" [RStr infraID; RStr sanitized].

Definition workerMachineSetName (infraID fdName : string) (knownNames : list string) : string :=
  let sanitized := sanitizeRFC1123 fdName in
  let sanitized := if String.eqb sanitized "" then "default" else sanitized in
  let name := legacyWorkerName infraID sanitized in
  if ContainsStr knownNames name then name
  else
    let maxLen := maxGeneratedMachineSetNameLen - generatedMachineSetNameSuffixReserve in
    if (maxLen <? String.length name)%nat then trim is_hyphen (stake maxLen name) else name.

Definition suffixedWorkerMachineSetName (base : string) (si : nat) : string :=
  if (si =? 0)%nat then base
  else Sprintf "%s-%d" [RStr base; RInt (Z.of_nat si + 1)].

Definition isSuffixedMachineSetName (name base : string) : bool :=
  match CutPrefix name (base +:+ "-") with
  | None => false
  | Some suffix => negb (String.eqb suffix "") && sforall is_digit suffix
  end.

(** The names of one destination: its base and the numbered copies. *)
Definition matchesBase (base name : string) : bool :=
  String.eqb name base || isSuffixedMachineSetName name base.

Definition recordedWorkerMachineSetNames (recorded : list string) (base : string) : list string :=
  SortStrings (filter (fun name => matchesBase base name = true) recorded).

Definition workerMachineSetNamesForBase (msList : list MachineSet) (base : string) : list string :=
  base :: filter (fun name => isSuffixedMachineSetName name base = true) (ms_Name <$> msList).

(** ** Facts *)

Lemma Sprintf_worker infraID x : legacyWorkerName infraID x = infraID +:+ "-worker-" +:+ x.
Proof. unfold legacyWorkerName, Sprintf; simpl. by rewrite append_nil_r. Qed.

Lemma Sprintf_suffix base z : Sprintf "%s-%d" [RStr base; RInt z] = base +:+ "-" +:+ pretty z.
Proof. unfold Sprintf; simpl. by rewrite append_nil_r. Qed.

Lemma suffixed_eq base si :
  suffixedWorkerMachineSetName base si =
    if (si =? 0)%nat then base else base +:+ "-" +:+ pretty (N.of_nat (S si)).
Proof.
  unfold suffixedWorkerMachineSetName. destruct (Nat.eqb_spec si 0); [done|].
  rewrite Sprintf_suffix. replace (Z.of_nat si + 1)%Z with (Z.of_nat (S si)) by lia.
  by rewrite pretty_Z_of_nat.
Qed.

(** *** Collapsing *)


Lemma replace_hyphens_skip k s :
  String.length (replace_from k s "--" "-") + min k (String.length s) <= String.length s.
Proof.
  revert k; induction s as [|c s IH]; intros k; [simpl; lia|].
  destruct k as [|k]; cbn [replace_from String.length].
  - destruct (HasPrefix (String c s) "--") eqn:E.
    + apply HasPrefix_spec in E as [r E]. cbn in E. simplify_eq.
      specialize (IH 1). cbn in *. lia.
    + specialize (IH 0). cbn in *. lia.
  - specialize (IH k). lia.
Qed.

Lemma replace_hyphens_shorter s :
  Contains s "--" = true -> String.length (ReplaceAll s "--" "-") < String.length s.
Proof.
  unfold ReplaceAll. intros (a & b & ->)%Contains_spec.
  remember (a +:+ "--" +:+ b) as s eqn:Hs. revert a Hs.
  induction s as [|c s IH]; intros a Hs; [by destruct a|].
  cbn [replace_from]. destruct (HasPrefix (String c s) "--") eqn:E.
  - apply HasPrefix_spec in E as [r E]. cbn in E. simplify_eq.
    pose proof (replace_hyphens_skip 1 (String "-" r)) as H. cbn in *. lia.
  - destruct a as [|d a].
    + exfalso. apply not_true_iff_false in E. apply E, HasPrefix_spec. by exists b.
    + cbn in Hs. injection Hs as -> Hs. cbn. pose proof (IH a Hs). lia.
Qed.

Lemma collapse_done n s : String.length s <= n -> Contains (collapse n s) "--" = false.
Proof.
  revert s; induction n as [|n IH]; intros s Hn.
  - destruct s; [done|]. cbn in *; lia.
  - cbn. destruct (Contains s "--") eqn:E; [|done].
    apply IH. pose proof (replace_hyphens_shorter s E). lia.
Qed.

Definition label_char (c : ascii) : bool := is_alnum c || is_hyphen c.

Lemma replace_hyphens_chars k s :
  sforall label_char s = true -> sforall label_char (replace_from k s "--" "-") = true.
Proof.
  revert k; induction s as [|c s IH]; intros k; [done|]. cbn [sforall]. intros [Hc Hs]%andb_true_iff.
  destruct k; cbn [replace_from]; [|auto].
  destruct (HasPrefix (String c s) "--"); [rewrite sforall_app|cbn; rewrite Hc]; rewrite IH; auto.
Qed.

Lemma collapse_chars n s : sforall label_char s = true -> sforall label_char (collapse n s) = true.
Proof.
  revert s; induction n as [|n IH]; intros s Hs; [done|]. cbn.
  destruct (Contains s "--"); [|done]. by apply IH, replace_hyphens_chars.
Qed.

Lemma collapse_id n s : Contains s "--" = false -> collapse n s = s.
Proof. intros H. destruct n; cbn; [done|]. by rewrite H. Qed.

(** A name in canonical form: lower-case letters, digits and single hyphens, none at
    the ends. *)
Definition canonical_label (s : string) : Prop :=
  sforall label_char s = true /\ Contains s "--" = false /\ trimmed is_hyphen s.

Lemma sanitize_canonical name : canonical_label (sanitizeRFC1123 name).
Proof.
  unfold sanitizeRFC1123.
  set (m := smap _ (ToLower name)).
  assert (sforall label_char m = true) as Hm.
  { apply sforall_smap. intros c. unfold label_char. by destruct (is_alnum c) eqn:E; rewrite ?E. }
  pose proof (collapse_chars (String.length m) m Hm) as Hc.
  pose proof (collapse_done (String.length m) m (le_n _)) as Hd.
  destruct (trim_infix is_hyphen (collapse (String.length m) m)) as (a & b & Heq).
  split_and!.
  - rewrite Heq in Hc. rewrite !sforall_app in Hc. reflect_bools. done.
  - rewrite Heq in Hd. by apply Contains_sub_false in Hd.
  - apply trim_trimmed.
Qed.

Lemma label_char_fix c : label_char c = true -> (if is_alnum (lower c) then lower c else "-"%char) = c.
Proof.
  destruct c as [[] [] [] [] [] [] [] []]; vm_compute; congruence.
Qed.

Lemma label_char_ascii c : label_char c = true -> byte_is 196 c = false /\ byte_is 226 c = false.
Proof. destruct c as [[] [] [] [] [] [] [] []]; vm_compute; split; congruence. Qed.

Lemma foldLetters_label s : sforall label_char s = true -> foldLetters s = s.
Proof.
  induction s as [|a s IH]; [done|]. cbn [sforall]. intros H. reflect_bools.
  match goal with H : label_char a = true |- _ => apply label_char_ascii in H as [E1 E2] end.
  cbn [foldLetters]. rewrite E1, E2, IH by done. by destruct s as [|b [|c s]].
Qed.

Lemma sanitize_fix s : canonical_label s -> sanitizeRFC1123 s = s.
Proof.
  intros (Hc & Hd & Ht). unfold sanitizeRFC1123, ToLower.
  rewrite foldLetters_label by done.
  assert (smap (fun c => if is_alnum c then c else "-"%char) (smap lower s) = s) as ->.
  { clear Hd Ht. induction s as [|c s IH]; [done|]. cbn [sforall smap] in *. reflect_bools.
    rewrite IH by done. by rewrite label_char_fix. }
  rewrite collapse_id by done. by apply trim_id.
Qed.

(** *** Suffixes *)

Lemma isSuffixed_spec name base :
  isSuffixedMachineSetName name base = true <->
  exists d, name = base +:+ "-" +:+ d /\ d <> "" /\ sforall is_digit d = true.
Proof.
  unfold isSuffixedMachineSetName. destruct (CutPrefix name (base +:+ "-")) as [d|] eqn:E.
  - apply CutPrefix_Some in E. rewrite append_assoc in E. split.
    + intros H. reflect_bools. by exists d.
    + intros (d' & Heq & Hne & Hd). rewrite E in Heq. do 2 apply (inj _) in Heq. subst d'.
      rewrite Hd. by destruct (String.eqb_spec d "").
  - split; [done|]. intros (d & -> & _). exfalso.
    rewrite <- append_assoc in E. assert (CutPrefix ((base +:+ "-") +:+ d) (base +:+ "-") = Some d) by by apply CutPrefix_Some.
    congruence.
Qed.

Lemma suffixed_matches base si : matchesBase base (suffixedWorkerMachineSetName base si) = true.
Proof.
  unfold matchesBase. rewrite suffixed_eq. destruct (Nat.eqb_spec si 0).
  - by rewrite String.eqb_refl.
  - apply orb_true_iff; right. apply isSuffixed_spec. eexists; split_and!; [done| |].
    + apply pretty_N_nonempty.
    + apply pretty_N_digits.
Qed.

Lemma base_not_suffixed base d : base <> base +:+ "-" +:+ d.
Proof.
  intros H. apply (f_equal String.length) in H. rewrite !length_append in H. cbn in H. lia.
Qed.

Lemma suffixed_inj base si sj :
  suffixedWorkerMachineSetName base si = suffixedWorkerMachineSetName base sj -> si = sj.
Proof.
  rewrite !suffixed_eq. destruct (Nat.eqb_spec si 0), (Nat.eqb_spec sj 0); subst; [done| | |].
  - by intros ?%base_not_suffixed.
  - intros H. symmetry in H. by apply base_not_suffixed in H.
  - intros H. do 2 apply (inj _) in H. apply (inj _) in H. lia.
Qed.

Lemma elem_of_recorded x recorded base :
  x ∈ recordedWorkerMachineSetNames recorded base <-> x ∈ recorded /\ matchesBase base x = true.
Proof.
  unfold recordedWorkerMachineSetNames. rewrite elem_of_SortStrings, list_elem_of_filter. tauto.
Qed.

Lemma recorded_nil recorded base :
  recordedWorkerMachineSetNames recorded base = [] <-> forall x, x ∈ recorded -> matchesBase base x = false.
Proof.
  split.
  - intros H x Hx. apply not_true_is_false. intros Hm.
    assert (x ∈ recordedWorkerMachineSetNames recorded base) as Hin by by apply elem_of_recorded.
    rewrite H in Hin. by apply not_elem_of_nil in Hin.
  - intros H. destruct (recordedWorkerMachineSetNames recorded base) as [|x l] eqn:E; [done|].
    assert (x ∈ recordedWorkerMachineSetNames recorded base) as Hin by (rewrite E; left).
    apply elem_of_recorded in Hin as [Hx Hm]. rewrite H in Hm by done. done.
Qed.

(** *** Lengths *)

Lemma pretty_length_999 n : n <= 999 -> String.length (pretty (N.of_nat n)) <= 3.
Proof.
  intros Hn.
  assert (forallb (fun n => (String.length (pretty (N.of_nat n)) <=? 3)%nat) (seq 0 1000) = true) as H by by vm_compute.
  rewrite forallb_forall in H. apply Nat.leb_le, H, in_seq. lia.
Qed.

Lemma suffixed_length base si : si < 999 -> String.length (suffixedWorkerMachineSetName base si) <= String.length base + 4.
Proof.
  intros Hsi. rewrite suffixed_eq. destruct (si =? 0)%nat; [lia|]. rewrite !length_append; cbn [String.length].
  pose proof (pretty_length_999 (S si)). lia.
Qed.

(** ** Properties *)

(** C38: [sanitizeRFC1123] always ends (its loop runs out of double hyphens), and its result
    holds only lower-case letters, digits and single hyphens with none at either end; a
    name already in that form is returned unchanged, so the function is idempotent. *)
Theorem sanitizeRFC1123_correct (name : string) :
  canonical_label (sanitizeRFC1123 name) /\
  sanitizeRFC1123 (sanitizeRFC1123 name) = sanitizeRFC1123 name /\
  (canonical_label name -> sanitizeRFC1123 name = name).
Proof.
  split_and!; [apply sanitize_canonical | apply sanitize_fix, sanitize_canonical | apply sanitize_fix].
Qed.

(** C36: the copies of one destination failure domain (up to 999 of them) get pairwise distinct
    names of at most 63 bytes, unless the base is a name of the released operator that is
    already known and longer than the 59 bytes of a generated base.  Such a name, and only a
    known one, is kept as it is; then a copy is at most four bytes longer than it. *)
Theorem generated_names_fit (infraID fdName : string) (known : list string) :
  let sanitized := sanitizeRFC1123 fdName in
  let legacy := infraID +:+ "-worker-" +:+ (if decide (sanitized = "") then "default" else sanitized) in
  let base := workerMachineSetName infraID fdName known in
  (legacy ∈ known -> base = legacy) /\
  (forall si sj, suffixedWorkerMachineSetName base si = suffixedWorkerMachineSetName base sj -> si = sj) /\
  forall si, si < 999 ->
    String.length (suffixedWorkerMachineSetName base si) <=
      if decide (legacy ∈ known /\ 59 < String.length legacy) then String.length legacy + 4 else 63.
Proof.
  intros sanitized legacy base.
  assert (base = if decide (legacy ∈ known) then legacy
                 else if decide (59 < String.length legacy) then trim is_hyphen (stake 59 legacy) else legacy) as Hbase.
  { subst base legacy sanitized. unfold workerMachineSetName. rewrite Sprintf_worker.
    change (maxGeneratedMachineSetNameLen - generatedMachineSetNameSuffixReserve) with 59.
    replace (if String.eqb (sanitizeRFC1123 fdName) "" then "default" else sanitizeRFC1123 fdName)
      with (if decide (sanitizeRFC1123 fdName = "") then "default" else sanitizeRFC1123 fdName)
      by (by case_decide; destruct (String.eqb_spec (sanitizeRFC1123 fdName) "")).
    cbv zeta. set (x := infraID +:+ _). unfold ContainsStr. destruct (decide (x ∈ known)).
    - by rewrite bool_decide_true.
    - rewrite bool_decide_false by done. destruct (Nat.ltb_spec 59 (String.length x)); case_decide; (done || lia). }
  split_and!; [intros Hin; by rewrite Hbase, decide_True|apply suffixed_inj|].
  intros si Hsi. pose proof (suffixed_length base si Hsi) as Hlen. revert Hlen. rewrite Hbase.
  pose proof (length_trim_le is_hyphen (stake 59 legacy)) as Htrim. rewrite length_stake in Htrim.
  repeat case_decide; intuition lia.
Qed.

(** C37: recording is a round trip: the names a destination generates are exactly found again
    under its base, whatever else is recorded, and the answer does not depend on the
    order in which names were recorded. *)
Theorem recorded_names_roundtrip (recorded : list string) (base : string) (n : nat) :
  (forall si, si < n -> suffixedWorkerMachineSetName base si ∈ recorded ->
     suffixedWorkerMachineSetName base si ∈ recordedWorkerMachineSetNames recorded base) /\
  (forall name, name ∈ recordedWorkerMachineSetNames recorded base ->
     name ∈ recorded /\ (name = base \/ exists d, name = base +:+ "-" +:+ d /\ d <> "" /\ sforall is_digit d = true)) /\
  (forall recorded', recorded' ≡ₚ recorded ->
     recordedWorkerMachineSetNames recorded' base = recordedWorkerMachineSetNames recorded base).
Proof.
  split_and!.
  - intros si _ Hin. apply elem_of_recorded. split; [done | apply suffixed_matches].
  - intros name [Hin Hm]%elem_of_recorded. split; [done|].
    apply orb_true_iff in Hm as [Hm|Hm]; reflect_bools; [by left | right; by apply isSuffixed_spec].
  - intros recorded' Hp. unfold recordedWorkerMachineSetNames. apply SortStrings_canonical.
    by rewrite Hp.
Qed.
