(* ===== verification/Messages.v ===== *)
(** * Bounded status and event text

    The stalled-deletion detail of vmwarecloudfoundationmigration_controller.go: the event
    note capped at 1024 bytes and the condition message capped at 32768 bytes. *)

From S2P Require Import Prelude GoErrors.
Import GoStr.

Definition maxConditionMessageBytes : Z := 32768.
Definition maxEventNoteBytes : Z := 1024.
Definition oldWorkerStallEventPrefix : string := "Old worker deletion stalled: ".

(** ** Definitions *)

Record stallDetailPart := MkPart {
  part_machineSetName : string;
  part_text : string;
  part_machineNames : list string;
}.

Definition joinStallDetailParts (parts : list stallDetailPart) : string :=
  Join (part_text <$> parts) "; ".

Definition truncateToBytes (s : string) (maxBytes : Z) : string :=
  if (maxBytes <=? 0)%Z then ""
  else if (slen s <=? maxBytes)%Z then s
  else stake (Z.to_nat maxBytes) s.

Definition stallOmitSuffix (omitted : list string) : string :=
  match omitted with
  | [] => ""
  | _ => Sprintf "; ... and %d more machine(s) omitted: [%s]"
           [RInt (Z.of_nat (length omitted)); RStr (Join omitted ", ")]
  end.

(** The loop that drops names from the end until the text fits. *)
Fixpoint dropNamesToFit (fuel : nat) (countPrefix : string) (names : list string) (maxSuffixBytes : Z) : option string :=
  match fuel with
  | O => None
  | S n =>
      match names with
      | [] => None
      | _ =>
          let trial := countPrefix +:+ Join names ", " +:+ "]" in
          if (slen trial <=? maxSuffixBytes)%Z then Some trial
          else dropNamesToFit n countPrefix (removelast names) maxSuffixBytes
      end
  end.

Definition stallOmitSuffixFit (omitted : list string) (maxSuffixBytes : Z) : string :=
  match omitted with
  | [] => ""
  | _ =>
      if (maxSuffixBytes <=? 0)%Z then truncateToBytes (stallOmitSuffix omitted) maxSuffixBytes
      else
        let suffix := stallOmitSuffix omitted in
        if (slen suffix <=? maxSuffixBytes)%Z then suffix
        else
          let countPrefix := Sprintf "; ... and %d more machine(s) omitted: [" [RInt (Z.of_nat (length omitted))] in
          let countOnly := Sprintf "; ... and %d more machine(s) omitted" [RInt (Z.of_nat (length omitted))] in
          let available := (maxSuffixBytes - slen countPrefix - 1)%Z in
          if (available <=? 0)%Z then truncateToBytes countOnly maxSuffixBytes
          else
            match dropNamesToFit (S (length omitted)) countPrefix omitted maxSuffixBytes with
            | Some trial => trial
            | None => truncateToBytes countOnly maxSuffixBytes
            end
  end.

(** The loop that takes leading parts while the note still fits; returns the parts
    included and the number of their machine names. *)
Fixpoint includeParts (allNames : list string) (included : list stallDetailPart) (count : nat)
    (parts : list stallDetailPart) : list stallDetailPart * nat :=
  match parts with
  | [] => (included, count)
  | part :: rest =>
      let trialIncluded := included ++ [part] in
      let trialDetail := joinStallDetailParts trialIncluded in
      let omitted := drop (count + length (part_machineNames part)) allNames in
      let suffix := stallOmitSuffix omitted in
      if (slen (oldWorkerStallEventPrefix +:+ trialDetail +:+ suffix) <=? maxEventNoteBytes)%Z
      then includeParts allNames trialIncluded (count + length (part_machineNames part)) rest
      else (included, count)
  end.

Definition boundOldWorkerStallEventNote (parts : list stallDetailPart) : string :=
  let allNames := mjoin (part_machineNames <$> parts) in
  let note := oldWorkerStallEventPrefix +:+ joinStallDetailParts parts in
  if (slen note <=? maxEventNoteBytes)%Z then note
  else
    let '(included, includedNameCount) := includeParts allNames [] 0 parts in
    let detail := joinStallDetailParts included in
    let omitted := drop includedNameCount allNames in
    let maxSuffixBytes := (maxEventNoteBytes - slen (oldWorkerStallEventPrefix +:+ detail))%Z in
    oldWorkerStallEventPrefix +:+ detail +:+ stallOmitSuffixFit omitted maxSuffixBytes.

(** ** Counting machines back out of a message *)

Definition countMachineEntries (s : string) : nat :=
  let s := TrimSpace s in
  if String.eqb s "" then 0
  else
    let c := scount (is_char ")"%char) s in
    if (0 <? c)%nat then c else scount (is_char ","%char) s + 1.

(** The [for] loop; each round moves [start] past a bracket, so the length is enough fuel. *)
Fixpoint countMachinesLoop (fuel : nat) (msg : string) (count : nat) : nat :=
  match fuel with
  | O => count
  | S n =>
      match Index msg "[" with
      | None => count
      | Some open =>
          let rest := sdrop (open + 1) msg in
          match Index rest "]" with
          | None => count + countMachineEntries rest
          | Some close =>
              countMachinesLoop n (sdrop (close + 1) rest) (count + countMachineEntries (stake close rest))
          end
      end
  end.

Definition countMachinesInMessage (msg : string) : nat :=
  countMachinesLoop (S (String.length msg)) msg 0.

Definition omittedSuffix (n : nat) : string :=
  Sprintf "%s%d%s" [RStr "; ... and "; RInt (Z.of_nat n); RStr " more machine(s) omitted"].

(** Cut back to the last separator, a semicolon by preference; [idx > 0] in the code. *)
Definition cutAtSeparator (prefix : string) : string :=
  match LastIndex prefix "; " with
  | Some (S lastSemi) => stake (S lastSemi) prefix
  | _ => match LastIndex prefix ", " with
         | Some (S lastComma) => stake (S lastComma) prefix
         | _ => prefix
         end
  end.

Definition boundConditionMessage (msg : string) : string :=
  if (slen msg <=? maxConditionMessageBytes)%Z then msg
  else
    let totalMachines := countMachinesInMessage msg in
    let suffixEst := omittedSuffix totalMachines in
    let maxPrefixLen := (maxConditionMessageBytes - slen suffixEst)%Z in
    if (maxPrefixLen <=? 0)%Z then truncateToBytes suffixEst maxConditionMessageBytes
    else
      let prefix := stake (Z.to_nat maxPrefixLen) msg in
      let prefix := cutAtSeparator prefix in
      let preservedMachines := countMachinesInMessage prefix in
      let omitted := if (totalMachines <=? preservedMachines)%nat then 1 else totalMachines - preservedMachines in
      let suffix := omittedSuffix omitted in
      let prefix :=
        if (maxConditionMessageBytes <? slen prefix + slen suffix)%Z
        then truncateToBytes prefix (maxConditionMessageBytes - slen suffix)
        else prefix in
      prefix +:+ suffix.

(** ** Facts *)

Lemma truncate_length s n : (slen (truncateToBytes s n) <= Z.max 0 n)%Z.
Proof.
  unfold truncateToBytes. destruct (Z.leb_spec n 0); [unfold slen; cbn; lia|].
  destruct (Z.leb_spec (slen s) n); [lia|].
  unfold slen in *. rewrite length_stake. lia.
Qed.

Lemma truncate_prefix s n : exists r, s = truncateToBytes s n +:+ r.
Proof.
  unfold truncateToBytes. destruct (n <=? 0)%Z; [by exists s|].
  destruct (_ <=? _)%Z; [exists ""; by rewrite append_nil_r|].
  exists (sdrop (Z.to_nat n) s). by rewrite stake_sdrop.
Qed.

Lemma cut_prefix n s : exists r, s = cutAtSeparator (stake n s) +:+ r.
Proof.
  set (p := stake n s). assert (s = p +:+ sdrop n s) as H0 by (symmetry; apply stake_sdrop).
  assert (forall k, exists r, s = stake k p +:+ r) as Hk.
  { intros k. exists (sdrop k p +:+ sdrop n s). by rewrite <- append_assoc, stake_sdrop. }
  unfold cutAtSeparator.
  destruct (LastIndex p "; ") as [[|?]|]; [|apply Hk|]; destruct (LastIndex p ", ") as [[|?]|]; eauto.
Qed.

Lemma dropNames_length fuel p names n t :
  dropNamesToFit fuel p names n = Some t -> (slen t <= n)%Z.
Proof.
  revert names; induction fuel as [|fuel IH]; intros [|x names]; try done.
  cbn [dropNamesToFit]. destruct (Z.leb_spec (slen (p +:+ Join (x :: names) ", " +:+ "]")) n); [|apply IH].
  by intros [= <-].
Qed.

Lemma suffixFit_length omitted n : (slen (stallOmitSuffixFit omitted n) <= Z.max 0 n)%Z.
Proof.
  unfold stallOmitSuffixFit. destruct omitted as [|x l]; [unfold slen; cbn; lia|].
  destruct (Z.leb_spec n 0); [apply truncate_length|]. cbv zeta.
  destruct (Z.leb_spec (slen (stallOmitSuffix (x :: l))) n); [lia|].
  destruct (_ <=? 0)%Z; [apply truncate_length|].
  destruct (dropNamesToFit _ _ _ _) eqn:E; [apply dropNames_length in E; lia | apply truncate_length].
Qed.

Definition fits_note (included : list stallDetailPart) : Prop :=
  (slen (oldWorkerStallEventPrefix +:+ joinStallDetailParts included) <= maxEventNoteBytes)%Z.

Lemma includeParts_fits allNames included count parts included' count' :
  includeParts allNames included count parts = (included', count') ->
  fits_note included -> fits_note included'.
Proof.
  revert included count; induction parts as [|part rest IH]; intros included count; cbn [includeParts].
  - by intros [= <- <-].
  - match goal with |- context [(?a <=? ?b)%Z] => destruct (Z.leb_spec a b) as [Hle|] end; [|by intros [= <- <-]].
    intros Heq _. eapply IH; [exact Heq|]. unfold fits_note.
    rewrite <- append_assoc, slen_append in Hle.
    match type of Hle with (_ + ?x <= _)%Z => pose proof (slen_nonneg (stallOmitSuffix (drop (count + length (part_machineNames part)) allNames))) end.
    lia.
Qed.

(** The parts included are a leading segment, and the count is that of their names. *)
Lemma includeParts_prefix allNames included count parts included' count' :
  includeParts allNames included count parts = (included', count') ->
  count = length (mjoin (part_machineNames <$> included)) ->
  exists taken rest, parts = taken ++ rest /\ included' = included ++ taken /\
  count' = length (mjoin (part_machineNames <$> included')).
Proof.
  revert included count; induction parts as [|part rest IH]; intros included count; cbn [includeParts].
  - intros [= <- <-] ->. exists [], []. rewrite (app_nil_r included). auto.
  - destruct (_ <=? _)%Z.
    + intros Heq ->. apply IH in Heq as (taken & rest' & -> & -> & ->).
      * exists (part :: taken), rest'. by rewrite <- app_assoc.
      * rewrite fmap_app, join_app, length_app; simpl. by rewrite app_nil_r.
    + intros [= <- <-] ->. exists [], (part :: rest). rewrite (app_nil_r included). auto.
Qed.

Lemma omittedSuffix_mono a b : a <= b -> (slen (omittedSuffix a) <= slen (omittedSuffix b))%Z.
Proof.
  intros Hle. unfold omittedSuffix, Sprintf; simpl.
  rewrite !pretty_Z_of_nat. unfold slen.
  pose proof (pretty_N_length_mono (N.of_nat a) (N.of_nat b)).
  repeat (rewrite length_append || cbn [String.length]). lia.
Qed.

(** ** Properties *)

(** the condition message recorded while old workers are being deleted never exceeds 32768
    bytes; a message within the limit is kept as it is, and a longer one keeps a leading
    part of the detail followed by the count of the machines left out. *)
Theorem boundConditionMessage_bounded (msg : string) :
  (slen (boundConditionMessage msg) <= maxConditionMessageBytes)%Z /\
  ((slen msg <= maxConditionMessageBytes)%Z -> boundConditionMessage msg = msg) /\
  ((maxConditionMessageBytes < slen msg)%Z -> (slen (omittedSuffix (countMachinesInMessage msg)) < maxConditionMessageBytes)%Z ->
     exists kept rest omitted, msg = kept +:+ rest /\ 1 <= omitted /\
  boundConditionMessage msg = kept +:+ omittedSuffix omitted).
Proof.
  unfold boundConditionMessage.
  destruct (Z.leb_spec (slen msg) maxConditionMessageBytes) as [Hs|Hs]; [split_and!; [lia|done|lia]|].
  cbv zeta. set (total := countMachinesInMessage msg).
  destruct (Z.leb_spec (maxConditionMessageBytes - slen (omittedSuffix total)) 0) as [Hp|Hp].
  { split_and!; [|lia|lia]. pose proof (truncate_length (omittedSuffix total) maxConditionMessageBytes).
    unfold maxConditionMessageBytes in *. lia. }
  set (prefix := cutAtSeparator _).
  assert (exists r, msg = prefix +:+ r) as [r Hr] by apply cut_prefix.
  set (omitted := if (total <=? _)%nat then 1 else _).
  assert (1 <= omitted <= Nat.max 1 total) as [Ho1 Ho2].
  { subst omitted. destruct (Nat.leb_spec total (countMachinesInMessage prefix)); lia. }
  assert (slen (omittedSuffix omitted) <= slen (omittedSuffix total))%Z as Hsuf.
  { destruct total as [|t] eqn:Et; [|apply omittedSuffix_mono; lia].
    assert (omitted = 1) as -> by lia. by vm_compute. }
  set (prefix' := if (_ <? _)%Z then _ else prefix).
  assert (exists r', msg = prefix' +:+ r') as [r' Hr'].
  { subst prefix'. destruct (_ <? _)%Z; [|eauto].
    destruct (truncate_prefix prefix (maxConditionMessageBytes - slen (omittedSuffix omitted))) as [x Hx].
    exists (x +:+ r). by rewrite <- append_assoc, <- Hx. }
  split_and!; [|lia|intros _ _; by exists prefix', r', omitted].
  rewrite slen_append. subst prefix'.
  destruct (Z.ltb_spec maxConditionMessageBytes (slen prefix + slen (omittedSuffix omitted))); [|lia].
  pose proof (truncate_length prefix (maxConditionMessageBytes - slen (omittedSuffix omitted))). lia.
Qed.

Lemma boundConditionMessage_bounded_witness :
  boundConditionMessage "Waiting for old worker deletion: a has 1 machine(s) [a-1 (5s old)] and 0 node(s) remaining"
    = "Waiting for old worker deletion: a has 1 machine(s) [a-1 (5s old)] and 0 node(s) remaining".
Proof. apply boundConditionMessage_bounded. vm_compute. discriminate. Defined.

(** C39: the Warning event note never exceeds 1024 bytes, carries the full detail whenever that
    fits, and otherwise the detail of a leading segment of the MachineSets, followed by text
    about the machines of the remaining ones. *)
Theorem boundOldWorkerStallEventNote_bounded (parts : list stallDetailPart) :
  (slen (boundOldWorkerStallEventNote parts) <= maxEventNoteBytes)%Z /\
  (fits_note parts -> boundOldWorkerStallEventNote parts = oldWorkerStallEventPrefix +:+ joinStallDetailParts parts) /\
  exists taken rest tail, parts = taken ++ rest /\
  boundOldWorkerStallEventNote parts = oldWorkerStallEventPrefix +:+ joinStallDetailParts taken +:+ tail /\
  (rest = [] \/ tail = stallOmitSuffixFit (mjoin (part_machineNames <$> rest))
       (maxEventNoteBytes - slen (oldWorkerStallEventPrefix +:+ joinStallDetailParts taken))).
Proof.
  unfold boundOldWorkerStallEventNote, fits_note. cbv zeta.
  destruct (Z.leb_spec (slen (oldWorkerStallEventPrefix +:+ joinStallDetailParts parts)) maxEventNoteBytes) as [H|H].
  { split_and!; [done|done|]. exists parts, [], "". rewrite !append_nil_r, app_nil_r. auto. }
  destruct (includeParts _ [] 0 parts) as [included count] eqn:E.
  pose proof E as E'. apply includeParts_prefix in E' as (taken & rest & Hp & Hi & Hc); [|done].
  apply includeParts_fits in E; [|by vm_compute]. simpl in Hi. subst taken.
  split_and!; [| lia |].
  - rewrite <- append_assoc, slen_append. unfold fits_note in E.
    pose proof (suffixFit_length (drop count (mjoin (part_machineNames <$> parts)))
      (maxEventNoteBytes - slen (oldWorkerStallEventPrefix +:+ joinStallDetailParts included))). lia.
  - eexists included, rest, _; split_and!; [done|done|]. right. do 2 f_equal.
    rewrite Hp, fmap_app, join_app, Hc. by rewrite drop_app_length.
Qed.

Lemma boundOldWorkerStallEventNote_bounded_witness :
  boundOldWorkerStallEventNote [MkPart "ms-a" "ms-a has 1 machine(s) [m1 (3s old)] and 1 node(s) remaining" ["m1"]]
    = "Old worker deletion stalled: ms-a has 1 machine(s) [m1 (3s old)] and 1 node(s) remaining".
Proof. apply boundOldWorkerStallEventNote_bounded. vm_compute. discriminate. Defined.
