(* ===== verification/Metrics.v ===== *)
(** * Prometheus metrics (internal/metrics/metrics.go)

    The phase derived from the conditions and the gauges set from a status.  A gauge is
    keyed by its metric name and label values; the duration gauge is kept in nanoseconds
    (Prometheus shows it divided by 10^9). *)

From S2P Require Import Prelude GoErrors Objects Types Effects Execution.

Definition MigrationPhaseGauge := "vcf_migration_phase".
Definition ConditionStatusGauge := "vcf_migration_condition_status".
Definition DurationSecondsGauge := "vcf_migration_duration_seconds".
Definition WorkersTotalGauge := "vcf_migration_workers_total".
Definition WorkersReadyGauge := "vcf_migration_workers_ready".
Definition NodesReadyGauge := "vcf_migration_nodes_ready".
Definition SourceWorkersRemainingGauge := "vcf_migration_source_workers_remaining".
Definition ControlPlaneReplicasGauge := "vcf_migration_control_plane_replicas".
Definition ControlPlaneUpdatedReplicasGauge := "vcf_migration_control_plane_updated_replicas".
Definition ControlPlaneReadyReplicasGauge := "vcf_migration_control_plane_ready_replicas".

Definition phaseOrder : list string :=
  [ConditionInfrastructurePrepared; ConditionDestinationInitialized; ConditionMultiSiteConfigured;
   ConditionWorkloadMigrated; ConditionSourceCleaned].

Definition allPhases : list string :=
  ["Pending"; "InfrastructurePrepared"; "DestinationInitialized"; "MultiSiteConfigured"; "WorkloadMigrated";
   "SourceCleaned"; "Completed"; "Failed"; "Paused"].

Definition allConditionStatuses : list string := [ConditionTrue; ConditionFalse; ConditionUnknown].

(** The loop over [phaseOrder], with the variable [started]. *)
Fixpoint phaseLoop (conds : list Condition) (order : list string) (started : bool) : string :=
  match order with
  | [] => if started then "Completed" else "Pending"
  | condType :: rest =>
      match FindStatusCondition conds condType with
      | None => if started then condType else phaseLoop conds rest started
      | Some cond =>
          if negb (String.eqb (c_Status cond) ConditionTrue)
          then (if String.eqb (c_Reason cond) ReasonFailed then "Failed" else condType)
          else phaseLoop conds rest true
      end
  end.

Definition PhaseFromConditions (status : MigrationStatus) : string :=
  match FindStatusCondition (Conditions status) ConditionReady with
  | Some ready =>
      if String.eqb (c_Status ready) ConditionTrue then "Completed"
      else if String.eqb (c_Reason ready) ReasonPaused then "Paused"
      else phaseLoop (Conditions status) phaseOrder false
  | None => phaseLoop (Conditions status) phaseOrder false
  end.

Definition set_gauge (name : string) (labels : list string) (v : Z) (g : Gauges) : Gauges := <[(name, labels) := v]> g.

Definition setPhaseGauges (phase : string) (g : Gauges) : Gauges :=
  foldl (fun g p => set_gauge MigrationPhaseGauge [p] (if String.eqb phase p then 1 else 0) g) g allPhases.

Definition setConditionGauges (conds : list Condition) (g : Gauges) : Gauges :=
  foldl (fun g cond =>
    foldl (fun g s => set_gauge ConditionStatusGauge [c_Type cond; s] (if String.eqb (c_Status cond) s then 1 else 0) g)
      g allConditionStatuses) g conds.

Definition setProgressGauges (progress : option MigrationProgress) (g : Gauges) : Gauges :=
  match progress with
  | None => g
  | Some p =>
      let g := match Workers p with
               | None => g
               | Some w => set_gauge SourceWorkersRemainingGauge [] (SourceMachinesRemaining w)
                             (set_gauge NodesReadyGauge [] (TargetNodesReady w)
                               (set_gauge WorkersReadyGauge [] (TargetMachinesReady w)
                                 (set_gauge WorkersTotalGauge [] (TargetMachinesTotal w) g)))
               end in
      match ControlPlane p with
      | None => g
      | Some c => set_gauge ControlPlaneReadyReplicasGauge [] (cpp_ReadyReplicas c)
                    (set_gauge ControlPlaneUpdatedReplicasGauge [] (cpp_UpdatedReplicas c)
                      (set_gauge ControlPlaneReplicasGauge [] (cpp_Replicas c) g))
      end
  end.

Definition UpdateMigrationMetrics (status : MigrationStatus) : M unit :=
  let@ _ := modify (with_gauges (setPhaseGauges (PhaseFromConditions status))) in
  let@ _ := modify (with_gauges (setConditionGauges (Conditions status))) in
  let@ duration :=
    match StartTime status with
    | None => ret 0%Z
    | Some start =>
        match CompletionTime status with
        | Some completed => ret (completed - start)%Z
        | None => let@ t := now in ret (t - start)%Z
        end
    end in
  let@ _ := modify (with_gauges (set_gauge DurationSecondsGauge [] duration)) in
  modify (with_gauges (setProgressGauges (Progress status))).

Definition ResetMetrics : M unit :=
  modify (with_gauges (fun g =>
    let g := foldl (fun g p => set_gauge MigrationPhaseGauge [p] 0 g) g allPhases in
    let g := filter (fun kv => kv.1.1 <> ConditionStatusGauge) g in
    foldl (fun g name => set_gauge name [] 0 g) g
      [DurationSecondsGauge; WorkersTotalGauge; WorkersReadyGauge; NodesReadyGauge; SourceWorkersRemainingGauge;
       ControlPlaneReplicasGauge; ControlPlaneUpdatedReplicasGauge; ControlPlaneReadyReplicasGauge])).

Lemma quietM_UpdateMigrationMetrics status : quietM (UpdateMigrationMetrics status).
Proof. unfold UpdateMigrationMetrics. quiet_auto. Qed.
Lemma quietM_ResetMetrics : quietM ResetMetrics.
Proof. unfold ResetMetrics. quiet_auto. Qed.
#[export] Hint Resolve quietM_UpdateMigrationMetrics quietM_ResetMetrics : quiet.

(** ** Facts *)

Lemma phaseLoop_phase conds order started :
  Forall (fun p => p ∈ allPhases) order -> phaseLoop conds order started ∈ allPhases.
Proof.
  revert started; induction order as [|c order IH]; intros started Hf; cbn [phaseLoop].
  - destruct started; apply (bool_decide_unpack _); by vm_compute.
  - inversion Hf; subst. destruct (FindStatusCondition conds c) as [cond|]; [|destruct started; auto].
    destruct (negb _); [|auto]. destruct (String.eqb _ _); [|done].
    apply (bool_decide_unpack _); by vm_compute.
Qed.

Lemma phase_in_allPhases status : PhaseFromConditions status ∈ allPhases.
Proof.
  assert (forall b, phaseLoop (Conditions status) phaseOrder b ∈ allPhases) as Hl.
  { intros b. apply phaseLoop_phase. apply (bool_decide_unpack _). by vm_compute. }
  unfold PhaseFromConditions. destruct (FindStatusCondition _ _) as [r|]; [|done].
  destruct (String.eqb _ _); [apply (bool_decide_unpack _); by vm_compute|].
  destruct (String.eqb _ _); [apply (bool_decide_unpack _); by vm_compute|done].
Qed.

(** A fold of gauge writes with distinct keys: each key gets its own value, the rest stay. *)
Lemma foldl_gauges {X} (key : X -> string * list string) (val : X -> Z) (l : list X) (g : Gauges) k :
  NoDup (key <$> l) ->
  foldl (fun g x => <[key x := val x]> g) g l !! k =
    match List.find (fun x => bool_decide (key x = k)) l with Some x => Some (val x) | None => g !! k end.
Proof.
  revert g; induction l as [|x l IH]; intros g; [done|]. rewrite fmap_cons, NoDup_cons. intros [Hn Hd].
  cbn. rewrite IH by done. case_bool_decide as E.
  - subst k. destruct (List.find _ l) as [y|] eqn:Hf; [|by rewrite lookup_insert_eq].
    apply find_some in Hf as [Hin Hy%bool_decide_eq_true]. exfalso. apply Hn. rewrite <- Hy.
    apply list_elem_of_fmap. exists y. split; [done|by apply list_elem_of_In].
  - destruct (List.find _ l); [done|]. by rewrite lookup_insert_ne.
Qed.

Lemma phase_gauge phase g p :
  p ∈ allPhases -> setPhaseGauges phase g !! (MigrationPhaseGauge, [p]) = Some (if String.eqb phase p then 1%Z else 0%Z).
Proof.
  intros Hp. unfold setPhaseGauges, set_gauge.
  rewrite (foldl_gauges (fun p => (MigrationPhaseGauge, [p]))) by (apply (bool_decide_unpack _); by vm_compute).
  destruct (List.find _ _) as [q|] eqn:E.
  - apply find_some in E as [_ Hq%bool_decide_eq_true]. by simplify_eq.
  - exfalso. apply list_elem_of_In in Hp. pose proof (find_none _ _ E _ Hp) as Hx. cbn in Hx.
    by rewrite bool_decide_eq_false in Hx.
Qed.

Lemma condition_gauges_one cond g k :
  foldl (fun g s => set_gauge ConditionStatusGauge [c_Type cond; s] (if String.eqb (c_Status cond) s then 1 else 0) g) g allConditionStatuses !! k =
    match List.find (fun s => bool_decide ((ConditionStatusGauge, [c_Type cond; s]) = k)) allConditionStatuses with
    | Some s => Some (if String.eqb (c_Status cond) s then 1%Z else 0%Z)
    | None => g !! k
    end.
Proof.
  unfold set_gauge. rewrite (foldl_gauges (fun s => (ConditionStatusGauge, [c_Type cond; s]))); [done|].
  apply NoDup_fmap_2; [intros ? ? ?; by simplify_eq|]. apply (bool_decide_unpack _); by vm_compute.
Qed.

(** The gauges of a condition type hold the status of that condition; those of a type the
    status does not have are left as they were. *)
Lemma condition_gauge conds g t s :
  NoDup (c_Type <$> conds) -> s ∈ allConditionStatuses ->
  setConditionGauges conds g !! (ConditionStatusGauge, [t; s]) =
    match FindStatusCondition conds t with
    | Some c => Some (if String.eqb (c_Status c) s then 1%Z else 0%Z)
    | None => g !! (ConditionStatusGauge, [t; s])
    end.
Proof.
  intros Hn Hs. unfold setConditionGauges. revert g Hn; induction conds as [|c conds IH]; intros g; [done|].
  rewrite fmap_cons, NoDup_cons. intros [Hnot Hn]. cbn [foldl FindStatusCondition]. rewrite IH by done.
  rewrite condition_gauges_one. destruct (String.eqb_spec (c_Type c) t) as [<-|Hne].
  - assert (FindStatusCondition conds (c_Type c) = None) as ->.
    { destruct (FindStatusCondition conds (c_Type c)) as [d|] eqn:E; [|done]. apply Find_In in E as [Hin Heq].
      exfalso. apply Hnot. rewrite <- Heq. apply list_elem_of_fmap_2. by apply list_elem_of_In. }
    destruct (List.find _ _) as [q|] eqn:E.
    + apply find_some in E as [_ Hq%bool_decide_eq_true]. by simplify_eq.
    + apply list_elem_of_In in Hs. pose proof (find_none _ _ E _ Hs) as Hx. by rewrite bool_decide_eq_false in Hx.
  - destruct (FindStatusCondition conds t); [done|]. destruct (List.find _ _) as [q|] eqn:E; [|done].
    apply find_some in E as [_ Hq%bool_decide_eq_true]. by simplify_eq.
Qed.

(** Writes to other metrics do not matter. *)
Lemma condition_gauges_other conds g name l :
  name <> ConditionStatusGauge -> setConditionGauges conds g !! (name, l) = g !! (name, l).
Proof.
  intros Hne. unfold setConditionGauges. revert g; induction conds as [|c conds IH]; intros g; [done|].
  cbn [foldl]. rewrite IH, condition_gauges_one. destruct (List.find _ _) eqn:E; [|done].
  apply find_some in E as [_ Hq%bool_decide_eq_true]. by simplify_eq.
Qed.

Lemma phase_gauges_other phase g name l :
  name <> MigrationPhaseGauge -> setPhaseGauges phase g !! (name, l) = g !! (name, l).
Proof.
  intros Hne. unfold setPhaseGauges, set_gauge. cbn. by rewrite !lookup_insert_ne by (intros ?; simplify_eq).
Qed.

Lemma progress_gauges_other p g name l :
  name = MigrationPhaseGauge \/ name = ConditionStatusGauge -> setProgressGauges p g !! (name, l) = g !! (name, l).
Proof.
  intros Hn. unfold setProgressGauges, set_gauge. destruct p as [[[] []]|]; cbn; try done;
    by rewrite ?lookup_insert_ne by (intros ?; destruct Hn; simplify_eq).
Qed.

(** What every run of the update leaves in the gauges. *)
Lemma wp_UpdateMigrationMetrics {G} (O : Observer G) status s (Q : St * result unit -> G -> Prop) g :
  (forall g, pre O g CNow) -> (forall g r, upd O g CNow r = g) ->
  (forall d, let gauges := setProgressGauges (Progress status) (set_gauge DurationSecondsGauge [] d
      (setConditionGauges (Conditions status) (setPhaseGauges (PhaseFromConditions status) (st_gauges s)))) in
    Q (with_gauges (fun _ => gauges) s, Ok tt) g) ->
  wp O (UpdateMigrationMetrics status s) Q g.
Proof.
  intros Hp Hu HQ. unfold UpdateMigrationMetrics.
  repeat wp_step; try apply Hp; try apply HQ. intros. repeat wp_step. rewrite Hu. apply HQ.
Qed.

(** ** Properties *)

Definition gauges_after {W} (h : W -> forall c, resp c * W) (status : MigrationStatus) (s : St) (w : W) : Gauges :=
  st_gauges (run h (UpdateMigrationMetrics status s) w).1.1.1.

Lemma gauges_after_eq {W} (h : W -> forall c, resp c * W) status s w :
  exists d, gauges_after h status s w = setProgressGauges (Progress status) (set_gauge DurationSecondsGauge [] d
      (setConditionGauges (Conditions status) (setPhaseGauges (PhaseFromConditions status) (st_gauges s)))).
Proof.
  assert (wp (@only (fun _ => True)) (UpdateMigrationMetrics status s) (fun r _ => exists d,
    st_gauges r.1 = setProgressGauges (Progress status) (set_gauge DurationSecondsGauge [] d
      (setConditionGauges (Conditions status) (setPhaseGauges (PhaseFromConditions status) (st_gauges s))))) tt) as Hwp.
  { apply wp_UpdateMigrationMetrics; [done|by intros [] ?|]. intros d gauges. by exists d. }
  by apply (wp_run_all _ h _ _ _ w) in Hwp as [_ ?].
Qed.

(** after every update exactly the current phase has the value 1 among all phases, and each
    condition of the status has 1 for its own status and 0 for the other two. *)
Theorem metrics_one_hot {W} (h : W -> forall c, resp c * W) (w : W) (status : MigrationStatus) (s : St) :
  PhaseFromConditions status ∈ allPhases /\
  (forall p, p ∈ allPhases -> gauges_after h status s w !! (MigrationPhaseGauge, [p]) =
     Some (if String.eqb (PhaseFromConditions status) p then 1%Z else 0%Z)) /\
  (NoDup (c_Type <$> Conditions status) -> forall t c st, FindStatusCondition (Conditions status) t = Some c ->
     st ∈ allConditionStatuses -> gauges_after h status s w !! (ConditionStatusGauge, [t; st]) =
     Some (if String.eqb (c_Status c) st then 1%Z else 0%Z)).
Proof.
  split; [apply phase_in_allPhases|]. destruct (gauges_after_eq h status s w) as [d ->]. split.
  - intros p Hp. rewrite progress_gauges_other by auto. unfold set_gauge. rewrite lookup_insert_ne by done.
    rewrite condition_gauges_other by done. by apply phase_gauge.
  - intros Hn t c st Ht Hst. rewrite progress_gauges_other by auto. unfold set_gauge. rewrite lookup_insert_ne by done.
    rewrite condition_gauge by done. by rewrite Ht.
Qed.

Lemma metrics_one_hot_witness :
  let status := MkStatus None [MkCondition "Ready" "False" 1 None "Progressing" ""] [] [] "" None None None "" None in
  let s := MkSt (MkMigration "cluster" "ns" "u" "1" 1 None ∅ [] (MkSpec "Running" (MkSecretReference "" "") [] [] None) status)
             (MkMem "" None 0 None None) ∅ ∅ in
  gauges_after (answering (fun _ => None)) status s tt !! (ConditionStatusGauge, ["Ready"; "False"]) = Some 1%Z.
Proof.
  apply (proj2 (metrics_one_hot (answering (fun _ => None)) tt _ _)) with (c := MkCondition "Ready" "False" 1 None "Progressing" "");
    [apply (bool_decide_unpack _); by vm_compute|reflexivity|apply (bool_decide_unpack _); by vm_compute].
Defined.

(** The phase reads Completed although Ready is not True: it is enough that the five
    workflow conditions are True, while stability is still being observed. *)
Theorem phase_completed_before_ready (status : MigrationStatus) (ready : Condition) :
  FindStatusCondition (Conditions status) ConditionReady = Some ready ->
  c_Status ready <> ConditionTrue -> c_Reason ready <> ReasonPaused ->
  (forall t, t ∈ phaseOrder -> exists c, FindStatusCondition (Conditions status) t = Some c /\ c_Status c = ConditionTrue) ->
  PhaseFromConditions status = "Completed".
Proof.
  intros Hr Hs Hp Hall. unfold PhaseFromConditions. rewrite Hr.
  rewrite (proj2 (String.eqb_neq _ _) Hs), (proj2 (String.eqb_neq _ _) Hp).
  assert (forall order b, Forall (fun t => t ∈ phaseOrder) order -> b = true \/ order <> [] ->
            phaseLoop (Conditions status) order b = "Completed") as Hl; [|apply Hl; [by apply Forall_forall|by right]].
  induction order as [|t order IH]; intros b Hf Hb; cbn [phaseLoop]; [by destruct Hb as [->|]|].
  inversion Hf; subst. destruct (Hall t) as (c & -> & Hc); [done|]. rewrite Hc, String.eqb_refl. apply IH; auto.
Qed.

Lemma phase_completed_before_ready_witness :
  let c t st := MkCondition t st 1 None "Completed" "" in
  PhaseFromConditions (MkStatus None ([MkCondition ConditionReady "False" 1 None "Progressing" "Cluster stability check (1/6)"]
     ++ ((fun t => c t "True") <$> phaseOrder)) [] [] "" None None None "" None) = "Completed".
Proof.
  eapply phase_completed_before_ready; [reflexivity|done|done|]. intros t Ht.
  repeat (apply elem_of_cons in Ht as [->|Ht]; [eexists; split; reflexivity|]). by apply not_elem_of_nil in Ht.
Defined.

(** C40: A condition that was removed from the status keeps its last gauges: an update writes
    only the conditions it finds. *)
Theorem metrics_removed_condition_stale {W} (h : W -> forall c, resp c * W) (w : W) (status : MigrationStatus) (s : St) (t st : string) :
  NoDup (c_Type <$> Conditions status) -> FindStatusCondition (Conditions status) t = None -> st ∈ allConditionStatuses ->
  gauges_after h status s w !! (ConditionStatusGauge, [t; st]) = st_gauges s !! (ConditionStatusGauge, [t; st]).
Proof.
  intros Hn Ht Hst. destruct (gauges_after_eq h status s w) as [d ->].
  rewrite progress_gauges_other by auto. unfold set_gauge. rewrite lookup_insert_ne by done.
  rewrite condition_gauge by done. rewrite Ht. by apply phase_gauges_other.
Qed.

Lemma metrics_removed_condition_stale_witness :
  let status := MkStatus None [] [] [] "" None None None "" None in
  let s := MkSt (MkMigration "cluster" "ns" "u" "1" 1 None ∅ [] (MkSpec "Running" (MkSecretReference "" "") [] [] None) status)
             (MkMem "" None 0 None None) ∅ {[ (ConditionStatusGauge, ["Accepted"; "False"]) := 1%Z ]} in
  gauges_after (answering (fun _ => None)) status s tt !! (ConditionStatusGauge, ["Accepted"; "False"]) =
    st_gauges s !! (ConditionStatusGauge, ["Accepted"; "False"]).
Proof.
  apply metrics_removed_condition_stale; [constructor|reflexivity|apply (bool_decide_unpack _); by vm_compute].
Defined.
