(* ===== verification/Status.v ===== *)
(** * Publishing the status (internal/controller)

    The writes of the migration resource itself: the optimistic-locking status update that
    merges one reconcile's changes into whatever other writers committed, the completion
    record, the durable publication of names and of the source vCenter, and the retention
    finalizer. *)

From S2P Require Import Prelude GoErrors Objects NodeMigration Types Effects Execution Metrics.
Import GoStr.

(** ** Encoding of the spec

    [json.Marshal] of the spec and the hexadecimal SHA-256 of the bytes. *)
Class SpecDigest := {
  MarshalSpec : MigrationSpec -> result string;
  Sha256Hex : string -> string;
}.

(** The digest is 64 lowercase hexadecimal characters; nothing is assumed of collisions. *)
Class SpecDigestLaws `{SpecDigest} := {
  sha256_length s : String.length (Sha256Hex s) = 64;
  sha256_hex s : sforall is_lower_hex (Sha256Hex s) = true;
}.

(** ** retry.RetryOnConflict(retry.DefaultRetry, fn) *)

Definition DefaultRetrySteps : nat := 5.

Fixpoint retryOnConflict (steps : nat) (fn : M unit) : M unit :=
  match steps with
  | O => fn
  | S n =>
      let@ r := m_try fn in
      match r with
      | Ok _ => ret tt
      | Err e => if IsConflict e then retryOnConflict n fn else throw e
      end
  end.

(** Five attempts; the last conflict is returned. *)
Definition RetryOnConflict (fn : M unit) : M unit := retryOnConflict (DefaultRetrySteps - 1) fn.

Definition reasonForError (e : error) : string := if isTransientError e then ReasonRetrying else ReasonFailed.

(** ** Conditions of the in-memory object *)

Definition conditionSet (t : Time) (conditionType status reason message : string) (m : Migration) : Migration :=
  upd_Status (fun st => set_Conditions
    (SetStatusCondition t (Conditions st) (MkCondition conditionType status (mig_Generation m) None reason message)) st) m.

Definition setCondition (conditionType status reason message : string) : M unit :=
  let@ t := now in
  modify (with_mig (conditionSet t conditionType status reason message)).

Definition isConditionTrue (m : Migration) (conditionType : string) : bool :=
  match FindStatusCondition (Conditions (mig_Status m)) conditionType with
  | Some cond => String.eqb (c_Status cond) ConditionTrue
  | None => false
  end.

Definition seedReadyCondition : M unit :=
  let@ m := get_mig in
  match FindStatusCondition (Conditions (mig_Status m)) ConditionReady with
  | None => setCondition ConditionReady ConditionFalse ReasonProgressing "Waiting for migration workflow to complete"
  | Some _ => ret tt
  end.

(** ** Merging *)

Definition statusConditionChanged (prev next : Condition) : bool :=
  negb (String.eqb (c_Status prev) (c_Status next)) || negb (String.eqb (c_Reason prev) (c_Reason next)) ||
  negb (String.eqb (c_Message prev) (c_Message next)) ||
  negb (c_ObservedGeneration prev =? c_ObservedGeneration next)%Z ||
  negb (bool_decide (c_LastTransitionTime prev = c_LastTransitionTime next)).

(** The guard with [prev != nil] and no change since: not touched by this reconcile. *)
Definition untouched (base : list Condition) (cond : Condition) : bool :=
  match FindStatusCondition base (c_Type cond) with
  | Some prev => negb (statusConditionChanged prev cond)
  | None => false
  end.

(** A committed success that [cond] would take back. *)
Definition downgrades (latest : list Condition) (cond : Condition) : bool :=
  match FindStatusCondition latest (c_Type cond) with
  | Some existing => String.eqb (c_Status existing) ConditionTrue && negb (String.eqb (c_Status cond) ConditionTrue)
  | None => false
  end.

Fixpoint mergeConditions (t : Time) (latestGeneration : Z) (base : list Condition) (conds : list Condition)
    (latest : list Condition) (hasChanges : bool) : list Condition * bool :=
  match conds with
  | [] => (latest, hasChanges)
  | cond :: rest =>
      if untouched base cond then mergeConditions t latestGeneration base rest latest hasChanges
      else if (c_ObservedGeneration cond <? latestGeneration)%Z then mergeConditions t latestGeneration base rest latest hasChanges
      else if downgrades latest cond then mergeConditions t latestGeneration base rest latest hasChanges
      else
        let changed := match FindStatusCondition latest (c_Type cond) with
                       | None => true
                       | Some existing => statusConditionChanged existing cond
                       end in
        mergeConditions t latestGeneration base rest (SetStatusCondition t latest cond) (hasChanges || changed)
  end.

Definition mergeStatusConditions (t : Time) (migration latest : Migration) (baseStatus : MigrationStatus) : Migration * bool :=
  let '(conds, changed) := mergeConditions t (mig_Generation latest) (Conditions baseStatus)
                             (Conditions (mig_Status migration)) (Conditions (mig_Status latest)) false in
  (upd_Status (set_Conditions conds) latest, changed).

Definition isMappingRejection (cond : option Condition) : bool :=
  match cond with
  | None => false
  | Some c => String.eqb (c_Status c) ConditionFalse &&
              (String.eqb (c_Reason c) ReasonMappingRejected || String.eqb (c_Reason c) ReasonFailed)
  end.

Definition clearRecoveredMappingRejection (migration latest : Migration) (baseStatus : MigrationStatus) : Migration * bool :=
  let previous := FindStatusCondition (Conditions baseStatus) ConditionAccepted in
  let current := FindStatusCondition (Conditions (mig_Status latest)) ConditionAccepted in
  if (mig_Generation migration =? mig_Generation latest)%Z && bool_decide (is_Some previous) && bool_decide (is_Some current) &&
     isMappingRejection previous &&
     bool_decide (FindStatusCondition (Conditions (mig_Status migration)) ConditionAccepted = None) &&
     bool_decide (previous = current)
  then (upd_Status (fun st => set_Conditions (RemoveStatusCondition (Conditions st) ConditionAccepted) st) latest, true)
  else (latest, false).

Section Completion.
Context `{SpecDigest}.

Definition completionSpecHash (spec : MigrationSpec) : result string :=
  let? data := wrapf "encoding completion spec: %w" [] (MarshalSpec spec) in
  Ok (Sha256Hex data).

Definition isCompletionRecordedForSpec (m : Migration) : result bool :=
  match FindStatusCondition (Conditions (mig_Status m)) ConditionReady with
  | None => Ok false
  | Some ready =>
      if negb (String.eqb (c_Status ready) ConditionTrue) || bool_decide (CompletionTime (mig_Status m) = None) ||
         String.eqb (CompletionSpecHash (mig_Status m)) ""
      then Ok false
      else let? hash := completionSpecHash (mig_Spec m) in Ok (String.eqb hash (CompletionSpecHash (mig_Status m)))
  end.

Definition mergeCompletionRecord (migration latest : Migration) (ready : option Condition) : result (Migration * bool) :=
  match ready with
  | None => Ok (latest, false)
  | Some ready =>
      if negb (mig_Generation migration =? mig_Generation latest)%Z || negb (bool_decide (mig_Spec migration = mig_Spec latest)) ||
         negb (String.eqb (c_Status ready) ConditionTrue) || negb (c_ObservedGeneration ready =? mig_Generation latest)%Z ||
         bool_decide (CompletionTime (mig_Status migration) = None)
      then Ok (latest, false)
      else
        let? hash := completionSpecHash (mig_Spec migration) in
        if negb (String.eqb (CompletionSpecHash (mig_Status latest)) hash) || bool_decide (CompletionTime (mig_Status latest) = None)
        then Ok (upd_Status (set_Completion (CompletionTime (mig_Status migration)) hash) latest, true)
        else Ok (latest, false)
  end.

(** ** updateStatus *)

(** The append-only merge of worker MachineSet names. *)
Definition appendName (acc : list string * bool) (name : string) : list string * bool :=
  let '(have, changed) := acc in
  if ContainsStr have name then (have, changed) else (have ++ [name], true).

Definition appendNames (names have : list string) : list string * bool := foldl appendName (have, false) names.

Definition mergeProgress (migration latest : Migration) (baseStatus : MigrationStatus) : Migration * bool :=
  let mine := Progress (mig_Status migration) in
  let theirs := Progress (mig_Status latest) in
  if (mig_Generation migration =? mig_Generation latest)%Z && bool_decide (is_Some mine) &&
     (bool_decide (theirs = None) || negb (bool_decide (Progress baseStatus = mine))) &&
     negb (bool_decide (theirs = mine))
  then (upd_Status (set_Progress mine) latest, true) else (latest, false).

Definition mergeStartTime (migration latest : Migration) : Migration * bool :=
  match StartTime (mig_Status migration), StartTime (mig_Status latest) with
  | Some t, None => (upd_Status (set_StartTime (Some t)) latest, true)
  | _, _ => (latest, false)
  end.

Definition mergeMappings (migration latest : Migration) : Migration * bool :=
  match StatusMappings (mig_Status migration), StatusMappings (mig_Status latest) with
  | _ :: _, [] =>
      if (mig_Generation migration =? mig_Generation latest)%Z && String.eqb (mig_UID migration) (mig_UID latest)
      then (upd_Status (set_StatusMappings (StatusMappings (mig_Status migration))) latest, true) else (latest, false)
  | _, _ => (latest, false)
  end.

Definition mergeNames (migration latest : Migration) : Migration * bool :=
  let '(names, changed) := appendNames (WorkerMachineSetNames (mig_Status migration)) (WorkerMachineSetNames (mig_Status latest)) in
  (upd_Status (set_WorkerNames names) latest, changed).

(** All the merges of one attempt, in order: the merged object and [hasChanges]. *)
Definition mergeStatus (t : Time) (migration latest : Migration) (baseStatus : MigrationStatus) : result (Migration * bool) :=
  let '(latest, c1) := clearRecoveredMappingRejection migration latest baseStatus in
  let '(latest, c2) := mergeStatusConditions t migration latest baseStatus in
  let '(latest, c3) := mergeProgress migration latest baseStatus in
  let '(latest, c4) := mergeStartTime migration latest in
  let ready := FindStatusCondition (Conditions (mig_Status migration)) ConditionReady in
  let? (latest, c5) := mergeCompletionRecord migration latest ready in
  let '(latest, c6) := mergeMappings migration latest in
  let '(latest, c7) := mergeNames migration latest in
  Ok (latest, c1 || c2 || c3 || c4 || c5 || c6 || c7).

Definition isSingleton (m : Migration) : bool :=
  String.eqb (mig_Name m) SingletonName && String.eqb (mig_Namespace m) SingletonNamespace.

Definition updateSingletonMetrics (latest : Migration) : M unit :=
  if isSingleton latest then UpdateMigrationMetrics (mig_Status latest) else ret tt.

Definition updateStatusOnce (baseStatus : MigrationStatus) : M unit :=
  let@ migration := get_mig in
  let@ latest := lift (do_call (CGetMigration permissionReader (mig_Namespace migration) (mig_Name migration))) in
  if negb (String.eqb (mig_UID latest) (mig_UID migration)) then ret tt
  else
    let@ t := now in
    let@ (latest, hasChanges) := lift (of_result (mergeStatus t migration latest baseStatus)) in
    if negb hasChanges && bool_decide (is_Some (LastUpdateTime (mig_Status latest))) then updateSingletonMetrics latest
    else
      let@ t := now in
      let latest := upd_Status (set_LastUpdateTime (Some t)) latest in
      let@ _ := lift (do_call (CUpdateMigrationStatus latest)) in
      updateSingletonMetrics latest.

Definition updateStatus (baseStatus : MigrationStatus) : M unit :=
  m_wrapping "updating migration status: %w" [] (RetryOnConflict (updateStatusOnce baseStatus)).

(** ** Durable publication before destructive steps *)

Definition persistNamesOnce (names : list string) : M unit :=
  let@ migration := get_mig in
  let@ latest := lift (do_call (CGetMigration true (mig_Namespace migration) (mig_Name migration))) in
  if negb (String.eqb (mig_UID latest) (mig_UID migration)) then ret tt
  else
    let '(merged, changed) := appendNames names (WorkerMachineSetNames (mig_Status latest)) in
    if negb changed then ret tt
    else lift (do_call (CUpdateMigrationStatus (upd_Status (set_WorkerNames merged) latest))).

Definition persistWorkerMachineSetNames : M unit :=
  let@ migration := get_mig in
  match WorkerMachineSetNames (mig_Status migration) with
  | [] => ret tt
  | names => m_wrapping "updating migration status: %w" [] (RetryOnConflict (persistNamesOnce names))
  end.

Definition persistSourceVCenterOnce (server : string) : M unit :=
  let@ migration := get_mig in
  let@ latest := lift (do_call (CGetMigration true (mig_Namespace migration) (mig_Name migration))) in
  if negb (String.eqb (mig_UID latest) (mig_UID migration)) then ret tt
  else if negb (String.eqb (SourceVCenter (mig_Status latest)) "") then
    if negb (String.eqb (SourceVCenter (mig_Status latest)) server)
    then throw (Errorf "status already records source vCenter %q, refusing to rebind to %q"
                  [FS (SourceVCenter (mig_Status latest)); FS server])
    else modify_status (set_SourceVCenter server)
  else
    let@ _ := lift (do_call (CUpdateMigrationStatus (upd_Status (set_SourceVCenter server) latest))) in
    modify_status (set_SourceVCenter server).

Definition persistSourceVCenter (server : string) : M unit := RetryOnConflict (persistSourceVCenterOnce server).

(** ** The retention finalizer *)

Definition AddFinalizer (m : Migration) (finalizer : string) : Migration * bool :=
  if ContainsStr (mig_Finalizers m) finalizer then (m, false)
  else (set_Finalizers (mig_Finalizers m ++ [finalizer]) m, true).

Definition RemoveFinalizer (m : Migration) (finalizer : string) : Migration * bool :=
  let kept := filter (fun f => f <> finalizer) (mig_Finalizers m) in
  (set_Finalizers kept m, negb (length (mig_Finalizers m) =? length kept)%nat).

Definition retentionStep (latest : Migration) : result (Migration * bool) :=
  match mig_DeletionTimestamp latest with
  | None => Ok (AddFinalizer latest FinalizerName)
  | Some _ =>
      let? complete := isCompletionRecordedForSpec latest in
      if complete || String.eqb (default "" (mig_Annotations latest !! AnnotationAllowDeletion)) "true"
      then Ok (RemoveFinalizer latest FinalizerName)
      else Ok (latest, false)
  end.

Definition updateRetentionFinalizerOnce : M unit :=
  let@ m := get_mig in
  let@ r := lift (try (do_call (CGetMigration permissionReader (mig_Namespace m) (mig_Name m)))) in
  match r with
  | Err e => if IsNotFound e then ret tt else throw e
  | Ok base =>
      let@ (latest, changed) := lift (of_result (retentionStep base)) in
      if negb changed then ret tt else lift (do_call (CPatchMigration latest base))
  end.

Definition updateRetentionFinalizer : M unit := RetryOnConflict updateRetentionFinalizerOnce.

End Completion.

(** ** Facts *)

(** Running a retried attempt: [I k] holds when [k] further attempts remain. *)
Lemma wp_retry {G} (O : Observer G) (I : nat -> St -> G -> Prop) (Q : St * result unit -> G -> Prop) n fn s g :
  I n s g ->
  (forall k s g, I k s g -> wp O (fn s) (fun '(s', r) g' =>
     match r with Ok _ => Q (s', Ok tt) g' | Err e => Q (s', Err e) g' /\ (forall k', k = S k' -> I k' s' g') end) g) ->
  wp O (retryOnConflict n fn s) Q g.
Proof.
  intros HI Hstep. revert s g HI; induction n as [|n IH]; intros s g HI; cbn [retryOnConflict].
  - eapply wp_mono; [|by apply (Hstep 0)]. intros [s' [[]|e]] g'; [done|by intros [? _]].
  - apply wp_m_bind, wp_m_try. eapply wp_mono; [|by apply (Hstep (S n))].
    intros [s' [[]|e]] g'; [done|]. intros [HQ HI']. destruct (IsConflict e); [by apply IH, HI'|done].
Qed.

Section StatusQuiet.
Context `{SpecDigest}.

Lemma quietM_retry n fn : quietM fn -> quietM (retryOnConflict n fn).
Proof. intros Hf. induction n as [|n IH]; cbn [retryOnConflict]; [done|]. quiet_auto. Qed.

Lemma quietM_setCondition t st r msg : quietM (setCondition t st r msg).
Proof. unfold setCondition. quiet_auto. Qed.

Lemma quietM_seedReady : quietM seedReadyCondition.
Proof. unfold seedReadyCondition. quiet_auto; apply quietM_setCondition. Qed.

Lemma quietM_updateStatus base : quietM (updateStatus base).
Proof.
  unfold updateStatus, RetryOnConflict. quiet_auto. apply quietM_retry.
  unfold updateStatusOnce, updateSingletonMetrics. quiet_auto.
Qed.

Lemma quietM_persistNames : quietM persistWorkerMachineSetNames.
Proof.
  unfold persistWorkerMachineSetNames, RetryOnConflict. quiet_auto. apply quietM_retry.
  unfold persistNamesOnce. quiet_auto.
Qed.

Lemma quietM_persistSource server : quietM (persistSourceVCenter server).
Proof.
  unfold persistSourceVCenter, RetryOnConflict. apply quietM_retry.
  unfold persistSourceVCenterOnce. quiet_auto.
Qed.

Lemma quietM_retention : quietM updateRetentionFinalizer.
Proof.
  unfold updateRetentionFinalizer, RetryOnConflict. apply quietM_retry.
  unfold updateRetentionFinalizerOnce. quiet_auto.
Qed.

End StatusQuiet.

#[export] Hint Resolve quietM_setCondition quietM_seedReady quietM_updateStatus quietM_persistNames
  quietM_persistSource quietM_retention : quiet.

Lemma wp_setCondition {G} (O : Observer G) ty st reason msg (Q : St * result unit -> G -> Prop) s g :
  pre O g CNow -> (forall t, upd O g CNow t = g) ->
  (forall t, Q (with_mig (conditionSet t ty st reason msg) s, Ok tt) g) -> wp O (setCondition ty st reason msg s) Q g.
Proof. intros Hp Hu HQ. unfold setCondition. repeat wp_step; [done|]. intros t _. rewrite Hu. apply HQ. Qed.

(** *** Conditions *)

Lemma Set_unchanged t latest existing cond :
  FindStatusCondition latest (c_Type cond) = Some existing -> statusConditionChanged existing cond = false ->
  SetStatusCondition t latest cond = latest.
Proof.
  intros Hf Hc. induction latest as [|c latest IH]; [done|]. cbn in *.
  destruct (String.eqb_spec (c_Type c) (c_Type cond)) as [E|E]; [|f_equal; auto]. simplify_eq.
  unfold statusConditionChanged in Hc. reflect_bools. f_equal. unfold mergeCondition.
  destruct existing, cond; cbn in *; subst. by rewrite String.eqb_refl.
Qed.

Lemma Set_True_kept t latest cond ty c :
  FindStatusCondition latest ty = Some c -> c_Status c = ConditionTrue -> downgrades latest cond = false ->
  exists c', FindStatusCondition (SetStatusCondition t latest cond) ty = Some c' /\ c_Status c' = ConditionTrue.
Proof.
  intros Hf Ht Hd. destruct (decide (ty = c_Type cond)) as [->|Hne].
  - destruct (Find_Set_same t latest cond) as (c' & -> & Hs & _). exists c'. split; [done|].
    unfold downgrades in Hd. rewrite Hf, Ht, String.eqb_refl in Hd. cbn in Hd. reflect_bools. congruence.
  - rewrite Find_Set_other by done. eauto.
Qed.

Section MergeConditions.
Context (t : Time) (gen : Z) (base : list Condition).

(** A committed True stays True. *)
Lemma mergeConditions_True conds latest h ty c :
  FindStatusCondition latest ty = Some c -> c_Status c = ConditionTrue ->
  exists c', FindStatusCondition (mergeConditions t gen base conds latest h).1 ty = Some c' /\ c_Status c' = ConditionTrue.
Proof.
  revert latest h c; induction conds as [|cond conds IH]; intros latest h c Hf Ht; cbn [mergeConditions]; [eauto|].
  destruct (untouched base cond); [by eapply IH|]. destruct (_ <? _)%Z; [by eapply IH|].
  destruct (downgrades latest cond) eqn:Hd; [by eapply IH|]. cbv zeta.
  destruct (Set_True_kept t latest cond ty c Hf Ht Hd) as (c' & Hc' & Ht'). by eapply IH.
Qed.

(** A type this reconcile did not change, or only observed at an older generation, is left
    to the other writers. *)
Lemma mergeConditions_other conds latest h ty :
  (forall c, c ∈ conds -> c_Type c = ty -> untouched base c = true \/ (c_ObservedGeneration c < gen)%Z) ->
  FindStatusCondition (mergeConditions t gen base conds latest h).1 ty = FindStatusCondition latest ty.
Proof.
  revert latest h; induction conds as [|cond conds IH]; intros latest h Hc; cbn [mergeConditions]; [done|].
  assert (forall c, c ∈ conds -> c_Type c = ty -> untouched base c = true \/ (c_ObservedGeneration c < gen)%Z) as Hc'.
  { intros c Hin. apply Hc. by right. }
  destruct (untouched base cond) eqn:Hu; [by apply IH|].
  destruct (Z.ltb_spec (c_ObservedGeneration cond) gen) as [|Hg]; [by apply IH|].
  destruct (downgrades latest cond); [by apply IH|]. cbv zeta. rewrite IH by done.
  apply Find_Set_other. intros ->. destruct (Hc cond) as [?|?]; [by left|done|congruence|lia].
Qed.

(** No change reported means nothing changed. *)
Lemma mergeConditions_unchanged conds latest h :
  (mergeConditions t gen base conds latest h).2 = false ->
  h = false /\ (mergeConditions t gen base conds latest h).1 = latest.
Proof.
  revert latest h; induction conds as [|cond conds IH]; intros latest h; cbn [mergeConditions]; [done|].
  destruct (untouched base cond); [apply IH|]. destruct (_ <? _)%Z; [apply IH|].
  destruct (downgrades latest cond); [apply IH|]. cbv zeta.
  intros Hch. destruct (IH _ _ Hch) as [Hh Heq]. apply orb_false_iff in Hh as [-> Hx]. split; [done|].
  rewrite Heq. destruct (FindStatusCondition latest (c_Type cond)) as [e|] eqn:Hf; [|done].
  by eapply Set_unchanged.
Qed.

(** A new success of the current generation is published. *)
Lemma mergeConditions_True_new conds latest h cond :
  cond ∈ conds -> c_Status cond = ConditionTrue -> untouched base cond = false -> (gen <= c_ObservedGeneration cond)%Z ->
  exists c', FindStatusCondition (mergeConditions t gen base conds latest h).1 (c_Type cond) = Some c' /\ c_Status c' = ConditionTrue.
Proof.
  intros Hin Hs Hu Hg. revert latest h; induction conds as [|d conds IH]; intros latest h; [by apply not_elem_of_nil in Hin|].
  cbn [mergeConditions]. apply elem_of_cons in Hin as [<-|Hin].
  - rewrite Hu. destruct (Z.ltb_spec (c_ObservedGeneration cond) gen); [lia|].
    assert (downgrades latest cond = false) as ->.
    { unfold downgrades. destruct (FindStatusCondition _ _); [|done]. rewrite Hs. by rewrite andb_false_r. }
    cbv zeta. destruct (Find_Set_same t latest cond) as (c' & Hc' & Hs' & _).
    eapply mergeConditions_True; [exact Hc'|congruence].
  - destruct (untouched base d); [by apply IH|]. destruct (_ <? _)%Z; [by apply IH|].
    destruct (downgrades latest d); [by apply IH|]. by apply IH.
Qed.

(** A condition of this reconcile that may be published over [latest]: it is not what the
    reconcile started from, it was observed at the latest generation, and it does not take
    back a success. *)
Definition publishable (latest : list Condition) (cond : Condition) : Prop :=
  FindStatusCondition base (c_Type cond) <> Some cond /\ (gen <= c_ObservedGeneration cond)%Z /\
  forall c, FindStatusCondition latest (c_Type cond) = Some c -> c_Status c = ConditionTrue -> c_Status cond = ConditionTrue.

Definition publishes (cond : Condition) (published : option Condition) : Prop :=
  exists c, published = Some c /\ c_Status c = c_Status cond /\ c_Reason c = c_Reason cond /\ c_Message c = c_Message cond /\
    c_ObservedGeneration c = c_ObservedGeneration cond.

Lemma untouched_spec cond : untouched base cond = true <-> FindStatusCondition base (c_Type cond) = Some cond.
Proof.
  unfold untouched. destruct (FindStatusCondition base (c_Type cond)) as [prev|] eqn:Hf; [|done]. apply Find_In in Hf as [_ Ht].
  unfold statusConditionChanged. rewrite negb_true_iff, !orb_false_iff, !negb_false_iff, !String.eqb_eq, Z.eqb_eq, bool_decide_eq_true.
  split; [|by intros [= ->]]. intros [[[[? ?] ?] ?] ?]. destruct prev, cond; cbn in *; congruence.
Qed.

Lemma publishable_spec latest cond :
  publishable latest cond <->
  untouched base cond = false /\ (c_ObservedGeneration cond <? gen)%Z = false /\ downgrades latest cond = false.
Proof.
  unfold publishable. rewrite <- untouched_spec, not_true_iff_false, Z.ltb_ge. unfold downgrades.
  destruct (FindStatusCondition latest (c_Type cond)) as [c|]; [|by split; [intros (? & ? & _)|intros (? & ? & _); split_and!]].
  rewrite andb_false_iff, String.eqb_neq, negb_false_iff, String.eqb_eq. split.
  - intros (? & ? & Hc). split_and!; [done..|]. destruct (decide (c_Status c = ConditionTrue)); eauto.
  - intros (? & ? & Hc). split_and!; [done..|]. intros ? [= <-]. tauto.
Qed.

(** Each type is left alone or published from a publishable condition. *)
Lemma mergeConditions_type conds latest h ty :
  let published := FindStatusCondition (mergeConditions t gen base conds latest h).1 ty in
  published = FindStatusCondition latest ty \/
  exists cond, cond ∈ conds /\ c_Type cond = ty /\ publishable latest cond /\ publishes cond published.
Proof.
  cbv zeta. revert latest h. induction conds as [|cond conds IH]; intros latest h; cbn [mergeConditions]; [by left|].
  assert (forall latest h, FindStatusCondition (mergeConditions t gen base conds latest h).1 ty = FindStatusCondition latest ty \/
    exists c, c ∈ cond :: conds /\ c_Type c = ty /\ publishable latest c /\
      publishes c (FindStatusCondition (mergeConditions t gen base conds latest h).1 ty)) as IH'.
  { intros l b. destruct (IH l b) as [?|(c & ? & ?)]; [by left|]. right. exists c. split; [by right|done]. }
  destruct (untouched base cond) eqn:Hu; [apply IH'|]. destruct (_ <? _)%Z eqn:Hg; [apply IH'|].
  destruct (downgrades latest cond) eqn:Hd; [apply IH'|]. cbv zeta.
  pose proof (proj2 (publishable_spec latest cond) (conj Hu (conj Hg Hd))) as Hp.
  destruct (Find_Set_same t latest cond) as (c' & Hc' & Hs' & Hc'').
  destruct (IH (SetStatusCondition t latest cond) (h || match FindStatusCondition latest (c_Type cond) with
      | None => true | Some existing => statusConditionChanged existing cond end)) as [->|(c & Hin & <- & (Hb & Hgen & Hprior) & Hpub)].
  - destruct (decide (ty = c_Type cond)) as [->|Hne]; [|left; by apply Find_Set_other].
    right. exists cond. split_and!; [by left|done..|]. by exists c'.
  - right. exists c. split_and!; [by right|done| |done]. split_and!; [done..|]. intros d Hd' Ht.
    destruct (decide (c_Type c = c_Type cond)) as [E|Hne]; [|apply (Hprior d); [by rewrite Find_Set_other|done]].
    rewrite E in *. apply (Hprior c'); [done|]. rewrite Hs'. by apply Hp in Hd'.
Qed.

(** With one condition per type, every publishable condition is published. *)
Lemma mergeConditions_published conds latest h cond :
  NoDup (c_Type <$> conds) -> cond ∈ conds -> publishable latest cond ->
  publishes cond (FindStatusCondition (mergeConditions t gen base conds latest h).1 (c_Type cond)).
Proof.
  revert latest h. induction conds as [|d conds IH]; intros latest h Hnd Hin Hp; [by apply not_elem_of_nil in Hin|].
  cbn [fmap list_fmap] in Hnd. apply NoDup_cons in Hnd as [Hd Hnd]. cbn [mergeConditions]. apply elem_of_cons in Hin as [<-|Hin].
  - apply publishable_spec in Hp as (-> & -> & ->). cbv zeta. rewrite mergeConditions_other.
    + destruct (Find_Set_same t latest cond) as (c' & Hc' & Hc''). by exists c'.
    + intros c Hc Hty. destruct Hd. rewrite <- Hty. by apply list_elem_of_fmap_2.
  - destruct (untouched base d); [by apply IH|]. destruct (_ <? _)%Z; [by apply IH|].
    destruct (downgrades latest d); [by apply IH|]. apply IH; [done..|]. destruct Hp as (? & ? & Hc). split_and!; [done..|].
    rewrite Find_Set_other; [done|]. intros E. destruct Hd. rewrite <- E. by apply list_elem_of_fmap_2.
Qed.

End MergeConditions.

(** *** Names *)

Lemma appendName_foldl names acc :
  let r := foldl appendName acc names in
  acc.1 `prefix_of` r.1 /\ (forall x, x ∈ r.1 <-> x ∈ acc.1 \/ x ∈ names) /\
  (r.2 = false -> acc.2 = false /\ r.1 = acc.1) /\ (NoDup acc.1 -> NoDup r.1).
Proof.
  revert acc. induction names as [|n names IH]; intros [have b]; cbn [foldl].
  { cbn. split_and!; [done| |done|done]. intros x. rewrite elem_of_nil. tauto. }
  unfold appendName at 2 4 6 8 10. destruct (IH (appendName (have, b) n)) as (Hp & Hx & Hc & Hd). revert Hp Hx Hc Hd.
  unfold appendName at 1 3 5 6 8. cbn. destruct (ContainsStr have n) eqn:E; cbn; intros Hp Hx Hc Hd.
  - apply ContainsStr_spec in E. split_and!; [done| |done|done].
    intros x. rewrite Hx, elem_of_cons. split; [tauto|]. intros [?|[->|?]]; auto.
  - assert (n ∉ have) as Hn by (intros Hn%ContainsStr_spec; congruence). split_and!.
    + etrans; [|exact Hp]. by apply prefix_app_r.
    + intros x. rewrite Hx, elem_of_app, list_elem_of_singleton, elem_of_cons. tauto.
    + intros Hf. by destruct (Hc Hf).
    + intros Hnd. apply Hd. apply NoDup_app. split_and!; [done| |apply NoDup_singleton].
      intros x Hin ->%list_elem_of_singleton. done.
Qed.

Lemma appendNames_spec names have :
  have `prefix_of` (appendNames names have).1 /\ (forall x, x ∈ (appendNames names have).1 <-> x ∈ have \/ x ∈ names) /\
  ((appendNames names have).2 = false -> (appendNames names have).1 = have) /\
  (NoDup have -> NoDup (appendNames names have).1).
Proof.
  destruct (appendName_foldl names (have, false)) as (? & ? & Hc & ?). split_and!; try done. intros Hf. by destruct (Hc Hf).
Qed.

(** *** What a status write must keep of the object it read *)

Record kept (latest new : Migration) : Prop := {
  kept_identity : mig_Name new = mig_Name latest /\ mig_Namespace new = mig_Namespace latest /\
    mig_UID new = mig_UID latest /\ mig_ResourceVersion new = mig_ResourceVersion latest /\
    mig_Generation new = mig_Generation latest /\ mig_Spec new = mig_Spec latest;
  kept_names : WorkerMachineSetNames (mig_Status latest) `prefix_of` WorkerMachineSetNames (mig_Status new);
  kept_mappings : StatusMappings (mig_Status latest) <> [] -> StatusMappings (mig_Status new) = StatusMappings (mig_Status latest);
  kept_source : SourceVCenter (mig_Status latest) <> "" -> SourceVCenter (mig_Status new) = SourceVCenter (mig_Status latest);
  kept_start : is_Some (StartTime (mig_Status latest)) -> StartTime (mig_Status new) = StartTime (mig_Status latest);
  kept_true : forall ty c, FindStatusCondition (Conditions (mig_Status latest)) ty = Some c -> c_Status c = ConditionTrue ->
    exists c', FindStatusCondition (Conditions (mig_Status new)) ty = Some c' /\ c_Status c' = ConditionTrue;
}.

#[global] Instance kept_preorder : PreOrder kept.
Proof.
  split.
  - intros m. split; eauto. by split_and!.
  - intros a b c [Hi Hn Hm Hs Hst Ht] [Hi' Hn' Hm' Hs' Hst' Ht']. split.
    + destruct Hi as (? & ? & ? & ? & ? & ?), Hi' as (? & ? & ? & ? & ? & ?). split_and!; congruence.
    + by etrans.
    + intros Hne. pose proof (Hm Hne) as E. rewrite <- E in Hne. rewrite Hm' by done. done.
    + intros Hne. pose proof (Hs Hne) as E. rewrite <- E in Hne. rewrite Hs' by done. done.
    + intros Hne. pose proof (Hst Hne) as E. rewrite <- E in Hne. rewrite Hst' by done. done.
    + intros ty x Hf Hx. destruct (Ht ty x Hf Hx) as (y & Hy & Hy'). by eapply Ht'.
Qed.

(** A write that only replaces the conditions. *)
Lemma kept_set_Conditions latest conds :
  (forall ty c, FindStatusCondition (Conditions (mig_Status latest)) ty = Some c -> c_Status c = ConditionTrue ->
    exists c', FindStatusCondition conds ty = Some c' /\ c_Status c' = ConditionTrue) ->
  kept latest (upd_Status (set_Conditions conds) latest).
Proof. intros H. split; cbn; auto. by split_and!. Qed.

Lemma kept_clear migration latest base : kept latest (clearRecoveredMappingRejection migration latest base).1.
Proof.
  unfold clearRecoveredMappingRejection. destruct (_ && _) eqn:E; cbn [fst]; [|reflexivity]. reflect_bools.
  match goal with H : FindStatusCondition (Conditions base) _ = FindStatusCondition _ _ |- _ => rename H into Heq end.
  apply (kept_set_Conditions latest (RemoveStatusCondition (Conditions (mig_Status latest)) ConditionAccepted)).
  intros ty c Hf Ht. destruct (decide (ty = ConditionAccepted)) as [->|Hne].
  - exfalso. rewrite Heq, Hf in *. match goal with H : isMappingRejection _ = true |- _ => unfold isMappingRejection in H; rewrite Ht in H; done end.
  - rewrite Find_Remove_other by done. eauto.
Qed.

Lemma kept_conditions t migration latest base : kept latest (mergeStatusConditions t migration latest base).1.
Proof.
  unfold mergeStatusConditions. destruct (mergeConditions _ _ _ _ _ _) as [conds ch] eqn:E. cbn [fst].
  apply kept_set_Conditions. intros ty c Hf Ht.
  pose proof (mergeConditions_True t (mig_Generation latest) (Conditions base) (Conditions (mig_Status migration)) _ false ty c Hf Ht) as H.
  by rewrite E in H.
Qed.

Lemma kept_progress migration latest base : kept latest (mergeProgress migration latest base).1.
Proof. unfold mergeProgress. destruct (_ && _); cbn [fst]; [|reflexivity]. split; cbn; eauto. by split_and!. Qed.

Lemma kept_startTime migration latest : kept latest (mergeStartTime migration latest).1.
Proof.
  unfold mergeStartTime. destruct (StartTime (mig_Status migration)), (StartTime (mig_Status latest)) eqn:E; cbn [fst]; try reflexivity.
  split; cbn; eauto; [by split_and!|]. rewrite E. by intros [? ?].
Qed.

Lemma kept_mergeMappings migration latest : kept latest (mergeMappings migration latest).1.
Proof.
  unfold mergeMappings. destruct (StatusMappings (mig_Status migration)), (StatusMappings (mig_Status latest)) eqn:E; cbn [fst]; try reflexivity.
  destruct (_ && _); cbn [fst]; [|reflexivity]. split; cbn; eauto; [by split_and!|]. congruence.
Qed.

Lemma kept_mergeNames migration latest : kept latest (mergeNames migration latest).1.
Proof.
  unfold mergeNames. pose proof (appendNames_spec (WorkerMachineSetNames (mig_Status migration)) (WorkerMachineSetNames (mig_Status latest))) as [Hp _].
  destruct (appendNames _ _) as [names ch]. cbn [fst] in *. split; cbn; eauto. by split_and!.
Qed.

Section MergeStatus.
Context `{SpecDigest}.

Lemma kept_completion migration latest ready new ch :
  mergeCompletionRecord migration latest ready = Ok (new, ch) -> kept latest new.
Proof.
  unfold mergeCompletionRecord. destruct ready as [r|]; [|intros [= <- _]; reflexivity].
  destruct (_ || bool_decide (CompletionTime (mig_Status migration) = None)); [intros [= <- _]; reflexivity|].
  destruct (completionSpecHash _) as [hash|]; [|done]. destruct (_ || _); intros [= <- _]; [|reflexivity].
  split; cbn; eauto. by split_and!.
Qed.

(** Every merge of the chain keeps, so their composition does. *)
Lemma mergeStatus_kept t migration latest base new ch :
  mergeStatus t migration latest base = Ok (new, ch) -> kept latest new.
Proof.
  unfold mergeStatus.
  pose proof (kept_clear migration latest base) as K1. destruct (clearRecoveredMappingRejection _ _ _) as [l1 c1]; cbn [fst] in K1.
  pose proof (kept_conditions t migration l1 base) as K2. destruct (mergeStatusConditions _ _ _ _) as [l2 c2]; cbn [fst] in K2.
  pose proof (kept_progress migration l2 base) as K3. destruct (mergeProgress _ _ _) as [l3 c3]; cbn [fst] in K3.
  pose proof (kept_startTime migration l3) as K4. destruct (mergeStartTime _ _) as [l4 c4]; cbn [fst] in K4.
  destruct (mergeCompletionRecord _ _ _) as [[l5 c5]|] eqn:E5; [|done]. apply kept_completion in E5 as K5.
  pose proof (kept_mergeMappings migration l5) as K6. destruct (mergeMappings _ _) as [l6 c6]; cbn [fst] in K6.
  pose proof (kept_mergeNames migration l6) as K7. destruct (mergeNames _ _) as [l7 c7]; cbn [fst] in K7.
  intros [= <- _]. by rewrite K1, K2, K3, K4, K5, K6.
Qed.

End MergeStatus.

(** *** What a status write takes from this reconcile

    [mine] is the object of this reconcile, which started from the status [base]; [latest] is
    the object just read.  Nothing but these fields may differ from [latest], and each only in
    the way stated. *)

(** A mapping rejection that this reconcile found and withdrew, and that nobody renewed. *)
Definition recovered (mine : Migration) (base : MigrationStatus) (latest : Migration) : Prop :=
  exists c, FindStatusCondition (Conditions base) ConditionAccepted = Some c /\
    FindStatusCondition (Conditions (mig_Status latest)) ConditionAccepted = Some c /\
    isMappingRejection (Some c) = true /\ FindStatusCondition (Conditions (mig_Status mine)) ConditionAccepted = None /\
    mig_Generation mine = mig_Generation latest.

(** This reconcile completed the very spec that [latest] has. *)
Definition completes `{SpecDigest} (mine latest : Migration) (hash : string) : Prop :=
  mig_Generation mine = mig_Generation latest /\ mig_Spec mine = mig_Spec latest /\ is_Some (CompletionTime (mig_Status mine)) /\
  completionSpecHash (mig_Spec latest) = Ok hash /\
  exists ready, FindStatusCondition (Conditions (mig_Status mine)) ConditionReady = Some ready /\
    c_Status ready = ConditionTrue /\ c_ObservedGeneration ready = mig_Generation latest.

Record merges `{SpecDigest} (mine : Migration) (base : MigrationStatus) (latest new : Migration) : Prop := {
  mg_frame : new = upd_Status (fun _ => mig_Status new) latest;
  mg_source : SourceVCenter (mig_Status new) = SourceVCenter (mig_Status latest);
  mg_node : StatusNodeMigration (mig_Status new) = StatusNodeMigration (mig_Status latest);
  mg_names : exists added, WorkerMachineSetNames (mig_Status new) = WorkerMachineSetNames (mig_Status latest) ++ added /\
    forall x, x ∈ WorkerMachineSetNames (mig_Status new) <->
      x ∈ WorkerMachineSetNames (mig_Status latest) \/ x ∈ WorkerMachineSetNames (mig_Status mine);
  mg_mappings : StatusMappings (mig_Status new) =
    if decide (StatusMappings (mig_Status latest) = [] /\ mig_Generation mine = mig_Generation latest /\ mig_UID mine = mig_UID latest)
    then StatusMappings (mig_Status mine) else StatusMappings (mig_Status latest);
  mg_start : StartTime (mig_Status new) =
    if decide (StartTime (mig_Status latest) = None) then StartTime (mig_Status mine) else StartTime (mig_Status latest);
  mg_progress : Progress (mig_Status new) =
    if decide (mig_Generation mine = mig_Generation latest /\ Progress (mig_Status mine) <> None /\
               (Progress (mig_Status latest) = None \/ Progress base <> Progress (mig_Status mine)))
    then Progress (mig_Status mine) else Progress (mig_Status latest);
  mg_completion :
    (CompletionTime (mig_Status new) = CompletionTime (mig_Status latest) /\
     CompletionSpecHash (mig_Status new) = CompletionSpecHash (mig_Status latest)) \/
    (completes mine latest (CompletionSpecHash (mig_Status new)) /\
     CompletionTime (mig_Status new) = CompletionTime (mig_Status mine) /\
     (CompletionTime (mig_Status latest) = None \/ CompletionSpecHash (mig_Status latest) <> CompletionSpecHash (mig_Status new)));
  mg_conditions : forall ty,
    let before := FindStatusCondition (Conditions (mig_Status latest)) ty in
    let after := FindStatusCondition (Conditions (mig_Status new)) ty in
    after = before \/ (ty = ConditionAccepted /\ recovered mine base latest /\ after = None) \/
    exists cond, cond ∈ Conditions (mig_Status mine) /\ c_Type cond = ty /\
      publishable (mig_Generation latest) (Conditions base) (Conditions (mig_Status latest)) cond /\ publishes cond after;
  mg_published : NoDup (c_Type <$> Conditions (mig_Status mine)) -> forall cond, cond ∈ Conditions (mig_Status mine) ->
    publishable (mig_Generation latest) (Conditions base) (Conditions (mig_Status latest)) cond ->
    publishes cond (FindStatusCondition (Conditions (mig_Status new)) (c_Type cond));
}.

(** Each merge replaces one field of the status. *)
Lemma clear_field migration latest base : exists conds,
  (clearRecoveredMappingRejection migration latest base).1 = upd_Status (set_Conditions conds) latest /\
  (conds = Conditions (mig_Status latest) \/
   recovered migration base latest /\ conds = RemoveStatusCondition (Conditions (mig_Status latest)) ConditionAccepted).
Proof.
  unfold clearRecoveredMappingRejection. destruct (_ && _) eqn:E; cbn [fst].
  - eexists. split; [by destruct latest|]. right. split; [|done]. reflect_bools.
    match goal with H : is_Some (FindStatusCondition (Conditions base) _) |- _ => destruct H as [c Hc] end.
    exists c. rewrite Hc in *. by split_and!.
  - exists (Conditions (mig_Status latest)). split; [by destruct latest as [? ? ? ? ? ? ? ? ? []]|by left].
Qed.

Lemma progress_field migration latest base :
  (mergeProgress migration latest base).1 = upd_Status (set_Progress
    (if decide (mig_Generation migration = mig_Generation latest /\ Progress (mig_Status migration) <> None /\
                (Progress (mig_Status latest) = None \/ Progress base <> Progress (mig_Status migration)))
     then Progress (mig_Status migration) else Progress (mig_Status latest))) latest.
Proof.
  assert (upd_Status (set_Progress (Progress (mig_Status latest))) latest = latest) as Hid by (by destruct latest as [? ? ? ? ? ? ? ? ? []]).
  unfold mergeProgress. destruct (_ && _) eqn:E; cbn [fst].
  - reflect_bools. rewrite decide_True; [done|]. split_and!; [done|by apply not_eq_None_Some|].
    match goal with H : _ || _ = true |- _ => apply orb_true_iff in H as [H|H]; reflect_bools; auto end.
  - destruct (decide (_ /\ _)) as [(Hg & Hs & Hp)|]; [|done]. revert E. rewrite !andb_false_iff, orb_false_iff, negb_false_iff, negb_false_iff.
    rewrite Z.eqb_neq, !bool_decide_eq_false, !bool_decide_eq_true. intros [[[?|Hn]|[? ?]]|<-]; [done| |by destruct Hp|done].
    destruct Hn. by destruct (Progress (mig_Status migration)).
Qed.

Lemma start_field migration latest :
  (mergeStartTime migration latest).1 = upd_Status (set_StartTime
    (if decide (StartTime (mig_Status latest) = None) then StartTime (mig_Status migration) else StartTime (mig_Status latest))) latest.
Proof.
  unfold mergeStartTime. destruct latest as [? ? ? ? ? ? ? ? ? [? ? ? ? ? [b|] ? ? ? ?]]; cbn; by destruct (StartTime (mig_Status migration)).
Qed.

Lemma mappings_field migration latest :
  (mergeMappings migration latest).1 = upd_Status (set_StatusMappings
    (if decide (StatusMappings (mig_Status latest) = [] /\ mig_Generation migration = mig_Generation latest /\ mig_UID migration = mig_UID latest)
     then StatusMappings (mig_Status migration) else StatusMappings (mig_Status latest))) latest.
Proof.
  assert (upd_Status (set_StatusMappings (StatusMappings (mig_Status latest))) latest = latest) as Hid by (by destruct latest as [? ? ? ? ? ? ? ? ? []]).
  unfold mergeMappings. destruct (StatusMappings (mig_Status latest)) as [|y lm] eqn:El.
  - destruct (StatusMappings (mig_Status migration)) as [|x mm]; [by destruct (decide _)|]. destruct (_ && _) eqn:E; cbn [fst].
    + reflect_bools. by rewrite decide_True.
    + rewrite decide_False; [done|]. intros (_ & Hg & Hu). rewrite Hg, Hu, Z.eqb_refl, String.eqb_refl in E. done.
  - rewrite decide_False by (by intros [? _]). by destruct (StatusMappings (mig_Status migration)).
Qed.
Section MergeFields.
Context `{SpecDigest}.

Lemma merges_LastUpdate mine base latest new t :
  merges mine base latest new -> merges mine base latest (upd_Status (set_LastUpdateTime t) new).
Proof. intros [Hf Hs Hn Hnames Hm Hst Hp Hc Hcond Hpub]. split; cbn; try done. rewrite Hf. by cbn. Qed.

Lemma completion_field migration latest new ch :
  mergeCompletionRecord migration latest (FindStatusCondition (Conditions (mig_Status migration)) ConditionReady) = Ok (new, ch) ->
  exists completed hash, new = upd_Status (set_Completion completed hash) latest /\
    ((completed = CompletionTime (mig_Status latest) /\ hash = CompletionSpecHash (mig_Status latest)) \/
     (completes migration latest hash /\ completed = CompletionTime (mig_Status migration) /\
      (CompletionTime (mig_Status latest) = None \/ CompletionSpecHash (mig_Status latest) <> hash))).
Proof.
  assert (latest = upd_Status (set_Completion (CompletionTime (mig_Status latest)) (CompletionSpecHash (mig_Status latest))) latest) as Hid
    by (by destruct latest as [? ? ? ? ? ? ? ? ? []]).
  unfold mergeCompletionRecord. destruct (FindStatusCondition _ _) as [ready|] eqn:Hr; [|intros [= <- _]; eauto 6].
  destruct (_ || bool_decide (CompletionTime (mig_Status migration) = None)) eqn:E; [intros [= <- _]; eauto 6|]. reflect_bools.
  destruct (completionSpecHash _) as [hash|] eqn:Hh; [|done]. destruct (_ || _) eqn:Eo; intros [= <- _]; [|eauto 6].
  eexists _, hash. split; [done|]. right. split_and!; [|done|].
  - match goal with E : mig_Spec migration = _ |- _ => rewrite E in Hh end. split_and!; [done..|by apply not_eq_None_Some|done|by exists ready].
  - apply orb_true_iff in Eo as [Eo|Eo]; reflect_bools; auto.
Qed.

(** The conditions, merged into those left after a withdrawn rejection. *)
Lemma conditions_merged t mine latest base conds merged :
  (conds = Conditions (mig_Status latest) \/
   recovered mine base latest /\ conds = RemoveStatusCondition (Conditions (mig_Status latest)) ConditionAccepted) ->
  merged = (mergeConditions t (mig_Generation latest) (Conditions base) (Conditions (mig_Status mine)) conds false).1 ->
  (forall ty,
    FindStatusCondition merged ty = FindStatusCondition (Conditions (mig_Status latest)) ty \/
    (ty = ConditionAccepted /\ recovered mine base latest /\ FindStatusCondition merged ty = None) \/
    exists cond, cond ∈ Conditions (mig_Status mine) /\ c_Type cond = ty /\
      publishable (mig_Generation latest) (Conditions base) (Conditions (mig_Status latest)) cond /\
      publishes cond (FindStatusCondition merged ty)) /\
  (NoDup (c_Type <$> Conditions (mig_Status mine)) -> forall cond, cond ∈ Conditions (mig_Status mine) ->
    publishable (mig_Generation latest) (Conditions base) (Conditions (mig_Status latest)) cond ->
    publishes cond (FindStatusCondition merged (c_Type cond))).
Proof.
  intros Hconds Hmerged.
  assert (forall ty, FindStatusCondition conds ty = FindStatusCondition (Conditions (mig_Status latest)) ty \/
    (ty = ConditionAccepted /\ recovered mine base latest /\ FindStatusCondition conds ty = None)) as Hty.
  { intros ty. destruct Hconds as [->|[Hr ->]]; [by left|]. destruct (decide (ty = ConditionAccepted)) as [->|Hne].
    - right. split_and!; [done..|]. apply Find_Remove_same.
    - left. by apply Find_Remove_other. }
  assert (forall cond, cond ∈ Conditions (mig_Status mine) ->
    FindStatusCondition conds (c_Type cond) = FindStatusCondition (Conditions (mig_Status latest)) (c_Type cond)) as Hmine.
  { intros cond Hin. destruct (Hty (c_Type cond)) as [?|(Ht & (c & _ & _ & _ & Hnone & _) & _)]; [done|]. by eapply Find_None in Hnone. }
  split.
  - intros ty. destruct (mergeConditions_type t (mig_Generation latest) (Conditions base) (Conditions (mig_Status mine)) conds false ty)
      as [E|(cond & Hin & <- & (Hb & Hg & Hd) & Hp)]; rewrite <- Hmerged in *.
    + rewrite E. destruct (Hty ty) as [?|?]; auto.
    + right; right. exists cond. split_and!; [done..| |done]. refine (conj Hb (conj Hg _)). intros c. rewrite <- Hmine by done. apply Hd.
  - intros Hnd cond Hin (Hb & Hg & Hd). rewrite Hmerged. apply mergeConditions_published; [done..|].
    refine (conj Hb (conj Hg _)). intros c. rewrite Hmine by done. apply Hd.
Qed.

(** The whole merge. *)
Lemma mergeStatus_merges t migration latest base new ch :
  mergeStatus t migration latest base = Ok (new, ch) -> merges migration base latest new.
Proof.
  unfold mergeStatus. destruct (clear_field migration latest base) as (conds & E1 & Hconds).
  destruct (clearRecoveredMappingRejection _ _ _) as [l1 c1]; cbn [fst] in E1. subst l1.
  unfold mergeStatusConditions. destruct (conditions_merged t migration latest base conds _ Hconds eq_refl) as [Hty Hpub]. cbn in Hty, Hpub |- *.
  destruct (mergeConditions _ _ _ _ _ _) as [conds2 c2]. cbn [fst] in Hty, Hpub.
  destruct (mergeProgress _ _ _) as [l3 c3] eqn:E3. apply (f_equal fst) in E3. rewrite progress_field in E3. cbn in E3. subst l3.
  destruct (mergeStartTime _ _) as [l4 c4] eqn:E4. apply (f_equal fst) in E4. rewrite start_field in E4. cbn in E4. subst l4.
  destruct (mergeCompletionRecord _ _ _) as [[l5 c5]|] eqn:E5; [|done]. apply completion_field in E5 as (completed & hash & -> & Hcompletion).
  destruct (mergeMappings _ _) as [l6 c6] eqn:E6. apply (f_equal fst) in E6. rewrite mappings_field in E6. cbn in E6. subst l6.
  unfold mergeNames. cbn in *.
  destruct (appendNames_spec (WorkerMachineSetNames (mig_Status migration)) (WorkerMachineSetNames (mig_Status latest))) as ([added Hadded] & Hnames & _).
  destruct (appendNames _ _) as [names c7]. cbn [fst] in *. intros [= <- _]. split; cbn; try done. by exists added.
Qed.

End MergeFields.

(** *** What an observer of the status writes sees *)

Record WriteView := MkWriteView {
  wv_read : option Migration;      (* the last read of the resource *)
  wv_written : option Migration;   (* the last write accepted since that read *)
  wv_attempts : nat;               (* status writes attempted *)
}.

Definition view_next (g : WriteView) (c : call) : resp c -> WriteView :=
  match c with
  | CGetMigration _ _ _ => fun r => MkWriteView (match r with Ok m => Some m | Err _ => None end) None (wv_attempts g)
  | CUpdateMigrationStatus m => fun r =>
      MkWriteView (wv_read g) (if is_ok r then Some m else None) (S (wv_attempts g))
  | _ => fun _ => g
  end.

(** Each status write is of an object related by [R] to the one last read, at most five are
    attempted, and nothing else is changed. *)
Definition status_writes (R : Migration -> Migration -> Prop) : Observer WriteView :=
  MkObserver (fun g c =>
      match c with
      | CUpdateMigrationStatus new => (exists latest, wv_read g = Some latest /\ R latest new) /\ wv_attempts g < DefaultRetrySteps
      | CPatchMigration _ _ => False
      | _ => mutating c = false
      end) view_next (fun _ _ _ => True).

Definition no_view : WriteView := MkWriteView None None 0.

Section StatusRuns.
Context `{SpecDigest}.

Lemma wp_updateSingletonMetrics R latest s (Q : St * result unit -> WriteView -> Prop) g :
  (forall gauges, Q (with_gauges gauges s, Ok tt) g) -> Q (s, Ok tt) g -> wp (status_writes R) (updateSingletonMetrics latest s) Q g.
Proof.
  intros HQ HQ'. unfold updateSingletonMetrics. destruct (isSingleton latest); [|done].
  apply wp_UpdateMigrationMetrics; [done|done|]. intros d gauges. apply HQ.
Qed.

(** The status update publishes only merges of what it read. *)
Lemma wp_updateStatus base s g :
  wv_attempts g = 0 ->
  wp (status_writes (fun latest new => mig_UID latest = mig_UID (st_mig s) /\ kept latest new /\ merges (st_mig s) base latest new))
    (updateStatus base s) (fun r _ => st_mig r.1 = st_mig s /\ st_mem r.1 = st_mem s /\ st_sessions r.1 = st_sessions s) g.
Proof.
  intros Hg. unfold updateStatus, RetryOnConflict. apply wp_m_wrapping.
  apply (wp_retry _ (fun k s' g => (st_mig s' = st_mig s /\ st_mem s' = st_mem s /\ st_sessions s' = st_sessions s) /\
     wv_attempts g + k < DefaultRetrySteps)); [split; [done|]; rewrite Hg; unfold DefaultRetrySteps; lia|].
  clear g Hg. intros k s' g [Hs Hk]. unfold updateStatusOnce. repeat wp_step; [done|].
  intros [latest|e] _; [|split; [done|]; intros k' ->; split; [done|]; cbn; lia].
  cbn [wp]. repeat wp_step; [done..|]. intros t _. repeat wp_step; try done.
  all: try (split; [done|]; intros k' ->; split; [done|]; cbn; lia).
  all: match goal with E : mergeStatus _ _ _ _ = Ok _ |- _ => apply mergeStatus_kept in E as Hkept; apply mergeStatus_merges in E as Hmerges end.
  - by apply wp_updateSingletonMetrics.
  - intros t' _. reflect_bools. repeat wp_step.
    + cbn. split; [|lia]. exists latest. destruct Hs as [Hs _]. rewrite Hs in Hmerges.
      split_and!; [done|by rewrite <- Hs| |by apply merges_LastUpdate]. etrans; [exact Hkept|]. split; cbn; eauto. by split_and!.
    + intros [[]|e] _; cbn [wp]; [by apply wp_updateSingletonMetrics|].
      split; [done|]; intros k' ->; split; [done|]; cbn; lia.
Qed.

(** Publishing names: what is written extends what was read, and success means durable. *)
Definition names_durable (m : Migration) (names : list string) (g : WriteView) : Prop :=
  exists latest, wv_read g = Some latest /\
    (mig_UID latest <> mig_UID m \/ names ⊆ WorkerMachineSetNames (mig_Status latest) \/
     exists new, wv_written g = Some new /\ names ⊆ WorkerMachineSetNames (mig_Status new)).

Lemma wp_persistNames s g :
  wv_attempts g = 0 ->
  wp (status_writes (fun latest new => mig_UID latest = mig_UID (st_mig s) /\ kept latest new))
    (persistWorkerMachineSetNames s)
    (fun r g' => r.1 = s /\ (is_ok r.2 = true -> WorkerMachineSetNames (mig_Status (st_mig s)) <> [] ->
       names_durable (st_mig s) (WorkerMachineSetNames (mig_Status (st_mig s))) g')) g.
Proof.
  intros Hg. unfold persistWorkerMachineSetNames. repeat wp_step; [done|]. rewrite <- Heql. clear Heql.
  set (names := WorkerMachineSetNames (mig_Status (st_mig s))).
  apply (wp_retry _ (fun k s' g => s' = s /\ wv_attempts g + k < DefaultRetrySteps)); [split; [done|]; rewrite Hg; unfold DefaultRetrySteps; lia|].
  clear g Hg. intros k s' g [-> Hk]. unfold persistNamesOnce. repeat wp_step; [done|].
  intros [latest|e] _; [|split; [done|]; intros k' ->; split; [done|]; cbn; lia]. cbn [wp].
  pose proof (appendNames_spec names (WorkerMachineSetNames (mig_Status latest))) as (Hp & Hx & Hc & _).
  repeat wp_step; reflect_bools; cbn.
  - split; [done|]. intros _ _. exists latest. auto.
  - split; [done|]. intros _ _. exists latest. cbn in *. split; [done|]. right; left.
    rewrite Hc in Hx by done.
    intros x Hin. apply Hx. auto.
  - split; [|lia]. exists latest. split; [done|]. split; [done|].
    split; cbn; eauto. by split_and!.
  - intros [[]|e] _; cbn [wp]; [|split; [done|]; intros k' ->; split; [done|]; cbn; lia].
    split; [done|]. intros _ _. exists latest. split; [done|]. right; right. eexists; split; [done|]. cbn.
    intros x Hin. apply Hx. auto.
Qed.

Lemma wp_persistSource server s g :
  wv_attempts g = 0 ->
  wp (status_writes (fun latest new => mig_UID latest = mig_UID (st_mig s) /\ kept latest new /\
        SourceVCenter (mig_Status latest) = "" /\ SourceVCenter (mig_Status new) = server))
    (persistSourceVCenter server s)
    (fun r g' => (is_ok r.2 = true -> exists latest, wv_read g' = Some latest /\
        (mig_UID latest <> mig_UID (st_mig s) \/ SourceVCenter (mig_Status latest) = server \/ is_Some (wv_written g')))) g.
Proof.
  intros Hg. unfold persistSourceVCenter, RetryOnConflict.
  apply (wp_retry _ (fun k s' g => s' = s /\ wv_attempts g + k < DefaultRetrySteps)); [split; [done|]; rewrite Hg; unfold DefaultRetrySteps; lia|].
  clear g Hg. intros k s' g [-> Hk]. unfold persistSourceVCenterOnce. repeat wp_step; [done|].
  intros [latest|e] _; [|split; [done|]; intros k' ->; split; [done|]; cbn; lia]. cbn [wp].
  repeat wp_step; reflect_bools; cbn.
  - intros _. exists latest. auto.
  - split; [done|]. intros k' ->. split; [done|]. lia.
  - intros _. exists latest. auto.
  - split; [|lia]. exists latest. split_and!; try done. split; cbn; eauto; [by split_and!|]. congruence.
  - intros [[]|e] _; cbn [wp]; repeat wp_step; [|split; [done|]; intros k' ->; split; [done|]; cbn; lia].
    intros _. exists latest. cbn. eauto.
Qed.

End StatusRuns.

(** *** Retention *)

(** The only write the finalizer update may make to the object it last read. *)
Definition retention_write `{SpecDigest} (base latest : Migration) : Prop :=
  match mig_DeletionTimestamp base with
  | None => mig_Finalizers latest = mig_Finalizers base ++ [FinalizerName] /\ FinalizerName ∉ mig_Finalizers base
  | Some _ => mig_Finalizers latest = filter (fun f => f <> FinalizerName) (mig_Finalizers base) /\
      FinalizerName ∈ mig_Finalizers base /\
      (isCompletionRecordedForSpec base = Ok true \/ mig_Annotations base !! AnnotationAllowDeletion = Some "true")
  end /\ latest = set_Finalizers (mig_Finalizers latest) base.

Definition retention_writes `{SpecDigest} : Observer WriteView :=
  MkObserver (fun g c =>
      match c with
      | CPatchMigration latest base => wv_read g = Some base /\ retention_write base latest
      | CUpdateMigrationStatus _ => False
      | _ => mutating c = false
      end) view_next (fun _ _ _ => True).

Lemma retentionStep_spec `{SpecDigest} base latest :
  retentionStep base = Ok (latest, true) -> retention_write base latest.
Proof.
  unfold retentionStep, retention_write. destruct (mig_DeletionTimestamp base) as [d|].
  - destruct (isCompletionRecordedForSpec base) as [complete|] eqn:Hc; [|done].
    destruct (complete || _) eqn:Ho; [|done]. unfold RemoveFinalizer. intros [= <- Hl]. cbn. split; [|done].
    split; [done|]. split.
    + destruct (decide (FinalizerName ∈ mig_Finalizers base)) as [|Hn]; [done|]. exfalso. reflect_bools. apply Hl.
      rewrite filter_all; [done|]. apply Forall_forall. by intros x Hx ->.
    + apply orb_true_iff in Ho as [->|Ho]; [by left|right]. reflect_bools. destruct (_ !! _); cbn in *; congruence.
  - unfold AddFinalizer. destruct (ContainsStr _ _) eqn:E; [done|]. intros [= <-]. cbn. split; [|done].
    split; [done|]. intros Hin%ContainsStr_spec. congruence.
Qed.

(** ** Properties *)

(** C11: a status update never loses what another writer committed.  In every interleaving,
    each write is made only while the object just read has the UID this reconcile started
    from, and it is that object with these fields of its status merged and nothing else
    changed (but the time of the update): worker MachineSet names are only appended, from this
    reconcile's; the mapping and the start time are taken only where none is recorded (the
    mapping only of this generation); progress and the completion record only of this
    generation, progress only when this reconcile changed it or none is recorded, completion
    only of the very spec that was completed; and a condition, True or False, only when this
    reconcile changed it, observed it at no older generation than that of the object read and
    does not take back a True one, so that every other condition stays as it was read, apart
    from a mapping rejection that this reconcile withdrew and nobody renewed.  A condition for
    which the three hold is published (given one condition per type, as the API demands).  At most five writes are attempted. *)
Theorem updateStatus_keeps_committed `{SpecDigest} {W} (h : W -> forall c, resp c * W) (w : W) (base : MigrationStatus) (s : St) :
  observed (status_writes (fun latest new => mig_UID latest = mig_UID (st_mig s) /\ kept latest new /\ merges (st_mig s) base latest new))
    no_view (run h (updateStatus base s) w).2.
Proof. eapply proj1, (wp_run_all _ h _ _ _ w); [done|by apply wp_updateStatus]. Qed.

(** concurrent reconciles do not overwrite each other's conditions: a condition type this
    reconcile left as it found it, or observed at an older generation, is published exactly
    as the latest object has it, and when no change is reported the conditions are untouched. *)
Theorem mergeStatusConditions_local (t : Time) (migration latest : Migration) (base : MigrationStatus) :
  (forall ty, (forall c, c ∈ Conditions (mig_Status migration) -> c_Type c = ty ->
       untouched (Conditions base) c = true \/ (c_ObservedGeneration c < mig_Generation latest)%Z) ->
     FindStatusCondition (Conditions (mig_Status (mergeStatusConditions t migration latest base).1)) ty =
     FindStatusCondition (Conditions (mig_Status latest)) ty) /\
  ((mergeStatusConditions t migration latest base).2 = false ->
     Conditions (mig_Status (mergeStatusConditions t migration latest base).1) = Conditions (mig_Status latest)) /\
  (forall c, c ∈ Conditions (mig_Status migration) -> c_Status c = ConditionTrue -> untouched (Conditions base) c = false ->
     (mig_Generation latest <= c_ObservedGeneration c)%Z ->
     exists c', FindStatusCondition (Conditions (mig_Status (mergeStatusConditions t migration latest base).1)) (c_Type c) = Some c' /\
       c_Status c' = ConditionTrue).
Proof.
  unfold mergeStatusConditions.
  pose proof (mergeConditions_other t (mig_Generation latest) (Conditions base) (Conditions (mig_Status migration)) (Conditions (mig_Status latest)) false) as H1.
  pose proof (mergeConditions_unchanged t (mig_Generation latest) (Conditions base) (Conditions (mig_Status migration)) (Conditions (mig_Status latest)) false) as H2.
  pose proof (mergeConditions_True_new t (mig_Generation latest) (Conditions base) (Conditions (mig_Status migration)) (Conditions (mig_Status latest)) false) as H3.
  destruct (mergeConditions _ _ _ _ _ _) as [conds ch]. cbn in *. split_and!; [done| |done]. intros Hch. by apply H2.
Qed.

Lemma mergeStatusConditions_local_witness :
  let cond t st g := MkCondition t st g (Some 5%Z) "Completed" "" in
  let mk c := MkMigration "cluster" "ns" "u" "1" 2 None ∅ [] (MkSpec "Running" (MkSecretReference "" "") [] [] None)
                (MkStatus None c [] [] "" None None None "" None) in
  FindStatusCondition (Conditions (mig_Status (mergeStatusConditions 9 (mk [cond "Ready" "False" 2%Z])
    (mk [cond "Ready" "True" 2%Z]) (mig_Status (mk [cond "Ready" "False" 2%Z]))).1)) "Ready" = Some (cond "Ready" "True" 2%Z).
Proof.
  refine (proj1 (mergeStatusConditions_local _ _ _ _) _ _). intros c Hc%list_elem_of_singleton _. subst c. left. reflexivity.
Defined.

(** C16: names are durable before the destructive steps: when publishing the worker MachineSet
    names succeeds, every one of them is in the resource as last read or as written by an
    accepted update, unless the resource was replaced; the writes keep all that was
    committed. *)
Theorem persistWorkerMachineSetNames_durable {W} (h : W -> forall c, resp c * W) (w : W) (s : St) :
  let out := run h (persistWorkerMachineSetNames s) w in
  observed (status_writes (fun latest new => mig_UID latest = mig_UID (st_mig s) /\ kept latest new)) no_view out.2 /\
  out.1.1.1 = s /\
  (is_ok out.1.1.2 = true -> WorkerMachineSetNames (mig_Status (st_mig s)) <> [] ->
     names_durable (st_mig s) (WorkerMachineSetNames (mig_Status (st_mig s)))
       (observe (status_writes (fun latest new => mig_UID latest = mig_UID (st_mig s) /\ kept latest new)) no_view out.2)).
Proof. pose proof (wp_persistNames s no_view eq_refl) as Hwp. by apply (wp_run_all _ h _ _ _ w) in Hwp. Qed.

(** A world that holds one copy of the resource. *)
Definition holding (m : Migration) : unit -> forall c : call, resp c * unit :=
  answering (fun c => match c return option (resp c) with
                      | CGetMigration _ _ _ => Some (Ok m)
                      | CUpdateMigrationStatus _ => Some (Ok tt)
                      | CPatchMigration _ _ => Some (Ok tt)
                      | _ => None
                      end).

Lemma persistWorkerMachineSetNames_durable_witness :
  let mk names := MkMigration "cluster" "ns" "u" "1" 2 None ∅ [] (MkSpec "Running" (MkSecretReference "" "") [] [] None)
                (MkStatus None [] [] names "" None None None "" None) in
  let s := MkSt (mk ["w-1"]) (MkMem "" None 0 None None) ∅ ∅ in
  names_durable (mk ["w-1"]) ["w-1"]
    (observe (status_writes (fun latest new => mig_UID latest = mig_UID (st_mig s) /\ kept latest new)) no_view
       (run (holding (mk [])) (persistWorkerMachineSetNames s) tt).2).
Proof. apply (persistWorkerMachineSetNames_durable (holding _) tt); [reflexivity|done]. Defined.

(** C24: the source vCenter is write-once: it is written only into a resource that records
    none, and publishing succeeds only when the resource then names this server or was
    replaced. *)
Theorem persistSourceVCenter_write_once {W} (h : W -> forall c, resp c * W) (w : W) (server : string) (s : St) :
  let O := status_writes (fun latest new => mig_UID latest = mig_UID (st_mig s) /\ kept latest new /\
        SourceVCenter (mig_Status latest) = "" /\ SourceVCenter (mig_Status new) = server) in
  let out := run h (persistSourceVCenter server s) w in
  observed O no_view out.2 /\
  (is_ok out.1.1.2 = true -> exists latest, wv_read (observe O no_view out.2) = Some latest /\
     (mig_UID latest <> mig_UID (st_mig s) \/ SourceVCenter (mig_Status latest) = server \/
      is_Some (wv_written (observe O no_view out.2)))).
Proof. pose proof (wp_persistSource server s no_view eq_refl) as Hwp. by apply (wp_run_all _ h _ _ _ w) in Hwp. Qed.

Lemma persistSourceVCenter_write_once_witness :
  let m := MkMigration "cluster" "ns" "u" "1" 2 None ∅ [] (MkSpec "Running" (MkSecretReference "" "") [] [] None)
                (MkStatus None [] [] [] "vc-old" None None None "" None) in
  let s := MkSt m (MkMem "" None 0 None None) ∅ ∅ in
  let O := status_writes (fun latest new => mig_UID latest = mig_UID (st_mig s) /\ kept latest new /\
        SourceVCenter (mig_Status latest) = "" /\ SourceVCenter (mig_Status new) = "vc-old") in
  exists latest, wv_read (observe O no_view (run (holding m) (persistSourceVCenter "vc-old" s) tt).2) = Some latest /\
     (mig_UID latest <> mig_UID (st_mig s) \/ SourceVCenter (mig_Status latest) = "vc-old" \/
      is_Some (wv_written (observe O no_view (run (holding m) (persistSourceVCenter "vc-old" s) tt).2))).
Proof. apply (persistSourceVCenter_write_once (holding _) tt "vc-old"). reflexivity. Defined.

(** C25: the record of a migration is retained: the finalizer is added exactly to a live object
    that lacks it, and taken off an object being deleted only when its completion is recorded
    for its spec or an administrator's annotation allows it; the write is based on the object
    just read and changes no other finalizer and no other field. *)
Theorem retention_finalizer_safe `{SpecDigest} {W} (h : W -> forall c, resp c * W) (w : W) (s : St) :
  observed retention_writes no_view (run h (updateRetentionFinalizer s) w).2.
Proof.
  eapply proj1, (wp_run_all _ h _ (fun _ _ => True) _ w); [done|].
  unfold updateRetentionFinalizer, RetryOnConflict.
  apply (wp_retry _ (fun _ _ _ => True)); [done|]. intros k s' g _. unfold updateRetentionFinalizerOnce.
  repeat wp_step; [done|]. intros [base|e] _; cbn [wp]; repeat wp_step; try done.
  - split; [done|]. apply retentionStep_spec. by destruct b.
  - intros [[]|e] _; cbn; done.
Qed.

(** C26: completion is recorded only for what was completed: the record is written only when
    the resource still has the generation and spec of this reconcile and Ready is True at
    that generation; what is written then counts as completion of that very spec, and the
    record is not written twice. *)
Theorem completion_bound_to_spec `{SpecDigestLaws} (migration latest new : Migration) (ready : option Condition) :
  mergeCompletionRecord migration latest ready = Ok (new, true) ->
  (exists r, ready = Some r /\ c_Status r = ConditionTrue /\ c_ObservedGeneration r = mig_Generation latest) /\
  mig_Spec migration = mig_Spec latest /\ mig_Generation migration = mig_Generation latest /\
  (isConditionTrue new ConditionReady = true -> isCompletionRecordedForSpec new = Ok true) /\
  mergeCompletionRecord migration new ready = Ok (new, false).
Proof.
  unfold mergeCompletionRecord at 1. destruct ready as [r|]; [|done].
  destruct (_ || bool_decide (CompletionTime (mig_Status migration) = None)) eqn:Hg; [done|].
  destruct (completionSpecHash (mig_Spec migration)) as [hash|] eqn:Hh; [|done].
  destruct (_ || bool_decide (CompletionTime (mig_Status latest) = None)) eqn:Hw; [|done]. intros [= <-].
  assert (bool_decide (CompletionTime (mig_Status migration) = None) = false) as Ht by by apply orb_false_iff in Hg as [_ ?].
  match goal with |- ?a /\ ?b /\ ?c /\ ?d /\ ?e => assert e as Hlast end.
  { unfold mergeCompletionRecord. cbn. rewrite Hg, Hh, String.eqb_refl. cbn. by rewrite Ht. }
  reflect_bools. split_and!; [eauto|done|done| |done].
  unfold isConditionTrue, isCompletionRecordedForSpec. cbn. destruct (FindStatusCondition _ _) as [c|]; [|done].
    intros ->. cbn. match goal with E : mig_Spec migration = _ |- _ => rewrite <- E end. rewrite Hh.
    assert (hash <> "") as Hne.
    { unfold completionSpecHash in Hh. destruct (MarshalSpec _); [|done]. cbn in Hh. injection Hh as <-.
      intros E. pose proof (sha256_length a) as Hl. by rewrite E in Hl. }
    rewrite (proj2 (String.eqb_neq _ _) Hne), String.eqb_refl.
    by rewrite bool_decide_eq_false_2.
Qed.

(** A digest for which the laws hold: the text in hexadecimal characters, padded with zeros
    to 64 of them. *)
#[global] Instance example_digest : SpecDigest := {
  MarshalSpec spec := Ok (State spec);
  Sha256Hex s := stake 64 (smap (fun c => if is_lower_hex c then c else "f"%char) s +:+
                           "0000000000000000000000000000000000000000000000000000000000000000");
}.

#[global] Instance example_digest_laws : SpecDigestLaws.
Proof.
  split; intros s; cbn [Sha256Hex example_digest].
  - rewrite length_stake, length_append. apply Nat.min_l. etrans; [|apply Nat.le_add_l]. exact (le_n 64).
  - match goal with |- sforall _ (stake ?n ?x) = true => assert (sforall is_lower_hex x = true) as Hx end.
    { rewrite sforall_app, sforall_smap; [done|]. intros c. by destruct (is_lower_hex c) eqn:E. }
    revert Hx. match goal with |- sforall _ ?x = true -> _ => generalize x end. intros x Hx.
    rewrite <- (stake_sdrop 64 x), sforall_app in Hx. by apply andb_true_iff in Hx as [? _].
Qed.

Lemma completion_bound_to_spec_witness :
  let r := MkCondition "Ready" "True" 2 (Some 5%Z) "Completed" "" in
  let mk t h := MkMigration "cluster" "ns" "u" "1" 2 None ∅ [] (MkSpec "Running" (MkSecretReference "" "") [] [] None)
                (MkStatus None [r] [] [] "" None None t h None) in
  let hash := "fffffff000000000000000000000000000000000000000000000000000000000" in
  isCompletionRecordedForSpec (mk (Some 7%Z) hash) = Ok true.
Proof.
  intros r mk hash. refine (proj1 (proj2 (proj2 (proj2 (completion_bound_to_spec (mk (Some 7%Z) "") (mk None "") _ (Some r) _)))) _).
  all: reflexivity.
Defined.
