(* ===== verification/Invariants.v ===== *)
(** * Invariants of the migration object in memory

    A reconcile works on one fetched object.  [keeps I m] says that [m] leaves the invariant
    [I] of that object true in every environment, however [m] ends; the rules below follow the
    constructs of a program, so that a handler is walked without being run. *)

From S2P Require Import Prelude GoErrors Objects NodeMigration Types Effects Execution Metrics Status.
Import GoStr.

(** The calls an observer always allows. *)
Definition allows {G} (O : Observer G) (free : call -> Prop) : Prop := forall g c, free c -> pre O g c.
Definition reading (c : call) : Prop := mutating c = false.

(** The calls an observer allows while [I] holds, and that leave [I] true. *)
Definition stable {G} (O : Observer G) (free : call -> Prop) (I : Migration -> G -> Prop) : Prop :=
  forall m g c, free c -> I m g -> pre O g c /\ forall r, env O g c r -> I m (upd O g c r).

Lemma allows_stable {G} (O : Observer G) free (I : Migration -> Prop) : allows O free -> stable O free (fun m _ => I m).
Proof. intros Hf m g c Hc Hi. split; [by apply Hf|done]. Qed.

Section Keeps.
Context {G : Type} (O : Observer G) (free : call -> Prop) (I : Migration -> G -> Prop) (Hfree : stable O free I).

Definition keeps {A} (m : M A) : Prop := forall s g, I (st_mig s) g -> wp O (m s) (fun '(s', _) g' => I (st_mig s') g') g.

(** Programs that only make such calls. *)
Lemma wp_free {A} (p : Prog A) m g : only_calls free p -> I m g -> wp O p (fun _ g' => I m g') g.
Proof.
  intros Hp. revert g. unfold only_calls in Hp. induction p as [a|c k IH]; intros g Hi; cbn [wp] in *; [done|].
  destruct Hp as [Hc Hk]. destruct (Hfree m g c Hc Hi) as [Hpre Hupd]. split; [done|]. intros r Hr. apply IH; [by apply Hk|auto].
Qed.

Lemma keeps_bind {A B} (m : M A) (f : A -> M B) : keeps m -> (forall a, keeps (f a)) -> keeps (m_bind m f).
Proof.
  intros Hm Hf s g Hi. apply wp_m_bind. eapply wp_mono; [|by apply Hm]. intros [s' [a|e]] g' Hi'; [|done]. by apply Hf.
Qed.
Lemma keeps_lift {A} (p : IO A) : only_calls free p -> keeps (lift p).
Proof. intros Hp s g Hi. apply wp_lift. by apply wp_free. Qed.
Lemma keeps_ret {A} (a : A) : keeps (ret a).
Proof. by intros s g Hi. Qed.
Lemma keeps_throw {A} e : keeps (@throw A e).
Proof. by intros s g Hi. Qed.
Lemma keeps_get : keeps get.
Proof. by intros s g Hi. Qed.
Lemma keeps_get_mig : keeps get_mig.
Proof. by intros s g Hi. Qed.
Lemma keeps_modify f : (forall s g, I (st_mig s) g -> I (st_mig (f s)) g) -> keeps (modify f).
Proof. intros H s g. apply H. Qed.
Lemma keeps_try {A} (m : M A) : keeps m -> keeps (m_try m).
Proof. intros H s g Hi. apply wp_m_try. eapply wp_mono; [|by apply H]. by intros [s' r] ?. Qed.
Lemma keeps_wrapping {A} f args (m : M A) : keeps m -> keeps (m_wrapping f args m).
Proof. intros H s g Hi. apply wp_m_wrapping. eapply wp_mono; [|by apply H]. by intros [s' r] ?. Qed.
Lemma keeps_for {X} (l : list X) body : (forall x, keeps (body x)) -> keeps (m_for l body).
Proof. intros H. induction l as [|x l IH]; [apply keeps_ret|]. by apply keeps_bind. Qed.
Lemma keeps_fold {X V} (l : list X) (v : V) body : (forall v x, keeps (body v x)) -> keeps (m_fold l v body).
Proof. intros H. revert v. induction l as [|x l IH]; intros v; [apply keeps_ret|]. apply keeps_bind; [done|intros; apply IH]. Qed.
Lemma keeps_until {X V R} (l : list X) (v : V) (body : V -> X -> M (V + R)) :
  (forall v x, keeps (body v x)) -> keeps (m_until l v body).
Proof.
  intros H. revert v. induction l as [|x l IH]; intros v; [apply keeps_ret|]. apply keeps_bind; [done|]. intros []; [apply IH|apply keeps_ret].
Qed.
Lemma keeps_retry n fn : keeps fn -> keeps (retryOnConflict n fn).
Proof.
  intros H. induction n as [|n IH]; cbn [retryOnConflict]; [done|].
  apply keeps_bind; [by apply keeps_try|]. intros [|e]; [apply keeps_ret|]. destruct (IsConflict e); [done|apply keeps_throw].
Qed.
Lemma keeps_now : free CNow -> keeps now.
Proof. intros Hn. apply keeps_lift. apply only_bind; [by apply only_call|]. intros t. apply only_ret. Qed.
Lemma keeps_event t r n : free (CEvent t r n) -> keeps (event t r n).
Proof. intros Hn. apply keeps_lift. apply only_bind; [by apply only_call|]. intros []. apply only_ret. Qed.

Lemma keeps_setCondition ty status reason message :
  free CNow -> (forall t m g, I m g -> I (conditionSet t ty status reason message m) g) -> keeps (setCondition ty status reason message).
Proof. intros Hn Hc. apply keeps_bind; [by apply keeps_now|]. intros t. apply keeps_modify. intros s. apply Hc. Qed.

End Keeps.

Create HintDb keeps.

(** Unfold the operation at the head of a program. *)
Ltac unfold_head p :=
  lazymatch p with
  | ?f _ => unfold_head f
  | _ => unfold p
  end.

(** One step of the walk; [free] is what closes the calls of a lifted program. *)
Ltac keeps_step free :=
  lazymatch goal with
  | |- keeps _ _ (m_bind _ _) => apply keeps_bind; [|intros ?]
  | |- keeps _ _ (lift _) => eapply keeps_lift; [eassumption|free]
  | |- keeps _ _ (ret _) => apply keeps_ret
  | |- keeps _ _ (throw _) => apply keeps_throw
  | |- keeps _ _ get => apply keeps_get
  | |- keeps _ _ get_mig => apply keeps_get_mig
  | |- keeps _ _ now => eapply keeps_now; [eassumption|done]
  | |- keeps _ _ (event _ _ _) => eapply keeps_event; [eassumption|done]
  | |- keeps _ _ (m_try _) => apply keeps_try
  | |- keeps _ _ (m_wrapping _ _ _) => apply keeps_wrapping
  | |- keeps _ _ (m_for _ _) => apply keeps_for; intros ?
  | |- keeps _ _ (m_fold _ _ _) => apply keeps_fold; intros ? ?
  | |- keeps _ _ (m_until _ _ _) => apply keeps_until; intros ? ?
  | |- keeps _ _ (retryOnConflict _ _) => apply keeps_retry
  | |- keeps _ _ (modify_status _) => apply keeps_modify; intros ? ?; cbn [with_mig st_mig]; try done
  | |- keeps _ _ (modify _) => apply keeps_modify; intros ? ?; cbn [with_mig with_mem with_sessions with_gauges st_mig]; try done
  | |- keeps _ _ (let _ := _ in _) => cbv zeta
  | |- keeps _ _ (match ?x with _ => _ end) => destruct x
  | |- keeps _ _ (?f _) => lazymatch f with (match ?x with _ => _ end) => destruct x | _ => unfold_head f end
  | |- keeps _ _ ?p => unfold_head p
  end.
(** The free calls are the reads. *)
Ltac quiet_calls := idtac; lazymatch goal with |- only_calls _ ?p => change (quiet p); quiet_auto end.
Ltac keeps_auto free := repeat first [ solve [eauto with keeps] | keeps_step free ].

(** ** The status operations *)

Section StatusKeeps.
Context `{SpecDigest} {G : Type} (O : Observer G) (I : Migration -> G -> Prop) (Hreads : stable O reading I).

(** A status update works on the object it reads, never on the one in memory. *)
Lemma keeps_updateStatus base : keeps O I (updateStatus base).
Proof. keeps_auto quiet_calls. Qed.

End StatusKeeps.
