(* ===== verification/Infrastructure.v ===== *)
(** * Cluster configuration (internal/openshift)

    The Infrastructure resource (infrastructure.go), the credentials secret (secrets.go) and
    the cloud-provider-config ConfigMap (configmaps.go): adding the target vCenter, removing
    the source one. *)

From S2P Require Import Prelude GoErrors Objects Types Effects Execution.
Import GoStr.

Definition InfrastructureName := "cluster".
Definition VSphereCredsSecretName := "vsphere-creds".
Definition VSphereCredsSecretNamespace := "kube-system".
Definition credsUsernameSuffix := ".username".
Definition credsPasswordSuffix := ".password".
Definition CloudProviderConfigMapName := "cloud-provider-config".
Definition CloudProviderConfigMapNamespace := "openshift-config".
Definition cloudProviderConfigKey := "config".

(** ** infrastructure.go *)

Definition GetInfrastructure : IO Infrastructure :=
  wrapping "getting infrastructure %q: %w" [FS InfrastructureName] (do_call CGetInfrastructure).

Definition noVCenters : error := Errorf "no vCenters configured in infrastructure spec" [].
Definition noPlatform : error := Errorf "infrastructure spec has no vSphere platform configuration" [].

Definition GetSourceVCenter : IO VCenter :=
  let! infra := GetInfrastructure in
  match infra_VSphere infra with
  | Some v => match vp_VCenters v with vc :: _ => ok vc | [] => fail noVCenters end
  | None => fail noVCenters
  end.

Definition GetSourceFailureDomain : IO FailureDomain :=
  let! infra := GetInfrastructure in
  match infra_VSphere infra with
  | Some v => match vp_FailureDomains v with
              | fd :: _ => ok fd
              | [] => fail (Errorf "no failure domains configured in infrastructure spec" [])
              end
  | None => fail (Errorf "no failure domains configured in infrastructure spec" [])
  end.

Definition GetVCenterByServer (server : string) : IO VCenter :=
  let! infra := GetInfrastructure in
  match infra_VSphere infra with
  | None => fail noVCenters
  | Some v =>
      match List.find (fun vc => String.eqb (vc_Server vc) server) (vp_VCenters v) with
      | Some vc => ok vc
      | None => fail (Errorf "no vCenter entry for server %q in infrastructure spec" [FS server])
      end
  end.

(** The map server -> set of datacenters the failure domains use. *)
Definition addDatacenter (m : gmap string (gset string)) (fd : FailureDomain) : gmap string (gset string) :=
  <[fd_Server fd := {[t_Datacenter (fd_Topology fd)]} ∪ default ∅ (m !! fd_Server fd)]> m.

Definition serverDatacenters (fds : list FailureDomain) : gmap string (gset string) := foldl addDatacenter ∅ fds.

(** The loop over that map; both map walks are in Go's unspecified order. *)
Definition newVCenters (existing : list string) (fds : list FailureDomain) (vcenters : list VCenter) : IO (list VCenter) :=
  let m := serverDatacenters fds in
  let! servers := map_order (elements (dom m)) in
  io_fold servers vcenters (fun vcenters server =>
    if ContainsStr existing server then ok vcenters
    else
      let! datacenters := map_order (elements (default ∅ (m !! server))) in
      ok (vcenters ++ [MkVCenter server 443 datacenters])).

Definition addFailureDomains (existing : list FailureDomain) (fds : list FailureDomain) : list FailureDomain :=
  existing ++ filter (fun fd => fd_Name fd ∉ fd_Name <$> existing) fds.

Definition AddTargetVCenter (ctx : Ctx) (infra : Infrastructure) (failureDomains : list FailureDomain) : IO Infrastructure :=
  match infra_VSphere infra with
  | None => fail noPlatform
  | Some v =>
      let! vcenters := newVCenters (vc_Server <$> vp_VCenters v) failureDomains (vp_VCenters v) in
      let fds := addFailureDomains (vp_FailureDomains v) failureDomains in
      let! _ := Check ctx in
      wrapping "updating infrastructure with target vCenter: %w" []
        (do_call (CUpdateInfrastructure (infra_set_VSphere infra (MkVSpherePlatform vcenters fds))))
  end.

(** The platform section without the source. *)
Definition withoutSource (v : VSpherePlatform) (sourceServer : string) : VSpherePlatform :=
  MkVSpherePlatform (filter (fun vc => vc_Server vc <> sourceServer) (vp_VCenters v))
    (filter (fun fd => fd_Server fd <> sourceServer) (vp_FailureDomains v)).

Definition onlyVCenter (v : VSpherePlatform) (sourceServer : string) : bool :=
  match vp_VCenters v with
  | [vc] => String.eqb (vc_Server vc) sourceServer
  | _ => false
  end.

Definition RemoveSourceVCenter (ctx : Ctx) (infra : Infrastructure) (sourceServer : string) : IO Infrastructure :=
  match infra_VSphere infra with
  | None => fail noPlatform
  | Some v =>
      if onlyVCenter v sourceServer
      then fail (Errorf "refusing to remove the last configured vCenter %q" [FS sourceServer])
      else
        let! _ := Check ctx in
        wrapping "updating infrastructure after removing source vCenter: %w" []
          (do_call (CUpdateInfrastructure (infra_set_VSphere infra (withoutSource v sourceServer))))
  end.

Definition GetInfrastructureID : IO string :=
  let! infra := GetInfrastructure in
  if String.eqb (infra_InfrastructureName infra) "" then fail (Errorf "infrastructure status has no InfrastructureName" [])
  else ok (infra_InfrastructureName infra).

(** ** secrets.go *)

Definition GetVSphereCredsSecret : IO Secret :=
  wrapping "getting vsphere-creds secret: %w" [] (do_call (CGetSecret VSphereCredsSecretNamespace VSphereCredsSecretName)).

Definition usernameKey (server : string) : string := server +:+ credsUsernameSuffix.
Definition passwordKey (server : string) : string := server +:+ credsPasswordSuffix.

Definition withCreds (data : gmap string string) (server username password : string) : gmap string string :=
  <[passwordKey server := password]> (<[usernameKey server := username]> data).

Definition AddTargetVCenterCreds (ctx : Ctx) (secret : Secret) (server username password : string) : IO Secret :=
  match s_Data secret !! usernameKey server with
  | Some _ => ok secret
  | None =>
      let! _ := Check ctx in
      wrapping "updating vsphere-creds secret with target credentials: %w" []
        (do_call (CUpdateSecret (s_Namespace secret) (s_set_Data secret (withCreds (s_Data secret) server username password))))
  end.

Definition withoutCreds (data : gmap string string) (server : string) : gmap string string :=
  delete (passwordKey server) (delete (usernameKey server) data).

Definition RemoveSourceVCenterCreds (ctx : Ctx) (secret : Secret) (server : string) : IO Secret :=
  let! _ := Check ctx in
  wrapping "updating vsphere-creds secret to remove source credentials: %w" []
    (do_call (CUpdateSecret (s_Namespace secret) (s_set_Data secret (withoutCreds (s_Data secret) server)))).

(** The lookup in a secret's data. *)
Definition credsIn (data : gmap string string) (namespace name server : string) : result (string * string) :=
  match data !! usernameKey server with
  | None => Err (Errorf "key %q not found in secret %s/%s" [FS (usernameKey server); FS namespace; FS name])
  | Some username =>
      match data !! passwordKey server with
      | None => Err (Errorf "key %q not found in secret %s/%s" [FS (passwordKey server); FS namespace; FS name])
      | Some password => Ok (username, password)
      end
  end.

Definition GetVCenterCredsFromSecret (namespace name server : string) : IO (string * string) :=
  let! secret := wrapping "getting secret %s/%s: %w" [FS namespace; FS name] (do_call (CGetSecret namespace name)) in
  of_result (credsIn (s_Data secret) namespace name server).

Definition GetCredentials (server : string) : IO (string * string) :=
  GetVCenterCredsFromSecret VSphereCredsSecretNamespace VSphereCredsSecretName server.

(** ** configmaps.go *)

(** [VirtualCenterConfigYAML] and the file of k8s.io/cloud-provider-vsphere, with the fields
    the operator sets; the rest is carried over. *)
Record VirtualCenterConfig := MkVirtualCenterConfig {
  VCenterIP : string;
  VCenterPort : Z;
  InsecureFlag : bool;
  vcc_Datacenters : list string;
  RoundTripperCount : Z;
  IPFamilyPriority : list string;
  vcc_other : string;
}.

Record cloudProviderConfigYAML := MkCloudConfig {
  cc_SecretName : string;
  cc_SecretNamespace : string;
  cc_Global : string;
  cc_Vcenter : gmap string VirtualCenterConfig;
  cc_Labels : string;
}.

(** gopkg.in/yaml.v2 on that type. *)
Class CloudCodec := {
  UnmarshalYAML : string -> result cloudProviderConfigYAML;
  MarshalYAML : cloudProviderConfigYAML -> result string;
}.

Class CloudCodecLaws `{CloudCodec} := {
  unmarshal_yaml c s : MarshalYAML c = Ok s -> UnmarshalYAML s = Ok c;
}.

Section ConfigMaps.
Context `{CloudCodec}.

Definition GetCloudProviderConfig : IO ConfigMap :=
  wrapping "getting cloud-provider-config ConfigMap: %w" []
    (do_call (CGetConfigMap CloudProviderConfigMapNamespace CloudProviderConfigMapName)).

(** The secret reference is filled in only when both parts are empty. *)
Definition withSecretRef (c : cloudProviderConfigYAML) : cloudProviderConfigYAML :=
  if String.eqb (cc_SecretName c) "" && String.eqb (cc_SecretNamespace c) ""
  then MkCloudConfig VSphereCredsSecretName VSphereCredsSecretNamespace (cc_Global c) (cc_Vcenter c) (cc_Labels c) else c.

Definition parseCloudProviderConfig (cm : ConfigMap) : result cloudProviderConfigYAML :=
  match cm_Data cm !! cloudProviderConfigKey with
  | None => Err (Errorf "key %q not found in cloud-provider-config ConfigMap" [FS cloudProviderConfigKey])
  | Some raw =>
      let? cfg := wrapf "unmarshalling cloud-provider-config: %w" [] (UnmarshalYAML raw) in
      Ok (withSecretRef cfg)
  end.

Definition set_Vcenter (c : cloudProviderConfigYAML) (v : gmap string VirtualCenterConfig) : cloudProviderConfigYAML :=
  MkCloudConfig (cc_SecretName c) (cc_SecretNamespace c) (cc_Global c) v (cc_Labels c).

Definition marshalAndUpdateConfig (ctx : Ctx) (cm : ConfigMap) (cfg : cloudProviderConfigYAML) : IO ConfigMap :=
  let! data := of_result (wrapf "marshalling cloud-provider-config: %w" [] (MarshalYAML cfg)) in
  let cm := MkConfigMap (cm_Namespace cm) (cm_Name cm) (<[cloudProviderConfigKey := data]> (cm_Data cm)) in
  let! _ := Check ctx in
  wrapping "updating cloud-provider-config ConfigMap: %w" [] (do_call (CUpdateConfigMap (cm_Namespace cm) cm)).

Definition newVCenterConfig (server : string) (datacenters : list string) : VirtualCenterConfig :=
  MkVirtualCenterConfig server 443 true datacenters 0 [] "".

Definition addVCenterConfigs (fds : list FailureDomain) (vcenter : gmap string VirtualCenterConfig)
    : IO (gmap string VirtualCenterConfig) :=
  let m := serverDatacenters fds in
  let! servers := map_order (elements (dom m)) in
  io_fold servers vcenter (fun vcenter server =>
    match vcenter !! server with
    | Some _ => ok vcenter
    | None =>
        let! datacenters := map_order (elements (default ∅ (m !! server))) in
        ok (<[server := newVCenterConfig server datacenters]> vcenter)
    end).

Definition AddTargetVCenterToConfig (ctx : Ctx) (cm : ConfigMap) (failureDomains : list FailureDomain) : IO ConfigMap :=
  let! cfg := of_result (parseCloudProviderConfig cm) in
  let! vcenter := addVCenterConfigs failureDomains (cc_Vcenter cfg) in
  wrapping "updating cloud-provider-config after adding target vCenter: %w" []
    (marshalAndUpdateConfig ctx cm (set_Vcenter cfg vcenter)).

Definition RemoveSourceVCenterFromConfig (ctx : Ctx) (cm : ConfigMap) (sourceServer : string) : IO ConfigMap :=
  let! cfg := of_result (parseCloudProviderConfig cm) in
  wrapping "updating cloud-provider-config after removing source vCenter: %w" []
    (marshalAndUpdateConfig ctx cm (set_Vcenter cfg (delete sourceServer (cc_Vcenter cfg)))).

End ConfigMaps.

(** ** The gate *)

Section InfrastructureGated.
Context `{CloudCodec} (m0 m : Migration) (ctx : Ctx).

Lemma quiet_GetInfrastructure : quiet GetInfrastructure.
Proof. unfold GetInfrastructure. quiet_auto. Qed.
#[local] Hint Resolve quiet_GetInfrastructure : quiet.
Lemma quiet_GetSourceVCenter : quiet GetSourceVCenter.
Proof. unfold GetSourceVCenter. quiet_auto. Qed.
Lemma quiet_GetSourceFailureDomain : quiet GetSourceFailureDomain.
Proof. unfold GetSourceFailureDomain. quiet_auto. Qed.
Lemma quiet_GetVCenterByServer s : quiet (GetVCenterByServer s).
Proof. unfold GetVCenterByServer. quiet_auto. Qed.
Lemma quiet_GetInfrastructureID : quiet GetInfrastructureID.
Proof. unfold GetInfrastructureID. quiet_auto. Qed.
Lemma quiet_newVCenters e f v : quiet (newVCenters e f v).
Proof. unfold newVCenters. quiet_auto. Qed.
Lemma quiet_GetCredsSecret : quiet GetVSphereCredsSecret.
Proof. unfold GetVSphereCredsSecret. quiet_auto. Qed.
Lemma quiet_CredsFromSecret a b c : quiet (GetVCenterCredsFromSecret a b c).
Proof. unfold GetVCenterCredsFromSecret. quiet_auto. Qed.
Lemma quiet_GetCredentials c : quiet (GetCredentials c).
Proof. apply quiet_CredsFromSecret. Qed.
Lemma quiet_GetCloudConfig : quiet GetCloudProviderConfig.
Proof. unfold GetCloudProviderConfig. quiet_auto. Qed.
Lemma quiet_addConfigs f v : quiet (addVCenterConfigs f v).
Proof. unfold addVCenterConfigs. quiet_auto. Qed.
#[local] Hint Resolve quiet_newVCenters quiet_addConfigs : quiet.

Context (Hctx : ctx_check ctx = Some m) (Hm : same_identity m m0).

Lemma gated_AddTargetVCenter i f : gated m0 (AddTargetVCenter ctx i f).
Proof. unfold AddTargetVCenter. gate_auto. Qed.
Lemma gated_RemoveSourceVCenter i f : gated m0 (RemoveSourceVCenter ctx i f).
Proof. unfold RemoveSourceVCenter. gate_auto. Qed.
Lemma gated_AddCreds a b c d : gated m0 (AddTargetVCenterCreds ctx a b c d).
Proof. unfold AddTargetVCenterCreds. gate_auto. Qed.
Lemma gated_RemoveCreds a b : gated m0 (RemoveSourceVCenterCreds ctx a b).
Proof. unfold RemoveSourceVCenterCreds. gate_auto. Qed.
Lemma gated_AddConfig a b : gated m0 (AddTargetVCenterToConfig ctx a b).
Proof. unfold AddTargetVCenterToConfig, marshalAndUpdateConfig. gate_auto. Qed.
Lemma gated_RemoveConfig a b : gated m0 (RemoveSourceVCenterFromConfig ctx a b).
Proof. unfold RemoveSourceVCenterFromConfig, marshalAndUpdateConfig. gate_auto. Qed.

End InfrastructureGated.

#[export] Hint Resolve quiet_GetInfrastructure quiet_GetSourceVCenter quiet_GetSourceFailureDomain quiet_GetVCenterByServer
  quiet_GetInfrastructureID quiet_newVCenters quiet_GetCredsSecret quiet_CredsFromSecret quiet_GetCredentials quiet_GetCloudConfig
  quiet_addConfigs : quiet.
#[export] Hint Resolve gated_AddTargetVCenter gated_RemoveSourceVCenter gated_AddCreds gated_RemoveCreds gated_AddConfig
  gated_RemoveConfig : gated.

(** ** Facts *)

Lemma serverDatacenters_dc_from fds m s dc :
  dc ∈ default ∅ (foldl addDatacenter m fds !! s) <->
  dc ∈ default ∅ (m !! s) \/ exists fd, fd ∈ fds /\ fd_Server fd = s /\ t_Datacenter (fd_Topology fd) = dc.
Proof.
  revert m; induction fds as [|fd fds IH]; intros m; cbn [foldl].
  - split; [by left|]. intros [?|(fd & Hin & _)]; [done|by apply not_elem_of_nil in Hin].
  - rewrite IH. unfold addDatacenter at 1. destruct (decide (fd_Server fd = s)) as [<-|Hne].
    + rewrite lookup_insert_eq. cbn. rewrite elem_of_union, elem_of_singleton. split.
      * intros [[->|?]|(x & ? & ?)]; [right; exists fd; split; [by left|done]|by left|right; exists x; split; [by right|done]].
      * intros [?|(x & [->|Hx]%elem_of_cons & Hs & Hd)]; [auto|left; left; done|right; eauto].
    + rewrite lookup_insert_ne by done. split.
      * intros [?|(x & ? & ?)]; [by left|right; exists x; split; [by right|done]].
      * intros [?|(x & [->|Hx]%elem_of_cons & Hs & Hd)]; [auto|done|right; eauto].
Qed.

Lemma serverDatacenters_dc fds s dc :
  dc ∈ default ∅ (serverDatacenters fds !! s) <-> exists fd, fd ∈ fds /\ fd_Server fd = s /\ t_Datacenter (fd_Topology fd) = dc.
Proof.
  unfold serverDatacenters. rewrite serverDatacenters_dc_from, lookup_empty. cbn. split; [|auto].
  intros [?|?]; [by apply not_elem_of_empty in H|done].
Qed.

Lemma serverDatacenters_dom_from fds m s : s ∈ dom (foldl addDatacenter m fds) <-> s ∈ dom m \/ s ∈ fd_Server <$> fds.
Proof.
  revert m; induction fds as [|fd fds IH]; intros m; cbn [foldl].
  - cbn. rewrite elem_of_nil. tauto.
  - rewrite IH. unfold addDatacenter. rewrite dom_insert, elem_of_union, elem_of_singleton, fmap_cons, elem_of_cons. tauto.
Qed.

Lemma serverDatacenters_dom fds s : s ∈ dom (serverDatacenters fds) <-> s ∈ fd_Server <$> fds.
Proof. unfold serverDatacenters. rewrite serverDatacenters_dom_from, dom_empty. split; [|auto]. intros [H|?]; [by apply not_elem_of_empty in H|done]. Qed.

(** What [newVCenters] adds, whatever order Go walks its maps in. *)
Definition vcenters_for (existing : list string) (fds : list FailureDomain) (news : list VCenter) : Prop :=
  NoDup (vc_Server <$> news) /\
  (forall s, s ∈ vc_Server <$> news <-> s ∈ fd_Server <$> fds /\ s ∉ existing) /\
  (forall vc, vc ∈ news -> forall dc, dc ∈ vc_Datacenters vc <->
     exists fd, fd ∈ fds /\ fd_Server fd = vc_Server vc /\ t_Datacenter (fd_Topology fd) = dc).

Lemma wp_map_order {P : call -> Prop} ks (Q : result (list string) -> unit -> Prop) :
  P (CRange ks) -> (forall l, l ≡ₚ ks -> Q (Ok l) tt) -> wp (@only P) (map_order ks) Q tt.
Proof. intros HP HQ. unfold map_order. repeat wp_step; [done|]. intros r _. apply HQ. by case_decide. Qed.

Lemma wp_newVCenters {P : call -> Prop} existing fds vcenters (Q : result (list VCenter) -> unit -> Prop) :
  (forall ks, P (CRange ks)) ->
  (forall news, vcenters_for existing fds news -> Q (Ok (vcenters ++ news)) tt) ->
  wp (@only P) (newVCenters existing fds vcenters) Q tt.
Proof.
  intros HP HQ. unfold newVCenters. repeat wp_step. apply wp_map_order; [done|]. intros servers Hs. cbv beta iota.
  assert (NoDup servers) as Hnd by (rewrite Hs; apply NoDup_elements).
  apply (wp_io_fold _ _ _ _ (fun done v _ => exists news, v = vcenters ++ news /\ vc_Server <$> news = filter (fun s => s ∉ existing) done /\
    (forall vc, vc ∈ news -> forall dc, dc ∈ vc_Datacenters vc <->
     exists fd, fd ∈ fds /\ fd_Server fd = vc_Server vc /\ t_Datacenter (fd_Topology fd) = dc))).
  - exists []. split_and!; [by rewrite app_nil_r|done|]. intros vc Hvc. by apply not_elem_of_nil in Hvc.
  - intros done s rest v [] Heq (news & -> & Hn & Hdc). destruct (ContainsStr existing s) eqn:E.
    + apply ContainsStr_spec in E. cbn. exists news. split_and!; [done| |done]. rewrite filter_app, filter_cons_False, app_nil_r by auto. done.
    + assert (s ∉ existing) as Hne by (intros Hc%ContainsStr_spec; congruence).
      repeat wp_step. apply wp_map_order; [done|]. intros dcs Hd. cbn. exists (news ++ [MkVCenter s 443 dcs]). split_and!.
      * by rewrite app_assoc.
      * rewrite fmap_app, Hn, filter_app, filter_cons_True by done. done.
      * intros vc [Hvc|Hvc%list_elem_of_singleton]%elem_of_app; [by apply Hdc|]. subst vc. cbn. intros dc.
        rewrite Hd, elem_of_elements. apply serverDatacenters_dc.
  - intros v [] (news & -> & Hn & Hdc). apply HQ. split_and!; [|intros s|done]; rewrite Hn.
    + by apply NoDup_filter.
    + rewrite list_elem_of_filter, Hs, elem_of_elements, serverDatacenters_dom. tauto.
Qed.

Lemma username_password_ne a b : usernameKey a <> passwordKey b.
Proof.
  unfold usernameKey, passwordKey, credsUsernameSuffix, credsPasswordSuffix. intros Heq.
  assert (String.length a = String.length b) as Hl.
  { apply (f_equal String.length) in Heq. rewrite !length_append in Heq. cbn in Heq. lia. }
  revert b Heq Hl. induction a as [|x a IH]; intros [|y b] Heq Hl; cbn in *; try lia; [done|].
  injection Heq as _ Heq. injection Hl as Hl. by apply (IH b).
Qed.

#[global] Instance suffix_inj suffix : Inj (=) (=) (fun s => s +:+ suffix).
Proof.
  intros a b Heq. assert (String.length a = String.length b) as Hl.
  { apply (f_equal String.length) in Heq. rewrite !length_append in Heq. lia. }
  revert b Heq Hl. induction a as [|x a IH]; intros [|y b] Heq Hl; cbn in *; try lia; [done|].
  injection Heq as -> Heq. injection Hl as Hl. f_equal. by apply IH.
Qed.

Lemma usernameKey_ne a b : a <> b -> usernameKey a <> usernameKey b.
Proof. intros Hne Heq. apply Hne. by apply (inj (fun s => s +:+ credsUsernameSuffix)). Qed.
Lemma passwordKey_ne a b : a <> b -> passwordKey a <> passwordKey b.
Proof. intros Hne Heq. apply Hne. by apply (inj (fun s => s +:+ credsPasswordSuffix)). Qed.

(** ** Properties *)

(** What an infrastructure update that adds targets may submit. *)
Definition adds_targets (v : VSpherePlatform) (fds : list FailureDomain) (new : VSpherePlatform) : Prop :=
  (exists news, vp_VCenters new = vp_VCenters v ++ news /\ vcenters_for (vc_Server <$> vp_VCenters v) fds news) /\
  vp_FailureDomains v `prefix_of` vp_FailureDomains new /\
  (forall fd, fd ∈ fds -> fd_Name fd ∈ fd_Name <$> vp_FailureDomains new) /\
  (forall fd, fd ∈ vp_FailureDomains new -> fd ∈ vp_FailureDomains v \/ fd ∈ fds).

(** C21: adding the target keeps every vCenter and failure domain the cluster has, in place,
    adds each missing target server once with exactly the datacenters its failure domains
    use, registers every target failure domain, and changes nothing else. *)
Theorem AddTargetVCenter_extends (ctx : Ctx) (infra : Infrastructure) (fds : list FailureDomain) :
  only_calls (fun c => mutating c = true -> exists v new, infra_VSphere infra = Some v /\
      c = CUpdateInfrastructure (infra_set_VSphere infra new) /\ adds_targets v fds new)
    (AddTargetVCenter ctx infra fds).
Proof.
  unfold only_calls, AddTargetVCenter. destruct (infra_VSphere infra) as [v|]; [|done]. repeat wp_step.
  apply wp_newVCenters; [done|]. intros news Hnews. cbv beta iota. repeat wp_step. apply wp_Check; try done.
  intros [[]|e]; [|done]. repeat wp_step; [|by intros []]. intros _. exists v. eexists. split_and!; [done|done|].
  split_and!; cbn.
  - by exists news.
  - unfold addFailureDomains. by apply prefix_app_r.
  - intros fd Hfd. unfold addFailureDomains. rewrite fmap_app, elem_of_app.
    destruct (decide (fd_Name fd ∈ fd_Name <$> vp_FailureDomains v)); [by left|right].
    apply list_elem_of_fmap_2. by apply list_elem_of_filter.
  - intros fd. unfold addFailureDomains. rewrite elem_of_app, list_elem_of_filter. tauto.
Qed.

(** C20: removing the source leaves no vCenter and no failure domain of that server, keeps all
    others in order, and never leaves the cluster without a vCenter when its servers are
    distinct. *)
Theorem RemoveSourceVCenter_safe (ctx : Ctx) (infra : Infrastructure) (server : string) :
  only_calls (fun c => mutating c = true -> exists v new, infra_VSphere infra = Some v /\
      c = CUpdateInfrastructure (infra_set_VSphere infra new) /\
      vp_VCenters new = filter (fun vc => vc_Server vc <> server) (vp_VCenters v) /\
      vp_FailureDomains new = filter (fun fd => fd_Server fd <> server) (vp_FailureDomains v) /\
      (NoDup (vc_Server <$> vp_VCenters v) -> vp_VCenters v <> [] -> vp_VCenters new <> []))
    (RemoveSourceVCenter ctx infra server).
Proof.
  unfold only_calls, RemoveSourceVCenter. destruct (infra_VSphere infra) as [v|]; [|done]. repeat wp_step; [done|].
  apply wp_Check; try done. intros [[]|e]; [|done]. repeat wp_step; [|by intros []]. intros _.
  exists v, (withoutSource v server). split_and!; try done. cbn. intros Hnd Hne.
  destruct (vp_VCenters v) as [|a [|b l]] eqn:E; [done| |].
  - unfold onlyVCenter in *. rewrite E in *. reflect_bools. by rewrite filter_cons_True.
  - rewrite !fmap_cons, NoDup_cons, not_elem_of_cons in Hnd. destruct Hnd as [[Hab _] _].
    destruct (decide (vc_Server a = server)); [|by rewrite filter_cons_True].
    rewrite filter_cons_False by auto. rewrite filter_cons_True by congruence. done.
Qed.

(** C23: credentials are kept apart by server: what is stored for a server is read back, and
    neither storing nor removing one server's credentials changes what any other server
    reads; after a removal there is nothing to read. *)
Theorem credentials_isolated (data : gmap string string) (server other username password ns name : string) :
  credsIn (withCreds data server username password) ns name server = Ok (username, password) /\
  is_ok (credsIn (withoutCreds data server) ns name server) = false /\
  (other <> server ->
     credsIn (withCreds data server username password) ns name other = credsIn data ns name other /\
     credsIn (withoutCreds data server) ns name other = credsIn data ns name other).
Proof.
  unfold credsIn, withCreds, withoutCreds.
  pose proof (username_password_ne server server). pose proof (username_password_ne other server). pose proof (username_password_ne server other).
  split_and!.
  - by rewrite lookup_insert_ne, !lookup_insert_eq by auto.
  - by rewrite lookup_delete_ne, lookup_delete_eq by auto.
  - intros Hne. pose proof (usernameKey_ne _ _ Hne). pose proof (passwordKey_ne _ _ Hne).
    rewrite !lookup_insert_ne, !lookup_delete_ne by auto. done.
Qed.

Lemma credentials_isolated_witness :
  credsIn (withoutCreds {[ "new.username" := "u"; "new.password" := "p"; "old.username" := "x"; "old.password" := "y" ]} "old") "ns" "n" "new"
  = credsIn {[ "new.username" := "u"; "new.password" := "p"; "old.username" := "x"; "old.password" := "y" ]} "ns" "n" "new".
Proof. apply (credentials_isolated _ "old" "new" "" "" "ns" "n"). done. Defined.

(** C22: the cloud provider configuration keeps every entry it had: adding the targets adds an
    entry for each missing target server and alters no other, removing the source drops
    exactly its entry; what is stored parses back to that configuration, and a configuration
    without a secret reference gets the operator's. *)
Theorem cloud_config_preserved `{CloudCodecLaws} (ctx : Ctx) (cm : ConfigMap) (fds : list FailureDomain) (server : string) (cfg : cloudProviderConfigYAML) :
  parseCloudProviderConfig cm = Ok cfg ->
  only_calls (fun c => mutating c = true -> exists ns cm' cfg', c = CUpdateConfigMap ns cm' /\ parseCloudProviderConfig cm' = Ok cfg' /\
      cc_SecretName cfg' = cc_SecretName cfg /\
      (forall s e, cc_Vcenter cfg !! s = Some e -> cc_Vcenter cfg' !! s = Some e) /\
      (forall s, is_Some (cc_Vcenter cfg' !! s) <-> is_Some (cc_Vcenter cfg !! s) \/ s ∈ fd_Server <$> fds))
    (AddTargetVCenterToConfig ctx cm fds) /\
  only_calls (fun c => mutating c = true -> exists ns cm' cfg', c = CUpdateConfigMap ns cm' /\ parseCloudProviderConfig cm' = Ok cfg' /\
      cc_SecretName cfg' = cc_SecretName cfg /\ cc_Vcenter cfg' = delete server (cc_Vcenter cfg))
    (RemoveSourceVCenterFromConfig ctx cm server).
Proof.
  intros Hparse.
  assert (forall (Q : call -> Prop) v, (forall c, mutating c = false -> Q c) ->
    (forall ns cm', parseCloudProviderConfig cm' = Ok (set_Vcenter cfg v) -> Q (CUpdateConfigMap ns cm')) ->
    wp (@only Q) (marshalAndUpdateConfig ctx cm (set_Vcenter cfg v)) (fun _ _ => True) tt) as Hmarshal.
  { intros Q v HQ HQ'. unfold marshalAndUpdateConfig. repeat wp_step; [|done]. apply wp_Check; try done; [by intros; apply HQ|].
    intros [[]|e]; [|done]. repeat wp_step; [|by intros []]. apply HQ'. unfold parseCloudProviderConfig; cbn. rewrite lookup_insert_eq.
    destruct (MarshalYAML _) as [raw|] eqn:E; [|done]. simplify_eq/=. rewrite (unmarshal_yaml _ _ E). cbn. f_equal.
    unfold parseCloudProviderConfig in Hparse. destruct (_ !! _); [|done]. destruct (UnmarshalYAML _) as [c0|]; [|done]. cbn in Hparse.
    injection Hparse as <-. unfold withSecretRef. destruct c0 as [n ns' g vv l]; cbn.
    destruct (String.eqb n "" && String.eqb ns' "") eqn:Ee; cbn; [done|by rewrite Ee]. }
  split; unfold only_calls.
  - unfold AddTargetVCenterToConfig. rewrite Hparse. repeat wp_step. unfold addVCenterConfigs. repeat wp_step.
    apply wp_map_order; [done|]. intros servers Hs. cbv beta iota.
    apply (wp_io_fold _ _ _ _ (fun done v _ => (forall s e, cc_Vcenter cfg !! s = Some e -> v !! s = Some e) /\
      (forall s, is_Some (v !! s) <-> is_Some (cc_Vcenter cfg !! s) \/ s ∈ done))).
    + split; [done|]. intros s. rewrite elem_of_nil. tauto.
    + intros done s rest v [] _ [Hk Hd]. destruct (v !! s) as [e|] eqn:E.
      * cbn. split; [done|]. intros s'. rewrite Hd, elem_of_app, list_elem_of_singleton. split; [tauto|].
        intros [?|[?| ->]]; [auto|auto|]. apply Hd. by exists e.
      * repeat wp_step. apply wp_map_order; [done|]. intros dcs _. cbn. split.
        -- intros s' e He. rewrite lookup_insert_ne; [by apply Hk|]. intros ->. rewrite (Hk _ _ He) in E. done.
        -- intros s'. rewrite elem_of_app, list_elem_of_singleton. destruct (decide (s = s')) as [->|Hne].
           ++ rewrite lookup_insert_eq. split; [auto|by eexists].
           ++ rewrite lookup_insert_ne by done. rewrite Hd. split; [tauto|]. intros [?|[?|?]]; auto. congruence.
    + intros v [] [Hk Hd]. cbv beta iota. repeat wp_step. apply Hmarshal; [congruence|]. intros ns cm' Hp _. exists ns, cm', (set_Vcenter cfg v).
      split_and!; [done|done|done|done|]. intros s. cbn. rewrite Hd, Hs, elem_of_elements, serverDatacenters_dom. done.
  - unfold RemoveSourceVCenterFromConfig. rewrite Hparse. repeat wp_step. apply Hmarshal; [congruence|].
    intros ns cm' Hp _. exists ns, cm'. eexists. split_and!; [done|exact Hp|done|done].
Qed.

(** ** A concrete configuration codec, for the example *)

Fixpoint pos_bits (p : positive) : string :=
  match p with
  | xH => "1"
  | xO q => String "a"%char (pos_bits q)
  | xI q => String "b"%char (pos_bits q)
  end.

Fixpoint bits_pos (s : string) : option positive :=
  match s with
  | String "1"%char EmptyString => Some xH
  | String "a"%char s' => xO <$> bits_pos s'
  | String "b"%char s' => xI <$> bits_pos s'
  | _ => None
  end.

Lemma bits_pos_bits p : bits_pos (pos_bits p) = Some p.
Proof. induction p as [p IH|p IH|]; cbn; [by rewrite IH..|done]. Qed.

#[global] Instance VirtualCenterConfig_eq_dec : EqDecision VirtualCenterConfig.
Proof. solve_decision. Defined.
#[global] Instance VirtualCenterConfig_countable : Countable VirtualCenterConfig.
Proof.
  refine (inj_countable' (fun c => (VCenterIP c, VCenterPort c, InsecureFlag c, vcc_Datacenters c, RoundTripperCount c, IPFamilyPriority c, vcc_other c))
    (fun '(a, b, c, d, e, f, g) => MkVirtualCenterConfig a b c d e f g) _). by intros [].
Defined.
#[global] Instance cloudProviderConfigYAML_eq_dec : EqDecision cloudProviderConfigYAML.
Proof. solve_decision. Defined.
#[global] Instance cloudProviderConfigYAML_countable : Countable cloudProviderConfigYAML.
Proof.
  refine (inj_countable' (fun c => (cc_SecretName c, cc_SecretNamespace c, cc_Global c, cc_Vcenter c, cc_Labels c))
    (fun '(a, b, c, d, e) => MkCloudConfig a b c d e) _). by intros [].
Defined.

#[global] Instance example_cloud_codec : CloudCodec := {
  MarshalYAML c := Ok (pos_bits (encode c));
  UnmarshalYAML s := match bits_pos s ≫= decode with Some c => Ok c | None => Err (Errorf "invalid configuration" []) end;
}.

#[global] Instance example_cloud_codec_laws : CloudCodecLaws.
Proof. split. intros c s [= <-]. cbn [UnmarshalYAML example_cloud_codec]. rewrite bits_pos_bits. cbn. by rewrite decode_encode. Qed.

Lemma cloud_config_preserved_witness :
  let cfg := MkCloudConfig "s" "n" "" {[ "old" := newVCenterConfig "old" ["dc1"] ]} "" in
  let cm := MkConfigMap "openshift-config" "cloud-provider-config" {[ "config" := pos_bits (encode cfg) ]} in
  only_calls (fun c => mutating c = true -> exists ns cm' cfg', c = CUpdateConfigMap ns cm' /\ parseCloudProviderConfig cm' = Ok cfg' /\
      cc_SecretName cfg' = cc_SecretName cfg /\ cc_Vcenter cfg' = delete "old" (cc_Vcenter cfg))
    (RemoveSourceVCenterFromConfig Background cm "old").
Proof.
  intros cfg cm. apply (cloud_config_preserved Background cm [] "old" cfg).
  unfold parseCloudProviderConfig, cm. cbn [cm_Data]. rewrite lookup_singleton_eq.
  cbn [UnmarshalYAML example_cloud_codec]. rewrite bits_pos_bits. cbn [mbind option_bind]. by rewrite decode_encode.
Defined.
