(* ===== verification/Codec.v ===== *)
(** * The provider spec codec

    [ProviderCodec] stands for the JSON form of a type of github.com/openshift/api.  The
    concrete instance shows that its law can hold; the examples of the development run
    with it. *)

From S2P Require Import Prelude GoErrors Objects.

(** The JSON form of [VSphereMachineProviderSpec]. *)
Class ProviderCodec := {
  UnmarshalProviderSpec : string -> result ProviderSpec;
  MarshalProviderSpec : ProviderSpec -> result string;
}.

(** What is relied on: what was marshalled unmarshals to itself. *)
Class ProviderCodecLaws `{ProviderCodec} := {
  unmarshal_marshal p s : MarshalProviderSpec p = Ok s -> UnmarshalProviderSpec s = Ok p;
}.

(** ** A concrete codec *)

(** Text as length-free tokens: each byte of a field is preceded by a 1, a field ends in 0. *)
Fixpoint put (s : string) (k : string) : string :=
  match s with
  | EmptyString => String "0"%char k
  | String c s' => String "1"%char (String c (put s' k))
  end.

Fixpoint take_field (s : string) : option (string * string) :=
  match s with
  | String "0"%char k => Some ("", k)
  | String "1"%char (String c s') => match take_field s' with
                                     | Some (f, k) => Some (String c f, k)
                                     | None => None
                                     end
  | _ => None
  end.

Lemma take_put s k : take_field (put s k) = Some (s, k).
Proof. induction s as [|c s IH]; [done|]. cbn. by rewrite IH. Qed.

Fixpoint put_list (l : list string) : string :=
  match l with
  | [] => "0"
  | s :: l' => String "1"%char (put s (put_list l'))
  end.

Fixpoint take_list (fuel : nat) (s : string) : option (list string) :=
  match fuel with
  | O => None
  | S n => match s with
           | String "0"%char EmptyString => Some []
           | String "1"%char k => match take_field k with
                                  | Some (f, k') => (f ::.) <$> take_list n k'
                                  | None => None
                                  end
           | _ => None
           end
  end.

Lemma length_put s k : String.length k < String.length (put s k).
Proof. induction s; cbn in *; lia. Qed.

Lemma take_put_list l n : String.length (put_list l) <= n -> take_list n (put_list l) = Some l.
Proof.
  revert n; induction l as [|s l IH]; intros [|n] Hn; cbn in Hn; try lia; [done|].
  cbn. rewrite take_put, IH; [done|]. pose proof (length_put s (put_list l)). lia.
Qed.

Fixpoint device_fields (ds : list NetworkDevice) : list string :=
  match ds with
  | [] => []
  | d :: rest => nd_NetworkName d :: nd_other d :: device_fields rest
  end.

Definition fields_of (p : ProviderSpec) : list string :=
  match ps_Workspace p with
  | None => ["none"]
  | Some w => ["some"; ws_Server w; ws_Datacenter w; ws_Folder w; ws_Datastore w; ws_ResourcePool w; ws_VMGroup w]
  end ++ [ps_Template p; ps_other p] ++ device_fields (ps_Devices p).

Fixpoint devices_of (l : list string) : option (list NetworkDevice) :=
  match l with
  | [] => Some []
  | a :: b :: rest => (MkNetworkDevice a b ::.) <$> devices_of rest
  | _ => None
  end.

Definition of_fields (l : list string) : option ProviderSpec :=
  match l with
  | "none" :: t :: o :: rest => (fun d => MkProviderSpec None t d o) <$> devices_of rest
  | "some" :: a :: b :: c :: d :: e :: g :: t :: o :: rest =>
      (fun ds => MkProviderSpec (Some (MkWorkspace a b c d e g)) t ds o) <$> devices_of rest
  | _ => None
  end.

Lemma devices_of_fields ds :
  devices_of (device_fields ds) = Some ds.
Proof. induction ds as [|[a b] ds IH]; [done|]. cbn. by rewrite IH. Qed.

Lemma of_fields_of p : of_fields (fields_of p) = Some p.
Proof.
  destruct p as [w t ds o]. unfold fields_of. cbn [ps_Workspace ps_Template ps_Devices ps_other].
  pose proof (devices_of_fields ds) as H. revert H. generalize (device_fields ds).
  intros l H. destruct w as [[]|]; cbn; by rewrite H.
Qed.

#[global] Instance example_codec : ProviderCodec := {
  MarshalProviderSpec p := Ok (put_list (fields_of p));
  UnmarshalProviderSpec s :=
    match take_list (String.length s) s ≫= of_fields with
    | Some p => Ok p
    | None => Err (Errorf "invalid provider spec" [])
    end;
}.

#[global] Instance example_codec_laws : ProviderCodecLaws.
Proof.
  split. intros p s [= <-]. cbn [UnmarshalProviderSpec example_codec].
  rewrite take_put_list by done. cbn [option_bind mbind]. by rewrite of_fields_of.
Qed.

