(* ===== verification/Machines.v ===== *)
(** * MachineSets, Machines and the control plane (internal/openshift/machines.go)

    [MachineManager]: the destination MachineSet built from a source one, the lookups that
    decide which MachineSets belong to the source, scaling and deletion, the control plane
    machine set, and the readiness and deletion checks. *)

From S2P Require Import Prelude GoErrors Objects Types Effects Execution Codec.
Import GoStr.

Definition MachineAPINamespace := "openshift-machine-api".
Definition SourceMachineSetAnnotation := "migration.openshift.io/source-machineset".
Definition LegacyAggregateAnnotation := "migration.openshift.io/legacy-aggregate".
Definition LegacyAggregateAnnotationValue := "true".
Definition machineSetLabelKey := "machine.openshift.io/cluster-api-machineset".
Definition machineRoleLabelKey := "machine.openshift.io/cluster-api-machine-role".
Definition machinePhaseRunning := "Running".
Definition PhaseFailed := "Failed".
Definition cpmsConditionDegraded := "Degraded".
Definition cpmsConditionError := "Error".
Definition cpmsReasonUnmanagedNodes := "UnmanagedNodes".
Definition ControlPlaneMachineSetStateActive := "Active".
Definition RollingUpdate := "RollingUpdate".
Definition VSpherePlatformType := "VSphere".

(** ** Pure helpers *)

(** A nil replica count defaults to 1. *)
Definition machineSetDesiredReplicas (ms : MachineSet) : Z :=
  match ms_Replicas ms with None => 1 | Some r => r end.

(** [ms.Spec.Replicas == nil || *ms.Spec.Replicas > 0]. *)
Definition hasRunningReplicas (ms : MachineSet) : bool :=
  match ms_Replicas ms with None => true | Some r => (0 <? r)%Z end.

Definition annotation (ms : MachineSet) (key : string) : string := default "" (ms_Annotations ms !! key).

Definition EffectiveResourcePool (fd : FailureDomain) : string :=
  if negb (String.eqb (t_ResourcePool (fd_Topology fd)) "") then t_ResourcePool (fd_Topology fd)
  else if negb (String.eqb (t_ComputeCluster (fd_Topology fd)) "")
  then PathJoin (t_ComputeCluster (fd_Topology fd)) "Resources"
  else "".

Section Machines.
Context `{ProviderCodec}.

Definition ExtractVSphereProviderSpec (ms : MachineSet) : result ProviderSpec :=
  match ms_ProviderSpec ms with
  | NoValue => Err (Errorf "machineset %q has no provider spec" [FS (ms_Name ms)])
  | NoRaw => Err (Errorf "machineset %q provider spec has no raw value" [FS (ms_Name ms)])
  | Raw json => wrapf "unmarshalling provider spec from machineset %q: %w" [FS (ms_Name ms)] (UnmarshalProviderSpec json)
  end.

(** The server a MachineSet's machines run on, as far as its provider spec tells. *)
Definition workspaceServer (ms : MachineSet) : option string :=
  match ExtractVSphereProviderSpec ms with
  | Ok p => ws_Server <$> ps_Workspace p
  | Err _ => None
  end.

(** [providerSpec.Workspace == nil || providerSpec.Workspace.Server != server]. *)
Definition targetsOtherServer (p : ProviderSpec) (server : string) : bool :=
  match ps_Workspace p with
  | None => true
  | Some w => negb (String.eqb (ws_Server w) server)
  end.

(** The provider spec of the copy: the source's with the topology of the destination.  The VM
    group of the workspace is the only field of it that is kept. *)
Definition retargetProviderSpec (p : ProviderSpec) (fd : FailureDomain) (infraID : string) : ProviderSpec :=
  let t := fd_Topology fd in
  let folder := if negb (String.eqb (t_Folder t) "") then t_Folder t
                else Sprintf "/%s/vm/%s" [RStr (t_Datacenter t); RStr infraID] in
  MkProviderSpec
    (Some (MkWorkspace (fd_Server fd) (t_Datacenter t) folder (t_Datastore t) (t_ResourcePool t)
            (match ps_Workspace p with Some w => ws_VMGroup w | None => "" end)))
    (if negb (String.eqb (t_Template t) "") then t_Template t else ps_Template p)
    (match t_Networks t with
     | [] => ps_Devices p
     | networkName :: _ =>
         [MkNetworkDevice (if Contains networkName "/" then PathBase networkName else networkName) ""]
     end)
    (ps_other p).

Definition updateMachineSetProviderSpec (ms : MachineSet) (fd : FailureDomain) (infraID : string) : result MachineSet :=
  match ms_ProviderSpec ms with
  | NoValue => Err (Errorf "machineset %q has no provider spec" [FS (ms_Name ms)])
  | NoRaw => Err (Errorf "machineset %q provider spec has no raw value" [FS (ms_Name ms)])
  | Raw json =>
      let? providerSpec := wrapf "unmarshalling provider spec: %w" [] (UnmarshalProviderSpec json) in
      let? raw := wrapf "marshalling updated provider spec: %w" []
                    (MarshalProviderSpec (retargetProviderSpec providerSpec fd infraID)) in
      Ok (ms_set_ProviderSpec ms (Raw raw))
  end.

(** The new object before its provider spec is retargeted. *)
Definition copyMachineSet (name : string) (replicas : Z) (template : MachineSet) (infraID : string) : MachineSet :=
  MkMachineSet name MachineAPINamespace "" "" None
    (delete LegacyAggregateAnnotation (<[SourceMachineSetAnnotation := ms_Name template]> (ms_Annotations template)))
    (Some replicas)
    (<[machineSetLabelKey := name]> (ms_Selector template))
    (<["machine.openshift.io/cluster-api-cluster" := infraID]> (<[machineSetLabelKey := name]> (ms_TemplateLabels template)))
    (ms_ProviderSpec template) "" (ms_other template).

(** ** MachineSets *)

Definition CreateWorkerMachineSet (ctx : Ctx) (name : string) (replicas : Z) (failureDomain : FailureDomain)
    (template : MachineSet) (infraID : string) : IO MachineSet :=
  let newMS := copyMachineSet name replicas template infraID in
  let! newMS := of_result (wrapf "updating provider spec for machineset %q: %w" [FS name]
                  (updateMachineSetProviderSpec newMS failureDomain infraID)) in
  let! _ := Check ctx in
  wrapping "creating machineset %q: %w" [FS name] (do_call (CCreateMachineSet newMS)).

Definition GetMachineSet (name : string) : IO MachineSet :=
  wrapping "getting machineset %q: %w" [FS name] (do_call (CGetMachineSet name)).

Definition ListMachineSets : IO (list MachineSet) :=
  wrapping "listing machinesets: %w" [] (do_call CListMachineSets).

(** The loop of [GetMachineSetsByVCenter]: a MachineSet whose provider spec cannot be read
    is skipped. *)
Definition onVCenter (vcenterServer : string) (ms : MachineSet) : bool :=
  match ExtractVSphereProviderSpec ms with
  | Ok p => match ps_Workspace p with
            | Some w => String.eqb (ws_Server w) vcenterServer
            | None => false
            end
  | Err _ => false
  end.

Definition GetMachineSetsByVCenter (vcenterServer : string) : IO (list MachineSet) :=
  if String.eqb vcenterServer "" then fail (Errorf "vcenter server must not be empty" [])
  else
    let! msList := wrapping "listing machinesets: %w" [] (do_call CListMachineSets) in
    ok (filter (fun ms => onVCenter vcenterServer ms = true) msList).

(** The loop of [GetMachineSetsByFailureDomain]. *)
Definition inFailureDomain (fd : FailureDomain) (ms : MachineSet) : bool :=
  match ExtractVSphereProviderSpec ms with
  | Ok p =>
      match ps_Workspace p with
      | Some w =>
          String.eqb (ws_Datacenter w) (t_Datacenter (fd_Topology fd)) &&
          (String.eqb (EffectiveResourcePool fd) "" || String.eqb (ws_ResourcePool w) (EffectiveResourcePool fd))
      | None => false
      end
  | Err _ => false
  end.

Definition GetMachineSetsByFailureDomain (vcenterServer : string) (fd : FailureDomain) : IO (list MachineSet) :=
  let! byServer := GetMachineSetsByVCenter vcenterServer in
  ok (filter (fun ms => inFailureDomain fd ms = true) byServer).

Definition ScaleMachineSet (ctx : Ctx) (name : string) (replicas : Z) : IO unit :=
  let! ms := wrapping "getting machineset %q for scaling: %w" [FS name] (do_call (CGetMachineSet name)) in
  let ms := ms_set_Replicas ms replicas in
  let! _ := Check ctx in
  let! _ := wrapping "scaling machineset %q to %d: %w" [FS name; FD replicas] (do_call (CUpdateMachineSet ms)) in
  ok tt.

Definition AnnotateMachineSetLegacyAggregate (ctx : Ctx) (name : string) : IO unit :=
  let! ms := GetMachineSet name in
  if String.eqb (annotation ms LegacyAggregateAnnotation) LegacyAggregateAnnotationValue then ok tt
  else
    let ms := ms_set_Annotations ms (<[LegacyAggregateAnnotation := LegacyAggregateAnnotationValue]> (ms_Annotations ms)) in
    let! _ := Check ctx in
    let! _ := wrapping "annotating machineset %q as legacy aggregate: %w" [FS name] (do_call (CUpdateMachineSet ms)) in
    ok tt.

Definition DeleteMachineSet (ctx : Ctx) (name : string) : IO unit :=
  let! _ := Check ctx in
  let* r := do_call (CDeleteMachineSet name) in
  match r with
  | Ok _ => ok tt
  | Err e => if IsNotFound e then ok tt else fail (Errorf "deleting machineset %q: %w" [FS name; FE e])
  end.

(** The names deleted before an error are not used by the caller and not returned here. *)
Definition DeleteMachineSetsByVCenter (ctx : Ctx) (vcenterServer : string) : IO (list string) :=
  if String.eqb vcenterServer "" then fail (Errorf "vcenter server must not be empty" [])
  else
    let! machineSets := GetMachineSetsByVCenter vcenterServer in
    let! _ := io_for machineSets (fun ms =>
      if hasRunningReplicas ms
      then fail (Errorf "refusing to delete machineset %q with replicas %d"
                   [FS (ms_Name ms); FD (default (-1)%Z (ms_Replicas ms))])
      else ok tt) in
    io_fold machineSets [] (fun deleted ms =>
      let! _ := DeleteMachineSet ctx (ms_Name ms) in
      ok (deleted ++ [ms_Name ms])).

(** ** The control plane machine set *)

Definition GetControlPlaneMachineSet : IO CPMS :=
  wrapping "getting ControlPlaneMachineSet: %w" [] (do_call CGetCPMS).

Definition cpmsWithFailureDomains (cpms : CPMS) (names : list string) : CPMS :=
  MkCPMS (cp_Generation cpms) ControlPlaneMachineSetStateActive (cp_Strategy cpms)
    (Some (Some (VSpherePlatformType, names))) (cp_ObservedGeneration cpms) (cp_Replicas cpms)
    (cp_UpdatedReplicas cpms) (cp_ReadyReplicas cpms) (cp_Conditions cpms) (cp_other cpms).

Definition UpdateCPMSFailureDomain (ctx : Ctx) (failureDomainNames : list string) : IO unit :=
  let! cpms := GetControlPlaneMachineSet in
  match cp_Template cpms with
  | None => fail (Errorf "CPMS has no machines_v1beta1_machine_openshift_io template" [])
  | Some _ =>
      if negb (String.eqb (cp_Strategy cpms) "") && negb (String.eqb (cp_Strategy cpms) RollingUpdate)
      then fail (Errorf "CPMS strategy %q is not RollingUpdate; the control plane rollout would not proceed" [FS (cp_Strategy cpms)])
      else
        let! _ := Check ctx in
        let! _ := wrapping "updating ControlPlaneMachineSet: %w" []
                    (do_call (CUpdateCPMS (cpmsWithFailureDomains cpms failureDomainNames))) in
        ok tt
  end.

Record ControlPlaneRolloutStatus := MkRollout {
  Complete : bool;
  ro_Replicas : Z;
  ro_UpdatedReplicas : Z;
  ro_ReadyReplicas : Z;
  HoldReason : string;
  HoldMessage : string;
}.

(** The loop over the two condition types: the hold reason and message, or the failure. *)
Fixpoint rolloutHold (conds : list Condition) (types : list string) (hold : option (string * string))
    : result (option (string * string)) :=
  match types with
  | [] => Ok hold
  | condType :: rest =>
      match FindStatusCondition conds condType with
      | None => rolloutHold conds rest hold
      | Some cond =>
          if negb (String.eqb (c_Status cond) ConditionTrue) then rolloutHold conds rest hold
          else if String.eqb (c_Reason cond) cpmsReasonUnmanagedNodes
          then rolloutHold conds rest (Some (c_Reason cond, c_Message cond))
          else Err (Errorf "waiting for control plane rollout: CPMS condition %s=%s (%s): %s"
                      [FS (c_Type cond); FS (c_Status cond); FS (c_Reason cond); FS (c_Message cond)])
      end
  end.

Definition rolloutOf (cpms : CPMS) : result ControlPlaneRolloutStatus :=
  let? hold := rolloutHold (cp_Conditions cpms) [cpmsConditionDegraded; cpmsConditionError] None in
  let complete := negb (bool_decide (is_Some hold)) && (0 <? cp_Replicas cpms)%Z &&
                  (cp_UpdatedReplicas cpms =? cp_Replicas cpms)%Z && (cp_ReadyReplicas cpms =? cp_Replicas cpms)%Z in
  Ok (MkRollout complete (cp_Replicas cpms) (cp_UpdatedReplicas cpms) (cp_ReadyReplicas cpms)
        (default "" (fst <$> hold)) (default "" (snd <$> hold))).

Definition CheckControlPlaneRolloutStatus : IO ControlPlaneRolloutStatus :=
  let! cpms := GetControlPlaneMachineSet in
  of_result (rolloutOf cpms).

Definition cpmsUpdatedFor (cpms : CPMS) (failureDomainNames : list string) : bool :=
  String.eqb (cp_State cpms) ControlPlaneMachineSetStateActive &&
  match cp_Template cpms with
  | Some (Some (_, current)) => bool_decide (SortStrings current = SortStrings failureDomainNames)
  | _ => false
  end.

Definition IsCPMSUpdatedForFailureDomains (failureDomainNames : list string) : IO bool :=
  let! cpms := GetControlPlaneMachineSet in
  ok (cpmsUpdatedFor cpms failureDomainNames).

Definition ListControlPlaneMachines : IO (list Machine) :=
  wrapping "listing control plane machines: %w" [] (do_call (CListMachines machineRoleLabelKey ["master"; "control-plane"])).

Definition IsCPMSGenerationObserved : IO (bool * Z * Z) :=
  let! cpms := GetControlPlaneMachineSet in
  ok ((cp_Generation cpms =? cp_ObservedGeneration cpms)%Z, cp_Generation cpms, cp_ObservedGeneration cpms).

(** ** Machines and nodes of a MachineSet *)

Definition machinesetSelectorLabel (machineSetName : string) : IO string :=
  let! ms := wrapping "getting machineset %q: %w" [FS machineSetName] (do_call (CGetMachineSet machineSetName)) in
  match ms_Selector ms !! machineSetLabelKey with
  | Some v => if negb (String.eqb v "") then ok v else ok machineSetName
  | None => ok machineSetName
  end.

(** The common head of the checks below. *)
Definition ListMachinesForMachineSet (machineSetName : string) : IO (list Machine) :=
  let! labelValue := machinesetSelectorLabel machineSetName in
  wrapping "listing machines for machineset %q: %w" [FS machineSetName]
    (do_call (CListMachines machineSetLabelKey [labelValue])).

(** [int32(len(l))]. *)
Definition len32 {A} (l : list A) : Z := wrap32 (Z.of_nat (length l)).

Fixpoint countReady (machineSetName : string) (ready : Z) (machines : list Machine) : result Z :=
  match machines with
  | [] => Ok ready
  | machine :: rest =>
      let phase := default "" (m_Phase machine) in
      if String.eqb phase PhaseFailed then
        Err (Errorf "waiting for machineset %q: machine %q is Failed (%s): %s"
               [FS machineSetName; FS (m_Name machine); FS (default "" (m_ErrorReason machine)); FS (default "" (m_ErrorMessage machine))])
      else countReady machineSetName
             (if String.eqb phase machinePhaseRunning && bool_decide (is_Some (m_NodeRef machine)) then add32 ready 1 else ready) rest
  end.

(** [(complete, ready, total)]. *)
Definition CheckMachinesReady (machineSetName : string) : IO (bool * Z * Z) :=
  let! machines := ListMachinesForMachineSet machineSetName in
  let total := len32 machines in
  let! ready := of_result (countReady machineSetName 0 machines) in
  ok ((0 <? total)%Z && (ready =? total)%Z, ready, total).

Definition nodeReady (node : Node) : bool :=
  existsb (fun cond => String.eqb (sc_Type cond) "Ready" && String.eqb (sc_Status cond) ConditionTrue) (n_Conditions node).

Definition CheckNodesReady (machineSetName : string) : IO (bool * Z * Z) :=
  let! machines := ListMachinesForMachineSet machineSetName in
  let total := len32 machines in
  let! ready := io_fold machines 0%Z (fun ready machine =>
    match m_NodeRef machine with
    | None => ok ready
    | Some name =>
        let! r := try (do_call (CGetNode name)) in
        match r with
        | Err _ => ok ready
        | Ok node => ok (if nodeReady node then add32 ready 1 else ready)
        end
    end) in
  ok ((0 <? total)%Z && (ready =? total)%Z, ready, total).

Definition CheckMachinesDeleted (machineSetName : string) : IO (bool * Z) :=
  let! machines := ListMachinesForMachineSet machineSetName in
  let remaining := len32 machines in
  ok ((remaining =? 0)%Z, remaining).

Definition CheckNodesDeletedForMachines (machineSetName : string) : IO (bool * Z) :=
  let! machines := ListMachinesForMachineSet machineSetName in
  let! remaining := io_fold machines 0%Z (fun remaining machine =>
    match m_NodeRef machine with
    | None => ok remaining
    | Some name =>
        let! r := try (do_call (CGetNode name)) in
        ok (if is_ok r then add32 remaining 1 else remaining)
    end) in
  ok ((remaining =? 0)%Z, remaining).

End Machines.

(** ** The gate *)

Section MachinesGated.
Context `{ProviderCodec} (m0 m : Migration) (ctx : Ctx).

Lemma quiet_GetMachineSet n : quiet (GetMachineSet n).
Proof. unfold GetMachineSet. quiet_auto. Qed.
Lemma quiet_ListMachineSets : quiet ListMachineSets.
Proof. unfold ListMachineSets. quiet_auto. Qed.
Lemma quiet_ByVCenter v : quiet (GetMachineSetsByVCenter v).
Proof. unfold GetMachineSetsByVCenter. quiet_auto. Qed.
Lemma quiet_GetCPMS : quiet GetControlPlaneMachineSet.
Proof. unfold GetControlPlaneMachineSet. quiet_auto. Qed.
Lemma quiet_ListMachines n : quiet (ListMachinesForMachineSet n).
Proof. unfold ListMachinesForMachineSet, machinesetSelectorLabel. quiet_auto. Qed.
#[local] Hint Resolve quiet_GetMachineSet quiet_ListMachineSets quiet_ByVCenter quiet_GetCPMS quiet_ListMachines : quiet.

Lemma quiet_ByFailureDomain v fd : quiet (GetMachineSetsByFailureDomain v fd).
Proof. unfold GetMachineSetsByFailureDomain. quiet_auto. Qed.
Lemma quiet_Rollout : quiet CheckControlPlaneRolloutStatus.
Proof. unfold CheckControlPlaneRolloutStatus. quiet_auto. Qed.
Lemma quiet_CPMSUpdated l : quiet (IsCPMSUpdatedForFailureDomains l).
Proof. unfold IsCPMSUpdatedForFailureDomains. quiet_auto. Qed.
Lemma quiet_CPMSObserved : quiet IsCPMSGenerationObserved.
Proof. unfold IsCPMSGenerationObserved. quiet_auto. Qed.
Lemma quiet_ListControlPlane : quiet ListControlPlaneMachines.
Proof. unfold ListControlPlaneMachines. quiet_auto. Qed.
Lemma quiet_MachinesReady n : quiet (CheckMachinesReady n).
Proof. unfold CheckMachinesReady. quiet_auto. Qed.
Lemma quiet_NodesReady n : quiet (CheckNodesReady n).
Proof. unfold CheckNodesReady. quiet_auto. Qed.
Lemma quiet_MachinesDeleted n : quiet (CheckMachinesDeleted n).
Proof. unfold CheckMachinesDeleted. quiet_auto. Qed.
Lemma quiet_NodesDeleted n : quiet (CheckNodesDeletedForMachines n).
Proof. unfold CheckNodesDeletedForMachines. quiet_auto. Qed.

Context (Hctx : ctx_check ctx = Some m) (Hm : same_identity m m0).

Lemma gated_CreateWorker n r fd t i : gated m0 (CreateWorkerMachineSet ctx n r fd t i).
Proof. unfold CreateWorkerMachineSet. gate_auto. Qed.
Lemma gated_Scale n r : gated m0 (ScaleMachineSet ctx n r).
Proof. unfold ScaleMachineSet. gate_auto. Qed.
Lemma gated_Annotate n : gated m0 (AnnotateMachineSetLegacyAggregate ctx n).
Proof. unfold AnnotateMachineSetLegacyAggregate. gate_auto. Qed.
Lemma gated_Delete n : gated m0 (DeleteMachineSet ctx n).
Proof. unfold DeleteMachineSet. gate_auto. Qed.
Lemma gated_DeleteByVCenter v : gated m0 (DeleteMachineSetsByVCenter ctx v).
Proof. unfold DeleteMachineSetsByVCenter. gate_auto. apply gated_Delete. Qed.
Lemma gated_UpdateCPMS l : gated m0 (UpdateCPMSFailureDomain ctx l).
Proof. unfold UpdateCPMSFailureDomain. gate_auto. Qed.

End MachinesGated.

#[export] Hint Resolve quiet_GetMachineSet quiet_ListMachineSets quiet_ByVCenter quiet_GetCPMS quiet_ListMachines quiet_ByFailureDomain quiet_Rollout quiet_CPMSUpdated quiet_CPMSObserved quiet_ListControlPlane quiet_MachinesReady quiet_NodesReady quiet_MachinesDeleted quiet_NodesDeleted : quiet.
#[export] Hint Resolve gated_CreateWorker gated_Scale gated_Annotate gated_Delete gated_DeleteByVCenter gated_UpdateCPMS : gated.

(** ** Examples *)

(** A worker MachineSet on a given server, datacenter and pool. *)
Definition example_ms (name server dc pool : string) (replicas : option Z) : MachineSet :=
  MkMachineSet name MachineAPINamespace "uid" "1" (Some 0%Z) ∅ replicas
    {[ machineSetLabelKey := name ]} {[ machineSetLabelKey := name ]}
    (Raw (put_list (fields_of (MkProviderSpec (Some (MkWorkspace server dc "" "ds" pool "")) "tmpl" [] "")))) "" "".

Definition example_fd (name server dc pool : string) : FailureDomain :=
  MkFailureDomain name "region" "zone" None None server
    (MkTopology dc "/dc/host/c" ["net"] "ds" pool "" "/dc/vm/tmpl").

(** ** Facts *)

Section MachinesFacts.
Context `{ProviderCodecLaws}.

Lemma update_extract ms fd i ms' :
  updateMachineSetProviderSpec ms fd i = Ok ms' ->
  exists p raw json, ms' = ms_set_ProviderSpec ms (Raw raw) /\ ms_ProviderSpec ms = Raw json /\ UnmarshalProviderSpec json = Ok p /\
    ExtractVSphereProviderSpec ms' = Ok (retargetProviderSpec p fd i).
Proof.
  unfold updateMachineSetProviderSpec. destruct (ms_ProviderSpec ms) as [| |json]; try done.
  destruct (UnmarshalProviderSpec json) as [p|] eqn:Hp; [|done]. cbn [wrapf].
  destruct (MarshalProviderSpec _) as [raw|] eqn:E; [|done]. cbn [wrapf]. intros [= <-].
  exists p, raw, json. split_and!; [done..|]. unfold ExtractVSphereProviderSpec. cbn [ms_set_ProviderSpec ms_ProviderSpec].
  by rewrite (unmarshal_marshal _ _ E).
Qed.

Lemma rolloutHold_Ok conds types hold :
  (exists h, rolloutHold conds types hold = Ok h /\ (h = None <-> hold = None /\
     Forall (fun t => forall c, FindStatusCondition conds t = Some c -> c_Status c <> ConditionTrue) types)) \/
  (exists e, rolloutHold conds types hold = Err e).
Proof.
  revert hold; induction types as [|t types IH]; intros hold; cbn [rolloutHold].
  - left. exists hold. split; [done|]. split; [done|]. by intros [? _].
  - destruct (FindStatusCondition conds t) as [c|] eqn:E.
    + destruct (String.eqb_spec (c_Status c) ConditionTrue) as [Hs|Hs]; cbn [negb].
      * destruct (String.eqb (c_Reason c) cpmsReasonUnmanagedNodes); [|eauto].
        destruct (IH (Some (c_Reason c, c_Message c))) as [(h & -> & Hh)|(e & ->)]; [left|eauto].
        exists h. split; [done|]. rewrite Hh. split; [by intros [? _]|].
        intros [_ Hf]. inversion Hf as [|?? Hc]; subst. by destruct (Hc c E).
      * destruct (IH hold) as [(h & -> & Hh)|(e & ->)]; [left|eauto].
        exists h. split; [done|]. rewrite Hh, Forall_cons. split; [|tauto]. intros [? ?].
        split_and!; [done| |done]. intros c' Hc'. by simplify_eq.
    + destruct (IH hold) as [(h & -> & Hh)|(e & ->)]; [left|eauto].
      exists h. split; [done|]. rewrite Hh, Forall_cons. split; [|tauto]. intros [? ?].
      split_and!; [done| |done]. intros c' Hc'. congruence.
Qed.

Lemma rolloutHold_Err conds types hold e :
  rolloutHold conds types hold = Err e ->
  exists t c, t ∈ types /\ FindStatusCondition conds t = Some c /\ c_Status c = ConditionTrue /\ c_Reason c <> cpmsReasonUnmanagedNodes.
Proof.
  revert hold; induction types as [|t types IH]; intros hold; cbn [rolloutHold]; [done|].
  assert (forall hold, rolloutHold conds types hold = Err e -> exists t' c, t' ∈ t :: types /\ FindStatusCondition conds t' = Some c /\
    c_Status c = ConditionTrue /\ c_Reason c <> cpmsReasonUnmanagedNodes) as IH'.
  { intros hold' (t' & c & ? & ?)%IH. exists t', c. split; [by right|done]. }
  destruct (FindStatusCondition conds t) as [c|] eqn:E; [|apply IH'].
  destruct (String.eqb_spec (c_Status c) ConditionTrue); cbn [negb]; [|apply IH'].
  destruct (String.eqb_spec (c_Reason c) cpmsReasonUnmanagedNodes); [apply IH'|].
  intros _. exists t, c. split; [by left|done].
Qed.

(** A machine in phase Running that has a node. *)
Definition runsWithNode (m : Machine) : Prop := m_Phase m = Some machinePhaseRunning /\ is_Some (m_NodeRef m).
#[global] Instance runsWithNode_dec m : Decision (runsWithNode m).
Proof. unfold runsWithNode. apply _. Defined.

(** The label its machines carry. *)
Definition selectorLabel (name : string) (ms : MachineSet) : string :=
  match ms_Selector ms !! machineSetLabelKey with
  | Some v => if decide (v = "") then name else v
  | None => name
  end.

Lemma selector_ok name ms :
  match ms_Selector ms !! machineSetLabelKey with
  | Some v => if negb (String.eqb v "") then ok v else ok name
  | None => ok name
  end = ok (selectorLabel name ms).
Proof.
  unfold selectorLabel. destruct (ms_Selector ms !! machineSetLabelKey) as [v|]; [|done].
  destruct (String.eqb_spec v ""); by case_decide.
Qed.

Lemma countReady_eq name ready machines n :
  countReady name (wrap32 ready) machines = Ok n -> n = wrap32 (ready + Z.of_nat (length (filter runsWithNode machines)))%Z.
Proof.
  revert ready; induction machines as [|m rest IH]; intros ready; cbn [countReady].
  - intros [= <-]. by rewrite Z.add_0_r.
  - destruct (String.eqb _ PhaseFailed); [done|]. rewrite filter_cons.
    assert (String.eqb (default "" (m_Phase m)) machinePhaseRunning && bool_decide (is_Some (m_NodeRef m)) = bool_decide (runsWithNode m)) as ->.
    { apply Bool.eq_iff_eq_true. rewrite andb_true_iff, !bool_decide_eq_true, String.eqb_eq. unfold runsWithNode.
      unfold machinePhaseRunning; destruct (m_Phase m); cbn; split; by intros [? ?]; simplify_eq. }
    case_bool_decide; case_decide; try done.
    + rewrite add32_wrap. intros ->%IH. f_equal. cbn [length]. lia.
    + apply IH.
Qed.

Lemma countReady_failed name ready machines e :
  countReady name ready machines = Err e -> Exists (fun m => m_Phase m = Some PhaseFailed) machines.
Proof.
  revert ready; induction machines as [|m rest IH]; intros ready; cbn [countReady]; [done|].
  destruct (String.eqb_spec (default "" (m_Phase m)) PhaseFailed) as [E|]; [|intros ?%IH; by right].
  intros _. left. destruct (m_Phase m); cbn in *; [congruence|done].
Qed.

Lemma countReady_none_failed name ready machines n :
  countReady name ready machines = Ok n -> Forall (fun m => m_Phase m <> Some PhaseFailed) machines.
Proof.
  revert ready; induction machines as [|m rest IH]; intros ready; cbn [countReady]; [constructor|].
  destruct (String.eqb_spec (default "" (m_Phase m)) PhaseFailed) as [|Hne]; [done|].
  intros Hc. constructor; [|by eapply IH]. intros Heq. by rewrite Heq in Hne.
Qed.

Lemma filter_full {A} (P : A -> Prop) `{forall x, Decision (P x)} l : length (filter P l) = length l -> Forall P l.
Proof.
  induction l as [|x l IH]; [constructor|]. rewrite filter_cons. case_decide; cbn [length].
  - intros ?. constructor; auto.
  - pose proof (length_filter P l). lia.
Qed.

End MachinesFacts.

(** Its workspace is on the given vCenter. *)
Definition livesOn `{ProviderCodec} (server : string) (ms : MachineSet) : Prop :=
  exists p w, ExtractVSphereProviderSpec ms = Ok p /\ ps_Workspace p = Some w /\ ws_Server w = server.

Lemma onVCenter_spec `{ProviderCodec} server ms : onVCenter server ms = true <-> livesOn server ms.
Proof.
  unfold onVCenter, livesOn. split.
  - destruct (ExtractVSphereProviderSpec ms) as [p|]; [|done]. destruct (ps_Workspace p) as [w|] eqn:E; [|done].
    intros ?%String.eqb_eq. by exists p, w.
  - intros (p & w & -> & -> & <-). apply String.eqb_refl.
Qed.

(** Its workspace is in the given failure domain. *)
Definition livesIn `{ProviderCodec} (fd : FailureDomain) (ms : MachineSet) : Prop :=
  exists p w, ExtractVSphereProviderSpec ms = Ok p /\ ps_Workspace p = Some w /\ ws_Server w = fd_Server fd /\
    ws_Datacenter w = t_Datacenter (fd_Topology fd) /\
    (EffectiveResourcePool fd = "" \/ ws_ResourcePool w = EffectiveResourcePool fd).

Lemma inFailureDomain_spec `{ProviderCodec} fd ms : onVCenter (fd_Server fd) ms = true -> inFailureDomain fd ms = true -> livesIn fd ms.
Proof.
  unfold onVCenter, inFailureDomain, livesIn. destruct (ExtractVSphereProviderSpec ms) as [p|]; [|done].
  destruct (ps_Workspace p) as [w|] eqn:E; [|done]. intros H1 H2. reflect_bools. exists p, w. split_and!; try done.
  match goal with H : _ || _ = true |- _ => apply orb_true_iff in H as [H|H]; apply String.eqb_eq in H; auto end.
Qed.

(** The provider spec [q] is [p] moved to the failure domain: the workspace names its server,
    datacenter, folder (or the default one of the cluster), datastore and pool, keeping only
    the VM group; the template and the network are its own where it has them; the rest stays. *)
Record retargeted (infraID : string) (fd : FailureDomain) (p q : ProviderSpec) : Prop := {
  rt_workspace : exists w, ps_Workspace q = Some w /\ ws_Server w = fd_Server fd /\
    ws_Datacenter w = t_Datacenter (fd_Topology fd) /\ ws_Datastore w = t_Datastore (fd_Topology fd) /\
    ws_ResourcePool w = t_ResourcePool (fd_Topology fd) /\ ws_VMGroup w = from_option ws_VMGroup "" (ps_Workspace p) /\
    ws_Folder w = if decide (t_Folder (fd_Topology fd) = "")
                  then "/" +:+ t_Datacenter (fd_Topology fd) +:+ "/vm/" +:+ infraID else t_Folder (fd_Topology fd);
  rt_template : ps_Template q = if decide (t_Template (fd_Topology fd) = "") then ps_Template p else t_Template (fd_Topology fd);
  rt_devices : match t_Networks (fd_Topology fd) with
    | [] => ps_Devices q = ps_Devices p
    | network :: _ => ps_Devices q = [MkNetworkDevice (if Contains network "/" then PathBase network else network) ""]
    end;
  rt_other : ps_other q = ps_other p;
}.

(** What a destination MachineSet made from [template] must be: the template with a new
    identity, the labels and annotations of the copy, and a retargeted provider spec. *)
Record is_worker_copy `{ProviderCodec} (infraID name : string) (replicas : Z) (fd : FailureDomain) (template ms : MachineSet) : Prop := {
  wc_server : forall server, livesOn server ms <-> server = fd_Server fd;
  wc_identity : ms_Name ms = name /\ ms_Namespace ms = MachineAPINamespace /\ ms_UID ms = "" /\ ms_ResourceVersion ms = "" /\
    ms_CreationTimestamp ms = None /\ ms_Status ms = "";
  wc_replicas : ms_Replicas ms = Some replicas;
  wc_annotations : forall k, ms_Annotations ms !! k =
    if decide (k = LegacyAggregateAnnotation) then None
    else if decide (k = SourceMachineSetAnnotation) then Some (ms_Name template) else ms_Annotations template !! k;
  wc_selector : forall k, ms_Selector ms !! k = if decide (k = machineSetLabelKey) then Some name else ms_Selector template !! k;
  wc_labels : forall k, ms_TemplateLabels ms !! k =
    if decide (k = machineSetLabelKey) then Some name
    else if decide (k = "machine.openshift.io/cluster-api-cluster") then Some infraID else ms_TemplateLabels template !! k;
  wc_provider : exists p q, ExtractVSphereProviderSpec template = Ok p /\ ExtractVSphereProviderSpec ms = Ok q /\ retargeted infraID fd p q;
  wc_other : ms_other ms = ms_other template;
}.

Lemma retarget_retargeted infraID fd p : retargeted infraID fd p (retargetProviderSpec p fd infraID).
Proof.
  split; cbn; [|by destruct (String.eqb_spec (t_Template (fd_Topology fd)) ""); case_decide|by destruct (t_Networks (fd_Topology fd))|done].
  eexists. split_and!; [done..|by destruct (ps_Workspace p)|].
  destruct (String.eqb_spec (t_Folder (fd_Topology fd)) ""); case_decide; cbn [negb]; try done.
  by unfold Sprintf; cbn; rewrite append_nil_r.
Qed.

(** Follows the last MachineSet listing; a change must be the deletion of a listed MachineSet
    of [server] while every listed MachineSet of [server] is scaled to zero. *)
Definition last_listing (g : list MachineSet) (c : call) : resp c -> list MachineSet :=
  match c with
  | CListMachineSets => fun r => match r with Ok l => l | Err _ => [] end
  | _ => fun _ => g
  end.

(** A MachineSet that asks for no machine: unset replicas count as running. *)
Definition scaledToZero (ms : MachineSet) : Prop := exists r, ms_Replicas ms = Some r /\ (r <= 0)%Z.

Lemma hasRunningReplicas_spec ms :
  (hasRunningReplicas ms = false <-> scaledToZero ms) /\ (hasRunningReplicas ms = true <-> ~ scaledToZero ms).
Proof.
  assert (hasRunningReplicas ms = false <-> scaledToZero ms) as Hz.
  { unfold hasRunningReplicas, scaledToZero. destruct (ms_Replicas ms) as [r|].
    - rewrite Z.ltb_ge. split; [by exists r|]. by intros (? & [= <-] & ?).
    - split; [done|]. by intros (? & ? & _). }
  split; [done|]. rewrite <- Hz. by destruct (hasRunningReplicas ms).
Qed.

Definition deletes_only_empty `{ProviderCodec} (server : string) : Observer (list MachineSet) :=
  MkObserver (fun listed c => mutating c = true ->
      exists ms, c = CDeleteMachineSet (ms_Name ms) /\ ms ∈ listed /\ livesOn server ms /\
        Forall (fun x => livesOn server x -> scaledToZero x) listed)
    last_listing (fun _ _ _ => True).

(** The object that is submitted is a worker copy. *)
Lemma copy_is_worker_copy `{ProviderCodecLaws} (infraID name : string) (replicas : Z) (fd : FailureDomain) (template ms : MachineSet) :
  updateMachineSetProviderSpec (copyMachineSet name replicas template infraID) fd infraID = Ok ms ->
  is_worker_copy infraID name replicas fd template ms.
Proof.
  intros (p & raw & json & -> & Hjson & Hp & Hx)%update_extract. pose proof (retarget_retargeted infraID fd p) as Hr.
  split; [|done|done| | | | |done].
  - intros server. unfold livesOn. rewrite Hx. split; [by intros (? & ? & [= <-] & [= <-] & ?)|]. intros ->. by eexists _, _.
  - intros k. cbn. rewrite lookup_delete, lookup_insert. repeat case_decide; congruence.
  - intros k. cbn. rewrite lookup_insert. repeat case_decide; congruence.
  - intros k. cbn. rewrite !lookup_insert. assert (machineSetLabelKey <> "machine.openshift.io/cluster-api-cluster") by done. repeat case_decide; congruence.
  - exists p, (retargetProviderSpec p fd infraID). split_and!; [|done..]. cbn in Hjson. unfold ExtractVSphereProviderSpec. by rewrite Hjson, Hp.
Qed.

(** Creating a worker MachineSet, for an observer that does not follow permission reads. *)
Lemma wp_CreateWorker `{ProviderCodecLaws} {G} (O : Observer G) (ctx : Ctx) (name : string) (replicas : Z)
    (fd : FailureDomain) (template : MachineSet) (infraID : string) (Q : result MachineSet -> G -> Prop) g :
  (forall ns n, pre O g (CGetMigration permissionReader ns n)) ->
  (forall ns n r, upd O g (CGetMigration permissionReader ns n) r = g) ->
  (forall ms, is_worker_copy infraID name replicas fd template ms ->
     pre O g (CCreateMachineSet ms) /\ forall r, Q r (upd O g (CCreateMachineSet ms) r)) ->
  (forall e, Q (Err e) g) -> (forall ms (r : result MachineSet) e, is_worker_copy infraID name replicas fd template ms -> Q (Err e) (upd O g (CCreateMachineSet ms) r)) ->
  wp O (CreateWorkerMachineSet ctx name replicas fd template infraID) Q g.
Proof.
  intros Hp Hu Hc He He'. unfold CreateWorkerMachineSet. cbv zeta. repeat wp_step; [|apply He].
  match goal with H : wrapf _ _ ?r = Ok _ |- _ => destruct r eqn:E; simplify_eq/= end. apply copy_is_worker_copy in E.
  apply wp_Check; [done..|]. intros [[]|e]; [|apply He]. split; [by apply Hc|].
  intros [ms|e] _; cbn [wrapf]; [by apply (proj2 (Hc _ E) (Ok ms))|by apply He'].
Qed.

(** ** Properties *)

(** C28: whatever the cluster answers, the only object [CreateWorkerMachineSet] ever submits is a
    copy of the template with the requested name and replica count and no identity of its own:
    its labels, selector and annotations are the template's but for the copy's own (it names
    the template as its source and never claims to be the released operator's aggregate), its
    provider spec is the template's moved to the destination's server, datacenter, folder,
    datastore, pool, template and network, and everything else is the template's. *)
Theorem CreateWorkerMachineSet_submits_copy `{ProviderCodecLaws} (ctx : Ctx) (name : string) (replicas : Z)
    (fd : FailureDomain) (template : MachineSet) (infraID : string) :
  only_calls (fun c => mutating c = true -> exists ms, c = CCreateMachineSet ms /\ is_worker_copy infraID name replicas fd template ms)
    (CreateWorkerMachineSet ctx name replicas fd template infraID).
Proof.
  apply wp_CreateWorker; [done..| |done|done]. intros ms Hms. split; [|done]. intros _. by exists ms.
Qed.

Lemma CreateWorkerMachineSet_submits_copy_witness :
  let fd := example_fd "fd-new" "vc-new" "dc2" "/dc2/host/c/Resources" in
  let template := example_ms "workers-a" "vc-old" "dc1" "/dc1/host/c/Resources" (Some 3%Z) in
  only_calls (fun c => mutating c = true -> exists ms, c = CCreateMachineSet ms /\ is_worker_copy "infra" "w" 3 fd template ms)
    (CreateWorkerMachineSet Background "w" 3 fd template "infra").
Proof. apply (CreateWorkerMachineSet_submits_copy Background "w" 3). Defined.

(** C12: deleting the source MachineSets touches nothing else: each deletion names a MachineSet
    of the given server from the listing just read, and happens only when every MachineSet
    of that server in that listing is scaled to zero; an empty server deletes nothing. *)
Theorem DeleteMachineSetsByVCenter_safe `{ProviderCodec} {W} (h : W -> forall c, resp c * W) (ctx : Ctx) (server : string) (w : W) :
  observed (deletes_only_empty server) [] (run h (DeleteMachineSetsByVCenter ctx server) w).2 /\
  (server = "" -> (run h (DeleteMachineSetsByVCenter ctx server) w).2 = []).
Proof.
  assert (wp (deletes_only_empty server) (DeleteMachineSetsByVCenter ctx server) (fun _ _ => True) []) as Hwp.
  { unfold DeleteMachineSetsByVCenter, GetMachineSetsByVCenter. repeat wp_step; try done.
    intros [l|e] _; [|done]. cbn [wrapf wp ok]. repeat wp_step.
    eapply (wp_io_for _ _ _ (fun done g => g = l /\ Forall (fun x => hasRunningReplicas x = false) done)); [by split| |].
    - intros done x rest g _ [-> Hd]. repeat wp_step; try done. split; [done|]. apply Forall_app; auto.
    - intros g [-> Hd]. eapply (wp_io_fold _ _ _ _ (fun _ _ g => g = l)); [done| |done].
      intros done x rest v g Heq ->. repeat wp_step. unfold DeleteMachineSet. repeat wp_step.
      apply wp_Check; try done. intros [[]|e]; [|done]. repeat wp_step; [|intros []; intros; by repeat wp_step].
      intros _. exists x. assert (x ∈ filter (fun ms => onVCenter server ms = true) l) as Hx
        by (rewrite Heq; set_solver). apply list_elem_of_filter in Hx as [?%onVCenter_spec ?]. split_and!; try done.
      apply Forall_forall. intros y Hy Hon%onVCenter_spec. rewrite Forall_forall in Hd.
      apply hasRunningReplicas_spec, Hd. by apply list_elem_of_filter. }
  split; [by apply (wp_run_all _ h _ _ _ w) in Hwp as [? _]|]. by intros ->.
Qed.

(** The control plane runs as specified: nothing degraded or in error, and at least one
    replica, all of them updated and ready. *)
Record rolledOut (cpms : CPMS) : Prop := {
  ro_healthy : forall t c, t ∈ [cpmsConditionDegraded; cpmsConditionError] ->
    FindStatusCondition (cp_Conditions cpms) t = Some c -> c_Status c <> ConditionTrue;
  ro_positive : (0 < cp_Replicas cpms)%Z;
  ro_updated : cp_UpdatedReplicas cpms = cp_Replicas cpms;
  ro_ready : cp_ReadyReplicas cpms = cp_Replicas cpms;
}.

(** the control plane rollout is reported complete exactly when no Degraded or Error
    condition is True and all of a positive number of replicas are updated and ready; a True
    condition with any reason but UnmanagedNodes is an error, never a wait. *)
Theorem rolloutOf_complete (cpms : CPMS) :
  match rolloutOf cpms with
  | Ok st =>
      Complete st = true <-> rolledOut cpms
  | Err _ =>
      exists t c, t ∈ [cpmsConditionDegraded; cpmsConditionError] /\
        FindStatusCondition (cp_Conditions cpms) t = Some c /\ c_Status c = ConditionTrue /\ c_Reason c <> cpmsReasonUnmanagedNodes
  end.
Proof.
  unfold rolloutOf.
  destruct (rolloutHold_Ok (cp_Conditions cpms) [cpmsConditionDegraded; cpmsConditionError] None) as [(h & Hr & Hh)|(e & He)].
  - rewrite Hr. cbn [Complete]. rewrite Forall_forall in Hh. rewrite !andb_true_iff, negb_true_iff, bool_decide_eq_false,
      Z.ltb_lt, !Z.eqb_eq, <- eq_None_not_Some, Hh. split; [intros [[[[_ Hf] ?] ?] ?]; split; eauto|intros [Hf ? ? ?]]; split_and!; eauto.
  - rewrite He. by apply rolloutHold_Err in He.
Qed.

(** updating the control plane machine set is detected afterwards, in whatever order the
    names are listed, and is refused (nothing submitted) unless the machine set has a
    Machine template and rolls with RollingUpdate. *)
Theorem CPMS_update_detected `{ProviderCodec} (ctx : Ctx) (names names' : list string) (cpms : CPMS) :
  (names ≡ₚ names' <-> cpmsUpdatedFor (cpmsWithFailureDomains cpms names) names' = true) /\
  only_calls (fun c => mutating c = true -> exists old, c = CUpdateCPMS (cpmsWithFailureDomains old names) /\
      is_Some (cp_Template old) /\ (cp_Strategy old = "" \/ cp_Strategy old = RollingUpdate))
    (UpdateCPMSFailureDomain ctx names).
Proof.
  split.
  - unfold cpmsUpdatedFor; cbn. rewrite bool_decide_eq_true. symmetry. apply SortStrings_canonical.
  - unfold only_calls, UpdateCPMSFailureDomain, GetControlPlaneMachineSet. repeat wp_step; try done.
    intros [old|e] _; [|done]. cbn [wrapf]. repeat wp_step; try done.
    apply wp_Check; try done. intros [[]|e]; [|done]. repeat wp_step; [|intros []; done].
    intros _. exists old. split_and!; [done|eauto|]. apply andb_false_iff in Heqb as [Hb|Hb]; reflect_bools; auto.
Qed.

(** C29: readiness of a MachineSet is exactly what its machines show.  An answer is computed from
    the machines listed under the selector label of the MachineSet just read (its name without
    one); none of them has failed, the counts are their number and the number of those that
    run with a node, as 32-bit integers, and the MachineSet is ready exactly when the first is
    positive and the two agree: below 2^31 machines, when there are machines and all of them
    run with a node.  Without an answer the read or the listing failed, or a machine did. *)
Theorem CheckMachinesReady_exact {W} (h : W -> forall c, resp c * W) (w : W) (name : string) :
  let '(r, _, tr) := run h (CheckMachinesReady name) w in
  match r with
  | Ok (complete, ready, total) =>
      exists ms machines,
        tr = [existT (CGetMachineSet name) (Ok ms);
              existT (CListMachines machineSetLabelKey [selectorLabel name ms]) (Ok machines)] /\
        Forall (fun m => m_Phase m <> Some PhaseFailed) machines /\
        total = wrap32 (Z.of_nat (length machines)) /\ ready = wrap32 (Z.of_nat (length (filter runsWithNode machines))) /\
        (complete = true <-> (0 < total)%Z /\ ready = total) /\
        ((Z.of_nat (length machines) < 2147483648)%Z -> complete = true <-> machines <> [] /\ Forall runsWithNode machines)
  | Err _ =>
      Exists (fun e => match e with
        | existT (CGetMachineSet _) (Err _) | existT (CListMachines _ _) (Err _) => True
        | existT (CListMachines _ _) (Ok machines) => Exists (fun m => m_Phase m = Some PhaseFailed) machines
        | _ => False
        end) tr
  end.
Proof.
  apply (wp_history h (CheckMachinesReady name)). unfold CheckMachinesReady, ListMachinesForMachineSet, machinesetSelectorLabel.
  apply wp_io_bind, wp_io_bind, wp_io_bind, wp_wrapping, wp_call; [done|]. intros [ms|e] _; cbn [upd history app wrapf]; [|repeat constructor].
  rewrite selector_ok. repeat wp_step; [done|]. intros [machines|e] _; cbn [upd history app wrapf]; [|by right; left].
  repeat wp_step; [|by right; left; eapply countReady_failed].
  match goal with H : countReady _ _ _ = Ok ?n |- _ => rename H into Hc; rename n into ready end.
  pose proof (countReady_none_failed _ _ _ _ Hc) as Hf. apply (countReady_eq _ 0) in Hc. rewrite Z.add_0_l in Hc.
  exists ms, machines. split_and!; [done..| |].
  - unfold len32. subst ready. rewrite andb_true_iff, Z.ltb_lt, Z.eqb_eq. done.
  - intros Hb. unfold len32. subst ready. pose proof (length_filter runsWithNode machines).
    rewrite !wrap32_id by (unfold in32; lia). rewrite andb_true_iff, Z.ltb_lt, Z.eqb_eq. split.
    + intros [Hpos Heq]. split; [by destruct machines|]. apply (filter_full runsWithNode); lia.
    + intros [Hne Hall]. rewrite (filter_all runsWithNode machines Hall). destruct machines; [done|]. cbn [length]. lia.
Qed.
