(* ===== verification/Operators.v ===== *)
(** * Cluster operators, machine config pools, version and pods (internal/openshift)

    operators.go, machineconfigpools.go, version.go, pods.go, and the restart of the machine
    config operator in internal/controller/helpers.go. *)

From S2P Require Import Prelude GoErrors Objects Types Effects Execution Codec Machines.
Import GoStr.

(** ** operators.go *)

Definition ExcludedOperators : list string := ["machine-config"].
Definition OperatorAvailable := "Available".
Definition OperatorProgressing := "Progressing".
Definition OperatorDegraded := "Degraded".

Record OperatorStabilitySummary := MkStability {
  UnavailableOperators : list string;
  ProgressingOperators : list string;
  DegradedOperators : list string;
}.

(** The first condition of a type. *)
Fixpoint conditionStatus (conds : list StatusCond) (t : string) : option string :=
  match conds with
  | [] => None
  | c :: rest => if String.eqb (sc_Type c) t then Some (sc_Status c) else conditionStatus rest t
  end.

Definition getOperatorConditionStatus (co : ClusterOperator) (t : string) : option string := conditionStatus (co_Conditions co) t.

(** [(available, progressing, degraded)]: the last condition of each type decides. *)
Definition operatorConditionState (co : ClusterOperator) : bool * bool * bool :=
  foldl (fun '(available, progressing, degraded) cond =>
    let isTrue := String.eqb (sc_Status cond) ConditionTrue in
    if String.eqb (sc_Type cond) OperatorAvailable then (isTrue, progressing, degraded)
    else if String.eqb (sc_Type cond) OperatorProgressing then (available, isTrue, degraded)
    else if String.eqb (sc_Type cond) OperatorDegraded then (available, progressing, isTrue)
    else (available, progressing, degraded)) (false, false, false) (co_Conditions co).

Definition isOperatorHealthy (co : ClusterOperator) : bool :=
  let '(available, _, degraded) := operatorConditionState co in available && negb degraded.

Definition unhealthyIn (operators : list ClusterOperator) : list string :=
  co_Name <$> filter (fun co => ContainsStr ExcludedOperators (co_Name co) = false /\ isOperatorHealthy co = false) operators.

Definition CheckAllOperatorsHealthy : IO (bool * list string) :=
  let! operators := wrapping "listing cluster operators: %w" [] (do_call CListClusterOperators) in
  let unhealthyOperators := unhealthyIn operators in
  if (0 <? length unhealthyOperators)%nat then ok (false, unhealthyOperators) else ok (true, []).

(** A condition that is absent or not [want]. *)
Definition statusIsNot (co : ClusterOperator) (t want : string) : bool :=
  match getOperatorConditionStatus co t with
  | Some s => negb (String.eqb s want)
  | None => true
  end.

Definition stabilityOf (operators : list ClusterOperator) : OperatorStabilitySummary :=
  let watched := filter (fun co => ContainsStr ExcludedOperators (co_Name co) = false) operators in
  MkStability (co_Name <$> filter (fun co => statusIsNot co OperatorAvailable ConditionTrue = true) watched)
    (co_Name <$> filter (fun co => statusIsNot co OperatorProgressing ConditionFalse = true) watched)
    (co_Name <$> filter (fun co => statusIsNot co OperatorDegraded ConditionFalse = true) watched).

Definition isStable (s : OperatorStabilitySummary) : bool :=
  (length (UnavailableOperators s) =? 0)%nat && (length (ProgressingOperators s) =? 0)%nat && (length (DegradedOperators s) =? 0)%nat.

Definition CheckAllOperatorsStable : IO (bool * OperatorStabilitySummary) :=
  let! operators := wrapping "listing cluster operators: %w" [] (do_call CListClusterOperators) in
  let summary := stabilityOf operators in
  ok (isStable summary, summary).

Definition GetOperator (name : string) : IO ClusterOperator :=
  wrapping "getting cluster operator %q: %w" [FS name] (do_call (CGetClusterOperator name)).

Definition unhealthyPart (cond : StatusCond) : list string :=
  (if String.eqb (sc_Type cond) OperatorAvailable && negb (String.eqb (sc_Status cond) ConditionTrue)
   then [Sprintf "Available=%s (%s)" [RStr (sc_Status cond); RStr (sc_Message cond)]] else []) ++
  (if String.eqb (sc_Type cond) OperatorDegraded && String.eqb (sc_Status cond) ConditionTrue
   then [Sprintf "Degraded=True (%s)" [RStr (sc_Message cond)]] else []).

Definition IsOperatorHealthy (name : string) : IO (bool * string) :=
  let! co := GetOperator name in
  if isOperatorHealthy co then ok (true, Sprintf "operator %q is healthy" [RStr name])
  else ok (false, Sprintf "operator %q is unhealthy: %s" [RStr name; RStr (Join (mjoin (unhealthyPart <$> co_Conditions co)) "; ")]).

(** ** machineconfigpools.go *)

Definition MachineConfigPoolDegraded := "Degraded".
Definition MachineConfigPoolNodeDegraded := "NodeDegraded".
Definition MachineConfigPoolUpdated := "Updated".

Record PoolConvergenceSummary := MkPoolSummary { NotUpdatedPools : list string; DegradedPools : list string }.

Definition poolConditionStatus (pool : MachineConfigPool) (t : string) : option string := conditionStatus (mcp_Conditions pool) t.
Definition isPoolConditionTrue (pool : MachineConfigPool) (t : string) : bool := bool_decide (poolConditionStatus pool t = Some ConditionTrue).

Definition poolDegraded (pool : MachineConfigPool) : bool :=
  isPoolConditionTrue pool MachineConfigPoolDegraded || isPoolConditionTrue pool MachineConfigPoolNodeDegraded.

Definition poolNotUpdated (pool : MachineConfigPool) : bool :=
  negb (isPoolConditionTrue pool MachineConfigPoolUpdated) || negb (mcp_UpdatedMachineCount pool =? mcp_MachineCount pool)%Z ||
  (mcp_ObservedGeneration pool <? mcp_Generation pool)%Z || negb (String.eqb (mcp_StatusConfiguration pool) (mcp_SpecConfiguration pool)).

Definition poolSummary (pools : list MachineConfigPool) : PoolConvergenceSummary :=
  MkPoolSummary (mcp_Name <$> filter (fun p => poolDegraded p = false /\ poolNotUpdated p = true) pools)
    (mcp_Name <$> filter (fun p => poolDegraded p = true) pools).

Definition CheckPoolsConverged : IO (bool * PoolConvergenceSummary) :=
  let! pools := wrapping "listing machine config pools: %w" [] (do_call CListMachineConfigPools) in
  let summary := poolSummary pools in
  ok ((length (NotUpdatedPools summary) =? 0)%nat && (length (DegradedPools summary) =? 0)%nat, summary).

(** ** version.go *)

Definition clusterVersionName := "version".
Definition featureGateName := "cluster".
Definition featureGateVSphereMultiVCenterDay2 := "VSphereMultiVCenterDay2".

Record VSphereMultiVCenterSupport := MkSupport {
  sup_ClusterVersion : string;
  FeatureGateEnabled : bool;
  UpgradeInProgress : bool;
}.

Definition isFeatureGateEnabledForVersion (gate : FeatureGate) (version gateName : string) : result bool :=
  match List.find (fun v => String.eqb (fg_Version v) version) (fg_FeatureGates gate) with
  | Some v => Ok (ContainsStr (fg_Enabled v) gateName)
  | None => Err (Errorf "no feature gate status found for version %q" [FS version])
  end.

Definition isClusterVersionProgressing (cv : ClusterVersion) : bool :=
  match conditionStatus (cv_Conditions cv) OperatorProgressing with
  | Some s => String.eqb s ConditionTrue
  | None => false
  end.

Definition GetVSphereMultiVCenterSupport : IO VSphereMultiVCenterSupport :=
  let! clusterVersion := wrapping "getting clusterversion %q: %w" [FS clusterVersionName] (do_call CGetClusterVersion) in
  let version := TrimSpace (cv_Desired clusterVersion) in
  if String.eqb version "" then fail (Errorf "clusterversion %q has empty status.desired.version" [FS clusterVersionName])
  else
    let! featureGate := wrapping "getting featuregate %q: %w" [FS featureGateName] (do_call CGetFeatureGate) in
    let! enabled := of_result (wrapf "checking feature gate %q for version %q: %w" [FS featureGateVSphereMultiVCenterDay2; FS version]
                      (isFeatureGateEnabledForVersion featureGate version featureGateVSphereMultiVCenterDay2)) in
    ok (MkSupport version enabled (isClusterVersionProgressing clusterVersion)).

(** ** pods.go *)

Record PodSelector := MkPodSelector { sel_Namespace : string; sel_Labels : list (string * string) }.

Definition csiDriversNamespace := "openshift-cluster-csi-drivers".

Definition VSpherePodsSelectors : list PodSelector :=
  [MkPodSelector "openshift-cloud-controller-manager" [("k8s-app", "vsphere-cloud-controller-manager")];
   MkPodSelector "openshift-cloud-controller-manager" [("infrastructure.openshift.io/cloud-controller-manager", "CCM")];
   MkPodSelector "openshift-cloud-controller-manager-operator" [("name", "cluster-cloud-controller-manager-operator")];
   MkPodSelector MachineAPINamespace [("api", "clusterapi")];
   MkPodSelector csiDriversNamespace [("app", "vmware-vsphere-csi-driver-controller")];
   MkPodSelector csiDriversNamespace [("app", "vsphere-csi-driver-controller")];
   MkPodSelector csiDriversNamespace [("app", "vmware-vsphere-csi-driver-node")];
   MkPodSelector csiDriversNamespace [("app", "vsphere-csi-driver-node")];
   MkPodSelector "openshift-cluster-storage-operator" [("name", "cluster-storage-operator")];
   MkPodSelector "openshift-kube-controller-manager" [("app", "kube-controller-manager")]].

(** [labels.Set(l).String()]. *)
Definition selectorString (l : list (string * string)) : string := Join (SortStrings ((fun '(k, v) => k +:+ "=" +:+ v) <$> l)) ",".

(** The loop that deletes listed pods: a failed check stops it, a failed deletion does not. *)
Definition deletePods (ctx : Ctx) (namespace : string) (pods : list Pod) : IO nat :=
  io_fold pods 0%nat (fun deleted pod =>
    let! _ := Check ctx in
    let! r := try (do_call (CDeletePod namespace (p_Name pod))) in
    ok (if is_ok r then S deleted else deleted)).

Definition DeletePodsByLabel (ctx : Ctx) (namespace : string) (labelSelector : list (string * string)) : IO nat :=
  let! pods := wrapping "listing pods in %s with selector %s: %w" [FS namespace; FS (selectorString labelSelector)]
                 (do_call (CListPods namespace labelSelector)) in
  deletePods ctx namespace pods.

Definition RestartVSpherePods (ctx : Ctx) : IO unit :=
  io_for VSpherePodsSelectors (fun sel =>
    let! r := try (DeletePodsByLabel ctx (sel_Namespace sel) (sel_Labels sel)) in
    match r with
    | Ok _ => ok tt
    | Err e => if IsNotFound e then ok tt else fail (Errorf "restarting pods in %s: %w" [FS (sel_Namespace sel); FE e])
    end).

Record ComponentStatus := MkComponentStatus { comp_Ready : Z; comp_Total : Z }.

Record VSpherePodsStatus := MkPodsStatus {
  AllReady : bool;
  Components : gmap string ComponentStatus;
  NotReadyReason : string;
}.

Definition isPodReady (pod : Pod) : bool :=
  existsb (fun cond => String.eqb (sc_Type cond) "Ready" && String.eqb (sc_Status cond) ConditionTrue) (p_Conditions pod).

Definition countReadyPods (pods : list Pod) : Z :=
  foldl (fun ready pod => if isPodReady pod then add32 ready 1 else ready) 0%Z pods.

Definition CheckVSpherePodsReady : IO VSpherePodsStatus :=
  let! (allReady, components, notReadyParts) :=
    io_fold VSpherePodsSelectors (true, ∅, []) (fun '(allReady, components, notReadyParts) sel =>
      let selector := selectorString (sel_Labels sel) in
      let! r := try (do_call (CListPods (sel_Namespace sel) (sel_Labels sel))) in
      match r with
      | Err e =>
          if IsNotFound e then ok (allReady, components, notReadyParts)
          else fail (Errorf "listing pods in %s with selector %s: %w" [FS (sel_Namespace sel); FS selector; FE e])
      | Ok pods =>
          let componentName := Sprintf "%s/%s" [RStr (sel_Namespace sel); RStr selector] in
          let ready := countReadyPods pods in
          let total := len32 pods in
          let components := <[componentName := MkComponentStatus ready total]> components in
          if (ready =? total)%Z then ok (allReady, components, notReadyParts)
          else ok (false, components, notReadyParts ++ [Sprintf "%s: %d/%d ready" [RStr componentName; RInt ready; RInt total]])
      end) in
  ok (MkPodsStatus allReady components (if allReady then "" else Join notReadyParts "; ")).

(** ** helpers.go *)

Definition mcoNamespace := "openshift-machine-config-operator".
Definition mcoPodPrefix := "machine-config-operator-".

Definition syncControllerConfig (ctx : Ctx) : IO unit :=
  let! pods := wrapping "listing pods in %s: %w" [FS mcoNamespace] (do_call (CListPods mcoNamespace [])) in
  let! _ := deletePods ctx mcoNamespace (filter (fun pod => HasPrefix (p_Name pod) mcoPodPrefix = true) pods) in
  ok tt.

(** ** The gate *)

Lemma quiet_OperatorsHealthy : quiet CheckAllOperatorsHealthy.
Proof. unfold CheckAllOperatorsHealthy. quiet_auto. Qed.
Lemma quiet_OperatorsStable : quiet CheckAllOperatorsStable.
Proof. unfold CheckAllOperatorsStable. quiet_auto. Qed.
Lemma quiet_IsOperatorHealthy n : quiet (IsOperatorHealthy n).
Proof. unfold IsOperatorHealthy, GetOperator. quiet_auto. Qed.
Lemma quiet_PoolsConverged : quiet CheckPoolsConverged.
Proof. unfold CheckPoolsConverged. quiet_auto. Qed.
Lemma quiet_Support : quiet GetVSphereMultiVCenterSupport.
Proof. unfold GetVSphereMultiVCenterSupport. quiet_auto. Qed.
Lemma quiet_PodsReady : quiet CheckVSpherePodsReady.
Proof. unfold CheckVSpherePodsReady. quiet_auto. Qed.
#[export] Hint Resolve quiet_OperatorsHealthy quiet_OperatorsStable quiet_IsOperatorHealthy quiet_PoolsConverged quiet_Support quiet_PodsReady : quiet.

Section PodsGated.
Context (m0 m : Migration) (ctx : Ctx) (Hctx : ctx_check ctx = Some m) (Hm : same_identity m m0).

Lemma gated_deletePods ns l : gated m0 (deletePods ctx ns l).
Proof. unfold deletePods. gate_auto. Qed.
Lemma gated_RestartPods : gated m0 (RestartVSpherePods ctx).
Proof. unfold RestartVSpherePods, DeletePodsByLabel. gate_auto; apply gated_deletePods. Qed.
Lemma gated_syncControllerConfig : gated m0 (syncControllerConfig ctx).
Proof. unfold syncControllerConfig. gate_auto; apply gated_deletePods. Qed.

End PodsGated.

#[export] Hint Resolve gated_deletePods gated_RestartPods gated_syncControllerConfig : gated.
