(* ===== verification/Mapping.v ===== *)
(** * Failure domain mappings (internal/controller/failuredomains.go)

    Which source failure domain moves to which destination, how that mapping is fixed once
    it was recorded, and which source MachineSets it covers. *)

From S2P Require Import Prelude GoErrors Objects Types Effects Execution Naming Codec Machines.
Import GoStr.

(** ** Lookups *)

Definition failureDomainNames (fds : list FailureDomain) : list string := fd_Name <$> fds.

Fixpoint findFailureDomainByName (fds : list FailureDomain) (name : string) : option FailureDomain :=
  match fds with
  | [] => None
  | fd :: rest => if String.eqb (fd_Name fd) name then Some fd else findFailureDomainByName rest name
  end.

Definition isConfiguredDestination (migration : Migration) (server : string) : bool :=
  existsb (fun fd => String.eqb (fd_Server fd) server) (FailureDomains (mig_Spec migration)).

(** [infra.Spec.PlatformSpec.VSphere.FailureDomains], empty without the vSphere section. *)
Definition infraFailureDomains (infra : Infrastructure) : list FailureDomain :=
  match infra_VSphere infra with Some v => vp_FailureDomains v | None => [] end.

(** ** Resolving the mapping *)

Fixpoint knownNames (sourceNames destNames : list string) (mappings : list FailureDomainMapping) : result unit :=
  match mappings with
  | [] => Ok tt
  | m :: rest =>
      if negb (ContainsStr sourceNames (Source m)) then
        Err (Errorf "failure domain mapping references unknown source failure domain %q" [FS (Source m)])
      else if negb (ContainsStr destNames (Destination m)) then
        Err (Errorf "failure domain mapping references unknown destination failure domain %q" [FS (Destination m)])
      else knownNames sourceNames destNames rest
  end.

Definition zlen {A} (l : list A) : Z := Z.of_nat (length l).

Definition resolveFailureDomainMappings (mappings : list FailureDomainMapping) (sourceFDs destFDs : list FailureDomain)
    : result (list FailureDomainMapping) :=
  match mappings with
  | [] =>
      match sourceFDs, destFDs with
      | [s], [d] => Ok [MkMapping (fd_Name s) (fd_Name d)]
      | _, _ => Err (Errorf "spec.failureDomainMappings is required: provide mappings when the source and destination failure domains are not a single pair (got %d source and %d destination failure domains)" [FD (zlen sourceFDs); FD (zlen destFDs)])
      end
  | _ =>
      let? _ := knownNames (fd_Name <$> sourceFDs) (fd_Name <$> destFDs) mappings in
      if negb (length mappings =? length sourceFDs)%nat || negb (length mappings =? length destFDs)%nat then
        Err (Errorf "spec.failureDomainMappings must cover every source and destination failure domain exactly once: got %d mappings for %d source and %d destination failure domains" [FD (zlen mappings); FD (zlen sourceFDs); FD (zlen destFDs)])
      else Ok mappings
  end.

Definition seedFailureDomainMappings (migration : Migration) (infraFDs : list FailureDomain)
    : result (list FailureDomainMapping) :=
  let sourceFDs := filter (fun fd => isConfiguredDestination migration (fd_Server fd) = false) infraFDs in
  resolveFailureDomainMappings (FailureDomainMappings (mig_Spec migration)) sourceFDs (FailureDomains (mig_Spec migration)).

Definition sourceVCenterServer (infraFDs : list FailureDomain) (mappings : list FailureDomainMapping) : result string :=
  match mappings with
  | [] => Err (Errorf "no failure domain mappings recorded in status: preflight must complete before workload migration" [])
  | m :: _ =>
      match findFailureDomainByName infraFDs (Source m) with
      | None => Err (Errorf "resolving source failure domain %q in infrastructure" [FS (Source m)])
      | Some fd =>
          if String.eqb (fd_Server fd) "" then Err (Errorf "source failure domain %q has no vCenter server configured" [FS (fd_Name fd)])
          else Ok (fd_Server fd)
      end
  end.

(** ** Immutability *)

(** The loop writes the entries in order: a later entry of the same source wins. *)
Definition mappingBySource (mappings : list FailureDomainMapping) : gmap string string :=
  foldl (fun bySource m => <[Source m := Destination m]> bySource) ∅ mappings.

Definition ensureMappingImmutable (migration : Migration) : IO unit :=
  let recorded := StatusMappings (mig_Status migration) in
  match recorded, FailureDomainMappings (mig_Spec migration) with
  | [], _ | _, [] => ok tt
  | _, spec =>
      let requested := mappingBySource spec in
      let bySource := mappingBySource recorded in
      if negb (size requested =? size bySource)%nat then
        fail (Errorf "failureDomainMappings are immutable after preflight: got %d mappings, want %d as recorded in status"
                [FD (Z.of_nat (size requested)); FD (Z.of_nat (size bySource))])
      else
        let! order := map_order (elements (dom requested)) in
        io_for order (fun source =>
          let dest := default "" (requested !! source) in
          match bySource !! source with
          | None => fail (Errorf "failureDomainMappings are immutable after preflight: source failure domain %q is not part of the recorded mapping" [FS source])
          | Some want =>
              if negb (String.eqb want dest)
              then fail (Errorf "failureDomainMappings are immutable after preflight: source failure domain %q is mapped to %q, want %q as recorded in status" [FS source; FS dest; FS want])
              else ok tt
          end)
  end.

(** ** Validation of the failure domains *)

Definition validateFailureDomainServers (fds : list FailureDomain) : result unit :=
  let first := default "" (fd_Server <$> head fds) in
  (fix go (l : list FailureDomain) : result unit :=
     match l with
     | [] => Ok tt
     | fd :: rest =>
         if String.eqb (fd_Server fd) "" then Err (Errorf "failure domain %q has no vCenter server configured" [FS (fd_Name fd)])
         else if negb (String.eqb (fd_Server fd) first)
         then Err (Errorf "spec.failureDomains must use a single vCenter server: %q and %q are both present" [FS first; FS (fd_Server fd)])
         else go rest
     end) fds.

Definition validateSourceVCenterCount (infra : Infrastructure) : result unit :=
  match infra_VSphere infra with
  | None => Err (Errorf "infrastructure spec has no vSphere platform configuration" [])
  | Some v =>
      if negb (length (vp_VCenters v) =? 1)%nat
      then Err (Errorf "source infrastructure must have exactly one vCenter, found %d" [FD (zlen (vp_VCenters v))])
      else Ok tt
  end.

(** The condition under which two source failure domains overlap. *)
Definition topologyOverlaps (a b : FailureDomain) : bool :=
  String.eqb (t_Datacenter (fd_Topology a)) (t_Datacenter (fd_Topology b)) &&
  (String.eqb (EffectiveResourcePool a) "" || String.eqb (EffectiveResourcePool b) "" ||
   String.eqb (EffectiveResourcePool a) (EffectiveResourcePool b)).

Fixpoint disjointFrom (a : FailureDomain) (rest : list FailureDomain) : result unit :=
  match rest with
  | [] => Ok tt
  | b :: rest' =>
      if topologyOverlaps a b
      then Err (Errorf "source failure domains %q and %q have overlapping topology in datacenter %q: each must specify a distinct resource pool"
                  [FS (fd_Name a); FS (fd_Name b); FS (t_Datacenter (fd_Topology a))])
      else disjointFrom a rest'
  end.

Fixpoint validateSourceFDTopologyDisjoint (sourceFDs : list FailureDomain) : result unit :=
  match sourceFDs with
  | [] => Ok tt
  | a :: rest => let? _ := disjointFrom a rest in validateSourceFDTopologyDisjoint rest
  end.

(** ** Which failure domain a source MachineSet belongs to *)

Definition matchesSourceFailureDomain (workspace : Workspace) (fd : FailureDomain) : bool :=
  String.eqb (ws_Datacenter workspace) (t_Datacenter (fd_Topology fd)) &&
  (String.eqb (EffectiveResourcePool fd) "" || String.eqb (ws_ResourcePool workspace) (EffectiveResourcePool fd)).

Section Coverage.
Context `{ProviderCodec}.

(** [(hasReplicas, workspace, matched failure domain)]. *)
Definition matchSourceMachineSetFailureDomain (ms : MachineSet) (sourceFDs : list FailureDomain)
    : result (bool * Workspace * option FailureDomain) :=
  let? providerSpec := wrapf "extracting provider spec from machineset %q: %w" [FS (ms_Name ms)] (ExtractVSphereProviderSpec ms) in
  match ps_Workspace providerSpec with
  | None => Err (Errorf "extracting provider spec from machineset %q: workspace is nil" [FS (ms_Name ms)])
  | Some workspace =>
      let matched := filter (fun fd => matchesSourceFailureDomain workspace fd = true) sourceFDs in
      if (1 <? length matched)%nat
      then Err (Errorf "validating source machineset coverage: machineset %q matches multiple source failure domains" [FS (ms_Name ms)])
      else Ok (hasRunningReplicas ms, workspace, last matched)
  end.

Fixpoint forEachRunningSourceMachineSet (msList : list MachineSet) (mappings : list FailureDomainMapping)
    (sourceFDs : list FailureDomain) (fn : MachineSet -> FailureDomainMapping -> result unit) : result unit :=
  match msList with
  | [] => Ok tt
  | ms :: rest =>
      let? (hasReplicas, workspace, matchedFD) := matchSourceMachineSetFailureDomain ms sourceFDs in
      if negb hasReplicas then forEachRunningSourceMachineSet rest mappings sourceFDs fn
      else
        match matchedFD with
        | None => Err (Errorf "validating source machineset coverage: machineset %q (datacenter %q, resource pool %q) does not match any source failure domain"
                         [FS (ms_Name ms); FS (ws_Datacenter workspace); FS (ws_ResourcePool workspace)])
        | Some fd =>
            match List.find (fun m => String.eqb (Source m) (fd_Name fd)) mappings with
            | None => Err (Errorf "validating source machineset coverage: machineset %q matches source failure domain %q which has no mapping"
                             [FS (ms_Name ms); FS (fd_Name fd)])
            | Some mapping =>
                let? _ := fn ms mapping in
                forEachRunningSourceMachineSet rest mappings sourceFDs fn
            end
        end
  end.

Definition validateSourceMachineSetMappingCoverage (msList : list MachineSet) (mappings : list FailureDomainMapping)
    (sourceFDs : list FailureDomain) : result unit :=
  forEachRunningSourceMachineSet msList mappings sourceFDs (fun _ _ => Ok tt).

Definition validateSourceMachineSetCoverage (msList : list MachineSet) (infraID : string) (mappings : list FailureDomainMapping)
    (sourceFDs : list FailureDomain) (recorded : list string) : result unit :=
  forEachRunningSourceMachineSet msList mappings sourceFDs (fun ms mapping =>
    let base := workerMachineSetName infraID (Destination mapping) recorded in
    if (length (recordedWorkerMachineSetNames recorded base) =? 0)%nat
    then Err (Errorf "validating source machineset coverage: machineset %q has no recorded destination MachineSet for failure domain %q"
                [FS (ms_Name ms); FS (Destination mapping)])
    else Ok tt).

End Coverage.

(** ** Facts *)

Lemma find_fd_Some fds name fd : findFailureDomainByName fds name = Some fd -> fd ∈ fds /\ fd_Name fd = name.
Proof.
  induction fds as [|x fds IH]; cbn; [done|]. destruct (String.eqb_spec (fd_Name x) name) as [E|E].
  - intros [= <-]. split; [by left|done].
  - intros [? ?]%IH. split; [by right|done].
Qed.

Lemma find_fd_None fds name : findFailureDomainByName fds name = None <-> name ∉ fd_Name <$> fds.
Proof.
  induction fds as [|x fds IH]; cbn; [split; [intros _; apply not_elem_of_nil|done]|].
  rewrite not_elem_of_cons. destruct (String.eqb_spec (fd_Name x) name) as [E|E]; [by split; [|intros [? _]]|].
  rewrite IH. split; [by split|by intros [_ ?]].
Qed.

Lemma isConfigured_spec m server :
  isConfiguredDestination m server = true <-> exists fd, fd ∈ FailureDomains (mig_Spec m) /\ fd_Server fd = server.
Proof.
  unfold isConfiguredDestination. rewrite existsb_exists. split.
  - intros (fd & Hin & Heq%String.eqb_eq). exists fd. split; [by apply list_elem_of_In|done].
  - intros (fd & Hin & <-). exists fd. split; [by apply list_elem_of_In|apply String.eqb_refl].
Qed.

Lemma knownNames_Ok ss ds ms :
  knownNames ss ds ms = Ok tt <-> Forall (fun m => Source m ∈ ss /\ Destination m ∈ ds) ms.
Proof.
  induction ms as [|m ms IH]; cbn [knownNames]; [split; [constructor|done]|].
  rewrite Forall_cons, <- IH, <- !ContainsStr_spec.
  destruct (ContainsStr ss (Source m)), (ContainsStr ds (Destination m)); cbn [negb];
    (split; [intros ?; split_and!; done|intros [[? ?] ?]; done]).
Qed.

Lemma disjointFrom_Ok a rest : disjointFrom a rest = Ok tt <-> Forall (fun b => topologyOverlaps a b = false) rest.
Proof.
  induction rest as [|b rest IH]; cbn [disjointFrom]; [split; [constructor|done]|].
  rewrite Forall_cons, <- IH. destruct (topologyOverlaps a b); (split; [done|by intros [? ?]]).
Qed.

(** A workspace in two failure domains makes them overlap. *)
Lemma overlap_of_matches w a b :
  matchesSourceFailureDomain w a = true -> matchesSourceFailureDomain w b = true -> topologyOverlaps a b = true.
Proof.
  unfold matchesSourceFailureDomain, topologyOverlaps. intros [Ha1 Ha2]%andb_true_iff [Hb1 Hb2]%andb_true_iff.
  apply String.eqb_eq in Ha1, Hb1. rewrite <- Ha1, <- Hb1, String.eqb_refl; cbn [andb].
  apply orb_true_iff in Ha2 as [Ha2|Ha2]; [by rewrite Ha2|].
  apply orb_true_iff in Hb2 as [Hb2|Hb2]; [by rewrite Hb2, orb_true_r|].
  apply String.eqb_eq in Ha2, Hb2. rewrite <- Ha2, <- Hb2, String.eqb_refl. by rewrite orb_true_r.
Qed.

Lemma disjoint_at_most_one w fds :
  validateSourceFDTopologyDisjoint fds = Ok tt ->
  length (filter (fun fd => matchesSourceFailureDomain w fd = true) fds) <= 1.
Proof.
  induction fds as [|a fds IH]; cbn [validateSourceFDTopologyDisjoint]; [cbn; lia|].
  destruct (disjointFrom a fds) as [[]|] eqn:E; [|done]. intros Hd. specialize (IH Hd).
  apply disjointFrom_Ok in E. rewrite filter_cons. case_decide as Ha; [|done]. cbn [length].
  rewrite filter_none; [cbn; lia|]. eapply Forall_impl; [exact E|]. cbn. intros b Hb Hm.
  rewrite (overlap_of_matches w a b) in Hb by done. done.
Qed.

Lemma mappingBySource_foldl ms (acc : gmap string string) s :
  NoDup (Source <$> ms) ->
  foldl (fun bySource m => <[Source m := Destination m]> bySource) acc ms !! s =
    match List.find (fun m => String.eqb (Source m) s) ms with
    | Some m => Some (Destination m)
    | None => acc !! s
    end.
Proof.
  revert acc; induction ms as [|m ms IH]; intros acc; [done|]. rewrite fmap_cons, NoDup_cons. intros [Hn Hd].
  cbn. rewrite IH by done. destruct (String.eqb_spec (Source m) s) as [<-|Hne].
  - destruct (List.find _ ms) as [m'|] eqn:E; [|by rewrite lookup_insert_eq].
    apply find_some in E as [Hin Heq%String.eqb_eq]. exfalso. apply Hn. rewrite <- Heq.
    apply list_elem_of_fmap. exists m'. split; [done|by apply list_elem_of_In].
  - destruct (List.find _ ms); [done|]. by rewrite lookup_insert_ne.
Qed.

(** On lists without duplicate sources, equal maps are equal up to order. *)
Lemma mappingBySource_lookup ms s d :
  NoDup (Source <$> ms) -> mappingBySource ms !! s = Some d <-> MkMapping s d ∈ ms.
Proof.
  intros Hn. unfold mappingBySource. rewrite mappingBySource_foldl by done.
  destruct (List.find _ ms) as [m|] eqn:E.
  - apply find_some in E as [Hin%list_elem_of_In Heq%String.eqb_eq]. split.
    + intros [= <-]. subst s. by destruct m.
    + intros Hin'. f_equal. subst s. apply list_elem_of_lookup in Hin as [i Hi], Hin' as [j Hj].
      assert (i = j) as ->; [|rewrite Hi in Hj; by destruct m; simplify_eq/=].
      eapply NoDup_lookup; [exact Hn| |]; rewrite list_lookup_fmap; [by rewrite Hi|by rewrite Hj].
  - rewrite lookup_empty. split; [done|]. intros Hin%list_elem_of_In.
    pose proof (find_none _ _ E _ Hin) as Hx. cbn in Hx. by rewrite String.eqb_refl in Hx.
Qed.

Lemma mappingBySource_perm ms ms' :
  NoDup (Source <$> ms) -> NoDup (Source <$> ms') -> mappingBySource ms = mappingBySource ms' <-> ms ≡ₚ ms'.
Proof.
  intros Hn Hn'. split.
  - intros Heq. apply NoDup_Permutation; [by eapply NoDup_fmap_1..|]. intros [s d].
    by rewrite <- !mappingBySource_lookup, Heq.
  - intros Hp. apply map_eq. intros s. apply option_eq. intros d. rewrite !mappingBySource_lookup by done. by rewrite Hp.
Qed.

Definition agrees (requested bySource : gmap string string) (source : string) : bool :=
  bool_decide (bySource !! source = Some (default "" (requested !! source))).

Lemma wp_agree {G} (O : Observer G) l (good : string -> bool) (body : string -> IO unit) (Q : result unit -> G -> Prop) g :
  (forall x, good x = true -> body x = ok tt) -> (forall x, good x = false -> exists e, body x = fail e) ->
  (forall r, is_ok r = forallb good l -> Q r g) -> wp O (io_for l body) Q g.
Proof.
  intros Ht Hf. induction l as [|x l IH]; intros HQ; [by apply HQ|]. cbn [io_for forallb] in *.
  apply wp_io_bind. destruct (good x) eqn:E.
  - rewrite Ht by done. cbn. apply IH. intros r Hr. by apply HQ.
  - destruct (Hf x E) as [e ->]. cbn. by apply HQ.
Qed.

(** Two maps of one size with the first within the second are equal. *)
Lemma agree_all (requested bySource : gmap string string) ks :
  ks ≡ₚ elements (dom requested) -> size requested = size bySource ->
  forallb (agrees requested bySource) ks = true <-> requested = bySource.
Proof.
  intros Hk Hs. rewrite forallb_forall. split.
  - intros Hall. assert (requested ⊆ bySource) as Hsub.
    { apply map_subseteq_spec. intros s d Hd. specialize (Hall s).
      assert (In s ks) as Hin. { apply list_elem_of_In. rewrite Hk, elem_of_elements. by apply elem_of_dom_2 in Hd. }
      apply Hall in Hin. unfold agrees in Hin. rewrite Hd in Hin. by apply bool_decide_eq_true in Hin. }
    apply map_eq. intros s. destruct (bySource !! s) as [d|] eqn:E; [|by eapply lookup_weaken_None].
    destruct (requested !! s) as [d'|] eqn:E'; [by rewrite <- E; symmetry; eapply lookup_weaken|].
    assert (requested ⊂ bySource) as Hlt%map_subset_size by (split; [done|]; intros Hc; by rewrite (lookup_weaken _ _ _ _ E Hc) in E').
    lia.
  - intros -> s Hin%list_elem_of_In. rewrite Hk, elem_of_elements, elem_of_dom in Hin. destruct Hin as [d Hd].
    unfold agrees. rewrite Hd. by apply bool_decide_eq_true.
Qed.

Section CoverageFacts.
Context `{ProviderCodec}.

Lemma forEach_Ok msList mappings sourceFDs fn :
  forEachRunningSourceMachineSet msList mappings sourceFDs fn = Ok tt ->
  forall ms, ms ∈ msList -> hasRunningReplicas ms = true ->
  exists p w fd m, ExtractVSphereProviderSpec ms = Ok p /\ ps_Workspace p = Some w /\
    filter (fun fd => matchesSourceFailureDomain w fd = true) sourceFDs = [fd] /\
    m ∈ mappings /\ Source m = fd_Name fd /\ fn ms m = Ok tt.
Proof.
  induction msList as [|x msList IH]; intros Hall ms Hin Hrun; [by apply not_elem_of_nil in Hin|].
  cbn [forEachRunningSourceMachineSet] in Hall. unfold matchSourceMachineSetFailureDomain in Hall.
  destruct (ExtractVSphereProviderSpec x) as [p|] eqn:Hp; [|done]. cbn [wrapf] in Hall.
  destruct (ps_Workspace p) as [w|] eqn:Hw; [|done].
  destruct (Nat.ltb_spec 1 (length (filter (fun fd => matchesSourceFailureDomain w fd = true) sourceFDs))) as [|Hlen]; [done|].
  destruct (hasRunningReplicas x) eqn:Hx; cbn [negb] in Hall.
  - destruct (last _) as [fd|] eqn:Hl; [|done]. destruct (List.find _ mappings) as [m|] eqn:Hf; [|done].
    destruct (fn x m) as [[]|] eqn:Hfn; [|done].
    apply elem_of_cons in Hin as [->|Hin]; [|by apply IH].
    apply find_some in Hf as [Hm%list_elem_of_In Hs%String.eqb_eq].
    exists p, w, fd, m. split_and!; try done.
    destruct (filter _ sourceFDs) as [|a [|b l]]; cbn in *; [done|by simplify_eq|lia].
  - apply elem_of_cons in Hin as [->|Hin]; [congruence|by apply IH].
Qed.

(** What it takes to cover a source MachineSet: it lies in exactly one source failure domain,
    that one is mapped, and its destination has a MachineSet among [names]. *)
Definition coveredBy (infraID : string) (mappings : list FailureDomainMapping) (sourceFDs : list FailureDomain)
    (names : list string) (ms : MachineSet) : Prop :=
  exists p w fd m name, ExtractVSphereProviderSpec ms = Ok p /\ ps_Workspace p = Some w /\
    filter (fun fd => matchesSourceFailureDomain w fd = true) sourceFDs = [fd] /\
    m ∈ mappings /\ Source m = fd_Name fd /\ name ∈ names /\
    matchesBase (workerMachineSetName infraID (Destination m) names) name = true.

Lemma coverage_covers msList infraID mappings sourceFDs names :
  validateSourceMachineSetCoverage msList infraID mappings sourceFDs names = Ok tt ->
  forall ms, ms ∈ msList -> ~ scaledToZero ms -> coveredBy infraID mappings sourceFDs names ms.
Proof.
  intros Hcov ms Hin Hrun%hasRunningReplicas_spec. unfold validateSourceMachineSetCoverage in Hcov.
  destruct (forEach_Ok _ _ _ _ Hcov ms Hin Hrun) as (p & w & fd & m & Hp & Hw & Hf & Hm & Hs & Hfn).
  cbv beta zeta in Hfn. destruct (recordedWorkerMachineSetNames names _) as [|name l] eqn:E; [done|].
  assert (name ∈ recordedWorkerMachineSetNames names (workerMachineSetName infraID (Destination m) names)) as Hname
    by (rewrite E; left). apply elem_of_recorded in Hname as [? ?]. by exists p, w, fd, m, name.
Qed.

End CoverageFacts.

(** ** Properties *)

(** the resolved mapping is a one-to-one pairing of the source failure domains with the
    destinations.  For a list with unique sources and unique destinations (which the API
    server enforces) it is accepted exactly when its sources are the source failure domains
    and its destinations the destination ones, each once, and is then used as it is; an
    omitted list is accepted exactly for a single pair. *)
Theorem resolveFailureDomainMappings_bijective (mappings : list FailureDomainMapping) (sourceFDs destFDs : list FailureDomain) :
  NoDup (Source <$> mappings) -> NoDup (Destination <$> mappings) ->
  (forall ms, resolveFailureDomainMappings mappings sourceFDs destFDs = Ok ms ->
     Source <$> ms ≡ₚ failureDomainNames sourceFDs /\ Destination <$> ms ≡ₚ failureDomainNames destFDs) /\
  (mappings <> [] -> Source <$> mappings ≡ₚ failureDomainNames sourceFDs -> Destination <$> mappings ≡ₚ failureDomainNames destFDs ->
     resolveFailureDomainMappings mappings sourceFDs destFDs = Ok mappings).
Proof.
  intros HnS HnD. unfold failureDomainNames. split.
  - intros ms. destruct mappings as [|m mappings'] eqn:Em.
    { cbn. by destruct sourceFDs as [|? []], destFDs as [|? []]; intros; simplify_eq. }
    cbn [resolveFailureDomainMappings]. rewrite <- Em in *.
    destruct (knownNames _ _ mappings) as [[]|] eqn:Ek; [|done]. apply knownNames_Ok in Ek. rewrite Forall_forall in Ek.
    destruct (negb _ || negb _) eqn:El; [done|]. intros [= <-]. reflect_bools.
    split; apply NoDup_cover; rewrite ?length_fmap; auto with lia.
    + intros x (y & -> & Hy)%list_elem_of_fmap. by apply Ek.
    + intros x (y & -> & Hy)%list_elem_of_fmap. by apply Ek.
  - intros Hne HS HD. destruct mappings as [|m mappings'] eqn:Em; [done|].
    cbn [resolveFailureDomainMappings]. rewrite <- Em in *.
    assert (knownNames (fd_Name <$> sourceFDs) (fd_Name <$> destFDs) mappings = Ok tt) as ->.
    { apply knownNames_Ok, Forall_forall. intros x Hx. rewrite <- HS, <- HD. split; by apply list_elem_of_fmap_2. }
    apply Permutation_length in HS, HD. rewrite !length_fmap in HS, HD. by rewrite <- HS, <- HD, !Nat.eqb_refl.
Qed.

Lemma resolveFailureDomainMappings_bijective_witness :
  resolveFailureDomainMappings [MkMapping "a" "x"; MkMapping "b" "y"]
    [example_fd "b" "old" "d" "p"; example_fd "a" "old" "d" "q"] [example_fd "x" "new" "d" "p"; example_fd "y" "new" "d" "q"]
  = Ok [MkMapping "a" "x"; MkMapping "b" "y"].
Proof.
  apply resolveFailureDomainMappings_bijective; [apply (bool_decide_unpack _); by vm_compute..|done| |].
  - apply Permutation_swap.
  - reflexivity.
Defined.

(** C27: before a mapping is recorded every request is accepted; once one is, a request is
    accepted exactly when it is empty (clearing the list is tolerated) or the recorded list up
    to reordering, in whatever order Go walks its maps.  Both lists have one entry per source,
    as the schema demands of the requested one. *)
Theorem ensureMappingImmutable_correct {W} (h : W -> forall c, resp c * W) (w : W) (migration : Migration) :
  let recorded := StatusMappings (mig_Status migration) in
  let requested := FailureDomainMappings (mig_Spec migration) in
  NoDup (Source <$> recorded) -> NoDup (Source <$> requested) ->
  is_ok (run h (ensureMappingImmutable migration) w).1.1 = true <->
  recorded = [] \/ requested = [] \/ requested ≡ₚ recorded.
Proof.
  intros recorded requested Hn Hn'.
  rewrite <- (mappingBySource_perm requested recorded) by done.
  assert (wp (@only (fun _ => True)) (ensureMappingImmutable migration)
    (fun r _ => is_ok r = true <-> recorded = [] \/ requested = [] \/ mappingBySource requested = mappingBySource recorded) tt) as Hwp.
  { unfold ensureMappingImmutable. fold recorded. cbv zeta. fold requested.
    destruct recorded as [|r recorded'] eqn:Er; [cbn; tauto|]. destruct requested as [|q requested'] eqn:Eq; [cbn; tauto|].
    rewrite <- Er, <- Eq in *. destruct (Nat.eqb_spec (size (mappingBySource requested)) (size (mappingBySource recorded))) as [Hs|Hs]; cbn [negb].
    - unfold map_order. repeat wp_step; [done|]. intros ks _. repeat wp_step.
      apply (wp_agree _ _ (agrees (mappingBySource requested) (mappingBySource recorded))).
      + intros x. unfold agrees. intros Hx%bool_decide_eq_true. rewrite Hx. by rewrite String.eqb_refl.
      + intros x. unfold agrees. intros Hx%bool_decide_eq_false. destruct (mappingBySource recorded !! x) as [want|]; [|eauto].
        destruct (String.eqb_spec want (default "" (mappingBySource requested !! x))); [congruence|]. cbn. eauto.
      + intros res ->. rewrite agree_all; [|by case_decide|done]. split; [auto|]. intros [?|[?|?]]; congruence.
    - cbn. split; [done|]. intros [?|[?|?]]; congruence. }
  by apply (wp_run_all _ h _ _ _ w) in Hwp as [_ ?].
Qed.

(** source failure domains that pass the topology check never both claim a MachineSet: any
    workspace lies in at most one of them, so matching never fails for ambiguity. *)
Theorem disjoint_topology_unambiguous `{ProviderCodec} (sourceFDs : list FailureDomain) (ms : MachineSet) (p : ProviderSpec) (w : Workspace) :
  validateSourceFDTopologyDisjoint sourceFDs = Ok tt ->
  ExtractVSphereProviderSpec ms = Ok p -> ps_Workspace p = Some w ->
  exists fd, matchSourceMachineSetFailureDomain ms sourceFDs = Ok (hasRunningReplicas ms, w, fd) /\
    (forall x, x ∈ sourceFDs -> matchesSourceFailureDomain w x = true <-> fd = Some x).
Proof.
  intros Hd Hp Hw. pose proof (disjoint_at_most_one w sourceFDs Hd) as Hlen.
  unfold matchSourceMachineSetFailureDomain. rewrite Hp. cbn [wrapf]. rewrite Hw.
  destruct (Nat.ltb_spec 1 (length (filter (fun fd => matchesSourceFailureDomain w fd = true) sourceFDs))); [lia|].
  eexists. split; [done|]. intros x Hx.
  assert (matchesSourceFailureDomain w x = true <-> x ∈ filter (fun fd => matchesSourceFailureDomain w fd = true) sourceFDs) as ->
    by (rewrite list_elem_of_filter; tauto).
  destruct (filter _ sourceFDs) as [|a [|b l]]; cbn in *; [|rewrite list_elem_of_singleton; split; congruence|lia].
  split; [by intros ?%not_elem_of_nil|done].
Qed.

Lemma disjoint_topology_unambiguous_witness :
  exists fd, matchSourceMachineSetFailureDomain (example_ms "ms" "old" "d" "q" None) [example_fd "a" "old" "d" "p"; example_fd "b" "old" "d" "q"]
    = Ok (true, MkWorkspace "old" "d" "" "ds" "q" "", fd) /\
    (forall x, x ∈ [example_fd "a" "old" "d" "p"; example_fd "b" "old" "d" "q"] ->
       matchesSourceFailureDomain (MkWorkspace "old" "d" "" "ds" "q" "") x = true <-> fd = Some x).
Proof. eapply (disjoint_topology_unambiguous _ (example_ms "ms" "old" "d" "q" None)); vm_compute; reflexivity. Defined.

(** C15: when the coverage gate passes, no running source capacity is left behind: every source
    MachineSet with running (or defaulted) replicas lies in exactly one source failure
    domain, that failure domain is mapped, and its destination has a recorded MachineSet. *)
Theorem coverage_gate_sound `{ProviderCodec} (msList : list MachineSet) (infraID : string) (mappings : list FailureDomainMapping)
    (sourceFDs : list FailureDomain) (recorded : list string) :
  validateSourceMachineSetCoverage msList infraID mappings sourceFDs recorded = Ok tt ->
  forall ms, ms ∈ msList -> ~ scaledToZero ms -> coveredBy infraID mappings sourceFDs recorded ms.
Proof. apply coverage_covers. Qed.

Lemma coverage_gate_sound_witness :
  coveredBy "inf" [MkMapping "b" "y"] [example_fd "b" "old" "d" "q"] ["inf-worker-y"] (example_ms "ms" "old" "d" "q" None).
Proof.
  apply (coverage_gate_sound [example_ms "ms" "old" "d" "q" None] "inf"); [by vm_compute|left|by intros (? & ? & _)].
Defined.

Lemma ensureMappingImmutable_correct_witness :
  let spec := MkSpec "Running" (MkSecretReference "s" "n") [] [MkMapping "b" "y"; MkMapping "a" "x"] None in
  let status := MkStatus None [] [MkMapping "a" "x"; MkMapping "b" "y"] [] "" None None None "" None in
  let m := MkMigration "cluster" "ns" "uid" "1" 1 None ∅ [] spec status in
  is_ok (run (answering (fun _ => None)) (ensureMappingImmutable m) tt).1.1 = true.
Proof.
  apply (ensureMappingImmutable_correct (answering (fun _ => None)) tt);
    [apply (bool_decide_unpack _); by vm_compute..|]. right; right. apply Permutation_swap.
Defined.
