(* ===== verification/Admission.v ===== *)
(** * What the API server admits (api/v1alpha1, config/crd)

    The schema of the migration resource as the CRD publishes it: defaults, lengths,
    patterns, list types and the CEL rules.  An admitted resource is the operator's input;
    the theorems say which of the operator's run-time checks the schema already decides, and
    that an accepted mapping of an admitted resource pairs the failure domains one to one. *)

From S2P Require Import Prelude GoErrors Objects NodeMigration Types Naming Codec Machines Mapping.
Import GoStr.

(** ** Patterns *)

Definition newline : string := String (Ascii.ascii_of_nat 10) "".

(** [.*?seg]: [seg] occurs, and no line ends before it; what follows it. *)
Definition lazyUntil (seg s : string) : option string :=
  match Index s seg with
  | Some n => if Contains (stake n s) newline then None else Some (sdrop (n + String.length seg) s)
  | None => None
  end.

(** [^/.*?seg.*?], the shape of an inventory path under [seg]. *)
Definition inventoryPath (seg s : string) : bool :=
  match CutPrefix s "/" with Some rest => bool_decide (is_Some (lazyUntil seg rest)) | None => false end.

(** [^/.*?/host/.*?/Resources.*]. *)
Definition resourcePoolPath (s : string) : bool :=
  match CutPrefix s "/" with
  | Some rest =>
      match lazyUntil "/host/" rest with
      | Some rest' => bool_decide (is_Some (lazyUntil "/Resources" rest'))
      | None => false
      end
  | None => false
  end.

Definition is_between (lo hi : nat) (c : ascii) : bool :=
  let n := Ascii.nat_of_ascii c in (lo <=? n)%nat && (n <=? hi)%nat.
Definition is_lower_letter (c : ascii) : bool := is_between 97 122 c.
Definition is_letter (c : ascii) : bool := is_lower_letter c || is_between 65 90 c.
Definition is_alnum (c : ascii) : bool := is_letter c || is_digit c.
Definition is_lower_alnum (c : ascii) : bool := is_lower_letter c || is_digit c.

(** [first rest* last] or a single character that is both. *)
Definition delimited (first inner last : ascii -> bool) (s : string) : bool :=
  match s with
  | EmptyString => false
  | String c rest =>
      first c && sforall inner rest &&
      match rest with EmptyString => true | _ => sforall last (sdrop (String.length rest - 1) rest) end
  end.

(** [^[A-Za-z]([A-Za-z0-9_,:]*[A-Za-z0-9_])?$]. *)
Definition reasonPattern (s : string) : bool :=
  delimited is_letter (fun c => is_alnum c || is_char c "_" || is_char c "," || is_char c ":")
    (fun c => is_alnum c || is_char c "_") s.

(** The condition type: an optional DNS prefix and a name. *)
Definition dnsLabel (s : string) : bool :=
  delimited is_lower_alnum (fun c => is_lower_alnum c || is_char c "-") is_lower_alnum s.
Definition conditionName (s : string) : bool :=
  delimited is_alnum (fun c => is_alnum c || is_char c "-" || is_char c "_" || is_char c ".") is_alnum s.
Definition conditionTypePattern (s : string) : bool :=
  match Split s "/" with
  | [name] => conditionName name
  | [prefix; name] => forallb dnsLabel (Split prefix ".") && conditionName name
  | _ => false
  end.

(** ** The spec *)

Definition validSecretReference (r : SecretReference) : bool := lengthWithin 1 253 (sr_Name r).

Definition validMapping (m : FailureDomainMapping) : bool := lengthWithin 1 256 (Source m) && lengthWithin 1 256 (Destination m).

Definition validTopology (t : Topology) : bool :=
  lengthWithin 0 2048 (t_ComputeCluster t) && inventoryPath "/host/" (t_ComputeCluster t) &&
  lengthWithin 0 80 (t_Datacenter t) &&
  lengthWithin 0 2048 (t_Datastore t) && inventoryPath "/datastore/" (t_Datastore t) &&
  whenSet (fun s => lengthWithin 0 2048 s && inventoryPath "/vm/" s) (t_Folder t) &&
  (1 <=? length (t_Networks t))%nat &&
  whenSet (fun s => lengthWithin 0 2048 s && resourcePoolPath s) (t_ResourcePool t) &&
  whenSet (fun s => lengthWithin 1 2048 s && inventoryPath "/vm/" s) (t_Template t).

(** The host group of a zone affinity is not carried by [FailureDomain]; its discriminator is. *)
Definition validFailureDomain (fd : FailureDomain) : bool :=
  lengthWithin 1 256 (fd_Name fd) && lengthWithin 1 80 (fd_Region fd) && lengthWithin 1 80 (fd_Zone fd) &&
  lengthWithin 1 255 (fd_Server fd) &&
  whenSome (fun t => ContainsStr ["ComputeCluster"; "Datacenter"] t) (fd_RegionAffinity fd) &&
  whenSome (fun t => ContainsStr ["HostGroup"; "ComputeCluster"] t) (fd_ZoneAffinity fd) &&
  validTopology (fd_Topology fd).

(** [self.all(m, self.exists_one(n, n.destination == m.destination))]. *)
Definition destinationsUnique (mappings : list FailureDomainMapping) : bool :=
  forallb (fun m => (length (filter (fun n => Destination n = Destination m) mappings) =? 1)%nat) mappings.

(** [+listType=map], [+listMapKey=source], and the rules of the list; an empty list is an
    omitted one. *)
Definition validMappings (mappings : list FailureDomainMapping) : bool :=
  (length mappings <=? 64)%nat && bool_decide (NoDup (Source <$> mappings)) && forallb validMapping mappings &&
  destinationsUnique mappings.

(** The spec as the manifest gives it: what has a default may be omitted. *)
Record SpecManifest := MkSpecManifest {
  sm_State : option string;
  sm_TargetVCenterCredentialsSecret : SecretReference;
  sm_FailureDomains : list FailureDomain;
  sm_FailureDomainMappings : list FailureDomainMapping;
  sm_NodeMigration : option NodeMigrationManifest;
}.

Definition defaultSpec (spec : SpecManifest) : MigrationSpec :=
  MkSpec (default MigrationStatePending (sm_State spec)) (sm_TargetVCenterCredentialsSecret spec)
    (sm_FailureDomains spec) (sm_FailureDomainMappings spec) (defaultNodeMigration <$> sm_NodeMigration spec).

Definition validSpec (spec : MigrationSpec) : bool :=
  ContainsStr [MigrationStatePending; MigrationStateRunning; MigrationStatePaused] (State spec) &&
  validSecretReference (TargetVCenterCredentialsSecret spec) &&
  (1 <=? length (FailureDomains spec))%nat && (length (FailureDomains spec) <=? 64)%nat &&
  forallb validFailureDomain (FailureDomains spec) &&
  forallb (fun fd => negb (String.eqb (t_Template (fd_Topology fd)) "")) (FailureDomains spec) &&
  validMappings (FailureDomainMappings spec) &&
  forallb (fun m => ContainsStr (fd_Name <$> FailureDomains spec) (Destination m)) (FailureDomainMappings spec) &&
  whenSome validNodeMigration (NodeMigration spec).

(** ** The status *)

(** A condition but for the length of its message. *)
Definition conditionShape (c : Condition) : bool :=
  (RuneCount (c_Type c) <=? 316)%Z && conditionTypePattern (c_Type c) &&
  ContainsStr [ConditionTrue; ConditionFalse; ConditionUnknown] (c_Status c) && (0 <=? c_ObservedGeneration c)%Z &&
  bool_decide (is_Some (c_LastTransitionTime c)) && lengthWithin 1 1024 (c_Reason c) && reasonPattern (c_Reason c).

Definition validCondition (c : Condition) : bool := conditionShape c && lengthWithin 0 32768 (c_Message c).

(** [+listType=map], [+listMapKey=type]. *)
Definition validConditions (conds : list Condition) : bool :=
  bool_decide (NoDup (c_Type <$> conds)) && forallb validCondition conds.

Definition validStatus (st : MigrationStatus) : bool :=
  validConditions (Conditions st) && forallb validMapping (StatusMappings st) &&
  (length (WorkerMachineSetNames st) <=? 256)%nat && whenSet digest64 (CompletionSpecHash st) &&
  whenSome validNodeMigrationStatus (StatusNodeMigration st).

(** ** The resource *)

(** The rule on the whole object: mappings may be omitted for a single failure domain, or
    once effective mappings are recorded. *)
Definition mappingsGiven (m : Migration) : bool :=
  bool_decide (FailureDomainMappings (mig_Spec m) <> []) || (length (FailureDomains (mig_Spec m)) =? 1)%nat ||
  bool_decide (StatusMappings (mig_Status m) <> []).

Definition admitted (m : Migration) : bool := validSpec (mig_Spec m) && validStatus (mig_Status m) && mappingsGiven m.

(** ** Facts *)

Lemma destinationsUnique_NoDup ms : destinationsUnique ms = true -> NoDup (Destination <$> ms).
Proof.
  unfold destinationsUnique. rewrite forallb_forall. intros Hu. apply NoDup_alt. intros i j x Hi Hj.
  rewrite list_lookup_fmap in Hi, Hj.
  destruct (ms !! i) as [m|] eqn:Ei; [|done]. destruct (ms !! j) as [m'|] eqn:Ej; [|done]. cbn in Hi, Hj. simplify_eq.
  assert (In m ms) as Hin by (apply list_elem_of_In; by eapply list_elem_of_lookup_2).
  specialize (Hu m Hin). reflect_bools. destruct (decide (i = j)) as [|Hne]; [done|exfalso].
  assert (forall a b m1 m2, a < b -> ms !! a = Some m1 -> ms !! b = Some m2 -> Destination m1 = Destination m -> Destination m2 = Destination m -> False) as Hlt.
  { intros a b m1 m2 Hab Ha Hb D1 D2. apply list_elem_of_split_length in Ha as (l1 & l2 & -> & Hla).
    rewrite lookup_app_r in Hb by lia. destruct (b - length l1) as [|k] eqn:Ek; [lia|]. cbn in Hb.
    rewrite filter_app, filter_cons, decide_True, length_app in Hu by done. cbn in Hu.
    assert (m2 ∈ filter (fun n => Destination n = Destination m) l2) as Hin2
      by (apply list_elem_of_filter; split; [done|by eapply list_elem_of_lookup_2]).
    destruct (filter _ l2); [by apply not_elem_of_nil in Hin2|]. cbn in Hu. lia. }
  destruct (Nat.lt_total i j) as [?|[?|?]]; [by eapply (Hlt i j)|done|by eapply (Hlt j i)].
Qed.

Lemma forallb_Forall {A} (p : A -> bool) l : forallb p l = true <-> Forall (fun x => p x = true) l.
Proof. rewrite forallb_forall, Forall_forall. by setoid_rewrite list_elem_of_In. Qed.

(** What the operator relies on in the mappings of an admitted spec. *)
Lemma validSpec_mappings spec :
  validSpec spec = true ->
  NoDup (Source <$> FailureDomainMappings spec) /\ NoDup (Destination <$> FailureDomainMappings spec) /\
  Destination <$> FailureDomainMappings spec ⊆ failureDomainNames (FailureDomains spec).
Proof.
  unfold validSpec, validMappings. intros Hv. reflect_bools. split_and!; [done|by apply destinationsUnique_NoDup|].
  intros x (m & -> & Hm)%list_elem_of_fmap. rewrite forallb_Forall, Forall_forall in *. by apply ContainsStr_spec; eauto.
Qed.

(** Given mappings are used as they are. *)
Lemma resolve_given given srcs dsts ms :
  given <> [] -> resolveFailureDomainMappings given srcs dsts = Ok ms -> ms = given.
Proof.
  unfold resolveFailureDomainMappings. destruct given; [done|]. intros _.
  destruct (knownNames _ _ _); [|done]. cbn. by destruct (_ || _); intros; simplify_eq.
Qed.

(** ** Properties *)

(** C14: An accepted mapping of an admitted migration pairs the failure domains one to one.
    For a resource the API server admitted, the mapping the operator derives uses every source
    failure domain and every destination exactly once, names on both sides are then distinct
    (which the schema does not ask of spec.failureDomains), and given mappings are used as
    they are.  It is refused exactly when the given sources are not the source failure
    domains, the numbers of mappings and destinations differ, or, with mappings omitted,
    there is not one source and one destination: the schema has decided everything else. *)
Theorem admitted_mapping_bijective (m : Migration) (infraFDs : list FailureDomain) :
  admitted m = true ->
  let sources := failureDomainNames (filter (fun fd => isConfiguredDestination m (fd_Server fd) = false) infraFDs) in
  let dests := failureDomainNames (FailureDomains (mig_Spec m)) in
  let given := FailureDomainMappings (mig_Spec m) in
  (forall ms, seedFailureDomainMappings m infraFDs = Ok ms ->
     Source <$> ms ≡ₚ sources /\ Destination <$> ms ≡ₚ dests /\ NoDup sources /\ NoDup dests /\ (given <> [] -> ms = given)) /\
  (is_ok (seedFailureDomainMappings m infraFDs) = true <->
     if decide (given = []) then length sources = 1 /\ length dests = 1
     else Source <$> given ≡ₚ sources /\ length given = length dests).
Proof.
  intros Ha sources dests given. unfold admitted in Ha. reflect_bools.
  destruct (validSpec_mappings (mig_Spec m)) as (HS & HD & Hin); [done|].
  unfold seedFailureDomainMappings. fold given in HS, HD, Hin |- *. subst sources dests.
  set (srcs := filter _ infraFDs). set (dsts := FailureDomains (mig_Spec m)) in *.
  destruct (resolveFailureDomainMappings_bijective given srcs dsts HS HD) as [Hto Hfrom]. split.
  - intros ms Hms. destruct (Hto ms Hms) as [Ps Pd]. destruct (decide (given = [])) as [E|E].
    + rewrite E in Hms. cbn in Hms. destruct srcs as [|s []], dsts as [|d []]; try done. simplify_eq.
      split_and!; [done|done|apply NoDup_singleton..|done].
    + apply resolve_given in Hms as ->; [|done].
      split_and!; [done..|by rewrite <- Ps|by rewrite <- Pd|done].
  - case_decide as E.
    + rewrite E. cbn. destruct srcs as [|s []], dsts as [|d []]; cbn; split; (done || (intros [? ?]; lia)).
    + split.
      * destruct (resolveFailureDomainMappings given srcs dsts) as [ms|] eqn:Hms; [|done]. intros _.
        destruct (Hto ms eq_refl) as [Ps Pd]. apply resolve_given in Hms as ->; [|done].
        split; [done|]. apply Permutation_length in Pd. by rewrite length_fmap in Pd.
      * intros [Ps Hl]. rewrite Hfrom; [done|done|done|]. apply NoDup_cover; [done|done|]. rewrite length_fmap. lia.
Qed.

Definition example_destination (name zone : string) : FailureDomain :=
  MkFailureDomain name "region" zone None None "vc-new"
    (MkTopology "DC" "/DC/host/C1" ["VM Network"] "/DC/datastore/DS" "" "" "/DC/vm/rhcos").
Definition example_admitted : Migration :=
  MkMigration SingletonName SingletonNamespace "uid" "1" 1 None ∅ []
    (MkSpec MigrationStateRunning (MkSecretReference "creds" "") [example_destination "x" "z1"; example_destination "y" "z2"]
       [MkMapping "b" "x"; MkMapping "a" "y"] None)
    (MkStatus None [] [] [] "" None None None "" None).

Lemma admitted_mapping_bijective_witness :
  admitted example_admitted = true /\
  forall ms, seedFailureDomainMappings example_admitted [example_fd "a" "old" "d" "p"; example_fd "b" "old" "d" "q"] = Ok ms ->
    ms = [MkMapping "b" "x"; MkMapping "a" "y"].
Proof.
  assert (admitted example_admitted = true) as Ha by (vm_compute; reflexivity). split; [exact Ha|].
  intros ms Hms. eapply (admitted_mapping_bijective example_admitted _ Ha); [exact Hms|done].
Defined.
