(* ===== verification/Destinations.v ===== *)
(** * Destination MachineSets (internal/controller)

    The names a mapping generates and must keep, the check against collisions, the released
    operator's aggregate layout, and the plan and creation of the destination MachineSets. *)

From S2P Require Import Prelude GoErrors Objects Types Effects Execution Naming Metrics Status Codec Machines Mapping.
Import GoStr.

Definition maxDestinationWorkerMachineSets : nat := 256.

(** [log]ging aside, [r.Recorder.Eventf(migration, nil, type, reason, reason, format, args...)]. *)
Definition Eventf (type reason format : string) (args : list rarg) : M unit :=
  event type reason (Sprintf format args).

(** ** Collision check *)

Definition basesOverlap (base previous : string) : bool :=
  String.eqb base previous || isSuffixedMachineSetName base previous || isSuffixedMachineSetName previous base.

Fixpoint checkBases (base : string) (bases : list string) : result unit :=
  match bases with
  | [] => Ok tt
  | previous :: rest =>
      if basesOverlap base previous
      then Err (Errorf "generated MachineSet names for %q and %q overlap; rename the destination failure domain" [FS previous; FS base])
      else checkBases base rest
  end.

Fixpoint generateNames (base : string) (sis : list nat) (generated : list string) : result (list string) :=
  match sis with
  | [] => Ok generated
  | si :: rest =>
      let name := suffixedWorkerMachineSetName base si in
      if (maxGeneratedMachineSetNameLen <? String.length name)%nat
      then Err (Errorf "generated MachineSet name %q exceeds the %d-character Kubernetes label limit; rename the destination failure domain"
                  [FS name; FD (Z.of_nat maxGeneratedMachineSetNameLen)])
      else if ContainsStr generated name
      then Err (Errorf "generated MachineSet name %q collides with another destination" [FS name])
      else generateNames base rest (name :: generated)
  end.

Fixpoint checkExisting (base : string) (names : list string) : result unit :=
  match names with
  | [] => Ok tt
  | name :: rest =>
      if String.eqb name base || isSuffixedMachineSetName name base
      then Err (Errorf "generated MachineSet name %q collides with existing MachineSet; rename the destination failure domain" [FS name])
      else checkExisting base rest
  end.

(** ** The layout of an existing destination *)

Inductive destinationLayout := destinationLayoutPerSource | destinationLayoutLegacyAggregate | destinationLayoutAmbiguous.

Definition validateLegacyAggregateCapacity (base : string) (aggregateReplicas sourceReplicas : Z) : result unit :=
  if (sourceReplicas <=? aggregateReplicas)%Z then Ok tt
  else Err (Errorf "legacy aggregate destination MachineSet %q has %d replicas but its source MachineSets run %d: scale the destination MachineSet up to at least the source total, or reduce the source MachineSets, before retrying"
              [FS base; FD aggregateReplicas; FD sourceReplicas]).

(** The [int32] sum of the desired replicas. *)
Definition sumReplicas (sources : list MachineSet) : Z :=
  foldl (fun acc source => add32 acc (machineSetDesiredReplicas source)) 0%Z sources.

Record destinationMachineSetPlan := MkPlan {
  plan_failureDomain : FailureDomain;
  plan_sourceSets : list MachineSet;
  plan_names : list string;
}.

Definition collisionError (name : string) : error :=
  Errorf "generated MachineSet name %q collides with existing MachineSet; rename the destination failure domain" [FS name].

Section Destinations.
Context `{ProviderCodec}.

Definition extractFor (ms : MachineSet) (name : string) : IO ProviderSpec :=
  of_result (wrapf "extracting provider spec from machineset %q: %w" [FS name] (ExtractVSphereProviderSpec ms)).

Definition resolveWorkerMachineSetName (infraID fdName : string) (recorded : list string) : IO string :=
  let base := workerMachineSetName infraID fdName recorded in
  let legacy := legacyWorkerName infraID (sanitizeRFC1123 fdName) in
  if String.eqb legacy base || (maxGeneratedMachineSetNameLen <? String.length legacy)%nat ||
     (0 <? length (recordedWorkerMachineSetNames recorded base))%nat
  then ok base
  else
    let! r := try (GetMachineSet legacy) in
    match r with
    | Ok _ => ok legacy
    | Err e => if negb (IsNotFound e) then fail (Errorf "getting legacy machineset %q: %w" [FS legacy; FE e]) else ok base
    end.

Definition validateMachineSetNameCollisions (infraID : string) (mappings : list FailureDomainMapping)
    (sourceFDs destFDs : list FailureDomain) : IO unit :=
  let! msList := wrapping "listing machinesets in %s: %w" [FS MachineAPINamespace] (do_call CListMachineSets) in
  let! _ := io_fold mappings ([], []) (fun '(generated, bases) m =>
    match findFailureDomainByName destFDs (Destination m) with
    | None => fail (Errorf "resolving destination failure domain %q for mapping from %q" [FS (Destination m); FS (Source m)])
    | Some fd =>
        let base := workerMachineSetName infraID (fd_Name fd) [] in
        let! _ := of_result (checkBases base bases) in
        match findFailureDomainByName sourceFDs (Source m) with
        | None => fail (Errorf "resolving source failure domain %q" [FS (Source m)])
        | Some source =>
            let! sourceSets := wrapping "listing machinesets for source failure domain %q: %w" [FS (fd_Name source)]
                                 (GetMachineSetsByFailureDomain (fd_Server source) source) in
            let! generated := of_result (generateNames base (seq 0 (max 1 (length sourceSets))) generated) in
            let! _ := of_result (checkExisting base (ms_Name <$> msList)) in
            ok (generated, bases ++ [base])
        end
    end) in
  ok tt.

Definition validateDestinationMachineSetCount (mappings : list FailureDomainMapping) (sourceFDs : list FailureDomain) : IO unit :=
  let! count := io_fold mappings 0%nat (fun count m =>
    match findFailureDomainByName sourceFDs (Source m) with
    | None => fail (Errorf "resolving source failure domain %q" [FS (Source m)])
    | Some source =>
        let! sourceSets := wrapping "listing machinesets for source failure domain %q: %w" [FS (fd_Name source)]
                             (GetMachineSetsByFailureDomain (fd_Server source) source) in
        ok (count + length sourceSets)
    end) in
  if (maxDestinationWorkerMachineSets <? count)%nat
  then fail (Errorf "failure domain mapping would generate %d destination MachineSets, exceeding the %d supported by status.workerMachineSetNames"
               [FD (Z.of_nat count); FD (Z.of_nat maxDestinationWorkerMachineSets)])
  else ok tt.

(** The loop that looks for a suffixed copy next to the base. *)
Definition suffixedCopyExists (base : string) (n : nat) : IO bool :=
  let! r := io_until (seq 1 (n - 1)) tt (fun _ si =>
    let copyName := suffixedWorkerMachineSetName base si in
    let! r := try (GetMachineSet copyName) in
    match r with
    | Ok _ => ok (inr tt)
    | Err e => if negb (IsNotFound e) then fail (Errorf "getting machineset %q: %w" [FS copyName; FE e]) else ok (inl tt)
    end) in
  ok (match r with inr _ => true | inl _ => false end).

(** [(layout, baseReplicas, sourceReplicas)]; [sources] sorted by name. *)
Definition classifyDestinationLayout (base : string) (sources : list MachineSet) (fd : FailureDomain) (recorded : list string)
    : IO (destinationLayout * Z * Z) :=
  let! r := try (GetMachineSet base) in
  match r with
  | Err e => if IsNotFound e then ok (destinationLayoutPerSource, 0%Z, 0%Z)
             else fail (Errorf "getting machineset %q: %w" [FS base; FE e])
  | Ok existing =>
      let! providerSpec := extractFor existing base in
      if targetsOtherServer providerSpec (fd_Server fd) then ok (destinationLayoutPerSource, 0%Z, 0%Z)
      else
        let baseReplicas := machineSetDesiredReplicas existing in
        let sourceReplicas := sumReplicas sources in
        let legacy := let! _ := of_result (validateLegacyAggregateCapacity base baseReplicas sourceReplicas) in
                      ok (destinationLayoutLegacyAggregate, baseReplicas, sourceReplicas) in
        if String.eqb (annotation existing LegacyAggregateAnnotation) LegacyAggregateAnnotationValue then legacy
        else if (length sources <? 2)%nat then ok (destinationLayoutPerSource, 0%Z, 0%Z)
        else if (1 <? length (recordedWorkerMachineSetNames recorded base))%nat then ok (destinationLayoutPerSource, 0%Z, 0%Z)
        else if negb (String.eqb (annotation existing SourceMachineSetAnnotation) "") then ok (destinationLayoutPerSource, 0%Z, 0%Z)
        else
          let! copyExists := suffixedCopyExists base (length sources) in
          if copyExists : bool then ok (destinationLayoutPerSource, 0%Z, 0%Z)
          else if (sourceReplicas =? 0)%Z || (baseReplicas =? sourceReplicas)%Z then legacy
          else ok (destinationLayoutAmbiguous, baseReplicas, sourceReplicas)
  end.

(** The names derived from the current sources, refusing an under-provisioned copy. *)
Definition derivePerSourceNames (base : string) (sources : list MachineSet) (fd : FailureDomain) : IO (list string) :=
  io_fold (imap pair sources) [] (fun derived '(si, source) =>
    let name := suffixedWorkerMachineSetName base si in
    let! r := try (GetMachineSet name) in
    match r with
    | Err e => if negb (IsNotFound e) then fail (Errorf "getting machineset %q: %w" [FS name; FE e]) else ok (derived ++ [name])
    | Ok destination =>
        if (machineSetDesiredReplicas destination <? machineSetDesiredReplicas source)%Z then
          let! providerSpec := extractFor destination name in
          if targetsOtherServer providerSpec (fd_Server fd) then fail (collisionError name)
          else fail (Errorf "destination MachineSet %q has %d replicas but source MachineSet %q runs %d: restore destination capacity before retrying"
                       [FS name; FD (machineSetDesiredReplicas destination); FS (ms_Name source); FD (machineSetDesiredReplicas source)])
        else ok (derived ++ [name])
    end).

(** [(names, legacyAggregate)]. *)
Definition expectedDestinationNames (base : string) (sourceMSList : list MachineSet) (fd : FailureDomain) (recorded : list string)
    : IO (list string * bool) :=
  let sources := SortBy ms_Name sourceMSList in
  let! (layout, baseReplicas, sourceReplicas) := classifyDestinationLayout base sources fd recorded in
  let! (derived, legacyAggregate) :=
    match layout with
    | destinationLayoutAmbiguous =>
        fail (Errorf "destination MachineSet %q has no source MachineSet annotation and %d replicas do not match the %d replicas of its source MachineSets: verify the MachineSet's capacity and, if it is the released operator's aggregate, annotate it with %s=true; otherwise restore the expected source MachineSets before retrying"
                [FS base; FD baseReplicas; FD sourceReplicas; FS LegacyAggregateAnnotation])
    | destinationLayoutLegacyAggregate => ok ([base], true)
    | destinationLayoutPerSource => let! derived := derivePerSourceNames base sources fd in ok (derived, false)
    end in
  ok (SortStrings (appendNames derived (recordedWorkerMachineSetNames recorded base)).1, legacyAggregate).

(** ** Recovering names a crash lost *)

Definition matchedSources (msList : list MachineSet) (sourceFD : option FailureDomain) : IO (list MachineSet) :=
  match sourceFD with
  | None => ok []
  | Some fd => io_fold msList [] (fun matched ms =>
      let! providerSpec := extractFor ms (ms_Name ms) in
      match ps_Workspace providerSpec with
      | None => fail (Errorf "extracting provider spec from machineset %q: workspace is nil" [FS (ms_Name ms)])
      | Some workspace => ok (if matchesSourceFailureDomain workspace fd then matched ++ [ms] else matched)
      end)
  end.

(** Every expected name must exist on the destination's server; the unrecorded ones are new. *)
Definition recoverNames (expected : list string) (destFD : FailureDomain) (recorded recovered : list string) : IO (list string) :=
  io_fold expected recovered (fun recovered name =>
    let! r := try (GetMachineSet name) in
    match r with
    | Err e =>
        if IsNotFound e
        then fail (Errorf "recovering unrecorded destination MachineSets: machineset %q does not exist; re-run required" [FS name])
        else fail (Errorf "getting machineset %q: %w" [FS name; FE e])
    | Ok existing =>
        let! providerSpec := extractFor existing name in
        if targetsOtherServer providerSpec (fd_Server destFD) then fail (collisionError name)
        else ok (if ContainsStr recorded name || ContainsStr recovered name then recovered else recovered ++ [name])
    end).

Definition recoverUnrecordedDestinationNames (msList : list MachineSet) (infraID : string)
    (mappings : list FailureDomainMapping) (sourceFDs : list FailureDomain) : M (list string) :=
  let@ migration := get_mig in
  let recorded := WorkerMachineSetNames (mig_Status migration) in
  let@ recovered := lift (io_fold mappings [] (fun recovered m =>
    let sourceFD := findFailureDomainByName sourceFDs (Source m) in
    let! matched := matchedSources msList sourceFD in
    match findFailureDomainByName (FailureDomains (mig_Spec migration)) (Destination m) with
    | None => fail (Errorf "resolving destination failure domain %q for mapping from %q" [FS (Destination m); FS (Source m)])
    | Some destFD =>
        let! base := resolveWorkerMachineSetName infraID (Destination m) recorded in
        if (length matched =? 0)%nat && (length (recordedWorkerMachineSetNames recorded base) =? 0)%nat then ok recovered
        else
          let! (expected, _) := expectedDestinationNames base matched destFD recorded in
          recoverNames expected destFD recorded recovered
    end)) in
  let@ _ := modify_status (fun st => set_WorkerNames (WorkerMachineSetNames st ++ recovered) st) in
  ret recovered.

End Destinations.

(** ** The gate *)

Section DestinationsGated.
Context `{ProviderCodec} (m0 : Migration).

Lemma quietM_Eventf t r f a : quietM (Eventf t r f a).
Proof. unfold Eventf. quiet_auto. Qed.
Lemma quiet_extractFor ms n : quiet (extractFor ms n).
Proof. unfold extractFor. quiet_auto. Qed.
#[local] Hint Resolve quiet_extractFor : quiet.
Lemma quiet_resolveName i f r : quiet (resolveWorkerMachineSetName i f r).
Proof. unfold resolveWorkerMachineSetName. quiet_auto. Qed.
#[local] Hint Resolve quiet_resolveName : quiet.
Lemma quiet_collisions i m s d : quiet (validateMachineSetNameCollisions i m s d).
Proof. unfold validateMachineSetNameCollisions. quiet_auto. Qed.
Lemma quiet_count m s : quiet (validateDestinationMachineSetCount m s).
Proof. unfold validateDestinationMachineSetCount. quiet_auto. Qed.
Lemma quiet_classify b s f r : quiet (classifyDestinationLayout b s f r).
Proof. unfold classifyDestinationLayout, suffixedCopyExists. quiet_auto. Qed.
#[local] Hint Resolve quiet_classify : quiet.
Lemma quiet_derive b s f : quiet (derivePerSourceNames b s f).
Proof. unfold derivePerSourceNames. quiet_auto. Qed.
#[local] Hint Resolve quiet_derive : quiet.
Lemma quiet_expected b s f r : quiet (expectedDestinationNames b s f r).
Proof. unfold expectedDestinationNames. quiet_auto. Qed.
#[local] Hint Resolve quiet_expected : quiet.
Lemma quietM_recover l i m s : quietM (recoverUnrecordedDestinationNames l i m s).
Proof. unfold recoverUnrecordedDestinationNames, matchedSources, recoverNames. quiet_auto. Qed.

End DestinationsGated.

#[export] Hint Resolve quietM_Eventf quiet_extractFor quiet_resolveName quiet_collisions quiet_count quiet_expected quietM_recover : quiet.

(** ** Facts *)

Lemma hyphen_split a b d e :
  sforall is_digit d = true -> sforall is_digit e = true -> a +:+ "-" +:+ d = b +:+ "-" +:+ e -> a = b.
Proof.
  intros Hd He. assert (forall b d, sforall is_digit d = true -> d <> b +:+ "-" +:+ e) as Hno.
  { clear. intros b d Hd ->. rewrite !sforall_app in Hd. cbn in Hd. by rewrite andb_false_r in Hd. }
  revert b; induction a as [|x a IH]; intros [|y b]; cbn; [done| | |].
  - intros [= <- Heq]. by destruct (Hno b d Hd).
  - intros [= -> Heq]. symmetry in Heq. exfalso. clear -He Heq Hd. subst e. rewrite !sforall_app in He. cbn in He.
    by rewrite andb_false_r in He.
  - intros [= -> Heq]. f_equal. by apply IH.
Qed.

(** Bases that do not overlap never share a generated name. *)
Lemma bases_disjoint b1 b2 name :
  basesOverlap b1 b2 = false -> matchesBase b1 name = true -> matchesBase b2 name = true -> False.
Proof.
  unfold basesOverlap, matchesBase. intros Ho%orb_false_iff H1%orb_true_iff H2%orb_true_iff.
  destruct Ho as [[He Hs1]%orb_false_iff Hs2]. reflect_bools.
  destruct H1 as [H1|H1], H2 as [H2|H2]; reflect_bools; subst; try congruence.
  apply isSuffixed_spec in H1 as (d1 & -> & _ & Hd1). apply isSuffixed_spec in H2 as (d2 & Heq & _ & Hd2).
  apply hyphen_split in Heq; congruence.
Qed.

Lemma basesOverlap_sym a b : basesOverlap a b = basesOverlap b a.
Proof.
  unfold basesOverlap. rewrite (String.eqb_sym a b), <- !orb_assoc. f_equal. apply orb_comm.
Qed.

Lemma checkBases_Ok base bases : checkBases base bases = Ok tt -> Forall (fun p => basesOverlap base p = false) bases.
Proof.
  induction bases as [|p bases IH]; cbn [checkBases]; [constructor|].
  destruct (basesOverlap base p) eqn:E; [done|]. intros ?. constructor; auto.
Qed.

Lemma checkExisting_Ok base names : checkExisting base names = Ok tt -> Forall (fun n => matchesBase base n = false) names.
Proof.
  induction names as [|n names IH]; cbn [checkExisting]; [constructor|]. fold (matchesBase base n).
  destruct (matchesBase base n) eqn:E; [done|]. intros ?. constructor; auto.
Qed.

(** An observer of the MachineSets as last read by name. *)
Definition seen_next (g : gmap string MachineSet) (c : call) : resp c -> gmap string MachineSet :=
  match c with
  | CGetMachineSet n => fun r => match r with Ok ms => <[n := ms]> g | Err _ => delete n g end
  | _ => fun _ => g
  end.

Definition seen : Observer (gmap string MachineSet) := MkObserver (fun _ _ => True) seen_next (fun _ _ _ => True).

Lemma wp_GetMachineSet n (Q : result MachineSet -> gmap string MachineSet -> Prop) g :
  (forall ms, Q (Ok ms) (<[n := ms]> g)) ->
  (forall e, Q (Err (Errorf "getting machineset %q: %w" [FS n; FE e])) (delete n g)) -> wp seen (GetMachineSet n) Q g.
Proof. intros H1 H2. unfold GetMachineSet. repeat wp_step; [done|]. intros [ms|e] _; cbn; auto. Qed.

(** The observer of the first listing. *)
Definition first_listing_next (g : option (list MachineSet)) (c : call) : resp c -> option (list MachineSet) :=
  match c with
  | CListMachineSets => fun r => match g, r with None, Ok l => Some l | _, _ => g end
  | _ => fun _ => g
  end.

Definition first_listing : Observer (option (list MachineSet)) := MkObserver (fun _ _ => True) first_listing_next (fun _ _ _ => True).

Lemma imap_prefix {A} (l : list A) done si x rest : imap pair l = done ++ (si, x) :: rest -> si = length done /\ l !! si = Some x.
Proof.
  intros Heq. assert (imap pair l !! length done = Some (si, x)) as Hl by (rewrite Heq; by rewrite list_lookup_middle).
  rewrite list_lookup_imap in Hl. destruct (l !! length done) eqn:E; cbn in Hl; simplify_eq. done.
Qed.

Lemma imap_before {A} (l : list A) done rest k y : imap pair l = done ++ rest -> (k, y) ∈ done -> k < length done.
Proof.
  intros Heq [i Hi]%list_elem_of_lookup. assert (imap pair l !! i = Some (k, y)) as Hl by (rewrite Heq; by apply lookup_app_l_Some).
  rewrite list_lookup_imap in Hl. destruct (l !! i); cbn in Hl; simplify_eq. by apply lookup_lt_Some in Hi.
Qed.

Section DestinationFacts.
Context `{ProviderCodec}.

Lemma targetsOtherServer_false ms p server :
  ExtractVSphereProviderSpec ms = Ok p -> targetsOtherServer p server = false -> workspaceServer ms = Some server.
Proof.
  intros Hp. unfold targetsOtherServer, workspaceServer. rewrite Hp. destruct (ps_Workspace p); [|done].
  cbn. intros ?. reflect_bools. by subst.
Qed.

(** The MachineSet of [n] as last read, if any, has at least the replicas of [source]. *)
Definition provisioned (g : gmap string MachineSet) (n : string) (source : MachineSet) : Prop :=
  forall d, g !! n = Some d -> (machineSetDesiredReplicas source <= machineSetDesiredReplicas d)%Z.

Lemma wp_derive base sources fd (Q : result (list string) -> gmap string MachineSet -> Prop) g :
  (forall derived g', (forall si source, sources !! si = Some source ->
      suffixedWorkerMachineSetName base si ∈ derived /\ provisioned g' (suffixedWorkerMachineSetName base si) source) ->
    (forall n, n ∈ derived -> exists si, n = suffixedWorkerMachineSetName base si) -> Q (Ok derived) g') ->
  (forall e g', Q (Err e) g') -> wp seen (derivePerSourceNames base sources fd) Q g.
Proof.
  intros HOk HErr. unfold derivePerSourceNames.
  apply (wp_io_fold _ _ _ _ (fun done derived g => (forall si source, (si, source) ∈ done ->
      suffixedWorkerMachineSetName base si ∈ derived /\ provisioned g (suffixedWorkerMachineSetName base si) source) /\
      (forall n, n ∈ derived -> exists si, n = suffixedWorkerMachineSetName base si))).
  - split; [intros ? ? Hx|intros ? Hx]; by apply not_elem_of_nil in Hx.
  - clear g. intros done [si source] rest derived g Heq [HI Hd].
    destruct (imap_prefix _ _ _ _ _ Heq) as [Hsi Hsrc].
    assert (forall g', (forall n, n <> suffixedWorkerMachineSetName base si -> g' !! n = g !! n) ->
      provisioned g' (suffixedWorkerMachineSetName base si) source ->
      (forall si' source', (si', source') ∈ done ++ [(si, source)] ->
        suffixedWorkerMachineSetName base si' ∈ derived ++ [suffixedWorkerMachineSetName base si] /\
        provisioned g' (suffixedWorkerMachineSetName base si') source') /\
      (forall n, n ∈ derived ++ [suffixedWorkerMachineSetName base si] -> exists si, n = suffixedWorkerMachineSetName base si)) as Hstep.
    { intros g' Hg' Hp. split.
      - intros si' source' [Hin|Hin%list_elem_of_singleton]%elem_of_app; [|simplify_eq; split; [apply elem_of_app; right; by apply list_elem_of_singleton|done]].
        destruct (HI _ _ Hin) as [Hin' Hp']. split; [apply elem_of_app; by left|]. intros d. rewrite Hg'; [apply Hp'|].
        intros Hs%suffixed_inj. pose proof (imap_before _ _ _ _ _ Heq Hin). lia.
      - intros n [Hin|Hin%list_elem_of_singleton]%elem_of_app; [by apply Hd|subst; eauto]. }
    repeat wp_step. apply wp_GetMachineSet.
    + intros ms. repeat wp_step; try (apply HErr). unfold extractFor. repeat wp_step; try apply HErr.
      apply Hstep; [intros n Hn; by rewrite lookup_insert_ne|]. intros d. rewrite lookup_insert_eq. intros [= <-]. by reflect_bools.
    + intros e. repeat wp_step; [apply HErr|]. apply Hstep; [intros n Hn; by rewrite lookup_delete_ne|].
      intros d. by rewrite lookup_delete_eq.
  - intros derived g' [HI Hd]. apply HOk; [|done]. intros si source Hs. apply HI.
    apply list_elem_of_lookup. exists si. by rewrite list_lookup_imap, Hs.
Qed.

(** The classification leaves the aggregate it accepted as last read under the base name. *)
Lemma wp_classify base sources fd recorded (Q : result (destinationLayout * Z * Z) -> gmap string MachineSet -> Prop) g :
  (forall layout b s g', (layout = destinationLayoutLegacyAggregate -> exists ms, g' !! base = Some ms /\
      workspaceServer ms = Some (fd_Server fd) /\ (sumReplicas sources <= machineSetDesiredReplicas ms)%Z) -> Q (Ok (layout, b, s)) g') ->
  (forall e g', Q (Err e) g') -> wp seen (classifyDestinationLayout base sources fd recorded) Q g.
Proof.
  intros HOk HErr. unfold classifyDestinationLayout, extractFor. repeat wp_step. apply wp_GetMachineSet.
  2:{ intros e. repeat wp_step; [by apply HOk|apply HErr]. }
  intros ms. assert (forall p, wrapf "extracting provider spec from machineset %q: %w" [FS base] (ExtractVSphereProviderSpec ms) = Ok p ->
    targetsOtherServer p (fd_Server fd) = false -> validateLegacyAggregateCapacity base (machineSetDesiredReplicas ms) (sumReplicas sources) = Ok tt ->
    workspaceServer ms = Some (fd_Server fd) /\ (sumReplicas sources <= machineSetDesiredReplicas ms)%Z) as Hcap.
  { intros p Hp Ht Hv. destruct (ExtractVSphereProviderSpec ms) eqn:E; [|done]. simplify_eq/=. split; [by eapply targetsOtherServer_false|].
    unfold validateLegacyAggregateCapacity in *. by destruct (Z.leb_spec (sumReplicas sources) (machineSetDesiredReplicas ms)). }
  repeat wp_step; try (by apply HErr); try (by apply HOk).
  - apply HOk. intros _. exists ms. match goal with x : unit |- _ => destruct x end. split; [by rewrite lookup_insert_eq|by eapply Hcap].
  - unfold suffixedCopyExists. repeat wp_step.
    assert (forall l g', Forall (fun si => 1 <= si) l -> g' !! base = Some ms ->
      wp seen (io_until l tt (fun _ si => let! r := try (GetMachineSet (suffixedWorkerMachineSetName base si)) in
        match r with Ok _ => ok (inr tt) | Err e => if negb (IsNotFound e) then fail (Errorf "getting machineset %q: %w" [FS (suffixedWorkerMachineSetName base si); FE e]) else ok (inl tt) end))
        (fun r g => match r with Ok _ => g !! base = Some ms | Err _ => True end) g') as Hloop.
    { induction l as [|si l IH]; intros g' Hf Hg'; cbn [io_until]; [done|]. inversion Hf; subst. repeat wp_step.
      assert (suffixedWorkerMachineSetName base si <> base) as Hne.
      { intros Hs. change base with (suffixedWorkerMachineSetName base 0) in Hs at 2. apply suffixed_inj in Hs. lia. }
      apply wp_GetMachineSet; intros; repeat wp_step; try done.
      - by rewrite lookup_insert_ne.
      - apply IH; [done|]. by rewrite lookup_delete_ne. }
    eapply wp_mono; [|apply Hloop; [apply Forall_forall; intros ? ?%elem_of_seq; lia|by rewrite lookup_insert_eq]].
    intros [r|e] g' Hr; [|apply HErr]. destruct r; repeat wp_step; try (by apply HOk); try (by apply HErr).
    apply HOk. intros _. exists ms. repeat match goal with x : unit |- _ => destruct x end. split; [done|by eapply Hcap].
Qed.

End DestinationFacts.

(** ** Properties *)

(** The base name of a mapping's destination, before anything was recorded. *)
Definition destinationBase (infraID : string) (m : FailureDomainMapping) : string := workerMachineSetName infraID (Destination m) [].

(** C18: when the preflight collision check passes, the destinations can never claim each
    other's MachineSets: no name (the base or any numbered copy, now or later) belongs to two
    mappings, and no MachineSet that existed at the check carries such a name. *)
Theorem collision_check_separates `{ProviderCodec} {W} (h : W -> forall c, resp c * W) (w : W) (infraID : string)
    (mappings : list FailureDomainMapping) (sourceFDs destFDs : list FailureDomain) :
  let out := run h (validateMachineSetNameCollisions infraID mappings sourceFDs destFDs) w in
  is_ok out.1.1 = true ->
  (forall i j mi mj name, mappings !! i = Some mi -> mappings !! j = Some mj -> i <> j ->
     matchesBase (destinationBase infraID mi) name = true -> matchesBase (destinationBase infraID mj) name = false) /\
  (exists existing, observe first_listing None out.2 = Some existing /\
     forall m ms, m ∈ mappings -> ms ∈ existing -> matchesBase (destinationBase infraID m) (ms_Name ms) = false).
Proof.
  cbv zeta. set (disjoint := fun bases : list string => forall i j bi bj, bases !! i = Some bi -> bases !! j = Some bj -> i <> j -> basesOverlap bi bj = false).
  assert (wp first_listing (validateMachineSetNameCollisions infraID mappings sourceFDs destFDs)
    (fun r g => is_ok r = true -> disjoint (destinationBase infraID <$> mappings) /\
       exists existing, g = Some existing /\ forall m ms, m ∈ mappings -> ms ∈ existing -> matchesBase (destinationBase infraID m) (ms_Name ms) = false) None) as Hwp.
  { unfold validateMachineSetNameCollisions. repeat wp_step; [done|]. intros [l|e] _; [|done]. cbn [wrapf].
    repeat wp_step. apply (wp_io_fold _ _ _ _ (fun done '(_, bases) g => g = Some l /\ bases = destinationBase infraID <$> done /\ disjoint bases /\
      forall m ms, m ∈ done -> ms ∈ l -> matchesBase (destinationBase infraID m) (ms_Name ms) = false)).
    - split_and!; [done|done|by intros ? ? ? ? ?|]. intros m ms Hm. by apply not_elem_of_nil in Hm.
    - intros done m rest [generated bases] g _ (-> & -> & Hd & He). repeat wp_step; try done.
      unfold GetMachineSetsByFailureDomain, GetMachineSetsByVCenter. repeat wp_step; try done. intros [l'|e] _; [|done]. cbn [wrapf].
      repeat wp_step; try done.
      match goal with E : findFailureDomainByName destFDs _ = Some ?fd |- _ => apply find_fd_Some in E as [_ Hname]; rewrite Hname in * end.
      repeat match goal with x : unit |- _ => destruct x end.
      match goal with E : checkBases _ _ = Ok tt |- _ => apply checkBases_Ok in E as Hb; rewrite Forall_lookup in Hb end.
      match goal with E : checkExisting _ _ = Ok tt |- _ => apply checkExisting_Ok in E as Hx; rewrite Forall_forall in Hx end.
      split_and!; [done|by rewrite fmap_app| |].
      + intros i j bi bj [Hi|[Hl Hi]]%lookup_app_Some [Hj|[Hl' Hj]]%lookup_app_Some Hne.
        * by eapply Hd.
        * apply list_lookup_singleton_Some in Hj as [_ <-]. rewrite basesOverlap_sym. by eapply Hb.
        * apply list_lookup_singleton_Some in Hi as [_ <-]. by eapply Hb.
        * apply list_lookup_singleton_Some in Hj as [? _], Hi as [? _]. lia.
      + intros m' ms [Hm'|Hm'%list_elem_of_singleton]%elem_of_app Hms; [by apply He|]. subst m'. apply Hx. by apply list_elem_of_fmap_2.
    - intros [generated bases] g (-> & -> & Hd & He). cbn. eauto. }
  apply (wp_run_all _ h _ _ _ w) in Hwp as [_ Hwp]; [|done]. intros Hok. destruct (Hwp Hok) as [Hd He]. split; [|done].
  intros i j mi mj name Hi Hj Hne Hmi. apply not_true_is_false. intros Hmj. eapply bases_disjoint; [|exact Hmi|exact Hmj].
  eapply (Hd i j); [by rewrite list_lookup_fmap, Hi|by rewrite list_lookup_fmap, Hj|done].
Qed.

(** A world with one list of MachineSets. *)
Definition machine_world (l : list MachineSet) : unit -> forall c : call, resp c * unit :=
  answering (fun c => match c return option (resp c) with
                      | CListMachineSets => Some (Ok l)
                      | CGetMachineSet n => Some (match List.find (fun ms => String.eqb (ms_Name ms) n) l with
                                                  | Some ms => Ok ms
                                                  | None => Err (StatusError ReasonNotFound "not found")
                                                  end)
                      | CUpdateMachineSet ms => Some (Ok ms)
                      | CCreateMachineSet ms => Some (Ok ms)
                      | _ => None
                      end).

Lemma collision_check_separates_witness :
  let mappings := [MkMapping "a" "x"; MkMapping "b" "y"] in
  let l := [example_ms "ms-a" "old" "d" "p" (Some 2%Z)] in
  let out := run (machine_world l) (validateMachineSetNameCollisions "inf" mappings
      [example_fd "a" "old" "d" "p"; example_fd "b" "old" "d" "q"] [example_fd "x" "new" "d" "p"; example_fd "y" "new" "d" "q"]) tt in
  exists existing, observe first_listing None out.2 = Some existing /\
     forall m ms, m ∈ mappings -> ms ∈ existing -> matchesBase (destinationBase "inf" m) (ms_Name ms) = false.
Proof. apply (collision_check_separates (machine_world _) tt). vm_compute. reflexivity. Defined.

(** C17: the names a destination must have never shrink and never lose capacity.  Every recorded
    name of the destination is expected, every expected name is recorded or generated for a
    source, and either the base holds the whole capacity of the sources on the destination's
    server (the aggregate), or each source has its own expected copy, which, where it was
    found, has at least that source's replicas. *)
Theorem expected_names_keep_capacity `{ProviderCodec} {W} (h : W -> forall c, resp c * W) (w : W) (base : string)
    (sources : list MachineSet) (fd : FailureDomain) (recorded : list string) :
  let out := run h (expectedDestinationNames base sources fd recorded) w in
  let g := observe seen ∅ out.2 in
  match out.1.1 with
  | Err _ => True
  | Ok (names, legacyAggregate) =>
      (forall n, n ∈ recorded -> matchesBase base n = true -> n ∈ names) /\
      (forall n, n ∈ names -> n ∈ recorded \/ exists si, n = suffixedWorkerMachineSetName base si) /\
      if legacyAggregate : bool then
        base ∈ names /\ exists ms, g !! base = Some ms /\ workspaceServer ms = Some (fd_Server fd) /\
          (sumReplicas (SortBy ms_Name sources) <= machineSetDesiredReplicas ms)%Z
      else forall si source, SortBy ms_Name sources !! si = Some source ->
          suffixedWorkerMachineSetName base si ∈ names /\ provisioned g (suffixedWorkerMachineSetName base si) source
  end.
Proof.
  cbv zeta.
  assert (wp seen (expectedDestinationNames base sources fd recorded) (fun r g => match r with
    | Err _ => True
    | Ok (names, legacyAggregate) =>
      (forall n, n ∈ recorded -> matchesBase base n = true -> n ∈ names) /\
      (forall n, n ∈ names -> n ∈ recorded \/ exists si, n = suffixedWorkerMachineSetName base si) /\
      if legacyAggregate : bool then
        base ∈ names /\ exists ms, g !! base = Some ms /\ workspaceServer ms = Some (fd_Server fd) /\
          (sumReplicas (SortBy ms_Name sources) <= machineSetDesiredReplicas ms)%Z
      else forall si source, SortBy ms_Name sources !! si = Some source ->
          suffixedWorkerMachineSetName base si ∈ names /\ provisioned g (suffixedWorkerMachineSetName base si) source
    end) ∅) as Hwp; [|by apply (wp_run_all _ h _ _ _ w) in Hwp as [_ Hwp]].
  assert (forall derived n, n ∈ SortStrings (appendNames derived (recordedWorkerMachineSetNames recorded base)).1 <->
    (n ∈ recorded /\ matchesBase base n = true) \/ n ∈ derived) as Hin.
  { intros derived n. rewrite elem_of_SortStrings.
    destruct (appendNames_spec derived (recordedWorkerMachineSetNames recorded base)) as (_ & -> & _). by rewrite elem_of_recorded. }
  unfold expectedDestinationNames. cbv zeta. repeat wp_step. apply wp_classify; [|done].
  intros layout b s g' Hl. destruct layout; repeat wp_step; try done.
  - apply wp_derive; [|done]. intros derived g'' Hd Hn. cbn [wp ok]. split_and!.
    + intros n ? ?. apply Hin. auto.
    + intros n [[? _]|?]%Hin; auto.
    + intros si source Hs. destruct (Hd si source Hs). split; [apply Hin; auto|done].
  - cbn [wp ok]. split_and!.
    + intros n ? ?. apply Hin. auto.
    + intros n [[? _]|Hn%list_elem_of_singleton]%Hin; [by left|right]. by exists 0.
    + apply Hin. right. by apply list_elem_of_singleton.
    + by apply Hl.
Qed.
