(* ===== verification/Workers.v ===== *)
(** * Creating and watching the destination workers (internal/controller)

    The existence check of Step 1, the plan and the creation of missing MachineSets, the
    readiness check of Step 2 and the progress counts. *)

From S2P Require Import Prelude GoErrors Objects Types Effects Execution Naming Metrics Status Codec Machines Mapping Destinations.
Import GoStr.

Section Workers.
Context `{ProviderCodec}.

(** ** targetMachineSetsExist *)

(** The identity an existing copy must have. *)
Definition checkCopyIdentity (name : string) (existing : MachineSet) (source : MachineSet) : result unit :=
  if (machineSetDesiredReplicas source =? 0)%Z then Ok tt
  else
    let sourceName := annotation existing SourceMachineSetAnnotation in
    if String.eqb sourceName "" then Ok tt
    else if negb (String.eqb sourceName (ms_Name source))
    then Err (Errorf "destination MachineSet %q was created for source MachineSet %q but now maps to %q: restore the expected source MachineSets before retrying"
                [FS name; FS sourceName; FS (ms_Name source)])
    else Ok tt.

(** The inner loop over the expected names: [inr tt] when one does not exist. *)
Definition checkTargetNames (targetNames : list string) (fd : FailureDomain) (sourceForName : gmap string MachineSet) : IO (unit + unit) :=
  io_until targetNames tt (fun _ name =>
    let! r := try (GetMachineSet name) in
    match r with
    | Err e => if IsNotFound e then ok (inr tt) else fail (Errorf "getting machineset %q: %w" [FS name; FE e])
    | Ok existing =>
        let! providerSpec := extractFor existing name in
        if targetsOtherServer providerSpec (fd_Server fd) then fail (collisionError name)
        else
          match sourceForName !! name with
          | None => ok (inl tt)
          | Some source => let! _ := of_result (checkCopyIdentity name existing source) in ok (inl tt)
          end
    end).

Definition sourcesByName (base : string) (sources : list MachineSet) : gmap string MachineSet :=
  list_to_map (imap (fun si ms => (suffixedWorkerMachineSetName base si, ms)) sources).

(** The names expected of one mapping with a source failure domain, with the sources they
    stand for; [None] when the mapping is intentionally empty. *)
Definition targetNamesFor (ctx : Ctx) (m : FailureDomainMapping) (fd sourceFD : FailureDomain) (base : string) (recorded : list string)
    : M (option (list string * gmap string MachineSet)) :=
  let@ sourceMSList := lift (wrapping "getting source MachineSets for failure domain %q: %w" [FS (Source m)]
                         (GetMachineSetsByFailureDomain (fd_Server sourceFD) sourceFD)) in
  if (length sourceMSList =? 0)%nat && (length (recordedWorkerMachineSetNames recorded base) =? 0)%nat then ret None
  else
    let sourceMSList := SortBy ms_Name sourceMSList in
    let@ (targetNames, legacyAggregate) := lift (expectedDestinationNames base sourceMSList fd recorded) in
    if legacyAggregate : bool then
      let@ _ := lift (AnnotateMachineSetLegacyAggregate ctx base) in
      let@ _ :=
        if ContainsStr recorded base then ret tt
        else
          let@ _ := modify_status (fun st => set_WorkerNames (WorkerMachineSetNames st ++ [base]) st) in
          Eventf "Normal" "LegacyAggregateReplacement" "Destination MachineSet %s already holds the aggregate of %d source MachineSets; no per-source copies created for failure domain %s"
            [RStr base; RInt (zlen sourceMSList); RStr (fd_Name fd)] in
      ret (Some (targetNames, ∅))
    else ret (Some (targetNames, sourcesByName base sourceMSList)).

Definition targetMachineSetsExist (ctx : Ctx) (infraID : string) (mappings : list FailureDomainMapping) (infraFDs : list FailureDomain)
    : M bool :=
  let@ migration := get_mig in
  let recorded := WorkerMachineSetNames (mig_Status migration) in
  let@ r := m_until mappings tt (fun _ m =>
    match findFailureDomainByName (FailureDomains (mig_Spec migration)) (Destination m) with
    | None => throw (Errorf "resolving destination failure domain %q for mapping from %q" [FS (Destination m); FS (Source m)])
    | Some fd =>
        let@ base := lift (resolveWorkerMachineSetName infraID (fd_Name fd) recorded) in
        let@ expected :=
          match findFailureDomainByName infraFDs (Source m) with
          | None =>
              let targetNames := recordedWorkerMachineSetNames recorded base in
              ret (Some ((if (length targetNames =? 0)%nat then [base] else targetNames), ∅))
          | Some sourceFD => targetNamesFor ctx m fd sourceFD base recorded
          end in
        match expected with
        | None => ret (inl tt)
        | Some (targetNames, sourceForName) => lift (checkTargetNames targetNames fd sourceForName)
        end
    end) in
  ret (match r with inl _ => true | inr _ => false end).

(** ** planMappedWorkerMachineSets *)

(** The recorded names whose MachineSets are gone. *)
Definition missingNames (names : list string) : IO (list string) :=
  io_fold names [] (fun missing name =>
    let! r := try (GetMachineSet name) in
    match r with
    | Ok _ => ok missing
    | Err e => if IsNotFound e then ok (missing ++ [name]) else fail (Errorf "getting machineset %q: %w" [FS name; FE e])
    end).

Definition planMapping (infraID : string) (destFDs infraFDs : list FailureDomain) (recorded : list string)
    (plans : list destinationMachineSetPlan) (m : FailureDomainMapping) : IO (list destinationMachineSetPlan) :=
  match findFailureDomainByName destFDs (Destination m) with
  | None => fail (Errorf "resolving destination failure domain %q for mapping from %q" [FS (Destination m); FS (Source m)])
  | Some fd =>
      match findFailureDomainByName infraFDs (Source m) with
      | None => fail (Errorf "resolving source failure domain %q for mapping to %q" [FS (Source m); FS (Destination m)])
      | Some sourceFD =>
          let! base := resolveWorkerMachineSetName infraID (fd_Name fd) recorded in
          let! sourceMSList := wrapping "getting source MachineSets for failure domain %q: %w" [FS (Source m)]
                                 (GetMachineSetsByFailureDomain (fd_Server sourceFD) sourceFD) in
          if (length sourceMSList =? 0)%nat then
            let recordedNames := recordedWorkerMachineSetNames recorded base in
            if (length recordedNames =? 0)%nat then ok plans
            else
              let! missing := missingNames recordedNames in
              if (0 <? length missing)%nat
              then fail (Errorf "recorded destination MachineSets for failure domain %q are missing but their source MachineSets are gone: restore %s before retrying"
                           [FS (fd_Name fd); FS (Join missing ", ")])
              else ok plans
          else
            let sourceMSList := SortBy ms_Name sourceMSList in
            let! (names, _) := expectedDestinationNames base sourceMSList fd recorded in
            ok (plans ++ [MkPlan fd sourceMSList names])
      end
  end.

(** The set of the recorded names and every planned one. *)
Definition plannedUnion (recorded : list string) (plans : list destinationMachineSetPlan) : gset string :=
  list_to_set (recorded ++ mjoin (plan_names <$> plans)).

Definition planMappedWorkerMachineSets (infraID : string) (mappings : list FailureDomainMapping) (destFDs infraFDs : list FailureDomain)
    (recorded : list string) : IO (list destinationMachineSetPlan) :=
  let! plans := io_fold mappings [] (planMapping infraID destFDs infraFDs recorded) in
  let n := size (plannedUnion recorded plans) in
  if (maxDestinationWorkerMachineSets <? n)%nat
  then fail (Errorf "recording destination MachineSets for this mapping would hold %d names, exceeding the %d supported by status.workerMachineSetNames: reduce the mapped source MachineSets"
               [FD (Z.of_nat n); FD (Z.of_nat maxDestinationWorkerMachineSets)])
  else ok plans.

(** ** createMappedWorkerMachineSets *)

Definition recordName (recovery : bool) (msName : string) : M unit :=
  if recovery then ret tt
  else modify_status (fun st => set_WorkerNames (WorkerMachineSetNames st ++ [msName]) st).

(** One source MachineSet of a plan; the result says whether a MachineSet was created. *)
Definition createOne (ctx : Ctx) (infraID : string) (fd : FailureDomain) (sourceMS : MachineSet) (msName : string) : M bool :=
  let@ migration := get_mig in
  let recovery := ContainsStr (WorkerMachineSetNames (mig_Status migration)) msName in
  let@ r := lift (try (GetMachineSet msName)) in
  match r with
  | Ok existing =>
      let@ providerSpec := lift (extractFor existing msName) in
      if targetsOtherServer providerSpec (fd_Server fd) then throw (collisionError msName)
      else
        let@ _ := lift (of_result (checkCopyIdentity msName existing sourceMS)) in
        let@ _ := recordName recovery msName in
        ret false
  | Err _ =>
      let replicas := machineSetDesiredReplicas sourceMS in
      if recovery && (replicas =? 0)%Z
      then throw (Errorf "recreating destination MachineSet %q: source MachineSet %q is already scaled to zero, restore the destination MachineSet before retrying"
                    [FS msName; FS (ms_Name sourceMS)])
      else
        let@ _ := lift (wrapping "creating worker MachineSet %q: %w" [FS msName]
                          (CreateWorkerMachineSet ctx msName replicas fd sourceMS infraID)) in
        let@ _ := recordName recovery msName in
        ret true
  end.

(** The loop over the sources of one plan threads the claimed names and [createdAny]. *)
Definition createPlan (ctx : Ctx) (infraID : string) (acc : list string * bool) (plan : destinationMachineSetPlan) : M (list string * bool) :=
  let fd := plan_failureDomain plan in
  let base := workerMachineSetName infraID (fd_Name fd) (plan_names plan) in
  m_fold (imap pair (plan_sourceSets plan)) acc (fun '(claimedSources, createdAny) '(si, sourceMS) =>
    if ContainsStr claimedSources (ms_Name sourceMS)
    then throw (Errorf "source MachineSet %q assigned to multiple failure domains" [FS (ms_Name sourceMS)])
    else
      let claimedSources := ms_Name sourceMS :: claimedSources in
      let msName := suffixedWorkerMachineSetName base si in
      if negb (ContainsStr (plan_names plan) msName) then ret (claimedSources, createdAny)
      else
        let@ created := createOne ctx infraID fd sourceMS msName in
        ret (claimedSources, createdAny || created)).

Definition createMappedWorkerMachineSets (ctx : Ctx) (infraID : string) (mappings : list FailureDomainMapping) (infraFDs : list FailureDomain)
    : M Result :=
  let@ _ := setCondition ConditionWorkloadMigrated ConditionFalse ReasonProgressing "Creating new worker MachineSets" in
  let@ migration := get_mig in
  let@ plans := lift (planMappedWorkerMachineSets infraID mappings (FailureDomains (mig_Spec migration)) infraFDs
                        (WorkerMachineSetNames (mig_Status migration))) in
  let@ (_, createdAny) := m_fold plans ([], false) (createPlan ctx infraID) in
  let@ missing := lift (missingNames (mjoin (plan_names <$> plans))) in
  if (0 <? length missing)%nat
  then throw (Errorf "destination MachineSets %v are missing and cannot be recreated from the remaining source MachineSets: restore them before retrying"
                [FL (SortStrings missing)])
  else
    let@ _ := if createdAny : bool
              then Eventf "Normal" "WorkersCreated" "New worker MachineSets created on target vCenter" [] else ret tt in
    let@ _ := setCondition ConditionWorkloadMigrated ConditionFalse ReasonProgressing "Workers created, waiting for machines ready" in
    ret (RequeueAfter 30).

(** ** Readiness *)

Definition workerReadinessFailureDomains (infraID : string) (mappings : list FailureDomainMapping) (sourceFDs destFDs : list FailureDomain)
    (recorded : list string) : IO (list FailureDomain) :=
  let! sets := wrapping "listing worker machinesets: %w" [] ListMachineSets in
  io_fold mappings [] (fun result m =>
    match findFailureDomainByName destFDs (Destination m) with
    | None => fail (Errorf "resolving destination failure domain %q" [FS (Destination m)])
    | Some fd =>
        match findFailureDomainByName sourceFDs (Source m) with
        | None => ok (result ++ [fd])
        | Some source =>
            let! sources := wrapping "listing source machinesets for %q: %w" [FS (fd_Name source)]
                              (GetMachineSetsByFailureDomain (fd_Server source) source) in
            let base := workerMachineSetName infraID (fd_Name fd) recorded in
            if (length sources =? 0)%nat && (length (recordedWorkerMachineSetNames recorded base) =? 0)%nat &&
               negb (existsb (fun ms => matchesBase base (ms_Name ms)) sets)
            then ok result else ok (result ++ [fd])
        end
    end).

Record workerReadinessStatus := MkReadiness {
  wr_Ready : bool;
  MachinesReady : Z;
  MachinesTotal : Z;
  NodesReady : Z;
  NodesTotal : Z;
}.

Definition checkMachineSetReadiness (status : workerReadinessStatus) (msName : string) : IO workerReadinessStatus :=
  let! ms := wrapping "getting machineset %q: %w" [FS msName] (GetMachineSet msName) in
  let desired := machineSetDesiredReplicas ms in
  if (desired =? 0)%Z then ok status
  else
    let! (machinesOK, machineReady, machineTotal) := wrapping "checking machines for %q: %w" [FS msName] (CheckMachinesReady msName) in
    let! (nodesOK, nodeReady, nodeTotal) := wrapping "checking nodes for %q: %w" [FS msName] (CheckNodesReady msName) in
    ok (MkReadiness
          (wr_Ready status && negb (negb machinesOK || (machineReady <? desired)%Z) && negb (negb nodesOK || (nodeReady <? desired)%Z))
          (add32 (MachinesReady status) machineReady) (add32 (MachinesTotal status) machineTotal)
          (add32 (NodesReady status) nodeReady) (add32 (NodesTotal status) nodeTotal)).

(** The names checked for one failure domain: those present, then the recorded ones. *)
Definition readinessNames (msList : list MachineSet) (base : string) (recorded : list string) : list string :=
  foldl (fun names name => if ContainsStr names name then names else names ++ [name])
    (workerMachineSetNamesForBase msList base) (recordedWorkerMachineSetNames recorded base).

Definition checkWorkerReadiness (fds : list FailureDomain) (infraID : string) (recorded : list string) : IO workerReadinessStatus :=
  let! msList := wrapping "listing machinesets: %w" [] ListMachineSets in
  io_fold fds (MkReadiness true 0 0 0 0) (fun status fd =>
    let! base := resolveWorkerMachineSetName infraID (fd_Name fd) recorded in
    io_fold (readinessNames msList base recorded) status checkMachineSetReadiness).

(** ** Progress *)

(** One MachineSet's share of the progress: total, ready, nodes ready and [hasTargetErrors]. *)
Definition progressOf (acc : Z * Z * Z * bool) (msName : string) : IO (Z * Z * Z * bool) :=
  let '(targetTotal, targetReady, targetNodesReady, hasTargetErrors) := acc in
  let! r := try (GetMachineSet msName) in
  let targetTotal := match r with
                     | Ok ms => match ms_Replicas ms with Some n => add32 targetTotal n | None => targetTotal end
                     | Err _ => targetTotal
                     end in
  let! r := try (CheckMachinesReady msName) in
  let '(targetTotal, targetReady, hasTargetErrors) :=
    match r with
    | Ok (_, ready, total) => ((if (targetTotal =? 0)%Z then add32 targetTotal total else targetTotal), add32 targetReady ready, hasTargetErrors)
    | Err _ => (targetTotal, targetReady, true)
    end in
  let! r := try (CheckNodesReady msName) in
  match r with
  | Ok (_, nodeReady, _) => ok (targetTotal, targetReady, add32 targetNodesReady nodeReady, hasTargetErrors)
  | Err _ => ok (targetTotal, targetReady, targetNodesReady, true)
  end.

Definition targetProgress (fds : list FailureDomain) (infraID : string) (recorded : list string) : IO (Z * Z * Z * bool) :=
  let! listed := try ListMachineSets in
  let '(msList, failed) := match listed with Ok l => (l, false) | Err _ => ([], true) end in
  io_fold fds (0%Z, 0%Z, 0%Z, failed) (fun '(total, ready, nodes, errs) fd =>
    let! r := try (resolveWorkerMachineSetName infraID (fd_Name fd) recorded) in
    match r with
    | Err _ => ok (total, ready, nodes, true)
    | Ok base => io_fold (workerMachineSetNamesForBase msList base) (total, ready, nodes, errs) progressOf
    end).

(** The source machines left, or [None] when some count could not be read. *)
Definition sourceRemaining (sourceVCServer : string) : IO (option Z) :=
  let! r := try (GetMachineSetsByVCenter sourceVCServer) in
  match r with
  | Err _ => ok None
  | Ok sourceMSList =>
      let! (total, errs) := io_fold sourceMSList (0%Z, false) (fun '(total, errs) ms =>
        let! r := try (CheckMachinesDeleted (ms_Name ms)) in
        match r with
        | Ok (_, remaining) => ok (add32 total remaining, errs)
        | Err _ => ok (total, true)
        end) in
      ok (if errs : bool then None else Some total)
  end.

Definition updateWorkloadProgress (infraID sourceVCServer : string) : M unit :=
  let@ migration := get_mig in
  let progress := default (MkMigrationProgress None None) (Progress (mig_Status migration)) in
  let workers := default (MkWorkerMigrationProgress 0 0 0 0) (Workers progress) in
  let cp := default (MkControlPlaneProgress 0 0 0) (ControlPlane progress) in
  let@ (targetTotal, targetReady, targetNodesReady, hasTargetErrors) :=
    lift (targetProgress (FailureDomains (mig_Spec migration)) infraID (WorkerMachineSetNames (mig_Status migration))) in
  let workers := if negb hasTargetErrors || (TargetMachinesTotal workers =? 0)%Z
                 then MkWorkerMigrationProgress targetTotal targetReady targetNodesReady (SourceMachinesRemaining workers)
                 else workers in
  let@ remaining := if negb (String.eqb sourceVCServer "") then lift (sourceRemaining sourceVCServer) else ret None in
  let workers := match remaining with
                 | Some n => MkWorkerMigrationProgress (TargetMachinesTotal workers) (TargetMachinesReady workers) (TargetNodesReady workers) n
                 | None => workers
                 end in
  let@ rollout := lift (try CheckControlPlaneRolloutStatus) in
  let cp := match rollout with
            | Ok r => MkControlPlaneProgress (ro_Replicas r) (ro_UpdatedReplicas r) (ro_ReadyReplicas r)
            | Err _ => cp
            end in
  modify_status (set_Progress (Some (MkMigrationProgress (Some workers) (Some cp)))).

End Workers.

(** ** The gate *)

Section WorkersGated.
Context `{ProviderCodec} (m0 m : Migration) (ctx : Ctx).

Lemma quiet_missing l : quiet (missingNames l).
Proof. unfold missingNames. quiet_auto. Qed.
#[local] Hint Resolve quiet_missing : quiet.
Lemma quiet_plan i ms d f r : quiet (planMappedWorkerMachineSets i ms d f r).
Proof. unfold planMappedWorkerMachineSets, planMapping. quiet_auto. Qed.
Lemma quiet_readinessFDs i ms s d r : quiet (workerReadinessFailureDomains i ms s d r).
Proof. unfold workerReadinessFailureDomains. quiet_auto. Qed.
Lemma quiet_readiness f i r : quiet (checkWorkerReadiness f i r).
Proof. unfold checkWorkerReadiness, checkMachineSetReadiness. quiet_auto. Qed.
Lemma quiet_targetProgress f i r : quiet (targetProgress f i r).
Proof. unfold targetProgress, progressOf. quiet_auto. Qed.
Lemma quiet_sourceRemaining v : quiet (sourceRemaining v).
Proof. unfold sourceRemaining. quiet_auto. Qed.
#[local] Hint Resolve quiet_targetProgress quiet_sourceRemaining quiet_plan : quiet.
Lemma quietM_progress i v : quietM (updateWorkloadProgress i v).
Proof. unfold updateWorkloadProgress. quiet_auto. Qed.

Context (Hctx : ctx_check ctx = Some m) (Hm : same_identity m m0).

Lemma gatedM_targetExist i ms f : gatedM m0 (targetMachineSetsExist ctx i ms f).
Proof. unfold targetMachineSetsExist, targetNamesFor, checkTargetNames. gate_auto. Qed.
Lemma gatedM_createPlan i acc p : gatedM m0 (createPlan ctx i acc p).
Proof. unfold createPlan, createOne, recordName. gate_auto. Qed.
Lemma gatedM_createMapped i ms f : gatedM m0 (createMappedWorkerMachineSets ctx i ms f).
Proof. unfold createMappedWorkerMachineSets. gate_auto. apply gatedM_createPlan. Qed.

End WorkersGated.

#[export] Hint Resolve quiet_missing quiet_readinessFDs quiet_readiness quietM_progress : quiet.
#[export] Hint Resolve gatedM_targetExist gatedM_createMapped : gated.

(** ** Facts *)

Section WorkersFacts.
Context `{ProviderCodecLaws}.

(** What is known when a MachineSet is created: the MachineSets listed so far, and the names of
    the sources copied so far. *)
Record CreateView := MkCreateView { cv_listed : list MachineSet; cv_copied : list string }.

Definition create_next (g : CreateView) (c : call) : resp c -> CreateView :=
  match c with
  | CListMachineSets => fun r => match r with Ok l => MkCreateView (cv_listed g ++ l) (cv_copied g) | Err _ => g end
  | CCreateMachineSet ms => fun _ => MkCreateView (cv_listed g) (annotation ms SourceMachineSetAnnotation :: cv_copied g)
  | _ => fun _ => g
  end.

(** A source that may be copied into [fd]: a mapping takes its failure domain there, and it was
    listed with a workspace in that failure domain. *)
Definition maySupply (mappings : list FailureDomainMapping) (destFDs infraFDs : list FailureDomain) (listed : list MachineSet)
    (fd : FailureDomain) (source : MachineSet) : Prop :=
  exists m sourceFD, m ∈ mappings /\ fd ∈ destFDs /\ fd_Name fd = Destination m /\
    sourceFD ∈ infraFDs /\ fd_Name sourceFD = Source m /\ source ∈ listed /\ livesIn sourceFD source.

(** The only changes the creation path may make: one copy of each such source, with exactly the
    replicas that source asks for. *)
Definition creates_copies (infraID : string) (mappings : list FailureDomainMapping) (destFDs infraFDs : list FailureDomain) : Observer CreateView :=
  MkObserver (fun g c => mutating c = true -> exists ms fd source, c = CCreateMachineSet ms /\
      maySupply mappings destFDs infraFDs (cv_listed g) fd source /\ (ms_Name source ∉ cv_copied g) /\
      is_worker_copy infraID (ms_Name ms) (default 1%Z (ms_Replicas source)) fd source ms)
    create_next (fun _ _ _ => True).

(** More was listed, and nothing copied. *)
Definition listedMore (g g' : CreateView) : Prop := cv_listed g ⊆ cv_listed g' /\ cv_copied g' = cv_copied g.
#[local] Instance listedMore_preorder : PreOrder listedMore.
Proof. split; [by intros g|]; intros a b c [L C] [L' C']. (split; [by etrans|congruence]). Qed.

Lemma maySupply_more mappings destFDs infraFDs l l' fd source :
  l ⊆ l' -> maySupply mappings destFDs infraFDs l fd source -> maySupply mappings destFDs infraFDs l' fd source.
Proof. intros Hl (m & sourceFD & ? & ? & ? & ? & ? & ? & ?). exists m, sourceFD. split_and!; auto. Qed.

Section Creation.
Context (infraID : string) (mappings : list FailureDomainMapping) (destFDs infraFDs : list FailureDomain).
#[local] Abbreviation O := (creates_copies infraID mappings destFDs infraFDs).

Lemma wp_reads {A} (p : Prog A) (Q : A -> CreateView -> Prop) g :
  quiet p -> (forall a g', listedMore g g' -> Q a g') -> wp O p Q g.
Proof.
  intros Hp. apply (wp_quiet_grows O listedMore); [done|by cbn; congruence|].
  clear. intros g c r Hc. destruct c; try done. destruct r; [|done]. split; [|done]. cbn. set_solver.
Qed.

Lemma wp_ByFailureDomain fd (Q : result (list MachineSet) -> CreateView -> Prop) g :
  (forall l g', listedMore g g' -> Forall (fun ms => ms ∈ cv_listed g' /\ livesIn fd ms) l -> Q (Ok l) g') ->
  (forall e g', listedMore g g' -> Q (Err e) g') ->
  wp O (GetMachineSetsByFailureDomain (fd_Server fd) fd) Q g.
Proof.
  intros HQ He. unfold GetMachineSetsByFailureDomain, GetMachineSetsByVCenter. repeat wp_step; [by apply He|done|].
  intros [l|e] _; cbn [wrapf]; [|by apply He]. repeat wp_step. apply HQ.
  - split; [|done]. cbn. set_solver.
  - apply Forall_forall. intros ms Hms. apply list_elem_of_filter in Hms as [Hf Hms]. apply list_elem_of_filter in Hms as [Hs Hms].
    split; [cbn; set_solver|by apply inFailureDomain_spec].
Qed.

(** The sources of every plan may be copied into its failure domain. *)
Definition planned (l : list MachineSet) (plans : list destinationMachineSetPlan) : Prop :=
  Forall (fun p => Forall (maySupply mappings destFDs infraFDs l (plan_failureDomain p)) (plan_sourceSets p)) plans.

Lemma planned_more l l' plans : l ⊆ l' -> planned l plans -> planned l' plans.
Proof.
  intros Hl Hp. eapply Forall_impl; [exact Hp|]. intros p Hs. eapply Forall_impl; [exact Hs|]. intros source. by apply maySupply_more.
Qed.

Lemma wp_plan recorded (Q : result (list destinationMachineSetPlan) -> CreateView -> Prop) g :
  (forall plans g', listedMore g g' -> planned (cv_listed g') plans -> Q (Ok plans) g') -> (forall e g', Q (Err e) g') ->
  wp O (planMappedWorkerMachineSets infraID mappings destFDs infraFDs recorded) Q g.
Proof.
  intros HOk HErr. unfold planMappedWorkerMachineSets. repeat wp_step.
  apply (wp_io_fold _ _ _ _ (fun _ plans g' => listedMore g g' /\ planned (cv_listed g') plans)); [split; [done|constructor]| |].
  - intros done m rest plans g1 Hin [Hg1 Hp]. assert (m ∈ mappings) as Hm by (rewrite Hin; set_solver).
    unfold planMapping. destruct (findFailureDomainByName destFDs (Destination m)) as [fd|] eqn:Hfd; [|apply HErr].
    destruct (findFailureDomainByName infraFDs (Source m)) as [sourceFD|] eqn:Hsfd; [|apply HErr].
    apply find_fd_Some in Hfd as [Hfd Hname], Hsfd as [Hsfd Hsname].
    apply wp_io_bind, wp_reads; [solve [eauto with quiet]|]. intros [base|e] g2 Hg2; [|apply HErr].
    apply wp_io_bind, wp_wrapping, wp_ByFailureDomain; [|by intros; apply HErr]. intros l g3 Hg3 Hl. cbn [wrapf].
    assert (forall g4, listedMore g3 g4 -> listedMore g g4 /\ planned (cv_listed g4) plans) as Hkeep.
    { intros g4 Hg4. split; [by do 3 (etrans; [eassumption|])|]. eapply planned_more; [|exact Hp]. etrans; [by apply Hg2|]. etrans; [by apply Hg3|apply Hg4]. }
    repeat wp_step; try apply HErr; try by apply Hkeep.
    + apply wp_reads; [solve [eauto with quiet]|]. intros [missing|e] g4 Hg4; [|apply HErr]. repeat wp_step; [apply HErr|by apply Hkeep].
    + apply wp_reads; [solve [eauto with quiet]|]. intros [[names b']|e] g4 Hg4; [|apply HErr]. repeat wp_step.
      destruct (Hkeep g4 Hg4) as [? ?]. split; [done|]. apply Forall_app. split; [done|]. apply Forall_singleton. cbn.
      rewrite SortBy_perm. eapply Forall_impl; [exact Hl|]. intros ms [Hms Hlives]. exists m, sourceFD. split_and!; try done. by apply Hg4.
  - intros plans g1 [Hg1 Hp]. cbv zeta. repeat wp_step; [apply HErr|by apply HOk].
Qed.

Lemma wp_createOne ctx fd source msName s (Q : St * result bool -> CreateView -> Prop) g :
  maySupply mappings destFDs infraFDs (cv_listed g) fd source -> ms_Name source ∉ cv_copied g ->
  (forall r g', cv_listed g ⊆ cv_listed g' -> cv_copied g' ⊆ ms_Name source :: cv_copied g -> Q r g') ->
  wp O (createOne ctx infraID fd source msName s) Q g.
Proof.
  intros Hs Hnew HQ. unfold createOne, recordName, extractFor. repeat wp_step.
  apply wp_reads; [solve [eauto with quiet]|]. intros r g1 [L1 C1].
  assert (forall r, Q r g1) as HQ1 by (intros r'; apply HQ; [done|]; rewrite C1; set_solver).
  repeat wp_step; try apply HQ1.
  all: apply wp_CreateWorker; [done..| | |].
  all: intros ms; intros.
  all: cbn; try match goal with H : is_worker_copy _ _ _ _ _ ?x |- _ =>
    assert (annotation x SourceMachineSetAnnotation = ms_Name source) as Hann
      by (unfold annotation; rewrite (wc_annotations _ _ _ _ _ _ H); by repeat case_decide) end.
  - assert (forall r, Q r (MkCreateView (cv_listed g1) (annotation ms SourceMachineSetAnnotation :: cv_copied g1))) as HQ2
      by (intros r'; apply HQ; [done|]; cbn; rewrite Hann, C1; set_solver).
    split.
    + intros _. exists ms, fd, source. split_and!; [done|by eapply maySupply_more|by rewrite C1|].
      by rewrite (proj1 (wc_identity _ _ _ _ _ _ H1)).
    + intros [created|e']; cbn [wrapf]; [|apply HQ2]. repeat wp_step; apply HQ2.
  - apply HQ1.
  - apply HQ; [done|]. cbn. rewrite Hann, C1. set_solver.
Qed.

(** The names of the sources gone through are claimed, so none of them is copied again. *)
Lemma wp_createPlan ctx (plan : destinationMachineSetPlan) claimed (created : bool) s (Q : St * result (list string * bool) -> CreateView -> Prop) g :
  Forall (maySupply mappings destFDs infraFDs (cv_listed g) (plan_failureDomain plan)) (plan_sourceSets plan) ->
  cv_copied g ⊆ claimed ->
  (forall s' claimed' created' g', cv_listed g ⊆ cv_listed g' -> cv_copied g' ⊆ claimed' -> Q (s', Ok (claimed', created')) g') ->
  (forall s' e g', Q (s', Err e) g') ->
  wp O (createPlan ctx infraID (claimed, created) plan s) Q g.
Proof.
  intros Hplan Hclaimed HOk HErr. unfold createPlan. cbv zeta.
  apply (wp_m_fold _ _ _ _ (fun _ v _ g' => cv_listed g ⊆ cv_listed g' /\ cv_copied g' ⊆ v.1)); [by split| |].
  - intros done [i source] rest [claimed' created'] s1 g1 Hin [L1 C1]. cbn in C1.
    assert (source ∈ plan_sourceSets plan) as Hsource.
    { assert ((i, source) ∈ imap pair (plan_sourceSets plan)) as (j & x & ? & Hj)%elem_of_lookup_imap_1 by (rewrite Hin; set_solver).
      simplify_eq. by eapply list_elem_of_lookup_2. }
    rewrite Forall_forall in Hplan. specialize (Hplan _ Hsource).
    repeat wp_step; [apply HErr|cbn; split; [done|set_solver]|].
    apply wp_createOne; [by eapply maySupply_more|intros Hc%C1%ContainsStr_spec; congruence|].
    intros [s2 [b|e]] g2 L2 C2; [|apply HErr]. repeat wp_step. cbn. split; [by etrans|]. etrans; [exact C2|by apply list_subseteq_skip].
  - intros [claimed' created'] s1 g1 [L1 C1]. by apply HOk.
Qed.

Lemma wp_createMapped ctx s g : cv_copied g = [] -> FailureDomains (mig_Spec (st_mig s)) = destFDs ->
  wp O (createMappedWorkerMachineSets ctx infraID mappings infraFDs s) (fun _ _ => True) g.
Proof.
  intros Hg Hd. unfold createMappedWorkerMachineSets, setCondition. repeat wp_step; [done|]. intros t _. cbn [upd creates_copies create_next].
  repeat wp_step. cbn. rewrite Hd. apply wp_plan; [|done]. intros plans g1 [L1 C1] Hp. repeat wp_step.
  apply (wp_m_fold _ _ _ _ (fun _ v _ g' => cv_listed g1 ⊆ cv_listed g' /\ cv_copied g' ⊆ v.1)).
  - split; [done|]. cbn. rewrite C1, Hg. set_solver.
  - intros done plan rest [claimed created] s1 g2 Hin [L2 C2]. apply wp_createPlan; [|done| |done].
    + unfold planned in Hp. rewrite Forall_forall in Hp. eapply Forall_impl; [apply (Hp plan); rewrite Hin; set_solver|].
      intros source. by apply maySupply_more.
    + intros s2 claimed' created' g3 L3 C3. split; [by etrans|done].
  - intros [claimed created] s1 g2 _. apply wp_quietM; [|by cbn; congruence|done]. quiet_auto.
Qed.

End Creation.

End WorkersFacts.

(** ** Properties *)

(** C13: the creation step changes nothing but by creating MachineSets, and each one it creates is
    the copy of a source MachineSet: one that this very step has listed, whose workspace is in
    the failure domain a mapping takes it from, copied to the failure domain that mapping takes
    it to, with exactly the number of replicas the source asks for (1 when unset); no source
    is copied twice.  Nothing is updated, scaled or deleted, whatever the cluster answers. *)
Theorem creation_only_adds_copies `{ProviderCodecLaws} {W} (h : W -> forall c, resp c * W) (w : W) (ctx : Ctx) (infraID : string)
    (mappings : list FailureDomainMapping) (infraFDs : list FailureDomain) (s : St) :
  observed (creates_copies infraID mappings (FailureDomains (mig_Spec (st_mig s))) infraFDs) (MkCreateView [] [])
    (run h (createMappedWorkerMachineSets ctx infraID mappings infraFDs s) w).2.
Proof. eapply (wp_run_all _ h); [done|]. by apply wp_createMapped. Qed.

Lemma creation_only_adds_copies_witness :
  let l := [example_ms "ms-a" "old" "d" "p" (Some 2%Z)] in
  let m := MkMigration "cluster" "ns" "u" "1" 1 None ∅ []
             (MkSpec "Running" (MkSecretReference "" "") [example_fd "x" "new" "d2" "p2"] [] None)
             (MkStatus None [] [MkMapping "a" "x"] [] "" None None None "" None) in
  observed (creates_copies "inf" [MkMapping "a" "x"] [example_fd "x" "new" "d2" "p2"] [example_fd "a" "old" "d" "p"]) (MkCreateView [] [])
    (run (machine_world l) (createMappedWorkerMachineSets Background "inf" [MkMapping "a" "x"] [example_fd "a" "old" "d" "p"]
       (MkSt m (MkMem "" None 0 None None) ∅ ∅)) tt).2.
Proof.
  intros l m. apply (creation_only_adds_copies (machine_world l) tt Background "inf" [MkMapping "a" "x"]
    [example_fd "a" "old" "d" "p"] (MkSt m (MkMem "" None 0 None None) ∅ ∅)).
Defined.
