(* ===== verification/Netip.v ===== *)
(** * IP addresses and prefixes (Go's net/netip)

    The address parser, the masked prefix and the textual form that the networking
    preflight compares. *)

From S2P Require Import Prelude.
Import GoStr.
Open Scope Z_scope.

(** [netip.Addr]: 32 or 128 bits; an IPv6 address may carry a zone. *)
Inductive Addr :=
| Addr4 (a : Z)
| Addr6 (a : Z) (zone : string).

#[global] Instance Addr_eq_dec : EqDecision Addr.
Proof. solve_decision. Defined.

Definition Is4 (a : Addr) : bool := match a with Addr4 _ => true | Addr6 _ _ => false end.

(** ** Parsing *)

Definition digit_val (c : ascii) : option Z :=
  if is_digit c then Some (Z.of_nat (Ascii.nat_of_ascii c) - 48) else None.

Definition hex_val (c : ascii) : option Z :=
  let n := Ascii.nat_of_ascii c in
  if is_digit c then Some (Z.of_nat n - 48)
  else if ((97 <=? n)%nat && (n <=? 102)%nat) then Some (Z.of_nat n - 87)
  else if ((65 <=? n)%nat && (n <=? 70)%nat) then Some (Z.of_nat n - 55)
  else None.

(** One decimal field: digits only, no leading zero, at most 255. *)
Fixpoint octet_go (len : nat) (val : Z) (s : string) : option Z :=
  match s with
  | EmptyString => if (len =? 0)%nat then None else Some val
  | String c s' =>
      match digit_val c with
      | None => None
      | Some d =>
          if (len =? 1)%nat && (val =? 0) then None
          else let v := val * 10 + d in if 255 <? v then None else octet_go (S len) v s'
      end
  end.
Definition octet (s : string) : option Z := octet_go 0 0 s.

(** [parseIPv4]: exactly four fields. *)
Definition parseIPv4 (s : string) : option Z :=
  match octet <$> Split s "."%char with
  | [Some a; Some b; Some c; Some d] => Some (((a * 256 + b) * 256 + c) * 256 + d)
  | _ => None
  end.

(** The leading hexadecimal digits (at most four): their value, their number, the rest. *)
Fixpoint hex_group (len : nat) (acc : Z) (s : string) : option (Z * nat * string) :=
  match s with
  | String c s' =>
      match hex_val c with
      | Some d => if (3 <? len)%nat then None else hex_group (S len) (acc * 16 + d) s'
      | None => Some (acc, len, s)
      end
  | EmptyString => Some (acc, len, s)
  end.

(** The groups parsed so far (16 bits each), where the ellipsis stands among them, and
    what is left of the text.  The loop runs at most eight times: [fuel] counts the
    groups still free. *)
Fixpoint groups6 (fuel : nat) (groups : list Z) (ellipsis : option nat) (s : string) : option (list Z * option nat * string) :=
  match fuel with
  | O => Some (groups, ellipsis, s)
  | S fuel' =>
      match hex_group 0 0 s with
      | None => None
      | Some (acc, off, rest) =>
          if (off =? 0)%nat then None
          else match rest with
          | String "."%char _ =>
              if (bool_decide (ellipsis = None) && negb (length groups =? 6)%nat) || (8 <? length groups + 2)%nat then None
              else match parseIPv4 s with
                   | Some v => Some (groups ++ [v / 65536; v mod 65536], ellipsis, EmptyString)
                   | None => None
                   end
          | EmptyString => Some (groups ++ [acc], ellipsis, EmptyString)
          | String ":"%char EmptyString => None
          | String ":"%char (String ":"%char rest') =>
              match ellipsis with
              | Some _ => None
              | None =>
                  if String.eqb rest' "" then Some (groups ++ [acc], Some (S (length groups)), EmptyString)
                  else groups6 fuel' (groups ++ [acc]) (Some (S (length groups))) rest'
              end
          | String ":"%char rest' => groups6 fuel' (groups ++ [acc]) ellipsis rest'
          | _ => None
          end
      end
  end.

Definition of_groups (groups : list Z) : Z := foldl (fun acc g => acc * 65536 + g) 0 groups.

(** [parseIPv6] without its zone. *)
Definition parse6 (s : string) : option Z :=
  let '(ellipsis, body) := match s with
                           | String ":"%char (String ":"%char s') => (Some 0%nat, s')
                           | _ => (None, s)
                           end in
  if bool_decide (ellipsis = Some 0%nat) && String.eqb body "" then Some 0
  else match groups6 8 [] ellipsis body with
       | Some (groups, e, EmptyString) =>
           if (length groups <? 8)%nat then
             match e with
             | Some k => Some (of_groups (take k groups ++ replicate (8 - length groups) 0 ++ drop k groups))
             | None => None
             end
           else match e with Some _ => None | None => Some (of_groups groups) end
       | _ => None
       end.

Definition parseIPv6 (s : string) : option Addr :=
  match Index s "%" with
  | Some i =>
      let zone := sdrop (S i) s in
      if String.eqb zone "" then None else (fun a => Addr6 a zone) <$> parse6 (stake i s)
  | None => (fun a => Addr6 a "") <$> parse6 s
  end.

(** [netip.ParseAddr]: the first of '.', ':' and '%' decides the family. *)
Fixpoint family (s : string) : option bool :=
  match s with
  | EmptyString => None
  | String c s' =>
      if Ascii.eqb c "."%char then Some true
      else if Ascii.eqb c ":"%char then Some false
      else if Ascii.eqb c "%"%char then None
      else family s'
  end.

Definition ParseAddr (s : string) : option Addr :=
  match family s with
  | Some true => Addr4 <$> parseIPv4 s
  | Some false => parseIPv6 s
  | None => None
  end.

(** ** Text *)

Definition byte_of (a : Z) (i : Z) : Z := Z.land (Z.shiftr a (8 * i)) 255.

Definition String4 (a : Z) : string :=
  Join (pretty <$> [byte_of a 3; byte_of a 2; byte_of a 1; byte_of a 0]) ".".

Definition group_of (a : Z) (i : nat) : Z := Z.land (Z.shiftr a (16 * Z.of_nat (7 - i))) 65535.
Definition groups_of (a : Z) : list Z := group_of a <$> seq 0 8.

Definition hex_char (n : Z) : ascii := Ascii.ascii_of_nat (Z.to_nat (if n <? 10 then 48 + n else 87 + n)).

(** Hexadecimal without leading zeros. *)
Definition hex16 (g : Z) : string :=
  let d i := hex_char (Z.land (Z.shiftr g (4 * i)) 15) in
  if 4096 <=? g then String (d 3) (String (d 2) (String (d 1) (String (d 0) "")))
  else if 256 <=? g then String (d 2) (String (d 1) (String (d 0) ""))
  else if 16 <=? g then String (d 1) (String (d 0) "")
  else String (d 0) "".

(** Length of the run of zero groups at the head. *)
Fixpoint zero_run (l : list Z) : nat :=
  match l with
  | g :: l' => if g =? 0 then S (zero_run l') else O
  | [] => O
  end.

(** The first longest run of at least two zero groups: its start and its length. *)
Definition longest_run (l : list Z) : option (nat * nat) :=
  foldl (fun best i =>
    let n := zero_run (drop i l) in
    if (2 <=? n)%nat && (match best with Some (_, m) => m | None => 0 end <? n)%nat then Some (i, n) else best)
    None (seq 0 (length l)).

Definition hex_groups (l : list Z) : string := Join (hex16 <$> l) ":".

Definition String6 (a : Z) : string :=
  if Z.shiftr a 32 =? 65535 then "::ffff:" +:+ String4 (Z.land a 4294967295)
  else match longest_run (groups_of a) with
       | Some (i, n) => hex_groups (take i (groups_of a)) +:+ "::" +:+ hex_groups (drop (i + n) (groups_of a))
       | None => hex_groups (groups_of a)
       end.

Definition AddrString (a : Addr) : string :=
  match a with
  | Addr4 v => String4 v
  | Addr6 v zone => String6 v +:+ (if String.eqb zone "" then "" else "%" +:+ zone)
  end.

(** ** Prefixes *)

(** [addr.Prefix(b)]: the masked network and its length; the zone is dropped. *)
Definition mask (w : Z) (a b : Z) : Z := Z.shiftl (Z.shiftr a (w - b)) (w - b).

Definition AddrPrefix (a : Addr) (b : Z) : option (Addr * Z) :=
  if b <? 0 then None
  else match a with
       | Addr4 v => if 32 <? b then None else Some (Addr4 (mask 32 v b), b)
       | Addr6 v _ => if 128 <? b then None else Some (Addr6 (mask 128 v b) "", b)
       end.

(** [p.Masked().String()] of a prefix, which is already masked. *)
Definition PrefixString (p : Addr * Z) : string := AddrString p.1 +:+ "/" +:+ pretty p.2.

Example parse_v4 : ParseAddr "192.168.4.20" = Some (Addr4 3232236564). Proof. reflexivity. Qed.
Example parse_v4_leading_zero : ParseAddr "192.168.04.20" = None. Proof. reflexivity. Qed.
Example parse_v6 : AddrString <$> ParseAddr "2001:DB8:0:0:1::1%eth0" = Some "2001:db8::1:0:0:1%eth0". Proof. vm_compute. reflexivity. Qed.
Example prefix_v4 : (a ← ParseAddr "192.168.4.20"; p ← AddrPrefix a 22; Some (PrefixString p)) = Some "192.168.4.0/22".
Proof. vm_compute. reflexivity. Qed.

(** ** Facts *)

Lemma octet_go_range n v s r : 0 <= v <= 255 -> octet_go n v s = Some r -> 0 <= r <= 255.
Proof.
  revert n v. induction s as [|c s IH]; intros n v Hv; simpl.
  - case_match; intros; simplify_eq; lia.
  - unfold digit_val. destruct (is_digit c) eqn:Hd; [|done]. case_match; [done|].
    destruct (255 <? _) eqn:E; [done|]. apply Z.ltb_ge in E. apply IH.
    unfold is_digit in Hd. reflect_bools. lia.
Qed.

Lemma parseIPv4_range s a : parseIPv4 s = Some a -> 0 <= a < 4294967296.
Proof.
  assert (forall x r, octet x = Some r -> 0 <= r <= 255) as Ho by (intros x r; apply octet_go_range; lia).
  unfold parseIPv4. destruct (Split s "."%char) as [|s1 [|s2 [|s3 [|s4 []]]]]; simpl;
    try (by repeat case_match).
  destruct (octet s1) eqn:E1, (octet s2) eqn:E2, (octet s3) eqn:E3, (octet s4) eqn:E4; intros; simplify_eq.
  apply Ho in E1, E2, E3, E4. lia.
Qed.

(** Two 32-bit addresses have the same prefix of length [b] exactly when the network they
    are masked to is the same. *)
Lemma mask_eq_bits b x y : 0 <= b <= 32 -> 0 <= x < 2 ^ 32 -> 0 <= y < 2 ^ 32 ->
  mask 32 x b = mask 32 y b <-> x / 2 ^ (32 - b) = y / 2 ^ (32 - b).
Proof.
  intros Hb Hx Hy. unfold mask. rewrite !Z.shiftl_mul_pow2, !Z.shiftr_div_pow2 by lia.
  split; [|by intros ->]. intros H. apply Z.mul_reg_r in H; [done|]. apply Z.pow_nonzero; lia.
Qed.

(** ** IPv4 text parses back *)

Lemma split_on_end c cur a : sforall (fun d => negb (Ascii.eqb d c)) a = true -> split_on c cur a = [cur +:+ a].
Proof.
  revert cur. induction a as [|d a IH]; intros cur; simpl; [by rewrite append_nil_r|].
  intros [Hd Ha]%andb_true_iff. apply negb_true_iff in Hd. rewrite Hd, IH by done. by rewrite append_assoc.
Qed.

Lemma split_on_cons c cur a b :
  sforall (fun d => negb (Ascii.eqb d c)) a = true -> split_on c cur (a +:+ String c b) = (cur +:+ a) :: split_on c "" b.
Proof.
  revert cur. induction a as [|d a IH]; intros cur; simpl.
  - intros _. by rewrite Ascii.eqb_refl, append_nil_r.
  - intros [Hd Ha]%andb_true_iff. apply negb_true_iff in Hd. rewrite Hd, IH by done. by rewrite append_assoc.
Qed.

Lemma pretty_Z_digits z : 0 <= z -> sforall is_digit (pretty z) = true.
Proof. intros. rewrite <- (Z2Nat.id z), pretty_Z_of_nat by done. apply pretty_N_digits. Qed.

Lemma digits_not c s : is_digit c = false -> sforall is_digit s = true -> sforall (fun d => negb (Ascii.eqb d c)) s = true.
Proof.
  intros Hc. apply sforall_impl. intros d Hd. apply negb_true_iff, Ascii.eqb_neq. intros ->. congruence.
Qed.

Lemma octet_pretty z : 0 <= z <= 255 -> octet (pretty z) = Some z.
Proof.
  intros Hz. assert (forallb (fun n => bool_decide (octet (pretty (Z.of_nat n)) = Some (Z.of_nat n))) (seq 0 256) = true) as H
    by (vm_compute; reflexivity).
  rewrite forallb_forall in H. specialize (H (Z.to_nat z)). rewrite Z2Nat.id in H by lia.
  apply bool_decide_eq_true in H; [done|]. apply in_seq. lia.
Qed.

Lemma byte_of_mod a i : byte_of a i = Z.shiftr a (8 * i) mod 256.
Proof. unfold byte_of. change 255 with (Z.ones 8). by rewrite Z.land_ones. Qed.

Lemma byte_of_range a i : 0 <= byte_of a i <= 255.
Proof. rewrite byte_of_mod. pose proof (Z.mod_pos_bound (Z.shiftr a (8 * i)) 256). lia. Qed.

Lemma bytes_value a : 0 <= a < 4294967296 ->
  ((byte_of a 3 * 256 + byte_of a 2) * 256 + byte_of a 1) * 256 + byte_of a 0 = a.
Proof.
  intros Ha. rewrite !byte_of_mod, !Z.shiftr_div_pow2 by lia.
  change (2 ^ (8 * 3)) with 16777216. change (2 ^ (8 * 2)) with 65536. change (2 ^ (8 * 1)) with 256. change (2 ^ (8 * 0)) with 1.
  Z.to_euclidean_division_equations. lia.
Qed.

Lemma family_digits a b : sforall is_digit a = true -> family (a +:+ String "."%char b) = Some true.
Proof.
  induction a as [|c a IH]; simpl; [done|]. intros [Hc Ha]%andb_true_iff.
  destruct (Ascii.eqb_spec c "."%char) as [->|]; [done|].
  destruct (Ascii.eqb_spec c ":"%char) as [->|]; [done|].
  destruct (Ascii.eqb_spec c "%"%char) as [->|]; [done|]. by apply IH.
Qed.

Lemma String4_eq a :
  String4 a = pretty (byte_of a 3) +:+ String "."%char (pretty (byte_of a 2) +:+ String "."%char
                (pretty (byte_of a 1) +:+ String "."%char (pretty (byte_of a 0)))).
Proof. reflexivity. Qed.

Lemma parse_String4 a : 0 <= a < 4294967296 -> ParseAddr (String4 a) = Some (Addr4 a).
Proof.
  intros Ha. assert (forall i, sforall is_digit (pretty (byte_of a i)) = true) as Hd
    by (intros i; apply pretty_Z_digits; pose proof (byte_of_range a i); lia).
  assert (forall i, sforall (fun d => negb (Ascii.eqb d "."%char)) (pretty (byte_of a i)) = true) as Hn
    by (intros i; by apply digits_not).
  unfold ParseAddr. rewrite String4_eq, family_digits by done. unfold parseIPv4, Split.
  rewrite !split_on_cons, split_on_end by done. cbn [fmap list_fmap String.append].
  rewrite !octet_pretty by apply byte_of_range. cbn. by rewrite bytes_value.
Qed.

Lemma String4_inj a b : 0 <= a < 4294967296 -> 0 <= b < 4294967296 -> String4 a = String4 b -> a = b.
Proof. intros Ha Hb H. apply parse_String4 in Ha, Hb. rewrite H in Ha. congruence. Qed.

(** An IPv4 prefix is written without a colon, an IPv6 prefix with one. *)
Definition not_colon (c : ascii) : bool := negb (Ascii.eqb c ":"%char).

Lemma String4_no_colon a : sforall not_colon (String4 a) = true.
Proof.
  assert (forall i, sforall not_colon (pretty (byte_of a i)) = true) as Hd.
  { intros i. apply (digits_not ":"%char); [done|]. apply pretty_Z_digits. pose proof (byte_of_range a i). lia. }
  rewrite String4_eq. repeat (rewrite ?sforall_app; cbn [sforall]; rewrite ?Hd). done.
Qed.

Lemma hex_groups_cons x y l : hex_groups (x :: y :: l) = hex16 x +:+ String ":"%char (hex_groups (y :: l)).
Proof. reflexivity. Qed.

Lemma groups_of_cons a : exists x y l, groups_of a = x :: y :: l.
Proof. unfold groups_of. cbn [seq fmap list_fmap]. eauto. Qed.

Lemma String6_colon a : sforall not_colon (String6 a) = false.
Proof.
  unfold String6. case_match; [done|]. destruct (longest_run (groups_of a)) as [[i n]|].
  - generalize (hex_groups (take i (groups_of a))) (hex_groups (drop (i + n) (groups_of a))). intros x y.
    rewrite sforall_app. simpl. by rewrite andb_false_r.
  - destruct (groups_of_cons a) as (x & y & l & ->). rewrite hex_groups_cons.
    generalize (hex16 x) (hex_groups (y :: l)). intros. rewrite sforall_app. simpl. by rewrite andb_false_r.
Qed.

Lemma no_slash s : sforall is_digit s = true -> Contains s "/" = false.
Proof.
  intros H. apply not_true_is_false. intros (x & y & ->)%Contains_spec.
  rewrite !sforall_app in H. simpl in H. rewrite andb_false_r in H. done.
Qed.

Lemma String4_no_slash a : Contains (String4 a) "/" = false.
Proof.
  apply not_true_is_false. intros (x & y & H)%Contains_spec.
  assert (sforall (fun c => negb (Ascii.eqb c "/"%char)) (String4 a) = true) as Hs.
  { assert (forall i, sforall (fun c => negb (Ascii.eqb c "/"%char)) (pretty (byte_of a i)) = true) as Hd.
    { intros i. apply (digits_not "/"%char); [done|]. apply pretty_Z_digits. pose proof (byte_of_range a i). lia. }
    rewrite String4_eq. repeat (rewrite ?sforall_app; cbn [sforall]; rewrite ?Hd). done. }
  rewrite H, !sforall_app in Hs. simpl in Hs. by rewrite andb_false_r in Hs.
Qed.

Close Scope Z_scope.
