(* ===== verification/VSphere.v ===== *)
(** * vCenter sessions, folders and tags (internal/vsphere)

    session.go, list.go, folder.go and tags.go.  Sessions are cached per server,
    datacenter and user; folders are created part by part; tag categories and tags are
    created only when missing and an existing category is checked before it is used.  A
    [*Session] is never nil here: the callers pass the session they were given. *)

From S2P Require Import Prelude GoErrors Objects Types Effects Execution.
Import GoStr.

(** ** session.go *)

Record Params := MkParams {
  par_Server : string;
  par_Datacenter : string;
  par_Username : string;
  par_Password : string;
  par_Insecure : bool;
}.

Definition cutScheme (server : string) : string :=
  if HasPrefix (ToLower server) "https://" then sdrop 8 server
  else if HasPrefix (ToLower server) "http://" then sdrop 7 server
  else server.

Definition SanitizeServer (server : string) : string :=
  let server := cutScheme (TrimSpace server) in
  match Index server "/" with
  | Some idx => stake idx server
  | None => server
  end.

Definition cacheKey (p : Params) : string :=
  Sprintf "%s#%s#%s" [RStr (par_Server p); RStr (par_Datacenter p); RStr (par_Username p)].

Definition NewSession (p : Params) : IO Session :=
  let host := SanitizeServer (par_Server p) in
  let! (client, root) := wrapping "creating vim25 client for %s: %w" [FS host]
                           (do_call (VNewClient host (par_Username p) (par_Insecure p))) in
  let! _ := wrapping "logging in to %s: %w" [FS (par_Server p)]
              (do_call (VLogin client (par_Username p) (par_Password p))) in
  let! _ := wrapping "finding datacenter %q: %w" [FS (par_Datacenter p)]
              (do_call (VFind (MkSession client "" "" root) FDatacenter (par_Datacenter p))) in
  let! rest := wrapping "REST login to %s: %w" [FS (par_Server p)]
                 (do_call (VRestLogin client (par_Username p) (par_Password p))) in
  ok (MkSession client rest (par_Datacenter p) root).

(** [Close]: the errors of both logouts are only logged. *)
Definition Close (s : Session) : IO unit :=
  let* _ := do_call (VRestLogout (sess_Rest s)) in
  let* _ := do_call (VLogout (sess_Client s)) in
  ok tt.

Definition GetOrCreate (p : Params) : M Session :=
  let@ st := get in
  match st_sessions st !! cacheKey p with
  | Some s => ret s
  | None =>
      let@ s := lift (NewSession p) in
      let@ _ := modify (with_sessions <[cacheKey p := s]>) in
      ret s
  end.

Definition ClearSessions : M unit :=
  let@ st := get in
  let@ keys := lift (map_order ((map_to_list (st_sessions st)).*1)) in
  m_for keys (fun key =>
    match st_sessions st !! key with
    | Some s =>
        let@ _ := lift (Close s) in
        modify (with_sessions (delete key))
    | None => ret tt
    end).

(** ** list.go *)

(** [object.Common.Name]. *)
Definition Name (o : ObjRef) : string :=
  if String.eqb (o_InventoryPath o) "" then "" else PathBase (o_InventoryPath o).

Definition ListDatacenters (p : Params) : IO (list string) :=
  if String.eqb (par_Server p) "" || String.eqb (par_Username p) "" || String.eqb (par_Password p) "" then
    fail (Errorf "server, username, and password are required" [])
  else
    let host := SanitizeServer (par_Server p) in
    let! (client, _) := wrapping "creating vim25 client for %s: %w" [FS host]
                          (do_call (VNewClient host (par_Username p) (par_Insecure p))) in
    let! _ := wrapping "logging in: %w" [] (do_call (VLogin client (par_Username p) (par_Password p))) in
    let! dcs := try (wrapping "listing datacenters: %w" [] (do_call (VListDatacenters client))) in
    let* _ := do_call (VLogout client) in
    of_result (match dcs with Ok l => Ok (Name <$> l) | Err e => Err e end).

(** ** folder.go *)

Definition parseFolderName (datacenter folderPath : string) : string :=
  let folderPath := TrimSpace folderPath in
  if String.eqb folderPath "" then ""
  else
    let prefix := Sprintf "/%s/vm/" [RStr datacenter] in
    let prefixNoSlash := Sprintf "%s/vm/" [RStr datacenter] in
    if HasPrefix folderPath prefix then TrimPrefix folderPath prefix
    else if HasPrefix folderPath prefixNoSlash then TrimPrefix folderPath prefixNoSlash
    else TrimPrefix folderPath "/".

Definition GetVMFolder (s : Session) (folderPath : string) : IO ObjRef :=
  let folderName := parseFolderName (sess_Datacenter s) folderPath in
  let searchPath := Sprintf "/%s/vm/%s" [RStr (sess_Datacenter s); RStr folderName] in
  wrapping "finding folder %q: %w" [FS searchPath] (do_call (VFind s FFolder searchPath)).

Definition CreateVMFolder (ctx : Ctx) (s : Session) (folderPath : string) : IO ObjRef :=
  let folderName := parseFolderName (sess_Datacenter s) folderPath in
  let! dc := wrapping "finding datacenter %q: %w" [FS (sess_Datacenter s)]
               (do_call (VFind s FDatacenter (sess_Datacenter s))) in
  let! vmFolder := wrapping "getting datacenter folders: %w" [] (do_call (VVMFolder s dc)) in
  let! _ := io_fold (Split folderName "/"%char) vmFolder (fun parent part =>
    if String.eqb part "" then ok parent
    else
      let! _ := Check ctx in
      wrapping "creating folder %q: %w" [FS part] (do_call (VCreateFolder s parent part))) in
  wrapping "looking up created folder %q: %w" [FS folderName] (GetVMFolder s folderName).

Definition DeleteVMFolder (ctx : Ctx) (s : Session) (folder : option ObjRef) : IO unit :=
  match folder with
  | None => fail (Errorf "folder must not be nil" [])
  | Some folder =>
      let! _ := Check ctx in
      let! task := wrapping "destroying folder %s: %w" [FS (o_InventoryPath folder)] (do_call (VDestroy s folder)) in
      wrapping "waiting for folder destroy %s: %w" [FS (o_InventoryPath folder)] (do_call (VWaitTask s task))
  end.

(** ** tags.go *)

Definition TagCategoryRegion := "openshift-region".
Definition TagCategoryZone := "openshift-zone".
Definition TagCategoryRegionDescription := "OpenShift region for failure domain topology".
Definition TagCategoryZoneDescription := "OpenShift zone for failure domain topology".
Definition ClusterOwnershipDescription := "Added by openshift-install do not remove".
Definition tagCategoryAssociableTypes := ["Datacenter"; "ClusterComputeResource"; "Datastore"; "Folder"].
Definition requiredTagCategoryAssociableTypes := ["Datacenter"; "ClusterComputeResource"].
Definition clusterOwnershipAssociableTypes :=
  ["urn:vim25:VirtualMachine"; "urn:vim25:ResourcePool"; "urn:vim25:Folder"; "urn:vim25:Datastore"; "urn:vim25:StoragePod"].
Definition requiredClusterOwnershipAssociableTypes := ["urn:vim25:VirtualMachine"; "urn:vim25:Folder"].

Definition ClusterOwnershipCategoryName (infraID : string) : string := Sprintf "openshift-%s" [RStr infraID].

Definition isAlreadyExists (e : error) : bool := Contains (Error e) "already_exists".

Definition normalizeAssociableType (t : string) : string := TrimPrefix t "urn:vim25:".

Definition missingAssociableTypes (existingTypes requiredTypes : list string) : list string :=
  filter (fun t => ContainsStr (normalizeAssociableType <$> existingTypes) (normalizeAssociableType t) = false) requiredTypes.

Definition validateExistingCategory (category : Category) (name cardinality : string) (requiredTypes : list string) : result unit :=
  let missingTypes := missingAssociableTypes (cat_AssociableTypes category) requiredTypes in
  let incompatibilities :=
    (if negb (String.eqb (cat_Cardinality category) cardinality)
     then [Sprintf "cardinality %q does not match required %q" [RStr (cat_Cardinality category); RStr cardinality]] else []) ++
    (if (0 <? length missingTypes)%nat
     then [Sprintf "missing required associable types %s" [RStr (Join missingTypes ", ")]] else []) in
  if (length incompatibilities =? 0)%nat then Ok tt
  else Err (Errorf "existing tag category %q is incompatible: %s; update the category in the vSphere UI or delete it and let the operator recreate it"
              [FS name; FS (Join incompatibilities "; ")]).

Definition ObjectHasTagInCategory (s : Session) (categoryName : string) (obj : ObjRef) : IO bool :=
  let! category := try (do_call (VGetCategory s categoryName)) in
  match category with
  | Err e =>
      if IsRestNotFound e then ok false else fail (Errorf "getting tag category %q: %w" [FS categoryName; FE e])
  | Ok category =>
      if String.eqb (cat_ID category) "" then ok false
      else
        let! categoryTagIDs := wrapping "listing tags for category %q: %w" [FS categoryName]
                                 (do_call (VListTagsForCategory s (cat_ID category))) in
        if (length categoryTagIDs =? 0)%nat then ok false
        else
          let! attachedTagIDs := wrapping "listing attached tags on %s: %w" [FS (o_Ref obj)]
                                   (do_call (VListAttachedTags s (o_Ref obj))) in
          ok (existsb (ContainsStr categoryTagIDs) attachedTagIDs)
  end.

Definition ensureTagCategory (ctx : Ctx) (s : Session) (name description cardinality : string)
    (associableTypes requiredTypes : list string) : IO string :=
  let use (existing : Category) : IO string :=
    let! _ := of_result (validateExistingCategory existing name cardinality requiredTypes) in ok (cat_ID existing) in
  let create : IO string :=
    let! _ := Check ctx in
    let! id := try (do_call (VCreateCategory s (MkCategory "" name description cardinality associableTypes))) in
    match id with
    | Ok id => ok id
    | Err e =>
        if isAlreadyExists e then
          let! existing := wrapping "creating tag category %q (already exists but get failed): %w" [FS name]
                             (do_call (VGetCategory s name)) in
          use existing
        else fail (Errorf "creating tag category %q: %w" [FS name; FE e])
    end in
  let! existing := try (do_call (VGetCategory s name)) in
  match existing with
  | Ok existing => if negb (String.eqb (cat_ID existing) "") then use existing else create
  | Err _ => create
  end.

Definition EnsureTagCategory (ctx : Ctx) (s : Session) (name description cardinality : string) : IO string :=
  ensureTagCategory ctx s name description cardinality tagCategoryAssociableTypes requiredTagCategoryAssociableTypes.

Definition EnsureTag (ctx : Ctx) (s : Session) (categoryID name description : string) : IO string :=
  let create : IO string :=
    let! _ := Check ctx in
    let! id := try (do_call (VCreateTag s name description categoryID)) in
    match id with
    | Ok id => ok id
    | Err e =>
        if isAlreadyExists e then
          wrapping "creating tag %q (already exists but get failed): %w" [FS name] (do_call (VGetTagForCategory s name categoryID))
        else fail (Errorf "creating tag %q in category %s: %w" [FS name; FS categoryID; FE e])
    end in
  let! existing := try (do_call (VGetTagForCategory s name categoryID)) in
  match existing with
  | Ok id => if negb (String.eqb id "") then ok id else create
  | Err _ => create
  end.

Definition EnsureClusterOwnershipTag (ctx : Ctx) (s : Session) (infraID : string) : IO string :=
  if String.eqb infraID "" then fail (Errorf "infraID must not be empty" [])
  else
    let! catID := wrapping "creating cluster ownership tag category: %w" []
                    (ensureTagCategory ctx s (ClusterOwnershipCategoryName infraID) ClusterOwnershipDescription "SINGLE"
                       clusterOwnershipAssociableTypes requiredClusterOwnershipAssociableTypes) in
    wrapping "creating cluster ownership tag: %w" [] (EnsureTag ctx s catID infraID ClusterOwnershipDescription).

Definition AttachTag (ctx : Ctx) (s : Session) (tagID : string) (obj : ObjRef) : IO bool :=
  if String.eqb tagID "" then ok false
  else
    let! _ := Check ctx in
    let! r := try (do_call (VAttachTag s tagID (o_Ref obj))) in
    match r with
    | Ok _ => ok true
    | Err e => if isAlreadyExists e then ok false
               else fail (Errorf "attaching tag %s to %s: %w" [FS tagID; FS (o_Ref obj); FE e])
    end.

Definition AttachClusterOwnershipTag (ctx : Ctx) (s : Session) (tagID : string) (folder : ObjRef) : IO unit :=
  let! _ := wrapping "attaching cluster ownership tag to folder %s: %w" [FS (o_Ref folder)] (AttachTag ctx s tagID folder) in
  ok tt.

Definition CreateRegionAndZoneTags (ctx : Ctx) (s : Session) (region zone : string) : IO (string * string) :=
  let! regionCatID := wrapping "creating region tag category: %w" []
                        (EnsureTagCategory ctx s TagCategoryRegion TagCategoryRegionDescription "SINGLE") in
  let! zoneCatID := wrapping "creating zone tag category: %w" []
                      (EnsureTagCategory ctx s TagCategoryZone TagCategoryZoneDescription "SINGLE") in
  let! regionTagID := wrapping "creating region tag: %w" []
                        (EnsureTag ctx s regionCatID region (Sprintf "OpenShift region %s" [RStr region])) in
  let! zoneTagID := wrapping "creating zone tag: %w" []
                      (EnsureTag ctx s zoneCatID zone (Sprintf "OpenShift zone %s" [RStr zone])) in
  ok (regionTagID, zoneTagID).

Definition AttachFailureDomainTags (ctx : Ctx) (s : Session) (regionTagID zoneTagID : string) (datacenter cluster : ObjRef) : IO unit :=
  let! _ := (if negb (String.eqb regionTagID "") then
               let! _ := wrapping "attaching region tag to datacenter %s: %w" [FS (o_Ref datacenter)] (AttachTag ctx s regionTagID datacenter) in
               ok tt
             else ok tt) in
  if negb (String.eqb zoneTagID "") then
    let! _ := wrapping "attaching zone tag to cluster %s: %w" [FS (o_Ref cluster)] (AttachTag ctx s zoneTagID cluster) in
    ok tt
  else ok tt.

(** ** Which of these change anything *)

Lemma quiet_NewSession p : quiet (NewSession p).
Proof. unfold NewSession. quiet_auto. Qed.
Lemma quiet_Close s : quiet (Close s).
Proof. unfold Close. quiet_auto. Qed.
#[export] Hint Resolve quiet_NewSession quiet_Close : quiet.
Lemma quietM_GetOrCreate p : quietM (GetOrCreate p).
Proof. unfold GetOrCreate. quiet_auto. Qed.
Lemma quietM_ClearSessions : quietM ClearSessions.
Proof. unfold ClearSessions. quiet_auto. Qed.
Lemma quiet_ListDatacenters p : quiet (ListDatacenters p).
Proof. unfold ListDatacenters. quiet_auto. Qed.
Lemma quiet_GetVMFolder s p : quiet (GetVMFolder s p).
Proof. unfold GetVMFolder. quiet_auto. Qed.
Lemma quiet_ObjectHasTagInCategory s c o : quiet (ObjectHasTagInCategory s c o).
Proof. unfold ObjectHasTagInCategory. quiet_auto. Qed.
#[export] Hint Resolve quietM_GetOrCreate quietM_ClearSessions quiet_ListDatacenters quiet_GetVMFolder quiet_ObjectHasTagInCategory : quiet.

Section Gate.
Context (m0 m : Migration) (ctx : Ctx) (Hctx : ctx_check ctx = Some m) (Hm : same_identity m m0).

Lemma gated_CreateVMFolder s p : gated m0 (CreateVMFolder ctx s p).
Proof. unfold CreateVMFolder. gate_auto. Qed.
Lemma gated_DeleteVMFolder s f : gated m0 (DeleteVMFolder ctx s f).
Proof. unfold DeleteVMFolder. gate_auto. Qed.
Lemma gated_ensureTagCategory s n d c a r : gated m0 (ensureTagCategory ctx s n d c a r).
Proof. unfold ensureTagCategory. gate_auto. Qed.
Lemma gated_EnsureTag s c n d : gated m0 (EnsureTag ctx s c n d).
Proof. unfold EnsureTag. gate_auto. Qed.
Lemma gated_AttachTag s t o : gated m0 (AttachTag ctx s t o).
Proof. unfold AttachTag. gate_auto. Qed.
Hint Resolve gated_ensureTagCategory gated_EnsureTag gated_AttachTag : gated.
Lemma gated_EnsureClusterOwnershipTag s i : gated m0 (EnsureClusterOwnershipTag ctx s i).
Proof. unfold EnsureClusterOwnershipTag. gate_auto. Qed.
Lemma gated_AttachClusterOwnershipTag s t f : gated m0 (AttachClusterOwnershipTag ctx s t f).
Proof. unfold AttachClusterOwnershipTag. gate_auto. Qed.
Lemma gated_CreateRegionAndZoneTags s r z : gated m0 (CreateRegionAndZoneTags ctx s r z).
Proof. unfold CreateRegionAndZoneTags, EnsureTagCategory. gate_auto. Qed.
Lemma gated_AttachFailureDomainTags s r z d c : gated m0 (AttachFailureDomainTags ctx s r z d c).
Proof. unfold AttachFailureDomainTags. gate_auto. Qed.
End Gate.

#[export] Hint Resolve gated_CreateVMFolder gated_DeleteVMFolder gated_EnsureClusterOwnershipTag gated_AttachClusterOwnershipTag
  gated_CreateRegionAndZoneTags gated_AttachFailureDomainTags : gated.

(** ** The session cache *)

(** A key of the cache can be taken apart again. *)
Definition plainParams (p : Params) : Prop :=
  Contains (par_Server p) "#" = false /\ Contains (par_Datacenter p) "#" = false.

(** The calls made so far have established the session for the server, the user and the
    datacenter of the parameters: the client was made for that host and user, both logins of
    that user through it succeeded, and the datacenter was found there. *)
Definition established (hist : list event_of) (p : Params) (s : Session) : Prop :=
  sess_Datacenter s = par_Datacenter p /\
  exists insecure password dc,
    existT (VNewClient (SanitizeServer (par_Server p)) (par_Username p) insecure) (Ok (sess_Client s, sess_RootFolder s)) ∈ hist /\
    existT (VLogin (sess_Client s) (par_Username p) password) (Ok tt) ∈ hist /\
    existT (VFind (MkSession (sess_Client s) "" "" (sess_RootFolder s)) FDatacenter (par_Datacenter p)) (Ok dc) ∈ hist /\
    existT (VRestLogin (sess_Client s) (par_Username p) password) (Ok (sess_Rest s)) ∈ hist.

(** Every cached session was established for the parameters it is filed under. *)
Definition cache_wf (hist : list event_of) (c : gmap string Session) : Prop :=
  forall k s, c !! k = Some s -> exists p, plainParams p /\ k = cacheKey p /\ established hist p s.

Lemma established_more hist tr p s : established hist p s -> established (hist ++ tr) p s.
Proof.
  intros (Hd & insecure & password & dc & Hc & Hl & Hf & Hr). split; [done|]. exists insecure, password, dc.
  split_and!; apply elem_of_app; by left.
Qed.

Lemma cache_wf_more hist tr c : cache_wf hist c -> cache_wf (hist ++ tr) c.
Proof. intros Hwf k s Hk. destruct (Hwf k s Hk) as (p & ? & ? & ?). exists p. eauto using established_more. Qed.

(** The SOAP and the REST sessions logged out in a trace. *)
Definition soap_logout (e : event_of) : option string := match projT1 e with VLogout c => Some c | _ => None end.
Definition rest_logout (e : event_of) : option string := match projT1 e with VRestLogout c => Some c | _ => None end.

Lemma cacheKey_eq p : cacheKey p = par_Server p +:+ "#" +:+ par_Datacenter p +:+ "#" +:+ par_Username p.
Proof. unfold cacheKey, Sprintf; simpl. by rewrite append_nil_r. Qed.

Lemma cacheKey_inj p q : plainParams p -> plainParams q -> cacheKey p = cacheKey q ->
  par_Server p = par_Server q /\ par_Datacenter p = par_Datacenter q /\ par_Username p = par_Username q.
Proof.
  intros [? ?] [? ?]. rewrite !cacheKey_eq. intros Hk.
  apply (split_at_sep "#"%char) in Hk as [? Hk]; [|done..]. by apply (split_at_sep "#"%char) in Hk as [? ?].
Qed.

Lemma established_same hist p q s :
  par_Server p = par_Server q -> par_Datacenter p = par_Datacenter q -> par_Username p = par_Username q ->
  established hist p s -> established hist q s.
Proof. unfold established. by intros -> -> ->. Qed.

Lemma wp_NewSession p :
  wp history (NewSession p) (fun r tr => forall s, r = Ok s -> established tr p s) [].
Proof.
  unfold NewSession. cbv zeta. repeat wp_step; [done|]. intros [[client root]|e] _; [|done]. cbn [wrapf upd history app].
  repeat wp_step; [done|]. intros [[]|e] _; [|done]. cbn [wrapf upd history app].
  repeat wp_step; [done|]. intros [dc|e] _; [|done]. cbn [wrapf upd history app].
  repeat wp_step; [done|]. intros [rest|e] _; [|done]. cbn [wrapf upd history app]. repeat wp_step.
  intros s [= <-]. split; [done|]. exists (par_Insecure p), (par_Password p), dc. cbn. set_solver.
Qed.

(** Logging out and dropping the session of each key. *)
Definition logouts : Observer (list string * list string) :=
  MkObserver (fun _ _ => True)
    (fun g c _ => match c with VLogout x => (g.1 ++ [x], g.2) | VRestLogout x => (g.1, g.2 ++ [x]) | _ => g end)
    (fun _ _ _ => True).

Lemma logouts_observe tr g :
  observe logouts g tr = (g.1 ++ omap soap_logout tr, g.2 ++ omap rest_logout tr).
Proof.
  revert g. induction tr as [|[c r] tr IH]; intros [a b]; cbn -[soap_logout rest_logout]; [by rewrite !app_nil_r|].
  rewrite IH. by destruct c; cbn; rewrite <- ?app_assoc.
Qed.

Lemma foldl_delete_all {V} (m : gmap string V) ks :
  (forall k, k ∈ dom m -> k ∈ ks) -> foldl (fun m k => delete k m) m ks = ∅.
Proof.
  revert m. induction ks as [|k ks IH]; intros m H; simpl.
  - apply dom_empty_inv_L. apply set_eq. set_solver.
  - apply IH. intros j. rewrite dom_delete_L, elem_of_difference, elem_of_singleton. intros [Hj Hne].
    specialize (H j Hj). by apply elem_of_cons in H as [->|?].
Qed.

Definition cached (c : gmap string Session) (keys : list string) : list Session := omap (fun k => c !! k) keys.

Lemma cached_all c : cached c (map_to_list c).*1 ≡ₚ (map_to_list c).*2.
Proof.
  unfold cached. assert (forall k s, (k, s) ∈ map_to_list c -> c !! k = Some s) as H
    by (intros k s; apply elem_of_map_to_list).
  induction (map_to_list c) as [|[k s] l IH]; simpl; [done|].
  rewrite (H k s) by set_solver. constructor. apply IH. intros; apply H. set_solver.
Qed.

#[global] Instance cached_perm c : Proper ((≡ₚ) ==> (≡ₚ)) (cached c).
Proof. intros x y H. unfold cached. by rewrite H. Qed.

Lemma wp_ClearSessions st :
  wp logouts (ClearSessions st) (fun '(st', r) g =>
    r = Ok tt /\ st' = with_sessions (fun _ => ∅) st /\
    g.1 ≡ₚ sess_Client <$> (map_to_list (st_sessions st)).*2 /\
    g.2 ≡ₚ sess_Rest <$> (map_to_list (st_sessions st)).*2) ([], []).
Proof.
  unfold ClearSessions. repeat wp_step. unfold map_order. repeat wp_step; [done|]. intros ks0 _. cbn [upd logouts].
  set (ks := if decide _ then _ else _).
  assert (ks ≡ₚ (map_to_list (st_sessions st)).*1) as Hks by (subst ks; by case_decide).
  clearbody ks. clear ks0.
  apply (wp_m_for logouts ks _ (fun done s g =>
    s = with_sessions (fun c => foldl (fun m k => delete k m) c done) st /\
    g = (sess_Client <$> cached (st_sessions st) done, sess_Rest <$> cached (st_sessions st) done))).
  - split; [by destruct st|done].
  - intros done x rest s g Hin [-> ->].
    assert (exists sess, st_sessions st !! x = Some sess) as [sess Hx].
    { assert (x ∈ ks) as Hx by (rewrite Hin; set_solver). rewrite Hks in Hx.
      apply list_elem_of_fmap in Hx as [[k v] [-> Hkv]]. exists v. by apply elem_of_map_to_list. }
    unfold cached. rewrite !omap_app, !fmap_app. cbn [omap].
    simpl. rewrite Hx.
    unfold Close. repeat (wp_step; try done; intros). cbn [upd logouts fst snd]. simpl.
    split; [unfold with_sessions; simpl; by rewrite foldl_app|done].
  - intros s g [-> ->]. split_and!; [done| | |].
    + unfold with_sessions. f_equal. apply foldl_delete_all. intros k [v Hv]%elem_of_dom.
      rewrite Hks. apply list_elem_of_fmap. exists (k, v). by rewrite elem_of_map_to_list.
    + simpl. by rewrite Hks, cached_all.
    + simpl. by rewrite Hks, cached_all.
Qed.

(** C32: A session that [GetOrCreate] hands out, newly made or taken from the cache, was
    established for the server, the user and the datacenter it was asked for: the calls made
    so far contain the client made for that host and user, its two successful logins and the
    datacenter found through it.  This holds of every cached session and keeps holding: the
    cache key of server, datacenter and user identifies all three, provided that neither the
    server nor the datacenter contains '#'.  The session is cached afterwards, a cached one
    costs no call to the vCenter, and a failed connection leaves the operator's state as it
    was. *)
Theorem session_cache_sound {W} (h : W -> forall c, resp c * W) (w : W) (p : Params) (st : St) (hist : list event_of) :
  cache_wf hist (st_sessions st) -> plainParams p ->
  let '((st', r), _, tr) := run h (GetOrCreate p st) w in
  cache_wf (hist ++ tr) (st_sessions st') /\
  match r with
  | Ok s => established (hist ++ tr) p s /\ st_sessions st' !! cacheKey p = Some s /\
            (is_Some (st_sessions st !! cacheKey p) -> tr = [] /\ st' = st)
  | Err _ => st' = st
  end.
Proof.
  intros Hwf Hp. unfold GetOrCreate, m_bind, get, bind; cbn -[NewSession].
  destruct (st_sessions st !! cacheKey p) as [s|] eqn:Hk; cbn -[NewSession].
  - rewrite app_nil_r. split; [done|]. split_and!; [|done|done].
    destruct (Hwf _ _ Hk) as (q & Hq & Heq & Hs). apply cacheKey_inj in Heq as (? & ? & ?); [|done..].
    by apply (established_same hist q p).
  - fold (@bind (St * result Session) (St * result Session)). fold (@bind (St * result unit) (St * result Session)).
    rewrite (run_bind h (lift (NewSession p) st)). unfold lift. rewrite (run_bind h (NewSession p)).
    pose proof (wp_history h (NewSession p) _ w (wp_NewSession p)) as Hrun.
    destruct (run h (NewSession p) w) as [[r w'] tr]; cbn. destruct r as [s|e]; cbn; rewrite ?app_nil_r.
    + specialize (Hrun s eq_refl). assert (established (hist ++ tr) p s) as Hs.
      { destruct Hrun as (Hd & insecure & password & dc & Hc & Hl & Hf & Hr). split; [done|]. exists insecure, password, dc.
        split_and!; apply elem_of_app; by right. }
      rewrite lookup_insert_eq. split; [|by split_and!; [| |intros [? ?]; congruence]].
      intros k s'. rewrite lookup_insert_Some. intros [[<- <-]|[_ Hl]]; [by exists p|by eapply cache_wf_more].
    + split; [by apply cache_wf_more|done].
Qed.

Definition example_params : Params := MkParams "vc.example.com" "dc1" "admin" "secret" true.
Definition example_mem : Mem := MkMem "" None 0 None None.
Definition example_state (m : Migration) : St := MkSt m example_mem ∅ ∅.
Definition example_mig : Migration :=
  MkMigration "cluster" "openshift-vcf-migration" "uid" "1" 1 None ∅ [] (MkSpec "Running" (MkSecretReference "creds" "") [] [] None)
    (MkStatus None [] [] [] "" None None None "" None).

(** A vCenter that accepts every login. *)
Definition vcenter_world : unit -> forall c, resp c * unit :=
  answering (fun c => match c return option (resp c) with
    | VNewClient _ _ _ => Some (Ok ("soap", MkObjRef "root" "/"))
    | VLogin _ _ _ => Some (Ok tt)
    | VRestLogin _ _ _ => Some (Ok "rest")
    | VFind _ _ path => Some (Ok (MkObjRef path ("/" +:+ path)))
    | _ => None
    end).

Lemma session_cache_sound_witness :
  let '((st', r), _, tr) := run vcenter_world (GetOrCreate example_params (example_state example_mig)) tt in
  exists s, r = Ok s /\ established tr example_params s /\ cache_wf tr (st_sessions st').
Proof.
  assert (cache_wf [] (st_sessions (example_state example_mig))) as Hwf by (intros k s; simpl; by rewrite lookup_empty).
  assert (plainParams example_params) as Hp by (split; reflexivity).
  pose proof (session_cache_sound vcenter_world tt example_params (example_state example_mig) [] Hwf Hp) as H.
  assert (is_ok (run vcenter_world (GetOrCreate example_params (example_state example_mig)) tt).1.1.2 = true) as Hr by (vm_compute; reflexivity).
  destruct (run vcenter_world (GetOrCreate example_params (example_state example_mig)) tt) as [[[st' [s|e]] w'] tr]; [|discriminate Hr].
  exists s. split; [reflexivity|]. exact (conj (proj1 (proj2 H)) (proj1 H)).
Defined.

(** Clearing the cache logs out every cached session exactly once, SOAP and REST, and
    leaves the cache empty, whatever the logouts answer and in whatever order Go visits the
    map; nothing else of the operator's state changes. *)
Theorem ClearSessions_releases {W} (h : W -> forall c, resp c * W) (w : W) (st : St) :
  let '((st', r), _, tr) := run h (ClearSessions st) w in
  r = Ok tt /\ st' = with_sessions (fun _ => ∅) st /\
  omap soap_logout tr ≡ₚ sess_Client <$> (map_to_list (st_sessions st)).*2 /\
  omap rest_logout tr ≡ₚ sess_Rest <$> (map_to_list (st_sessions st)).*2.
Proof.
  destruct (wp_run_all logouts h _ _ _ w (fun _ _ _ => I) (wp_ClearSessions st)) as [_ H].
  destruct (run h (ClearSessions st) w) as [[[st' r] w'] tr]; cbn [fst snd] in H.
  rewrite logouts_observe in H. exact H.
Qed.

(** ** Tag categories *)

(** A category is compatible when its cardinality matches and every required type is among
    its associable types, with or without the urn prefix on either side. *)
Definition compatibleCategory (category : Category) (cardinality : string) (requiredTypes : list string) : Prop :=
  cat_Cardinality category = cardinality /\
  forall t, t ∈ requiredTypes -> exists t', t' ∈ cat_AssociableTypes category /\ normalizeAssociableType t' = normalizeAssociableType t.

Lemma validateExistingCategory_spec category name cardinality requiredTypes :
  is_ok (validateExistingCategory category name cardinality requiredTypes) = true <->
  compatibleCategory category cardinality requiredTypes.
Proof.
  unfold validateExistingCategory, compatibleCategory.
  assert (missingAssociableTypes (cat_AssociableTypes category) requiredTypes = [] <->
    forall t, t ∈ requiredTypes -> exists t', t' ∈ cat_AssociableTypes category /\ normalizeAssociableType t' = normalizeAssociableType t) as Hm.
  { unfold missingAssociableTypes. split.
    - intros H t Ht. destruct (ContainsStr (normalizeAssociableType <$> cat_AssociableTypes category) (normalizeAssociableType t)) eqn:E.
      + apply ContainsStr_spec, list_elem_of_fmap in E as (t' & ? & ?). eauto.
      + by apply (filter_nil_not_elem_of _ _ _ H) in E.
    - intros H. apply filter_none, Forall_forall. intros t Ht Hc. destruct (H t Ht) as (t' & Hin & Heq).
      apply not_true_iff_false in Hc. apply Hc, ContainsStr_spec. rewrite <- Heq. by apply list_elem_of_fmap_2. }
  rewrite <- Hm. destruct (String.eqb_spec (cat_Cardinality category) cardinality) as [E|E]; simpl.
  - destruct (missingAssociableTypes _ _); simpl; split; [done|done|done|]. by intros [].
  - split; [|by intros []]. by destruct (missingAssociableTypes _ _).
Qed.

(** The answer shows that the category [id] can be used. *)
Definition vouches (name cardinality : string) (requiredTypes : list string) (id : string) (e : event_of) : Prop :=
  match e with
  | existT (VCreateCategory _ c) (Ok i) => i = id /\ cat_Name c = name /\ cat_Cardinality c = cardinality
  | existT (VGetCategory _ n) (Ok c) => n = name /\ cat_ID c = id /\ compatibleCategory c cardinality requiredTypes
  | _ => False
  end.

Lemma wp_history_Check ctx (Q : result unit -> list event_of -> Prop) g :
  (forall r g', (exists tr, g' = g ++ tr) -> Q r g') -> wp history (Check ctx) Q g.
Proof.
  intros HQ. unfold Check, checkPermission.
  repeat (wp_step; try done; intros); apply HQ; first [by eexists|exists []; by rewrite app_nil_r].
Qed.

(** C31: The category [ensureTagCategory] returns is one it created itself with the
    requested cardinality, or one that it read back by that name and found compatible:
    a foreign category of the wrong cardinality, or one that cannot be associated with
    every required type, is refused and never tagged with. *)
Theorem ensureTagCategory_vouched {W} (h : W -> forall c, resp c * W) (w : W) (ctx : Ctx) (s : Session)
    (name description cardinality : string) (associableTypes requiredTypes : list string) :
  let '(r, _, tr) := run h (ensureTagCategory ctx s name description cardinality associableTypes requiredTypes) w in
  match r with
  | Ok id => Exists (vouches name cardinality requiredTypes id) tr
  | Err _ => True
  end.
Proof.
  apply (wp_history h (ensureTagCategory ctx s name description cardinality associableTypes requiredTypes)
    (fun r tr => match r with Ok id => Exists (vouches name cardinality requiredTypes id) tr | Err _ => True end) w).
  assert (forall c c' id g, compatibleCategory c cardinality requiredTypes -> cat_ID c = id ->
    Exists (vouches name cardinality requiredTypes id) (g ++ [existT (VGetCategory c' name) (Ok c)])) as Hget.
  { intros. apply Exists_app. right. by constructor. }
  assert (forall c, is_ok (validateExistingCategory c name cardinality requiredTypes) = true -> compatibleCategory c cardinality requiredTypes) as Hv
    by (intros c; apply validateExistingCategory_spec).
  unfold ensureTagCategory.
  repeat first [ apply wp_history_Check; intros ? ? ?; cbn beta iota | wp_step; try done; intros ];
    cbn -[validateExistingCategory] in *;
    repeat match goal with H : validateExistingCategory ?c _ _ _ = Ok _ |- _ => pose proof (Hv c); rewrite H in *; clear H end; auto.
  all: repeat match goal with H : wrapf _ _ ?r = Ok _ |- _ => destruct r; simplify_eq/= end.
  all: first [by apply (Hget _ _ _ []); auto | by apply Hget; auto | apply Exists_app; right; by constructor].
Qed.
