(* ===== verification/Probe.v ===== *)
(** * Probe VMs and guest networks (internal/vsphere/probe.go)

    Cloning a probe VM with a single NIC and the probe marker, reading the networks a guest
    reports, comparing them with the source networks, and destroying probe VMs -- only VMs
    that carry the marker, or that this run cloned. *)

From S2P Require Import Prelude GoErrors Objects Types Effects Execution Netip VSphere.
Import GoStr.

(** ** base64.StdEncoding *)

Definition b64_char (n : Z) : ascii :=
  Ascii.ascii_of_nat (Z.to_nat (if n <? 26 then 65 + n else if n <? 52 then 71 + n else if n <? 62 then n - 4
                                else if n =? 62 then 43 else 47)%Z).
Definition byte_val (c : ascii) : Z := Z.of_nat (Ascii.nat_of_ascii c).
Definition b64_pad : ascii := Ascii.ascii_of_nat 61.

Fixpoint EncodeToString (s : string) : string :=
  match s with
  | String a (String b (String c s')) =>
      let v := ((byte_val a * 256 + byte_val b) * 256 + byte_val c)%Z in
      String (b64_char (Z.shiftr v 18)) (String (b64_char (Z.land (Z.shiftr v 12) 63))
        (String (b64_char (Z.land (Z.shiftr v 6) 63)) (String (b64_char (Z.land v 63)) (EncodeToString s'))))
  | String a (String b EmptyString) =>
      let v := ((byte_val a * 256 + byte_val b) * 256)%Z in
      String (b64_char (Z.shiftr v 18)) (String (b64_char (Z.land (Z.shiftr v 12) 63))
        (String (b64_char (Z.land (Z.shiftr v 6) 63)) (String b64_pad "")))
  | String a EmptyString =>
      let v := (byte_val a * 65536)%Z in
      String (b64_char (Z.shiftr v 18)) (String (b64_char (Z.land (Z.shiftr v 12) 63)) (String b64_pad (String b64_pad "")))
  | EmptyString => ""
  end.

Example encode_ignition : EncodeToString "ignition" = "aWduaXRpb24=". Proof. vm_compute. reflexivity. Qed.

(** ** Constants *)

(** A double quote inside the ignition document. *)
Definition q (s : string) : string := String Fmt.dquote (s +:+ String Fmt.dquote "").

Definition defaultProbeIgnition : string :=
  "{" +:+ q "ignition" +:+ ":{" +:+ q "version" +:+ ":" +:+ q "3.4.0" +:+ "}," +:+ q "passwd" +:+ ":{}," +:+
  q "storage" +:+ ":{" +:+ q "files" +:+ ":[]}," +:+ q "systemd" +:+ ":{" +:+ q "units" +:+ ":[]}," +:+
  q "networkd" +:+ ":{" +:+ q "units" +:+ ":[]}}".

Definition guestToolsRunning := "guestToolsRunning".
Definition probeMarkerExtraConfig := "vcfmigration.netcheck.probe".
Definition probeMarkerValue := "true".

(** [probeGuestPollInterval] in seconds. *)
Definition probeGuestPollInterval : nat := 5.

Record ProbeSpec := MkProbeSpec {
  pr_Name : string;
  pr_Datacenter : string;
  pr_Cluster : string;
  pr_Datastore : string;
  pr_ResourcePool : string;
  pr_Folder : string;
  pr_Template : string;
  pr_Network : string;
  pr_Ignition : string;
  pr_NetworkKargs : string;
  pr_ExtraConfig : gmap string string;
}.

Record NetworkInfo := MkNetworkInfo { ni_IP : string; ni_Prefix : Z; ni_Gateway : string }.

(** ** Destroying probe VMs *)

Definition isProbeVM (s : Session) (vm : ObjRef) : IO bool :=
  let! config := wrapping "reading config for VM %s: %w" [FS (Name vm)] (do_call (VExtraConfig s vm)) in
  ok (match config with
      | None => false
      | Some l => existsb (fun '(k, v) => String.eqb k probeMarkerExtraConfig && String.eqb v probeMarkerValue) l
      end).

Definition DestroyProbeVM (ctx : Ctx) (s : Session) (vm : ObjRef) : IO unit :=
  let! state := wrapping "reading power state for probe VM %s: %w" [FS (Name vm)] (do_call (VPowerState s vm)) in
  let! _ := (if String.eqb state "poweredOn" then
               let! _ := Check ctx in
               let! offTask := wrapping "powering off probe VM %s: %w" [FS (Name vm)] (do_call (VPowerOff s vm)) in
               wrapping "powering off probe VM %s: %w" [FS (Name vm)] (do_call (VWaitTask s offTask))
             else ok tt) in
  let! _ := Check ctx in
  let! task := wrapping "destroying probe VM %s: %w" [FS (Name vm)] (do_call (VDestroy s vm)) in
  wrapping "destroying probe VM %s: %w" [FS (Name vm)] (do_call (VWaitTask s task)).

(** The names destroyed; on an error the caller drops the names destroyed so far. *)
Definition ReapProbeVMs (ctx : Ctx) (s : Session) (namePrefix : string) : IO (list string) :=
  let! vms := try (do_call (VFindVMs s (namePrefix +:+ "*"))) in
  match vms with
  | Err e => if IsFindNotFound e then ok [] else fail (Errorf "listing VMs with prefix %q: %w" [FS namePrefix; FE e])
  | Ok vms =>
      io_fold vms [] (fun destroyed vm =>
        let! probe := isProbeVM s vm in
        if negb probe then ok destroyed
        else
          let! _ := DestroyProbeVM ctx s vm in
          ok (destroyed ++ [Name vm]))
  end.

(** Best effort: the wait error is returned whatever happens.  The cleanup context keeps the
    permission check of the request's context. *)
Definition cleanupFailedClone {A} (ctx : Ctx) (s : Session) (spec : ProbeSpec) (waitErr : error) : IO A :=
  let! vm := try (do_call (VFind s FVirtualMachine (pr_Name spec))) in
  match vm with
  | Err _ => fail waitErr
  | Ok vm =>
      let! probe := try (isProbeVM s vm) in
      match probe with
      | Ok true => let! _ := try (DestroyProbeVM ctx s vm) in fail waitErr
      | _ => fail waitErr
      end
  end.

(** ** Creating a probe VM *)

Definition probeFolder (s : Session) (spec : ProbeSpec) : IO ObjRef :=
  if negb (String.eqb (pr_Folder spec) "") then
    wrapping "looking up folder %s: %w" [FS (pr_Folder spec)] (do_call (VFind s FFolder (pr_Folder spec)))
  else
    let! dc := wrapping "looking up datacenter %s: %w" [FS (pr_Datacenter spec)] (do_call (VFind s FDatacenter (pr_Datacenter spec))) in
    wrapping "reading folders for datacenter %s: %w" [FS (pr_Datacenter spec)] (do_call (VVMFolder s dc)).

Definition probeResourcePool (s : Session) (spec : ProbeSpec) : IO string :=
  let name := if String.eqb (pr_ResourcePool spec) "" then pr_Cluster spec +:+ "/Resources" else pr_ResourcePool spec in
  let! pool := wrapping "looking up resource pool %s: %w" [FS name] (do_call (VFind s FResourcePool name)) in
  ok (o_Ref pool).

(** The entries before they are put into a list in map order. *)
Definition probeConfig (spec : ProbeSpec) : gmap string string :=
  let ignition := if String.eqb (pr_Ignition spec) "" then defaultProbeIgnition else pr_Ignition spec in
  let values : gmap string string :=
    <["stealclock.enable" := "TRUE"]> (<["guestinfo.hostname" := pr_Name spec]>
      (<["guestinfo.ignition.config.data.encoding" := "base64"]>
        (<["guestinfo.ignition.config.data" := EncodeToString ignition]> ∅))) in
  let values := if String.eqb (pr_NetworkKargs spec) "" then values
                else <["guestinfo.afterburn.initrd.network-kargs" := pr_NetworkKargs spec]> values in
  <[probeMarkerExtraConfig := probeMarkerValue]> (pr_ExtraConfig spec ∪ values).

Definition probeExtraConfigValues (spec : ProbeSpec) : IO (list (string * string)) :=
  let values := probeConfig spec in
  let! keys := map_order ((map_to_list values).*1) in
  ok (omap (fun k => (fun v => (k, v)) <$> values !! k) keys).

Definition nextDeviceKey (devices : list VirtualDevice) : Z :=
  add32 (foldl (fun maxKey d => if (maxKey <? dev_Key d)%Z then dev_Key d else maxKey) 0%Z devices) 1000.

(** A standard backing without a network reference gets the reference of the network. *)
Definition completeBacking (network : ObjRef) (b : Backing) : Backing :=
  match b with
  | NetworkBacking n None => NetworkBacking n (Some (o_Ref network))
  | _ => b
  end.

Definition nicChanges (devices : list VirtualDevice) (backing : Backing) : list DeviceChange :=
  match filter (fun d => dev_Nic d = true) devices with
  | [] => [AddNic (nextDeviceKey devices) backing]
  | first :: others => EditNic first backing :: (RemoveDevice <$> others)
  end.

Definition singleNICDeviceChange (s : Session) (template network : ObjRef) : IO (list DeviceChange) :=
  let! devices := wrapping "reading template devices: %w" [] (do_call (VDevices s template)) in
  let! backing := wrapping "reading backing for network %s: %w" [FS (o_Ref network)] (do_call (VBacking s network)) in
  ok (nicChanges devices (completeBacking network backing)).

Definition CreateProbeVM (ctx : Ctx) (s : Session) (spec : ProbeSpec) : IO ObjRef :=
  let! template := wrapping "looking up template %s: %w" [FS (pr_Template spec)] (do_call (VFind s FVirtualMachine (pr_Template spec))) in
  let! folder := probeFolder s spec in
  let! datastore := wrapping "looking up datastore %s: %w" [FS (pr_Datastore spec)] (do_call (VFind s FDatastore (pr_Datastore spec))) in
  let! pool := probeResourcePool s spec in
  let! network := wrapping "looking up network %s: %w" [FS (pr_Network spec)] (do_call (VFind s FNetwork (pr_Network spec))) in
  let! changes := singleNICDeviceChange s template network in
  let! extra := probeExtraConfigValues spec in
  let cloneSpec := MkCloneSpec (o_Ref folder) (o_Ref datastore) pool true (pr_Name spec) extra changes in
  let! _ := Check ctx in
  let! task := wrapping "cloning template %s as %s: %w" [FS (pr_Template spec); FS (pr_Name spec)]
                 (do_call (VClone s template folder (pr_Name spec) cloneSpec)) in
  let! info := try (do_call (VWaitForResult s task)) in
  match info with
  | Err e => cleanupFailedClone ctx s spec (Errorf "cloning template %s as %s: %w" [FS (pr_Template spec); FS (pr_Name spec); FE e])
  | Ok None => fail (Errorf "cloning template %s: unexpected clone result" [FS (pr_Template spec)])
  | Ok (Some ref) => ok (MkObjRef ref "")
  end.

(** ** Guest networks *)

(** Order of first occurrence, no duplicates. *)
Definition addDistinct (l : list string) (x : string) : list string := if ContainsStr l x then l else l ++ [x].

Definition defaultGateway (stacks : list (list GuestRoute)) : result string :=
  let routes := filter (fun r => gr_Network r = "0.0.0.0" /\ gr_PrefixLength r = 0%Z /\ gr_Gateway r <> "") (mjoin stacks) in
  let gateways := foldl addDistinct [] (gr_Gateway <$> routes) in
  match gateways with
  | [] => Ok ""
  | [gw] => Ok gw
  | _ => Err (Errorf "guest reports %d distinct IPv4 default gateways (%v); refusing to select one" [FD (Z.of_nat (length gateways)); FL gateways])
  end.

(** The addresses of a NIC with their prefix lengths; the flat list has none. *)
Definition nicAddrs (nic : GuestNic) : list (string * Z) :=
  gn_IpConfig nic ++ ((fun ip => (ip, 0%Z)) <$> filter (fun ip => ContainsStr (gn_IpConfig nic).*1 ip = false) (gn_IpAddress nic)).

Definition networkOf (gateway : string) (a : string * Z) : option NetworkInfo :=
  match ParseAddr a.1 with
  | Some addr => if Is4 addr then Some (MkNetworkInfo (AddrString addr) a.2 gateway) else None
  | None => None
  end.

Definition networksFromGuest (guest : GuestInfo) : result (list NetworkInfo) :=
  let? gateway := defaultGateway (g_IpStack guest) in
  Ok (mjoin ((fun nic => if gn_Connected nic then omap (networkOf gateway) (nicAddrs nic) else []) <$> g_Net guest)).

Definition readGuestNetworks (s : Session) (vm : ObjRef) : IO (list NetworkInfo * bool) :=
  let! guest := do_call (VGuest s vm) in
  match guest with
  | None => ok ([], false)
  | Some guest =>
      if negb (String.eqb (g_ToolsRunningStatus guest) guestToolsRunning) then ok ([], false)
      else
        let! networks := of_result (networksFromGuest guest) in
        ok (networks, existsb (fun n => negb (String.eqb (ni_Gateway n) "")) networks)
  end.

(** [ctx.Err()] of a context that is done. *)
Definition contextDone : error := Errorf "context deadline exceeded" [].

Definition guestWaitError (vm : ObjRef) : error :=
  Errorf "waiting for guest networks on %s: %w (the template must run open-vm-tools and the network must provide DHCP or static network kargs)"
    [FS (Name vm); FE contextDone].

(** [ticks] bounds the ticks of the poll that can fire before the context's deadline. *)
Fixpoint waitGuest (ticks : nat) (s : Session) (vm : ObjRef) : IO (list NetworkInfo) :=
  let! (networks, ready) := wrapping "reading guest info for %s: %w" [FS (Name vm)] (readGuestNetworks s vm) in
  if ready then ok networks
  else match ticks with
       | O => fail (guestWaitError vm)
       | S n => let* tick := do_call CTick in
                if (tick : bool) then waitGuest n s vm else fail (guestWaitError vm)
       end.

(** The networking preflight runs under a deadline of ten minutes: at most 120 ticks. *)
Definition WaitForGuestNetworks (s : Session) (vm : ObjRef) : IO (list NetworkInfo) :=
  waitGuest (600 / probeGuestPollInterval) s vm.

Definition GetVMNetworks (s : Session) (vmName : string) : IO (list NetworkInfo) :=
  let! vm := wrapping "looking up VM %s: %w" [FS vmName] (do_call (VFind s FVirtualMachine vmName)) in
  let! guest := wrapping "reading guest info for VM %s: %w" [FS vmName] (do_call (VGuest s vm)) in
  match guest with
  | None => fail (Errorf "VM %s has no guest info; open-vm-tools may not be installed" [FS vmName])
  | Some guest =>
      if negb (String.eqb (g_ToolsRunningStatus guest) guestToolsRunning)
      then fail (Errorf "guest tools are not running on VM %s" [FS vmName])
      else of_result (networksFromGuest guest)
  end.

(** ** Comparing networks *)

Definition networkDesc (net gateway : string) : string := Sprintf "%s (gateway %s)" [RStr net; RStr gateway].

(** One turn of the loop over the sources. *)
Definition matchesSource (probeNet : string) (gateway : Addr) (src : NetworkInfo) : bool :=
  if (ni_Prefix src =? 0)%Z then false
  else match ParseAddr (ni_IP src) with
       | None => false
       | Some srcIP =>
           match AddrPrefix srcIP (ni_Prefix src), ParseAddr (ni_Gateway src) with
           | Some srcPfx, Some srcGw => Is4 srcGw && String.eqb (PrefixString srcPfx) probeNet && bool_decide (srcGw = gateway)
           | _, _ => false
           end
       end.

Definition MatchesAny (n : NetworkInfo) (sources : list NetworkInfo) : bool * string :=
  let desc := networkDesc (ni_IP n) (ni_Gateway n) in
  if (ni_Prefix n =? 0)%Z then (false, desc)
  else match ParseAddr (ni_IP n) with
       | None => (false, desc)
       | Some ip =>
           match AddrPrefix ip (ni_Prefix n) with
           | None => (false, desc)
           | Some probePfx =>
               let probeNet := PrefixString probePfx in
               let desc := networkDesc probeNet (ni_Gateway n) in
               match ParseAddr (ni_Gateway n) with
               | Some gateway => if Is4 gateway then (existsb (matchesSource probeNet gateway) sources, desc) else (false, desc)
               | None => (false, desc)
               end
           end
       end.

(** ** Which of these change anything *)

Lemma quiet_isProbeVM s vm : quiet (isProbeVM s vm).
Proof. unfold isProbeVM. quiet_auto. Qed.
Lemma quiet_probeFolder s spec : quiet (probeFolder s spec).
Proof. unfold probeFolder. quiet_auto. Qed.
Lemma quiet_probeResourcePool s spec : quiet (probeResourcePool s spec).
Proof. unfold probeResourcePool. quiet_auto. Qed.
Lemma quiet_probeExtraConfigValues spec : quiet (probeExtraConfigValues spec).
Proof. unfold probeExtraConfigValues. quiet_auto. Qed.
Lemma quiet_singleNIC s t n : quiet (singleNICDeviceChange s t n).
Proof. unfold singleNICDeviceChange. quiet_auto. Qed.
Lemma quiet_readGuestNetworks s vm : quiet (readGuestNetworks s vm).
Proof. unfold readGuestNetworks. quiet_auto. Qed.
#[export] Hint Resolve quiet_isProbeVM quiet_probeFolder quiet_probeResourcePool quiet_probeExtraConfigValues quiet_singleNIC quiet_readGuestNetworks : quiet.
Lemma quiet_WaitForGuestNetworks s vm : quiet (WaitForGuestNetworks s vm).
Proof.
  unfold WaitForGuestNetworks. generalize (600 / probeGuestPollInterval). intros n.
  induction n as [|n IH]; simpl; quiet_auto; done.
Qed.
Lemma quiet_GetVMNetworks s n : quiet (GetVMNetworks s n).
Proof. unfold GetVMNetworks. quiet_auto. Qed.
#[export] Hint Resolve quiet_WaitForGuestNetworks quiet_GetVMNetworks : quiet.

Section Gate.
Context (m0 m : Migration) (ctx : Ctx) (Hctx : ctx_check ctx = Some m) (Hm : same_identity m m0).
Lemma gated_DestroyProbeVM s vm : gated m0 (DestroyProbeVM ctx s vm).
Proof. unfold DestroyProbeVM. gate_auto. Qed.
Hint Resolve gated_DestroyProbeVM : gated.
Lemma gated_ReapProbeVMs s p : gated m0 (ReapProbeVMs ctx s p).
Proof. unfold ReapProbeVMs. gate_auto. Qed.
Lemma gated_CreateProbeVM s spec : gated m0 (CreateProbeVM ctx s spec).
Proof. unfold CreateProbeVM, cleanupFailedClone. gate_auto. Qed.
End Gate.
#[export] Hint Resolve gated_DestroyProbeVM gated_ReapProbeVMs gated_CreateProbeVM : gated.

(** ** Networks match exactly when they are the same subnet *)

(** Two observed networks: the same IPv4 subnet behind the same IPv4 gateway. *)
Definition sameNetwork (n src : NetworkInfo) : Prop :=
  exists a b gw, ParseAddr (ni_IP n) = Some (Addr4 a) /\ ParseAddr (ni_IP src) = Some (Addr4 b) /\
    ni_Prefix src = ni_Prefix n /\ (1 <= ni_Prefix n <= 32)%Z /\
    (a / 2 ^ (32 - ni_Prefix n) = b / 2 ^ (32 - ni_Prefix n))%Z /\
    ParseAddr (ni_Gateway n) = Some (Addr4 gw) /\ ParseAddr (ni_Gateway src) = Some (Addr4 gw).

Lemma ParseAddr4_range s a : ParseAddr s = Some (Addr4 a) -> (0 <= a < 4294967296)%Z.
Proof.
  unfold ParseAddr. destruct (family s) as [[]|]; [|..|done].
  - destruct (parseIPv4 s) eqn:E; simpl; intros; simplify_eq. by eapply parseIPv4_range.
  - unfold parseIPv6. by repeat case_match; try destruct (parse6 _).
Qed.

Lemma mask_range b a : (0 <= b <= 32)%Z -> (0 <= a < 4294967296)%Z -> (0 <= mask 32 a b < 4294967296)%Z.
Proof.
  intros Hb Ha. unfold mask. rewrite Z.shiftl_mul_pow2, Z.shiftr_div_pow2 by lia.
  assert (0 < 2 ^ (32 - b))%Z by (apply Z.pow_pos_nonneg; lia).
  pose proof (Z.mul_div_le a (2 ^ (32 - b))). pose proof (Z.div_pos a (2 ^ (32 - b))). nia.
Qed.

(** Equal text of two IPv4 prefixes is equality of length and network. *)
Lemma PrefixString_eq a b i j : (0 <= a < 4294967296)%Z -> (0 <= b < 4294967296)%Z -> (0 <= i)%Z -> (0 <= j)%Z ->
  PrefixString (Addr4 b, j) = PrefixString (Addr4 a, i) <-> b = a /\ j = i.
Proof.
  intros Ha Hb Hi Hj. unfold PrefixString; cbn [AddrString fst snd]. split; [|by intros [-> ->]]. intros H.
  apply (split_at_sep "/"%char) in H as [H1 H2]; [|apply String4_no_slash..].
  apply String4_inj in H1; [|done..]. split; [done|].
  by apply (inj pretty) in H2.
Qed.

Lemma PrefixString_families a b i j zone : (0 <= i)%Z -> PrefixString (Addr6 b zone, j) <> PrefixString (Addr4 a, i).
Proof.
  intros Hi H. apply (f_equal (sforall not_colon)) in H. unfold PrefixString in H. cbn [AddrString fst snd] in H.
  rewrite !sforall_app, String6_colon, String4_no_colon, !andb_false_l, andb_true_l in H.
  rewrite (digits_not ":"%char (pretty i)) in H; [done|done|]. by apply pretty_Z_digits.
Qed.

Lemma matchesSource_spec n src a gw :
  ParseAddr (ni_IP n) = Some (Addr4 a) -> ParseAddr (ni_Gateway n) = Some (Addr4 gw) -> (1 <= ni_Prefix n <= 32)%Z ->
  matchesSource (PrefixString (Addr4 (mask 32 a (ni_Prefix n)), ni_Prefix n)) (Addr4 gw) src = true <-> sameNetwork n src.
Proof.
  intros Hip Hgw Hp. pose proof (ParseAddr4_range _ _ Hip) as Ha. unfold matchesSource, sameNetwork.
  split.
  - destruct (Z.eqb_spec (ni_Prefix src) 0) as [|Hs]; [done|].
    destruct (ParseAddr (ni_IP src)) as [ip|] eqn:Hsrc; [|done]. unfold AddrPrefix.
    destruct (ni_Prefix src <? 0)%Z eqn:Hneg; [done|]. apply Z.ltb_ge in Hneg.
    destruct ip as [b|b zone].
    + pose proof (ParseAddr4_range _ _ Hsrc) as Hb. destruct (32 <? ni_Prefix src)%Z eqn:Hbig; [done|]. apply Z.ltb_ge in Hbig.
      destruct (ParseAddr (ni_Gateway src)) as [sgw|] eqn:Hsgw; [|done]. intros H. reflect_bools. subst sgw.
      match goal with H : PrefixString _ = _ |- _ => apply PrefixString_eq in H as [Hm Hl] end; [|try apply mask_range; lia..].
      rewrite Hl in Hm. apply mask_eq_bits in Hm; [|lia..]. exists a, b, gw. split_and!; try done; lia.
    + destruct (128 <? ni_Prefix src)%Z; [done|]. destruct (ParseAddr (ni_Gateway src)) as [sgw|]; [|done].
      intros H. reflect_bools. match goal with H : PrefixString _ = _ |- _ => apply PrefixString_families in H; [done|lia] end.
  - intros (a' & b & gw' & Ha' & Hb & Hl & _ & Hdiv & Hg' & Hsg). simplify_eq. rewrite Hl, Hb, Hsg. unfold AddrPrefix.
    pose proof (ParseAddr4_range _ _ Hb). rewrite (proj2 (Z.eqb_neq _ _)), (proj2 (Z.ltb_ge _ _)), (proj2 (Z.ltb_ge _ _)) by lia.
    cbn [Is4]. rewrite bool_decide_eq_true_2 by done. rewrite andb_true_r, andb_true_l. apply String.eqb_eq, PrefixString_eq; [try apply mask_range; lia..|].
    split; [|done]. apply mask_eq_bits; [lia..|]. done.
Qed.

(** A network that a guest reports carries a canonical IPv4 address. *)
Lemma networksFromGuest_v4 guest nets n : networksFromGuest guest = Ok nets -> n ∈ nets ->
  exists a, ParseAddr (ni_IP n) = Some (Addr4 a).
Proof.
  unfold networksFromGuest. destruct (defaultGateway _) as [gw|]; [|done]. intros [= <-].
  intros (l & Hn & Hl)%list_elem_of_join. apply list_elem_of_fmap in Hl as (nic & -> & _).
  destruct (gn_Connected nic); [|by apply elem_of_nil in Hn]. apply list_elem_of_omap in Hn as ([ip p] & _ & Hn).
  unfold networkOf in Hn. simpl in Hn. destruct (ParseAddr ip) as [[a|]|] eqn:E; [|done..]. simplify_eq/=.
  exists a. apply parse_String4. by eapply ParseAddr4_range.
Qed.

(** C30: A network that a probe guest reports is accepted exactly when some source network
    is the same IPv4 subnet: the same prefix length between 1 and 32, the same network bits,
    and the same IPv4 default gateway.  The comparison of the printed prefixes that the code
    makes is exactly that; an address without a known prefix length never matches. *)
Theorem MatchesAny_same_network (guest : GuestInfo) (nets sources : list NetworkInfo) (n : NetworkInfo) :
  networksFromGuest guest = Ok nets -> n ∈ nets ->
  (MatchesAny n sources).1 = true <-> exists src, src ∈ sources /\ sameNetwork n src.
Proof.
  intros Hg Hn. destruct (networksFromGuest_v4 _ _ _ Hg Hn) as [a Hip].
  unfold MatchesAny. rewrite Hip.
  assert ((1 <= ni_Prefix n <= 32)%Z \/ ~ (1 <= ni_Prefix n <= 32)%Z) as [Hp|Hp] by lia.
  - unfold AddrPrefix. rewrite (proj2 (Z.eqb_neq _ _)), (proj2 (Z.ltb_ge _ _)), (proj2 (Z.ltb_ge _ _)) by lia.
    destruct (ParseAddr (ni_Gateway n)) as [[gw|gw zone]|] eqn:Hgw; cbn [Is4 fst].
    + rewrite existsb_exists. setoid_rewrite (matchesSource_spec n _ a gw Hip Hgw Hp).
      setoid_rewrite list_elem_of_In. done.
    + split; [done|]. intros (src & _ & (? & ? & ? & _ & _ & _ & _ & _ & ? & _)). congruence.
    + split; [done|]. intros (src & _ & (? & ? & ? & _ & _ & _ & _ & _ & ? & _)). congruence.
  - split; [|by intros (src & _ & (? & ? & ? & _ & _ & _ & ? & _))].
    unfold AddrPrefix. destruct (ni_Prefix n =? 0)%Z eqn:E0; [done|]. apply Z.eqb_neq in E0.
    destruct (ni_Prefix n <? 0)%Z eqn:E1; [done|]. apply Z.ltb_ge in E1.
    rewrite (proj2 (Z.ltb_lt _ _)) by lia. done.
Qed.

Definition example_guest (ip : string) : GuestInfo :=
  MkGuestInfo guestToolsRunning [[MkGuestRoute "0.0.0.0" 0 "10.0.0.1"]] [MkGuestNic true [(ip, 24%Z)] [ip; "fe80::1"]].

Lemma MatchesAny_same_network_witness :
  (MatchesAny (MkNetworkInfo "10.0.0.9" 24 "10.0.0.1") [MkNetworkInfo "10.0.0.250" 24 "10.0.0.1"]).1 = true.
Proof.
  apply (proj2 (MatchesAny_same_network (example_guest "10.0.0.9") [MkNetworkInfo "10.0.0.9" 24 "10.0.0.1"] _ _
    ltac:(vm_compute; reflexivity) ltac:(left))).
  exists (MkNetworkInfo "10.0.0.250" 24 "10.0.0.1"). split; [left|].
  exists 167772169%Z, 167772410%Z, 167772161%Z. vm_compute. repeat split; done.
Defined.

(** ** Only probe VMs are powered off or destroyed *)

Definition hasMarker (l : list (string * string)) : bool :=
  existsb (fun '(k, v) => String.eqb k probeMarkerExtraConfig && String.eqb v probeMarkerValue) l.

(** A VM: the vCenter client it was reached through and its reference there. *)
Definition vmOf (s : Session) (vm : ObjRef) : string * string := (sess_Client s, o_Ref vm).

(** What is known of VMs: those seen with the probe marker or cloned with it, those cloned
    and not destroyed since, and the destruction tasks accepted, with their VMs. *)
Record VMs := MkVMs { known : list (string * string); live : list (string * string); destroying : list (string * (string * string)) }.

Definition vms_after (g : VMs) (c : call) : resp c -> VMs :=
  match c with
  | VExtraConfig s vm => fun r =>
      match r with
      | Ok (Some l) => if hasMarker l then MkVMs (vmOf s vm :: known g) (live g) (destroying g) else g
      | _ => g
      end
  | VWaitForResult s _ => fun r =>
      match r with
      | Ok (Some ref) => MkVMs ((sess_Client s, ref) :: known g) ((sess_Client s, ref) :: live g) (destroying g)
      | _ => g
      end
  | VDestroy s vm => fun r =>
      match r with
      | Ok task => MkVMs (known g) (live g) ((task, vmOf s vm) :: destroying g)
      | _ => g
      end
  | VWaitTask s task => fun r =>
      if is_ok r then MkVMs (known g) (filter (fun v => ~ (v.1 = sess_Client s /\ (task, v) ∈ destroying g)) (live g)) (destroying g) else g
  | _ => fun _ => g
  end.

(** Powering off and destroying is allowed on known VMs only, and a clone must carry the
    marker.  A VM is gone when the task that destroys it was waited for with success. *)
Definition probes : Observer VMs :=
  MkObserver (fun g c =>
    match c with
    | VDestroy s vm | VPowerOff s vm => vmOf s vm ∈ known g
    | VClone _ _ _ _ spec => hasMarker (cl_ExtraConfig spec) = true
    | _ => True
    end) vms_after (fun _ _ _ => True).

(** More is known, and nothing new lives. *)
Definition settles (g g' : VMs) : Prop := known g ⊆ known g' /\ live g' ⊆ live g.
#[export] Instance settles_preorder : PreOrder settles.
Proof. split; [by intros g|]; intros a b c [K L] [K' L']. split; by etrans. Qed.

(** Calls that say nothing about VMs. *)
Definition no_vm (c : call) : bool :=
  match c with
  | VExtraConfig _ _ | VWaitForResult _ _ | VWaitTask _ _ | VDestroy _ _ | VPowerOff _ _ | VClone _ _ _ _ _ => false
  | _ => true
  end.

Lemma no_vm_ignored c : no_vm c = true -> ignored probes c.
Proof. intros H g. by destruct c. Qed.

Lemma wp_no_vm {A} (p : Prog A) (Q : A -> VMs -> Prop) g :
  only_calls (fun c => no_vm c = true) p -> (forall a, Q a g) -> wp probes p Q g.
Proof.
  intros Hp. apply wp_ignored. apply (wp_only (P := fun c => no_vm c = true)); [done|apply no_vm_ignored|done].
Qed.

Lemma no_vm_Check ctx : only_calls (fun c => no_vm c = true) (Check ctx).
Proof. unfold Check, checkPermission. only_auto. Qed.
Lemma no_vm_Wait s vm : only_calls (fun c => no_vm c = true) (WaitForGuestNetworks s vm).
Proof.
  unfold WaitForGuestNetworks. generalize (600 / probeGuestPollInterval). intros n.
  induction n as [|n IH]; cbn [waitGuest]; unfold readGuestNetworks; only_auto; done.
Qed.
Lemma no_vm_GetVMNetworks s n : only_calls (fun c => no_vm c = true) (GetVMNetworks s n).
Proof. unfold GetVMNetworks. only_auto. Qed.

Lemma wp_isProbeVM s vm g (Q : result bool -> VMs -> Prop) :
  (forall r g', known g ⊆ known g' -> live g' = live g -> (r = Ok true -> vmOf s vm ∈ known g') -> Q r g') ->
  wp probes (isProbeVM s vm) Q g.
Proof.
  intros HQ. unfold isProbeVM. repeat wp_step; [done|]. intros [[l|]|e] _; cbn [upd probes vms_after wrapf wp ok]; [|by apply HQ..].
  fold (hasMarker l). destruct (hasMarker l) eqn:E; apply HQ; cbn; try done; set_solver.
Qed.

(** After a successful destruction the VM is not live. *)
Lemma wp_DestroyProbeVM ctx s vm g (Q : result unit -> VMs -> Prop) :
  vmOf s vm ∈ known g ->
  (forall r g', settles g g' -> (is_ok r = true -> vmOf s vm ∉ live g') -> Q r g') ->
  wp probes (DestroyProbeVM ctx s vm) Q g.
Proof.
  intros Hk HQ.
  assert (forall g1, settles g g1 -> wp probes
    (let! _ := Check ctx in
     let! task := wrapping "destroying probe VM %s: %w" [FS (Name vm)] (do_call (VDestroy s vm)) in
     wrapping "destroying probe VM %s: %w" [FS (Name vm)] (do_call (VWaitTask s task))) Q g1) as Hd.
  { intros g1 [K1 L1]. apply wp_io_bind, wp_no_vm; [apply no_vm_Check|]. intros [[]|e]; [|by apply HQ].
    repeat wp_step; [by apply K1|]. intros [task|e] _; cbn [upd probes vms_after wrapf]; [|by apply HQ].
    repeat wp_step; [done|]. intros [[]|e] _; cbn [upd probes vms_after is_ok wrapf]; [|by apply HQ].
    apply HQ; cbn.
    - split; [done|]. cbn. intros v [_ Hv]%list_elem_of_filter. auto.
    - intros _ [Hv _]%list_elem_of_filter. apply Hv. split; [done|left]. }
  unfold DestroyProbeVM. apply wp_io_bind. repeat wp_step; [done|]. intros [state|e] _; cbn [upd probes vms_after wrapf]; [|by apply HQ].
  apply wp_io_bind. destruct (String.eqb state "poweredOn"); [|by apply Hd].
  apply wp_io_bind, wp_no_vm; [apply no_vm_Check|]. intros [[]|e]; [|by apply HQ].
  repeat wp_step; [done|]. intros [task|e] _; cbn [upd probes vms_after wrapf]; [|by apply HQ].
  repeat wp_step; [done|]. intros [[]|e] _; cbn [upd probes vms_after is_ok wrapf]; [|by apply HQ].
  apply Hd. split; [done|]. cbn. intros v [_ Hv]%list_elem_of_filter. auto.
Qed.

Lemma wp_ReapProbeVMs ctx s prefix g (Q : result (list string) -> VMs -> Prop) :
  (forall r g', settles g g' -> Q r g') -> wp probes (ReapProbeVMs ctx s prefix) Q g.
Proof.
  intros HQ. unfold ReapProbeVMs. repeat wp_step; [done|]. intros [vms|e] _; cbn [upd probes vms_after]; [|by case_match; apply HQ].
  apply (wp_io_fold probes vms [] _ (fun _ _ g' => settles g g')); [done| |].
  - intros done vm rest v g' _ Hg'. apply wp_io_bind, wp_isProbeVM. intros [b|e] g2 Hk Hl Hin;
      (assert (settles g g2) as Hg2 by (etrans; [exact Hg'|]; split; [done|by rewrite Hl])); [|by apply HQ].
    destruct b; cbn [negb]; [|done].
    apply wp_io_bind, wp_DestroyProbeVM; [by apply Hin|]. intros [[]|e] g3 Hg3 _; [cbn|apply HQ]; by etrans.
  - intros v g' Hg'. by apply HQ.
Qed.

Lemma probeConfig_marked spec : probeConfig spec !! probeMarkerExtraConfig = Some probeMarkerValue.
Proof. unfold probeConfig. apply lookup_insert_eq. Qed.

Lemma wp_probeExtraConfigValues spec g (Q : result (list (string * string)) -> VMs -> Prop) :
  (forall l, hasMarker l = true -> Q (Ok l) g) -> wp probes (probeExtraConfigValues spec) Q g.
Proof.
  intros HQ. unfold probeExtraConfigValues, map_order. repeat wp_step; [done|]. intros ks0 _. cbn [upd probes vms_after].
  repeat wp_step. apply HQ. set (ks := if decide _ then _ else _).
  assert (ks ≡ₚ (map_to_list (probeConfig spec)).*1) as Hks by (subst ks; by case_decide).
  apply existsb_exists. exists (probeMarkerExtraConfig, probeMarkerValue). split; [|done].
  apply list_elem_of_In, list_elem_of_omap. exists probeMarkerExtraConfig. rewrite probeConfig_marked. split; [|done].
  rewrite Hks. apply list_elem_of_fmap. exists (probeMarkerExtraConfig, probeMarkerValue).
  by rewrite elem_of_map_to_list, probeConfig_marked.
Qed.

Lemma wp_CreateProbeVM ctx s spec g (Q : result ObjRef -> VMs -> Prop) :
  (forall e g', Q (Err e) g') ->
  (forall vm g', known g ⊆ known g' -> vmOf s vm ∈ known g' -> live g' = vmOf s vm :: live g -> Q (Ok vm) g') ->
  wp probes (CreateProbeVM ctx s spec) Q g.
Proof.
  intros He HQ. unfold CreateProbeVM.
  repeat match goal with
  | |- wp _ (io_bind (probeExtraConfigValues _) _) _ _ => apply wp_io_bind, wp_probeExtraConfigValues; intros extra Hextra
  | |- wp _ (io_bind (Check _) _) _ _ => apply wp_io_bind, wp_no_vm; [apply no_vm_Check|intros [[]|e]; [|apply He]]
  | |- wp _ (io_bind (wrapping _ _ (do_call (VClone _ _ _ _ _))) _) _ _ => fail 1
  | |- wp _ (io_bind (try _) _) _ _ => fail 1
  | |- wp _ (io_bind ?p _) _ _ =>
      apply wp_io_bind, wp_no_vm;
      [unfold probeFolder, probeResourcePool, singleNICDeviceChange; only_auto|intros [?|?]; [|apply He]]
  end.
  repeat wp_step; [done|]. intros [task|e] _; cbn [upd probes vms_after wrapf]; [|apply He].
  repeat wp_step; [done|]. intros [[ref|]|e] _; cbn [upd probes vms_after]; [|apply He|].
  - cbn. apply (HQ (MkObjRef ref "")); cbn; set_solver.
  - unfold cleanupFailedClone. repeat wp_step; [done|]. intros [vm|e'] _; cbn [upd probes vms_after]; [|apply He].
    apply wp_io_bind, wp_try, wp_isProbeVM. intros [[]|e'] g1 Hk Hl Hin; cbn [wp fail]; [|by apply He..].
    apply wp_io_bind, wp_try, wp_DestroyProbeVM; [by apply Hin|]. intros r g2 _ _. by apply He.
Qed.
