(* ===== verification/Metadata.v ===== *)
(** * Installer metadata (internal/metadata/metadata.go)

    The metadata.json document that [openshift-install destroy cluster] reads, generated
    from the failure domains and the vCenter credentials, and the Secret it is kept in. *)

From S2P Require Import Prelude GoErrors Objects Types Effects Execution.
Import GoStr.

(** ** Data *)

Definition MetadataKey := "metadata.json".
Definition metadataSecretLabelKey := "migration.openshift.io/metadata".
Definition metadataSecretLabelValue := "true".
Definition SecretTypeOpaque := "Opaque".

Record MetaVCenter := MkMetaVCenter { mv_VCenter : string; mv_Username : string; mv_Password : string }.

Record VSphereMetadata := MkVSphereMetadata {
  vm_VCenter : string;
  vm_Username : string;
  vm_Password : string;
  vm_TerraformPlatform : string;
  vm_VCenters : list MetaVCenter;
}.

Record ClusterMetadata := MkClusterMetadata {
  md_ClusterName : string;
  md_ClusterID : string;
  md_InfraID : string;
  md_VSphere : VSphereMetadata;
}.

(** ** encoding/json on these structs *)

(** One byte of a JSON string; Go also escapes the HTML characters.  Bytes from 0x80 up are
    kept, as Go keeps valid UTF-8 (U+2028 and U+2029 apart). *)
Definition json_byte (c : ascii) : string :=
  let n := Ascii.nat_of_ascii c in
  let esc (d : ascii) := String Fmt.backslash (String d "") in
  if Ascii.eqb c Fmt.dquote then esc Fmt.dquote
  else if Ascii.eqb c Fmt.backslash then esc Fmt.backslash
  else if (n =? 8)%nat then esc "b"%char
  else if (n =? 9)%nat then esc "t"%char
  else if (n =? 10)%nat then esc "n"%char
  else if (n =? 12)%nat then esc "f"%char
  else if (n =? 13)%nat then esc "r"%char
  else if (n <? 32)%nat || (n =? 60)%nat || (n =? 62)%nat || (n =? 38)%nat then
    String Fmt.backslash ("u00" +:+ String (Fmt.hex_digit (n / 16)) (String (Fmt.hex_digit (n mod 16)) ""))
  else String c "".

Fixpoint json_bytes (s : string) : string :=
  match s with
  | EmptyString => ""
  | String c s' => json_byte c +:+ json_bytes s'
  end.

Definition json_string (s : string) : string := String Fmt.dquote (json_bytes s +:+ String Fmt.dquote "").
Definition json_field (name value : string) : string := json_string name +:+ ":" +:+ value.
Definition json_object (fields : list string) : string := "{" +:+ Join fields "," +:+ "}".
Definition json_array (items : list string) : string := "[" +:+ Join items "," +:+ "]".
(** [omitempty] on a string. *)
Definition json_opt (name s : string) : list string := if String.eqb s "" then [] else [json_field name (json_string s)].

Definition json_vcenter (v : MetaVCenter) : string :=
  json_object [json_field "vCenter" (json_string (mv_VCenter v)); json_field "username" (json_string (mv_Username v));
               json_field "password" (json_string (mv_Password v))].

Definition Marshal (md : ClusterMetadata) : string :=
  let v := md_VSphere md in
  json_object [json_field "clusterName" (json_string (md_ClusterName md)); json_field "clusterID" (json_string (md_ClusterID md));
    json_field "infraID" (json_string (md_InfraID md));
    json_field "vsphere" (json_object (json_opt "vCenter" (vm_VCenter v) ++ json_opt "username" (vm_Username v) ++
      json_opt "password" (vm_Password v) ++
      [json_field "terraform_platform" (json_string (vm_TerraformPlatform v));
       json_field "VCenters" (json_array (json_vcenter <$> vm_VCenters v))]))].

(** ** Credentials *)

(** [splitFirst]: one part without the separator, else the two parts around its first
    occurrence. *)
Fixpoint splitFirst (s : string) (sep : ascii) : list string :=
  match s with
  | EmptyString => [""]
  | String c s' =>
      if Ascii.eqb c sep then [""; s']
      else match splitFirst s' sep with
           | a :: rest => String c a :: rest
           | [] => []
           end
  end.

Definition parseCredentials (cred : string) : string * string :=
  if String.eqb cred "" then ("", "")
  else match splitFirst cred ":"%char with
       | [u; p] => (u, p)
       | _ => ("", "")
       end.

Definition parseRequiredCredentials (server cred : string) : result (string * string) :=
  let '(username, password) := parseCredentials cred in
  if String.eqb username "" || String.eqb password ""
  then Err (Errorf "credentials for %s must be formatted as username:password" [FS server])
  else Ok (username, password).

(** ** Generation *)

Definition addMetaVCenter (vcs : list MetaVCenter) (v : MetaVCenter) : list MetaVCenter :=
  if ContainsStr (mv_VCenter <$> vcs) (mv_VCenter v) then vcs else vcs ++ [v].

(** The loop over the failure domains: the distinct vCenters in order. *)
Fixpoint collectVCenters (credentials : gmap string string) (fds : list FailureDomain) (vcs : list MetaVCenter) : result (list MetaVCenter) :=
  match fds with
  | [] => Ok vcs
  | fd :: rest =>
      match credentials !! fd_Server fd with
      | None => Err (Errorf "credentials for %s not found" [FS (fd_Server fd)])
      | Some cred =>
          let? (username, password) := parseRequiredCredentials (fd_Server fd) cred in
          collectVCenters credentials rest (addMetaVCenter vcs (MkMetaVCenter (fd_Server fd) username password))
      end
  end.

(** The primary vCenter is that of the first failure domain, the first entry collected; the
    later test for an empty list of vCenters cannot fire after it. *)
Definition GenerateMetadata (failureDomains : list FailureDomain) (infra : Infrastructure) (credentials : gmap string string) : result ClusterMetadata :=
  if (length failureDomains =? 0)%nat then Err (Errorf "failure domains must not be empty" [])
  else if String.eqb (infra_InfrastructureName infra) "" then Err (Errorf "infrastructure status has no InfrastructureName" [])
  else
    let? vcs := collectVCenters credentials failureDomains [] in
    match vcs with
    | [] => Err (Errorf "primary vcenter credentials are incomplete" [])
    | primary :: _ =>
        if String.eqb (mv_VCenter primary) "" || String.eqb (mv_Username primary) "" || String.eqb (mv_Password primary) ""
        then Err (Errorf "primary vcenter credentials are incomplete" [])
        else Ok (MkClusterMetadata (infra_Name infra) (infra_UID infra) (infra_InfrastructureName infra)
                   (MkVSphereMetadata (mv_VCenter primary) (mv_Username primary) (mv_Password primary) "vsphere" vcs))
    end.

(** ** The Secret *)

Definition GetMetadataSecretName (migrationName : string) : string := Sprintf "%s-metadata" [RStr migrationName].

Definition metadataData (md : ClusterMetadata) : gmap string string := {[ MetadataKey := Marshal md ]}.

Definition SaveToSecret (ctx : Ctx) (md : ClusterMetadata) (namespace name : string) : IO unit :=
  let! existing := try (do_call (CGetSecret namespace name)) in
  match existing with
  | Ok existing =>
      let secret := MkSecret (s_Namespace existing) (s_Name existing)
                      (<[metadataSecretLabelKey := metadataSecretLabelValue]> (s_Labels existing)) [] SecretTypeOpaque (metadataData md) in
      let! _ := Check ctx in
      let! _ := wrapping "updating metadata Secret %s/%s: %w" [FS namespace; FS name] (do_call (CUpdateSecret namespace secret)) in
      ok tt
  | Err e =>
      if IsNotFound e then
        let secret := MkSecret namespace name {[ metadataSecretLabelKey := metadataSecretLabelValue ]} [] SecretTypeOpaque (metadataData md) in
        let! _ := Check ctx in
        let! _ := wrapping "creating metadata Secret %s/%s: %w" [FS namespace; FS name] (do_call (CCreateSecret namespace secret)) in
        ok tt
      else fail (Errorf "getting metadata Secret %s/%s: %w" [FS namespace; FS name; FE e])
  end.

Definition GetMetadataFromSecret (namespace name : string) : IO string :=
  let! secret := wrapping "getting metadata Secret %s/%s: %w" [FS namespace; FS name] (do_call (CGetSecret namespace name)) in
  match s_Data secret !! MetadataKey with
  | Some data => ok data
  | None => fail (Errorf "key %q not found in Secret %s/%s" [FS MetadataKey; FS namespace; FS name])
  end.

Lemma gated_SaveToSecret (m0 m : Migration) ctx md ns n :
  ctx_check ctx = Some m -> same_identity m m0 -> gated m0 (SaveToSecret ctx md ns n).
Proof. intros Hctx Hm. unfold SaveToSecret. gate_auto. Qed.
#[export] Hint Resolve gated_SaveToSecret : gated.

(** ** Facts *)

Lemma splitFirst_join u p : Contains u ":" = false -> splitFirst (u +:+ String ":"%char p) ":"%char = [u; p].
Proof.
  induction u as [|c u IH]; intros Hu; simpl; [done|].
  destruct (Ascii.eqb_spec c ":"%char) as [->|Hc].
  - apply not_true_iff_false in Hu. destruct Hu. apply Contains_spec. by exists "", u.
  - rewrite IH; [done|]. apply (Contains_sub_false (String c "") u ""). by rewrite append_nil_r.
Qed.

(** Credentials written as username:password are read back when the username has no colon. *)
Lemma parseRequired_roundtrip server u p :
  u <> "" -> p <> "" -> Contains u ":" = false ->
  parseRequiredCredentials server (Sprintf "%s:%s" [RStr u; RStr p]) = Ok (u, p).
Proof.
  intros Hu Hp Hc. unfold parseRequiredCredentials, parseCredentials, Sprintf. simpl. rewrite append_nil_r, splitFirst_join by done.
  destruct u as [|c u]; [done|]. simpl. destruct p as [|d p]; done.
Qed.

(** The vCenters collected: one entry per distinct server, with its credentials. *)
Lemma collectVCenters_spec creds fds vcs out :
  collectVCenters creds fds vcs = Ok out -> NoDup (mv_VCenter <$> vcs) ->
  NoDup (mv_VCenter <$> out) /\ (exists l, out = vcs ++ l) /\
  (forall s, s ∈ mv_VCenter <$> out <-> s ∈ mv_VCenter <$> vcs \/ s ∈ fd_Server <$> fds) /\
  (forall v, v ∈ out -> v ∈ vcs \/ exists cred, creds !! mv_VCenter v = Some cred /\
     parseRequiredCredentials (mv_VCenter v) cred = Ok (mv_Username v, mv_Password v)).
Proof.
  revert vcs. induction fds as [|fd fds IH]; intros vcs; simpl.
  - intros [= <-] Hn. split_and!; [done|exists []; by rewrite app_nil_r|intros s; rewrite elem_of_nil; tauto|auto].
  - destruct (creds !! fd_Server fd) as [cred|] eqn:Hcred; [|done].
    destruct (parseRequiredCredentials (fd_Server fd) cred) as [[u p]|] eqn:Hparse; [|done]. intros H Hn.
    set (v := MkMetaVCenter (fd_Server fd) u p) in *.
    assert (NoDup (mv_VCenter <$> addMetaVCenter vcs v)) as Hn'.
    { unfold addMetaVCenter. destruct (ContainsStr _ _) eqn:E; [done|]. rewrite fmap_app. apply NoDup_app. split_and!; [done| |apply NoDup_singleton].
      intros x Hx [->|?%elem_of_nil]%elem_of_cons; [|done]. apply not_true_iff_false in E. by apply E, ContainsStr_spec. }
    destruct (IH _ H Hn') as (HA & [l Hl] & HC & HD). split_and!; [done| | |].
    + unfold addMetaVCenter in Hl. destruct (ContainsStr _ _); [by exists l|]. exists (v :: l). by rewrite Hl, <- app_assoc.
    + intros s. rewrite HC. unfold addMetaVCenter. destruct (ContainsStr _ _) eqn:E; [|rewrite fmap_app, elem_of_app, elem_of_cons; cbn [fmap list_fmap]; rewrite list_elem_of_singleton; tauto].
      apply ContainsStr_spec in E. rewrite elem_of_cons. subst v. simpl in E. split; [tauto|].
      intros [?|[->|?]]; auto.
    + intros w Hw. apply HD in Hw as [Hw|Hw]; [|by right]. unfold addMetaVCenter in Hw.
      destruct (ContainsStr _ _); [by left|]. apply elem_of_app in Hw as [?|Hw]; [by left|].
      apply elem_of_cons in Hw as [->|?%elem_of_nil]; [|done]. right. by exists cred.
Qed.

(** C33: Metadata generated from the credentials the operator collected (username and
    password joined by a colon, the username without one) names every vCenter of the failure
    domains exactly once with its own username and password, and its primary vCenter is the
    one of the first failure domain: the credentials survive the joined form. *)
Theorem GenerateMetadata_complete (fd0 : FailureDomain) (fds : list FailureDomain) (infra : Infrastructure)
    (login : string -> string * string) (md : ClusterMetadata) :
  (forall s, s ∈ fd_Server <$> fd0 :: fds -> (login s).1 <> "" /\ (login s).2 <> "" /\ Contains (login s).1 ":" = false) ->
  GenerateMetadata (fd0 :: fds) infra
    (list_to_map ((fun s => (s, Sprintf "%s:%s" [RStr (login s).1; RStr (login s).2])) <$> (fd_Server <$> fd0 :: fds))) = Ok md ->
  NoDup (mv_VCenter <$> vm_VCenters (md_VSphere md)) /\
  (forall v, v ∈ vm_VCenters (md_VSphere md) <->
     mv_VCenter v ∈ fd_Server <$> fd0 :: fds /\ (mv_Username v, mv_Password v) = login (mv_VCenter v)) /\
  vm_VCenter (md_VSphere md) = fd_Server fd0 /\
  (vm_Username (md_VSphere md), vm_Password (md_VSphere md)) = login (fd_Server fd0).
Proof.
  intros Hlogin. set (creds := list_to_map _ : gmap string string).
  assert (forall s, s ∈ fd_Server <$> fd0 :: fds -> creds !! s = Some (Sprintf "%s:%s" [RStr (login s).1; RStr (login s).2])) as Hcreds.
  { intros s Hs. unfold creds. generalize (fd_Server <$> fd0 :: fds) Hs. clear. intros l. induction l as [|x l IH]; intros Hs; [by apply elem_of_nil in Hs|].
    cbn [fmap list_fmap list_to_map foldr uncurry]. destruct (decide (x = s)) as [->|Hne]; [by rewrite lookup_insert_eq|].
    rewrite lookup_insert_ne by done. apply IH. by apply elem_of_cons in Hs as [->|?]. }
  assert (forall s cred, s ∈ fd_Server <$> fd0 :: fds -> creds !! s = Some cred -> parseRequiredCredentials s cred = Ok (login s)) as Hparse.
  { intros s cred Hs Hc. rewrite (Hcreds s Hs) in Hc. simplify_eq. destruct (Hlogin s Hs) as (? & ? & ?).
    rewrite parseRequired_roundtrip by done. by destruct (login s). }
  unfold GenerateMetadata. cbn [length Nat.eqb]. destruct (String.eqb (infra_InfrastructureName infra) ""); [done|].
  destruct (collectVCenters creds (fd0 :: fds) []) as [out|] eqn:Hout; [|done].
  destruct (collectVCenters_spec _ _ _ _ Hout) as (HA & _ & HC & HD); [constructor|].
  destruct out as [|primary rest]; [done|]. case_match; [done|]. intros [= <-]. cbn [md_VSphere vm_VCenters vm_VCenter vm_Username vm_Password].
  assert (mv_VCenter primary = fd_Server fd0) as Hp.
  { cbn [collectVCenters] in Hout. destruct (creds !! fd_Server fd0); [|done].
    destruct (parseRequiredCredentials (fd_Server fd0) s) as [[u p]|]; [|done].
    destruct (collectVCenters_spec _ _ _ _ Hout) as (_ & [l Hl] & _); [apply NoDup_singleton|]. by simplify_eq/=. }
  assert (forall v, v ∈ primary :: rest -> mv_VCenter v ∈ fd_Server <$> fd0 :: fds /\ (mv_Username v, mv_Password v) = login (mv_VCenter v)) as Hv.
  { intros v Hv. assert (mv_VCenter v ∈ fd_Server <$> fd0 :: fds) as Hs.
    { destruct (proj1 (HC (mv_VCenter v))) as [?%elem_of_nil|?]; [by apply list_elem_of_fmap_2|done|done]. }
    split; [done|]. destruct (HD v Hv) as [?%elem_of_nil|(cred & Hc & Hok)]; [done|]. rewrite (Hparse _ _ Hs Hc) in Hok. congruence. }
  split_and!; [done| |done|].
  - intros v. split; [apply Hv|]. intros [Hs Hl].
    assert (mv_VCenter v ∈ mv_VCenter <$> primary :: rest) as Hin by (apply HC; by right).
    apply list_elem_of_fmap in Hin as (v' & Heq & Hv'). destruct (Hv v' Hv') as [_ Hl']. rewrite <- Heq, <- Hl in Hl'.
    destruct v, v'; cbn in *. by simplify_eq.
  - rewrite <- Hp. apply (Hv primary). left.
Qed.

Lemma GenerateMetadata_complete_witness :
  let fd n s := MkFailureDomain n "r" "z" None None s (MkTopology "dc" "cl" ["net"] "ds" "" "" "tmpl") in
  let infra := MkInfrastructure "cluster" "uid" None "infra-1" "" in
  let login s := ("admin", s +:+ "-secret") in
  let fds := [fd "a" "vc1"; fd "b" "vc2"; fd "c" "vc1"] in
  let creds := list_to_map ((fun s => (s, Sprintf "%s:%s" [RStr (login s).1; RStr (login s).2])) <$> (fd_Server <$> fds)) in
  match GenerateMetadata fds infra creds with
  | Ok md => vm_VCenter (md_VSphere md) = "vc1" /\ length (vm_VCenters (md_VSphere md)) = 2
  | Err _ => False
  end.
Proof.
  intros fd infra login fds creds.
  destruct (GenerateMetadata fds infra creds) as [md|] eqn:E; [|vm_compute in E; discriminate E].
  assert (forall s, s ∈ fd_Server <$> fds -> (login s).1 <> "" /\ (login s).2 <> "" /\ Contains (login s).1 ":" = false) as H.
  { intros s Hs. split; [discriminate|split; [|reflexivity]]. unfold login; simpl. destruct s; discriminate. }
  pose proof (GenerateMetadata_complete (fd "a" "vc1") [fd "b" "vc2"; fd "c" "vc1"] infra login md H E) as (_ & _ & Hp & _).
  split; [exact Hp|]. vm_compute in E. injection E as <-. reflexivity.
Defined.
