(* ===== verification/Preflight.v ===== *)
(** * Preflight validation (internal/controller/preflight.go, preflight_netcheck.go)

    Everything that is checked before the migration is allowed to change the cluster: the
    failure domains and their mapping, cluster and storage readiness, the reachability and
    the privileges of both vCenters, and the networking of the destination through probe
    VMs.  The two session helpers of helpers.go are here too. *)

From S2P Require Import Prelude GoErrors Objects Types Effects Execution Naming Metrics Status Infrastructure Codec Machines Operators Mapping Destinations Netip VSphere Probe.
Import GoStr.

(** ** helpers.go *)

Definition getVSphereSession (server datacenter username password : string) : M Session :=
  GetOrCreate (MkParams server datacenter username password true).

(** The namespace of a secret reference defaults to that of the migration. *)
Definition credentialsNamespace (migration : Migration) : string :=
  let ns := sr_Namespace (TargetVCenterCredentialsSecret (mig_Spec migration)) in
  if String.eqb ns "" then mig_Namespace migration else ns.

Definition getTargetCredentials (migration : Migration) (server : string) : IO (string * string) :=
  let name := sr_Name (TargetVCenterCredentialsSecret (mig_Spec migration)) in
  if String.eqb name "" then fail (Errorf "spec.targetVCenterCredentialsSecret.name must not be empty" [])
  else
    let ns := credentialsNamespace migration in
    wrapping "getting target credentials for %s from secret %s/%s: %w" [FS server; FS ns; FS name]
      (GetVCenterCredsFromSecret ns name server).

(** ** Constants *)

Definition vsphereCSIDriverName := "csi.vsphere.vmware.com".
Definition managementStateRemoved := "Removed".
Definition managementStateUnmanaged := "Unmanaged".
Definition machineHealthCheckGVR := "machine.openshift.io/v1beta1/machinehealthchecks".
Definition clusterAutoscalerGVR := "autoscaling.openshift.io/v1/clusterautoscalers".
Definition machineAutoscalerGVR := "autoscaling.openshift.io/v1beta1/machineautoscalers".
Definition clusterCSIDriverGVR := "operator.openshift.io/v1/clustercsidrivers".
Definition storageOperatorGVR := "operator.openshift.io/v1/storages".
Definition platformMachineHealthChecks := ["openshift-machine-api/machine-api-termination-handler"].
Definition rootTagPrivileges :=
  ["InventoryService.Tagging.AttachTag"; "InventoryService.Tagging.CreateCategory"; "InventoryService.Tagging.CreateTag"].
Definition objectAttachPrivileges := ["InventoryService.Tagging.ObjectAttachable"].
Definition vmFolderPrivileges := ["Folder.Create"].
Definition ComputeClusterFailureDomainRegion := "ComputeCluster".
Definition HostGroupFailureDomainZone := "HostGroup".

(** [runPreflightStep] runs the check and returns its error; around it are only logs. *)
Definition runPreflightStep {A} (check : string) (fn : M A) : M A := fn.

(** ** Static checks *)

Fixpoint templateMissingFrom (i : Z) (fds : list FailureDomain) : result unit :=
  match fds with
  | [] => Ok tt
  | fd :: rest =>
      if String.eqb (t_Template (fd_Topology fd)) ""
      then Err (Errorf "spec.failureDomains[%d].topology.template is required (failure domain %q)" [FD i; FS (fd_Name fd)])
      else templateMissingFrom (i + 1) rest
  end.
Definition fdTemplateMissing (fds : list FailureDomain) : result unit := templateMissingFrom 0 fds.

Fixpoint validateFailureDomainTypes (fds : list FailureDomain) : result unit :=
  match fds with
  | [] => Ok tt
  | fd :: rest =>
      if bool_decide (fd_RegionAffinity fd = Some ComputeClusterFailureDomainRegion)
      then Err (Errorf "failure domain %q uses unsupported region type %q" [FS (fd_Name fd); FS ComputeClusterFailureDomainRegion])
      else if bool_decide (fd_ZoneAffinity fd = Some HostGroupFailureDomainZone)
      then Err (Errorf "failure domain %q uses unsupported zone type %q" [FS (fd_Name fd); FS HostGroupFailureDomainZone])
      else validateFailureDomainTypes rest
  end.

(** The names that occur again after a first occurrence, each once. *)
Fixpoint duplicateNames (seen duplicates : gset string) (names : list string) : gset string :=
  match names with
  | [] => duplicates
  | n :: rest => if decide (n ∈ seen) then duplicateNames seen ({[n]} ∪ duplicates) rest
                 else duplicateNames ({[n]} ∪ seen) duplicates rest
  end.

Definition validateUniqueFailureDomainNames (fds : list FailureDomain) : result unit :=
  let duplicates := duplicateNames ∅ ∅ (fd_Name <$> fds) in
  if (size duplicates =? 0)%nat then Ok tt
  else Err (Errorf "duplicate failure domain names are not allowed: %s" [FS (Join (SortStrings (elements duplicates)) ", ")]).

(** ** Cluster checks *)

Definition checkNoVSphereCSIPersistentVolumes : IO unit :=
  let! pvs := wrapping "listing persistentvolumes: %w" [] (do_call CListPersistentVolumes) in
  let blocked := pv_Name <$> filter (fun pv => pv_CSIDriver pv = Some vsphereCSIDriverName) pvs in
  if (length blocked =? 0)%nat then ok tt
  else fail (Errorf "vSphere CSI-backed persistent volumes are not supported for migration; remove PersistentVolumes using driver %q: %s"
               [FS vsphereCSIDriverName; FS (Join (SortStrings blocked) ", ")]).

Definition getManagementState (gvr name : string) : IO string :=
  let! obj := do_call (CDynamicGet gvr name) in
  let! state := of_result (wrapf "reading spec.managementState: %w" [] (u_ManagementState obj)) in
  match state with
  | Some s => if String.eqb s "" then fail (Errorf "spec.managementState not set" []) else ok s
  | None => fail (Errorf "spec.managementState not set" [])
  end.

(** The warning to append to the preflight message; only the CSI driver state is required. *)
Definition checkVSphereStorageManagement : IO string :=
  let! csiState := wrapping "vSphere CSI driver is not supported for migration; unable to read ClusterCSIDriver/%s: %w"
                     [FS vsphereCSIDriverName] (getManagementState clusterCSIDriverGVR vsphereCSIDriverName) in
  if negb (String.eqb csiState managementStateRemoved)
  then fail (Errorf "vSphere CSI driver is not supported for migration; set ClusterCSIDriver/%s spec.managementState to Removed (current: %s)"
               [FS vsphereCSIDriverName; FS csiState])
  else
    let! storageState := try (getManagementState storageOperatorGVR "cluster") in
    match storageState with
    | Err _ => ok "unable to read Storage/cluster managementState; consider setting Unmanaged or Removed (only ClusterCSIDriver Removed is required)"
    | Ok s =>
        if String.eqb s managementStateUnmanaged || String.eqb s managementStateRemoved then ok ""
        else ok (Sprintf "Storage/cluster managementState is %s; consider setting Unmanaged or Removed (only ClusterCSIDriver Removed is required)" [RStr s])
    end.

Definition listDynamicResourceNames (gvr : string) : IO (list string) :=
  let! items := try (do_call (CDynamicList gvr)) in
  match items with
  | Err e => if IsNotFound e || IsNoMatchError e then ok [] else fail e
  | Ok items =>
      ok (SortStrings ((fun u => if String.eqb (u_Namespace u) "" then u_Name u else u_Namespace u +:+ "/" +:+ u_Name u) <$> items))
  end.

Definition checkInterferingRolloutResources : IO unit :=
  let! mhcs := wrapping "listing machinehealthchecks: %w" [] (listDynamicResourceNames machineHealthCheckGVR) in
  let userMHCs := filter (fun n => ContainsStr platformMachineHealthChecks n = false) mhcs in
  let! clusterAutoscalers := wrapping "listing clusterautoscalers: %w" [] (listDynamicResourceNames clusterAutoscalerGVR) in
  let! machineAutoscalers := wrapping "listing machineautoscalers: %w" [] (listDynamicResourceNames machineAutoscalerGVR) in
  let blocker (format : string) (names : list string) :=
    if (0 <? length names)%nat then [Sprintf format [RStr (Join names ", ")]] else [] in
  let blockers := blocker "MachineHealthCheck resources: %s" userMHCs ++ blocker "ClusterAutoscaler resources: %s" clusterAutoscalers ++
                  blocker "MachineAutoscaler resources: %s" machineAutoscalers in
  if (length blockers =? 0)%nat then ok tt
  else fail (Errorf "remove interfering rollout resources before migration: %s" [FS (Join blockers "; ")]).

(** ** vSphere checks *)

Definition dcVMFolder (s : Session) (datacenter : ObjRef) : IO ObjRef :=
  let! folder := wrapping "getting datacenter folders: %w" [] (do_call (VVMFolder s datacenter)) in
  if String.eqb (o_Ref folder) "" then fail (Errorf "datacenter %q has no VM folder" [FS (Name datacenter)]) else ok folder.

(** A later entry for the same privilege overrides an earlier one. *)
Definition granted (availability : list (string * bool)) : gmap string bool :=
  foldl (fun m '(p, g) => <[p := g]> m) ∅ availability.

Definition missingPrivileges (availability : list (string * bool)) (requested : list string) : list string :=
  SortStrings (filter (fun p => default false (granted availability !! p) = false) requested).

Definition validateTargetPrivileges (s : Session) (datacenter cluster : ObjRef) : IO unit :=
  let! user := wrapping "getting current vSphere user session: %w" [] (do_call (VUserSession s)) in
  match user with
  | None => fail (Errorf "current vSphere user session not found" [])
  | Some userName =>
      let! vmFolder := dcVMFolder s datacenter in
      let checks := [(o_Ref (sess_RootFolder s), rootTagPrivileges, "root folder");
                     (o_Ref vmFolder, vmFolderPrivileges, Sprintf "VM folder %q" [RStr (o_InventoryPath vmFolder)]);
                     (o_Ref datacenter, objectAttachPrivileges, Sprintf "datacenter %q" [RStr (o_InventoryPath datacenter)]);
                     (o_Ref cluster, objectAttachPrivileges, Sprintf "cluster %q" [RStr (o_InventoryPath cluster)])] in
      io_for checks (fun '(entity, privileges, label) =>
        let! results := wrapping "checking privileges on %s: %w" [FS label] (do_call (VHasPrivileges s entity userName privileges)) in
        match results with
        | [] => fail (Errorf "no privilege results returned for %s" [FS label])
        | first :: _ =>
            let missing := missingPrivileges first privileges in
            if (0 <? length missing)%nat
            then fail (Errorf "user %q is missing %s on %s" [FS userName; FS (Join missing ", "); FS label])
            else ok tt
        end)
  end.

Record credentials := MkCredentials { cred_username : string; cred_password : string }.

Definition validateFailureDomain (fd : FailureDomain) (creds : credentials) : M unit :=
  let t := fd_Topology fd in
  let@ session := m_wrapping "connecting to target vCenter %s: %w" [FS (fd_Server fd)]
                    (getVSphereSession (fd_Server fd) (t_Datacenter t) (cred_username creds) (cred_password creds)) in
  let find (format : string) (kind : FindKind) (name : string) : IO ObjRef :=
    wrapping format [FS name; FS (fd_Server fd)] (do_call (VFind session kind name)) in
  lift (
    let! datacenter := find "target datacenter %q on %s not found: %w" FDatacenter (t_Datacenter t) in
    let! cluster := find "target cluster %q on %s not found: %w" FCluster (t_ComputeCluster t) in
    let! _ := find "target datastore %q on %s not found: %w" FDatastore (t_Datastore t) in
    let! _ := io_for (t_Networks t) (fun n => let! _ := find "target network %q on %s not found: %w" FNetwork n in ok tt) in
    let! _ := (if negb (String.eqb (t_ResourcePool t) "")
               then let! _ := find "target resource pool %q on %s not found: %w" FResourcePool (t_ResourcePool t) in ok tt else ok tt) in
    let! _ := (if negb (String.eqb (t_Folder t) "")
               then let! _ := find "target folder %q on %s not found: %w" FFolder (t_Folder t) in ok tt else ok tt) in
    let! _ := find "target template %q on %s not found: %w" FVirtualMachine (t_Template t) in
    wrapping "validating target privileges for failure domain %q: %w" [FS (fd_Name fd)] (validateTargetPrivileges session datacenter cluster)).

(** The credentials of a server, read once per loop. *)
Definition credentialsFor (migration : Migration) (known : gmap string credentials) (server : string) : IO (gmap string credentials * credentials) :=
  match known !! server with
  | Some creds => ok (known, creds)
  | None =>
      let! (username, password) := wrapping "getting credentials for target %s: %w" [FS server] (getTargetCredentials migration server) in
      let creds := MkCredentials username password in
      ok (<[server := creds]> known, creds)
  end.

Definition validatePreflightVSphere (migration : Migration) : M unit :=
  let@ sourceVC := lift (wrapping "getting source vCenter: %w" [] GetSourceVCenter) in
  let@ _ := runPreflightStep "source vCenter connectivity" (
    let@ (srcUser, srcPass) := lift (wrapping "getting source vCenter credentials: %w" [] (GetCredentials (vc_Server sourceVC))) in
    match vc_Datacenters sourceVC with
    | [] => throw (Errorf "source vCenter has no datacenters configured" [])
    | [dc] =>
        let@ srcSession := m_wrapping "connecting to source vCenter %s: %w" [FS (vc_Server sourceVC)]
                             (getVSphereSession (vc_Server sourceVC) dc srcUser srcPass) in
        let@ _ := lift (wrapping "source datacenter %q not accessible: %w" [FS dc] (do_call (VFind srcSession FDatacenter dc))) in
        ret tt
    | dcs => throw (Errorf "source vCenter must have exactly one datacenter configured, found %d" [FD (zlen dcs)])
    end) in
  let@ _ := m_fold (FailureDomains (mig_Spec migration)) ∅ (fun creds fd =>
    let@ _ := setCondition ConditionInfrastructurePrepared ConditionFalse ReasonProgressing
                (Sprintf "Validating target failure domain %q" [RStr (fd_Name fd)]) in
    runPreflightStep "target failure domain topology" (
      let@ (creds, c) := lift (credentialsFor migration creds (fd_Server fd)) in
      let@ _ := validateFailureDomain fd c in
      ret creds)) in
  ret tt.

(** ** The networking preflight *)

Definition probeNamePrefix := "netcheck-".
Definition probeNameMaxLen : nat := 80.

(** The regular expression [^a-z0-9-]+ replaced by a hyphen: one hyphen per run. *)
Definition probe_safe (c : ascii) : bool :=
  let n := Ascii.nat_of_ascii c in
  ((97 <=? n) && (n <=? 122))%nat || ((48 <=? n) && (n <=? 57))%nat || Ascii.eqb c "-"%char.

Fixpoint replaceUnsafe (inRun : bool) (s : string) : string :=
  match s with
  | EmptyString => ""
  | String c s' =>
      if probe_safe c then String c (replaceUnsafe false s')
      else if inRun then replaceUnsafe true s'
      else String "-"%char (replaceUnsafe true s')
  end.

Definition probeName (infraID fdName : string) : string :=
  let name := trim (is_char "-"%char) (Sprintf "%s%s-%s" [RStr probeNamePrefix; RStr infraID; RStr (replaceUnsafe false (ToLower fdName))]) in
  if (probeNameMaxLen <? String.length name)%nat then stake probeNameMaxLen name else name.

Definition formatNetworks (nets : list NetworkInfo) : string :=
  Join (foldl addDistinct [] (omap (fun n =>
    ip ← ParseAddr (ni_IP n); pfx ← AddrPrefix ip (ni_Prefix n); Some (networkDesc (PrefixString pfx) (ni_Gateway n))) nets)) ", ".

Definition describeFDMismatch (fdName : string) (probe sources : list NetworkInfo) : string :=
  Sprintf "failure domain %q: probe network %s does not match any source node network (source networks: %s); IP connectivity would not be preserved when recreating source machines on the destination vCenter"
    [RStr fdName; RStr (formatNetworks probe); RStr (formatNetworks sources)].

Definition collectSourceNetworks (sourceSession : Session) : IO (list NetworkInfo) :=
  let! nodes := wrapping "listing nodes: %w" [] (do_call CListNodes) in
  io_fold nodes [] (fun networks node =>
    let! nets := wrapping "reading networks for source node %s: %w" [FS (n_Name node)] (GetVMNetworks sourceSession (n_Name node)) in
    if (length nets =? 0)%nat then fail (Errorf "reading networks for source node %s: no networks reported" [FS (n_Name node)])
    else ok (networks ++ nets)).

(** [errors.Join(err, cleanupErr)]. *)
Definition joinErrors (err : error) (cleanup : result unit) : error :=
  match cleanup with
  | Ok _ => JoinError [err]
  | Err e => JoinError [err; e]
  end.

(** The probe spec of a failure domain.  Without a network [Networks[0]] panics, here an error
    of the step; the API requires at least one network. *)
Definition probeSpecFor (infraID : string) (fd : FailureDomain) : result ProbeSpec :=
  let t := fd_Topology fd in
  match t_Networks t with
  | [] => Err (Errorf "index out of range [0] with length 0" [])
  | network :: _ =>
      Ok (MkProbeSpec (probeName infraID (fd_Name fd)) (t_Datacenter t) (t_ComputeCluster t) (t_Datastore t) (t_ResourcePool t)
            (t_Folder t) (t_Template t) network "" "" ∅)
  end.

(** From the created probe VM to its destruction: the mismatches found.  The deferred
    cleanup destroys the VM once more when the destruction at the end failed. *)
Definition probeFailureDomain (ctx : Ctx) (session : Session) (spec : ProbeSpec) (fd : FailureDomain) (sources : list NetworkInfo) (vm : ObjRef)
    : IO (list string) :=
  let destroyProbe := DestroyProbeVM ctx session vm in
  let! nets := try (wrapping "waiting for guest networks on probe VM %s: %w" [FS (pr_Name spec)] (WaitForGuestNetworks session vm)) in
  match nets with
  | Err e =>
      let! cleanup := try destroyProbe in
      fail (joinErrors e cleanup)
  | Ok probeNetworks =>
      let bad := filter (fun n => (MatchesAny n sources).1 = false) probeNetworks in
      let! r := try destroyProbe in
      match r with
      | Err e =>
          let! _ := try destroyProbe in
          fail (Errorf "destroying probe VM %s: %w" [FS (pr_Name spec); FE e])
      | Ok _ => ok (if (0 <? length bad)%nat then [describeFDMismatch (fd_Name fd) bad sources] else [])
      end
  end.

Definition checkNetworkingViaProbeVMs (ctx : Ctx) (migration : Migration) (sourceVC : VCenter) : M unit :=
  match vc_Datacenters sourceVC with
  | [sourceDC] =>
      let@ infraID := runPreflightStep "get infrastructure ID"
                        (lift (wrapping "getting infrastructure ID: %w" [] GetInfrastructureID)) in
      let@ sourceSession := runPreflightStep "source vCenter network session" (
        let@ (sourceUser, sourcePass) := lift (wrapping "getting source vCenter credentials for %s: %w" [FS (vc_Server sourceVC)]
                                                 (GetCredentials (vc_Server sourceVC))) in
        m_wrapping "connecting to source vCenter %s: %w" [FS (vc_Server sourceVC)]
          (getVSphereSession (vc_Server sourceVC) sourceDC sourceUser sourcePass)) in
      let@ sources := runPreflightStep "collect source node networks" (
        let@ sources := lift (collectSourceNetworks sourceSession) in
        if (length sources =? 0)%nat
        then throw (Errorf "no source node networks could be read from the source vCenter %s; open-vm-tools must be running on source nodes and node names must match VM names" [FS (vc_Server sourceVC)])
        else ret sources) in
      let probePrefix := probeNamePrefix +:+ infraID +:+ "-" in
      let@ (_, mismatches) := m_fold (FailureDomains (mig_Spec migration)) (∅, []) (fun '(targetCreds, mismatches) fd =>
        let@ _ := setCondition ConditionInfrastructurePrepared ConditionFalse ReasonProgressing
                    (Sprintf "Checking networking for failure domain %q" [RStr (fd_Name fd)]) in
        let@ (targetCreds, creds) := lift (credentialsFor migration targetCreds (fd_Server fd)) in
        let@ session := m_wrapping "connecting to target vCenter %s: %w" [FS (fd_Server fd)]
                          (getVSphereSession (fd_Server fd) (t_Datacenter (fd_Topology fd)) (cred_username creds) (cred_password creds)) in
        let@ _ := lift (wrapping "reaping stale probe VMs on %s: %w" [FS (fd_Server fd)] (ReapProbeVMs ctx session probePrefix)) in
        let@ spec := lift (of_result (probeSpecFor infraID fd)) in
        let@ vm := lift (wrapping "creating probe VM %s on failure domain %q: %w" [FS (pr_Name spec); FS (fd_Name fd)]
                           (CreateProbeVM ctx session spec)) in
        let@ found := lift (probeFailureDomain ctx session spec fd sources vm) in
        ret (targetCreds, mismatches ++ found)) in
      if (0 <? length mismatches)%nat then
        let msg := Join mismatches "; " in
        let@ _ := Eventf "Warning" "NetworkMismatch" "%s" [RStr msg] in
        throw (Errorf "destination networking preflight failed: %s" [FS msg])
      else ret tt
  | dcs => throw (Errorf "source vCenter %s has %d datacenters configured; exactly one is required for the networking preflight"
                    [FS (vc_Server sourceVC); FD (zlen dcs)])
  end.

(** ** The whole preflight *)

Section Checks.
Context `{ProviderCodec}.

Definition validateMigrationFailureDomains (migration : Migration) : IO (list FailureDomainMapping) :=
  let! infra := wrapping "getting infrastructure for failure domain validation: %w" [] GetInfrastructure in
  let! _ := (match infra_VSphere infra with
             | Some v => of_result (wrapf "validating source failure domains: %w" [] (validateFailureDomainTypes (vp_FailureDomains v)))
             | None => ok tt
             end) in
  let! _ := of_result (validateSourceVCenterCount infra) in
  let sourceFDs := infraFailureDomains infra in
  let! _ := of_result (validateSourceFDTopologyDisjoint sourceFDs) in
  let! mappings := of_result (resolveFailureDomainMappings (FailureDomainMappings (mig_Spec migration)) sourceFDs (FailureDomains (mig_Spec migration))) in
  if String.eqb (infra_InfrastructureName infra) "" then fail (Errorf "infrastructure status has no InfrastructureName" [])
  else
    let! _ := validateMachineSetNameCollisions (infra_InfrastructureName infra) mappings sourceFDs (FailureDomains (mig_Spec migration)) in
    let! _ := validateDestinationMachineSetCount mappings sourceFDs in
    ok mappings.

Definition validatePreflightSourceCoverage (mappings : list FailureDomainMapping) : IO unit :=
  let! sourceVC := wrapping "getting source vCenter: %w" [] GetSourceVCenter in
  let! infra := wrapping "getting infrastructure: %w" [] GetInfrastructure in
  let sourceFDs := filter (fun fd => fd_Server fd = vc_Server sourceVC) (infraFailureDomains infra) in
  let! msList := wrapping "getting source MachineSets: %w" [] (GetMachineSetsByVCenter (vc_Server sourceVC)) in
  of_result (validateSourceMachineSetMappingCoverage msList mappings sourceFDs).

Definition hasTargetVCenterConfiguration (migration : Migration) : IO bool :=
  match FailureDomains (mig_Spec migration) with
  | [] => ok false
  | fds =>
      let! infra := wrapping "getting infrastructure for target vCenter check: %w" [] GetInfrastructure in
      match infra_VSphere infra with
      | None => ok false
      | Some v =>
          let servers := vc_Server <$> vp_VCenters v in
          let keys := (fun fd => fd_Name fd +:+ "|" +:+ fd_Server fd) <$> vp_FailureDomains v in
          ok (forallb (fun fd => ContainsStr servers (fd_Server fd) && ContainsStr keys (fd_Name fd +:+ "|" +:+ fd_Server fd)) fds)
      end
  end.

(** The checks on the spec alone, in the order of the code. *)
Definition validateSpec (migration : Migration) : result unit :=
  let fds := FailureDomains (mig_Spec migration) in
  if (length fds =? 0)%nat then Err (Errorf "spec.failureDomains must not be empty" [])
  else
    let? _ := validateUniqueFailureDomainNames fds in
    let? _ := fdTemplateMissing fds in
    let? _ := validateFailureDomainTypes fds in
    let? _ := validateFailureDomainServers fds in
    if String.eqb (sr_Name (TargetVCenterCredentialsSecret (mig_Spec migration))) ""
    then Err (Errorf "spec.targetVCenterCredentialsSecret.name must not be empty" [])
    else Ok tt.

(** Cluster readiness: the feature gate is a hard error, a running upgrade a transient one. *)
Definition checkClusterReadiness : M unit :=
  let@ support := lift (wrapping "checking cluster readiness: %w" [] GetVSphereMultiVCenterSupport) in
  if negb (FeatureGateEnabled support)
  then throw (Errorf "feature gate VSphereMultiVCenterDay2 is not enabled for OpenShift %s; enable the feature gate before starting migration" [FS (sup_ClusterVersion support)])
  else
    let@ _ := setCondition ConditionInfrastructurePrepared ConditionFalse ReasonProgressing "Validating cluster readiness" in
    if UpgradeInProgress support
    then throw (newTransientError (Errorf "cluster upgrade is in progress; wait for ClusterVersion/version Progressing=False before starting migration" []))
    else ret tt.

Definition checkOperatorHealth : M unit :=
  let@ (healthy, unhealthyOperators) := lift (wrapping "checking cluster operator health: %w" [] CheckAllOperatorsHealthy) in
  if negb healthy
  then throw (newTransientError (Errorf "cluster operators are not healthy; wait for operators to recover before starting migration: %s" [FS (Join unhealthyOperators ", ")]))
  else ret tt.

Definition runPreflightChecks (ctx : Ctx) (migration : Migration) : M string :=
  let@ _ := lift (of_result (validateSpec migration)) in
  let secretName := sr_Name (TargetVCenterCredentialsSecret (mig_Spec migration)) in
  let ns := credentialsNamespace migration in
  let@ _ := lift (wrapping "target credentials secret %s/%s not found: %w" [FS ns; FS secretName] (do_call (CGetSecret ns secretName))) in
  let@ mappings := lift (validateMigrationFailureDomains migration) in
  let@ _ := runPreflightStep "source MachineSet coverage" (lift (validatePreflightSourceCoverage mappings)) in
  let@ _ := runPreflightStep "cluster readiness" checkClusterReadiness in
  let@ _ := runPreflightStep "cluster operator health" checkOperatorHealth in
  let@ _ := runPreflightStep "vSphere CSI persistent volumes" (lift checkNoVSphereCSIPersistentVolumes) in
  let@ storageWarning := runPreflightStep "storage management state" (lift checkVSphereStorageManagement) in
  let@ _ := runPreflightStep "interfering rollout resources" (lift checkInterferingRolloutResources) in
  let@ r := m_try (
    let@ _ := runPreflightStep "vSphere topology" (validatePreflightVSphere migration) in
    let@ _ := runPreflightStep "probe VM network compatibility" (
      let@ sourceVC := lift (wrapping "getting source vCenter: %w" [] GetSourceVCenter) in
      checkNetworkingViaProbeVMs ctx migration sourceVC) in
    let@ _ := modify_status (set_StatusMappings mappings) in
    ret (if String.eqb storageWarning "" then "Preflight validation passed"
         else Sprintf "%s; warning: %s" [RStr "Preflight validation passed"; RStr storageWarning])) in
  let@ _ := runPreflightStep "clear cached vSphere sessions" ClearSessions in
  lift (of_result r).

End Checks.

(** ** Which of these change anything *)

Lemma quietM_session a b c d : quietM (getVSphereSession a b c d).
Proof. unfold getVSphereSession. quiet_auto. Qed.
Lemma quiet_targetCredentials m s : quiet (getTargetCredentials m s).
Proof. unfold getTargetCredentials. quiet_auto. Qed.
#[export] Hint Resolve quietM_session quiet_targetCredentials : quiet.
Lemma quiet_credentialsFor m k s : quiet (credentialsFor m k s).
Proof. unfold credentialsFor. quiet_auto. Qed.
Lemma quiet_CSIVolumes : quiet checkNoVSphereCSIPersistentVolumes.
Proof. unfold checkNoVSphereCSIPersistentVolumes. quiet_auto. Qed.
Lemma quiet_storage : quiet checkVSphereStorageManagement.
Proof. unfold checkVSphereStorageManagement, getManagementState. quiet_auto. Qed.
Lemma quiet_interfering : quiet checkInterferingRolloutResources.
Proof. unfold checkInterferingRolloutResources, listDynamicResourceNames. quiet_auto. Qed.
Lemma quiet_privileges s d c : quiet (validateTargetPrivileges s d c).
Proof. unfold validateTargetPrivileges, dcVMFolder. quiet_auto. Qed.
Lemma quiet_collect s : quiet (collectSourceNetworks s).
Proof. unfold collectSourceNetworks. quiet_auto. Qed.
#[export] Hint Resolve quiet_credentialsFor quiet_CSIVolumes quiet_storage quiet_interfering quiet_privileges quiet_collect : quiet.
Lemma quietM_validateFD fd c : quietM (validateFailureDomain fd c).
Proof. unfold validateFailureDomain. quiet_auto. Qed.
#[export] Hint Resolve quietM_validateFD : quiet.
Lemma quietM_vsphere m : quietM (validatePreflightVSphere m).
Proof. unfold validatePreflightVSphere, runPreflightStep. quiet_auto. Qed.
Lemma quietM_readiness : quietM checkClusterReadiness.
Proof. unfold checkClusterReadiness. quiet_auto. Qed.
Lemma quietM_health : quietM checkOperatorHealth.
Proof. unfold checkOperatorHealth. quiet_auto. Qed.
#[export] Hint Resolve quietM_vsphere quietM_readiness quietM_health : quiet.

Section QuietChecks.
Context `{ProviderCodec}.
Lemma quiet_migrationFDs m : quiet (validateMigrationFailureDomains m).
Proof. unfold validateMigrationFailureDomains. quiet_auto. Qed.
Lemma quiet_sourceCoverage m : quiet (validatePreflightSourceCoverage m).
Proof. unfold validatePreflightSourceCoverage. quiet_auto. Qed.
Lemma quiet_hasTarget m : quiet (hasTargetVCenterConfiguration m).
Proof. unfold hasTargetVCenterConfiguration. quiet_auto. Qed.
End QuietChecks.
#[export] Hint Resolve quiet_migrationFDs quiet_sourceCoverage quiet_hasTarget : quiet.

Section Gate.
Context `{ProviderCodec} (m0 m : Migration) (ctx : Ctx) (Hctx : ctx_check ctx = Some m) (Hm : same_identity m m0).

Lemma gated_probeFD s spec fd sources vm : gated m0 (probeFailureDomain ctx s spec fd sources vm).
Proof. unfold probeFailureDomain. gate_auto. Qed.
Hint Resolve gated_probeFD : gated.
Lemma gatedM_netcheck mig vc : gatedM m0 (checkNetworkingViaProbeVMs ctx mig vc).
Proof. unfold checkNetworkingViaProbeVMs, runPreflightStep. gate_auto. Qed.
Hint Resolve gatedM_netcheck : gated.
Lemma gatedM_preflight mig : gatedM m0 (runPreflightChecks ctx mig).
Proof. unfold runPreflightChecks, runPreflightStep. gate_auto. Qed.
End Gate.
#[export] Hint Resolve gatedM_preflight : gated.

(** ** The networking preflight leaves no VM behind *)

Definition talks_of_no_vm (c : call) : Prop := no_vm c = true.

Lemma no_vm_session a b c d s : only_calls talks_of_no_vm (getVSphereSession a b c d s).
Proof. unfold getVSphereSession, GetOrCreate, NewSession. only_auto. Qed.
Lemma no_vm_credentials m k s : only_calls talks_of_no_vm (credentialsFor m k s).
Proof. unfold credentialsFor, getTargetCredentials, GetVCenterCredsFromSecret. only_auto. Qed.
Lemma no_vm_collect s : only_calls talks_of_no_vm (collectSourceNetworks s).
Proof. unfold collectSourceNetworks, GetVMNetworks. only_auto. Qed.

(** A step that talks of no VM, on the way to a postcondition that errors satisfy. *)
Lemma wp_skip {A B} (m : M A) (f : A -> M B) (Q : St * result B -> VMs -> Prop) s g :
  only_calls talks_of_no_vm (m s) -> (forall s' e, Q (s', Err e) g) -> (forall a s', wp probes (f a s') Q g) ->
  wp probes (m_bind m f s) Q g.
Proof. intros Hm He Hf. apply wp_m_bind, wp_no_vm; [done|]. intros [s' [a|e]]; auto. Qed.

Lemma wp_probeFailureDomain ctx s spec fd sources vm g (Q : result (list string) -> VMs -> Prop) :
  vmOf s vm ∈ known g ->
  (forall e g', Q (Err e) g') ->
  (forall l g', live g' ⊆ live g -> vmOf s vm ∉ live g' -> Q (Ok l) g') ->
  wp probes (probeFailureDomain ctx s spec fd sources vm) Q g.
Proof.
  intros Hk He HQ. unfold probeFailureDomain.
  apply wp_io_bind, wp_try, wp_wrapping, wp_no_vm; [apply no_vm_Wait|]. intros [nets|e]; cbn [wrapf].
  - apply wp_io_bind, wp_try, wp_DestroyProbeVM; [done|]. intros [[]|e] g1 [K1 L1] Hin; [by apply HQ; auto|].
    apply wp_io_bind, wp_try, wp_DestroyProbeVM; [by apply K1|]. intros r g2 _ _. apply He.
  - apply wp_io_bind, wp_try, wp_DestroyProbeVM; [done|]. intros r g1 _ _. apply He.
Qed.

Lemma wp_netcheck ctx mig vc st g :
  live g = [] -> wp probes (checkNetworkingViaProbeVMs ctx mig vc st) (fun '(_, r) g' => is_ok r = true -> live g' = []) g.
Proof.
  intros Hg. unfold checkNetworkingViaProbeVMs, runPreflightStep.
  destruct (vc_Datacenters vc) as [|dc [|]]; [done| |done].
  apply wp_skip; [unfold GetInfrastructureID, GetInfrastructure; only_auto|done|intros infraID s1].
  apply wp_skip; [|done|intros source s2].
  { unfold GetCredentials, GetVCenterCredsFromSecret. only_auto. apply no_vm_session. }
  apply wp_skip; [|done|intros sources s3].
  { apply only_m_bind; [apply only_lift, no_vm_collect|]. intros l s'. only_auto. }
  cbv zeta. apply wp_m_bind.
  apply (wp_m_fold probes _ _ _ (fun _ _ _ g' => live g' = [])); [done| |].
  - intros done fd rest [creds mism] s g' _ Hlive. cbn beta iota.
    apply wp_skip; [unfold setCondition; only_auto|done|intros ? s4].
    apply wp_skip; [apply only_lift, no_vm_credentials|done|intros [? ?] s5].
    apply wp_skip; [apply only_m_wrapping, no_vm_session|done|intros session s6].
    apply wp_m_bind, wp_lift, wp_wrapping, wp_ReapProbeVMs. intros r g1 [_ L1]. cbn beta. destruct r; [|done]. cbn [wrapf].
    rewrite Hlive in L1. apply list_nil_subseteq in L1.
    apply wp_skip; [apply only_lift, only_ret|done|intros spec s7].
    apply wp_m_bind, wp_lift, wp_wrapping, wp_CreateProbeVM; [done|]. intros vm g2 _ Hin L2. cbn [wrapf].
    apply wp_m_bind, wp_lift, wp_probeFailureDomain; [done|done|]. intros found g3 L3 Hvm. cbn.
    apply list_nil_subseteq. intros x Hx. specialize (L3 x Hx). rewrite L2, L1 in L3. by apply list_elem_of_singleton in L3 as ->.
  - intros [creds mism] s g' Hlive. cbn beta iota. destruct (0 <? length mism)%nat; [|by intros _].
    apply wp_skip; [unfold Eventf; only_auto|done|done].
Qed.

(** C19: The networking preflight powers off and destroys only VMs that were read with the
    probe marker, or that it cloned itself, on the very vCenter connection through which it
    does so; every VM it clones carries the marker; and when it succeeds, the task destroying
    every VM it cloned was accepted and then waited for with success -- whatever the vCenters
    answer. *)
Theorem netcheck_owns_its_vms {W} (h : W -> forall c, resp c * W) (w : W) (ctx : Ctx) (migration : Migration) (sourceVC : VCenter) (st : St) :
  let '((_, r), _, tr) := run h (checkNetworkingViaProbeVMs ctx migration sourceVC st) w in
  observed probes (MkVMs [] [] []) tr /\ (is_ok r = true -> live (observe probes (MkVMs [] [] []) tr) = []).
Proof.
  pose proof (wp_run_all probes h _ _ _ w (fun _ _ _ => I) (wp_netcheck ctx migration sourceVC st (MkVMs [] [] []) eq_refl)) as H.
  by destruct (run h (checkNetworkingViaProbeVMs ctx migration sourceVC st) w) as [[[st' r] w'] tr].
Qed.
