(* ===== verification/Destination.v ===== *)
(** * Preparing the destination (internal/controller)

    The handlers of the first three conditions: preflight (InfrastructurePrepared), folders
    and tags on the target vCenter (DestinationInitialized), and the cluster configuration
    for both vCenters (MultiSiteConfigured). *)

From S2P Require Import Prelude GoErrors Objects Types Effects Execution Metrics Status Infrastructure Codec Machines Operators Mapping Destinations Netip VSphere Probe Preflight.
Import GoStr.

Definition reasonWaitingForVSpherePods := "WaitingForVSpherePods".

(** [setCondition] of a step in progress. *)
Definition progressing (condType message : string) : M unit := setCondition condType ConditionFalse ReasonProgressing message.

(** [serverDC] and [tagTarget]: what was already handled in this reconcile. *)
Definition serverDC : Type := string * string.
Definition tagTarget : Type := serverDC * (string * string * string).

Definition regionKey (fd : FailureDomain) : tagTarget :=
  ((fd_Server fd, t_Datacenter (fd_Topology fd)), ("datacenter", t_Datacenter (fd_Topology fd), fd_Region fd)).
Definition zoneKey (fd : FailureDomain) : tagTarget :=
  ((fd_Server fd, t_Datacenter (fd_Topology fd)), ("cluster", t_ComputeCluster (fd_Topology fd), fd_Zone fd)).

Definition ensureFolderAndOwnership (ctx : Ctx) (session : Session) (fd : FailureDomain) (infraID : string) : M unit :=
  let condType := ConditionDestinationInitialized in
  let where_ := [FS infraID; FS (fd_Server fd); FS (t_Datacenter (fd_Topology fd))] in
  let@ existing := lift (try (GetVMFolder session infraID)) in
  let@ hasOwnership :=
    (match existing with
     | Err getErr =>
         if negb (IsFindNotFound getErr) then throw (Errorf "checking for existing VM folder %q on %s/%s: %w" (where_ ++ [FE getErr])) else ret false
     | Ok existing =>
         lift (wrapping "checking ownership tag on folder %q on %s/%s: %w" where_
                 (ObjectHasTagInCategory session (ClusterOwnershipCategoryName infraID) existing))
     end) in
  if (hasOwnership : bool) then ret tt
  else
    let@ _ := progressing condType (Sprintf "Creating VM folder %q on %s/%s" [RStr infraID; RStr (fd_Server fd); RStr (t_Datacenter (fd_Topology fd))]) in
    let@ created := lift (try (CreateVMFolder ctx session infraID)) in
    let@ folder :=
      (match created with
       | Ok folder => ret folder
       | Err err =>
           let@ again := lift (try (GetVMFolder session infraID)) in
           match again with
           | Ok folder => ret folder
           | Err _ => throw (Errorf "creating VM folder %q on %s/%s: %w" (where_ ++ [FE err]))
           end
       end) in
    let@ _ := progressing condType (Sprintf "Creating cluster ownership tag for %q on %s" [RStr infraID; RStr (fd_Server fd)]) in
    let@ ownershipTagID := lift (wrapping "ensuring cluster ownership tag for %q on %s: %w" [FS infraID; FS (fd_Server fd)]
                                   (EnsureClusterOwnershipTag ctx session infraID)) in
    lift (wrapping "attaching cluster ownership tag to folder %q on %s/%s: %w" where_
            (AttachClusterOwnershipTag ctx session ownershipTagID folder)).

(** The tags of one failure domain that are still missing, created and attached. *)
Definition ensureFailureDomainTags (ctx : Ctx) (session : Session) (fd : FailureDomain) (tagAttached : gset tagTarget) : M (gset tagTarget) :=
  let t := fd_Topology fd in
  let@ dc := lift (wrapping "finding datacenter %q: %w" [FS (t_Datacenter t)] (do_call (VFind session FDatacenter (t_Datacenter t)))) in
  let@ cluster := lift (wrapping "finding cluster %q: %w" [FS (t_ComputeCluster t)] (do_call (VFind session FCluster (t_ComputeCluster t)))) in
  let@ hasRegion := (if decide (regionKey fd ∈ tagAttached) then ret true
                     else lift (wrapping "checking region tags on datacenter %q: %w" [FS (t_Datacenter t)]
                                  (ObjectHasTagInCategory session TagCategoryRegion dc))) in
  let@ hasZone := (if decide (zoneKey fd ∈ tagAttached) then ret true
                   else lift (wrapping "checking zone tags on cluster %q: %w" [FS (t_ComputeCluster t)]
                                (ObjectHasTagInCategory session TagCategoryZone cluster))) in
  let tagAttached' := {[regionKey fd; zoneKey fd]} ∪ tagAttached in
  if hasRegion && hasZone then ret tagAttached'
  else
    let@ _ := progressing ConditionDestinationInitialized (Sprintf "Creating tags for failure domain %q" [RStr (fd_Name fd)]) in
    let@ regionTagID :=
      (if negb hasRegion then
         let@ cat := lift (wrapping "failed to create region tag category for failure domain %q: %w" [FS (fd_Name fd)]
                             (EnsureTagCategory ctx session TagCategoryRegion TagCategoryRegionDescription "SINGLE")) in
         lift (wrapping "failed to create region tag for failure domain %q: %w" [FS (fd_Name fd)]
                 (EnsureTag ctx session cat (fd_Region fd) (Sprintf "OpenShift region %s" [RStr (fd_Region fd)])))
       else ret "") in
    let@ zoneTagID :=
      (if negb hasZone then
         let@ cat := lift (wrapping "failed to create zone tag category for failure domain %q: %w" [FS (fd_Name fd)]
                             (EnsureTagCategory ctx session TagCategoryZone TagCategoryZoneDescription "SINGLE")) in
         lift (wrapping "failed to create zone tag for failure domain %q: %w" [FS (fd_Name fd)]
                 (EnsureTag ctx session cat (fd_Zone fd) (Sprintf "OpenShift zone %s" [RStr (fd_Zone fd)])))
       else ret "") in
    let@ _ := lift (wrapping "attaching tags for failure domain %q: %w" [FS (fd_Name fd)]
                      (AttachFailureDomainTags ctx session regionTagID zoneTagID dc cluster)) in
    ret tagAttached'.

Definition ensureDestinationInitialized (ctx : Ctx) : M Result :=
  let condType := ConditionDestinationInitialized in
  let@ _ := progressing condType "Initializing destination vCenter" in
  let@ migration := get_mig in
  let@ infraID := lift (wrapping "getting infrastructure ID: %w" [] GetInfrastructureID) in
  let@ _ := m_fold (FailureDomains (mig_Spec migration)) ((∅ : gset serverDC), (∅ : gset tagTarget)) (fun '(folderCreated, tagAttached) fd =>
    let key : serverDC := (fd_Server fd, t_Datacenter (fd_Topology fd)) in
    let@ (username, password) := lift (wrapping "getting credentials for %s: %w" [FS (fd_Server fd)] (getTargetCredentials migration (fd_Server fd))) in
    let@ session := m_wrapping "connecting to %s/%s: %w" [FS (fd_Server fd); FS (t_Datacenter (fd_Topology fd))]
                      (getVSphereSession (fd_Server fd) (t_Datacenter (fd_Topology fd)) username password) in
    let@ _ := (if decide (key ∈ folderCreated) then ret tt else ensureFolderAndOwnership ctx session fd infraID) in
    let@ tagAttached := ensureFailureDomainTags ctx session fd tagAttached in
    ret ({[key]} ∪ folderCreated, tagAttached)) in
  let@ _ := setCondition condType ConditionTrue ReasonCompleted "Destination vCenter initialized with folders and tags" in
  let@ _ := Eventf "Normal" condType "VM folders and tags created on target vCenter" [] in
  ret done_result.

Section Handlers.
Context `{ProviderCodec} `{CloudCodec}.

Definition ensureInfrastructurePrepared (ctx : Ctx) : M Result :=
  let condType := ConditionInfrastructurePrepared in
  let@ _ := progressing condType "Validating preflight checks" in
  let@ migration := get_mig in
  let@ message := runPreflightChecks ctx migration in
  let@ _ := setCondition condType ConditionTrue ReasonCompleted message in
  let@ _ := Eventf "Normal" condType "Preflight validation passed" [] in
  ret done_result.

(** The configuration and restart half of MultiSiteConfigured. *)
Definition configureMultiSite (ctx : Ctx) (migration : Migration) : M unit :=
  let condType := ConditionMultiSiteConfigured in
  let fds := FailureDomains (mig_Spec migration) in
  let@ _ := progressing condType "Configuring multi-site vCenter" in
  let@ credsSecret := lift (wrapping "getting vsphere-creds secret: %w" [] GetVSphereCredsSecret) in
  let@ _ := lift (io_fold fds (credsSecret, (∅ : gset string)) (fun '(credsSecret, processedServers) fd =>
    if decide (fd_Server fd ∈ processedServers) then ok (credsSecret, processedServers)
    else
      let! (username, password) := wrapping "getting credentials for %s: %w" [FS (fd_Server fd)] (getTargetCredentials migration (fd_Server fd)) in
      let! credsSecret := wrapping "adding target credentials for %s: %w" [FS (fd_Server fd)]
                            (AddTargetVCenterCreds ctx credsSecret (fd_Server fd) username password) in
      ok (credsSecret, {[fd_Server fd]} ∪ processedServers))) in
  let@ _ := progressing condType "Updating Infrastructure" in
  let@ infra := lift (wrapping "getting infrastructure: %w" [] GetInfrastructure) in
  let@ _ := lift (wrapping "adding target vCenter to infrastructure: %w" [] (AddTargetVCenter ctx infra fds)) in
  let@ _ := progressing condType "Updating cloud-provider-config" in
  let@ cm := lift (wrapping "getting cloud-provider-config: %w" [] GetCloudProviderConfig) in
  let@ _ := lift (wrapping "adding target vCenter to cloud-provider-config: %w" [] (AddTargetVCenterToConfig ctx cm fds)) in
  let@ _ := progressing condType "Restarting MCO pods" in
  let@ _ := lift (wrapping "syncing controller config (MCO restart): %w" [] (syncControllerConfig ctx)) in
  let@ _ := progressing condType "Restarting vSphere pods" in
  let@ _ := lift (wrapping "restarting vSphere pods: %w" [] (RestartVSpherePods ctx)) in
  setCondition condType ConditionFalse reasonWaitingForVSpherePods "Waiting for vSphere pods to become ready".

Definition ensureMultiSiteConfigured (ctx : Ctx) : M Result :=
  let condType := ConditionMultiSiteConfigured in
  let@ migration := get_mig in
  let@ configApplied := lift (hasTargetVCenterConfiguration migration) in
  let waitingForPods :=
    match FindStatusCondition (Conditions (mig_Status migration)) condType with
    | Some cond => configApplied && String.eqb (c_Reason cond) reasonWaitingForVSpherePods
    | None => false
    end in
  let@ _ := (if negb waitingForPods then configureMultiSite ctx migration else ret tt) in
  let@ _ := setCondition condType ConditionFalse reasonWaitingForVSpherePods "Waiting for vSphere pods to become ready" in
  let@ podStatus := lift (wrapping "checking vSphere pods readiness: %w" [] CheckVSpherePodsReady) in
  if negb (AllReady podStatus) then ret (RequeueAfter 15)
  else
    let@ _ := setCondition condType ConditionTrue ReasonCompleted "Multi-site vCenter configured and pods ready" in
    let@ _ := Eventf "Normal" condType "Cluster configured for both source and target vCenters" [] in
    ret done_result.

End Handlers.

(** ** The gate *)

Section Gate.
Context (m0 m : Migration) (ctx : Ctx) (Hctx : ctx_check ctx = Some m) (Hm : same_identity m m0).

Lemma quietM_progressing c msg : quietM (progressing c msg).
Proof. unfold progressing. quiet_auto. Qed.
Hint Resolve quietM_progressing : quiet.
Hint Resolve gated_ensureTagCategory gated_EnsureTag : gated.

Lemma gatedM_folder s fd i : gatedM m0 (ensureFolderAndOwnership ctx s fd i).
Proof. unfold ensureFolderAndOwnership. gate_auto. Qed.
Lemma gatedM_tags s fd t : gatedM m0 (ensureFailureDomainTags ctx s fd t).
Proof. unfold ensureFailureDomainTags, EnsureTagCategory. gate_auto. Qed.
Hint Resolve gatedM_folder gatedM_tags : gated.
Lemma gatedM_Destination : gatedM m0 (ensureDestinationInitialized ctx).
Proof. unfold ensureDestinationInitialized. gate_auto. Qed.
Lemma gatedM_Infrastructure `{ProviderCodec} : gatedM m0 (ensureInfrastructurePrepared ctx).
Proof. unfold ensureInfrastructurePrepared. gate_auto. Qed.
Lemma gatedM_configure `{CloudCodec} mig : gatedM m0 (configureMultiSite ctx mig).
Proof. unfold configureMultiSite. gate_auto. Qed.
Hint Resolve gatedM_configure : gated.
Lemma gatedM_MultiSite `{ProviderCodec} `{CloudCodec} : gatedM m0 (ensureMultiSiteConfigured ctx).
Proof. unfold ensureMultiSiteConfigured. gate_auto. Qed.
End Gate.
#[export] Hint Resolve quietM_progressing : quiet.
#[export] Hint Resolve gatedM_Destination gatedM_Infrastructure gatedM_MultiSite : gated.
