(* ===== verification/Workload.v ===== *)
(** * Moving the workload (internal/controller)

    The handler of WorkloadMigrated: recover the mapping of an in-flight migration, create
    the destination workers and wait for them, point the ControlPlaneMachineSet at the
    destination, and only then scale the source MachineSets down, wait for their machines
    and delete them. *)

From S2P Require Import Prelude GoErrors Objects Types Effects Execution Naming Messages Metrics Status Invariants Infrastructure Codec Machines Operators Mapping Destinations Workers Netip VSphere Probe Preflight Destination.
Import GoStr.

Definition eventReasonControlPlaneRollout := "ControlPlaneRollout".
(** [stallEventInterval]: five minutes. *)
Definition stallEventInterval : Z := seconds 300.

(** ** time.Duration *)

(** [d.Round(time.Second)] in seconds: half a second rounds away from zero. *)
Definition roundSeconds (d : Z) : Z :=
  (let r := (Z.abs d + 500000000) / 1000000000 in if d <? 0 then - r else r)%Z.

(** [Duration.String] of a whole number of seconds. *)
Definition durationString (s : Z) : string :=
  (let a := Z.abs s in
   let h := a / 3600 in let m := a / 60 mod 60 in let sec := a mod 60 in
   (if s <? 0 then "-" else "") +:+
   (if 0 <? h then pretty h +:+ "h" +:+ pretty m +:+ "m" else if 0 <? m then pretty m +:+ "m" else "") +:+ pretty sec +:+ "s")%Z.

Example duration_text : durationString (roundSeconds 3723499999999) = "1h2m3s". Proof. vm_compute. reflexivity. Qed.

(** ** Old workers *)

(** One machine of the stall detail, with its age. *)
Definition stalledEntry (machine : Machine) : M string :=
  let@ t := now in
  let age := durationString (roundSeconds (t - m_CreationTimestamp machine)) in
  ret (Sprintf "%s (%s old" [RStr (m_Name machine); RStr age] +:+
       match m_ErrorReason machine with Some r => Sprintf ", %s" [RStr r] | None => "" end +:+ ")").

(** [(detail, eventNote, key)]. *)
Definition oldWorkerStallDetail (machineSets : list MachineSet) : M (string * string * string) :=
  let@ (parts, keyParts) := m_fold machineSets ([], []) (fun '(parts, keyParts) ms =>
    let@ machines := lift (ListMachinesForMachineSet (ms_Name ms)) in
    if (length machines =? 0)%nat then ret (parts, keyParts)
    else
      let machines := SortBy m_Name machines in
      let@ names := m_fold machines [] (fun names machine => let@ entry := stalledEntry machine in ret (names ++ [entry])) in
      let@ (_, nodeRemaining) := lift (CheckNodesDeletedForMachines (ms_Name ms)) in
      let text := Sprintf "%s has %d machine(s) [%s] and %d node(s) remaining"
                    [RStr (ms_Name ms); RInt (zlen machines); RStr (Join names ", "); RInt nodeRemaining] in
      ret (parts ++ [MkPart (ms_Name ms) text (m_Name <$> machines)],
           keyParts ++ [ms_Name ms +:+ "=" +:+ Join (SortStrings (m_Name <$> machines)) ","])) in
  let parts := SortBy part_machineSetName parts in
  ret (joinStallDetailParts parts, boundOldWorkerStallEventNote parts, Join (SortStrings keyParts) "|").

Definition oldMachinesAndNodesDeleted (machineSets : list MachineSet) : IO bool :=
  io_fold machineSets true (fun allDeleted ms =>
    let! (machinesGone, _) := wrapping "checking machine deletion for %q: %w" [FS (ms_Name ms)] (CheckMachinesDeleted (ms_Name ms)) in
    if negb machinesGone then ok false
    else
      let! (nodesGone, _) := wrapping "checking node deletion for %q: %w" [FS (ms_Name ms)] (CheckNodesDeletedForMachines (ms_Name ms)) in
      ok (allDeleted && nodesGone)).

(** The debounced Warning event: the note is the format string of the recorder. *)
Definition recordStall (key eventNote : string) : M unit :=
  let@ st := get in
  let@ due := (if negb (String.eqb key (lastStallEventKey (st_mem st))) then ret true
               else
                 let@ t := now in
                 ret (match lastStallEventTime (st_mem st) with Some t0 => (stallEventInterval <=? t - t0)%Z | None => true end)) in
  if (due : bool) then
    let@ _ := Eventf "Warning" "OldWorkersStalled" eventNote [] in
    let@ t := now in
    modify (with_mem (fun mem => MkMem key (Some t) (readyStabilityCount mem) (lastReadyStabilityCheck mem) (lastCountedStabilityCheck mem)))
  else ret tt.

Section Workload.
Context `{ProviderCodec}.

Definition refuseDestination (format sourceServer : string) : error := Errorf format [FS sourceServer].

(** Step 6: whether a MachineSet was scaled. *)
Definition scaleDownSourceMachineSets (ctx : Ctx) (oldMachineSets : list MachineSet) (sourceServer infraID : string) : M bool :=
  let@ migration := get_mig in
  if isConfiguredDestination migration sourceServer
  then throw (refuseDestination "refusing to scale down and delete MachineSets on %q: server is a configured destination failure domain" sourceServer)
  else
    let@ infra := lift (wrapping "getting infrastructure: %w" [] GetInfrastructure) in
    let sourceFDs := filter (fun fd => fd_Server fd = sourceServer) (infraFailureDomains infra) in
    let mappings := StatusMappings (mig_Status migration) in
    let@ _ := m_wrapping "recovering unrecorded destination MachineSet names before scale-down: %w" []
                (recoverUnrecordedDestinationNames oldMachineSets infraID mappings sourceFDs) in
    let@ _ := m_wrapping "persisting destination MachineSet names before scale-down: %w" [] persistWorkerMachineSetNames in
    let@ migration := get_mig in
    let@ _ := lift (of_result (wrapf "validating source MachineSet coverage before scale-down: %w" []
                (validateSourceMachineSetCoverage oldMachineSets infraID mappings sourceFDs (WorkerMachineSetNames (mig_Status migration))))) in
    let@ scaledAny := m_fold oldMachineSets false (fun scaledAny ms =>
      if hasRunningReplicas ms then
        let@ _ := lift (wrapping "scaling old MachineSet %q to 0: %w" [FS (ms_Name ms)] (ScaleMachineSet ctx (ms_Name ms) 0)) in
        ret true
      else ret scaledAny) in
    if negb scaledAny then ret false
    else
      let@ _ := progressing ConditionWorkloadMigrated "Old workers scaled down, waiting for deletion" in
      let@ _ := Eventf "Normal" "ControlPlaneRolledOut" "Control plane rollout complete on target vCenter" [] in
      let@ _ := Eventf "Normal" "OldWorkersScaledDown" "Old worker MachineSets scaled to 0" [] in
      ret true.

Definition ensureCPMSUpdated (ctx : Ctx) (targetFDNames : list string) : M Result :=
  let condType := ConditionWorkloadMigrated in
  let@ (converged, summary) := lift (wrapping "checking machine config pool convergence: %w" [] CheckPoolsConverged) in
  if negb converged then
    let blockers := (if (0 <? length (NotUpdatedPools summary))%nat then [Sprintf "not updated: %s" [RStr (Join (NotUpdatedPools summary) ", ")]] else []) ++
                    (if (0 <? length (DegradedPools summary))%nat then [Sprintf "degraded: %s" [RStr (Join (DegradedPools summary) ", ")]] else []) in
    let@ _ := progressing condType (Sprintf "Waiting for machine config pools to converge (%s)" [RStr (Join blockers ", ")]) in
    ret (RequeueAfter 30)
  else
    let@ _ := lift (wrapping "updating CPMS failure domains: %w" [] (UpdateCPMSFailureDomain ctx targetFDNames)) in
    let@ (_, generation, observedGeneration) := lift (wrapping "checking CPMS generation: %w" [] IsCPMSGenerationObserved) in
    let@ _ := progressing condType (Sprintf "Waiting for control plane rollout to start (CPMS generation %d/%d observed)" [RInt generation; RInt observedGeneration]) in
    let@ _ := Eventf "Normal" "CPMSUpdated" (Sprintf "CPMS updated with failure domains %v" [RStrs targetFDNames]) [] in
    ret (RequeueAfter 15).

Definition rolloutMessage (ro : ControlPlaneRolloutStatus) : string :=
  let counts := [RInt (ro_UpdatedReplicas ro); RInt (ro_Replicas ro); RInt (ro_ReadyReplicas ro); RInt (ro_Replicas ro)] in
  if String.eqb (HoldReason ro) "" then Sprintf "Control plane rolling out (%d/%d updated, %d/%d ready)" counts
  else Sprintf "Control plane rollout held by ControlPlaneMachineSet condition %s (%s); %d/%d updated, %d/%d ready"
         ([RStr (HoldReason ro); RStr (if String.eqb (HoldMessage ro) "" then "no message reported" else HoldMessage ro)] ++ counts).

(** Steps 7 and 8: wait for the old machines, delete the empty source MachineSets. *)
Definition finishSourceWorkers (ctx : Ctx) (oldMachineSets : list MachineSet) (sourceServer : string) : M Result :=
  let condType := ConditionWorkloadMigrated in
  let@ allDeleted := lift (oldMachinesAndNodesDeleted oldMachineSets) in
  if negb allDeleted then
    let@ (detail, eventNote, key) := m_wrapping "building old worker stall detail: %w" [] (oldWorkerStallDetail oldMachineSets) in
    let@ _ := progressing condType (boundConditionMessage ("Waiting for old worker deletion: " +:+ detail)) in
    let@ _ := recordStall key eventNote in
    ret (RequeueAfter 30)
  else
    let@ migration := get_mig in
    if isConfiguredDestination migration sourceServer
    then throw (refuseDestination "refusing to delete MachineSets on %q: server is a configured destination failure domain" sourceServer)
    else
      let@ deleted := lift (wrapping "deleting source MachineSets: %w" [] (DeleteMachineSetsByVCenter ctx sourceServer)) in
      let@ _ := (if (0 <? length deleted)%nat then Eventf "Normal" "SourceWorkersDeleted" "Source worker MachineSets deleted" [] else ret tt) in
      let@ remaining := lift (wrapping "listing source MachineSets after delete: %w" [] (GetMachineSetsByVCenter sourceServer)) in
      if (0 <? length remaining)%nat then
        let@ _ := progressing condType "Deleting source MachineSets" in
        ret (RequeueAfter 10)
      else
        let@ _ := setCondition condType ConditionTrue ReasonCompleted "Workload migrated to target vCenter" in
        let@ _ := Eventf "Normal" condType "All workloads migrated to target vCenter" [] in
        ret done_result.

Definition ensureWorkloadMigratedRolloutAndScaleDown (ctx : Ctx) : M Result :=
  let condType := ConditionWorkloadMigrated in
  let@ migration := get_mig in
  let@ infra := lift (wrapping "getting infrastructure: %w" [] GetInfrastructure) in
  let@ sourceServer := lift (of_result (sourceVCenterServer (infraFailureDomains infra) (StatusMappings (mig_Status migration)))) in
  let@ infraID := lift (wrapping "getting infrastructure ID: %w" [] GetInfrastructureID) in
  let@ _ := updateWorkloadProgress infraID sourceServer in
  let@ (observed, generation, observedGeneration) := lift (wrapping "checking CPMS generation: %w" [] IsCPMSGenerationObserved) in
  if negb observed then
    let counts := [RInt generation; RInt observedGeneration] in
    let@ _ := progressing condType (Sprintf "Waiting for control plane rollout to start (CPMS generation %d/%d observed)" counts) in
    let@ _ := Eventf "Normal" eventReasonControlPlaneRollout "waiting for rollout to start (CPMS generation %d/%d observed)" counts in
    ret (RequeueAfter 15)
  else
    let@ rolloutStatus := lift (wrapping "checking control plane rollout: %w" [] CheckControlPlaneRolloutStatus) in
    if negb (Complete rolloutStatus) then
      let message := rolloutMessage rolloutStatus in
      let@ _ := progressing condType message in
      let@ _ := Eventf "Normal" eventReasonControlPlaneRollout "%s" [RStr message] in
      let@ _ := lift (try ListControlPlaneMachines) in
      ret (RequeueAfter 30)
    else
      let@ oldMachineSets := lift (wrapping "getting old MachineSets: %w" [] (GetMachineSetsByVCenter sourceServer)) in
      let@ requeued := scaleDownSourceMachineSets ctx oldMachineSets sourceServer infraID in
      if (requeued : bool) then ret (RequeueAfter 30)
      else finishSourceWorkers ctx oldMachineSets sourceServer.

(** ** The mapping of an in-flight migration *)

(** The recorded mapping, or the one preflight would have recorded; a source without
    MachineSets and without recorded names keeps the released operator's name. *)
Definition effectiveMappings (infraID : string) (infraFDs : list FailureDomain) : M (list FailureDomainMapping) :=
  let@ migration := get_mig in
  match StatusMappings (mig_Status migration) with
  | _ :: _ => ret (StatusMappings (mig_Status migration))
  | [] =>
      let recorded := WorkerMachineSetNames (mig_Status migration) in
      let@ mappings := lift (of_result (wrapf "recovering failure domain mappings for an in-flight migration: %w" [] (seedFailureDomainMappings migration infraFDs))) in
      let@ legacyNames := lift (io_fold mappings [] (fun legacyNames mapping =>
        match findFailureDomainByName infraFDs (Source mapping) with
        | None => fail (Errorf "recovering source failure domain %q" [FS (Source mapping)])
        | Some sourceFD =>
            let! sources := GetMachineSetsByFailureDomain (fd_Server sourceFD) sourceFD in
            let base := workerMachineSetName infraID (Destination mapping) recorded in
            if (length sources =? 0)%nat && (length (recordedWorkerMachineSetNames recorded base) =? 0)%nat then
              let name := legacyWorkerName infraID (sanitizeRFC1123 (Destination mapping)) in
              if (maxGeneratedMachineSetNameLen <? String.length name)%nat
              then fail (Errorf "recovering invalid legacy MachineSet name %q" [FS name])
              else ok (legacyNames ++ [name])
            else ok legacyNames
        end)) in
      let@ _ := modify_status (fun st => set_StatusMappings mappings (set_WorkerNames (appendNames legacyNames (WorkerMachineSetNames st)).1 st)) in
      ret mappings
  end.

Definition ensureWorkloadMigrated (ctx : Ctx) : M Result :=
  let condType := ConditionWorkloadMigrated in
  let@ migration := get_mig in
  let fds := FailureDomains (mig_Spec migration) in
  if (length fds =? 0)%nat then throw (Errorf "spec.failureDomains must not be empty" [])
  else
    let@ _ := lift (of_result (fdTemplateMissing fds)) in
    let@ infra := lift (wrapping "getting infrastructure: %w" [] GetInfrastructure) in
    let infraID := infra_InfrastructureName infra in
    if String.eqb infraID "" then throw (Errorf "infrastructure status has no InfrastructureName" [])
    else
      let targetFDNames := failureDomainNames fds in
      let infraFDs := infraFailureDomains infra in
      let@ mappings := effectiveMappings infraID infraFDs in
      let@ sourceServer := lift (of_result (sourceVCenterServer infraFDs mappings)) in
      if isConfiguredDestination migration sourceServer
      then throw (refuseDestination "refusing to migrate workers from %q: server is a configured destination failure domain" sourceServer)
      else
        let@ _ := updateWorkloadProgress infraID sourceServer in
        let@ allTargetMSExist := targetMachineSetsExist ctx infraID mappings infraFDs in
        if negb allTargetMSExist then createMappedWorkerMachineSets ctx infraID mappings infraFDs
        else
          let@ migration := get_mig in
          let recorded := WorkerMachineSetNames (mig_Status migration) in
          let@ workerFDs := lift (workerReadinessFailureDomains infraID mappings infraFDs fds recorded) in
          if (length workerFDs =? 0)%nat && (0 <? length recorded)%nat then
            let@ _ := progressing condType "Waiting for recorded target worker MachineSets to exist" in
            ret (RequeueAfter 30)
          else
            let@ readiness := lift (checkWorkerReadiness workerFDs infraID recorded) in
            if negb (wr_Ready readiness) then
              let@ _ := progressing condType (Sprintf "Waiting for target workers (machines %d/%d ready, nodes %d/%d ready)"
                          [RInt (MachinesReady readiness); RInt (MachinesTotal readiness); RInt (NodesReady readiness); RInt (NodesTotal readiness)]) in
              ret (RequeueAfter 30)
            else
              let@ cpmsUpdated := lift (wrapping "checking CPMS update state: %w" [] (IsCPMSUpdatedForFailureDomains targetFDNames)) in
              if (cpmsUpdated : bool) then ensureWorkloadMigratedRolloutAndScaleDown ctx
              else ensureCPMSUpdated ctx targetFDNames.

End Workload.

(** ** The gate *)

Section Gate.
Context `{ProviderCodec} (m0 m : Migration) (ctx : Ctx) (Hctx : ctx_check ctx = Some m) (Hm : same_identity m m0).

Lemma quietM_stalledEntry x : quietM (stalledEntry x).
Proof. unfold stalledEntry. quiet_auto. Qed.
Hint Resolve quietM_stalledEntry : quiet.
Lemma quietM_stallDetail l : quietM (oldWorkerStallDetail l).
Proof. unfold oldWorkerStallDetail. quiet_auto. Qed.
Lemma quiet_oldDeleted l : quiet (oldMachinesAndNodesDeleted l).
Proof. unfold oldMachinesAndNodesDeleted. quiet_auto. Qed.
Lemma quietM_recordStall k n : quietM (recordStall k n).
Proof. unfold recordStall. quiet_auto. Qed.
Lemma quietM_effectiveMappings i f : quietM (effectiveMappings i f).
Proof. unfold effectiveMappings. quiet_auto. Qed.
Hint Resolve quietM_stallDetail quiet_oldDeleted quietM_recordStall quietM_effectiveMappings : quiet.
Lemma gatedM_scaleDown l s i : gatedM m0 (scaleDownSourceMachineSets ctx l s i).
Proof. unfold scaleDownSourceMachineSets. gate_auto. Qed.
Lemma gatedM_CPMS l : gatedM m0 (ensureCPMSUpdated ctx l).
Proof. unfold ensureCPMSUpdated. gate_auto. Qed.
Lemma gatedM_finish l s : gatedM m0 (finishSourceWorkers ctx l s).
Proof. unfold finishSourceWorkers. gate_auto. Qed.
Hint Resolve gatedM_scaleDown gatedM_CPMS gatedM_finish : gated.
Lemma gatedM_rollout : gatedM m0 (ensureWorkloadMigratedRolloutAndScaleDown ctx).
Proof. unfold ensureWorkloadMigratedRolloutAndScaleDown. gate_auto. Qed.
Hint Resolve gatedM_rollout : gated.
Lemma gatedM_Workload : gatedM m0 (ensureWorkloadMigrated ctx).
Proof. unfold ensureWorkloadMigrated. gate_auto. Qed.
End Gate.
#[export] Hint Resolve quietM_stallDetail quiet_oldDeleted quietM_recordStall quietM_effectiveMappings : quiet.
#[export] Hint Resolve gatedM_Workload : gated.

(** ** Scaling down is safe *)

(** What is known when a source MachineSet is scaled: the Infrastructure and the MachineSet
    last read, the worker names seen in the migration resource or accepted by it, and whether
    the resource was found replaced. *)
Record ScaleView := MkScaleView {
  sv_infra : option Infrastructure;
  sv_ms : option (string * MachineSet);
  sv_published : list string;
  sv_replaced : bool;
}.

Definition scale_next (uid : string) (g : ScaleView) (c : call) : resp c -> ScaleView :=
  match c with
  | CGetInfrastructure => fun r =>
      MkScaleView (match r with Ok i => Some i | Err _ => None end) (sv_ms g) (sv_published g) (sv_replaced g)
  | CGetMachineSet n => fun r =>
      MkScaleView (sv_infra g) (match r with Ok ms => Some (n, ms) | Err _ => None end) (sv_published g) (sv_replaced g)
  | CGetMigration _ _ _ => fun r =>
      match r with
      | Ok m => if String.eqb (mig_UID m) uid
                then MkScaleView (sv_infra g) (sv_ms g) (sv_published g ++ WorkerMachineSetNames (mig_Status m)) (sv_replaced g)
                else MkScaleView (sv_infra g) (sv_ms g) (sv_published g) true
      | Err _ => g
      end
  | CUpdateMigrationStatus m => fun r =>
      if is_ok r then MkScaleView (sv_infra g) (sv_ms g) (sv_published g ++ WorkerMachineSetNames (mig_Status m)) (sv_replaced g) else g
  | _ => fun _ => g
  end.

Section ScaleDown.
Context `{ProviderCodec} (migration : Migration) (old : list MachineSet) (server infraID : string).

(** Every running source MachineSet is covered by published destination names. *)
Definition capacityCovered (g : ScaleView) : Prop :=
  exists infra names, sv_infra g = Some infra /\ (names ⊆ sv_published g \/ sv_replaced g = true) /\
    forall ms, ms ∈ old -> ~ scaledToZero ms ->
      coveredBy infraID (StatusMappings (mig_Status migration)) (filter (fun fd => fd_Server fd = server) (infraFailureDomains infra)) names ms.

(** The only change: a running source MachineSet, as just read, is set to zero replicas. *)
Definition scales_covered : Observer ScaleView :=
  MkObserver (fun g c => mutating c = true ->
    exists n ms o, c = CUpdateMachineSet (ms_set_Replicas ms 0) /\ sv_ms g = Some (n, ms) /\
      o ∈ old /\ ms_Name o = n /\ ~ scaledToZero o /\
      isConfiguredDestination migration server = false /\ capacityCovered g)
    (scale_next (mig_UID migration)) (fun _ _ _ => True).

(** [g'] knows at least what [g] did, of the same Infrastructure. *)
Definition extends (g g' : ScaleView) : Prop :=
  sv_infra g' = sv_infra g /\ sv_published g ⊆ sv_published g' /\ (sv_replaced g = true -> sv_replaced g' = true).

#[local] Instance extends_preorder : PreOrder extends.
Proof. split; [by intros g|]. intros a b c (E1 & P1 & R1) (E2 & P2 & R2). split_and!; [congruence|by etrans|auto]. Qed.

Lemma covered_extends g g' : extends g g' -> capacityCovered g -> capacityCovered g'.
Proof.
  intros (E & P & R) (infra & names & Hi & Hn & Hv). exists infra, names. rewrite E. split_and!; [done| |done].
  destruct Hn as [Hn|Hn]; [left; by etrans|right; auto].
Qed.

Definition no_infra (c : call) : Prop := match c with CGetInfrastructure => False | _ => mutating c = false end.

Lemma scale_next_extends g c r : no_infra c -> extends g (scale_next (mig_UID migration) g c r).
Proof.
  intros Hc. destruct c; try done; cbn.
  - destruct r as [m|]; [|done]. destruct (String.eqb _ _); split_and!; cbn; auto. apply list_subseteq_app_l. done.
  - destruct r; cbn; [|done]. split_and!; cbn; auto. apply list_subseteq_app_l. done.
Qed.

Lemma wp_extends {A} (p : Prog A) (Q : A -> ScaleView -> Prop) g :
  only_calls no_infra p -> (forall a g', extends g g' -> Q a g') -> wp scales_covered p Q g.
Proof.
  unfold only_calls. revert g. induction p as [a|c k IH]; intros g Hp HQ; cbn [wp] in *; [by apply HQ|].
  destruct Hp as [Hc Hk]. split; [cbn; destruct c; cbn in *; congruence|]. intros r _.
  apply (IH r); [by apply Hk|]. intros a g' Hg. apply HQ. etrans; [by apply scale_next_extends|done].
Qed.

Lemma wp_recover l ms fds s g (Q : St * result (list string) -> ScaleView -> Prop) :
  (forall r s' g', mig_UID (st_mig s') = mig_UID (st_mig s) -> extends g g' -> Q (s', r) g') ->
  wp scales_covered (recoverUnrecordedDestinationNames l infraID ms fds s) Q g.
Proof.
  intros HQ. unfold recoverUnrecordedDestinationNames. repeat wp_step.
  apply wp_extends.
  - unfold matchedSources, extractFor, resolveWorkerMachineSetName, expectedDestinationNames,
      derivePerSourceNames, classifyDestinationLayout, suffixedCopyExists, recoverNames, GetMachineSet, extractFor. only_auto.
  - intros [recovered|e] g' Hg'; cbn; by apply HQ.
Qed.

Lemma wp_check_view ctx (Q : result unit -> ScaleView -> Prop) g :
  (forall r g', extends g g' -> sv_ms g' = sv_ms g -> Q r g') -> wp scales_covered (Check ctx) Q g.
Proof.
  intros HQ. unfold Check, checkPermission. destruct (ctx_check ctx) as [m|]; [|by apply HQ]. repeat wp_step; [done|].
  intros r _. assert (extends g (scale_next (mig_UID migration) g (CGetMigration permissionReader (mig_Namespace m) (mig_Name m)) r)) as Hg
    by (by apply scale_next_extends).
  assert (sv_ms (scale_next (mig_UID migration) g (CGetMigration permissionReader (mig_Namespace m) (mig_Name m)) r) = sv_ms g) as Hms
    by (cbn; destruct r; [by case_match|done]).
  repeat wp_step; by apply HQ.
Qed.

(** Success means that the names are published, or that the resource was replaced. *)
Lemma wp_persist s g (Q : St * result unit -> ScaleView -> Prop) :
  mig_UID (st_mig s) = mig_UID migration ->
  (forall s' e g', extends g g' -> Q (s', Err e) g') ->
  (forall g', extends g g' -> (WorkerMachineSetNames (mig_Status (st_mig s)) ⊆ sv_published g' \/ sv_replaced g' = true) -> Q (s, Ok tt) g') ->
  wp scales_covered (persistWorkerMachineSetNames s) Q g.
Proof.
  intros Huid He HQ. unfold persistWorkerMachineSetNames. repeat wp_step; [apply HQ; [done|left; apply list_subseteq_nil]|].
  rewrite <- Heql in HQ |- *. clear Heql. set (names := WorkerMachineSetNames (mig_Status (st_mig s))) in *.
  apply (wp_retry _ (fun _ s' g' => s' = s /\ extends g g')); [done|].
  intros k s' g1 [-> Hg1]. unfold persistNamesOnce. repeat wp_step; [done|].
  intros [latest|e] _; [|split; [by apply He|by intros]]. cbn [wp upd scales_covered scale_next].
  destruct (appendNames_spec names (WorkerMachineSetNames (mig_Status latest))) as (Hp & Hx & Hc & _).
  rewrite Huid. destruct (String.eqb (mig_UID latest) (mig_UID migration)) eqn:Eu; cbn [negb].
  - set (g2 := MkScaleView _ _ _ _). assert (extends g g2) as Hg2
      by (etrans; [exact Hg1|]; split_and!; cbn; auto; by apply list_subseteq_app_l).
    destruct (appendNames _ _) as [merged changed]; cbn [fst snd] in *. destruct changed; cbn [negb].
    + repeat wp_step; [done|]. intros [[]|e] _; cbn [wp upd scales_covered scale_next is_ok]; [|split; [by apply He|by intros]].
      apply HQ; [|left; cbn; intros x Hin; apply elem_of_app; right; apply Hx; auto].
      etrans; [exact Hg2|]. split_and!; cbn; auto. by apply list_subseteq_app_l.
    + apply HQ; [done|]. left. cbn. intros x Hin. apply elem_of_app. right. rewrite <- Hc by done. apply Hx. auto.
  - apply HQ; [|by right]. etrans; [exact Hg1|]. by split_and!.
Qed.

Lemma wp_scaleDown ctx s g :
  st_mig s = migration -> wp scales_covered (scaleDownSourceMachineSets ctx old server infraID s) (fun _ _ => True) g.
Proof.
  intros Hs. unfold scaleDownSourceMachineSets. repeat wp_step; [done|]. rewrite Hs in Heqb.
  apply wp_wrapping. unfold GetInfrastructure. repeat wp_step; [done|]. intros [infra|e] _; [|done]. cbn [wrapf upd scales_covered scale_next].
  set (g1 := MkScaleView _ _ _ _). cbv zeta. set (fds := filter _ _).
  apply wp_m_bind, wp_m_wrapping, wp_recover. intros r s1 g2 Hu Hg2. destruct r as [recovered|e]; [|done]. cbn [wrapf].
  apply wp_m_bind, wp_m_wrapping, wp_persist; [by rewrite Hu, Hs|done|]. intros g3 Hg3 Hpub. cbn [wrapf].
  assert (forall a, validateSourceMachineSetCoverage old infraID (StatusMappings (mig_Status (st_mig s))) fds
    (WorkerMachineSetNames (mig_Status (st_mig s1))) = Ok a -> capacityCovered g3) as Hcov.
  { intros [] Hv. exists infra, (WorkerMachineSetNames (mig_Status (st_mig s1))). rewrite Hs in Hv.
    split_and!; [|done|by apply coverage_covers]. destruct Hg2 as (E2 & _), Hg3 as (E3 & _). by rewrite E3, E2. }
  repeat wp_step; [|done]. destruct (validateSourceMachineSetCoverage _ _ _ _ _) as [u|] eqn:Hv; [|done].
  specialize (Hcov u eq_refl). clear Hv Heqr.
  apply (wp_m_fold scales_covered _ _ _ (fun _ _ _ g' => capacityCovered g')); [done| |].
  - intros done ms rest b s' g' Hin Hc. repeat wp_step; [|done]. unfold ScaleMachineSet. repeat wp_step; [done|].
    intros [x|e] _; [|done]. cbn [wrapf upd scales_covered scale_next]. set (g4 := MkScaleView _ _ _ _).
    assert (capacityCovered g4) as Hc4 by (eapply covered_extends; [|exact Hc]; by split_and!).
    cbv zeta. apply wp_io_bind, wp_check_view. intros [[]|e] g5 Hg5 Hms; [|done]. repeat wp_step.
    + intros _. exists (ms_Name ms), x, ms. rewrite Hms. split_and!; try done; [|by apply hasRunningReplicas_spec|by eapply covered_extends].
      rewrite Hin. apply elem_of_app. right. left.
    + intros [y|e] _; [|done]. by eapply covered_extends.
  - intros b s' g' Hc. apply wp_quietM; [quiet_auto| |done]. intros g5 c Hq Hmut. congruence.
Qed.
End ScaleDown.

(** C4: Scaling the source workers down is fail-closed.  In every run, the only change that
    [scaleDownSourceMachineSets] makes is to set a running source MachineSet, as just read, to
    zero replicas; and whenever it does, the source server is not a configured destination and
    every running source MachineSet is covered by a mapping whose destination names were
    already seen in the migration resource or accepted by it (or the resource was found
    replaced, in which case the execution gate stops the action). *)
Theorem scale_down_covered `{ProviderCodec} {W} (h : W -> forall c, resp c * W) (w : W) (ctx : Ctx) (s : St)
    (old : list MachineSet) (server infraID : string) :
  observed (scales_covered (st_mig s) old server infraID) (MkScaleView None None [] false)
    (run h (scaleDownSourceMachineSets ctx old server infraID s) w).2.
Proof.
  pose proof (wp_scaleDown (st_mig s) old server infraID ctx s (MkScaleView None None [] false) eq_refl) as Hwp.
  by apply (wp_run_all _ h _ _ _ w) in Hwp as [? _].
Qed.

(** ** The control plane moves first *)

(** The last ControlPlaneMachineSet and the last MachineSet read. *)
Record CapacityView := MkCapacityView { cv_cpms : option CPMS; cv_ms : option MachineSet }.

Definition capacity_next (g : CapacityView) (c : call) : resp c -> CapacityView :=
  match c with
  | CGetCPMS => fun r => MkCapacityView (match r with Ok cpms => Some cpms | Err _ => None end) (cv_ms g)
  | CGetMachineSet _ => fun r => MkCapacityView (cv_cpms g) (match r with Ok ms => Some ms | Err _ => None end)
  | _ => fun _ => g
  end.

Definition rolloutComplete (g : CapacityView) : Prop := exists cpms, cv_cpms g = Some cpms /\ rolledOut cpms.

(** The marking of a released operator's aggregate: one annotation of the object as read. *)
Definition marksAggregate (g : CapacityView) (ms : MachineSet) : Prop :=
  exists old, cv_ms g = Some old /\
    ms = ms_set_Annotations old (<[LegacyAggregateAnnotation := LegacyAggregateAnnotationValue]> (ms_Annotations old)).

(** The calls that take capacity away or may do so. *)
Definition reshapes (c : call) : bool :=
  match c with CUpdateMachineSet _ | CDeleteMachineSet _ => true | _ => false end.

Definition control_plane_first : Observer CapacityView :=
  MkObserver (fun g c => match c with
      | CDeleteMachineSet _ => rolloutComplete g
      | CUpdateMachineSet ms => rolloutComplete g \/ marksAggregate g ms
      | _ => True
      end) capacity_next (fun _ _ _ => True).

Lemma wp_not_reshaping {A} (p : Prog A) (Q : A -> CapacityView -> Prop) g :
  only_calls (fun c => reshapes c = false) p -> (forall a g', Q a g') -> wp control_plane_first p Q g.
Proof.
  intros Hp HQ. revert g. unfold only_calls in Hp. induction p as [a|c k IH]; intros g; cbn [wp] in *; [apply HQ|].
  destruct Hp as [Hc Hk]. split; [by destruct c|]. intros r _. apply IH. by apply Hk.
Qed.

Lemma quiet_not_reshaping {A} (p : Prog A) : quiet p -> only_calls (fun c => reshapes c = false) p.
Proof. intros Hp. unfold only_calls. eapply wp_only; [apply Hp| |done]. by intros []. Qed.

Lemma wp_quiet_capacity {A} (m : M A) (Q : St * result A -> CapacityView -> Prop) s g :
  quietM m -> (forall a g', Q a g') -> wp control_plane_first (m s) Q g.
Proof. intros Hm HQ. apply wp_not_reshaping; [|done]. by apply quiet_not_reshaping. Qed.

Definition no_cpms (c : call) : Prop := match c with CGetCPMS => False | _ => True end.

Lemma wp_after_rollout {A} (p : Prog A) (Q : A -> CapacityView -> Prop) g :
  rolloutComplete g -> only_calls no_cpms p -> (forall a g', Q a g') -> wp control_plane_first p Q g.
Proof.
  intros Hg Hp HQ. revert g Hg. unfold only_calls in Hp. induction p as [a|c k IH]; intros g Hg; cbn [wp] in *; [apply HQ|].
  destruct Hp as [Hc Hk]. split; [by destruct c; cbn; auto|]. intros r _. apply IH; [by apply Hk|]. by destruct c.
Qed.

(** A loop whose every iteration may be followed by anything. *)
Lemma wp_m_until_any {G} (O : Observer G) {X V R} (l : list X) (v : V) (body : V -> X -> M (V + R)) (Q : St * result (V + R) -> G -> Prop) s g :
  (forall r g', Q r g') ->
  (forall v x s g (Q' : St * result (V + R) -> G -> Prop), (forall r g', Q' r g') -> wp O (body v x s) Q' g) ->
  wp O (m_until l v body s) Q g.
Proof.
  intros HQ Hb. revert v s g. induction l as [|x l IH]; intros v s g; cbn [m_until]; [apply HQ|].
  apply wp_m_bind, Hb. intros [s' [[v'|r]|e]] g'; [apply IH|apply HQ..].
Qed.

Section ControlPlaneFirst.
Context `{ProviderCodec}.

Lemma no_cpms_Check ctx : only_calls no_cpms (Check ctx).
Proof. unfold Check, checkPermission. only_auto; done. Qed.
Hint Resolve no_cpms_Check : calls.

Lemma no_cpms_retry n fn s : (forall s', only_calls no_cpms (fn s')) -> only_calls no_cpms (retryOnConflict n fn s).
Proof. intros Hf. revert s. induction n as [|n IH]; intros s; cbn [retryOnConflict]; [done|]. only_auto; done. Qed.

Lemma no_cpms_persist s : only_calls no_cpms (persistWorkerMachineSetNames s).
Proof.
  unfold persistWorkerMachineSetNames, RetryOnConflict. only_auto. apply no_cpms_retry. intros ?.
  unfold persistNamesOnce. only_auto; done.
Qed.
Hint Resolve no_cpms_persist : calls.

Lemma no_cpms_recover l i ms fds s : only_calls no_cpms (recoverUnrecordedDestinationNames l i ms fds s).
Proof.
  unfold recoverUnrecordedDestinationNames, matchedSources, extractFor, resolveWorkerMachineSetName, expectedDestinationNames,
    derivePerSourceNames, classifyDestinationLayout, suffixedCopyExists, recoverNames, GetMachineSet, extractFor. only_auto; done.
Qed.
Hint Resolve no_cpms_recover : calls.

Lemma no_cpms_scaleDown ctx l srv i s : only_calls no_cpms (scaleDownSourceMachineSets ctx l srv i s).
Proof.
  unfold scaleDownSourceMachineSets, GetInfrastructure, ScaleMachineSet, progressing, setCondition, Eventf. only_auto; done.
Qed.

Lemma no_cpms_finish ctx l srv s : only_calls no_cpms (finishSourceWorkers ctx l srv s).
Proof.
  unfold finishSourceWorkers, oldMachinesAndNodesDeleted, CheckMachinesDeleted,
    oldWorkerStallDetail, stalledEntry, recordStall, CheckNodesDeletedForMachines, DeleteMachineSetsByVCenter, DeleteMachineSet, GetMachineSetsByVCenter, ListMachineSets,
    ListMachinesForMachineSet, machinesetSelectorLabel, progressing, setCondition, Eventf. only_auto; done.
Qed.

(** A step that takes no capacity away, whatever was read before. *)
Lemma wp_quiet_step {A B} (m : M A) (f : A -> M B) (Q : St * result B -> CapacityView -> Prop) s g :
  quietM m -> (forall s' e g', Q (s', Err e) g') -> (forall a s' g', wp control_plane_first (f a s') Q g') ->
  wp control_plane_first (m_bind m f s) Q g.
Proof. intros Hm He Hf. apply wp_m_bind, wp_quiet_capacity; [done|]. intros [s' [a|e]] g'; auto. Qed.

Lemma wp_rollout ctx s g : wp control_plane_first (ensureWorkloadMigratedRolloutAndScaleDown ctx s) (fun _ _ => True) g.
Proof.
  unfold ensureWorkloadMigratedRolloutAndScaleDown.
  do 5 (apply wp_quiet_step; [quiet_auto|done|intros ? ? ?]).
  apply wp_quiet_step; [quiet_auto|done|]. intros [[seen_gen gen] obs] s5 g5.
  destruct seen_gen; cbn [negb]; [|apply wp_quiet_capacity; [quiet_auto|done]].
  apply wp_m_bind, wp_lift, wp_wrapping. unfold CheckControlPlaneRolloutStatus, GetControlPlaneMachineSet. repeat wp_step; [done|].
  intros [cpms|e] _; [|done]. cbn [wrapf upd control_plane_first capacity_next wp of_result].
  destruct (rolloutOf cpms) as [ro|] eqn:Hro; [|done]. cbn [wrapf].
  destruct (Complete ro) eqn:Hc; cbn [negb]; [|apply wp_quiet_capacity; [quiet_auto|done]].
  apply wp_after_rollout; [exists cpms; split; [done|]; pose proof (rolloutOf_complete cpms) as Hr; rewrite Hro in Hr; by apply Hr| |done].
  unfold GetMachineSetsByVCenter, ListMachineSets. only_auto; try done; [apply no_cpms_scaleDown|apply no_cpms_finish].
Qed.

(** Marking an aggregate keeps its replicas. *)
Lemma wp_annotate ctx name (Q : result unit -> CapacityView -> Prop) g :
  (forall r g', Q r g') -> wp control_plane_first (AnnotateMachineSetLegacyAggregate ctx name) Q g.
Proof.
  intros HQ. unfold AnnotateMachineSetLegacyAggregate, GetMachineSet. repeat wp_step; [done|].
  intros [old|e] _; [|apply HQ]. cbn [wrapf upd control_plane_first capacity_next]. repeat wp_step; [apply HQ|].
  apply wp_Check; [done..|]. intros [[]|e]; [|apply HQ]. repeat wp_step; [right; by exists old|].
  intros [x|e] _; apply HQ.
Qed.

Lemma wp_targetNames ctx m fd sourceFD base recorded s (Q : St * result (option (list string * gmap string MachineSet)) -> CapacityView -> Prop) g :
  (forall r g', Q r g') -> wp control_plane_first (targetNamesFor ctx m fd sourceFD base recorded s) Q g.
Proof.
  intros HQ. unfold targetNamesFor. apply wp_quiet_step; [quiet_auto|intros; apply HQ|]. intros l s1 g1. cbv zeta.
  destruct (_ && _); [apply HQ|]. apply wp_quiet_step; [quiet_auto|intros; apply HQ|]. intros [names []] s2 g2; [|apply HQ].
  apply wp_m_bind, wp_lift, wp_annotate. intros [[]|e] g3; [|apply HQ]. apply wp_quiet_capacity; [quiet_auto|done].
Qed.

Lemma wp_targetsExist ctx infraID mappings infraFDs s (Q : St * result bool -> CapacityView -> Prop) g :
  (forall r g', Q r g') -> wp control_plane_first (targetMachineSetsExist ctx infraID mappings infraFDs s) Q g.
Proof.
  intros HQ. unfold targetMachineSetsExist. apply wp_quiet_step; [quiet_auto|intros; apply HQ|]. intros migration s1 g1. cbv zeta.
  apply wp_m_bind, wp_m_until_any; [by intros [s2 [[]|]] g2; apply HQ|]. clear. intros _ m s g Q HQ.
  destruct (findFailureDomainByName _ (Destination m)) as [fd|]; [|apply HQ].
  apply wp_quiet_step; [quiet_auto|intros; apply HQ|]. intros base s2 g2. apply wp_m_bind.
  assert (forall s3 r g3, wp control_plane_first (match r with
      | Some (targetNames, sourceForName) => lift (checkTargetNames targetNames fd sourceForName)
      | None => ret (inl tt) end s3) Q g3) as Hcheck.
  { intros s3 [[names sources]|] g3; [apply wp_quiet_capacity; [unfold checkTargetNames; quiet_auto|done]|apply HQ]. }
  destruct (findFailureDomainByName infraFDs (Source m)); [|apply Hcheck].
  apply wp_targetNames. intros [s3 [r|e]] g3; [apply Hcheck|apply HQ].
Qed.

Lemma only_createMapped ctx i ms fds s : only_calls (fun c => reshapes c = false) (createMappedWorkerMachineSets ctx i ms fds s).
Proof. repeat first [only_step | lazymatch goal with |- only_calls _ ?p => unfold_head p end]. Qed.

Lemma only_ensureCPMSUpdated ctx names s : only_calls (fun c => reshapes c = false) (ensureCPMSUpdated ctx names s).
Proof. repeat first [only_step | lazymatch goal with |- only_calls _ ?p => unfold_head p end]. Qed.

(** The whole handler. *)
Lemma wp_ensureWorkloadMigrated ctx s g : wp control_plane_first (ensureWorkloadMigrated ctx s) (fun _ _ => True) g.
Proof.
  unfold ensureWorkloadMigrated. apply wp_quiet_step; [quiet_auto|done|]. intros migration s1 g1. cbv zeta.
  destruct (length (FailureDomains (mig_Spec migration)) =? 0)%nat; [done|].
  do 2 (apply wp_quiet_step; [quiet_auto|done|intros ? ? ?]).
  destruct (String.eqb _ ""); [done|].
  do 2 (apply wp_quiet_step; [quiet_auto|done|intros ? ? ?]).
  destruct (isConfiguredDestination _ _); [done|]. apply wp_quiet_step; [quiet_auto|done|intros ? ? ?].
  apply wp_m_bind, wp_targetsExist. intros [s2 [[]|e]] g2; cbn [negb]; [| |done].
  - do 2 (apply wp_quiet_step; [quiet_auto|done|intros ? ? ?]). destruct (_ && _); [apply wp_quiet_capacity; [quiet_auto|done]|].
    apply wp_quiet_step; [quiet_auto|done|intros readiness ? ?].
    destruct (wr_Ready readiness); cbn [negb]; [|apply wp_quiet_capacity; [quiet_auto|done]].
    apply wp_quiet_step; [quiet_auto|done|intros [] ? ?]; [apply wp_rollout|].
    apply wp_not_reshaping; [apply only_ensureCPMSUpdated|done].
  - apply wp_not_reshaping; [apply only_createMapped|done].
Qed.

End ControlPlaneFirst.
