(* ===== verification/SourceCleanup.v ===== *)
(** * Removing the source vCenter (internal/controller)

    The handler of SourceCleaned: bind the cleanup to one source vCenter, remove it from the
    Infrastructure, the cloud-provider-config and the credentials, restart the vSphere pods
    and write the installer metadata. *)

From S2P Require Import Prelude GoErrors Objects Types Effects Execution Metrics Status Infrastructure Codec Machines Operators Mapping Destinations Netip VSphere Probe Metadata Preflight Destination.
Import GoStr.

(** The server to clean up: the recorded one, else the first vCenter of the Infrastructure,
    which must not be a destination unless the latest status names the source. *)
Definition resolveSource (infra : Infrastructure) : M string :=
  let@ migration := get_mig in
  let recorded := SourceVCenter (mig_Status migration) in
  if negb (String.eqb recorded "") then ret recorded
  else
    match infra_VSphere infra with
    | Some (MkVSpherePlatform (vc :: _) _) =>
        let server := vc_Server vc in
        let@ sourceServer :=
          (if isConfiguredDestination migration server then
             let@ latest := lift (wrapping "getting migration to recover source vCenter identity: %w" []
                                    (do_call (CGetMigration true (mig_Namespace migration) (mig_Name migration)))) in
             let found := SourceVCenter (mig_Status latest) in
             if String.eqb found ""
             then throw (Errorf "refusing to clean up %q: server is a configured destination failure domain and no source is recorded in status" [FS server])
             else ret found
           else ret server) in
        let@ _ := m_wrapping "persisting source vCenter identity: %w" [] (persistSourceVCenter sourceServer) in
        ret sourceServer
    | _ => throw (Errorf "determining source vCenter: no vCenters configured in infrastructure and none recorded in status" [])
    end.

(** The credentials of the destinations, from the target secret or from vsphere-creds. *)
Definition metadataCredentials (migration : Migration) : IO (gmap string string) :=
  io_fold (FailureDomains (mig_Spec migration)) ∅ (fun creds fd =>
    match creds !! fd_Server fd with
    | Some _ => ok creds
    | None =>
        let! r := try (getTargetCredentials migration (fd_Server fd)) in
        let! (username, password) :=
          (match r with
           | Ok c => ok c
           | Err _ => wrapping "getting credentials for metadata for %s: %w" [FS (fd_Server fd)] (GetCredentials (fd_Server fd))
           end) in
        ok (<[fd_Server fd := Sprintf "%s:%s" [RStr username; RStr password]]> creds)
    end).

Section SourceCleanup.
Context `{CloudCodec}.

(** Everything after the source is bound. *)
Definition cleanSource (ctx : Ctx) (migration : Migration) (infra : Infrastructure) (sourceServer : string) : M Result :=
  let condType := ConditionSourceCleaned in
  let@ _ := progressing condType "Removing source vCenter from Infrastructure" in
  let@ _ := lift (wrapping "removing source vCenter from infrastructure: %w" [] (RemoveSourceVCenter ctx infra sourceServer)) in
  let@ _ := progressing condType "Removing source vCenter from cloud-provider-config" in
  let@ cm := lift (wrapping "getting cloud-provider-config: %w" [] GetCloudProviderConfig) in
  let@ _ := lift (wrapping "removing source vCenter from cloud-provider-config: %w" [] (RemoveSourceVCenterFromConfig ctx cm sourceServer)) in
  let@ _ := progressing condType "Removing source credentials from vsphere-creds" in
  let@ credsSecret := lift (wrapping "getting vsphere-creds secret: %w" [] GetVSphereCredsSecret) in
  let@ _ := lift (wrapping "removing source credentials: %w" [] (RemoveSourceVCenterCreds ctx credsSecret sourceServer)) in
  let@ _ := progressing condType "Restarting vSphere pods after source removal" in
  let@ _ := lift (wrapping "restarting vSphere pods: %w" [] (RestartVSpherePods ctx)) in
  let@ _ := progressing condType "Generating migration metadata" in
  let@ infra := lift (wrapping "getting infrastructure for metadata: %w" [] GetInfrastructure) in
  let@ creds := lift (metadataCredentials migration) in
  let@ md := lift (of_result (wrapf "generating metadata: %w" [] (GenerateMetadata (FailureDomains (mig_Spec migration)) infra creds))) in
  let@ _ := lift (wrapping "saving metadata: %w" [] (SaveToSecret ctx md (mig_Namespace migration) (GetMetadataSecretName (mig_Name migration)))) in
  let@ _ := setCondition condType ConditionTrue ReasonCompleted "Source vCenter cleaned" in
  let@ _ := Eventf "Normal" condType "Source vCenter removed from cluster configuration" [] in
  ret done_result.

Definition ensureSourceCleaned (ctx : Ctx) : M Result :=
  let@ _ := progressing ConditionSourceCleaned "Cleaning up source vCenter" in
  let@ migration := get_mig in
  let@ infra := lift (wrapping "getting infrastructure: %w" [] GetInfrastructure) in
  let@ sourceServer := resolveSource infra in
  if isConfiguredDestination migration sourceServer
  then throw (Errorf "refusing to clean up %q: server is a configured destination failure domain" [FS sourceServer])
  else cleanSource ctx migration infra sourceServer.

End SourceCleanup.

(** ** The gate *)

Section Gate.
Context `{CloudCodec} (m0 m : Migration) (ctx : Ctx) (Hctx : ctx_check ctx = Some m) (Hm : same_identity m m0).
Lemma quiet_metadataCredentials mig : quiet (metadataCredentials mig).
Proof. unfold metadataCredentials. quiet_auto. Qed.
Lemma quietM_resolveSource i : quietM (resolveSource i).
Proof. unfold resolveSource. quiet_auto. Qed.
Hint Resolve quiet_metadataCredentials quietM_resolveSource : quiet.
Lemma gatedM_cleanSource mig i s : gatedM m0 (cleanSource ctx mig i s).
Proof. unfold cleanSource. gate_auto. Qed.
Hint Resolve gatedM_cleanSource : gated.
Lemma gatedM_SourceCleaned : gatedM m0 (ensureSourceCleaned ctx).
Proof. unfold ensureSourceCleaned. gate_auto. Qed.
End Gate.
#[export] Hint Resolve gatedM_SourceCleaned : gated.

(** ** What the cleanup leaves in place *)

(** The objects last read: the Infrastructure, the cloud-provider-config and vsphere-creds. *)
Record Read := MkRead { rd_Infra : option Infrastructure; rd_Config : option ConfigMap; rd_Creds : option Secret }.

Definition read_next (g : Read) (c : call) : resp c -> Read :=
  match c with
  | CGetInfrastructure => fun r => match r with Ok i => MkRead (Some i) (rd_Config g) (rd_Creds g) | Err _ => g end
  | CGetConfigMap _ _ => fun r => match r with Ok cm => MkRead (rd_Infra g) (Some cm) (rd_Creds g) | Err _ => g end
  | CGetSecret ns n => fun r =>
      match r with
      | Ok s => if String.eqb ns VSphereCredsSecretNamespace && String.eqb n VSphereCredsSecretName
                then MkRead (rd_Infra g) (rd_Config g) (Some s) else g
      | Err _ => g
      end
  | _ => fun _ => g
  end.

(** The submitted Infrastructure is the one read with entries taken out, none of a
    destination; likewise the cloud configuration and the credentials.  A secret written
    otherwise holds nothing but metadata. *)
Definition sparesInfra (m : Migration) (base i : Infrastructure) : Prop :=
  exists v v', infra_VSphere base = Some v /\ i = infra_set_VSphere base v' /\
    vp_VCenters v' `sublist_of` vp_VCenters v /\ vp_FailureDomains v' `sublist_of` vp_FailureDomains v /\
    (forall vc, vc ∈ vp_VCenters v -> isConfiguredDestination m (vc_Server vc) = true -> vc ∈ vp_VCenters v') /\
    (forall fd, fd ∈ vp_FailureDomains v -> isConfiguredDestination m (fd_Server fd) = true -> fd ∈ vp_FailureDomains v').

Definition sparesConfig `{CloudCodec} (m : Migration) (base cm : ConfigMap) : Prop :=
  exists cfg cfg' data, parseCloudProviderConfig base = Ok cfg /\ MarshalYAML cfg' = Ok data /\
    cm_Data cm = <[cloudProviderConfigKey := data]> (cm_Data base) /\
    forall server, isConfiguredDestination m server = true -> cc_Vcenter cfg' !! server = cc_Vcenter cfg !! server.

Definition sparesCreds (m : Migration) (base s : Secret) : Prop :=
  s_Name s = s_Name base /\
  forall server, isConfiguredDestination m server = true ->
    forall ns n, credsIn (s_Data s) ns n server = credsIn (s_Data base) ns n server.

Definition spares `{CloudCodec} (m : Migration) : Observer Read :=
  MkObserver (fun g c =>
    match c with
    | CUpdateInfrastructure i => exists base, rd_Infra g = Some base /\ sparesInfra m base i
    | CUpdateConfigMap _ cm => exists base, rd_Config g = Some base /\ sparesConfig m base cm
    | CUpdateSecret ns s => (ns = mig_Namespace m /\ exists md, s_Data s = metadataData md) \/ (exists base, rd_Creds g = Some base /\ sparesCreds m base s)
    | _ => True
    end) read_next (fun _ _ _ => True).

Section Spares.
Context `{CloudCodec} (m : Migration) (server : string) (Hserver : isConfiguredDestination m server = false).

Lemma other_server u : isConfiguredDestination m u = true -> u <> server.
Proof. intros Hu ->. congruence. Qed.

Lemma withoutSource_spares base v :
  infra_VSphere base = Some v -> sparesInfra m base (infra_set_VSphere base (withoutSource v server)).
Proof.
  intros Hv. exists v, (withoutSource v server). unfold withoutSource; cbn.
  split_and!; [done|done|apply sublist_filter|apply sublist_filter| |];
    intros x Hx Hd%other_server; by apply list_elem_of_filter.
Qed.

Lemma withoutCreds_spares base : sparesCreds m base (s_set_Data base (withoutCreds (s_Data base) server)).
Proof.
  split; [done|]. intros u Hu%other_server ns n. unfold credsIn, withoutCreds; cbn.
  rewrite !lookup_delete_ne; try done; auto using username_password_ne, usernameKey_ne, passwordKey_ne, not_eq_sym.
Qed.

End Spares.

(** *** The run *)

Ltac ignored_auto := unfold progressing, setCondition, Eventf; only_auto; by split.

Section SparesRun.
Context `{CloudCodec} (m : Migration).

Lemma ignored_Check ctx : only_calls (ignored (spares m)) (Check ctx).
Proof. unfold Check, checkPermission. ignored_auto. Qed.
Lemma ignored_progressing t msg s : only_calls (ignored (spares m)) (progressing t msg s).
Proof. ignored_auto. Qed.
Lemma ignored_resolveSource i s : only_calls (ignored (spares m)) (resolveSource i s).
Proof.
  assert (forall n fn s, (forall s, only_calls (ignored (spares m)) (fn s)) -> only_calls (ignored (spares m)) (retryOnConflict n fn s)) as Hr.
  { intros n fn. induction n as [|n IH]; intros s' Hf; cbn [retryOnConflict]; [done|].
    apply only_m_bind; [by apply only_m_try|]. intros [] s''; [done|]. destruct (IsConflict e); [by apply IH|done]. }
  unfold resolveSource, persistSourceVCenter, RetryOnConflict. only_auto; try by split.
  apply Hr. intros st. unfold persistSourceVCenterOnce. only_auto; by split.
Qed.
Lemma ignored_pods ctx : only_calls (ignored (spares m)) (RestartVSpherePods ctx).
Proof.
  unfold RestartVSpherePods, DeletePodsByLabel, deletePods. only_auto; try by split. all: apply ignored_Check.
Qed.

(** Steps that read and write none of the three objects. *)
Lemma wp_spares_skip {A B} (p : M A) (f : A -> M B) (Q : St * result B -> Read -> Prop) s g :
  only_calls (ignored (spares m)) (p s) -> (forall s' e, Q (s', Err e) g) -> (forall a s', wp (spares m) (f a s') Q g) ->
  wp (spares m) (m_bind p f s) Q g.
Proof. intros Hp He Hf. apply wp_m_bind, wp_ignored; [done|]. intros [s' [a|e]]; [apply Hf|apply He]. Qed.

Lemma reads_pass g c : mutating c = false -> pre (spares m) g c.
Proof. by destruct c. Qed.

Lemma wp_ignored_Check ctx (Q : result unit -> Read -> Prop) g : (forall r, Q r g) -> wp (spares m) (Check ctx) Q g.
Proof. intros HQ. apply wp_ignored; [apply ignored_Check|done]. Qed.

Lemma wp_removeInfra ctx infra server g :
  isConfiguredDestination m server = false -> rd_Infra g = Some infra ->
  wp (spares m) (RemoveSourceVCenter ctx infra server) (fun _ g' => g' = g) g.
Proof.
  intros Hserver Hg. unfold RemoveSourceVCenter. destruct (infra_VSphere infra) as [v|] eqn:Hv; [|done].
  destruct (onlyVCenter v server); [done|]. apply wp_io_bind, wp_ignored_Check. intros [u|e]; [|done]. apply wp_wrapping, wp_call; [|done].
  exists infra. split; [done|]. by apply withoutSource_spares.
Qed.

Lemma wp_removeConfig ctx cm server g :
  isConfiguredDestination m server = false -> rd_Config g = Some cm ->
  wp (spares m) (RemoveSourceVCenterFromConfig ctx cm server) (fun _ g' => g' = g) g.
Proof.
  intros Hserver Hg. unfold RemoveSourceVCenterFromConfig, marshalAndUpdateConfig. apply wp_io_bind. cbn [wp of_result].
  destruct (parseCloudProviderConfig cm) as [cfg|] eqn:Hcfg; [|done]. apply wp_wrapping, wp_io_bind. cbn [wp of_result].
  destruct (MarshalYAML _) as [data|] eqn:Hdata; cbn [wrapf]; [|done]. cbv zeta.
  apply wp_io_bind, wp_ignored_Check. intros [u|e]; [|done]. apply wp_wrapping, wp_call; [|done].
  exists cm. split; [done|]. do 3 eexists. split_and!; [done..|]. intros u0 Hu%(other_server m server Hserver). cbn.
  by rewrite lookup_delete_ne.
Qed.

Lemma wp_removeCreds ctx secret server g :
  isConfiguredDestination m server = false -> rd_Creds g = Some secret ->
  wp (spares m) (RemoveSourceVCenterCreds ctx secret server) (fun _ g' => g' = g) g.
Proof.
  intros Hserver Hg. unfold RemoveSourceVCenterCreds. apply wp_io_bind, wp_ignored_Check. intros [u|e]; [|done].
  apply wp_wrapping, wp_call; [|done]. right. exists secret. split; [done|]. by apply withoutCreds_spares.
Qed.

Lemma wp_saveMetadata ctx md n g : wp (spares m) (SaveToSecret ctx md (mig_Namespace m) n) (fun _ _ => True) g.
Proof.
  unfold SaveToSecret. apply wp_io_bind, wp_try, wp_call; [done|]. intros [existing|e] _.
  - apply wp_io_bind, wp_ignored_Check. intros [u|e]; [|done]. apply wp_io_bind, wp_wrapping, wp_call; [|by intros []].
    left. split; [done|]. by exists md.
  - destruct (IsNotFound e); [|done]. apply wp_io_bind, wp_ignored_Check. intros [u|e']; [|done].
    apply wp_io_bind, wp_wrapping, wp_call; [done|by intros []].
Qed.

(** One fallible call of the handler: its reads and writes, then the rest. *)
Lemma wp_step_io {A B} fmt (p : IO A) (f : A -> M B) (I : Read -> Prop) s g :
  wp (spares m) p (fun r g' => is_ok r = true -> I g') g ->
  (forall a s' g', I g' -> wp (spares m) (f a s') (fun _ _ => True) g') ->
  wp (spares m) (m_bind (lift (wrapping fmt [] p)) f s) (fun _ _ => True) g.
Proof.
  intros Hp Hf. apply wp_m_bind, wp_lift, wp_wrapping. eapply wp_mono; [|exact Hp]. intros [a|e] g' Hg'; [|done].
  cbn [wrapf]. by apply Hf, Hg'.
Qed.

Lemma wp_cleanSource ctx mig infra server s g :
  mig_Namespace mig = mig_Namespace m -> isConfiguredDestination m server = false -> rd_Infra g = Some infra ->
  wp (spares m) (cleanSource ctx mig infra server s) (fun _ _ => True) g.
Proof.
  intros Hns Hserver Hg. unfold cleanSource. rewrite Hns.
  apply wp_spares_skip; [apply ignored_progressing|done|intros _ s1].
  apply (wp_step_io _ _ _ (fun _ => True)); [by eapply wp_mono; [|apply wp_removeInfra]|intros _ s2 g2 _].
  apply wp_spares_skip; [apply ignored_progressing|done|intros _ s3].
  apply wp_m_bind, wp_lift, wp_wrapping, wp_wrapping, wp_call; [done|]. intros [cm|e] _; [|done]. cbn [wrapf].
  apply (wp_step_io _ _ _ (fun _ => True)); [by eapply wp_mono; [|apply wp_removeConfig]|intros _ s4 g4 _].
  apply wp_spares_skip; [apply ignored_progressing|done|intros _ s5].
  apply wp_m_bind, wp_lift, wp_wrapping, wp_wrapping, wp_call; [done|]. intros [secret|e] _; [|done]. cbn [wrapf].
  apply (wp_step_io _ _ _ (fun _ => True)); [by eapply wp_mono; [|apply wp_removeCreds]|intros _ s6 g6 _].
  apply wp_spares_skip; [apply ignored_progressing|done|intros _ s7].
  apply wp_spares_skip; [apply only_lift, only_wrapping, ignored_pods|done|intros _ s8].
  apply wp_spares_skip; [apply ignored_progressing|done|intros _ s9].
  apply wp_m_bind, wp_quietM; [quiet_auto|apply reads_pass|]. intros [s10 [i|e]] g10; [|done].
  apply wp_m_bind, wp_quietM; [apply quietM_lift, quiet_metadataCredentials|apply reads_pass|]. intros [s11 [creds|e]] g11; [|done].
  apply wp_m_bind, wp_quietM; [quiet_auto|apply reads_pass|]. intros [s12 [md|e]] g12; [|done].
  apply (wp_step_io _ _ _ (fun _ => True)); [by eapply wp_mono; [|apply wp_saveMetadata]|intros _ s13 g13 _].
  apply wp_quietM; [unfold Eventf; quiet_auto|apply reads_pass|done].
Qed.

End SparesRun.

(** C6: Source cleanup takes nothing away from the destinations.  In every run of the handler,
    whatever the services answer, each write of the Infrastructure, of the cloud configuration
    and of the credentials is the object as last read with entries taken out, and every
    vCenter, failure domain, configuration entry and credential of a server that is a
    configured destination is still in it. *)
Theorem source_cleanup_spares_destinations `{CloudCodec} {W} (h : W -> forall c, resp c * W) (w : W) (ctx : Ctx) (s : St) :
  observed (spares (st_mig s)) (MkRead None None None) (run h (ensureSourceCleaned ctx s) w).2.
Proof.
  eapply (proj1 (wp_run_all (spares (st_mig s)) h _ (fun _ _ => True) _ w (fun _ _ _ => I) _)). Unshelve.
  unfold ensureSourceCleaned, progressing, setCondition. repeat wp_step; [done|]. intros t _. repeat wp_step.
  unfold GetInfrastructure. repeat wp_step; [done|]. intros [infra|e] _; [|done]. cbn [wrapf].
  apply wp_spares_skip; [apply ignored_resolveSource|done|]. intros server s'.
  destruct (isConfiguredDestination _ server) eqn:Hserver; [done|]. by apply wp_cleanSource.
Qed.
