(* ===== verification/Ready.v ===== *)
(** * The readiness gate (internal/controller)

    The handler of Ready: operators, machine config pools and the Infrastructure are checked,
    and Ready=True is committed only after the checks stayed green over a window of
    observations. *)

From S2P Require Import Prelude GoErrors Objects Types Effects Execution Metrics Status Infrastructure Codec Machines Operators Mapping Destinations Netip VSphere Probe Preflight Destination.
Import GoStr.
Open Scope Z_scope.

Definition readyStabilityThreshold : Z := 6.
Definition readyStabilityCheckGap : Z := seconds 90.
Definition readyStabilityObservationInterval : Z := seconds 30.

Definition set_stability (count : Z) (check counted : option Time) (mem : Mem) : Mem :=
  MkMem (lastStallEventKey mem) (lastStallEventTime mem) count check counted.

Definition resetReadyStability : M unit :=
  modify (with_mem (fun mem => set_stability 0 (lastReadyStabilityCheck mem) None mem)).

(** The window restarts when the previous check is too old; the check time is recorded. *)
Definition beginCheck : M unit :=
  let@ st := get in
  let@ _ := (match lastReadyStabilityCheck (st_mem st) with
             | None => ret tt
             | Some last =>
                 let@ t := now in
                 if readyStabilityCheckGap <? t - last then resetReadyStability else ret tt
             end) in
  let@ t := now in
  modify (with_mem (fun mem => set_stability (readyStabilityCount mem) (Some t) (lastCountedStabilityCheck mem) mem)).

(** A failed check is not a stable observation. *)
Definition orReset {A} (format : string) (p : IO A) : M A :=
  let@ r := lift (try p) in
  match r with
  | Ok a => ret a
  | Err e =>
      let@ _ := resetReadyStability in
      throw (Errorf format [FE e])
  end.

(** The first vCenter of the Infrastructure that no destination uses, or "". *)
Definition nonTargetVCenter (migration : Migration) (infra : Infrastructure) : string :=
  match infra_VSphere infra with
  | None => ""
  | Some v =>
      match List.find (fun vc => negb (isConfiguredDestination migration (vc_Server vc))) (vp_VCenters v) with
      | Some vc => vc_Server vc
      | None => ""
      end
  end.

Definition blockerOf (format : string) (names : list string) : list string :=
  if (0 <? length names)%nat then [Sprintf format [RStr (Join names ", ")]] else [].

Definition readyBlockers (stable : bool) (summary : OperatorStabilitySummary) (converged : bool) (pools : PoolConvergenceSummary)
    (nonTargetVC : string) : list string :=
  (if negb stable then blockerOf "unavailable=%s" (UnavailableOperators summary) ++ blockerOf "progressing=%s" (ProgressingOperators summary) ++
                       blockerOf "degraded=%s" (DegradedOperators summary) else []) ++
  (if negb converged then blockerOf "pools-not-updated=%s" (NotUpdatedPools pools) ++ blockerOf "pools-degraded=%s" (DegradedPools pools) else []) ++
  (if negb (String.eqb nonTargetVC "") then [Sprintf "non-target vCenter %q still present in Infrastructure" [RStr nonTargetVC]] else []).

(** A stable observation counts when the last counted one is old enough. *)
Definition countObservation : M unit :=
  let@ st := get in
  let@ due := (match lastCountedStabilityCheck (st_mem st) with
               | None => ret true
               | Some last => let@ t := now in ret (readyStabilityObservationInterval <=? t - last)
               end) in
  if (due : bool) then
    let@ t := now in
    modify (with_mem (fun mem => set_stability (readyStabilityCount mem + 1) (lastReadyStabilityCheck mem) (Some t) mem))
  else ret tt.

(** A run without blockers: Ready is committed once enough observations were counted. *)
Definition conclude : M Result :=
  let condType := ConditionReady in
  let@ _ := countObservation in
  let@ st := get in
  let count := readyStabilityCount (st_mem st) in
  if count <? readyStabilityThreshold then
    let@ _ := progressing condType (Sprintf "Waiting for sustained cluster stability (%d/%d)" [RInt count; RInt readyStabilityThreshold]) in
    ret (RequeueAfter 30)
  else
    let@ t := now in
    let@ _ := modify_status (fun s => set_Completion (Some t) (CompletionSpecHash s) s) in
    let@ _ := setCondition condType ConditionTrue ReasonCompleted "Migration complete, all operators healthy and node pools converged" in
    let@ _ := Eventf "Normal" "MigrationComplete" "Migration completed successfully" [] in
    ret done_result.

Definition ensureReady (ctx : Ctx) : M Result :=
  let condType := ConditionReady in
  let@ _ := beginCheck in
  let@ _ := progressing condType "Verifying final cluster state" in
  let@ (stable, summary) := orReset "checking operator stability: %w" CheckAllOperatorsStable in
  let@ (converged, pools) := orReset "checking machine config pool convergence: %w" CheckPoolsConverged in
  let@ infra := orReset "getting infrastructure for readiness check: %w" GetInfrastructure in
  let@ migration := get_mig in
  let blockers := readyBlockers stable summary converged pools (nonTargetVCenter migration infra) in
  if (0 <? length blockers)%nat then
    let@ _ := resetReadyStability in
    let@ _ := progressing condType (Sprintf "Migration not ready: %s" [RStr (Join blockers "; ")]) in
    ret (RequeueAfter 30)
  else
    conclude.

Lemma quietM_ensureReady ctx : quietM (ensureReady ctx).
Proof. unfold ensureReady, conclude, beginCheck, orReset, resetReadyStability, countObservation. quiet_auto. Qed.
#[export] Hint Resolve quietM_ensureReady : quiet.


(** ** What a stable observation is *)

Definition operatorSettled (co : ClusterOperator) : Prop :=
  getOperatorConditionStatus co OperatorAvailable = Some ConditionTrue /\
  getOperatorConditionStatus co OperatorProgressing = Some ConditionFalse /\
  getOperatorConditionStatus co OperatorDegraded = Some ConditionFalse.

Lemma statusIsNot_false co t want : statusIsNot co t want = false <-> getOperatorConditionStatus co t = Some want.
Proof.
  unfold statusIsNot. destruct (getOperatorConditionStatus co t) as [s|]; [|done].
  rewrite negb_false_iff, String.eqb_eq. naive_solver.
Qed.

(** A list of names is empty exactly when nothing was filtered into it. *)
Lemma names_nil {X} (P : X -> Prop) `{forall x, Decision (P x)} (f : X -> string) l :
  length (f <$> filter P l) = 0%nat <-> Forall (fun x => ~ P x) l.
Proof.
  rewrite length_fmap, length_zero_iff_nil. induction l as [|x l IH]; [done|].
  rewrite filter_cons, Forall_cons. case_decide; [by split; [|intros []]|]. rewrite IH. tauto.
Qed.

(** The summary is stable exactly when every watched operator is settled. *)
Lemma isStable_settled operators :
  isStable (stabilityOf operators) = true <->
  Forall operatorSettled (filter (fun co => ContainsStr ExcludedOperators (co_Name co) = false) operators).
Proof.
  unfold isStable, stabilityOf; cbn [UnavailableOperators ProgressingOperators DegradedOperators].
  generalize (filter (fun co => ContainsStr ExcludedOperators (co_Name co) = false) operators) as watched; intros watched.
  rewrite !andb_true_iff, !Nat.eqb_eq, !names_nil.
  unfold operatorSettled. rewrite !Forall_and.
  setoid_rewrite not_true_iff_false. setoid_rewrite statusIsNot_false. tauto.
Qed.

Definition poolSettled (pool : MachineConfigPool) : Prop := poolDegraded pool = false /\ poolNotUpdated pool = false.

Lemma poolSummary_settled pools :
  (length (NotUpdatedPools (poolSummary pools)) =? 0)%nat && (length (DegradedPools (poolSummary pools)) =? 0)%nat = true <->
  Forall poolSettled pools.
Proof.
  unfold poolSummary, poolSettled; cbn [NotUpdatedPools DegradedPools].
  rewrite andb_true_iff, !Nat.eqb_eq, !names_nil, <- Forall_and. apply Forall_iff. intros p.
  destruct (poolDegraded p), (poolNotUpdated p); intuition congruence.
Qed.

(** Every named vCenter of the Infrastructure is a destination; the check stops at the first
    stranger, so an unnamed entry would hide the ones behind it. *)
Definition onlyDestinations (migration : Migration) (infra : Infrastructure) : Prop :=
  forall v, infra_VSphere infra = Some v -> Forall (fun vc => vc_Server vc <> "") (vp_VCenters v) ->
    Forall (fun vc => isConfiguredDestination migration (vc_Server vc) = true) (vp_VCenters v).

Lemma nonTargetVCenter_none migration infra : nonTargetVCenter migration infra = "" -> onlyDestinations migration infra.
Proof.
  unfold nonTargetVCenter, onlyDestinations. intros Hn v Hv Hnamed. rewrite Hv in Hn.
  rewrite List.Forall_forall in Hnamed |- *.
  destruct (List.find _ (vp_VCenters v)) as [vc|] eqn:E.
  - apply find_some in E as [Hin _]. by apply Hnamed in Hin.
  - intros vc Hin. by apply (find_none _ _ E), negb_false_iff in Hin.
Qed.

(** Without blockers, all three checks passed. *)
Lemma readyBlockers_none stable summary converged pools vc :
  (stable = false -> isStable summary = false) ->
  (converged = false -> (length (NotUpdatedPools pools) =? 0)%nat && (length (DegradedPools pools) =? 0)%nat = false) ->
  (0 <? length (readyBlockers stable summary converged pools vc))%nat = false -> stable = true /\ converged = true /\ vc = "".
Proof.
  unfold readyBlockers, isStable, blockerOf. intros Hs Hc Hl. rewrite Nat.ltb_ge in Hl.
  repeat rewrite length_app in Hl. split_and!.
  - destruct stable; [done|]. specialize (Hs eq_refl). destruct (UnavailableOperators summary), (ProgressingOperators summary), (DegradedOperators summary);
      cbn in *; done || lia.
  - destruct converged; [done|]. specialize (Hc eq_refl). destruct (NotUpdatedPools pools), (DegradedPools pools); cbn in *; done || lia.
  - destruct (String.eqb_spec vc ""); [done|]. cbn in Hl. lia.
Qed.

(** The reads of one run show a cluster that has settled on the destinations. *)
Definition green (migration : Migration) (tr : list event_of) : Prop :=
  exists operators pools infra,
    existT CListClusterOperators (Ok operators) ∈ tr /\ existT CListMachineConfigPools (Ok pools) ∈ tr /\
    existT CGetInfrastructure (Ok infra) ∈ tr /\
    Forall operatorSettled (filter (fun co => ContainsStr ExcludedOperators (co_Name co) = false) operators) /\
    Forall poolSettled pools /\ onlyDestinations migration infra.


(** ** One run of the gate *)

(** The clock never goes back (Go's monotonic reading); the observer keeps its latest reading
    and the trace. *)
Definition clocked : Observer (Time * list event_of) :=
  MkObserver (fun _ _ => True)
    (fun g c r => ((match c return resp c -> Time with CNow => fun t => t | _ => fun _ => g.1 end) r, g.2 ++ [existT c r]))
    (fun g c r => (match c return resp c -> Prop with CNow => fun t => g.1 <= t | _ => fun _ => True end) r).

(** The first clock reading of a trace. *)
Fixpoint firstReading (tr : list event_of) : option Time :=
  match tr with
  | [] => None
  | existT c r :: tr' => (match c return resp c -> option Time with CNow => fun t => Some t | _ => fun _ => firstReading tr' end) r
  end.

Definition reads (tr : list event_of) (t : Time) : Prop := existT CNow t ∈ tr.

(** The window was dropped: the counter is back to zero and Ready is not committed. *)
Definition dropped (out : St) : Prop :=
  readyStabilityCount (st_mem out) = 0 /\ lastCountedStabilityCheck (st_mem out) = None /\
  isConditionTrue (st_mig out) ConditionReady = false.

(** A check comes too late when it starts more than the gap after the previous one. *)
Definition late (mem : Mem) (tr : list event_of) : Prop :=
  exists last t, lastReadyStabilityCheck mem = Some last /\ firstReading tr = Some t /\ readyStabilityCheckGap < t - last.

(** The window was continued from [count] and [counted], or started over from none. *)
Definition continued (count : Z) (counted : option Time) (out : St) (tr : list event_of) : Prop :=
  (readyStabilityCount (st_mem out) = count /\ lastCountedStabilityCheck (st_mem out) = counted /\ is_Some counted) \/
  (exists t, readyStabilityCount (st_mem out) = count + 1 /\ lastCountedStabilityCheck (st_mem out) = Some t /\ reads tr t /\
     forall last, counted = Some last -> readyStabilityObservationInterval <= t - last).

Definition advanced (mem : Mem) (migration : Migration) (out : St) (tr : list event_of) : Prop :=
  green migration tr /\
  (exists t, lastReadyStabilityCheck (st_mem out) = Some t /\ reads tr t) /\
  ((late mem tr /\ continued 0 None out tr) \/
   (~ late mem tr /\ continued (readyStabilityCount mem) (lastCountedStabilityCheck mem) out tr)) /\
  (isConditionTrue (st_mig out) ConditionReady = true -> readyStabilityThreshold <= readyStabilityCount (st_mem out)).

Lemma isConditionTrue_set t ty status reason message m :
  isConditionTrue (conditionSet t ty status reason message m) ty = String.eqb status ConditionTrue.
Proof.
  unfold isConditionTrue, conditionSet; cbn.
  destruct (Find_Set_same t (Conditions (mig_Status m)) (MkCondition ty status (mig_Generation m) None reason message)) as (c & Hf & Hs & _).
  cbn in Hf, Hs. by rewrite Hf, Hs.
Qed.

Lemma firstReading_app tr tr' t : firstReading tr = Some t -> firstReading (tr ++ tr') = Some t.
Proof. induction tr as [|[c r] tr IH]; [done|]. destruct c; cbn; auto. Qed.

Lemma reads_app tr tr' t : reads tr t -> reads (tr ++ tr') t.
Proof. unfold reads. rewrite elem_of_app. by left. Qed.

Lemma reads_last tr t : reads (tr ++ [existT CNow t]) t.
Proof. unfold reads. rewrite elem_of_app, list_elem_of_singleton. by right. Qed.
Lemma reads_hd t tr : reads (existT CNow t :: tr) t.
Proof. unfold reads. rewrite elem_of_cons. by left. Qed.
Lemma reads_tl e t tr : reads tr t -> reads (e :: tr) t.
Proof. unfold reads. rewrite elem_of_cons. by right. Qed.
#[local] Hint Resolve firstReading_app reads_app reads_last reads_hd reads_tl : core.

(** The start of a check: its time is recorded, and a late check starts the window over. *)
Lemma wp_beginCheck s clk :
  wp clocked (beginCheck s) (fun '(s', r) g =>
    r = Ok tt /\ st_mig s' = st_mig s /\ (exists t, lastReadyStabilityCheck (st_mem s') = Some t /\ reads g.2 t) /\
    forall tr', (late (st_mem s) (g.2 ++ tr') /\ readyStabilityCount (st_mem s') = 0 /\ lastCountedStabilityCheck (st_mem s') = None) \/
      (~ late (st_mem s) (g.2 ++ tr') /\ readyStabilityCount (st_mem s') = readyStabilityCount (st_mem s) /\
       lastCountedStabilityCheck (st_mem s') = lastCountedStabilityCheck (st_mem s))) (clk, []).
Proof.
  unfold beginCheck, late. repeat wp_step; try done; cbn; intros.
  - repeat wp_step; try done; cbn; intros; unfold resetReadyStability; repeat wp_step; cbn; try done; intros;
      (split_and!; [done..|eexists; split; [done|]; auto|intros tr']); [left; split; [|done]|right; split; [|done]].
    + do 2 eexists; split_and!; [done..|]. by apply Z.ltb_lt.
    + intros (? & ? & ? & ? & ?). simplify_eq. apply Z.ltb_ge in Heqb. lia.
  - split_and!; [done..|eauto|]. intros tr'. right. split; [|done]. by intros (? & ? & ? & _).
Qed.

Lemma wp_countObservation s clk tr :
  wp clocked (countObservation s) (fun '(s', r) g =>
    r = Ok tt /\ st_mig s' = st_mig s /\ lastReadyStabilityCheck (st_mem s') = lastReadyStabilityCheck (st_mem s) /\
    (exists tr', g.2 = tr ++ tr') /\
    continued (readyStabilityCount (st_mem s)) (lastCountedStabilityCheck (st_mem s)) s' g.2) (clk, tr).
Proof.
  unfold countObservation, continued. repeat wp_step; try done; cbn; intros; repeat wp_step; try done; cbn; intros;
    (split_and!; [done..|rewrite <- ?app_assoc; eauto; by exists []|]).
  - right. eexists; split_and!; [done..|eauto|]. intros ? [= <-]. apply Z.leb_le in Heqb. lia.
  - left. rewrite Heqo. eauto.
  - right. eexists; split_and!; [done..|eauto|]. congruence.
Qed.

(** Clock readings and status writes of the gate touch neither the counter nor its times. *)
Lemma wp_clocked_setCondition ty status reason message (Q : St * result unit -> Time * list event_of -> Prop) s clk tr :
  (forall t, clk <= t -> Q (with_mig (conditionSet t ty status reason message) s, Ok tt) (t, tr ++ [existT CNow t])) ->
  wp clocked (setCondition ty status reason message s) Q (clk, tr).
Proof. intros H. unfold setCondition. repeat wp_step; [done|]. intros t Ht. repeat wp_step. by apply H. Qed.

Lemma wp_conclude s clk tr :
  wp clocked (conclude s) (fun '(s', r) g =>
    lastReadyStabilityCheck (st_mem s') = lastReadyStabilityCheck (st_mem s) /\ (exists tr', g.2 = tr ++ tr') /\
    continued (readyStabilityCount (st_mem s)) (lastCountedStabilityCheck (st_mem s)) s' g.2 /\
    (isConditionTrue (st_mig s') ConditionReady = true -> readyStabilityThreshold <= readyStabilityCount (st_mem s'))) (clk, tr).
Proof.
  assert (forall c k s1 s2 t t', continued c k s1 t -> st_mem s2 = st_mem s1 -> continued c k s2 (t ++ t')) as Hmono.
  { unfold continued. intros c k s1 s2 t t' [H|(x & ? & ? & ? & ?)] ->; [by left|right; eauto 10]. }
  unfold conclude. apply wp_m_bind. eapply wp_mono; [|apply wp_countObservation].
  intros [s1 r] [clk1 tr1] (-> & Hm & Hl & [tr2 Htr] & Hc); cbn in Htr; subst tr1.
  repeat wp_step; unfold progressing, Eventf.
  - apply wp_clocked_setCondition. intros t _. cbn [wp]. repeat wp_step; cbn. rewrite <- app_assoc.
    split_and!; [done|eauto|rewrite app_assoc; by eapply Hmono|].
    rewrite isConditionTrue_set. done.
  - done.
  - intros t _. repeat wp_step. apply wp_clocked_setCondition. intros t' _. repeat wp_step; [done|]. intros r _. repeat wp_step. cbn.
    rewrite <- !app_assoc. split_and!; [done|eauto|rewrite app_assoc; by eapply Hmono|].
    intros _. by apply Z.ltb_ge.
Qed.

(** A read of the gate: on success its answer is in the trace, on failure the window is
    dropped. *)
Lemma wp_orReset {A} format (p : IO A) (Q : St * result A -> Time * list event_of -> Prop) s clk tr :
  isConditionTrue (st_mig s) ConditionReady = false ->
  wp clocked p (fun r g => forall a, r = Ok a -> Q (s, Ok a) g) (clk, tr) ->
  (forall s' e g, dropped s' -> Q (s', Err e) g) ->
  wp clocked (orReset format p s) Q (clk, tr).
Proof.
  intros Hr Hp Hd. unfold orReset, resetReadyStability. apply wp_m_bind, wp_lift, wp_try. eapply wp_mono; [|exact Hp].
  intros [a|e] g Hg; repeat wp_step; [by apply Hg|]. by apply Hd.
Qed.

Lemma wp_ensureReady ctx s clk :
  wp clocked (ensureReady ctx s) (fun '(s', _) g => dropped s' \/ advanced (st_mem s) (st_mig s) s' g.2) (clk, []).
Proof.
  unfold ensureReady. apply wp_m_bind. eapply wp_mono; [|apply wp_beginCheck].
  intros [s1 r] [clk1 tr1] (-> & Hm & (t1 & Hl1 & Hr1) & Hw). cbn [snd] in Hr1, Hw.
  apply wp_m_bind. unfold progressing. apply wp_clocked_setCondition. intros t2 _.
  pose proof (isConditionTrue_set t2 ConditionReady ConditionFalse ReasonProgressing "Verifying final cluster state" (st_mig s1)) as HR.
  change (String.eqb ConditionFalse ConditionTrue) with false in HR.
  apply wp_m_bind. apply wp_orReset; [done| |by left].
  unfold CheckAllOperatorsStable. repeat wp_step; [done|..]. intros [operators|e] _; [|done]. repeat wp_step; [|done]. intros ? [= <-].
  apply wp_m_bind. apply wp_orReset; [done| |by left].
  unfold CheckPoolsConverged. repeat wp_step; [done|..]. intros [pools|e] _; [|done]. repeat wp_step; [|done]. intros ? [= <-].
  apply wp_m_bind. apply wp_orReset; [done| |by left].
  unfold GetInfrastructure. repeat wp_step; [done|..]. intros [infra|e] _; [|done]. repeat wp_step. intros ? [= <-].
  cbn [wrapf] in *. injection Heqr as <-. injection Heqr0 as <-. repeat wp_step.
  - unfold resetReadyStability. repeat wp_step. apply wp_clocked_setCondition. intros t _. repeat wp_step. left.
    unfold dropped. cbn. split_and!; [done..|]. apply isConditionTrue_set.
  - apply readyBlockers_none in Heqb as (Hst & Hcv & Hvc); [|done..].
    eapply wp_mono; [|apply wp_conclude]. intros [s' r] [clk' tr'] (Hl & [tr2 Htr] & Hc & Hd). right. cbn [snd fst] in *. subst tr'.
    unfold advanced. split_and!; [| | |done].
    + exists operators, pools, infra.
      rewrite !elem_of_app, !list_elem_of_singleton. split_and!; [tauto..| | |].
      * by apply isStable_settled.
      * by apply poolSummary_settled.
      * apply nonTargetVCenter_none. by rewrite <- Hm.
    + exists t1. rewrite Hl. split; [done|]. rewrite <- !app_assoc. by apply reads_app.
    + cbn [with_mig st_mem] in Hc. clear -Hw Hc. rewrite <- !app_assoc in Hc |- *.
      match type of Hc with continued _ _ _ (_ ++ ?rest) => destruct (Hw rest) as [(? & Hz & Hn)|(? & Hz & Hn)] end;
        rewrite Hz, Hn in Hc; eauto.
Qed.

(** ** Sustained readiness

    The checks a reconciler makes over its life, newest first.  Between two of them the other
    handlers run, other writers change the cluster and the clock moves on; only the gate
    writes its own counters. *)

Record ReadyCheck := MkReadyCheck { rc_Before : Migration; rc_Trace : list event_of; rc_After : Migration }.

Definition sameStability (mem mem' : Mem) : Prop :=
  readyStabilityCount mem = readyStabilityCount mem' /\ lastReadyStabilityCheck mem = lastReadyStabilityCheck mem' /\
  lastCountedStabilityCheck mem = lastCountedStabilityCheck mem'.

Inductive checks : Mem -> list ReadyCheck -> Prop :=
| checks_start mem :
    readyStabilityCount mem = 0 -> lastReadyStabilityCheck mem = None -> lastCountedStabilityCheck mem = None -> checks mem []
| checks_run mem past (W : Type) (h : W -> forall c, resp c * W) w ctx s clk :
    checks mem past -> sameStability (st_mem s) mem ->
    let out := run h (ensureReady ctx s) w in
    admissible clocked (clk, []) out.2 ->
    checks (st_mem out.1.1.1) (MkReadyCheck (st_mig s) out.2 (st_mig out.1.1.1) :: past).

Definition greenCheck (c : ReadyCheck) : Prop := green (rc_Before c) (rc_Trace c).

(** Each check started within the gap after a clock reading of the one before. *)
Fixpoint unbroken (l : list ReadyCheck) : Prop :=
  match l with
  | c :: ((c' :: _) as rest) =>
      (exists t last, firstReading (rc_Trace c) = Some t /\ reads (rc_Trace c') last /\ t - last <= readyStabilityCheckGap) /\ unbroken rest
  | _ => True
  end.

(** Times, newest first, at least the observation interval apart. *)
Fixpoint spaced (l : list Time) : Prop :=
  match l with
  | t :: ((last :: _) as rest) => readyStabilityObservationInterval <= t - last /\ spaced rest
  | _ => True
  end.

Definition readIn (l : list ReadyCheck) (t : Time) : Prop := exists c, c ∈ l /\ reads (rc_Trace c) t.

(** The counters describe a streak of green, unbroken checks in which the counted
    observations were made. *)
Definition window (mem : Mem) (past streak : list ReadyCheck) (counted : list Time) : Prop :=
  streak `prefix_of` past /\ Forall greenCheck streak /\ unbroken streak /\
  readyStabilityCount mem = Z.of_nat (length counted) /\ lastCountedStabilityCheck mem = head counted /\
  spaced counted /\ Forall (readIn streak) counted /\
  (forall c, head streak = Some c -> exists t, lastReadyStabilityCheck mem = Some t /\ reads (rc_Trace c) t).

Lemma firstReading_some tr t : reads tr t -> is_Some (firstReading tr).
Proof.
  unfold reads. induction tr as [|[c r] tr IH]; [by intros ?%not_elem_of_nil|]. rewrite elem_of_cons. intros [E|H].
  - inversion E; subst. by eexists.
  - destruct c; cbn; eauto.
Qed.

Lemma readIn_cons c l t : readIn l t -> readIn (c :: l) t.
Proof. intros (c' & Hc & Ht). exists c'. rewrite elem_of_cons. auto. Qed.
Lemma readIn_head c l t : reads (rc_Trace c) t -> readIn (c :: l) t.
Proof. intros H. exists c. rewrite elem_of_cons. auto. Qed.

(** A streak goes on with a green check that is not late. *)
Lemma unbroken_cons mem c streak t :
  (forall c, head streak = Some c -> exists t, lastReadyStabilityCheck mem = Some t /\ reads (rc_Trace c) t) ->
  unbroken streak -> reads (rc_Trace c) t -> ~ late mem (rc_Trace c) -> unbroken (c :: streak).
Proof.
  intros Hhd Hu Hr Hl. destruct streak as [|c' streak]; [done|]. split; [|done].
  destruct (Hhd c' eq_refl) as (last & Hlast & Hin). destruct (firstReading_some _ _ Hr) as [u Hfirst].
  exists u, last. split_and!; [done..|]. destruct (Z.le_gt_cases (u - last) readyStabilityCheckGap); [done|].
  destruct Hl. exists last, u. by split_and!; [..|lia].
Qed.

(** The next counted observations: the same ones, or one more. *)
Lemma continued_spaced counted streak out c :
  continued (Z.of_nat (length counted)) (head counted) out (rc_Trace c) -> spaced counted -> Forall (readIn streak) counted ->
  exists counted', readyStabilityCount (st_mem out) = Z.of_nat (length counted') /\
    lastCountedStabilityCheck (st_mem out) = head counted' /\ spaced counted' /\ Forall (readIn (c :: streak)) counted'.
Proof.
  intros [(-> & -> & _)|(t & -> & -> & Hr & Hgap)] Hs Hin.
  - exists counted. split_and!; [done..|]. eapply Forall_impl; [done|]. intros u. apply readIn_cons.
  - exists (t :: counted). split_and!; [rewrite length_cons; lia|done| |].
    + destruct counted as [|u counted]; [done|]. split; [by apply Hgap|done].
    + constructor; [by apply readIn_head|]. eapply Forall_impl; [done|]. intros u. apply readIn_cons.
Qed.

Lemma window_step mem past streak counted s out tr :
  window mem past streak counted -> sameStability (st_mem s) mem ->
  dropped out \/ advanced (st_mem s) (st_mig s) out tr ->
  exists streak' counted', window (st_mem out) (MkReadyCheck (st_mig s) tr (st_mig out) :: past) streak' counted' /\
    (isConditionTrue (st_mig out) ConditionReady = true -> streak' <> [] /\ (6 <= length counted')%nat).
Proof.
  intros (Hp & Hg & Hu & Hn & Hh & Hs & Hin & Hhd) (E1 & E2 & E3) [(D1 & D2 & D3)|(Hgreen & (t & Ht & Hr) & Hc & Hready)].
  { exists [], []. split; [|congruence]. split_and!; done || apply prefix_nil. }
  set (c := MkReadyCheck _ _ _).
  assert (exists streak0 counted0, (streak0 `prefix_of` past /\ Forall greenCheck streak0 /\ unbroken (c :: streak0)) /\
    spaced counted0 /\ Forall (readIn streak0) counted0 /\
    continued (Z.of_nat (length counted0)) (head counted0) out (rc_Trace c)) as (streak0 & counted0 & (Hp0 & Hg0 & Hu0) & Hs0 & Hin0 & Hc0).
  { destruct Hc as [[_ Hc]|[Hl Hc]].
    - exists [], []. split_and!; done || apply prefix_nil.
    - exists streak, counted. rewrite E1, E3, Hn, Hh in Hc. split_and!; try done.
      eapply unbroken_cons; [|done..]. by rewrite E2. }
  destruct (continued_spaced _ _ _ _ Hc0 Hs0 Hin0) as (counted' & Hn' & Hh' & Hs' & Hin').
  exists (c :: streak0), counted'. split.
  - split_and!; try done; [by apply prefix_cons|by constructor|]. intros ? [= <-]. eauto.
  - intros Ht'%Hready. split; [done|]. unfold readyStabilityThreshold in Ht'. lia.
Qed.

Lemma checks_window mem past : checks mem past ->
  exists streak counted, window mem past streak counted /\
    forall c rest, past = c :: rest -> isConditionTrue (rc_After c) ConditionReady = true -> streak <> [] /\ (6 <= length counted)%nat.
Proof.
  induction 1 as [mem H1 H2 H3|mem past W h w ctx s clk Hc IH Hsame out Hadm].
  - exists [], []. split; [|done]. split_and!; done || apply prefix_nil.
  - destruct IH as (streak & counted & Hw & _).
    pose proof (wp_run clocked h _ _ _ w (wp_ensureReady ctx s clk)) as Hrun. fold out in Hrun.
    destruct out as [[[s' r] w'] tr]; cbn in *. destruct (Hrun Hadm) as [_ Hpost]. clear Hrun.
    assert (dropped s' \/ advanced (st_mem s) (st_mig s) s' tr) as Hpost'.
    { destruct Hpost as [?|Hpost]; [by left|right].
      assert (forall tr0 g, (observe clocked (g, tr0) tr).2 = tr0 ++ tr) as Hobs.
      { clear. induction tr as [|[c r] tr IH]; intros tr0 g; cbn; [by rewrite app_nil_r|]. by rewrite IH, <- app_assoc. }
      by rewrite Hobs in Hpost. }
    destruct (window_step _ _ _ _ _ _ _ Hw Hsame Hpost') as (streak' & counted' & Hw' & Hready).
    exists streak', counted'. split; [done|]. by intros c rest [= <- <-].
Qed.

(** Counted observations span the interval between each two of them. *)
Lemma spaced_span t l : spaced (t :: l) -> exists first, first ∈ t :: l /\ readyStabilityObservationInterval * Z.of_nat (length l) <= t - first.
Proof.
  revert t. induction l as [|u l IH]; intros t.
  - intros _. exists t. rewrite list_elem_of_singleton. split; [done|]. cbn. lia.
  - intros [Ht Hs]. destruct (IH u Hs) as (first & Hin & Hspan). exists first. rewrite elem_of_cons. split; [by right|].
    rewrite length_cons. lia.
Qed.

(** C7: Ready=True is committed only after sustained stability.  Over any sequence of checks a
    reconciler makes, in any worlds whose clock does not go back during a check, a check that
    leaves Ready=True ends an unbroken streak of checks: each one read cluster operators,
    machine config pools and an Infrastructure that had settled on the destinations, each one
    started at most 90 seconds after a clock reading of the one before, and the clock
    readings of the streak span at least 150 seconds. *)
Theorem ready_after_sustained_stability mem c past :
  checks mem (c :: past) -> isConditionTrue (rc_After c) ConditionReady = true ->
  exists streak t0 t1, (c :: streak) `prefix_of` (c :: past) /\ Forall greenCheck (c :: streak) /\ unbroken (c :: streak) /\
    readIn (c :: streak) t0 /\ readIn (c :: streak) t1 /\ seconds 150 <= t1 - t0.
Proof.
  intros Hc Hready. destruct (checks_window _ _ Hc) as (streak & counted & (Hp & Hg & Hu & _ & _ & Hs & Hin & _) & Hcommit).
  destruct (Hcommit c past eq_refl Hready) as [Hne Hlen]. destruct streak as [|c' streak]; [done|].
  pose proof (prefix_cons_inv_1 _ _ _ _ Hp) as ->. destruct counted as [|t1 counted]; [cbn in Hlen; lia|].
  destruct (spaced_span _ _ Hs) as (t0 & Ht0 & Hspan). rewrite Forall_forall in Hin.
  exists streak, t0, t1. split_and!; try done; [by apply Hin|apply Hin; rewrite elem_of_cons; by left|].
  cbn [length] in Hlen. unfold readyStabilityObservationInterval, seconds in *. lia.
Qed.

(** A world with a ticking clock, one healthy operator and one converged pool. *)
Definition settled_world (w : Time) (c : call) : resp c * Time :=
  match c with
  | CNow => (w + 1, w + 1)
  | CListClusterOperators =>
      (Ok [MkClusterOperator "etcd" [MkStatusCond OperatorAvailable ConditionTrue ""; MkStatusCond OperatorProgressing ConditionFalse "";
                                     MkStatusCond OperatorDegraded ConditionFalse ""]], w)
  | CListMachineConfigPools => (Ok [MkMachineConfigPool "worker" 1 1 "c1" "c1" 3 3 [MkStatusCond MachineConfigPoolUpdated ConditionTrue ""]], w)
  | CGetInfrastructure => (Ok (MkInfrastructure "cluster" "" None "ocp-1" ""), w)
  | c => (unavailable c, w)
  end.

Lemma settled_admissible {A} (p : Prog A) w tr : admissible clocked (w, tr) (run settled_world p w).2.
Proof.
  revert w tr. induction p as [a|c k IH]; intros w tr; [done|].
  destruct c; cbn -[Z.add];
    match goal with |- context [run settled_world (k ?r) ?w'] =>
      specialize (IH r w'); destruct (run settled_world (k r) w') as [[? ?] ?] end;
    cbn -[Z.add] in *; (split; [done || lia|apply IH]).
Qed.

(** [n] checks, one every 31 seconds. *)
Fixpoint settled_checks (n : nat) : St * list ReadyCheck :=
  match n with
  | O => (example_state example_mig, [])
  | S n =>
      let '(s, past) := settled_checks n in
      let out := run settled_world (ensureReady Background s) (seconds (31 * Z.of_nat n)) in
      (out.1.1.1, MkReadyCheck (st_mig s) out.2 (st_mig out.1.1.1) :: past)
  end.

Lemma settled_checks_reachable n : checks (st_mem (settled_checks n).1) (settled_checks n).2.
Proof.
  induction n as [|n IH]; [by constructor|]. cbn [settled_checks].
  destruct (settled_checks n) as [s past]. eapply checks_run; [exact IH|done|]. apply settled_admissible.
Qed.

(** Six checks commit Ready=True (and five do not). *)
Lemma ready_after_sustained_stability_witness :
  exists c past, (settled_checks 6).2 = c :: past /\
    exists streak t0 t1, (c :: streak) `prefix_of` (c :: past) /\ Forall greenCheck (c :: streak) /\ unbroken (c :: streak) /\
      readIn (c :: streak) t0 /\ readIn (c :: streak) t1 /\ seconds 150 <= t1 - t0.
Proof.
  pose proof (settled_checks_reachable 6) as H.
  assert (match (settled_checks 6).2 with c :: _ => isConditionTrue (rc_After c) ConditionReady | [] => false end = true) as Hr
    by (vm_compute; reflexivity).
  destruct (settled_checks 6) as [s [|c past]]; [discriminate Hr|].
  exists c, past. split; [reflexivity|]. exact (ready_after_sustained_stability (st_mem s) c past H Hr).
Defined.

(** ** Progress

    A settled cluster: every read of the gate shows it, and the clock readings of a check
    come no earlier than the observation interval after the last counted observation and no
    later than the gap after the previous check. *)

Definition steady (m : Migration) (mem : Mem) : Observer unit :=
  MkObserver (fun _ _ => True) (fun _ _ _ => tt)
    (fun _ c r => (match c return resp c -> Prop with
       | CNow => fun t =>
           (forall last, lastCountedStabilityCheck mem = Some last -> readyStabilityObservationInterval <= t - last) /\
           (forall last, lastReadyStabilityCheck mem = Some last -> t - last <= readyStabilityCheckGap)
       | CListClusterOperators => fun r => exists operators, r = Ok operators /\
           Forall operatorSettled (filter (fun co => ContainsStr ExcludedOperators (co_Name co) = false) operators)
       | CListMachineConfigPools => fun r => exists pools, r = Ok pools /\ Forall poolSettled pools
       | CGetInfrastructure => fun r => exists infra, r = Ok infra /\ nonTargetVCenter m infra = ""
       | _ => fun _ => True
       end) r).

(** What a check of a settled cluster leaves: one more observation, and either another
    requeue or the completed migration. *)
Definition progressed (count : Z) (out : St * result Result) : Prop :=
  readyStabilityCount (st_mem out.1) = count /\
  if count <? readyStabilityThreshold then out.2 = Ok (RequeueAfter 30) /\ isConditionTrue (st_mig out.1) ConditionReady = false
  else out.2 = Ok done_result /\ isConditionTrue (st_mig out.1) ConditionReady = true /\ is_Some (CompletionTime (mig_Status (st_mig out.1))).

Section Steady.
Context (m : Migration) (mem : Mem).

Lemma wp_steady_setCondition ty status reason message (Q : St * result unit -> unit -> Prop) s :
  (forall t, Q (with_mig (conditionSet t ty status reason message) s, Ok tt) tt) ->
  wp (steady m mem) (setCondition ty status reason message s) Q tt.
Proof. intros H. unfold setCondition. repeat wp_step; [done|]. intros t _. repeat wp_step. apply H. Qed.

Lemma wp_steady_begin s (Q : St * result unit -> unit -> Prop) :
  st_mem s = mem ->
  (forall s', st_mig s' = st_mig s -> readyStabilityCount (st_mem s') = readyStabilityCount mem ->
     lastCountedStabilityCheck (st_mem s') = lastCountedStabilityCheck mem -> Q (s', Ok tt) tt) ->
  wp (steady m mem) (beginCheck s) Q tt.
Proof.
  intros Hm HQ. unfold beginCheck. repeat wp_step; try done; cbn; rewrite ?Hm in *.
  - intros t [_ Hgap]. repeat wp_step; try done; [|intros u _; repeat wp_step; apply HQ; cbn; by rewrite ?Hm].
    apply Z.ltb_lt in Heqb. specialize (Hgap _ Heqo). lia.
  - intros u _. repeat wp_step. apply HQ; cbn; by rewrite ?Hm.
Qed.

Lemma wp_steady_conclude s :
  lastCountedStabilityCheck (st_mem s) = lastCountedStabilityCheck mem ->
  wp (steady m mem) (conclude s) (fun out _ => progressed (readyStabilityCount (st_mem s) + 1) out) tt.
Proof.
  intros Hc. unfold conclude. apply wp_m_bind.
  apply (wp_mono _ _ (fun out _ => out.2 = Ok tt /\ readyStabilityCount (st_mem out.1) = readyStabilityCount (st_mem s) + 1)).
  - intros [s1 r] [] [Hr Hn]. cbn in Hr, Hn. subst r. repeat wp_step; unfold progressing, Eventf, progressed; rewrite Hn in Heqb.
    + apply wp_steady_setCondition. intros t. repeat wp_step. cbn. rewrite Heqb. split_and!; [done..|]. apply isConditionTrue_set.
    + done.
    + intros t _. repeat wp_step. apply wp_steady_setCondition. intros u. repeat wp_step; [done|]. intros [] _. repeat wp_step.
      cbn. rewrite Heqb. split_and!; [done..| |by eexists].
      by apply (isConditionTrue_set u ConditionReady ConditionTrue).
  - unfold countObservation. repeat wp_step; try done; cbn; intros t Ht; repeat wp_step; try done.
    destruct Ht as [Ht _]. specialize (Ht _ (eq_sym Hc)). apply Z.leb_gt in Heqb. lia.
Qed.

(** A read of the gate that answers. *)
Lemma wp_steady_read {A} format (p : IO A) (Q : St * result A -> unit -> Prop) s :
  wp (steady m mem) p (fun r _ => exists a, r = Ok a /\ Q (s, Ok a) tt) tt -> wp (steady m mem) (orReset format p s) Q tt.
Proof.
  intros Hp. unfold orReset. apply wp_m_bind, wp_lift, wp_try. eapply wp_mono; [|exact Hp].
  intros r [] (a & -> & HQ). by repeat wp_step.
Qed.

End Steady.

Lemma nonTargetVCenter_spec migration migration' infra :
  mig_Spec migration = mig_Spec migration' -> nonTargetVCenter migration infra = nonTargetVCenter migration' infra.
Proof. intros E. unfold nonTargetVCenter, isConfiguredDestination. by rewrite E. Qed.

Lemma wp_steady_ensureReady ctx s :
  wp (steady (st_mig s) (st_mem s)) (ensureReady ctx s) (fun out _ => progressed (readyStabilityCount (st_mem s) + 1) out) tt.
Proof.
  unfold ensureReady. apply wp_m_bind, wp_steady_begin; [done|]. intros s1 Hm Hn Hc.
  apply wp_m_bind, wp_steady_setCondition. intros t.
  apply wp_m_bind, wp_steady_read. unfold CheckAllOperatorsStable. repeat wp_step; [done|].
  intros r (operators & -> & Ho%isStable_settled). repeat wp_step; [|done]. eexists; split; [done|]. cbn [wrapf] in *. simplify_eq. rewrite Ho.
  apply wp_m_bind, wp_steady_read. unfold CheckPoolsConverged. repeat wp_step; [done|].
  intros r (pools & -> & Hp%poolSummary_settled). repeat wp_step; [|done]. eexists; split; [done|]. cbn [wrapf] in *. simplify_eq. rewrite Hp.
  apply wp_m_bind, wp_steady_read. unfold GetInfrastructure. repeat wp_step; [done|].
  intros r (infra & -> & Hv). repeat wp_step. eexists; split; [done|].
  apply wp_m_bind. cbn [wp get_mig]. cbv zeta.
  rewrite (nonTargetVCenter_spec _ (st_mig s)) by (cbn; by rewrite Hm). rewrite Hv. cbn [readyBlockers negb app length Nat.ltb Nat.leb].
  rewrite <- Hn. by apply (wp_steady_conclude _ _ (with_mig _ s1)).
Qed.

(** A sequence of [n] checks of a settled cluster, the first from a counter at [c0].  Between
    two of them anything else may change. *)
Inductive steadyChecks : nat -> Z -> St * result Result -> Prop :=
| steady_first (W : Type) (h : W -> forall c, resp c * W) w ctx s :
    let out := run h (ensureReady ctx s) w in
    admissible (steady (st_mig s) (st_mem s)) tt out.2 -> steadyChecks 1 (readyStabilityCount (st_mem s)) out.1.1
| steady_next n c0 prev (W : Type) (h : W -> forall c, resp c * W) w ctx s :
    steadyChecks n c0 prev -> sameStability (st_mem s) (st_mem prev.1) ->
    let out := run h (ensureReady ctx s) w in
    admissible (steady (st_mig s) (st_mem s)) tt out.2 -> steadyChecks (S n) c0 out.1.1.

Lemma steady_run {W} (h : W -> forall c, resp c * W) w ctx s :
  admissible (steady (st_mig s) (st_mem s)) tt (run h (ensureReady ctx s) w).2 ->
  progressed (readyStabilityCount (st_mem s) + 1) (run h (ensureReady ctx s) w).1.1.
Proof.
  intros Hadm. pose proof (wp_run _ h _ _ _ w (wp_steady_ensureReady ctx s)) as Hrun.
  destruct (run h (ensureReady ctx s) w) as [[out w'] tr]. by apply Hrun.
Qed.

Lemma steadyChecks_progressed n c0 out : steadyChecks n c0 out -> progressed (c0 + Z.of_nat n) out.
Proof.
  induction 1 as [W h w ctx s out Hadm|n c0 prev W h w ctx s _ [IH _] (Hn & _) out Hadm].
  - by apply steady_run.
  - apply (steady_run h w ctx s) in Hadm. rewrite Hn, IH in Hadm. by replace (c0 + Z.of_nat (S n)) with (c0 + Z.of_nat n + 1) by lia.
Qed.

(** C8: A settled cluster becomes ready.  When every check reads operators, machine config
    pools and an Infrastructure that have settled on the destinations, and the checks follow
    one another at least 30 seconds after the last counted observation and at most 90
    seconds after each other, then every check before the last succeeds and asks to run
    again in 30 seconds, and the sixth one at the latest commits Ready=True with a completion
    time and asks for nothing more. *)
Theorem ready_eventually (n : nat) (c0 : Z) (s : St) (r : result Result) :
  steadyChecks n c0 (s, r) -> 0 <= c0 ->
  (c0 + Z.of_nat n < 6 /\ r = Ok (RequeueAfter 30)) \/
  (r = Ok done_result /\ isConditionTrue (st_mig s) ConditionReady = true /\ is_Some (CompletionTime (mig_Status (st_mig s)))).
Proof.
  intros [_ H]%steadyChecks_progressed Hc. cbn in H. change readyStabilityThreshold with 6 in H.
  destruct (Z.ltb_spec (c0 + Z.of_nat n) 6); [left|right]; tauto.
Qed.

(** A settled cluster at a fixed time. *)
Definition settled_at (w : Time) (c : call) : resp c * Time :=
  match c with CNow => (w, w) | c => settled_world w c end.

(** Six checks, 31 seconds apart. *)
Definition steady_state (n : nat) : St * result Result :=
  Nat.iter n (fun out => (run settled_at (ensureReady Background out.1) (seconds (31 + (readyStabilityCount (st_mem out.1)) * 31))).1.1)
    (example_state example_mig, Ok done_result).

Definition paced (mem : Mem) (w : Time) : bool :=
  match lastCountedStabilityCheck mem with Some last => readyStabilityObservationInterval <=? w - last | None => true end &&
  match lastReadyStabilityCheck mem with Some last => w - last <=? readyStabilityCheckGap | None => true end.

Lemma settled_at_admissible {A} (p : Prog A) m mem w :
  paced mem w = true -> admissible (steady m mem) tt (run settled_at p w).2.
Proof.
  intros Hp. induction p as [a|c k IH]; [done|].
  assert (env (steady m mem) tt c (settled_at w c).1 /\ (settled_at w c).2 = w) as [He Hw].
  { destruct c; try done; (split; [|done]).
    - unfold paced in Hp. reflect_bools. split; intros last E; rewrite E in *; reflect_bools; done.
    - eexists; split; done.
    - eexists; split; [reflexivity|]. by apply isStable_settled.
    - eexists; split; [reflexivity|]. by apply poolSummary_settled. }
  cbn [run]. destruct (settled_at w c) as [r w'] eqn:E. cbn in He, Hw. subst w'. specialize (IH r).
  destruct (run settled_at (k r) w) as [[? ?] ?]. by split.
Qed.

Lemma steady_state_reachable n : (0 < n <= 6)%nat -> steadyChecks n 0 (steady_state n).
Proof.
  intros [Hn Hle]. assert (forall k, (k <= 5)%nat -> admissible (steady (st_mig (steady_state k).1) (st_mem (steady_state k).1)) tt
     (run settled_at (ensureReady Background (steady_state k).1) (seconds (31 + readyStabilityCount (st_mem (steady_state k).1) * 31))).2) as Hadm.
  { intros k Hk. apply settled_at_admissible. do 6 (destruct k as [|k]; [vm_compute; reflexivity|]). lia. }
  induction n as [|n IH]; [lia|]. destruct n as [|n].
  - apply (steady_first _ settled_at _ _ (example_state example_mig)). by apply (Hadm 0%nat); lia.
  - apply (steady_next _ _ (steady_state (S n)) _ settled_at _ _ (steady_state (S n)).1); [apply IH; lia|done|]. apply (Hadm (S n)). lia.
Qed.

Lemma ready_eventually_witness :
  isConditionTrue (st_mig (steady_state 6).1) ConditionReady = true /\ (steady_state 5).2 = Ok (RequeueAfter 30).
Proof.
  split.
  - destruct (ready_eventually 6 0 (steady_state 6).1 (steady_state 6).2) as [[H _]|(_ & H & _)]; [|done|discriminate H|exact H].
    rewrite <- surjective_pairing. apply steady_state_reachable. lia.
  - destruct (ready_eventually 5 0 (steady_state 5).1 (steady_state 5).2) as [[_ H]|(_ & H & _)]; [|done|exact H|vm_compute in H; discriminate H].
    rewrite <- surjective_pairing. apply steady_state_reachable. lia.
Defined.

Close Scope Z_scope.
