(* ===== verification/Phases.v ===== *)
(** * Which phase makes which change

    Each handler is walked once: a call that changes the cluster or a vCenter occurs only in
    the handlers of the phases it belongs to. *)

From S2P Require Import Prelude GoErrors Objects Types Effects Execution Metrics Status Invariants Infrastructure Codec Machines Operators Mapping Destinations Workers Netip VSphere Probe Metadata Preflight Destination Workload SourceCleanup Ready.

(** The index, in the order of the conditions, of the handlers that may make a mutating call. *)
Definition phases (c : call) : list nat :=
  match c with
  | VClone _ _ _ _ _ | VDestroy _ _ | VPowerOff _ _ => [0]
  | VCreateFolder _ _ _ | VCreateCategory _ _ | VCreateTag _ _ _ _ | VAttachTag _ _ _ => [1]
  | CUpdateInfrastructure _ | CUpdateSecret _ _ | CUpdateConfigMap _ _ | CDeletePod _ _ => [2; 4]
  | CCreateMachineSet _ | CUpdateMachineSet _ | CDeleteMachineSet _ | CUpdateCPMS _ => [3]
  | CCreateSecret _ _ => [4]
  | _ => []
  end.

Definition allowedIn (k : nat) (c : call) : Prop := negb (mutating c) || existsb (Nat.eqb k) (phases c) = true.

Lemma phase_retry k n fn s : (forall s, only_calls (allowedIn k) (fn s)) -> only_calls (allowedIn k) (retryOnConflict n fn s).
Proof. intros Hf. revert s. induction n as [|n IH]; intros s; cbn [retryOnConflict]; [done|]. only_auto. Qed.

(** The walk of [only_calls], unfolding the operations it meets. *)
Ltac phase_auto :=
  repeat first
    [ solve [eauto with calls]
    | only_step
    | apply phase_retry; intros ?
    | lazymatch goal with |- only_calls _ ?p => unfold_head p end ].

Lemma phase_waitGuest k n s vm : only_calls (allowedIn k) (waitGuest n s vm).
Proof. revert s vm. induction n as [|n IH]; intros s vm; cbn [waitGuest]; phase_auto. Qed.
#[local] Hint Resolve phase_waitGuest : calls.

Section Phases.
Context `{SpecDigest} `{ProviderCodec} `{CloudCodec} (ctx : Ctx).

Lemma phase_Infrastructure s : only_calls (allowedIn 0) (ensureInfrastructurePrepared ctx s).
Proof. phase_auto. Qed.
Lemma phase_Destination s : only_calls (allowedIn 1) (ensureDestinationInitialized ctx s).
Proof. phase_auto. Qed.
Lemma phase_MultiSite s : only_calls (allowedIn 2) (ensureMultiSiteConfigured ctx s).
Proof. phase_auto. Qed.
Lemma phase_Workload s : only_calls (allowedIn 3) (ensureWorkloadMigrated ctx s).
Proof. phase_auto. Qed.
Lemma phase_SourceCleaned s : only_calls (allowedIn 4) (ensureSourceCleaned ctx s).
Proof. phase_auto. Qed.
Lemma phase_Ready s : only_calls (allowedIn 5) (ensureReady ctx s).
Proof. phase_auto. Qed.

End Phases.
