(* ===== verification/Reconcile.v ===== *)
(** * The reconcile loop (internal/controller)

    Reconcile fetches the migration and passes the singleton, finalizer and deletion guards;
    reconcileWorkflow honours the requested state and runs the handler of the first condition
    that is not True.  The theorems at the end are about the whole operator: every change it
    makes passed the execution gate, every change belongs to a phase whose predecessors are
    complete, and no MachineSet loses capacity before the control plane has rolled out. *)

From S2P Require Import Prelude GoErrors Objects Types Effects Execution Metrics Status Invariants Infrastructure Codec Machines Operators Mapping Destinations Workers Netip VSphere Probe Metadata Preflight Destination Workload SourceCleanup Ready Phases.
Import GoStr.

Definition conditionOrder : list string :=
  [ConditionInfrastructurePrepared; ConditionDestinationInitialized; ConditionMultiSiteConfigured;
   ConditionWorkloadMigrated; ConditionSourceCleaned; ConditionReady].

(** A condition already records [reason] for this generation. *)
Definition alreadyRecorded (migration : Migration) (condType reason : string) : bool :=
  match FindStatusCondition (Conditions (mig_Status migration)) condType with
  | Some cond => String.eqb (c_Status cond) ConditionFalse && String.eqb (c_Reason cond) reason &&
                 (c_ObservedGeneration cond =? mig_Generation migration)%Z
  | None => false
  end.

Section Reconcile.
Context `{SpecDigest} `{ProviderCodec} `{CloudCodec}.

(** A recorded refusal: an event, the condition and the status, once per generation. *)
Definition refuse (baseStatus : MigrationStatus) (reason message : string) : M Result :=
  let@ _ := Eventf "Warning" reason "%s" [RStr message] in
  let@ _ := setCondition ConditionAccepted ConditionFalse reason message in
  let@ _ := updateStatus baseStatus in
  ret done_result.

(** Whether to stop; a mapping edited after preflight is rejected, a recovered one cleared. *)
Definition checkMappingForReconcile (baseStatus : MigrationStatus) : M bool :=
  let@ migration := get_mig in
  let@ r := lift (try (ensureMappingImmutable migration)) in
  let cond := FindStatusCondition (Conditions (mig_Status migration)) ConditionAccepted in
  match r with
  | Err e =>
      let recorded := isMappingRejection cond &&
                      match cond with Some c => (c_ObservedGeneration c =? mig_Generation migration)%Z | None => false end in
      let@ _ := (if recorded then ret tt else Eventf "Warning" ReasonMappingRejected "%s" [RStr (Error e)]) in
      let@ _ := setCondition ConditionAccepted ConditionFalse ReasonMappingRejected (Error e) in
      let@ _ := updateStatus baseStatus in
      ret true
  | Ok _ =>
      let@ _ := (if isMappingRejection cond
                 then modify_status (fun st => set_Conditions (RemoveStatusCondition (Conditions st) ConditionAccepted) st)
                 else ret tt) in
      ret false
  end.

Definition handlers : list (string * (Ctx -> M Result)) :=
  [(ConditionInfrastructurePrepared, ensureInfrastructurePrepared);
   (ConditionDestinationInitialized, ensureDestinationInitialized);
   (ConditionMultiSiteConfigured, ensureMultiSiteConfigured);
   (ConditionWorkloadMigrated, ensureWorkloadMigrated);
   (ConditionSourceCleaned, ensureSourceCleaned);
   (ConditionReady, ensureReady)].

Fixpoint handlerFor (table : list (string * (Ctx -> M Result))) (condType : string) : option (Ctx -> M Result) :=
  match table with
  | [] => None
  | (t, h) :: rest => if String.eqb t condType then Some h else handlerFor rest condType
  end.

(** Running one handler between two permission checks, and publishing what it left. *)
Definition processCondition (ctx : Ctx) (baseStatus : MigrationStatus) (condType : string) (handler : Ctx -> M Result) : M Result :=
  let@ permission := lift (try (Check ctx)) in
  match permission with
  | Err e => if IsExecutionStopped e then ret done_result else throw e
  | Ok _ =>
      let@ outcome := m_try (handler ctx) in
      let@ recheck := lift (try (Check ctx)) in
      let outcome := match recheck with Err e => Err e | Ok _ => outcome end in
      match outcome with
      | Err e =>
          if IsExecutionStopped e then ret done_result
          else
            let@ _ := setCondition condType ConditionFalse (reasonForError e) (Error e) in
            let@ _ := Eventf "Warning" "ConditionFailed" "Condition %s failed: %v" [RStr condType; RStr (Error e)] in
            let@ _ := updateStatus baseStatus in
            throw e
      | Ok result =>
          let@ _ := updateStatus baseStatus in
          ret result
      end
  end.

(** The walk over the conditions: the first that is not True is processed. *)
Fixpoint walkConditions (ctx : Ctx) (baseStatus : MigrationStatus) (order : list string) : M Result :=
  match order with
  | [] => let@ _ := updateStatus baseStatus in ret done_result
  | condType :: rest =>
      let@ migration := get_mig in
      if isConditionTrue migration condType then walkConditions ctx baseStatus rest
      else
        match handlerFor handlers condType with
        | None => throw (Errorf "no handler for condition %q" [FS condType])
        | Some handler => processCondition ctx baseStatus condType handler
        end
  end.

(** The state is not Running: pausing is recorded once, and nothing else happens. *)
Definition skipNotRunning (baseStatus : MigrationStatus) : M Result :=
  let@ migration := get_mig in
  let@ _ := (if String.eqb (State (mig_Spec migration)) MigrationStatePaused && negb (alreadyRecorded migration ConditionReady ReasonPaused)
             then
               let msg := Sprintf "Migration is paused; set spec.state to %s to resume" [RStr MigrationStateRunning] in
               let@ _ := Eventf "Normal" ReasonPaused "%s" [RStr msg] in
               setCondition ConditionReady ConditionFalse ReasonPaused msg
             else ret tt) in
  let@ _ := updateStatus baseStatus in
  ret done_result.

(** Resuming from Paused, and the start time. *)
Definition resumeAndStart (baseStatus : MigrationStatus) : M unit :=
  let@ migration := get_mig in
  let paused := match FindStatusCondition (Conditions (mig_Status migration)) ConditionReady with
                | Some cond => String.eqb (c_Reason cond) ReasonPaused
                | None => false
                end in
  let@ _ := (if paused then
               let msg := "Migration is running" in
               let@ _ := Eventf "Normal" ReasonProgressing "%s" [RStr msg] in
               let@ _ := setCondition ConditionReady ConditionFalse ReasonProgressing msg in
               updateStatus baseStatus
             else ret tt) in
  let@ migration := get_mig in
  match StartTime (mig_Status migration) with
  | Some _ => ret tt
  | None =>
      let@ t := now in
      let@ _ := modify_status (set_StartTime (Some t)) in
      let@ _ := Eventf "Normal" "MigrationStarted" "Migration workflow started" [] in
      updateStatus baseStatus
  end.

Definition reconcileWorkflow (ctx : Ctx) (baseStatus : MigrationStatus) : M Result :=
  let@ migration := get_mig in
  if negb (String.eqb (State (mig_Spec migration)) MigrationStateRunning) then skipNotRunning baseStatus
  else
    let@ _ := resumeAndStart baseStatus in
    let@ stop := checkMappingForReconcile baseStatus in
    if (stop : bool) then ret done_result
    else
      let@ _ := seedReadyCondition in
      let@ migration := get_mig in
      walkConditions (executionContext ctx migration) baseStatus conditionOrder.

(** The guards on a fetched migration. *)
Definition reconcileFetched (ctx : Ctx) : M Result :=
  let@ migration := get_mig in
  let baseStatus := mig_Status migration in
  if negb (String.eqb (mig_Name migration) SingletonName) || negb (String.eqb (mig_Namespace migration) SingletonNamespace) then
    let '(reason, message) :=
      (if String.eqb (mig_Name migration) SingletonName
       then (ReasonUnsupportedNamespace, Sprintf "only a VmwareCloudFoundationMigration in namespace %q is reconciled by this operator" [RStr SingletonNamespace])
       else (ReasonUnsupportedName, Sprintf "only a VmwareCloudFoundationMigration named %q is reconciled by this operator" [RStr SingletonName])) in
    if alreadyRecorded migration ConditionAccepted reason then ret done_result else refuse baseStatus reason message
  else
    match mig_DeletionTimestamp migration with
    | None =>
        if negb (ContainsStr (mig_Finalizers migration) FinalizerName) then
          let@ _ := m_wrapping "adding finalizer %s: %w" [FS FinalizerName] updateRetentionFinalizer in
          ret done_result
        else reconcileWorkflow ctx baseStatus
    | Some _ =>
        let@ complete := lift (of_result (isCompletionRecordedForSpec migration)) in
        let adminAllowed := String.eqb (default "" (mig_Annotations migration !! AnnotationAllowDeletion)) "true" in
        if complete || adminAllowed then
          let@ _ := m_wrapping "removing finalizer %s: %w" [FS FinalizerName] updateRetentionFinalizer in
          ret done_result
        else if alreadyRecorded migration ConditionAccepted ReasonDeletionBlocked then ret done_result
        else
          refuse baseStatus ReasonDeletionBlocked
            (Sprintf "deletion is blocked until the migration completes or an administrator sets the annotation %s=%q" [RStr AnnotationAllowDeletion; RStr "true"])
    end.

Definition Reconcile (ctx : Ctx) (namespace name : string) : M Result :=
  let@ r := lift (try (do_call (CGetMigration true namespace name))) in
  match r with
  | Err e => if IsNotFound e then ret done_result else throw (Errorf "getting migration resource: %w" [FE e])
  | Ok migration =>
      let@ _ := modify (with_mig (fun _ => migration)) in
      reconcileFetched ctx
  end.

End Reconcile.

(** ** What the steps before the walk leave alone

    They write only Ready and Accepted (and the start time) of the fetched object. *)

Definition sameRecord (m m' : Migration) : Prop :=
  same_identity m' m /\
  forall t, t <> ConditionReady -> t <> ConditionAccepted ->
    FindStatusCondition (Conditions (mig_Status m')) t = FindStatusCondition (Conditions (mig_Status m)) t.

#[global] Instance sameRecord_preorder : PreOrder sameRecord.
Proof.
  split; [by split|]. intros a b c [(I1 & I2 & I3 & I4) F] [(J1 & J2 & J3 & J4) F']. split; [split_and!; congruence|].
  intros t Hr Ha. by rewrite F', F.
Qed.

Section Prefix.
Context `{SpecDigest} `{ProviderCodec} `{CloudCodec} {G : Type} (O : Observer G) (Hreads : allows O reading) (m0 : Migration).

Definition recordOf (m : Migration) (_ : G) : Prop := sameRecord m0 m.
Let Hstable : stable O reading recordOf := allows_stable O reading (sameRecord m0) Hreads.

(** Only Ready and Accepted are written. *)
Lemma keeps_record_setCondition t status reason message :
  t = ConditionReady \/ t = ConditionAccepted -> keeps O recordOf (setCondition t status reason message).
Proof.
  intros Ht. eapply keeps_setCondition; [eassumption|done|]. intros now m g Hm. unfold recordOf in *. etransitivity; [exact Hm|]. split; [done|].
  intros u Hr Ha. cbn. apply Find_Set_other. cbn. destruct Ht; congruence.
Qed.

Hint Resolve keeps_updateStatus keeps_record_setCondition : keeps.
Hint Extern 1 (_ = _ \/ _ = _) => by auto : keeps.

Lemma keeps_resumeAndStart base : keeps O recordOf (resumeAndStart base).
Proof. unfold resumeAndStart. keeps_auto quiet_calls. Qed.

Lemma keeps_checkMapping base : keeps O recordOf (checkMappingForReconcile base).
Proof.
  unfold checkMappingForReconcile. keeps_auto quiet_calls; [unfold ensureMappingImmutable; quiet_auto|].
  intros Hm. unfold recordOf in *. etransitivity; [exact Hm|]. split; [done|]. intros t _ Ha. by apply Find_Remove_other.
Qed.

Lemma keeps_seedReady : keeps O recordOf seedReadyCondition.
Proof. unfold seedReadyCondition. keeps_auto quiet_calls. Qed.

End Prefix.

Section Fetched.
Context `{SpecDigest} `{ProviderCodec} `{CloudCodec} {G : Type} (O : Observer G) (Hreads : allows O reading).

(** The resource lets the workflow run. *)
Definition active (m : Migration) : bool :=
  isSingleton m && bool_decide (mig_DeletionTimestamp m = None) && ContainsStr (mig_Finalizers m) FinalizerName &&
  String.eqb (State (mig_Spec m)) MigrationStateRunning.

(** Everything but the walk over the conditions only reads and records. *)
Lemma wp_reconcileFetched ctx s g :
  (forall s' g', active (st_mig s) = true -> sameRecord (st_mig s) (st_mig s') ->
     wp O (walkConditions (executionContext ctx (st_mig s')) (mig_Status (st_mig s)) conditionOrder s') (fun _ _ => True) g') ->
  wp O (reconcileFetched ctx s) (fun _ _ => True) g.
Proof.
  intros Hwalk. unfold active, isSingleton in Hwalk. unfold reconcileFetched. apply wp_m_bind. cbn [wp get_mig]. cbv zeta.
  destruct (String.eqb (mig_Name (st_mig s)) SingletonName), (String.eqb (mig_Namespace (st_mig s)) SingletonNamespace);
    cbn [negb orb andb] in *; [|apply wp_quietM; [unfold refuse, Eventf; quiet_auto|done..]..].
  destruct (mig_DeletionTimestamp (st_mig s)); [apply wp_quietM; [unfold refuse, Eventf; quiet_auto|done..]|].
  destruct (ContainsStr (mig_Finalizers (st_mig s)) FinalizerName); cbn [negb andb bool_decide decide_rel] in *;
    [|apply wp_quietM; [quiet_auto|done..]].
  unfold reconcileWorkflow. apply wp_m_bind. cbn [wp get_mig].
  destruct (String.eqb (State (mig_Spec (st_mig s))) MigrationStateRunning); cbn [negb andb] in *;
    [|apply wp_quietM; [unfold skipNotRunning, Eventf; quiet_auto|done..]].
  apply wp_m_bind. eapply wp_mono; [|by apply (keeps_resumeAndStart O Hreads (st_mig s))]. intros [s1 []] g1 K1; [|done].
  apply wp_m_bind. eapply wp_mono; [|by apply (keeps_checkMapping O Hreads (st_mig s))]. intros [s2 [[]|]] g2 K2; [done| |done].
  apply wp_m_bind. eapply wp_mono; [|by apply (keeps_seedReady O Hreads (st_mig s))]. intros [s3 []] g3 K3; [|done].
  apply wp_m_bind. cbn [wp get_mig]. by apply Hwalk.
Qed.

End Fetched.

(** ** The walk *)

Section Walk.
Context `{SpecDigest} `{ProviderCodec} `{CloudCodec}.

Lemma quiet_Check ctx : quiet (Check ctx).
Proof. unfold Check, checkPermission. quiet_auto. Qed.
Hint Resolve quiet_Check : quiet.

(** Around its handler, [processCondition] only reads and records. *)
Lemma only_processCondition P ctx base t handler s :
  (forall c, mutating c = false -> P c) -> (forall s', only_calls P (handler ctx s')) ->
  only_calls P (processCondition ctx base t handler s).
Proof.
  intros HP Hh.
  assert (forall A (m : M A) s', quietM m -> only_calls P (m s')) as Hq.
  { intros A m s' Hm. unfold only_calls. eapply wp_only; [apply Hm|auto|done]. }
  unfold processCondition, Eventf. apply only_m_bind; [apply Hq; quiet_auto|]. intros [u|e] s1; [|apply Hq; quiet_auto].
  apply only_m_bind; [apply only_m_try, Hh|]. intros outcome s2. apply Hq. quiet_auto.
Qed.

(** The walk processes a condition that is not True after conditions that all are. *)
Lemma only_walk P ctx base s order done_ :
  (forall c, mutating c = false -> P c) ->
  (forall k t handler s', (done_ ++ order) !! k = Some t -> handlerFor handlers t = Some handler ->
     isConditionTrue (st_mig s) t = false -> Forall (fun u => isConditionTrue (st_mig s) u = true) (take k (done_ ++ order)) ->
     only_calls P (handler ctx s')) ->
  Forall (fun u => isConditionTrue (st_mig s) u = true) done_ ->
  only_calls P (walkConditions ctx base order s).
Proof.
  intros HP. revert done_. induction order as [|t order IH]; intros done_ Hh Htrue; cbn [walkConditions].
  { apply only_m_bind; [|intros; apply only_ret]. unfold only_calls. eapply wp_only; [apply quietM_updateStatus|auto|done]. }
  assert (forall A (f : Migration -> M A), m_bind get_mig f s = f (st_mig s) s) as -> by reflexivity.
  destruct (isConditionTrue (st_mig s) t) eqn:Ht.
  - apply (IH (done_ ++ [t])); [by rewrite <- app_assoc|]. by apply Forall_app; repeat constructor.
  - destruct (handlerFor handlers t) as [handler|] eqn:Hhandler; [|apply only_ret].
    apply only_processCondition; [done|]. intros s'.
    apply (Hh (length done_) t handler s'); [|done..|]; [by rewrite list_lookup_middle|by rewrite take_app_length].
Qed.

(** The same for what an observer sees, when it lets the reads through. *)
Lemma wp_walk {G} (O : Observer G) ctx base order s g :
  allows O reading -> (forall t handler s' g', handlerFor handlers t = Some handler -> wp O (handler ctx s') (fun _ _ => True) g') ->
  wp O (walkConditions ctx base order s) (fun _ _ => True) g.
Proof.
  intros Hreads Hh. assert (forall A (m : M A) s' g', quietM m -> wp O (m s') (fun _ _ => True) g') as Hq.
  { intros A m s' g' Hm. by apply wp_quietM. }
  induction order as [|t order IH]; cbn [walkConditions]; [apply Hq; quiet_auto|].
  assert (forall A (f : Migration -> M A), m_bind get_mig f s = f (st_mig s) s) as -> by reflexivity.
  destruct (isConditionTrue (st_mig s) t); [done|]. destruct (handlerFor handlers t) as [handler|] eqn:Hhandler; [|done].
  unfold processCondition, Eventf. apply wp_m_bind, wp_quietM; [quiet_auto|done|]. intros [s1 [[[]|e]|e]] g1; [|apply Hq; quiet_auto|done].
  apply wp_m_bind, wp_m_try. eapply wp_mono; [|by eapply Hh]. intros [s2 r] g2 _. apply Hq. quiet_auto.
Qed.

Section WalkGate.
Context (m0 m : Migration) (ctx : Ctx) (Hctx : ctx_check ctx = Some m) (Hm : same_identity m m0).

Lemma gatedM_handlers t handler : handlerFor handlers t = Some handler -> gatedM m0 (handler ctx).
Proof.
  cbn [handlerFor handlers]. intros Hh.
  repeat match type of Hh with (if ?b then _ else _) = _ => destruct b end; simplify_eq;
    eauto using gatedM_Infrastructure, gatedM_Destination, gatedM_MultiSite, gatedM_Workload, gatedM_SourceCleaned, quietM_gated, quietM_ensureReady.
Qed.
Hint Resolve gatedM_handlers : gated.

Lemma gatedM_processCondition base t handler : gatedM m0 (handler ctx) -> gatedM m0 (processCondition ctx base t handler).
Proof. intros Hh. unfold processCondition, Eventf. gate_auto. Qed.
Hint Resolve gatedM_processCondition : gated.

Lemma gatedM_walk base order : gatedM m0 (walkConditions ctx base order).
Proof.
  induction order as [|t order IH]; cbn [walkConditions]; [gate_auto|]. apply gatedM_bind; [gate_auto|]. intros migration.
  destruct (isConditionTrue migration t); [done|]. destruct (handlerFor handlers t) eqn:E; [|gate_auto].
  apply gatedM_processCondition. by eapply gatedM_handlers.
Qed.

End WalkGate.

(** The steps before the fetched object is known: one read. *)
Lemma run_Reconcile {W} (h : W -> forall c, resp c * W) w ctx ns n s (Q : Migration -> list event_of -> Prop) :
  (forall m w', Q m (run h (reconcileFetched ctx (with_mig (fun _ => m) s)) w').2) ->
  exists r tr, (run h (Reconcile ctx ns n s) w).2 = existT (CGetMigration true ns n) r :: tr /\
    match r with Ok m => Q m tr | Err _ => tr = [] end.
Proof.
  intros HQ. unfold Reconcile. cbv [m_bind lift try bind do_call]. cbn [run].
  destruct (h w (CGetMigration true ns n)) as [[m|e] w'].
  - specialize (HQ m w'). cbv [modify].
    destruct (run h (reconcileFetched ctx (with_mig (fun _ => m) s)) w') as [[a w''] tr].
    exists (Ok m), tr. done.
  - exists (Err e), []. by destruct (IsNotFound e).
Qed.

(** C1: No change without permission.  In every world, a reconcile starts by fetching the
    migration, and after that every call that changes the cluster or a vCenter directly
    follows an uncached read of the same resource that found it neither deleted nor replaced
    nor edited nor paused since.  A failed fetch makes no further call. *)
Theorem Reconcile_gated {W} (h : W -> forall c, resp c * W) (w : W) (ctx : Ctx) (namespace name : string) (s : St) :
  exists r tr, (run h (Reconcile ctx namespace name s) w).2 = existT (CGetMigration true namespace name) r :: tr /\
    match r with
    | Ok m => gated_trace m false tr
    | Err _ => tr = []
    end.
Proof.
  apply (run_Reconcile h w ctx namespace name s (fun m tr => gated_trace m false tr)). intros m w'. apply gated_run.
  intros armed. apply wp_reconcileFetched; [cbn; congruence|]. intros s' g' _ [Hid _].
  apply (gatedM_walk m (st_mig s')); [done|exact Hid].
Qed.

(** The phase a migration is in, and the calls of a trace that belong to it. *)
Definition inPhase (m : Migration) (k : nat) : Prop :=
  exists t, conditionOrder !! k = Some t /\ isConditionTrue m t = false /\
    Forall (fun u => isConditionTrue m u = true) (take k conditionOrder).

Lemma phase_handler ctx k t handler s :
  conditionOrder !! k = Some t -> handlerFor handlers t = Some handler -> only_calls (allowedIn k) (handler ctx s).
Proof.
  do 6 (destruct k as [|k]; [intros [= <-] [= <-];
    auto using phase_Infrastructure, phase_Destination, phase_MultiSite, phase_Workload, phase_SourceCleaned, phase_Ready|]).
  done.
Qed.

Lemma phases_early c k : k ∈ phases c -> Forall (fun t => t <> ConditionReady /\ t <> ConditionAccepted) (take (S k) conditionOrder).
Proof.
  intros Hk. assert (k <= 4) as Hle.
  { assert (Forall (fun j => j <= 4) (phases c)) as Hall by (destruct c; repeat constructor).
    by apply (proj1 (Forall_forall _ _) Hall). }
  do 5 (destruct k as [|k]; [cbn; repeat constructor; discriminate|]). lia.
Qed.

(** The steps before the walk do not move the migration to another phase. *)
Lemma inPhase_same m m' k c : sameRecord m m' -> k ∈ phases c -> inPhase m' k -> inPhase m k.
Proof.
  intros [_ Hsame] Hk%phases_early (t & Ht & Hfalse & Htrue). exists t.
  rewrite (take_S_r _ _ _ Ht), Forall_app, Forall_singleton in Hk. destruct Hk as [Hbefore [Hr Ha]].
  unfold isConditionTrue in *. rewrite Hsame in Hfalse by done. split_and!; [done..|].
  rewrite !Forall_forall in *. intros u Hu. destruct (Hbefore u Hu) as [Hr' Ha']. specialize (Htrue u Hu). by rewrite Hsame in Htrue.
Qed.

(** C3: The phases run in order, and one at a time.  Every change a reconcile makes belongs to
    a phase (probe VMs: preflight; folders and tags: destination; Infrastructure, credentials,
    cloud configuration and pods: multi-site and source cleanup; MachineSets and the control
    plane: workload; the metadata secret: source cleanup) whose condition is not yet True in
    the fetched status while all conditions before it are; and the resource is the singleton,
    is not being deleted, carries the retention finalizer and is in state Running. *)
Theorem Reconcile_phases {W} (h : W -> forall c, resp c * W) (w : W) (ctx : Ctx) (namespace name : string) (s : St) :
  exists r tr, (run h (Reconcile ctx namespace name s) w).2 = existT (CGetMigration true namespace name) r :: tr /\
    match r with
    | Ok m => Forall (fun e => mutating (projT1 e) = true ->
                active m = true /\ exists k, inPhase m k /\ k ∈ phases (projT1 e)) tr
    | Err _ => tr = []
    end.
Proof.
  apply (run_Reconcile h w ctx namespace name s (fun m tr => Forall (fun e => mutating (projT1 e) = true ->
                active m = true /\ exists k, inPhase m k /\ k ∈ phases (projT1 e)) tr)). intros m w'.
  apply (only_calls_run (fun c => mutating c = true -> active m = true /\ exists k, inPhase m k /\ k ∈ phases c)).
  unfold only_calls. apply wp_reconcileFetched; [cbn; congruence|]. intros s' [] Hactive Hsame.
  apply (only_walk _ _ _ _ _ []); [congruence| |done]. intros k t handler s2 Hk Hhandler Hfalse Htrue.
  unfold only_calls. eapply wp_only; [by apply (phase_handler _ k t)| |done].
  intros c Hc Hmut. split; [done|]. unfold allowedIn in Hc. rewrite Hmut in Hc. cbn [negb orb] in Hc.
  apply existsb_exists in Hc as (k' & Hin%list_elem_of_In & <-%Nat.eqb_eq).
  exists k. split; [|done]. eapply inPhase_same; [done..|]. by exists t.
Qed.

(** Only the handler of WorkloadMigrated updates or deletes a MachineSet. *)
Lemma wp_handler_capacity ctx t handler s g :
  handlerFor handlers t = Some handler -> wp control_plane_first (handler ctx s) (fun _ _ => True) g.
Proof.
  assert (forall k, k <> 3 -> only_calls (allowedIn k) (handler ctx s) -> wp control_plane_first (handler ctx s) (fun _ _ => True) g) as Hother.
  { intros k Hk Hp. apply wp_not_reshaping; [|done]. unfold only_calls. eapply wp_only; [exact Hp| |done].
    intros c Hc. destruct c; try done; by do 4 (destruct k as [|k]; [done|]). }
  cbn [handlerFor handlers]. intros Hh.
  repeat match type of Hh with (if ?b then _ else _) = _ => destruct b end; simplify_eq;
    [apply (Hother 0)|apply (Hother 1)|apply (Hother 2)|apply wp_ensureWorkloadMigrated|apply (Hother 4)|apply (Hother 5)];
    auto using phase_Infrastructure, phase_Destination, phase_MultiSite, phase_SourceCleaned, phase_Ready.
Qed.

(** C5: The control plane moves before any source capacity goes.  In every run of the whole
    reconcile, a MachineSet is deleted only while the ControlPlaneMachineSet last read reports
    a complete rollout: no Degraded or Error condition that is True, at least one replica, all
    of them updated and ready.  It is updated only then as well, with one exception, which
    takes no capacity: a MachineSet just read is submitted with nothing changed but the mark of
    a released operator's aggregate. *)
Theorem control_plane_before_scale_down {W} (h : W -> forall c, resp c * W) (w : W) (ctx : Ctx) (namespace name : string) (s : St) :
  observed control_plane_first (MkCapacityView None None) (run h (Reconcile ctx namespace name s) w).2.
Proof.
  destruct (run_Reconcile h w ctx namespace name s (fun _ tr => observed control_plane_first (MkCapacityView None None) tr)) as (r & tr & -> & Htr).
  - intros m w'. cbv beta. eapply (wp_run_all _ h); [done|]. assert (allows control_plane_first reading) as Hreads by (intros ? c Hc; by destruct c).
    apply wp_reconcileFetched; [done|]. intros s' g' _ _. apply wp_walk; [done|]. intros. by eapply wp_handler_capacity.
  - split; [done|]. by destruct r as [m|e]; [|subst tr].
Qed.

End Walk.
