(* ===== verification/Reports.v ===== *)
(** * How a reconcile ends (internal/controller)

    What the operator leaves behind when a handler fails: the condition, the event and the
    error that is returned; and that a stopped execution is not an error. *)

From S2P Require Import Prelude GoErrors Objects NodeMigration Types Effects Execution Metrics Status Invariants Infrastructure Codec Machines Operators Mapping Destinations Workers Netip VSphere Probe Metadata Preflight Destination Workload SourceCleanup Ready Phases Reconcile.
Import GoStr.

(** The condition [t] of the object in memory records the failure [e]. *)
Definition recordsFailure (m : Migration) (t : string) (e : error) : Prop :=
  exists c, FindStatusCondition (Conditions (mig_Status m)) t = Some c /\ c_Status c = ConditionFalse /\
    c_Reason c = (if isTransientError e then ReasonRetrying else ReasonFailed) /\ c_Message c = Error e /\
    c_ObservedGeneration c = mig_Generation m.

Definition failureEvent (t : string) (e : error) : event_of :=
  existT (CEvent "Warning" "ConditionFailed" (Sprintf "Condition %s failed: %v" [RStr t; RStr (Error e)])) tt.

Definition publishError (r : result Result) : Prop := exists e, r = Err (Errorf "updating migration status: %w" [FE e]).

Definition changesNothing (tr : list event_of) : Prop := Forall (fun e => mutating (projT1 e) = false) tr.

(** ** Running the constructs *)

Section Runs.
Context {W : Type} (h : W -> forall c, resp c * W).

Lemma run_m_bind {A B} (m : M A) (f : A -> M B) s w :
  run h (m_bind m f s) w =
    (let '((s1, r), w1, tr1) := run h (m s) w in
     match r with
     | Ok a => let '(out, w2, tr2) := run h (f a s1) w1 in (out, w2, tr1 ++ tr2)
     | Err e => ((s1, Err e), w1, tr1)
     end).
Proof.
  unfold m_bind. rewrite run_bind. destruct (run h (m s) w) as [[[s1 [a|e]] w1] tr1]; [done|]. cbn. by rewrite app_nil_r.
Qed.

Lemma run_lift_try {A} (p : IO A) s w :
  run h (lift (try p) s) w = (let '(r, w1, tr) := run h p w in ((s, Ok r), w1, tr)).
Proof.
  unfold lift, try. rewrite !run_bind. destruct (run h p w) as [[r w1] tr]. cbn. by rewrite !app_nil_r.
Qed.

Lemma run_m_try {A} (m : M A) s w :
  run h (m_try m s) w = (let '((s1, r), w1, tr) := run h (m s) w in ((s1, Ok r), w1, tr)).
Proof. unfold m_try. rewrite run_bind. destruct (run h (m s) w) as [[[s1 r] w1] tr]. cbn. by rewrite app_nil_r. Qed.

Lemma run_m_wrapping {A} f args (m : M A) s w :
  run h (m_wrapping f args m s) w = (let '((s1, r), w1, tr) := run h (m s) w in ((s1, wrapf f args r), w1, tr)).
Proof. unfold m_wrapping. rewrite run_bind. destruct (run h (m s) w) as [[[s1 r] w1] tr]. cbn. by rewrite app_nil_r. Qed.

Lemma run_now_modify f s w :
  exists t w1, run h ((let@ t := now in modify (f t)) s) w = ((f t s, Ok tt), w1, [existT CNow t]).
Proof. rewrite run_m_bind. unfold now, lift. rewrite !run_bind. cbn. destruct (h w CNow) as [t w1]. by exists t, w1. Qed.

Lemma run_event t r n s w : exists w1, run h (event t r n s) w = ((s, Ok tt), w1, [existT (CEvent t r n) tt]).
Proof. unfold event, lift. rewrite !run_bind. cbn. destruct (h w (CEvent t r n)) as [[] w1]. by exists w1. Qed.

Context `{SpecDigest}.

(** Publishing leaves the object in memory alone, changes nothing else, and fails only as such. *)
Lemma run_updateStatus base s w :
  let '((s', r), _, tr) := run h (updateStatus base s) w in
  st_mig s' = st_mig s /\ changesNothing tr /\ (r = Ok tt \/ exists e, r = Err (Errorf "updating migration status: %w" [FE e])).
Proof.
  assert (allows (@only reading) reading) as Hr by (intros g c; exact (fun H => H)).
  pose proof (keeps_updateStatus _ _ (allows_stable _ _ (fun m => m = st_mig s) Hr) base s tt eq_refl) as Hk.
  apply (wp_run_all _ h _ _ _ w) in Hk as [_ Hk]; [|done].
  pose proof (only_calls_run _ h _ w (quietM_updateStatus base s)) as Hq.
  unfold updateStatus in *. rewrite run_m_wrapping in *. destruct (run h (RetryOnConflict _ s) w) as [[[s' r] w'] tr].
  split_and!; [done..|]. destruct r as [[]|e]; eauto.
Qed.

End Runs.

Section Reports.
Context `{SpecDigest} `{ProviderCodec} `{CloudCodec}.

(** What [processCondition] does with the outcome of a handler. *)
Definition settle (base : MigrationStatus) (t : string) (outcome : result Result) : M Result :=
  match outcome with
  | Err e =>
      if IsExecutionStopped e then ret done_result
      else
        let@ _ := setCondition t ConditionFalse (reasonForError e) (Error e) in
        let@ _ := Eventf "Warning" "ConditionFailed" "Condition %s failed: %v" [RStr t; RStr (Error e)] in
        let@ _ := updateStatus base in
        throw e
  | Ok result => let@ _ := updateStatus base in ret result
  end.

Lemma recordsFailure_set now t e m : recordsFailure (conditionSet now t ConditionFalse (reasonForError e) (Error e) m) t e.
Proof.
  unfold recordsFailure, conditionSet. cbn.
  destruct (Find_Set_same now (Conditions (mig_Status m)) (MkCondition t ConditionFalse (mig_Generation m) None (reasonForError e) (Error e)))
    as (c & Hc & Hs & Hr & Hm & Hg). by exists c.
Qed.

Lemma run_settle {W} (h : W -> forall c, resp c * W) base t outcome s w :
  let '((s', r), _, tr) := run h (settle base t outcome s) w in
  changesNothing tr /\
  match outcome with
  | Err e => if IsExecutionStopped e then s' = s /\ tr = [] /\ r = Ok done_result
      else recordsFailure (st_mig s') t e /\ failureEvent t e ∈ tr /\ (r = Err e \/ publishError r)
  | Ok res => st_mig s' = st_mig s /\ (r = Ok res \/ publishError r)
  end.
Proof.
  unfold settle. destruct outcome as [res|e]; [|destruct (IsExecutionStopped e); [by repeat constructor|]].
  - rewrite run_m_bind. pose proof (run_updateStatus h base s w) as Hu.
    destruct (run h (updateStatus base s) w) as [[[s2 u] w4] tr4]. destruct Hu as (Hm & Hq & [->|(e & ->)]); cbn.
    + rewrite app_nil_r. auto.
    + split_and!; [done..|]. right. by exists e.
  - rewrite run_m_bind. unfold setCondition. destruct (run_now_modify h (fun t' => with_mig (conditionSet t' t ConditionFalse (reasonForError e) (Error e))) s w)
      as (now & w1 & ->). cbn beta iota zeta.
    rewrite run_m_bind. unfold Eventf.
    destruct (run_event h "Warning" "ConditionFailed" (Sprintf "Condition %s failed: %v" [RStr t; RStr (Error e)])
                (with_mig (conditionSet now t ConditionFalse (reasonForError e) (Error e)) s) w1) as (w2 & ->). cbn beta iota zeta.
    rewrite run_m_bind. set (s1 := with_mig _ s). pose proof (run_updateStatus h base s1 w2) as Hu.
    destruct (run h (updateStatus base s1) w2) as [[[s2 u] w4] tr4]. destruct Hu as (Hm & Hq & Hu).
    assert (recordsFailure (st_mig s2) t e) as Hrec by (rewrite Hm; apply recordsFailure_set).
    assert (changesNothing (existT CNow now :: failureEvent t e :: tr4)) as Hq' by by repeat constructor.
    destruct Hu as [->|(e' & ->)]; cbn; rewrite ?app_nil_r; (split_and!; [done..|by do 2 constructor|]); [by left|right; by exists e'].
Qed.

(** C9: How a handler's failure is reported.  A handler runs only while permission is held,
    which is checked again after it.  When permission was withdrawn, before or after, the
    reconcile ends without an error and without a trace of it: nothing is recorded, announced
    or published.  Any other failure, the handler's or of the second check, makes the
    condition False at the current generation with the error as its message and the reason
    Retrying for a transient error and Failed for others, is announced as a warning event and
    returned, unless publishing fails and its own error is returned instead; a success
    returns the handler's result under the same proviso.  None of the reporting changes the
    cluster or a vCenter. *)
Theorem processCondition_reports {W} (h : W -> forall c, resp c * W) (w : W) (ctx : Ctx) (base : MigrationStatus)
    (t : string) (handler : Ctx -> M Result) (s : St) :
  let '(p, w1, tr1) := run h (Check ctx) w in
  let '((s1, o), w2, tr2) := run h (handler ctx s) w1 in
  let '(p', w3, tr3) := run h (Check ctx) w2 in
  let '((s', r), _, tr) := run h (processCondition ctx base t handler s) w in
  match p with
  | Err e => s' = s /\ tr = tr1 /\ r = (if IsExecutionStopped e then Ok done_result else Err e)
  | Ok _ =>
      exists tr4, tr = tr1 ++ tr2 ++ tr3 ++ tr4 /\ changesNothing tr4 /\
        match p', o with
        | Err e, _ | Ok _, Err e =>
            if IsExecutionStopped e then s' = s1 /\ tr4 = [] /\ r = Ok done_result
            else recordsFailure (st_mig s') t e /\ failureEvent t e ∈ tr4 /\ (r = Err e \/ publishError r)
        | Ok _, Ok res => st_mig s' = st_mig s1 /\ (r = Ok res \/ publishError r)
        end
  end.
Proof.
  unfold processCondition. rewrite run_m_bind, run_lift_try. destruct (run h (Check ctx) w) as [[[[]|e] w1] tr1];
    [|destruct (run h (handler ctx s) w1) as [[[s1 o] w2] tr2]; destruct (run h (Check ctx) w2) as [[p' w3] tr3];
      destruct (IsExecutionStopped e); cbn; by rewrite app_nil_r].
  rewrite run_m_bind, run_m_try. destruct (run h (handler ctx s) w1) as [[[s1 o] w2] tr2].
  rewrite run_m_bind, run_lift_try. destruct (run h (Check ctx) w2) as [[p' w3] tr3].
  change (run h _ w3) with (run h (settle base t (match p' with Err e => Err e | Ok _ => o end) s1) w3).
  pose proof (run_settle h base t (match p' with Err e => Err e | Ok _ => o end) s1 w3) as Hs.
  destruct (run h (settle _ _ _ s1) w3) as [[[s' r] w'] tr4]. destruct Hs as [Hq Hend].
  exists tr4. split; [done|]. split; [done|]. by destruct p' as [[]|e], o as [res|e'].
Qed.

End Reports.
