(* ===== verification/StatusShape.v ===== *)
(** * The status the operator publishes fits its schema

    Every status update a reconcile submits has conditions with distinct types, each with a
    status, a reason, a generation and a transition time the schema admits, a well-formed
    completion digest and the node migration record as it was stored. *)

From S2P Require Import Prelude GoErrors Objects NodeMigration Types Effects Execution Metrics Status Invariants Infrastructure Codec Machines Operators Mapping Admission Destinations Workers Netip VSphere Probe Metadata Preflight Destination Workload SourceCleanup Ready Phases Reconcile.
Import GoStr.

(** ** Well-shaped objects *)

Definition shapedConditions (conds : list Condition) : Prop :=
  NoDup (c_Type <$> conds) /\ Forall (fun c => conditionShape c = true) conds.

Record shaped (m : Migration) : Prop := {
  shaped_generation : (0 <= mig_Generation m)%Z;
  shaped_conditions : shapedConditions (Conditions (mig_Status m));
  shaped_hash : whenSet digest64 (CompletionSpecHash (mig_Status m)) = true;
  shaped_node : whenSome validNodeMigrationStatus (StatusNodeMigration (mig_Status m)) = true;
}.

(** The parts of a condition the program chooses. *)
Definition goodCondition (ty status reason : string) : bool :=
  (RuneCount ty <=? 316)%Z && conditionTypePattern ty && ContainsStr [ConditionTrue; ConditionFalse; ConditionUnknown] status &&
  lengthWithin 1 1024 reason && reasonPattern reason.

Lemma conditionShape_iff c :
  conditionShape c = true <->
  goodCondition (c_Type c) (c_Status c) (c_Reason c) = true /\ (0 <= c_ObservedGeneration c)%Z /\ is_Some (c_LastTransitionTime c).
Proof.
  unfold conditionShape, goodCondition. rewrite !andb_true_iff, !Z.leb_le, bool_decide_eq_true. tauto.
Qed.

(** ** Setting and merging conditions *)

Lemma Set_types t conds new :
  (c_Type <$> SetStatusCondition t conds new) = (c_Type <$> conds) \/
  (c_Type new ∉ (c_Type <$> conds)) /\ (c_Type <$> SetStatusCondition t conds new) = (c_Type <$> conds) ++ [c_Type new].
Proof.
  induction conds as [|c conds IH]; cbn; [right; split; [apply not_elem_of_nil|done]|].
  destruct (String.eqb_spec (c_Type c) (c_Type new)) as [E|E]; cbn; [by left|].
  destruct IH as [->|[Hn ->]]; [by left|right]. rewrite not_elem_of_cons. auto.
Qed.

Lemma Set_shaped t conds new :
  shapedConditions conds -> goodCondition (c_Type new) (c_Status new) (c_Reason new) = true -> (0 <= c_ObservedGeneration new)%Z ->
  shapedConditions (SetStatusCondition t conds new).
Proof.
  intros [Hd Hf] Hg Hn. split.
  - destruct (Set_types t conds new) as [->|[Hni ->]]; [done|]. apply NoDup_app. split_and!; [done| |apply NoDup_singleton].
    intros x Hx ->%list_elem_of_singleton. done.
  - clear Hd. induction Hf as [|c conds Hc Hf IH]; cbn.
    + constructor; [|done]. apply conditionShape_iff. cbn. split_and!; [done..|]. destruct (c_LastTransitionTime new); eauto.
    + destruct (String.eqb_spec (c_Type c) (c_Type new)) as [E|E]; constructor; try done.
      apply conditionShape_iff in Hc as (_ & _ & Ht). apply conditionShape_iff. cbn. rewrite E. split_and!; [done..|].
      destruct (String.eqb _ _); [done|]. destruct (c_LastTransitionTime new); eauto.
Qed.

Lemma merge_shaped t gen base conds latest ch :
  Forall (fun c => conditionShape c = true) conds -> shapedConditions latest ->
  shapedConditions (mergeConditions t gen base conds latest ch).1.
Proof.
  intros Hf. revert latest ch. induction Hf as [|c conds Hc Hf IH]; intros latest ch Hl; cbn [mergeConditions]; [done|].
  repeat match goal with |- context [if ?b then _ else _] => destruct b; [by apply IH|] end.
  apply IH. apply conditionShape_iff in Hc as (? & ? & _). by apply Set_shaped.
Qed.

Lemma Remove_shaped conds ty : shapedConditions conds -> shapedConditions (RemoveStatusCondition conds ty).
Proof.
  intros [Hd Hf]. unfold RemoveStatusCondition. split.
  - clear Hf. induction conds as [|c conds IH]; [done|]. rewrite fmap_cons, NoDup_cons in Hd. destruct Hd as [Hn Hd].
    rewrite filter_cons. case_decide; [|auto]. rewrite fmap_cons, NoDup_cons. split; [|auto].
    intros (d & E & [_ Hin]%list_elem_of_filter)%list_elem_of_fmap. apply Hn. rewrite E. by apply list_elem_of_fmap_2.
  - rewrite Forall_forall in *. intros c [_ Hc]%list_elem_of_filter. auto.
Qed.

Lemma shaped_set_Conditions m conds : shaped m -> shapedConditions conds -> shaped (upd_Status (set_Conditions conds) m).
Proof. intros [] Hc. by split. Qed.

Lemma conditionSet_shaped t ty status reason message m :
  goodCondition ty status reason = true -> shaped m -> shaped (conditionSet t ty status reason message m).
Proof.
  intros Hg Hm. pose proof Hm as [Hgen Hc Hh Hn]. split; [done| |done|done]. by apply Set_shaped.
Qed.

Section Merge.
Context `{SpecDigestLaws}.

Lemma mergeStatus_shaped t migration latest base new ch :
  shaped migration -> shaped latest -> mergeStatus t migration latest base = Ok (new, ch) -> shaped new.
Proof.
  intros [_ [_ Hc] _ _] Hl. unfold mergeStatus.
  assert (shaped (clearRecoveredMappingRejection migration latest base).1) as H1.
  { unfold clearRecoveredMappingRejection. destruct (_ && _); [|done]. apply (shaped_set_Conditions latest); [done|].
    apply Remove_shaped, Hl. }
  destruct (clearRecoveredMappingRejection _ _ _) as [l1 c1]; cbn [fst] in H1. clear Hl.
  assert (shaped (mergeStatusConditions t migration l1 base).1) as H2.
  { unfold mergeStatusConditions.
    pose proof (merge_shaped t (mig_Generation l1) (Conditions base) _ (Conditions (mig_Status l1)) false Hc (shaped_conditions _ H1)) as Hs.
    destruct (mergeConditions _ _ _ _ _ _) as [conds c]. by apply shaped_set_Conditions. }
  destruct (mergeStatusConditions _ _ _ _) as [l2 c2]; cbn [fst] in H2. clear H1.
  assert (shaped (mergeProgress migration l2 base).1) as H3
    by (unfold mergeProgress; destruct (_ && _); [|done]; by destruct H2).
  destruct (mergeProgress _ _ _) as [l3 c3]; cbn [fst] in H3. clear H2.
  assert (shaped (mergeStartTime migration l3).1) as H4
    by (unfold mergeStartTime; destruct (StartTime (mig_Status migration)), (StartTime (mig_Status l3)); by destruct H3).
  destruct (mergeStartTime _ _) as [l4 c4]; cbn [fst] in H4. clear H3.
  destruct (mergeCompletionRecord _ _ _) as [[l5 c5]|] eqn:E5; [|done].
  assert (shaped l5) as H5.
  { revert E5. unfold mergeCompletionRecord. destruct (FindStatusCondition _ _); [|by intros [= <- _]].
    destruct (_ || bool_decide _); [by intros [= <- _]|]. unfold completionSpecHash.
    destruct (MarshalSpec _) as [data|]; [|done]. cbn. destruct (_ || _); intros [= <- _]; [|done].
    destruct H4. split; try done. cbn. unfold whenSet, digest64. rewrite sha256_length, sha256_hex. by rewrite orb_true_r. }
  clear E5 H4.
  assert (shaped (mergeMappings migration l5).1) as H6.
  { unfold mergeMappings. destruct (StatusMappings (mig_Status migration)), (StatusMappings (mig_Status l5)); try done.
    destruct (_ && _); [|done]. by destruct H5. }
  destruct (mergeMappings _ _) as [l6 c6]; cbn [fst] in H6. clear H5.
  unfold mergeNames. destruct (appendNames _ _) as [names c7]. intros [= <- _]. by destruct H6.
Qed.

End Merge.

(** ** The walk *)

(** Stored objects are well-shaped: the API server validates every write. *)
Definition schema : Observer unit :=
  MkObserver (fun _ c => match c with CUpdateMigrationStatus new => shaped new | _ => True end) (fun _ _ _ => tt)
    (fun _ c r => (match c return resp c -> Prop with
       | CGetMigration _ _ _ => fun r => forall m, r = Ok m -> shaped m
       | _ => fun _ => True
       end) r).

(** Every call but a status write. *)
Definition notStatus (c : call) : Prop := match c with CUpdateMigrationStatus _ => False | _ => True end.

Definition shapedIn (m : Migration) (_ : unit) : Prop := shaped m.

Lemma schema_stable : stable schema notStatus shapedIn.
Proof. by intros m g [] Hc Hm. Qed.

(** The walk of a lifted program: no status write among its calls. *)
Ltac not_status := idtac;
  repeat first
    [ solve [eauto with calls]
    | only_step; try exact Logic.I
    | lazymatch goal with |- only_calls _ ?p => unfold_head p end ].

Section Walk.
Context `{SpecDigestLaws} `{ProviderCodec} `{CloudCodec}.
Let Hfree := schema_stable.

Lemma shape_setCondition ty status reason message :
  goodCondition ty status reason = true -> keeps schema shapedIn (setCondition ty status reason message).
Proof. intros Hg. eapply keeps_setCondition; [exact Hfree|done|]. intros t m g. by apply conditionSet_shaped. Qed.

Lemma shape_metrics latest : keeps schema shapedIn (updateSingletonMetrics latest).
Proof. keeps_auto not_status. Qed.

Lemma shape_updateStatus base : keeps schema shapedIn (updateStatus base).
Proof.
  unfold updateStatus, RetryOnConflict. apply keeps_wrapping, keeps_retry. intros s g Hs. unfold updateStatusOnce.
  repeat wp_step; [done|]. intros [latest|e] Hl; [|done]. specialize (Hl latest eq_refl). cbn [wp].
  repeat wp_step; try done. intros t _. repeat wp_step; try done; [by apply shape_metrics|].
  intros t' _. match goal with E : mergeStatus _ _ _ _ = Ok _ |- _ => apply mergeStatus_shaped in E as Hnew; [|done..] end.
  repeat wp_step; [by destruct Hnew|]. intros [[]|e] _; cbn [wp]; [by apply shape_metrics|done].
Qed.

Lemma shape_persistNames : keeps schema shapedIn persistWorkerMachineSetNames.
Proof.
  unfold persistWorkerMachineSetNames, RetryOnConflict. apply keeps_bind; [apply keeps_get_mig|]. intros m.
  destruct (WorkerMachineSetNames (mig_Status m)) as [|n names]; [apply keeps_ret|]. apply keeps_wrapping, keeps_retry.
  intros s g Hs. unfold persistNamesOnce. repeat wp_step; [done|]. intros [latest|e] Hl; [|done]. specialize (Hl latest eq_refl).
  cbn [wp]. repeat wp_step; try done. by destruct Hl.
Qed.

Lemma shape_persistSource server : keeps schema shapedIn (persistSourceVCenter server).
Proof.
  unfold persistSourceVCenter, RetryOnConflict. apply keeps_retry. intros s g Hs. unfold persistSourceVCenterOnce.
  repeat wp_step; [done|]. intros [latest|e] Hl; [|done]. specialize (Hl latest eq_refl).
  cbn [wp]. repeat wp_step; try done; [by destruct Hs|by destruct Hl|]. intros [[]|e] _; cbn [wp]; [|done]. repeat wp_step. by destruct Hs.
Qed.

Hint Resolve shape_updateStatus shape_persistNames shape_persistSource : keeps.

Ltac shape_auto :=
  repeat first
    [ solve [eauto with keeps]
    | lazymatch goal with
      | |- keeps _ _ (setCondition _ _ _ _) => apply shape_setCondition; vm_compute; reflexivity
      | |- shapedIn _ _ -> _ => solve [by intros []]
      end
    | keeps_step not_status ].


Lemma status_waitGuest n s vm : only_calls notStatus (waitGuest n s vm).
Proof. revert s vm. induction n as [|n IH]; intros s vm; cbn [waitGuest]; not_status; done. Qed.
Hint Resolve status_waitGuest : calls.

Lemma shape_handlers t handler ctx : handlerFor handlers t = Some handler -> keeps schema shapedIn (handler ctx).
Proof.
  cbn [handlerFor handlers]. intros Hh.
  repeat match type of Hh with (if ?b then _ else _) = _ => destruct b end; simplify_eq; shape_auto.
Qed.

Lemma shape_processCondition ctx base t handler :
  t ∈ conditionOrder -> keeps schema shapedIn (handler ctx) -> keeps schema shapedIn (processCondition ctx base t handler).
Proof.
  intros Ht Hh. assert (forall e msg, keeps schema shapedIn (setCondition t ConditionFalse (reasonForError e) msg)) as Hset.
  { intros e msg. apply shape_setCondition. unfold reasonForError.
    repeat (apply elem_of_cons in Ht as [->|Ht]; [destruct (isTransientError _); vm_compute; reflexivity|]). by apply not_elem_of_nil in Ht. }
  unfold processCondition. shape_auto.
Qed.

Lemma shape_walk ctx base order : order ⊆ conditionOrder -> keeps schema shapedIn (walkConditions ctx base order).
Proof.
  induction order as [|t order IH]; intros Ho; cbn [walkConditions]; [shape_auto|].
  apply keeps_bind; [apply keeps_get_mig|]. intros m. destruct (isConditionTrue m t); [apply IH; intros x Hx; apply Ho; by right|].
  destruct (handlerFor handlers t) as [handler|] eqn:E; [|apply keeps_throw].
  apply shape_processCondition; [apply Ho; by left|by eapply shape_handlers].
Qed.
Hint Resolve shape_walk : keeps.

Lemma shape_reconcileFetched ctx : keeps schema shapedIn (reconcileFetched ctx).
Proof.
  unfold reconcileFetched, reconcileWorkflow. apply keeps_bind; [apply keeps_get_mig|]. intros m. cbv zeta.
  destruct (String.eqb (mig_Name m) SingletonName); shape_auto; intros []; split; try done; by apply Remove_shaped.
Qed.

(** C10: Every status the operator publishes fits its schema.  In every world whose stored
    migration objects do, each status update of a reconcile has conditions of distinct types,
    each with an admissible type, status and reason, a generation and a transition time; its
    completion digest, if any, is 64 lowercase hexadecimal characters and its node migration
    record is one the API server admits. *)
Theorem published_status_shaped {W} (h : W -> forall c, resp c * W) (w : W) (ctx : Ctx) (namespace name : string) (s : St) :
  admissible schema tt (run h (Reconcile ctx namespace name s) w).2 ->
  Forall (fun e => match projT1 e with CUpdateMigrationStatus new => shaped new | _ => True end) (run h (Reconcile ctx namespace name s) w).2.
Proof.
  intros Hadm. assert (wp schema (Reconcile ctx namespace name s) (fun _ _ => True) tt) as Hwp.
  { unfold Reconcile. repeat wp_step; [done|]. intros [m|e] Hm; repeat wp_step; try done.
    eapply wp_mono; [|apply shape_reconcileFetched; by apply (Hm m)]. done. }
  pose proof (wp_run _ h _ _ _ w Hwp) as Hrun. destruct (run h (Reconcile ctx namespace name s) w) as [[out w'] tr].
  destruct (Hrun Hadm) as [Hobs _]. clear -Hobs. cbn [snd]. induction tr as [|[c r] tr IH]; [constructor|].
  destruct Hobs as [Hc Hobs]. constructor; [by destruct c|]. by apply IH.
Qed.

End Walk.

(** A first reconcile of an admitted migration without the finalizer's guard in the way: it
    records the start, then fails preflight because every other service is unavailable. *)
Definition example_running : Migration :=
  set_Finalizers [FinalizerName] example_admitted.
Definition example_store (w : nat) (c : call) : resp c * nat :=
  match c with
  | CNow => (Z.of_nat w, S w)
  | CGetMigration _ _ _ => (Ok example_running, S w)
  | CUpdateMigrationStatus _ => (Ok tt, S w)
  | c => (unavailable c, S w)
  end.
Definition example_reconcile := run example_store (Reconcile Background SingletonNamespace SingletonName (example_state example_running)) 1.

Lemma example_store_admissible {A} (p : Prog A) w : admissible schema tt (run example_store p w).2.
Proof.
  revert w. induction p as [a|c k IH]; intros w; [done|]. cbn [run].
  assert (env schema tt c (example_store w c).1) as He.
  { destruct c; try done. intros m [= <-]. split; [done| |done|done]. split; [apply NoDup_nil_2|constructor]. }
  destruct (example_store w c) as [r w']. specialize (IH r w'). destruct (run example_store (k r) w') as [[? ?] ?]. by split.
Qed.

Definition statusWrites (tr : list event_of) : nat :=
  length (filter (fun e => match projT1 e with CUpdateMigrationStatus _ => true | _ => false end = true) tr).

Lemma published_status_shaped_witness :
  statusWrites example_reconcile.2 = 2 /\
  Forall (fun e => match projT1 e with CUpdateMigrationStatus new => shaped new | _ => True end) example_reconcile.2.
Proof.
  split; [vm_compute; reflexivity|]. apply published_status_shaped. apply example_store_admissible.
Defined.
