(* ===== verification/PhaseMachine.v ===== *)
(** * The published record as a phase counter

    The six conditions of the workflow, read as a counter: the phases below it are complete,
    the others are not.  Whatever other writers do, as long as they let the counter grow,
    each status a reconcile publishes moves it by at most one step, and never back: the
    operator refines a machine that counts to six. *)

From S2P Require Import Prelude GoErrors Objects NodeMigration Types Effects Execution Metrics Status Invariants Infrastructure Codec Machines Operators Mapping Admission Destinations Workers Netip VSphere Probe Metadata Preflight Destination Workload SourceCleanup Ready Phases Reconcile StatusShape.
Import GoStr.

(** ** The abstract machine *)

(** [m] records exactly the first [k] phases as complete. *)
Record completed (m : Migration) (k : nat) : Prop := {
  completed_range : k <= length conditionOrder;
  completed_unique : NoDup (c_Type <$> Conditions (mig_Status m));
  completed_iff : forall i t, conditionOrder !! i = Some t -> isConditionTrue m t = true <-> i < k;
}.

(** One step of the machine, or none. *)
Definition phaseStep (k k' : nat) : Prop := k' = k \/ k' = S k /\ k' <= length conditionOrder.

(** ** Conditions *)

(** Whatever is True in a list of conditions belongs to the first [k] phases. *)
Definition within (k : nat) (conds : list Condition) : Prop :=
  Forall (fun c => c_Status c = ConditionTrue -> forall i, conditionOrder !! i = Some (c_Type c) -> i < k) conds.

Lemma Find_unique conds c : NoDup (c_Type <$> conds) -> c ∈ conds -> FindStatusCondition conds (c_Type c) = Some c.
Proof.
  induction conds as [|d conds IH]; intros Hd Hc; [by apply not_elem_of_nil in Hc|].
  rewrite fmap_cons, NoDup_cons in Hd. destruct Hd as [Hn Hd]. apply elem_of_cons in Hc as [<-|Hc]; cbn.
  - by rewrite String.eqb_refl.
  - destruct (String.eqb_spec (c_Type d) (c_Type c)) as [E|E]; [|auto]. destruct Hn. rewrite E. by apply list_elem_of_fmap_2.
Qed.

Lemma completed_within m k : completed m k -> within k (Conditions (mig_Status m)).
Proof.
  intros [_ Hd Hi]. apply Forall_forall. intros c Hc Ht i Hp. apply (Hi _ _ Hp). unfold isConditionTrue.
  rewrite (Find_unique _ _ Hd Hc), Ht. apply String.eqb_refl.
Qed.

Lemma within_mono k k' conds : k <= k' -> within k conds -> within k' conds.
Proof. intros Hk Hw. eapply Forall_impl; [exact Hw|]. intros c Hc Ht i Hp. specialize (Hc Ht i Hp). lia. Qed.

Lemma Set_within t k conds new :
  within k conds -> (c_Status new = ConditionTrue -> forall i, conditionOrder !! i = Some (c_Type new) -> i < k) ->
  within k (SetStatusCondition t conds new).
Proof.
  intros Hw Hn. induction Hw as [|c conds Hc Hw IH]; cbn; [by repeat constructor|].
  destruct (String.eqb_spec (c_Type c) (c_Type new)) as [E|E]; constructor; try done. cbn. by rewrite E.
Qed.

Lemma merge_within t gen base k conds latest ch :
  within k conds -> within k latest -> within k (mergeConditions t gen base conds latest ch).1.
Proof.
  intros Hw. revert latest ch. induction Hw as [|c conds Hc Hw IH]; intros latest ch Hl; cbn [mergeConditions]; [done|].
  repeat match goal with |- context [if ?b then _ else _] => destruct b; [by apply IH|] end. apply IH. by apply Set_within.
Qed.

Lemma Set_unique t conds new : NoDup (c_Type <$> conds) -> NoDup (c_Type <$> SetStatusCondition t conds new).
Proof.
  intros Hd. destruct (Set_types t conds new) as [->|[Hn ->]]; [done|]. apply NoDup_app. split_and!; [done| |apply NoDup_singleton].
  by intros x Hx ->%list_elem_of_singleton.
Qed.

Lemma merge_unique t gen base conds latest ch :
  NoDup (c_Type <$> latest) -> NoDup (c_Type <$> (mergeConditions t gen base conds latest ch).1).
Proof.
  revert latest ch. induction conds as [|c conds IH]; intros latest ch Hl; cbn [mergeConditions]; [done|].
  repeat match goal with |- context [if ?b then _ else _] => destruct b; [by apply IH|] end. apply IH. by apply Set_unique.
Qed.

Lemma Remove_unique conds ty : NoDup (c_Type <$> conds) -> NoDup (c_Type <$> RemoveStatusCondition conds ty).
Proof.
  unfold RemoveStatusCondition. induction conds as [|c conds IH]; intros Hd; [done|].
  rewrite fmap_cons, NoDup_cons in Hd. destruct Hd as [Hn Hd]. rewrite filter_cons. case_decide; [|auto].
  rewrite fmap_cons, NoDup_cons. split; [|auto].
  intros (d & E & [_ Hin]%list_elem_of_filter)%list_elem_of_fmap. apply Hn. rewrite E. by apply list_elem_of_fmap_2.
Qed.

(** What was True stays and what is new belongs to the next phase: one step at most. *)
Lemma completed_extend m new k :
  completed m k -> NoDup (c_Type <$> Conditions (mig_Status new)) ->
  (forall t, isConditionTrue m t = true -> isConditionTrue new t = true) ->
  (forall i t, conditionOrder !! i = Some t -> isConditionTrue new t = true -> i <= k) ->
  exists k', completed new k' /\ phaseStep k k'.
Proof.
  intros [Hr Hd Hi] Hd' Hkeep Hnew.
  assert (forall i t, conditionOrder !! i = Some t -> i < k -> isConditionTrue new t = true) as Hold
    by (intros i t Ht Hlt; apply Hkeep; by apply (Hi _ _ Ht)).
  destruct (conditionOrder !! k) as [tk|] eqn:Hk; [destruct (isConditionTrue new tk) eqn:Hnk|].
  - pose proof (lookup_lt_Some _ _ _ Hk). exists (S k). split; [|right; lia]. split; [lia|done|]. intros i t Ht. split.
    + intros Hn. specialize (Hnew _ _ Ht Hn). lia.
    + intros Hlt. destruct (decide (i = k)) as [->|]; [congruence|]. apply (Hold i); [done|lia].
  - exists k. split; [|by left]. split; [done..|]. intros i t Ht. split; [|by apply Hold].
    intros Hn. pose proof (Hnew _ _ Ht Hn). destruct (decide (i = k)) as [->|]; [congruence|lia].
  - exists k. split; [|by left]. apply lookup_ge_None in Hk. split; [done..|]. intros i t Ht. split; [|by apply Hold].
    intros _. apply lookup_lt_Some in Ht. lia.
Qed.

Lemma within_True k conds t i :
  within k conds -> conditionOrder !! i = Some t ->
  match FindStatusCondition conds t with Some c => String.eqb (c_Status c) ConditionTrue | None => false end = true -> i < k.
Proof.
  intros Hw Ht. destruct (FindStatusCondition conds t) as [c|] eqn:Hf; [|done]. intros Hs%String.eqb_eq.
  apply Find_In in Hf as [Hin <-]. apply list_elem_of_In in Hin. unfold within in Hw. rewrite Forall_forall in Hw. by apply (Hw c).
Qed.

Section Merge.
Context `{SpecDigest}.

(** The conditions of a merged status. *)
Lemma mergeStatus_conditions t migration latest base new ch :
  mergeStatus t migration latest base = Ok (new, ch) ->
  exists l1, (l1 = latest \/ l1 = upd_Status (fun st => set_Conditions (RemoveStatusCondition (Conditions st) ConditionAccepted) st) latest) /\
    Conditions (mig_Status new) =
      (mergeConditions t (mig_Generation latest) (Conditions base) (Conditions (mig_Status migration)) (Conditions (mig_Status l1)) false).1.
Proof.
  unfold mergeStatus. destruct (clearRecoveredMappingRejection migration latest base) as [l1 c1] eqn:E1.
  assert (mig_Generation l1 = mig_Generation latest /\ (l1 = latest \/
    l1 = upd_Status (fun st => set_Conditions (RemoveStatusCondition (Conditions st) ConditionAccepted) st) latest)) as [Hg Hl1].
  { revert E1. unfold clearRecoveredMappingRejection. destruct (_ && _); intros [= <- _]; auto. }
  clear E1. unfold mergeStatusConditions. rewrite Hg. destruct (mergeConditions _ _ _ _ _ _) as [conds c2] eqn:E2.
  unfold mergeProgress. destruct (if _ && _ then _ else _) as [l3 c3] eqn:E3.
  assert (Conditions (mig_Status l3) = conds) as H3 by (destruct (_ && _); by simplify_eq). clear E3.
  unfold mergeStartTime. destruct (match StartTime (mig_Status migration) with Some _ => _ | None => _ end) as [l4 c4] eqn:E4.
  assert (Conditions (mig_Status l4) = conds) as H4
    by (destruct (StartTime (mig_Status migration)), (StartTime (mig_Status l3)); by simplify_eq). clear E4 H3.
  destruct (mergeCompletionRecord _ _ _) as [[l5 c5]|] eqn:E5; [|done].
  assert (Conditions (mig_Status l5) = conds) as H5.
  { revert E5. unfold mergeCompletionRecord. destruct (FindStatusCondition _ _); [|by intros [= <- _]].
    destruct (_ || bool_decide _); [by intros [= <- _]|]. destruct (completionSpecHash _); [|done].
    destruct (_ || _); by intros [= <- _]. }
  clear E5 H4. destruct (mergeMappings _ _) as [l6 c6] eqn:E6.
  assert (Conditions (mig_Status l6) = conds) as H6.
  { revert E6. unfold mergeMappings. destruct (StatusMappings (mig_Status migration)), (StatusMappings (mig_Status l5)); try by intros [= <- _].
    destruct (_ && _); by intros [= <- _]. }
  clear E6 H5. unfold mergeNames. destruct (appendNames _ _) as [names c7]. intros [= <- _].
  exists l1. split; [done|]. cbn. by rewrite H6, E2.
Qed.

(** A merge moves the counter by one step at most. *)
Lemma mergeStatus_phase t migration latest base new ch k0 k :
  mergeStatus t migration latest base = Ok (new, ch) -> within k0 (Conditions (mig_Status migration)) -> k0 <= S k ->
  completed latest k -> exists k', completed new k' /\ phaseStep k k'.
Proof.
  intros Hm Hw Hk Hc. apply mergeStatus_kept in Hm as Hkept. apply mergeStatus_conditions in Hm as (l1 & Hl1 & Hconds).
  assert (NoDup (c_Type <$> Conditions (mig_Status l1)) /\ within (S k) (Conditions (mig_Status l1))) as [Hu1 Hw1].
  { pose proof (completed_within _ _ Hc) as Hwl. destruct Hc as [_ Hd _].
    destruct Hl1 as [->| ->]; [split; [done|by eapply within_mono; [|exact Hwl]; lia]|]. cbn. split; [by apply Remove_unique|].
    apply Forall_forall. intros c [_ Hin]%list_elem_of_filter Ht i Hp. unfold within in Hwl. rewrite Forall_forall in Hwl.
    specialize (Hwl c Hin Ht i Hp). lia. }
  apply (completed_extend latest new k); [done|rewrite Hconds; by apply merge_unique| |].
  - intros ty Ht. unfold isConditionTrue in *. destruct (FindStatusCondition (Conditions (mig_Status latest)) ty) as [c|] eqn:Hf; [|done].
    apply String.eqb_eq in Ht. destruct (kept_true _ _ Hkept ty c Hf Ht) as (c' & -> & ->). apply String.eqb_refl.
  - intros i ty Hi Ht. apply Nat.lt_succ_r. eapply within_True; [|exact Hi|exact Ht]. rewrite Hconds.
    apply merge_within; [|done]. eapply within_mono; [|exact Hw]. lia.
Qed.

End Merge.

(** ** The walk *)

(** The phase counter of an object that has one. *)
Definition progressOf (m : Migration) : nat := length (filter (fun t => isConditionTrue m t = true) conditionOrder).

Lemma progressOf_completed m k : completed m k -> progressOf m = k.
Proof.
  intros [Hr _ Hi]. unfold progressOf. rewrite <- (take_drop k conditionOrder), filter_app, length_app.
  rewrite filter_all, filter_none.
  - rewrite length_take. cbn [length]. lia.
  - apply Forall_forall. intros t (i & Ht)%list_elem_of_lookup. rewrite lookup_drop in Ht. rewrite (Hi _ _ Ht). lia.
  - apply Forall_forall. intros t (i & Ht)%list_elem_of_lookup. apply lookup_take_Some in Ht as [Ht Hlt]. by apply (Hi _ _ Ht).
Qed.

#[global] Arguments progressOf : simpl never.

(** The observer follows the counter of the stored object [uid]: reads, also through the
    cache, are assumed to show a counter that has not gone back, a write must move it by one
    step at most from the last one seen. *)
Definition counter (uid : string) : Observer nat :=
  MkObserver
    (fun k c => match c with CUpdateMigrationStatus new => exists k', completed new k' /\ phaseStep k k' | _ => True end)
    (fun k c r => (match c return resp c -> nat with
       | CGetMigration _ _ _ => fun r =>
           match r with Ok m => if String.eqb (mig_UID m) uid then progressOf m else k | Err _ => k end
       | CUpdateMigrationStatus new => fun r => if is_ok r then progressOf new else k
       | _ => fun _ => k
       end) r)
    (fun k c r => (match c return resp c -> Prop with
       | CGetMigration _ _ _ => fun r => forall m, r = Ok m -> mig_UID m = uid -> exists k', completed m k' /\ k <= k'
       | _ => fun _ => True
       end) r).

Section Walk.
Context `{SpecDigest} `{ProviderCodec} `{CloudCodec} (uid : string) (k0 b : nat) (Hb : b <= S k0).

(** The object in memory is that of the resource, claims at most the first [b] phases, and
    the stored counter is not behind [k0]. *)
Definition inHand (m : Migration) (k : nat) : Prop :=
  mig_UID m = uid /\ within b (Conditions (mig_Status m)) /\ k0 <= k.

Lemma counter_stable : stable (counter uid) notStatus inHand.
Proof.
  intros m k c Hc (Hu & Hw & Hk). split; [by destruct c|]. intros r Hr. split_and!; [done..|].
  destruct c; cbn -[progressOf] in *; try done. destruct r as [latest|]; [|done]. destruct (String.eqb_spec (mig_UID latest) uid); [|done].
  destruct (Hr latest) as (k' & Hc' & Hle); [done..|]. rewrite (progressOf_completed _ _ Hc'). lia.
Qed.
Let Hfree := counter_stable.

(** A condition may be set unless it claims a later phase. *)
Definition timely (ty status : string) : bool := negb (String.eqb status ConditionTrue) || ContainsStr (take b conditionOrder) ty.

Lemma conditionOrder_unique i j t : conditionOrder !! i = Some t -> conditionOrder !! j = Some t -> i = j.
Proof. apply NoDup_lookup. apply (bool_decide_unpack _). vm_compute. done. Qed.

Lemma phase_setCondition ty status reason message :
  timely ty status = true -> keeps (counter uid) inHand (setCondition ty status reason message).
Proof.
  intros Ht. eapply keeps_setCondition; [exact Hfree|done|]. intros t m k (Hu & Hw & Hk). split_and!; [done| |done].
  apply Set_within; [done|]. cbn. intros -> i Hi. unfold timely in Ht. rewrite String.eqb_refl in Ht. apply ContainsStr_spec in Ht.
  apply list_elem_of_lookup in Ht as (j & Hj). apply lookup_take_Some in Hj as [Hj Hlt]. by rewrite (conditionOrder_unique _ _ _ Hi Hj).
Qed.

Lemma phase_metrics latest : keeps (counter uid) inHand (updateSingletonMetrics latest).
Proof. keeps_auto not_status. Qed.

(** What a read of the resource tells. *)
Lemma counter_read ns n cached k latest :
  env (counter uid) k (CGetMigration cached ns n) (Ok latest) -> mig_UID latest = uid ->
  upd (counter uid) k (CGetMigration cached ns n) (Ok latest) = progressOf latest /\ completed latest (progressOf latest) /\ k <= progressOf latest.
Proof.
  intros Hr Hu. destruct (Hr latest eq_refl Hu) as (k' & Hc & Hle).
  split; [cbn [upd counter]; by rewrite Hu, String.eqb_refl|]. by rewrite (progressOf_completed _ _ Hc).
Qed.

(** Writing an object that moves the counter by one step at most, to the end of [Q]. *)
Lemma wp_write new k (Q : result unit -> nat -> Prop) :
  (exists k', completed new k' /\ phaseStep k k') -> k0 <= k -> (forall r k', k0 <= k' -> Q r k') ->
  wp (counter uid) (do_call (CUpdateMigrationStatus new)) Q k.
Proof.
  intros (k' & Hc & Hs) Hk HQ. apply wp_call; [by exists k'|]. intros r _. apply HQ. cbn.
  destruct (is_ok r); [|done]. rewrite (progressOf_completed _ _ Hc). destruct Hs as [->|[-> _]]; lia.
Qed.

Lemma phase_updateStatus base : keeps (counter uid) inHand (updateStatus base).
Proof.
  unfold updateStatus, RetryOnConflict. apply keeps_wrapping, keeps_retry. intros s k (Hu & Hw & Hk). unfold updateStatusOnce.
  repeat wp_step; [done|]. intros [latest|e] Hl; [|done]. cbn [wp].
  destruct (String.eqb_spec (mig_UID latest) (mig_UID (st_mig s))) as [E|E]; cbn [negb].
  2: { rewrite Hu in E. repeat wp_step. split_and!; [done..|]. cbn. by destruct (String.eqb_spec (mig_UID latest) uid). }
  destruct (counter_read _ _ _ _ _ Hl) as (-> & Hc & Hle); [congruence|].
  repeat wp_step; try done. intros t _. repeat wp_step; try (split_and!; [done..|]; cbn; lia).
  - apply phase_metrics. split_and!; [done..|]. cbn; lia.
  - done.
  - intros t' _. cbn [upd counter]. match goal with E : mergeStatus _ _ _ _ = Ok _ |- _ =>
      destruct (mergeStatus_phase _ _ _ _ _ _ b (progressOf latest) E Hw) as (k' & [] & Hs); [lia|done|] end.
    apply wp_m_bind, wp_lift, wp_write; [|lia|].
    + exists k'. by split.
    + intros [[]|e] k1 Hk1; [apply phase_metrics|]; by split_and!.
Qed.

Lemma phase_persistNames : keeps (counter uid) inHand persistWorkerMachineSetNames.
Proof.
  unfold persistWorkerMachineSetNames, RetryOnConflict. apply keeps_bind; [apply keeps_get_mig|]. intros m.
  destruct (WorkerMachineSetNames (mig_Status m)) as [|n names]; [apply keeps_ret|]. apply keeps_wrapping, keeps_retry.
  intros s k (Hu & Hw & Hk). unfold persistNamesOnce. repeat wp_step; [done|]. intros [latest|e] Hl; [|done]. cbn [wp].
  destruct (String.eqb_spec (mig_UID latest) (mig_UID (st_mig s))) as [E|E]; cbn [negb].
  2: { rewrite Hu in E. repeat wp_step. split_and!; [done..|]. cbn. by destruct (String.eqb_spec (mig_UID latest) uid). }
  destruct (counter_read _ _ _ _ _ Hl) as (-> & Hc & Hle); [congruence|]. destruct (appendNames _ _) as [merged changed].
  destruct changed; cbn [negb]; [|repeat wp_step; split_and!; [done..|lia]].
  apply wp_lift, wp_write; [|lia|intros r k' Hk'; by split_and!].
  exists (progressOf latest). split; [|by left]. by destruct Hc.
Qed.

Lemma phase_persistSource server : keeps (counter uid) inHand (persistSourceVCenter server).
Proof.
  unfold persistSourceVCenter, RetryOnConflict. apply keeps_retry. intros s k (Hu & Hw & Hk). unfold persistSourceVCenterOnce.
  repeat wp_step; [done|]. intros [latest|e] Hl; [|done]. cbn [wp].
  destruct (String.eqb_spec (mig_UID latest) (mig_UID (st_mig s))) as [E|E]; cbn [negb].
  2: { rewrite Hu in E. repeat wp_step. split_and!; [done..|]. cbn. by destruct (String.eqb_spec (mig_UID latest) uid). }
  destruct (counter_read _ _ _ _ _ Hl) as (-> & Hc & Hle); [congruence|].
  destruct (negb _); [destruct (negb _); repeat wp_step; split_and!; done || lia|].
  apply wp_m_bind, wp_lift, wp_write; [|lia|].
  - exists (progressOf latest). split; [|by left]. by destruct Hc.
  - intros [[]|e] k' Hk'; repeat wp_step; by split_and!.
Qed.

End Walk.

#[export] Hint Resolve phase_updateStatus phase_persistNames phase_persistSource : keeps.
#[export] Hint Resolve status_waitGuest : calls.

(** The walk of a program under the machine's invariant. *)
Ltac machine_auto :=
  lazymatch goal with |- keeps _ (inHand ?uid ?k ?b) _ => assert (stable (counter uid) notStatus (inHand uid k b)) by (apply counter_stable; lia) end;
  repeat first
    [ solve [eauto with keeps]
    | lazymatch goal with
      | |- keeps _ _ (setCondition _ _ _ _) => apply phase_setCondition; first [reflexivity|solve [eauto]]
      | |- inHand _ _ _ _ _ -> _ => solve [by intros (? & ? & ?)]
      end
    | keeps_step not_status ].

Section Machine.
Context `{SpecDigest} `{ProviderCodec} `{CloudCodec} (uid : string) (k0 : nat).

Lemma timely_at k t status : conditionOrder !! k = Some t -> k <= k0 -> timely (S k0) t status = true.
Proof.
  intros Ht Hk. unfold timely. apply orb_true_iff. right. apply ContainsStr_spec, list_elem_of_lookup. exists k.
  apply lookup_take_Some. split; [done|lia].
Qed.

(** The handler of a phase claims that phase and no later one. *)
Lemma machine_handler k t handler ctx :
  conditionOrder !! k = Some t -> k <= k0 -> handlerFor handlers t = Some handler ->
  keeps (counter uid) (inHand uid k0 (S k0)) (handler ctx).
Proof.
  assert (S k0 <= S k0) as Hb by lia. intros Ht Hk Hh.
  assert (forall status, timely (S k0) t status = true) as Htimely by (intros; by eapply timely_at).
  do 6 (destruct k as [|k]; [injection Ht as <-; injection Hh as <-; machine_auto|]). done.
Qed.

Lemma machine_processCondition k ctx base t handler :
  conditionOrder !! k = Some t -> k <= k0 -> handlerFor handlers t = Some handler ->
  keeps (counter uid) (inHand uid k0 (S k0)) (processCondition ctx base t handler).
Proof.
  intros Ht Hk Hh. assert (S k0 <= S k0) as Hb by lia. pose proof (machine_handler k t handler ctx Ht Hk Hh).
  unfold processCondition. machine_auto.
Qed.

Lemma within_S conds : within k0 conds -> within (S k0) conds.
Proof. apply within_mono. lia. Qed.

(** The walk reaches a phase whose predecessors are complete, so no later one than [k0]. *)
Lemma machine_walk ctx base i s k :
  inHand uid k0 k0 (st_mig s) k -> i <= k0 ->
  wp (counter uid) (walkConditions ctx base (drop i conditionOrder) s) (fun _ _ => True) k.
Proof.
  intros Hi. assert (k0 <= S k0) as Hb by lia.
  assert (forall (m : M Result), keeps (counter uid) (inHand uid k0 (S k0)) m -> wp (counter uid) (m s) (fun _ _ => True) k) as Hkeep.
  { intros m Hm. eapply wp_mono; [|apply Hm]; [done|]. destruct Hi as (? & ? & ?). split_and!; [done| |done]. by apply within_S. }
  remember (length conditionOrder - i) as n eqn:Hn. revert i Hn. induction n as [|n IH]; intros i Hn Hle.
  - rewrite drop_ge by lia. apply Hkeep. cbn [walkConditions]. assert (S k0 <= S k0) by lia. machine_auto.
  - destruct (conditionOrder !! i) as [t|] eqn:Ht; [|apply lookup_ge_None in Ht; lia].
    rewrite (drop_S _ _ _ Ht). cbn [walkConditions]. apply wp_m_bind. cbn [wp get_mig].
    destruct (isConditionTrue (st_mig s) t) eqn:Htrue.
    + apply IH; [lia|]. destruct Hi as (_ & Hw & _). by apply (within_True _ _ _ _ Hw Ht).
    + destruct (handlerFor handlers t) as [handler|] eqn:Hh; [|done]. apply Hkeep. by eapply machine_processCondition.
Qed.

(** The steps before the walk claim nothing. *)
Lemma machine_reconcileFetched ctx s k :
  inHand uid k0 k0 (st_mig s) k -> wp (counter uid) (reconcileFetched ctx s) (fun _ _ => True) k.
Proof.
  intros Hi. assert (k0 <= S k0) as Hb by lia.
  assert (forall A (m : M A) s k, inHand uid k0 k0 (st_mig s) k -> keeps (counter uid) (inHand uid k0 k0) m ->
    wp (counter uid) (m s) (fun '(s', _) k' => inHand uid k0 k0 (st_mig s') k') k) as Hstep by (intros A m s' k' Hi' Hm; by apply Hm).
  assert (forall ty, forall conds, within k0 conds -> within k0 (RemoveStatusCondition conds ty)) as Hrem.
  { intros ty conds Hw. unfold within in *. rewrite Forall_forall in *. intros c [_ Hc]%list_elem_of_filter. by apply Hw. }
  assert (forall A (m : M A), keeps (counter uid) (inHand uid k0 k0) m -> wp (counter uid) (m s) (fun _ _ => True) k) as Hrest.
  { intros A m Hm. eapply wp_mono; [|by apply Hm]. by intros [s' r] k'. }
  unfold reconcileFetched. apply wp_m_bind. cbn [wp get_mig]. cbv zeta.
  destruct (negb _ || negb _); [apply Hrest; destruct (String.eqb (mig_Name (st_mig s)) SingletonName); machine_auto|].
  destruct (mig_DeletionTimestamp (st_mig s)); [apply Hrest; machine_auto|].
  destruct (negb _); [apply Hrest; machine_auto|].
  unfold reconcileWorkflow. apply wp_m_bind. cbn [wp get_mig].
  destruct (negb _); [apply Hrest; machine_auto|].
  apply wp_m_bind. eapply wp_mono; [|apply Hstep; [exact Hi|machine_auto]]. intros [s1 []] k1 Hi1; [|done].
  apply wp_m_bind. eapply wp_mono; [|apply Hstep; [exact Hi1|]]; [intros [s2 [[]|]] k2 Hi2; [done| |done]|].
  - apply wp_m_bind. eapply wp_mono; [|apply Hstep; [exact Hi2|machine_auto]]. intros [s3 []] k3 Hi3; [|done].
    apply wp_m_bind. cbn [wp get_mig]. by apply (machine_walk _ _ 0); [|lia].
  - unfold checkMappingForReconcile. machine_auto. intros (? & ? & ?). split_and!; [done| |done]. by apply Hrem.
Qed.

End Machine.

(** C2: The operator refines a phase counter.  Let the fetched object record exactly the first
    [k0] phases as complete, and let every read of the resource with its UID, also through the
    cache, show a counter that is not behind the last one seen in a read or an accepted write
    (other writers move it forward only, and the cache does not go back in time).  Then every status the reconcile publishes records exactly the
    first [k'] phases for some [k'], and [k'] is the counter of the object it read last or one
    more: phases are never skipped, never reordered and never taken back, also when several
    reconciles interleave. *)
Theorem Reconcile_refines_counter `{SpecDigest} `{ProviderCodec} `{CloudCodec} {W} (h : W -> forall c, resp c * W) (w : W)
    (ctx : Ctx) (namespace name : string) (s : St) :
  exists r tr, (run h (Reconcile ctx namespace name s) w).2 = existT (CGetMigration true namespace name) r :: tr /\
    match r with
    | Ok m => forall k0, completed m k0 -> admissible (counter (mig_UID m)) k0 tr -> observed (counter (mig_UID m)) k0 tr
    | Err _ => tr = []
    end.
Proof.
  apply (run_Reconcile h w ctx namespace name s (fun m tr => forall k0, completed m k0 ->
    admissible (counter (mig_UID m)) k0 tr -> observed (counter (mig_UID m)) k0 tr)). intros m w' k0 Hc Hadm.
  assert (inHand (mig_UID m) k0 k0 m k0) as Hi by (split_and!; [done|by apply completed_within|done]).
  pose proof (wp_run _ h _ _ _ w' (machine_reconcileFetched (mig_UID m) k0 ctx (with_mig (fun _ => m) s) k0 Hi)) as Hrun.
  destruct (run h (reconcileFetched ctx _) w') as [[out w''] tr]. by apply Hrun.
Qed.


(** A store that shows an unstarted migration and refuses every write. *)
Definition refusing_store : unit -> forall c, resp c * unit :=
  answering (fun c => match c return option (resp c) with CGetMigration _ _ _ => Some (Ok example_running) | _ => None end).

Lemma completed_example : completed example_running 0.
Proof. split; [lia|apply NoDup_nil_2|]. intros i t _. split; [discriminate|lia]. Qed.

Lemma refusing_store_admissible {A} (p : Prog A) : admissible (counter "uid") 0 (run refusing_store p tt).2.
Proof.
  induction p as [a|c k IH]; [done|]. cbn [run].
  assert (env (counter "uid") 0 c (refusing_store tt c).1 /\ upd (counter "uid") 0 c (refusing_store tt c).1 = 0) as [He Hu].
  { destruct c; try done. split; [|done]. intros m [= <-] _. exists 0. split; [apply completed_example|done]. }
  destruct (refusing_store tt c) as [r []]. specialize (IH r). destruct (run refusing_store (k r) tt) as [[? ?] ?].
  cbn [fst snd] in *. split; [done|]. by rewrite Hu.
Qed.

(** The reconcile of that store attempts a publication, at counter zero. *)
Lemma Reconcile_refines_counter_witness :
  let tr := (run refusing_store (Reconcile Background SingletonNamespace SingletonName (example_state example_running)) tt).2 in
  completed example_running 0 /\ statusWrites tr = 1 /\ observed (counter "uid") 0 (tail tr).
Proof.
  cbv zeta. split; [exact completed_example|]. split; [vm_compute; reflexivity|].
  destruct (Reconcile_refines_counter refusing_store tt Background SingletonNamespace SingletonName (example_state example_running))
    as (r & tr & Htr & Hr). pose proof (refusing_store_admissible (Reconcile Background SingletonNamespace SingletonName (example_state example_running))) as Hadm.
  rewrite Htr in Hadm |- *. cbn [tail]. destruct r as [m|e]; [|rewrite Hr; exact I].
  assert (m = example_running) as ->.
  { assert (Some (Ok m) = match (run refusing_store (Reconcile Background SingletonNamespace SingletonName (example_state example_running)) tt).2 with
      | existT (CGetMigration _ _ _) r' :: _ => Some r' | _ => None end) as E by (rewrite Htr; reflexivity).
    vm_compute in E. injection E as ->. vm_compute. reflexivity. }
  apply (Hr 0 completed_example). destruct Hadm as [_ Hadm]. exact Hadm.
Defined.
