(* ===== verification/Startup.v ===== *)
(** * Manager start-up (cmd/main.go)

    The command line, the options derived from it, and the start-up sequence: each step must
    succeed before the next one is taken, and the manager runs last. *)

From S2P Require Import Prelude GoErrors.
Import GoStr.

(** ** The command line (package flag) *)

Inductive FlagKind := BoolFlag | StringFlag.

(** The variables [main] binds. *)
Record Flags := MkFlags {
  metricsAddr : string;
  probeAddr : string;
  enableLeaderElection : bool;
  secureMetrics : bool;
  webhookCertPath : string;
  webhookCertName : string;
  webhookCertKey : string;
  metricsCertPath : string;
  metricsCertName : string;
  metricsCertKey : string;
  enableHTTP2 : bool;
}.

Definition defaultFlags : Flags := MkFlags "0" ":8081" false true "" "tls.crt" "tls.key" "" "tls.crt" "tls.key" false.

Definition mainFlags : list (string * FlagKind) :=
  [("metrics-bind-address", StringFlag); ("health-probe-bind-address", StringFlag); ("leader-elect", BoolFlag);
   ("metrics-secure", BoolFlag); ("webhook-cert-path", StringFlag); ("webhook-cert-name", StringFlag);
   ("webhook-cert-key", StringFlag); ("metrics-cert-path", StringFlag); ("metrics-cert-name", StringFlag);
   ("metrics-cert-key", StringFlag); ("enable-http2", BoolFlag)].

(** The flags that libraries bind beside them (the logging options, the kubeconfig path), and
    the values they accept. *)
Class LibraryFlags := {
  libraryFlags : list (string * FlagKind);
  libraryAccepts : string -> string -> bool;
}.

(** [strconv.ParseBool]. *)
Definition ParseBool (s : string) : option bool :=
  if ContainsStr ["1"; "t"; "T"; "true"; "TRUE"; "True"] s then Some true
  else if ContainsStr ["0"; "f"; "F"; "false"; "FALSE"; "False"] s then Some false
  else None.

Fixpoint lookupFlag (table : list (string * FlagKind)) (name : string) : option FlagKind :=
  match table with
  | [] => None
  | (n, k) :: rest => if String.eqb n name then Some k else lookupFlag rest name
  end.

Definition setString (f : Flags) (name v : string) : Flags :=
  let '(MkFlags ma pa le sm wp wn wk mp mn mk h2) := f in
  if String.eqb name "metrics-bind-address" then MkFlags v pa le sm wp wn wk mp mn mk h2
  else if String.eqb name "health-probe-bind-address" then MkFlags ma v le sm wp wn wk mp mn mk h2
  else if String.eqb name "webhook-cert-path" then MkFlags ma pa le sm v wn wk mp mn mk h2
  else if String.eqb name "webhook-cert-name" then MkFlags ma pa le sm wp v wk mp mn mk h2
  else if String.eqb name "webhook-cert-key" then MkFlags ma pa le sm wp wn v mp mn mk h2
  else if String.eqb name "metrics-cert-path" then MkFlags ma pa le sm wp wn wk v mn mk h2
  else if String.eqb name "metrics-cert-name" then MkFlags ma pa le sm wp wn wk mp v mk h2
  else if String.eqb name "metrics-cert-key" then MkFlags ma pa le sm wp wn wk mp mn v h2
  else f.

Definition setBool (f : Flags) (name : string) (b : bool) : Flags :=
  let '(MkFlags ma pa le sm wp wn wk mp mn mk h2) := f in
  if String.eqb name "leader-elect" then MkFlags ma pa b sm wp wn wk mp mn mk h2
  else if String.eqb name "metrics-secure" then MkFlags ma pa le b wp wn wk mp mn mk h2
  else if String.eqb name "enable-http2" then MkFlags ma pa le sm wp wn wk mp mn mk b
  else f.

(** What [flag.Parse] comes to: the bound variables, or the end of the process. *)
Inductive Parsed :=
| ParsedFlags (f : Flags)
| ExitHelp
| ExitUsage (message : string).

(** The name after one or two hyphens, or why the argument is not a flag. *)
Inductive Argument := NotFlag | Terminator | BadSyntax | Named (name : string) (value : option string).

Definition splitValue (name : string) : Argument :=
  match Index name "=" with
  | Some i => Named (stake i name) (Some (sdrop (S i) name))
  | None => Named name None
  end.

Definition readArgument (s : string) : Argument :=
  if (String.length s <? 2)%nat || negb (HasPrefix s "-") then NotFlag
  else if String.eqb s "--" then Terminator
  else
    let name := TrimPrefix (sdrop 1 s) "-" in
    if String.eqb name "" || HasPrefix name "-" || HasPrefix name "=" then BadSyntax
    else splitValue name.

Section Parse.
Context `{LibraryFlags}.

Definition allFlags : list (string * FlagKind) := mainFlags ++ libraryFlags.

(** [Value.Set] on a flag of this program or of a library. *)
Definition setFlag (f : Flags) (kind : FlagKind) (name value : string) : option Flags :=
  match lookupFlag mainFlags name with
  | None => if libraryAccepts name value then Some f else None
  | Some StringFlag => Some (setString f name value)
  | Some BoolFlag => setBool f name <$> ParseBool value
  end.

Fixpoint parse (f : Flags) (args : list string) : Parsed :=
  match args with
  | [] => ParsedFlags f
  | s :: rest =>
      match readArgument s with
      | NotFlag | Terminator => ParsedFlags f
      | BadSyntax => ExitUsage ("bad flag syntax: " +:+ s)
      | Named name value =>
          match lookupFlag allFlags name with
          | None => if ContainsStr ["help"; "h"] name then ExitHelp else ExitUsage ("flag provided but not defined: -" +:+ name)
          | Some BoolFlag =>
              match setFlag f BoolFlag name (default "true" value) with
              | Some f' => parse f' rest
              | None => ExitUsage ("invalid boolean value for -" +:+ name)
              end
          | Some StringFlag =>
              match value, rest with
              | Some v, _ => match setFlag f StringFlag name v with Some f' => parse f' rest | None => ExitUsage ("invalid value for -" +:+ name) end
              | None, v :: rest' => match setFlag f StringFlag name v with Some f' => parse f' rest' | None => ExitUsage ("invalid value for -" +:+ name) end
              | None, [] => ExitUsage ("flag needs an argument: -" +:+ name)
              end
          end
      end
  end.

End Parse.

(** ** Options *)

Record TLSConfig := MkTLSConfig { NextProtos : list string; GetCertificate : option (string * string) }.

Inductive TLSOpt :=
| disableHTTP2
| useCertificate (certFile keyFile : string).

Definition applyTLSOpt (c : TLSConfig) (o : TLSOpt) : TLSConfig :=
  match o with
  | disableHTTP2 => MkTLSConfig ["http/1.1"] (GetCertificate c)
  | useCertificate cert key => MkTLSConfig (NextProtos c) (Some (cert, key))
  end.

Definition tlsOpts (f : Flags) : list TLSOpt := if negb (enableHTTP2 f) then [disableHTTP2] else [].

(** The files of the metrics certificate watcher, if one is configured. *)
Definition metricsCertificate (f : Flags) : option (string * string) :=
  if (0 <? String.length (metricsCertPath f))%nat
  then Some (PathJoin (metricsCertPath f) (metricsCertName f), PathJoin (metricsCertPath f) (metricsCertKey f)) else None.

Record MetricsOptions := MkMetricsOptions {
  BindAddress : string;
  SecureServing : bool;
  TLSOpts : list TLSOpt;
  FilterProvider : bool;   (* filters.WithAuthenticationAndAuthorization is installed *)
}.

Definition metricsServerOptions (f : Flags) : MetricsOptions :=
  MkMetricsOptions (metricsAddr f) (secureMetrics f)
    (tlsOpts f ++ match metricsCertificate f with Some (cert, key) => [useCertificate cert key] | None => [] end)
    (secureMetrics f).

Record ManagerOptions := MkManagerOptions {
  Metrics : MetricsOptions;
  HealthProbeBindAddress : string;
  LeaderElection : bool;
  LeaderElectionID : string;
}.

Definition managerOptions (f : Flags) : ManagerOptions :=
  MkManagerOptions (metricsServerOptions f) (probeAddr f) (enableLeaderElection f) "951fca85.openshift.io".

(** ** The sequence *)

Inductive Step :=
| NewMetricsCertWatcher (certFile keyFile : string)
| GetConfig
| NewManager (o : ManagerOptions)
| NewKubernetesClient
| NewConfigClient
| NewMachineClient
| NewMachineConfigClient
| NewDynamicClient
| SetupController
| AddMetricsCertWatcher
| AddHealthzCheck
| AddReadyzCheck
| StartManager.

(** The steps of [main] after the flags, in order.  The variable of the webhook certificate
    watcher is never assigned, so its branch is never taken. *)
Definition startupSteps (f : Flags) : list Step :=
  match metricsCertificate f with Some (cert, key) => [NewMetricsCertWatcher cert key] | None => [] end ++
  [GetConfig; NewManager (managerOptions f); GetConfig; NewKubernetesClient; NewConfigClient; NewMachineClient;
   NewMachineConfigClient; NewDynamicClient; SetupController] ++
  match metricsCertificate f with Some _ => [AddMetricsCertWatcher] | None => [] end ++
  [AddHealthzCheck; AddReadyzCheck; StartManager].

(** Each failure ends the process with status 1; [answers] says how each step turns out, by
    its place in the sequence. *)
Fixpoint execute (answers : nat -> Step -> bool) (n : nat) (steps : list Step) : list Step * Z :=
  match steps with
  | [] => ([], 0%Z)
  | step :: rest =>
      if answers n step then let '(done, code) := execute answers (S n) rest in (step :: done, code)
      else ([step], 1%Z)
  end.

(** [SetupWithManager] gives failed reconciles an exponential delay: 5 seconds doubled with
    every failure of the item, capped at 5 minutes (in nanoseconds). *)
Definition requeueBaseDelay : Z := 5 * 1000000000.
Definition requeueMaxDelay : Z := 300 * 1000000000.
Definition requeueDelay (failures : nat) : Z := Z.min (requeueBaseDelay * 2 ^ Z.of_nat failures) requeueMaxDelay.

Definition main `{LibraryFlags} (args : list string) (answers : nat -> Step -> bool) : list Step * Z :=
  match parse defaultFlags args with
  | ParsedFlags f => execute answers 0 (startupSteps f)
  | ExitHelp => ([], 0%Z)
  | ExitUsage _ => ([], 2%Z)
  end.

(** ** Facts *)

(** An argument that sets the flag [name]. *)
Definition mentions (args : list string) (name : string) : Prop := exists a v, a ∈ args /\ readArgument a = Named name v.

Section Facts.
Context `{LibraryFlags}.

(** A bound variable keeps its value unless an argument names its flag. *)
Lemma parse_unmentioned {X} (get : Flags -> X) (name : string) :
  (forall f n v, n <> name -> get (setString f n v) = get f) -> (forall f n b, n <> name -> get (setBool f n b) = get f) ->
  forall args f f', parse f args = ParsedFlags f' -> ~ mentions args name -> get f' = get f.
Proof.
  intros Hs Hb. assert (forall f k n v f', setFlag f k n v = Some f' -> n <> name -> get f' = get f) as Hset.
  { intros f k n v f'. unfold setFlag. destruct (lookupFlag mainFlags n) as [[]|].
    - destruct (ParseBool v); cbn; intros; simplify_eq; auto.
    - intros; simplify_eq; auto.
    - by destruct (libraryAccepts n v); intros; simplify_eq. }
  fix IH 1. intros [|s rest] f f' Hp Hm; [by simplify_eq/=|]. cbn [parse] in Hp.
  assert (forall n v, readArgument s = Named n v -> n <> name) as Hne by (intros n v E ->; apply Hm; exists s, v; by split; [left|]).
  assert (~ mentions rest name) as Hm' by (intros (a & v & Ha & E); apply Hm; exists a, v; split; [by right|done]).
  destruct (readArgument s) as [| | |n value] eqn:Ea; [by simplify_eq..|specialize (Hne n value eq_refl)].
  destruct (lookupFlag allFlags n) as [[]|]; [|destruct value as [v|]; [|destruct rest as [|v rest']; [done|]]|by case_match].
  - destruct (setFlag f BoolFlag n _) as [f1|] eqn:Ef; [|done]. rewrite <- (Hset _ _ _ _ _ Ef Hne). by apply (IH rest).
  - destruct (setFlag f StringFlag n v) as [f1|] eqn:Ef; [|done]. rewrite <- (Hset _ _ _ _ _ Ef Hne). by apply (IH rest).
  - destruct (setFlag f StringFlag n v) as [f1|] eqn:Ef; [|done]. rewrite <- (Hset _ _ _ _ _ Ef Hne). apply (IH rest'); [done|].
    intros (a & v' & Ha & E). apply Hm'. exists a, v'. split; [by right|done].
Qed.

Lemma execute_prefix answers n steps : (execute answers n steps).1 `prefix_of` steps.
Proof.
  revert n. induction steps as [|step steps IH]; intros n; cbn; [done|]. destruct (answers n step).
  - specialize (IH (S n)). destruct (execute answers (S n) steps) as [done code]. by apply prefix_cons.
  - apply prefix_cons, prefix_nil.
Qed.

(** The sequence ends well exactly when every step does, and then all of it was executed. *)
Lemma execute_ok answers n steps :
  ((execute answers n steps).2 = 0%Z <-> forall i step, steps !! i = Some step -> answers (n + i) step = true) /\
  ((execute answers n steps).2 = 0%Z -> (execute answers n steps).1 = steps).
Proof.
  revert n. induction steps as [|step steps IH]; intros n; cbn; [done|]. destruct (answers n step) eqn:E.
  - specialize (IH (S n)). destruct (execute answers (S n) steps) as [done code]. cbn in *. destruct IH as [Hi Hd]. split.
    + rewrite Hi. split; intros Hall.
      * intros [|i] st Hst; [by simplify_eq/=; rewrite Nat.add_0_r|]. rewrite Nat.add_succ_r. by apply (Hall i).
      * intros i st Hst. rewrite <- Nat.add_succ_r. by apply (Hall (S i)).
    + intros Hc. by rewrite Hd.
  - split; [|done]. split; [done|]. intros Hall. specialize (Hall 0 step eq_refl). rewrite Nat.add_0_r in Hall. congruence.
Qed.

(** Every step of an execution but its last succeeded. *)
Lemma execute_succeeded answers n steps i step :
  (execute answers n steps).1 !! i = Some step -> S i < length (execute answers n steps).1 -> answers (n + i) step = true.
Proof.
  revert n i. induction steps as [|s steps IH]; intros n i; cbn; [done|]. destruct (answers n s) eqn:E.
  - specialize (IH (S n)). destruct (execute answers (S n) steps) as [done code]; cbn in *. destruct i as [|i]; cbn.
    + intros [= <-] _. by rewrite Nat.add_0_r.
    + intros Hi Hl. rewrite Nat.add_succ_r. apply (IH i); [done|lia].
  - cbn. lia.
Qed.

(** The delay starts at 5 seconds, never shrinks, and is 5 minutes from the sixth retry on. *)
Lemma requeueDelay_bounds n :
  (requeueBaseDelay <= requeueDelay n <= requeueMaxDelay)%Z /\ (requeueDelay n <= requeueDelay (S n))%Z /\
  (6 <= n -> requeueDelay n = requeueMaxDelay).
Proof.
  unfold requeueDelay, requeueBaseDelay, requeueMaxDelay. rewrite Nat2Z.inj_succ, Z.pow_succ_r by lia.
  pose proof (Z.pow_pos_nonneg 2 (Z.of_nat n) ltac:(lia) ltac:(lia)). split_and!; [lia..|]. intros Hn.
  assert (2 ^ 6 <= 2 ^ Z.of_nat n)%Z by (apply Z.pow_le_mono_r; lia). lia.
Qed.

(** A last step is taken exactly when all steps before it succeed. *)
Lemma execute_reaches answers n steps last :
  last ∉ steps ->
  last ∈ (execute answers n (steps ++ [last])).1 <-> forall i step, steps !! i = Some step -> answers (n + i) step = true.
Proof.
  revert n. induction steps as [|s steps IH]; intros n Hn.
  - cbn. split; [done|]. intros _. destruct (answers n last); cbn; by left.
  - apply not_elem_of_cons in Hn as [Hne Hn]. cbn. destruct (answers n s) eqn:E.
    + specialize (IH (S n) Hn). destruct (execute answers (S n) (steps ++ [last])) as [done code]. cbn in *.
      rewrite elem_of_cons, IH. split.
      * intros [->|Hall]; [done|]. intros [|i] st Hst; [by simplify_eq/=; rewrite Nat.add_0_r|]. rewrite Nat.add_succ_r. by apply (Hall i).
      * intros Hall. right. intros i st Hst. rewrite <- Nat.add_succ_r. by apply (Hall (S i)).
    + cbn. rewrite list_elem_of_singleton. split; [done|]. intros Hall. specialize (Hall 0 s eq_refl). rewrite Nat.add_0_r in Hall. congruence.
Qed.

(** The steps before the manager runs. *)
Definition preparation (f : Flags) : list Step :=
  match metricsCertificate f with Some (cert, key) => [NewMetricsCertWatcher cert key] | None => [] end ++
  [GetConfig; NewManager (managerOptions f); GetConfig; NewKubernetesClient; NewConfigClient; NewMachineClient;
   NewMachineConfigClient; NewDynamicClient; SetupController] ++
  match metricsCertificate f with Some _ => [AddMetricsCertWatcher] | None => [] end ++ [AddHealthzCheck; AddReadyzCheck].

Lemma startupSteps_last f : startupSteps f = preparation f ++ [StartManager] /\ StartManager ∉ preparation f.
Proof.
  unfold startupSteps, preparation. destruct (metricsCertificate f) as [[cert key]|]; (split; [done|]);
    cbn; repeat (apply not_elem_of_cons; split; [done|]); apply not_elem_of_nil.
Qed.

Lemma startupSteps_manager f o : NewManager o ∈ startupSteps f -> o = managerOptions f.
Proof.
  unfold startupSteps. destruct (metricsCertificate f) as [[cert key]|]; cbn; intros Hin;
    repeat (apply elem_of_cons in Hin as [E|Hin]; [by simplify_eq|]); by apply not_elem_of_nil in Hin.
Qed.

(** Each flag writes its own variable only. *)
Ltac frame_flag := split; intros [] n v Hn; unfold setString, setBool; repeat (case_match; [try done; by reflect_bools|]); done.

Lemma set_metricsAddr :
  (forall f n v, n <> "metrics-bind-address" -> metricsAddr (setString f n v) = metricsAddr f) /\
  (forall f n b, n <> "metrics-bind-address" -> metricsAddr (setBool f n b) = metricsAddr f).
Proof. frame_flag. Qed.
Lemma set_secureMetrics :
  (forall f n v, n <> "metrics-secure" -> secureMetrics (setString f n v) = secureMetrics f) /\
  (forall f n b, n <> "metrics-secure" -> secureMetrics (setBool f n b) = secureMetrics f).
Proof. frame_flag. Qed.
Lemma set_enableHTTP2 :
  (forall f n v, n <> "enable-http2" -> enableHTTP2 (setString f n v) = enableHTTP2 f) /\
  (forall f n b, n <> "enable-http2" -> enableHTTP2 (setBool f n b) = enableHTTP2 f).
Proof. frame_flag. Qed.

(** C35: The metrics endpoint is guarded unless the command line says otherwise.  Whatever the
    arguments, the options the manager is created with authenticate and authorize every
    client of a secure metrics endpoint; and without an argument that names the flag, the
    endpoint is disabled, serving is secure, and HTTP/2 is not negotiated, whatever
    certificate is configured. *)
Theorem manager_guarded (args : list string) (answers : nat -> Step -> bool) (o : ManagerOptions) :
  NewManager o ∈ (main args answers).1 ->
  FilterProvider (Metrics o) = SecureServing (Metrics o) /\
  (~ mentions args "metrics-bind-address" -> BindAddress (Metrics o) = "0") /\
  (~ mentions args "metrics-secure" -> SecureServing (Metrics o) = true) /\
  (~ mentions args "enable-http2" -> forall config, NextProtos (foldl applyTLSOpt config (TLSOpts (Metrics o))) = ["http/1.1"]).
Proof.
  unfold main. destruct (parse defaultFlags args) as [f| |] eqn:Hp; [|by intros ?%not_elem_of_nil..].
  intros Hin. assert (o = managerOptions f) as ->.
  { destruct (execute_prefix answers 0 (startupSteps f)) as [rest Hrest]. apply startupSteps_manager. rewrite Hrest.
    apply elem_of_app. by left. }
  split; [done|]. cbn.
  split_and!; intros Hn.
  - apply (parse_unmentioned metricsAddr _ (proj1 set_metricsAddr) (proj2 set_metricsAddr) _ _ _ Hp Hn).
  - apply (parse_unmentioned secureMetrics _ (proj1 set_secureMetrics) (proj2 set_secureMetrics) _ _ _ Hp Hn).
  - intros config. pose proof (parse_unmentioned enableHTTP2 _ (proj1 set_enableHTTP2) (proj2 set_enableHTTP2) _ _ _ Hp Hn) as E.
    unfold tlsOpts. rewrite E. by destruct (metricsCertificate f) as [[cert key]|].
Qed.

(** The manager runs last.  It is started only when every step before it, the controller's
    setup and both health checks included, was taken in order and succeeded; the process
    reports success only when the manager itself does, status 1 when a step fails, and no
    step is taken after one that failed. *)
Theorem manager_starts_last (args : list string) (answers : nat -> Step -> bool) (f : Flags) :
  parse defaultFlags args = ParsedFlags f ->
  (StartManager ∈ (main args answers).1 <-> forall i step, preparation f !! i = Some step -> answers i step = true) /\
  ((main args answers).2 = 0%Z <-> forall i step, startupSteps f !! i = Some step -> answers i step = true) /\
  (main args answers).1 `prefix_of` startupSteps f /\
  (forall i step, (main args answers).1 !! i = Some step -> S i < length (main args answers).1 -> answers i step = true).
Proof.
  intros Hp. unfold main. rewrite Hp. destruct (startupSteps_last f) as [E Hn]. split_and!.
  - rewrite E. by apply (execute_reaches answers 0).
  - apply (execute_ok answers 0).
  - apply execute_prefix.
  - apply (execute_succeeded answers 0).
Qed.

End Facts.

(** No library flags. *)
#[global] Instance no_library_flags : LibraryFlags := { libraryFlags := []; libraryAccepts _ _ := false }.

Lemma manager_guarded_witness :
  let o := managerOptions (setString defaultFlags "metrics-bind-address" ":8443") in
  FilterProvider (Metrics o) = SecureServing (Metrics o).
Proof.
  intros o. refine (proj1 (manager_guarded ["--metrics-bind-address=:8443"] (fun _ _ => true) o _)).
  vm_compute. repeat constructor.
Defined.

Lemma manager_starts_last_witness :
  parse defaultFlags ["-leader-elect"; "--metrics-cert-path"; "/certs"] =
    ParsedFlags (setBool (setString defaultFlags "metrics-cert-path" "/certs") "leader-elect" true) /\
  (main ["-leader-elect"; "--metrics-cert-path"; "/certs"] (fun n _ => (n <? 9)%nat)).1 `prefix_of`
    startupSteps (setBool (setString defaultFlags "metrics-cert-path" "/certs") "leader-elect" true).
Proof.
  split; [vm_compute; reflexivity|].
  refine (proj1 (proj2 (proj2 (manager_starts_last _ _ _ _)))). vm_compute. reflexivity.
Defined.

(** The webhook certificate flags change nothing that is done. *)
Example webhook_flags_ignored :
  main ["--webhook-cert-path=/webhook"] (fun _ _ => true) = main [] (fun _ _ => true).
Proof. vm_compute. reflexivity. Qed.
